(* ===== verification/_CoqProject ===== *)
-Q . S2P
Prelude.v
Values.v
Platform.v
Reference.v
Codec.v
Pool.v
Db.v
Stdio.v
StreamBuffer.v
Streams.v
Relay.v
World.v
Registry.v
Transport.v
Session.v
Contacts.v
Requests.v
Fcm.v
Server.v
Console.v
Frames.v
Replies.v
System.v
Auth.v
Accounts.v
Presence.v
Delivery.v
ContactFlow.v
Pushes.v
Operation.v
Main.v
Scenarios.v
Locks.v
Locking.v
Typed.v
Mailbox.v
Tasks.v
Faults.v
Objects.v
Survival.v
Sockets.v
Workers.v
Heard.v
Journey.v
Witnesses.v
