(* ===== verification/Prelude.v ===== *)
(** * A verification development for the Zway messenger server

    zway-server relays the messages of an end-to-end encrypted messenger. Clients hold a TLS
    connection each; the server keeps accounts and undelivered requests in a MongoDB database,
    stores transferred resources in files, and wakes devices that are off line with push
    notifications. This development models the server's C++ sources and proves what makes
    them correct, and where they are not, it proves that.

    ** The program and its model

    The libraries the server is built on (zway-lib with the packets, UBJ values and the stream
    engine, the MongoDB client, OpenSSL, Boost) are not part of the repository. They are the
    fields of the classes in [Platform] and [Values]: operations without a definition, and law
    classes with the documented behaviour that is relied on (of a write of the database client
    that throws, no more than that it was carried out or was not). All theorems are about an
    arbitrary such platform; [Reference] is an instance that satisfies the laws, on which the
    concrete runs of [Scenarios] and [Witnesses] evaluate.

    - [Values], [Codec]: UBJ values and BSON documents, and the conversions between them
      ([ubjToBson], [bsonToUbj] and their helpers at the end of src/session.cpp).
    - [Pool], [Db]: src/db.cpp. [Pool] is the connection pool under any interleaving of
      threads, a step relation in which a step is one critical section; [Db] has one
      definition per operation, each taking a connection for the length of its body and
      turning exceptions of the client into return values.
    - [Stdio], [StreamBuffer], [Streams]: src/streambuffer.cpp over C's file streams, the maps
      of stream buffers and senders of src/server.cpp, and src/streambuffersender.cpp.
      Buffers are shared between a receiver and senders, so they live in a heap and the maps
      hold pointers. [StreamBuffer] is written against the interface [BufferOps], with its
      laws [BufferLaws], and both storages, the file and the memory buffer, implement it.
      [Relay] puts them together: a resource on its way from the upload to the downloads.
    - [World]: the state the handlers run on. A [session] is a [ClientSession] with its data
      members, the calls it made on its engine, and the operations it has outstanding on its
      socket and timer. The [world] holds the sessions by identity, the session map, the
      members of [Server], the database and the streams, the tasks posted to the io_service
      and the notifications sent.
    - [Registry], [Server]: src/server.cpp, the session map and the rest.
    - [Transport], [Session], [Contacts], [Requests]: src/session.cpp. Packets in and out; the
      handlers of accounts, login, configuration and presence; the handlers that store
      requests for other accounts; the requests posted to the client with their callbacks
      (src/request/), the dispatch of incoming requests, and the start of a session.
    - [Fcm]: src/fcmsender.cpp, the text, the calls of libcurl and the upload callback.
    - [Console], [Main]: src/main.cpp. The loops that make the worker threads and read the
      commands, and [main] from the parsed command line to the exit status; the answers of the
      operating system are arguments, what is done to it is a log.
    - [System]: the whole server as a transition system over [world]. An [event] is what the
      outside does: a connection, a completed socket operation with any error code and any
      number of bytes, a call of the engine, a posted task, the timer, a console command.
    - [Workers]: the transport of one session once more, as any number of threads run it without a
      strand. The handlers are cut where another thread can come in, and any thread moves, any
      outstanding operation completes and any call arrives at any time.
    - [Locks], [Locking]: the mutexes (src/thread.h and its uses everywhere). [Locks] is a small
      language of programs that take mutexes and access members, run by any number of threads
      in any interleaving; [Locking] has one such program for each function of the server, what
      is left of the function when everything but its mutexes and shared members is forgotten.

    A handler is a computation in [M world], a state monad whose [outcome] is a result or a
    [fault]: a null pointer that is used, a file closed twice, an exception nobody catches, a sum
    of [int]s that overflows (where C++ defines nothing, no more is said). A
    definition carries the name of the function it models, except where two classes use one
    name ([StreamBuffer_read], [db_requestPending], [server_start]).

    ** What is proved

    - Authentication ([Auth], [Accounts]): in every reachable state a logged-in session got
      there by a login with the password of its account; what may be requested before and
      after the login; registration and login fit together; the account ids and the last of them;
      the session map is well formed.
    - Requests ([Frames], [Replies], [Delivery], [ContactFlow], [Pushes]): every request is
      answered once; what is posted of the stored requests, each type and id once; two accounts
      become contacts and get each other's keys; a message is stored for each of its recipients
      with its own key and is posted on every session of a recipient who is on line; what
      an answer of a client deletes. [Frames] and [Replies] are the compositional part: what a handler leaves
      alone, and that it answers, are shown for each handler by hints and combinators.
    - Mailboxes ([Mailbox], [Tasks]): the stored requests as a whole, over every run of the
      server. An abstract mailbox has two operations, to put a document and to take one; the
      server refines it, each event with the puts and takes it is entitled to, also when a
      handler ends in an exception or the database fails in the middle of a write. Clients put
      under the account they are logged in to; a dispatch notice is put for a resource that has
      arrived, also on a session that is not logged in. So no stored
      request is lost, and none is stored in another's name. The tasks that handlers post come
      to their end and bring their users up to date.
    - The whole way ([Journey]): what a login hands over, and, put together from the parts
      before, the way of a message from its sender over any run of the server to the next login
      of its recipient.
    - Faults ([Faults], [Objects], [Survival]): every pointer to a stream's objects that a handler
      follows leads to one that was made; every event is handled to its end in every reachable state, but for the faults that are
      told. The combinators for such proofs are at the end of this file, under "Faults".
    - Presence ([Presence], [Operation]): what a new configuration changes and who is told of it, and
      what logout leaves behind; what is done for users who are on line and off line.
    - Transport ([Transport]): the queue of outgoing packets refines a FIFO with one write at
      a time; a body that arrives in pieces is put together; every outcome of a head read.
      [Workers]: in every interleaving of the worker threads there is at most one read outstanding
      on a socket, no packet is lost, doubled or left behind, and two writes meet only when two
      threads are between the test and the assignment of [m_sending], which can happen.
      [Sockets], [Heard]: while handlers run one after the other there is one write at most, and a
      client whose connection does not fail is always being read from.
    - Types ([Typed]): in every reachable state the integers are in the ranges of their types,
      and every outstanding read of a packet body stays inside the buffer that was made for it.
    - Storage ([Codec], [StreamBuffer], [Streams], [Relay], [Db], [Pool]): BSON round trip; a
      stream buffer refines a log of bytes; the file and the memory storage are equivalent; what
      was uploaded is downloaded, whatever happens in between; sharing and eviction of buffers;
      the database operations; exclusive use of connections.
    - Threads ([Locks], [Locking]): every function takes its mutexes in one order, so that the
      server cannot deadlock; everything that has a mutex is accessed under it, as long as the
      server is not being closed; and the members that are accessed without one.
    - Operation ([Operation], [Fcm], [Console], [Main]): accept, pause, resume, the removal of
      sessions, the upload of a notification, the end of the console, the exit status.
    - Defects: some theorems state what the code does where that is not what it is for. Among
      them [Survival.login_without_buffer_crashes], [Survival.existing_upload_crashes],
      [Workers.operations_exclusive], [Pool.pool_lost_wakeup], [Presence.logout_stays_online],
      [Operation.temporary_id_collision], [Operation.accept_without_key_crashes],
      [Scenarios.used_add_code_misdirects], [Scenarios.accept_deletes_foreign_request],
      [Scenarios.acknowledgement_deletes_other], [Faults.handshake_throws],
      [Locking.unguarded_members_race], [Relay.bytesReadable_wraps],
      [Relay.stalled_upload_truncated], [Accounts.account_ids_run_out], [Db.concurrent_registrations],
      [StreamBuffer.StreamBuffer_create_existing] and [Streams.opened_buffer_evicted].

    [Witnesses] applies each theorem that has hypotheses to concrete data.

    ** Bounds and fuel

    Machine integers are [Z] with the conversions written out ([u32], [i32], [u64]). Recursion
    follows lists, except [create_workers], whose fuel of 51 covers its bound of 50 threads
    ([workers_created]), and the console loop, which is left with any fuel that reaches the
    first 'e' of the input, and with none when there is no 'e' ([Main.console_exact]).

    ** What is left out

    - The events of [System] run one after the other, a handler without interruption.
      Interleavings are the subject of models of their own: the pool ([Pool]), the transport of a
      session ([Workers]), and the mutexes and members of all functions ([Locking]), whose programs
      do not depend on the data: a branch is a choice, a loop runs any number of times.
    - The engine's part of an incoming packet is a call; what it does with it comes back as
      events of its own ([System.log_packet]). The packets it has to send come from it; that it
      calls [StreamBufferSender::preparePacket] to fill them is modelled on its own, in
      [Streams], and not inside [sendPacket].
    - The 32-byte buffers of the login code are taken to be allocated. The exception of the
      document builder is checked for where a document embeds data of a client.
    - A query of the Mongo client that fails is taken to say so by an exception, and not by the
      null cursor some of its versions return, which the code does not test for.
    - Objects are never freed: the completion handlers hold shared pointers to their session, and
      when the last pointer to a session, a stream or a packet goes is not modelled. So nothing is
      said of the lifetimes of objects, of the callbacks that hold a plain [this] among them.
    - [const Object::operator[]] is taken to give the undefined value for an absent field.
    - The outcomes of calls on the acceptor, and the answers of the operating system and of the
      option parser to [main], are arguments of the definitions that make them. What the worker
      threads do before the console or the daemon's wait ends is one argument of [run_server].
    - Five [processResponse] functions and [FcmSender::startup] end without the value they
      declare; this undefined behaviour is not modelled.
    - Not modelled: TLS and sockets below their completion handlers, what libcurl does over the
      network, the formats of the logs and the logger, the build files and scripts. *)

From Stdlib Require Export ZArith Lia Ascii.
From stdpp Require Export gmap strings list fin_maps sorting pretty.

Open Scope Z_scope.

Declare Scope zway_scope.
Delimit Scope zway_scope with zway.
Open Scope zway_scope.

#[export] Instance byte_eq_dec : EqDecision Byte.byte := Byte.byte_eq_dec.

(** ** Machine integers

    [uint32_t], [int32_t] and [uint64_t] are integers with the conversion into
    the type written out where the source converts. *)

Definition u32 (z : Z) : Z := z mod 2 ^ 32.

Definition i32 (z : Z) : Z := (z + 2 ^ 31) mod 2 ^ 32 - 2 ^ 31.

Definition u64 (z : Z) : Z := z mod 2 ^ 64.

Arguments u32 : simpl never.
Arguments i32 : simpl never.
Arguments u64 : simpl never.

Definition is_u32 (z : Z) : Prop := 0 <= z < 2 ^ 32.

Definition is_i32 (z : Z) : Prop := - 2 ^ 31 <= z < 2 ^ 31.

#[export] Instance is_u32_dec z : Decision (is_u32 z).
Proof. unfold is_u32. apply _. Defined.

Lemma u32_range z : is_u32 (u32 z).
Proof. unfold is_u32, u32. apply Z.mod_pos_bound. lia. Qed.

Lemma u64_range z : 0 <= u64 z < 2 ^ 64.
Proof. unfold u64. apply Z.mod_pos_bound. lia. Qed.

Lemma i32_range z : is_i32 (i32 z).
Proof.
  unfold is_i32, i32. pose proof (Z.mod_pos_bound (z + 2 ^ 31) (2 ^ 32)). lia.
Qed.

Lemma u32_id z : is_u32 z -> u32 z = z.
Proof. intros H. apply Z.mod_small, H. Qed.

Lemma u64_id z : 0 <= z < 2 ^ 64 -> u64 z = z.
Proof. intros H. apply Z.mod_small, H. Qed.

(** The sum of two [int]s, where it is defined. *)
Definition int_add (a b : Z) : option Z :=
  if (- 2 ^ 31 <=? a + b) && (a + b <? 2 ^ 31) then Some (a + b) else None.

Lemma int_add_some a b : is_i32 (a + b) -> int_add a b = Some (a + b).
Proof. unfold is_i32, int_add. intros. by replace (_ && _) with true by lia. Qed.
Lemma int_add_none a b : ~ is_i32 (a + b) -> int_add a b = None.
Proof. unfold is_i32, int_add. intros. by replace (_ && _) with false by lia. Qed.
Lemma int_add_inv a b : int_add a b = None -> ~ is_i32 (a + b).
Proof. unfold is_i32, int_add. destruct (_ && _) eqn:E; [done|]. lia. Qed.

Lemma i32_id z : is_i32 z -> i32 z = z.
Proof. unfold is_i32, i32. intros H. rewrite Z.mod_small; lia. Qed.

Lemma u32_u32 z : u32 (u32 z) = u32 z.
Proof. apply u32_id, u32_range. Qed.

(** Storing a [uint32_t] in a signed field and reading it back is lossless. *)
Lemma u32_i32 z : u32 (i32 z) = u32 z.
Proof.
  unfold u32, i32. rewrite Zminus_mod_idemp_l. f_equal. lia.
Qed.

Lemma i32_u32 z : i32 (u32 z) = i32 z.
Proof. unfold u32, i32. f_equal. apply Zplus_mod_idemp_l. Qed.

Lemma i32_inj a b : is_u32 a -> is_u32 b -> i32 a = i32 b -> a = b.
Proof.
  intros Ha Hb E. rewrite <- (u32_id a Ha), <- (u32_id b Hb).
  rewrite <- (u32_i32 a), <- (u32_i32 b). by f_equal.
Qed.

(** ** Sorted iteration over a [std::map]

    A [std::map<uint32_t, T>] is a [gmap Z T]; a range-for over it visits the
    entries in ascending key order. *)

Definition key_le {A} (p q : Z * A) : Prop := p.1 <= q.1.

#[export] Instance key_le_dec {A} : RelDecision (@key_le A).
Proof. intros p q. unfold key_le. apply _. Defined.

#[export] Instance key_le_total {A} : Total (@key_le A).
Proof. intros p q. unfold key_le. lia. Qed.

#[export] Instance key_le_trans {A} : Transitive (@key_le A).
Proof. intros p q r. unfold key_le. lia. Qed.

Definition in_key_order {A} (m : gmap Z A) : list (Z * A) :=
  merge_sort key_le (map_to_list m).

Lemma in_key_order_perm {A} (m : gmap Z A) : in_key_order m ≡ₚ map_to_list m.
Proof. apply merge_sort_Permutation. Qed.

Lemma elem_of_in_key_order {A} (m : gmap Z A) k v :
  (k, v) ∈ in_key_order m <-> m !! k = Some v.
Proof. rewrite in_key_order_perm. apply elem_of_map_to_list. Qed.

Lemma in_key_order_NoDup {A} (m : gmap Z A) : NoDup (in_key_order m).*1.
Proof. rewrite in_key_order_perm. apply NoDup_fst_map_to_list. Qed.

Lemma in_key_order_sorted {A} (m : gmap Z A) : StronglySorted key_le (in_key_order m).
Proof. apply StronglySorted_merge_sort; apply _. Qed.

Lemma in_key_order_length {A} (m : gmap Z A) : length (in_key_order m) = size m.
Proof. rewrite in_key_order_perm. apply length_map_to_list. Qed.

Lemma filter_none {A} (P : A -> Prop) `{!forall x, Decision (P x)} (l : list A) :
  (forall x, x ∈ l -> ~ P x) -> filter P l = [].
Proof.
  induction l as [|x l IH]; intros Hl; [done|].
  rewrite filter_cons_False by (apply Hl; left). apply IH. intros y Hy. apply Hl. by right.
Qed.

Lemma Forall2_elem {A B} (P : A -> B -> Prop) l k x :
  Forall2 P l k -> x ∈ l -> exists y, y ∈ k /\ P x y.
Proof.
  induction 1 as [|x' y l k HP _ IH]; [by intros ?%elem_of_nil|].
  intros [->|Hx]%elem_of_cons; [exists y; split; [left|done]|].
  destruct (IH Hx) as (y' & ? & ?). exists y'. split; [by right|done].
Qed.

(** ** Named fields

    The fields of an object or document in the order the container iterates
    them; a lookup finds the first one of that name. *)

Fixpoint field {V} (k : string) (fs : list (string * V)) : option V :=
  match fs with
  | [] => None
  | (k', v) :: fs' => if decide (k = k') then Some v else field k fs'
  end.

Lemma field_app {V} k (l1 l2 : list (string * V)) :
  field k (l1 ++ l2) = match field k l1 with Some v => Some v | None => field k l2 end.
Proof. induction l1 as [|[k' v] l1 IH]; [done|]. simpl. by case_decide. Qed.

Lemma field_None {V} k (fs : list (string * V)) : field k fs = None <-> k ∉ fs.*1.
Proof.
  induction fs as [|[k' v] fs IH]; simpl; [set_solver|].
  case_decide; [|rewrite IH]; set_solver.
Qed.

Lemma field_Some_elem {V} k v (fs : list (string * V)) : field k fs = Some v -> (k, v) ∈ fs.
Proof.
  induction fs as [|[k' v'] fs IH]; simpl; [done|].
  case_decide; [intros [= ->]; subst; left | intros Hf; right; auto].
Qed.

Lemma field_elem_Some {V} k v (fs : list (string * V)) :
  NoDup fs.*1 -> (k, v) ∈ fs -> field k fs = Some v.
Proof.
  induction fs as [|[k' v'] fs IH]; simpl; [set_solver|].
  intros [Hk Hn]%NoDup_cons [[= -> ->]|Hin]%elem_of_cons; [by case_decide|].
  case_decide; [subst; exfalso; apply Hk|by apply IH].
  by apply (list_elem_of_fmap_2 fst _ (k', v)).
Qed.

(** ** Effects

    A handler maps a state to its final state together with what it returns,
    or the fault that ends it: a null pointer dereferenced, a [FILE] closed
    twice, an exception no [catch] of the program intercepts, or a sum of two [int]s that is
    not an [int]. A null pointer that is followed and a signed overflow are undefined in C++:
    what the program does from there is not modelled. *)

Inductive fault := NullDereference | DoubleClose | UncaughtException | SignedOverflow.

Inductive outcome (A : Type) :=
| Ret (a : A)
| Fault (f : fault).
Arguments Ret {A} a.
Arguments Fault {A} f.

Definition M (W A : Type) : Type := W -> outcome A * W.

Definition ret {W A} (a : A) : M W A := fun w => (Ret a, w).

Definition fail {W A} (f : fault) : M W A := fun w => (Fault f, w).

Definition bindM {W A B} (m : M W A) (k : A -> M W B) : M W B :=
  fun w => match m w with
           | (Ret a, w') => k a w'
           | (Fault f, w') => (Fault f, w')
           end.

Definition gets {W A} (f : W -> A) : M W A := fun w => (Ret (f w), w).

Definition modify {W} (f : W -> W) : M W unit := fun w => (Ret tt, f w).

(** [zoom get put m] runs [m] on a part of the state. *)
Definition zoom {W V A} (get : W -> V) (put : V -> W -> W) (m : M V A) : M W A :=
  fun w => let '(r, v) := m (get w) in (r, put v w).

Notation "'let*' x ':=' m 'in' k" := (bindM m (fun x => k))
  (at level 10, x name, m at level 100, k at level 200) : zway_scope.
Notation "m ;; k" := (bindM m (fun _ => k))
  (at level 100, k at level 200, right associativity) : zway_scope.

(** A range-for whose body is [f]. *)
Fixpoint for_each {W A} (xs : list A) (f : A -> M W unit) : M W unit :=
  match xs with
  | [] => ret tt
  | x :: xs' => f x ;; for_each xs' f
  end.

(** The same, collecting what the bodies produce. *)
Fixpoint collect {W A B} (xs : list A) (f : A -> M W B) : M W (list B) :=
  match xs with
  | [] => ret []
  | x :: xs' => let* y := f x in let* ys := collect xs' f in ret (y :: ys)
  end.

Definition when {W} (b : bool) (m : M W unit) : M W unit :=
  if b then m else ret tt.

(** ** Frames

    [preserves R m]: whatever [m] does, its final state stands in relation [R]
    to the initial one, faults included. *)

Definition preserves {W A} (R : W -> W -> Prop) (m : M W A) : Prop :=
  forall w, R w (m w).2.

Section frames.
Context {W : Type} (R : W -> W -> Prop) `{!PreOrder R}.

Lemma preserves_ret {A} (a : A) : preserves R (ret a).
Proof. intros w. reflexivity. Qed.

Lemma preserves_fail {A} f : preserves R (fail (A := A) f).
Proof. intros w. reflexivity. Qed.

Lemma preserves_gets {A} (f : W -> A) : preserves R (gets f).
Proof. intros w. reflexivity. Qed.

Lemma preserves_modify (f : W -> W) : (forall w, R w (f w)) -> preserves R (modify f).
Proof. intros H w. apply H. Qed.

Lemma preserves_bind {A B} (m : M W A) (k : A -> M W B) :
  preserves R m -> (forall a, preserves R (k a)) -> preserves R (bindM m k).
Proof.
  intros Hm Hk w. unfold bindM. specialize (Hm w).
  destruct (m w) as [[a|f] w']; simpl in *; [|done].
  etrans; [exact Hm|apply Hk].
Qed.

Lemma preserves_for_each {A} (xs : list A) (f : A -> M W unit) :
  (forall x, x ∈ xs -> preserves R (f x)) -> preserves R (for_each xs f).
Proof.
  induction xs as [|x xs IH]; intros H; simpl; [apply preserves_ret|].
  apply preserves_bind; [apply H; left|]. intros _. apply IH. intros y Hy. apply H. by right.
Qed.

Lemma preserves_collect {A B} (xs : list A) (f : A -> M W B) :
  (forall x, x ∈ xs -> preserves R (f x)) -> preserves R (collect xs f).
Proof.
  induction xs as [|x xs IH]; intros H; simpl; [apply preserves_ret|].
  apply preserves_bind; [apply H; left|]. intros y. apply preserves_bind.
  - apply IH. intros z Hz. apply H. by right.
  - intros ys. apply preserves_ret.
Qed.

Lemma preserves_when (b : bool) (m : M W unit) : preserves R m -> preserves R (when b m).
Proof. intros H. destruct b; [done|apply preserves_ret]. Qed.

Lemma preserves_zoom {V A} (get : W -> V) (put : V -> W -> W) (m : M V A) :
  (forall v w, R w (put v w)) -> preserves R (zoom get put m).
Proof. intros H w. unfold zoom. destruct (m (get w)) as [r v]. apply H. Qed.
End frames.

Create HintDb zway_frame discriminated.
#[export] Hint Resolve preserves_ret preserves_fail preserves_gets preserves_bind
  preserves_for_each preserves_collect preserves_when : zway_frame.

(** ** Invariants

    [maintains I Q m]: from a state in which [I] holds, [m] ends in one, faults included, and
    its result satisfies [Q]. *)

Definition maintains {W A} (I : W -> Prop) (Q : A -> Prop) (m : M W A) : Prop :=
  forall w, I w -> I (m w).2 /\ forall a, (m w).1 = Ret a -> Q a.

Section maintains.
Context {W : Type} (I : W -> Prop).

Lemma maintains_ret {A} (Q : A -> Prop) a : Q a -> maintains I Q (ret a).
Proof. intros Ha w Hw. split; [done|]. by intros ? [= <-]. Qed.

Lemma maintains_fail {A} (Q : A -> Prop) f : maintains I Q (fail f).
Proof. by intros w Hw. Qed.

Lemma maintains_gets {A} (f : W -> A) (Q : A -> Prop) :
  (forall w, I w -> Q (f w)) -> maintains I Q (gets f).
Proof. intros Hf w Hw. split; [done|]. intros ? [= <-]. by apply Hf. Qed.

Lemma maintains_modify (f : W -> W) (Q : unit -> Prop) :
  Q tt -> (forall w, I w -> I (f w)) -> maintains I Q (modify f).
Proof. intros HQ Hf w Hw. split; [by apply Hf|]. by intros []. Qed.

Lemma maintains_bind {A B} (P : A -> Prop) (Q : B -> Prop) (m : M W A) (k : A -> M W B) :
  maintains I P m -> (forall a, P a -> maintains I Q (k a)) -> maintains I Q (bindM m k).
Proof.
  intros Hm Hk w Hw. unfold bindM. destruct (Hm w Hw) as [Hw1 HP].
  destruct (m w) as [[a|f] w1]; [|done]. apply Hk; [by apply HP|done].
Qed.

Lemma maintains_weaken {A} (P Q : A -> Prop) (m : M W A) :
  (forall a, P a -> Q a) -> maintains I P m -> maintains I Q m.
Proof. intros HPQ Hm w Hw. destruct (Hm w Hw) as [? HP]. eauto. Qed.

Lemma maintains_true {A} (P : A -> Prop) (m : M W A) : maintains I P m -> maintains I (fun _ => True) m.
Proof. by apply maintains_weaken. Qed.

Lemma maintains_for_each {A} (xs : list A) (f : A -> M W unit) :
  (forall x, x ∈ xs -> maintains I (fun _ => True) (f x)) -> maintains I (fun _ => True) (for_each xs f).
Proof.
  induction xs as [|x xs IH]; intros H; simpl; [by apply maintains_ret|].
  eapply maintains_bind; [apply H; left|]. intros _ _. apply IH. intros y Hy. apply H. by right.
Qed.

Lemma maintains_collect {A B} (xs : list A) (f : A -> M W B) :
  (forall x, x ∈ xs -> maintains I (fun _ => True) (f x)) -> maintains I (fun _ => True) (collect xs f).
Proof.
  induction xs as [|x xs IH]; intros H; simpl; [by apply maintains_ret|].
  eapply maintains_bind; [apply H; left|]. intros y _. eapply maintains_bind.
  - apply IH. intros z Hz. apply H. by right.
  - intros ys _. by apply maintains_ret.
Qed.

Lemma maintains_when (b : bool) (m : M W unit) :
  maintains I (fun _ => True) m -> maintains I (fun _ => True) (when b m).
Proof. intros H. destruct b; [done|by apply maintains_ret]. Qed.

(** A computation on a part of the state that [I] does not look at. *)
Lemma maintains_zoom_any {V A} (get : W -> V) (put : V -> W -> W) (m : M V A) :
  (forall v w, I w -> I (put v w)) -> maintains I (fun _ => True) (zoom get put m).
Proof. intros H w Hw. unfold zoom. destruct (m (get w)) as [r v]. split; [by apply H|done]. Qed.
End maintains.

(** ** Faults

    [ends I F V m]: from a state in which [I] holds, [m] gives a result of [V], in a state in
    which [I] holds, or a fault of [F]. *)

Definition ends {W A} (I : W -> Prop) (F : fault -> Prop) (V : A -> Prop) (m : M W A) : Prop :=
  forall w, I w -> match (m w).1 with Ret a => V a /\ I (m w).2 | Fault f => F f end.

Section ends.
Context {W : Type} (I : W -> Prop).

Lemma ends_ret {A} F (V : A -> Prop) a : V a -> ends I F V (ret a).
Proof. by intros Ha w Hw. Qed.

Lemma ends_fail {A} (F : fault -> Prop) (V : A -> Prop) f : F f -> ends I F V (fail f).
Proof. by intros Hf w Hw. Qed.

Lemma ends_gets {A} F (f : W -> A) : ends I F (fun _ => True) (gets f).
Proof. by intros w Hw. Qed.

Lemma ends_modify F f : (forall w, I w -> I (f w)) -> ends I F (fun _ => True) (modify f).
Proof. intros Hf w Hw. split; [done|by apply Hf]. Qed.

Lemma ends_bind {A B} F (P : A -> Prop) (V : B -> Prop) (m : M W A) (k : A -> M W B) :
  ends I F P m -> (forall a, P a -> ends I F V (k a)) -> ends I F V (bindM m k).
Proof.
  intros Hm Hk w Hw. specialize (Hm w Hw). unfold bindM. destruct (m w) as [[a|f] w1]; [|done].
  destruct Hm. by apply Hk.
Qed.

Lemma ends_weaken {A} (F G : fault -> Prop) (V V' : A -> Prop) (m : M W A) :
  (forall f, F f -> G f) -> (forall a, V a -> V' a) -> ends I F V m -> ends I G V' m.
Proof.
  intros HF HV Hm w Hw. specialize (Hm w Hw). destruct (m w) as [[a|f] w1]; cbn in *; [|by apply HF].
  destruct Hm. split; [by apply HV|done].
Qed.

Lemma ends_for_each {A} F (xs : list A) (f : A -> M W unit) :
  (forall x, x ∈ xs -> ends I F (fun _ => True) (f x)) -> ends I F (fun _ => True) (for_each xs f).
Proof.
  induction xs as [|x xs IH]; intros Hf; cbn [for_each]; [by apply ends_ret|].
  eapply ends_bind; [apply Hf; left|]. intros _ _. apply IH. intros y Hy. apply Hf. by right.
Qed.

Lemma ends_collect {A B} F (xs : list A) (f : A -> M W B) :
  (forall x, x ∈ xs -> ends I F (fun _ => True) (f x)) -> ends I F (fun _ => True) (collect xs f).
Proof.
  induction xs as [|x xs IH]; intros Hf; cbn [collect]; [by apply ends_ret|].
  eapply ends_bind; [apply Hf; left|]. intros y _. eapply ends_bind.
  - apply IH. intros z Hz. apply Hf. by right.
  - intros ys _. by apply ends_ret.
Qed.
End ends.

(** Running a computation: the equations the symbolic execution of a handler
    rewrites with. *)

Lemma run_bind_Ret {W A B} (m : M W A) (k : A -> M W B) w a w' :
  m w = (Ret a, w') -> bindM m k w = k a w'.
Proof. intros H. unfold bindM. by rewrite H. Qed.

Lemma run_bind_Fault {W A B} (m : M W A) (k : A -> M W B) w f w' :
  m w = (Fault f, w') -> bindM m k w = (Fault f, w').
Proof. intros H. unfold bindM. by rewrite H. Qed.

Lemma run_bind_inv {W A B} (m : M W A) (k : A -> M W B) w b w' :
  bindM m k w = (Ret b, w') -> exists a w1, m w = (Ret a, w1) /\ k a w1 = (Ret b, w').
Proof. unfold bindM. destruct (m w) as [[a|f] w1]; [eauto|done]. Qed.
