(* ===== verification/Values.v ===== *)
(** * The data the server exchanges: UBJ values and BSON documents

    [ubj] is the value a client message is made of ([Zway::UBJ::Value]) and
    [bson] the element of a database document ([mongo::BSONElement]). The
    constructors are the type tags the server itself distinguishes
    ([ClientSession::ubjValToBson] and [ClientSession::bsonToUbj]). How the
    libraries convert between representations is not part of the server: the
    accessors are operations of the classes [UbjApi] and [BsonApi], and what
    the server relies on of them is stated in [UbjLaws] and [BsonLaws]. *)

From S2P Require Import Prelude.

(** ** UBJ values *)

Inductive ubj :=
| UNull
| UBool (b : bool)
| UInt32 (z : Z)
| UInt64 (z : Z)
| UDouble (bits : Z)
| UString (s : string)
| UBuffer (bs : list Byte.byte)
| UArray (vs : list ubj)
| UObject (fs : list (string * ubj)).

Abbreviation uobj := (list (string * ubj)).

(** Induction that goes through the arrays and objects. *)
Section ubj_induction.
Variable P : ubj -> Prop.
Hypothesis Hnull : P UNull.
Hypothesis Hbool : forall b, P (UBool b).
Hypothesis Hint32 : forall z, P (UInt32 z).
Hypothesis Hint64 : forall z, P (UInt64 z).
Hypothesis Hdouble : forall z, P (UDouble z).
Hypothesis Hstring : forall s, P (UString s).
Hypothesis Hbuffer : forall bs, P (UBuffer bs).
Hypothesis Harray : forall vs, Forall P vs -> P (UArray vs).
Hypothesis Hobject : forall fs, Forall (fun p => P p.2) fs -> P (UObject fs).

Fixpoint ubj_deep_ind (u : ubj) : P u :=
  match u with
  | UNull => Hnull
  | UBool b => Hbool b
  | UInt32 z => Hint32 z
  | UInt64 z => Hint64 z
  | UDouble z => Hdouble z
  | UString s => Hstring s
  | UBuffer bs => Hbuffer bs
  | UArray vs =>
      Harray vs ((fix go (l : list ubj) : Forall P l :=
                    match l with
                    | [] => Forall_nil_2 _
                    | v :: l' => Forall_cons_2 _ _ _ (ubj_deep_ind v) (go l')
                    end) vs)
  | UObject fs =>
      Hobject fs ((fix go (l : uobj) : Forall (fun p => P p.2) l :=
                     match l with
                     | [] => Forall_nil_2 _
                     | p :: l' => Forall_cons_2 _ _ _ (ubj_deep_ind p.2) (go l')
                     end) fs)
  end.
End ubj_induction.

(** What [Zway::UBJ] (not part of this repository) offers the server. *)
Class UbjApi := {
  (** what [operator[]] of an object yields for a field it lacks *)
  ubj_undefined : ubj;
  ubj_toInt : ubj -> Z;
  ubj_toLong : ubj -> Z;
  ubj_toBool : ubj -> bool;
  ubj_toStr : ubj -> string;
  ubj_toArray : ubj -> list ubj;
  ubj_toObject : ubj -> uobj;
  (** [Value::buffer()], a null pointer when the value holds no buffer *)
  ubj_buffer : ubj -> option (list Byte.byte);
  ubj_bufferSize : ubj -> Z;
  (** the value a [uint32_t] converts to *)
  ubj_of_uint32 : Z -> ubj;
  (** [object[key] = value], with the container's own iteration order *)
  ubj_assign : string -> ubj -> uobj -> uobj;
  (** whether [Zway::Buffer::create(_, size)] yields a buffer *)
  buffer_create_ok : Z -> bool
}.

Section ubj_ops.
Context `{UbjApi}.

(** [object["key"]] *)
Definition ubj_get (o : uobj) (k : string) : ubj := default ubj_undefined (field k o).

(** [Object::hasField] *)
Definition hasField (o : uobj) (k : string) : bool :=
  match field k o with Some _ => true | None => false end.

(** [UBJ_OBJ(k1 << v1 << k2 << v2 ...)] *)
Definition UBJ_OBJ (l : list (string * ubj)) : uobj :=
  foldl (fun o p => ubj_assign p.1 p.2 o) [] l.
End ubj_ops.

Class UbjLaws `{UbjApi} : Prop := {
  toInt_int32 z : ubj_toInt (UInt32 z) = z;
  toInt_of_uint32 z : is_u32 z -> u32 (ubj_toInt (ubj_of_uint32 z)) = z;
  toLong_int64 z : ubj_toLong (UInt64 z) = z;
  toBool_bool b : ubj_toBool (UBool b) = b;
  toStr_string s : ubj_toStr (UString s) = s;
  toArray_array vs : ubj_toArray (UArray vs) = vs;
  toObject_object fs : ubj_toObject (UObject fs) = fs;
  buffer_buffer bs : ubj_buffer (UBuffer bs) = Some bs;
  buffer_array vs : ubj_buffer (UArray vs) = None;
  bufferSize_buffer v :
    ubj_bufferSize v = match ubj_buffer v with Some bs => Z.of_nat (length bs) | None => 0 end;
  field_assign k k' v o :
    field k' (ubj_assign k v o) = if decide (k = k') then Some v else field k' o;
  assign_names k v o : NoDup o.*1 -> NoDup (ubj_assign k v o).*1
}.

Section ubj_lemmas.
Context `{UbjLaws}.

Lemma field_assign_eq k v o : field k (ubj_assign k v o) = Some v.
Proof. rewrite field_assign. by case_decide. Qed.

Lemma field_assign_ne k k' v o : k <> k' -> field k' (ubj_assign k v o) = field k' o.
Proof. intros Hne. rewrite field_assign. by case_decide. Qed.

Lemma field_foldl_assign k l o :
  field k (foldl (fun o p => ubj_assign p.1 p.2 o) o l) =
  match field k (reverse l) with Some v => Some v | None => field k o end.
Proof.
  revert o. induction l as [|[k' v] l IH]; intros o; simpl; [done|].
  rewrite IH, reverse_cons, field_app, field_assign. simpl.
  destruct (field k (reverse l)); [done|].
  case_decide; case_decide; congruence.
Qed.

(** A field of a freshly built object is the last value given for it. *)
Lemma field_UBJ_OBJ k l : field k (UBJ_OBJ l) = field k (reverse l).
Proof. unfold UBJ_OBJ. rewrite field_foldl_assign. by destruct (field k (reverse l)). Qed.
End ubj_lemmas.

(** ** BSON elements and documents *)

Inductive bson :=
| BEOO                                   (** the element of an absent field *)
| BObject (fs : list (string * bson))
| BArray (fs : list (string * bson))
| BString (s : string)
| BInt (z : Z)                           (** [NumberInt], signed 32 bits *)
| BLong (z : Z)
| BDouble (bits : Z)
| BBool (b : bool)
| BBinData (bs : list Byte.byte)
| BOther (tag : Z).

Abbreviation doc := (list (string * bson)).

(** What the mongo client library offers on elements and builders. *)
Class BsonApi := {
  numberInt : bson -> Z;
  numberLong : bson -> Z;
  (** [BSONObj::getIntField], on the element found *)
  getIntField : bson -> Z;
  (** [BSONElement::str()] *)
  bson_str : bson -> string;
  (** [BSONElement::Obj()] and [String()]: [None] is the exception they throw
      on an element of another type *)
  bson_Obj : bson -> option doc;
  bson_String : bson -> option string;
  (** [BSONElement::binData] *)
  bson_binData : bson -> option (list Byte.byte);
  (** whether [BSONObjBuilder::obj()] accepts the document; it throws a
      [DBException] otherwise, which derives from [std::exception] and not
      from [std::runtime_error] *)
  builder_accepts : doc -> bool
}.

(** [BSONObj::operator[]]: the first field of that name, or the EOO element. *)
Definition bson_get (d : doc) (k : string) : bson := default BEOO (field k d).

(** [BSONObjBuilder::append] of a [uint32_t] stores a signed int. *)
Definition bson_u32 (z : Z) : bson := BInt (i32 z).

Class BsonLaws `{BsonApi} : Prop := {
  numberInt_int z : numberInt (BInt z) = z;
  getIntField_int z : getIntField (BInt z) = z;
  numberInt_eoo : numberInt BEOO = 0;
  numberLong_long z : numberLong (BLong z) = z;
  bson_str_string s : bson_str (BString s) = s;
  bson_Obj_object fs : bson_Obj (BObject fs) = Some fs;
  bson_Obj_eoo : bson_Obj BEOO = None;
  bson_String_string s : bson_String (BString s) = Some s;
  bson_String_eoo : bson_String BEOO = None;
  bson_binData_bin bs : bson_binData (BBinData bs) = Some bs
}.

Lemma numberInt_u32 `{BsonLaws} z : u32 (numberInt (bson_u32 z)) = u32 z.
Proof. unfold bson_u32. rewrite numberInt_int. apply u32_i32. Qed.
