(* ===== verification/Platform.v ===== *)
(** * The libraries the server runs on

    zway-lib (packets, requests, the stream engine), the mongo client, OpenSSL
    and boost are not part of the repository. This file gives the data the
    server exchanges with them, the operations it calls as fields of classes,
    and the documented behaviour its correctness relies on as law classes. The
    rest of the development is stated over an arbitrary [Platform]. *)

From S2P Require Import Prelude Values.

(** ** zway-lib *)

(** The accessors of a [Zway::Packet] the server uses. *)
Record packet := Packet {
  pkt_streamId : Z;
  pkt_streamType : Z;
  pkt_parts : Z;
  pkt_bodySize : Z;
  pkt_body : list Byte.byte
}.

(** Enumerators and constants of zway-lib. *)
Class ZwayConsts := {
  Req_Dispatch : Z;
  Req_CreateAccount : Z;
  Req_Login : Z;
  Req_Logout : Z;
  Req_Config : Z;
  Req_AddContact : Z;
  Req_CreateAddCode : Z;
  Req_FindContact : Z;
  Req_AcceptContact : Z;
  Req_RejectContact : Z;
  Req_ContactStatus : Z;
  Req_Push : Z;
  Stream_Undefined : Z;
  Stream_Request : Z;
  Stream_Resource : Z;
  MAX_PACKET_BODY : Z;
  sizeof_PacketHead : Z
}.

Definition request_types `{ZwayConsts} : list Z :=
  [Req_Dispatch; Req_CreateAccount; Req_Login; Req_Logout; Req_Config; Req_AddContact;
   Req_CreateAddCode; Req_FindContact; Req_AcceptContact; Req_RejectContact;
   Req_ContactStatus; Req_Push].

(** The enumerators label the cases of one [switch], so they are distinct. *)
Class ZwayConstsLaws `{ZwayConsts} : Prop := {
  request_types_NoDup : NoDup request_types;
  request_types_range : Forall (fun t => 0 <= t < 2 ^ 31) request_types;
  MAX_PACKET_BODY_pos : 0 < MAX_PACKET_BODY < 2 ^ 32;
  sizeof_PacketHead_pos : 0 < sizeof_PacketHead
}.

(** The classes of src/request/ the server posts to a client. *)
Inductive request_class :=
| DispatchRequest
| AddContactRequest
| AcceptContactRequest
| RejectContactRequest
| PushRequest.

Record out_request := OutRequest {
  rq_class : request_class;
  rq_id : Z;
  rq_head : uobj
}.

Definition rq_type `{ZwayConsts} (r : out_request) : Z :=
  match rq_class r with
  | DispatchRequest => Req_Dispatch
  | AddContactRequest => Req_AddContact
  | AcceptContactRequest => Req_AcceptContact
  | RejectContactRequest => Req_RejectContact
  | PushRequest => Req_Push
  end.

(** The calls a session makes on its [Zway::Engine] base class, in the order it
    makes them, and the responses the engine hands to the requests it holds. *)
Inductive engine_call :=
| CallSuccess (requestId : Z) (response : option uobj)
| CallFailure (requestId code : Z) (message : string)
| CallPostRequest (r : out_request)
| CallAddStreamSender (streamId : Z)
| CallAddUbjSender (requestId streamType : Z) (obj : uobj)
| CallProcessIncomingPacket (p : packet)
| CallProcessStreamSenders
| CallResponse (r : out_request) (head : uobj).

(** What the engine answers is determined by the calls made so far. *)
Class EngineApi := {
  requestPending : list engine_call -> Z -> Z -> bool;
  engine_addStreamSender : list engine_call -> Z -> bool;
  (** the packets [processStreamSenders] hands to its callback *)
  engine_packets : list engine_call -> list packet;
  (** [StreamSender::init] of the base class *)
  streamSender_init : Z -> bool;
  (** [sender->status() == Completed], of the sender with this stream id *)
  sender_completed : list engine_call -> Z -> bool;
  (** [Zway::Packet::create()] *)
  packet_create : option packet;
  (** whether [Engine::createStreamReceiver] and [BufferReceiver::create] give a receiver *)
  engine_createStreamReceiver : list engine_call -> packet -> bool;
  bufferReceiver_create : packet -> bool
}.

Class EngineLaws `{ZwayConsts} `{EngineApi} : Prop := {
  requestPending_posted h r :
    requestPending (h ++ [CallPostRequest r]) (rq_type r) (rq_id r) = true;
  requestPending_kept h c t i :
    (forall r head, c = CallResponse r head -> ~ (rq_type r = t /\ rq_id r = i)) ->
    requestPending h t i = true -> requestPending (h ++ [c]) t i = true;
  requestPending_only h r t i :
    requestPending (h ++ [CallPostRequest r]) t i = true ->
    requestPending h t i = true \/ (rq_type r = t /\ rq_id r = i)
}.

(** [Zway::Buffer], the in-memory buffer: [zbuffer_bytes] is what it contains.
    [Buffer_initial_size] is the [m_size] the base constructor leaves. *)
Class ZBufferApi := {
  zbuffer : Type;
  Buffer_initial_size : Z;
  zbuffer_create : Z -> option zbuffer;
  zbuffer_read : Z -> Z -> zbuffer -> option (list Byte.byte);
  zbuffer_write : list Byte.byte -> Z -> zbuffer -> option Z * zbuffer;
  zbuffer_size : zbuffer -> Z;
  zbuffer_bytes : zbuffer -> list Byte.byte
}.

Class ZBufferLaws `{ZBufferApi} : Prop := {
  zbuffer_read_in_bounds size off b :
    0 < size -> 0 <= off -> off + size <= Z.of_nat (length (zbuffer_bytes b)) ->
    zbuffer_read size off b =
      Some (take (Z.to_nat size) (drop (Z.to_nat off) (zbuffer_bytes b)));
  zbuffer_create_size n b :
    0 <= n -> zbuffer_create n = Some b -> Z.of_nat (length (zbuffer_bytes b)) = n;
  zbuffer_size_bytes b : zbuffer_size b = Z.of_nat (length (zbuffer_bytes b));
  zbuffer_write_ok data off b n b' :
    0 <= off -> zbuffer_write data off b = (Some n, b') ->
    n = Z.of_nat (length data) /\
    zbuffer_bytes b' = take (Z.to_nat off) (zbuffer_bytes b) ++ data ++
                       drop (Z.to_nat off + length data) (zbuffer_bytes b);
  zbuffer_write_fits data off b :
    0 <= off -> off + Z.of_nat (length data) <= Z.of_nat (length (zbuffer_bytes b)) ->
    exists n b', zbuffer_write data off b = (Some n, b')
}.

(** ** OpenSSL and boost *)

Class CryptoApi := {
  sha_ctx : Type;
  SHA256_Init : option sha_ctx;
  SHA256_Update : sha_ctx -> list Byte.byte -> option sha_ctx;
  SHA256_Final : sha_ctx -> option (list Byte.byte);
  rng : Type;
  RAND_pseudo_bytes : nat -> rng -> list Byte.byte * rng;
  (** [boost::algorithm::hex] *)
  boost_hex : list Byte.byte -> string
}.

Class CryptoLaws `{CryptoApi} : Prop := {
  RAND_length n r : length (RAND_pseudo_bytes n r).1 = n;
  SHA256_length c d : SHA256_Final c = Some d -> length d = 32%nat
}.

(** The [uint32_t] whose bytes a random generator filled (little endian). *)
Fixpoint le_combine (bs : list Byte.byte) : Z :=
  match bs with
  | [] => 0
  | b :: bs' => Z.of_N (Byte.to_N b) + 256 * le_combine bs'
  end.

(** ** The mongo client

    A collection is reached by name. A query gives the documents its cursor
    delivers and whether it ran to its end; a [false] is an exception the client
    throws, at once or in the middle of the iteration. [docs] and [matches] are not operations of the server: they
    are what the laws say the operations are about, the documents a collection
    holds and the query semantics. *)
Class MongoApi := {
  mongo : Type;
  db_query : string -> doc -> option (string * Z) -> Z -> option doc -> mongo ->
             list doc * bool;
  db_count : string -> doc -> mongo -> option Z;
  db_insert : string -> doc -> mongo -> bool * mongo;
  db_update : string -> doc -> doc -> mongo -> bool * mongo;
  db_remove : string -> doc -> bool -> mongo -> bool * mongo;
  docs : string -> mongo -> list doc;
  matches : doc -> doc -> bool;
  project : option doc -> doc -> doc
}.

(** Values a query compares for equality. *)
Definition is_scalar (v : bson) : bool :=
  match v with BInt _ | BString _ | BBool _ => true | _ => false end.

Definition not_operator (k : string) : Prop :=
  match k with String a _ => a <> "$"%char | _ => True end.

(** An inserted document is stored with the fields it was given; the database
    adds an "_id". *)
Definition stored_doc (d d' : doc) : Prop :=
  forall k, k <> "_id"%string -> field k d' = field k d.

Class MongoLaws `{MongoApi} : Prop := {
  query_result c q lim f m l ended :
    0 <= lim -> db_query c q None lim f m = (l, ended) ->
    exists sel rest, sel ++ rest ≡ₚ filter (fun d => matches q d = true) (docs c m) /\
      l = project f <$> sel /\
      (ended = true -> lim = 0 -> rest = []) /\ (ended = true -> sel = [] -> rest = []) /\
      (0 < lim -> Z.of_nat (length sel) <= lim);
  query_max c k f m l ended :
    db_query c [] (Some (k, -1)) 1 f m = (l, ended) ->
    (l = [] /\ (ended = true -> docs c m = [])) \/
    exists d, d ∈ docs c m /\ l = [project f d] /\
      forall d' a b, d' ∈ docs c m ->
        field k d = Some (BInt a) -> field k d' = Some (BInt b) -> b <= a;
  count_result c q m n :
    db_count c q m = Some n ->
    n = Z.of_nat (length (filter (fun d => matches q d = true) (docs c m)));
  insert_result c d m m' :
    db_insert c d m = (true, m') ->
    (exists d', stored_doc d d' /\ docs c m' ≡ₚ d' :: docs c m) /\
    forall c', c' <> c -> docs c' m' = docs c' m;
  remove_one_result c q m m' :
    db_remove c q true m = (true, m') ->
    ((filter (fun d => matches q d = true) (docs c m) = [] /\ docs c m' ≡ₚ docs c m) \/
     (exists d, matches q d = true /\ docs c m ≡ₚ d :: docs c m')) /\
    forall c', c' <> c -> docs c' m' = docs c' m;
  update_set_result c q k v m m' :
    db_update c q [("$set"%string, BObject [(k, v)])] m = (true, m') ->
    ((filter (fun d => matches q d = true) (docs c m) = [] /\ docs c m' ≡ₚ docs c m) \/
     (exists d d' rest, matches q d = true /\ docs c m ≡ₚ d :: rest /\
        docs c m' ≡ₚ d' :: rest /\
        forall k', field k' d' = if decide (k = k') then Some v else field k' d)) /\
    forall c', c' <> c -> docs c' m' = docs c' m;
  (** a write that throws may have been carried out or not, and nothing else *)
  insert_any c d m ok m' :
    db_insert c d m = (ok, m') ->
    (docs c m' ≡ₚ docs c m \/ exists d', stored_doc d d' /\ docs c m' ≡ₚ d' :: docs c m) /\
    forall c', c' <> c -> docs c' m' = docs c' m;
  remove_one_any c q m ok m' :
    db_remove c q true m = (ok, m') ->
    (docs c m' ≡ₚ docs c m \/ exists d, matches q d = true /\ docs c m ≡ₚ d :: docs c m') /\
    forall c', c' <> c -> docs c' m' = docs c' m;
  update_any c q u m ok m' :
    db_update c q u m = (ok, m') -> forall c', c' <> c -> docs c' m' = docs c' m;
  matches_nil d : matches [] d = true;
  matches_cons p q d : matches (p :: q) d = matches [p] d && matches q d;
  matches_eq k v d :
    not_operator k -> is_scalar v = true ->
    (forall w, field k d = Some w -> is_scalar w = true) ->
    matches [(k, v)] d = true <-> field k d = Some v;
  matches_or alts d :
    matches [("$or"%string, BArray alts)] d =
    existsb (fun p => match p.2 with BObject q => matches q d | _ => false end) alts;
  project_none d : project None d = d;
  project_field f d k : k ∈ f.*1 -> field k (project (Some f) d) = field k d
}.

(** ** The platform *)

Class Platform := {
  platform_ubj :: UbjApi;
  platform_bson :: BsonApi;
  platform_consts :: ZwayConsts;
  platform_engine :: EngineApi;
  platform_zbuffer :: ZBufferApi;
  platform_crypto :: CryptoApi;
  platform_mongo :: MongoApi
}.

Class PlatformLaws `{Platform} : Prop := {
  platform_ubj_laws :: UbjLaws;
  platform_bson_laws :: BsonLaws;
  platform_consts_laws :: ZwayConstsLaws;
  platform_engine_laws :: EngineLaws;
  platform_zbuffer_laws :: ZBufferLaws;
  platform_crypto_laws :: CryptoLaws;
  platform_mongo_laws :: MongoLaws
}.
