(* ===== verification/Reference.v ===== *)
(** * A reference platform

    A concrete instance of [Platform] that satisfies [PlatformLaws]: an
    in-memory document store, a toy digest and generator, and the obvious
    conversions. It shows the laws are consistent and it is what the concrete
    examples of the development run on; nothing is proved about the server
    from it alone. *)

From S2P Require Import Prelude Values Platform.

(** ** UBJ *)

Definition ref_toInt (v : ubj) : Z :=
  match v with UInt32 z => z | UInt64 z => i32 z | UBool b => Z.b2z b | _ => 0 end.

Fixpoint ref_assign {V} (k : string) (v : V) (o : list (string * V)) : list (string * V) :=
  match o with
  | [] => [(k, v)]
  | (k', v') :: o' => if decide (k = k') then (k, v) :: o' else (k', v') :: ref_assign k v o'
  end.

Definition ref_buffer (v : ubj) : option (list Byte.byte) :=
  match v with UBuffer bs => Some bs | _ => None end.

#[export] Instance ref_ubj : UbjApi := {|
  ubj_undefined := UNull;
  ubj_toInt := ref_toInt;
  ubj_toLong v := match v with UInt64 z => z | _ => ref_toInt v end;
  ubj_toBool v := match v with UBool b => b | UInt32 z => negb (z =? 0) | _ => false end;
  ubj_toStr v := match v with UString s => s | _ => EmptyString end;
  ubj_toArray v := match v with UArray vs => vs | _ => [] end;
  ubj_toObject v := match v with UObject fs => fs | _ => [] end;
  ubj_buffer := ref_buffer;
  ubj_bufferSize v := match ref_buffer v with Some bs => Z.of_nat (length bs) | None => 0 end;
  ubj_of_uint32 z := UInt32 (i32 z);
  ubj_assign := ref_assign;
  buffer_create_ok _ := true
|}.

Lemma field_ref_assign {V} k k' (v : V) o :
  field k' (ref_assign k v o) = if decide (k = k') then Some v else field k' o.
Proof.
  induction o as [|[k1 v1] o IH]; simpl; repeat case_decide; simplify_eq; try done;
    simpl; repeat case_decide; simplify_eq; try done.
Qed.

Lemma ref_assign_names {V} k (v : V) o :
  (ref_assign k v o).*1 = if decide (k ∈ o.*1) then o.*1 else o.*1 ++ [k].
Proof.
  induction o as [|[k1 v1] o IH]; [done|]. cbn. destruct (decide (k = k1)) as [<-|Hk].
  - rewrite decide_True by left. done.
  - cbn. rewrite IH. repeat case_decide; set_solver.
Qed.

#[export] Instance ref_ubj_laws : UbjLaws.
Proof.
  split; try done.
  - intros z Hz. simpl. by rewrite u32_i32, u32_id.
  - intros k k' v o. apply field_ref_assign.
  - intros k v o Hn. simpl. rewrite ref_assign_names. case_decide; [done|].
    apply NoDup_app. split_and!; [done| |apply NoDup_singleton].
    intros x Hx ->%list_elem_of_singleton. done.
Qed.

(** ** BSON *)

#[export] Instance ref_bson : BsonApi := {|
  numberInt v := match v with BInt z => z | BLong z => i32 z | _ => 0 end;
  numberLong v := match v with BInt z | BLong z => z | _ => 0 end;
  getIntField v := match v with BInt z => z | BLong z => i32 z | _ => - 2 ^ 31 end;
  bson_str v := match v with BString s => s | _ => EmptyString end;
  bson_Obj v := match v with BObject fs => Some fs | _ => None end;
  bson_String v := match v with BString s => Some s | _ => None end;
  bson_binData v := match v with BBinData bs => Some bs | _ => None end;
  builder_accepts _ := true
|}.

#[export] Instance ref_bson_laws : BsonLaws.
Proof. by split. Qed.

(** ** zway-lib *)

#[export] Instance ref_consts : ZwayConsts := {|
  Req_Dispatch := 1000; Req_CreateAccount := 2000; Req_Login := 2100; Req_Logout := 2200;
  Req_Config := 2300; Req_AddContact := 3100; Req_CreateAddCode := 3150;
  Req_FindContact := 3000; Req_AcceptContact := 3200; Req_RejectContact := 3300;
  Req_ContactStatus := 3400; Req_Push := 4100;
  Stream_Undefined := 0; Stream_Request := 1; Stream_Resource := 2;
  MAX_PACKET_BODY := 4; sizeof_PacketHead := 16
|}.

#[export] Instance ref_consts_laws : ZwayConstsLaws.
Proof.
  split; [|repeat constructor; done..|done|done].
  apply (bool_decide_unpack _). vm_compute. exact I.
Qed.

Definition ref_step (t i : Z) (b : bool) (c : engine_call) : bool :=
  match c with
  | CallPostRequest r => b || (bool_decide (rq_type r = t) && bool_decide (rq_id r = i))
  | CallResponse r _ => b && negb (bool_decide (rq_type r = t) && bool_decide (rq_id r = i))
  | _ => b
  end.

#[export] Instance ref_engine : EngineApi := {|
  requestPending h t i := foldl (ref_step t i) false h;
  engine_addStreamSender _ _ := true;
  engine_packets _ := [];
  streamSender_init _ := true;
  sender_completed _ _ := false;
  packet_create := Some (Packet 0 0 0 0 []);
  engine_createStreamReceiver _ _ := true;
  bufferReceiver_create _ := true
|}.

#[export] Instance ref_engine_laws : EngineLaws.
Proof.
  split; simpl.
  - intros h r. rewrite foldl_snoc. simpl. rewrite !bool_decide_eq_true_2 by done.
    by rewrite orb_true_r.
  - intros h c t i Hc Hp. rewrite foldl_snoc, Hp.
    destruct c as [| | | | | | |r head]; simpl; try done.
    specialize (Hc r head eq_refl). by repeat case_bool_decide; simpl; tauto.
  - intros h r t i. rewrite foldl_snoc. simpl. intros [?|[?%bool_decide_eq_true ?%bool_decide_eq_true]%andb_true_iff]%orb_true_iff;
      [by left|by right].
Qed.

#[export] Instance ref_zbuffer : ZBufferApi := {|
  zbuffer := list Byte.byte;
  Buffer_initial_size := 0;
  zbuffer_create n := Some (replicate (Z.to_nat n) Byte.x00);
  zbuffer_read size off b :=
    if decide (0 <= off /\ off + size <= Z.of_nat (length b))
    then Some (take (Z.to_nat size) (drop (Z.to_nat off) b)) else None;
  zbuffer_write data off b :=
    if decide (off + Z.of_nat (length data) <= Z.of_nat (length b))
    then (Some (Z.of_nat (length data)),
          take (Z.to_nat off) b ++ data ++ drop (Z.to_nat off + length data) b)
    else (None, b);
  zbuffer_size b := Z.of_nat (length b);
  zbuffer_bytes b := b
|}.

#[export] Instance ref_zbuffer_laws : ZBufferLaws.
Proof.
  split; simpl.
  - intros size off b Hs Ho Hb. by rewrite decide_True.
  - intros n b Hn [= <-]. rewrite length_replicate. lia.
  - done.
  - intros data off b n b' Ho. case_decide; [|done]. by intros [= <- <-].
  - intros data off b Ho Hfit. rewrite decide_True by done. eauto.
Qed.

(** ** OpenSSL *)

#[export] Instance ref_crypto : CryptoApi := {|
  sha_ctx := list Byte.byte;
  SHA256_Init := Some [];
  SHA256_Update c d := Some (c ++ d);
  SHA256_Final c := Some (take 32 (c ++ replicate 32 Byte.x00));
  rng := list Byte.byte;
  RAND_pseudo_bytes n r := (take n (r ++ replicate n Byte.x00), drop n r);
  boost_hex bs := String.string_of_list_byte bs
|}.

#[export] Instance ref_crypto_laws : CryptoLaws.
Proof.
  split.
  - intros n r. simpl. rewrite length_take, length_app, length_replicate. lia.
  - cbn [SHA256_Final ref_crypto]. intros c d Hd. apply (inj Some) in Hd as <-.
    rewrite length_take, length_app, length_replicate. lia.
Qed.

(** ** The document store *)

Record ref_store := RefStore { rs_up : bool; rs_docs : gmap string (list doc) }.

(** [RefStore true] answers every call; [RefStore false] throws. *)
Definition ref_docs (c : string) (m : ref_store) : list doc := default [] (rs_docs m !! c).

Definition ref_set (c : string) (l : list doc) (m : ref_store) : ref_store :=
  RefStore (rs_up m) (<[c := l]> (rs_docs m)).

Definition scalar_eqb (v w : bson) : bool :=
  match v, w with
  | BInt a, BInt b => bool_decide (a = b)
  | BString a, BString b => bool_decide (a = b)
  | BBool a, BBool b => bool_decide (a = b)
  | _, _ => false
  end.

Definition field_eqb (k : string) (v : bson) (d : doc) : bool :=
  match field k d with Some w => scalar_eqb w v | None => false end.

Fixpoint match_elem (v : bson) (k : string) (d : doc) : bool :=
  match v with
  | BArray alts =>
      existsb (fun p => match p.2 with
                        | BObject q => forallb (fun r => match_elem r.2 r.1 d) q
                        | _ => false
                        end) alts
  | BObject [("$ne"%string, w)] => negb (field_eqb k w d)
  | BObject [("$regex"%string, w); _] => field_eqb k w d
  | _ => field_eqb k v d
  end.

Definition ref_matches (q d : doc) : bool := forallb (fun r => match_elem r.2 r.1 d) q.

Definition ref_project (f : option doc) (d : doc) : doc :=
  match f with None => d | Some f => filter (fun p => p.1 ∈ f.*1) d end.

Definition sort_key (k : string) (d : doc) : Z :=
  match field k d with Some (BInt a) => a | _ => - 2 ^ 31 end.

Definition key_ge (k : string) (d d' : doc) : Prop := sort_key k d' <= sort_key k d.

#[export] Instance key_ge_dec k : RelDecision (key_ge k).
Proof. intros d d'. unfold key_ge. apply _. Defined.

Definition ref_query (c : string) (q : doc) (sort : option (string * Z)) (lim : Z)
    (f : option doc) (m : ref_store) : list doc * bool :=
  if rs_up m then
    let sel := filter (fun d => ref_matches q d = true) (ref_docs c m) in
    let sel := match sort with Some (k, _) => merge_sort (key_ge k) sel | None => sel end in
    let sel := if decide (lim = 0) then sel else take (Z.to_nat lim) sel in
    (ref_project f <$> sel, true)
  else ([], false).

Fixpoint remove_first (q : doc) (l : list doc) : list doc :=
  match l with
  | [] => []
  | d :: l' => if ref_matches q d then l' else d :: remove_first q l'
  end.

Definition ref_apply (u d : doc) : doc :=
  match u with
  | [("$set"%string, BObject fs)] => foldl (fun d p => ref_assign p.1 p.2 d) d fs
  | _ => d
  end.

Fixpoint update_first (q u : doc) (l : list doc) : list doc :=
  match l with
  | [] => []
  | d :: l' => if ref_matches q d then ref_apply u d :: l' else d :: update_first q u l'
  end.

#[export] Instance ref_mongo : MongoApi := {|
  mongo := ref_store;
  db_query := ref_query;
  db_count c q m :=
    if rs_up m
    then Some (Z.of_nat (length (filter (fun d => ref_matches q d = true) (ref_docs c m))))
    else None;
  db_insert c d m :=
    if rs_up m then (true, ref_set c (ref_docs c m ++ [d]) m) else (false, m);
  db_update c q u m :=
    if rs_up m then (true, ref_set c (update_first q u (ref_docs c m)) m) else (false, m);
  db_remove c q just_one m :=
    if rs_up m then
      (true, ref_set c (if just_one then remove_first q (ref_docs c m)
                        else filter (fun d => ref_matches q d = false) (ref_docs c m)) m)
    else (false, m);
  docs := ref_docs;
  matches := ref_matches;
  project := ref_project
|}.

Lemma ref_docs_set_eq c l m : ref_docs c (ref_set c l m) = l.
Proof. unfold ref_docs. simpl. by rewrite lookup_insert_eq. Qed.

Lemma ref_docs_set_ne c c' l m : c' <> c -> ref_docs c' (ref_set c l m) = ref_docs c' m.
Proof. intros Hne. unfold ref_docs. simpl. by rewrite lookup_insert_ne. Qed.

Lemma remove_first_spec q l :
  (filter (fun d => ref_matches q d = true) l = [] /\ remove_first q l = l) \/
  (exists d, ref_matches q d = true /\ l ≡ₚ d :: remove_first q l).
Proof.
  induction l as [|d l IH]; simpl; [by left|].
  destruct (ref_matches q d) eqn:E; [right; by exists d|].
  rewrite filter_cons_False by congruence. destruct IH as [[-> ->]|(d' & ? & Hp)]; [by left|].
  right. exists d'. split; [done|]. rewrite Hp at 1. constructor.
Qed.

Lemma update_first_spec q k v l :
  let u := [("$set"%string, BObject [(k, v)])] in
  (filter (fun d => ref_matches q d = true) l = [] /\ update_first q u l = l) \/
  (exists d rest, ref_matches q d = true /\ l ≡ₚ d :: rest /\
     update_first q u l ≡ₚ ref_assign k v d :: rest).
Proof.
  intros u. induction l as [|d l IH]; simpl; [by left|].
  destruct (ref_matches q d) eqn:E; [right; by exists d, l|].
  rewrite filter_cons_False by congruence.
  destruct IH as [[-> ->]|(d' & rest & ? & Hp & Hu)]; [by left|].
  right. exists d', (d :: rest). split_and!; [done|rewrite Hp|rewrite Hu]; constructor.
Qed.

Lemma field_eqb_scalar k v d :
  is_scalar v = true -> field_eqb k v d = true <-> field k d = Some v.
Proof.
  intros Hv. unfold field_eqb. destruct (field k d) as [w|]; [|done].
  destruct v, w; simpl in *; try done;
    (split; [intros ?%bool_decide_eq_true; congruence|intros [= ->]; by apply bool_decide_eq_true]).
Qed.

Lemma field_filter_names (f : list string) k (d : doc) :
  k ∈ f -> field k (filter (fun p : string * bson => p.1 ∈ f) d) = field k d.
Proof.
  intros Hk. induction d as [|[k' v] d IH]; simpl; [done|].
  rewrite filter_cons. case_decide as Hd; simpl; case_decide; subst; try done.
Qed.

Lemma ref_query_result c q lim f m l ended :
  0 <= lim -> ref_query c q None lim f m = (l, ended) ->
  exists sel rest, sel ++ rest ≡ₚ filter (fun d => ref_matches q d = true) (ref_docs c m) /\
    l = ref_project f <$> sel /\
    (ended = true -> lim = 0 -> rest = []) /\ (ended = true -> sel = [] -> rest = []) /\
    (0 < lim -> Z.of_nat (length sel) <= lim).
Proof.
  intros Hlim. unfold ref_query. destruct (rs_up m); [case_decide as H0|]; intros [= <- <-].
  3: { exists [], (filter (fun d => ref_matches q d = true) (ref_docs c m)).
       split_and!; [reflexivity|done|done|done|simpl; lia]. }
  - eexists _, []. rewrite app_nil_r. split_and!; try done; lia.
  - eexists (take _ _), (drop (Z.to_nat lim) _). rewrite take_drop.
    split_and!; try done; intros Hl.
    + intros Ht. destruct (filter _ _); [by rewrite drop_nil|].
      destruct (Z.to_nat lim) eqn:E; [lia|done].
    + rewrite length_take. lia.
Qed.

Lemma ref_query_max c k f m l ended :
  ref_query c [] (Some (k, -1)) 1 f m = (l, ended) ->
  (l = [] /\ (ended = true -> ref_docs c m = [])) \/
  exists d, d ∈ ref_docs c m /\ l = [ref_project f d] /\
    forall d' a b, d' ∈ ref_docs c m ->
      field k d = Some (BInt a) -> field k d' = Some (BInt b) -> b <= a.
Proof.
  unfold ref_query. destruct (rs_up m); [|intros [= <- <-]; by left].
  rewrite decide_False by done. change (Z.to_nat 1) with 1%nat. intros Hl. apply pair_eq in Hl as [<- <-].
  assert (Hall : filter (fun d => ref_matches [] d = true) (ref_docs c m) = ref_docs c m).
  { induction (ref_docs c m) as [|d ds IH]; [done|]. by rewrite filter_cons_True, IH. }
  rewrite Hall. clear Hall.
  assert (Htot : Total (key_ge k)) by (intros d d'; unfold key_ge; lia).
  assert (Htr : Transitive (key_ge k)) by (intros d d' d''; unfold key_ge; lia).
  pose proof (merge_sort_Permutation (key_ge k) (ref_docs c m)) as Hp.
  pose proof (StronglySorted_merge_sort (key_ge k) (ref_docs c m)) as Hs.
  destruct (merge_sort (key_ge k) (ref_docs c m)) as [|d ds].
  - left. split; [done|]. intros _. by apply Permutation_nil_r.
  - right. exists d. split_and!; [rewrite <- Hp; left|done|].
    intros d' a b Hd' Ha Hb.
    rewrite <- Hp in Hd'.
    apply StronglySorted_inv in Hs as [_ HF]. rewrite Forall_forall in HF.
    apply elem_of_cons in Hd' as [->|Hd']; [by simplify_eq|].
    specialize (HF _ Hd'). unfold key_ge, sort_key in HF. by rewrite Ha, Hb in HF.
Qed.

#[export] Instance ref_mongo_laws : MongoLaws.
Proof.
  split; simpl.
  - apply ref_query_result.
  - apply ref_query_max.
  - intros c q m n. destruct (rs_up m); [|done]. by intros [= <-].
  - intros c d m m'. destruct (rs_up m); [|done]. intros [= <-]. split.
    + exists d. split; [done|]. rewrite ref_docs_set_eq. by rewrite Permutation_app_comm.
    + intros c' Hc. by apply ref_docs_set_ne.
  - intros c q m m'. destruct (rs_up m); [|done]. intros [= <-]. split.
    + rewrite !ref_docs_set_eq.
      destruct (remove_first_spec q (ref_docs c m)) as [[? ->]|?]; [by left|by right].
    + intros c' Hc. by apply ref_docs_set_ne.
  - intros c q k v m m'. destruct (rs_up m); [|done]. intros [= <-]. split.
    + rewrite !ref_docs_set_eq.
      destruct (update_first_spec q k v (ref_docs c m)) as [[? ->]|(d & rest & ? & ? & ?)];
        [by left|]. right. exists d, (ref_assign k v d), rest. split_and!; try done.
      intros k'. apply field_ref_assign.
    + intros c' Hc. by apply ref_docs_set_ne.
  - intros c d m ok m'. destruct (rs_up m); intros [= <- <-]; [|by split; [left|]]. split.
    + right. exists d. split; [done|]. rewrite ref_docs_set_eq. by rewrite Permutation_app_comm.
    + intros c' Hc. by apply ref_docs_set_ne.
  - intros c q m ok m'. destruct (rs_up m); intros [= <- <-]; [|by split; [left|]]. split.
    + rewrite !ref_docs_set_eq.
      destruct (remove_first_spec q (ref_docs c m)) as [[_ ->]|?]; [by left|by right].
    + intros c' Hc. by apply ref_docs_set_ne.
  - intros c q u m ok m'. destruct (rs_up m); intros [= <- <-]; [|done].
    intros c' Hc. by apply ref_docs_set_ne.
  - done.
  - intros p q d. by rewrite andb_true_r.
  - intros k v d Hk Hv _. rewrite andb_true_r. rewrite <- (field_eqb_scalar k v d Hv).
    by destruct v.
  - intros alts d. by rewrite andb_true_r.
  - done.
  - intros f d k Hk. by apply field_filter_names.
Qed.

#[export] Instance ref_platform : Platform := {}.

#[export] Instance ref_platform_laws : PlatformLaws := {}.

(** Bytes and passwords for the examples. *)
Definition bytes_of (s : string) : list Byte.byte := String.list_byte_of_string s.
