(* ===== verification/Codec.v ===== *)
(** * Conversion between UBJ values and BSON documents

    [ClientSession::ubjValToBson], [ubjToBson], [bsonToUbj], [bsonObjToUbj] and
    [bsonArrToUbj]. The first two store client data (public keys, push
    requests) in the database, the others read it back. *)

From S2P Require Import Prelude Values.

Section codec.
Context `{UbjApi} `{BsonApi}.

(** [ob.obj()]; [None] is the [DBException] it throws. *)
Definition builder_obj (ob : doc) : option doc :=
  if builder_accepts ob then Some ob else None.

(** ** Storing *)

(** [ubjValToBson] appends at most one element to the builder [ob].
    [toBson] is [ubjToBson], which it calls on containers. *)
Definition ubjValToBson_with (toBson : ubj -> option doc)
    (key : string) (val : ubj) (ob : doc) : option doc :=
  match val with
  | UObject _ => d ← toBson val; Some (ob ++ [(key, BObject d)])
  | UArray _ | UBuffer _ =>
      if decide (ubj_bufferSize val <> 0)
      then Some (ob ++ [(key, BBinData (default [] (ubj_buffer val)))])
      else d ← toBson val; Some (ob ++ [(key, BArray d)])
  | UString _ => Some (ob ++ [(key, BString (ubj_toStr val))])
  | UInt32 _ => Some (ob ++ [(key, BInt (ubj_toInt val))])
  | UInt64 _ => Some (ob ++ [(key, BLong (ubj_toLong val))])
  | UBool _ => Some (ob ++ [(key, BBool (ubj_toBool val))])
  | _ => Some ob
  end.

(** [ubjToBson]: an object's fields keep their names, an array's elements get
    the empty name, and any other value gives the empty document. A value that
    holds a buffer is an array with no elements of its own. [None] is
    the exception that leaves the function; the [catch] inside its loops is
    for [std::runtime_error], which the builder does not throw. *)
Fixpoint ubjToBson (u : ubj) : option doc :=
  match u with
  | UObject fs =>
      (fix go (l : uobj) (ob : doc) : option doc :=
         match l with
         | [] => builder_obj ob
         | (k, v) :: l' => ob' ← ubjValToBson_with ubjToBson k v ob; go l' ob'
         end) fs []
  | UArray vs =>
      (fix go (l : list ubj) (ob : doc) : option doc :=
         match l with
         | [] => builder_obj ob
         | v :: l' => ob' ← ubjValToBson_with ubjToBson ""%string v ob; go l' ob'
         end) vs []
  | UBuffer _ => builder_obj []
  | _ => Some []
  end.

Definition ubjValToBson (key : string) (val : ubj) (ob : doc) : option doc :=
  ubjValToBson_with ubjToBson key val ob.

(** ** Reading back *)

Fixpoint bsonToUbj (ele : bson) : ubj :=
  match ele with
  | BObject d =>
      UObject ((fix go (l : doc) (res : uobj) : uobj :=
                  match l with
                  | [] => res
                  | (k, e) :: l' => go l' (ubj_assign k (bsonToUbj e) res)
                  end) d [])
  | BArray d =>
      UArray ((fix go (l : doc) : list ubj :=
                 match l with
                 | [] => []
                 | (_, e) :: l' => bsonToUbj e :: go l'
                 end) d)
  | BString _ => UString (bson_str ele)
  | BInt _ => UInt32 (i32 (numberInt ele))
  | BLong _ => UInt64 (numberLong ele)
  | BDouble bits => UDouble bits
  | BBool b => UBool b
  | BBinData _ =>
      match bson_binData ele with
      | Some bs =>
          if decide (length bs <> 0%nat) then
            if buffer_create_ok (Z.of_nat (length bs)) then UBuffer bs else UNull
          else UNull
      | None => UNull
      end
  | BEOO | BOther _ => UNull
  end.

Definition bsonObjToUbj (d : doc) : uobj :=
  foldl (fun res p => ubj_assign p.1 (bsonToUbj p.2) res) [] d.

Definition bsonArrToUbj (d : doc) : list ubj := map (fun p => bsonToUbj p.2) d.
End codec.

(** ** Equality up to the order of an object's fields

    Two objects are interchangeable when every field name finds the same value;
    the order a container iterates its fields in is not part of the value. *)

Inductive ubj_equiv : Equiv ubj :=
| equiv_same u : u ≡ u
| equiv_array vs ws : Forall2 (≡) vs ws -> UArray vs ≡ UArray ws
| equiv_object fs gs :
    (forall k, option_Forall2 (≡) (field k fs) (field k gs)) -> UObject fs ≡ UObject gs.
#[export] Existing Instance ubj_equiv.

Lemma field_Forall {P : ubj -> Prop} fs k v :
  Forall (fun p : string * ubj => P p.2) fs -> field k fs = Some v -> P v.
Proof. intros HF Hk%field_Some_elem. rewrite Forall_forall in HF. exact (HF _ Hk). Qed.

Lemma ubj_equiv_sym (u v : ubj) : u ≡ v -> v ≡ u.
Proof.
  revert v. induction u as [| | | | | | |vs IH|fs IH] using ubj_deep_ind;
    intros v Hv; inversion Hv as [?|? ws HF|? gs HF]; subst; try constructor.
  - clear Hv. revert IH. induction HF; inversion_clear 1; constructor; auto.
  - intros k. specialize (HF k). destruct (field k fs) eqn:E; inversion HF; subst; constructor.
    by apply (field_Forall (P := fun u => forall v, u ≡ v -> v ≡ u) fs k u IH E).
Qed.

Lemma ubj_equiv_trans (u v w : ubj) : u ≡ v -> v ≡ w -> u ≡ w.
Proof.
  revert v w. induction u as [| | | | | | |vs IH|fs IH] using ubj_deep_ind;
    intros v w Hv Hw; inversion Hv as [?|? ws HF|? gs HF]; subst; try done.
  - inversion Hw as [?|? xs HG|]; subst; [done|]. constructor.
    clear Hv Hw. revert xs HG IH. induction HF; inversion_clear 1; inversion_clear 1;
      constructor; eauto.
  - inversion Hw as [?| |? hs HG]; subst; [done|]. constructor. intros k.
    specialize (HF k). specialize (HG k).
    destruct (field k fs) eqn:E; inversion HF; subst;
      match goal with H : _ = field k gs |- _ => rewrite <- H in HG end;
      inversion HG; subst; constructor.
    eapply (field_Forall (P := fun u => forall v w, u ≡ v -> v ≡ w -> u ≡ w) fs k u IH E); eauto.
Qed.

#[export] Instance ubj_equivalence : Equivalence (≡@{ubj}).
Proof.
  split; [intros u; apply equiv_same|exact ubj_equiv_sym|exact ubj_equiv_trans].
Qed.

Definition uobj_equiv (o1 o2 : uobj) : Prop := UObject o1 ≡ UObject o2.

Lemma uobj_equiv_field o1 o2 k : uobj_equiv o1 o2 -> option_Forall2 (≡) (field k o1) (field k o2).
Proof.
  unfold uobj_equiv. intros E. inversion E as [?| |? ? HF]; subst; [|by apply HF].
  destruct (field k o2); constructor. reflexivity.
Qed.

#[export] Instance uobj_equivalence : Equivalence uobj_equiv.
Proof.
  unfold uobj_equiv. split; [intros o|intros o o'|intros o o' o'']; [reflexivity|by symmetry|by etrans].
Qed.

#[export] Instance ubj_get_proper `{UbjApi} :
  Proper (uobj_equiv ==> eq ==> (≡)) ubj_get.
Proof.
  intros o o' E k ? <-. unfold ubj_get. by destruct (uobj_equiv_field o o' k E).
Qed.

#[export] Instance hasField_proper : Proper (uobj_equiv ==> eq ==> eq) hasField.
Proof.
  intros o o' E k ? <-. unfold hasField. by destruct (uobj_equiv_field o o' k E).
Qed.

(** ** Round trip *)

Section roundtrip.
Context `{UbjLaws} `{BsonLaws}.

(** The values [ubjValToBson] has a case for, nested through arrays and
    objects: no floating point number, no null, no empty buffer. *)
Inductive storable : ubj -> Prop :=
| storable_bool b : storable (UBool b)
| storable_int32 z : is_i32 z -> storable (UInt32 z)
| storable_int64 z : storable (UInt64 z)
| storable_string s : storable (UString s)
| storable_buffer bs :
    bs <> [] -> buffer_create_ok (Z.of_nat (length bs)) = true -> storable (UBuffer bs)
| storable_array vs : Forall storable vs -> storable (UArray vs)
| storable_object fs :
    NoDup fs.*1 -> Forall (fun p => storable p.2) fs -> storable (UObject fs).

(** The loop bodies of [ubjToBson] run over the fields (elements). *)
Fixpoint append_fields (l : uobj) (ob : doc) : option doc :=
  match l with
  | [] => builder_obj ob
  | (k, v) :: l' => ob' ← ubjValToBson k v ob; append_fields l' ob'
  end.

Lemma ubjToBson_object fs : ubjToBson (UObject fs) = append_fields fs [].
Proof.
  change (ubjToBson (UObject fs)) with
    ((fix go (l : uobj) (ob : doc) : option doc :=
        match l with
        | [] => builder_obj ob
        | (k, v) :: l' => ob' ← ubjValToBson_with ubjToBson k v ob; go l' ob'
        end) fs []).
  generalize ([] : doc). induction fs as [|[k v] fs IH]; intros ob; simpl; [done|].
  unfold ubjValToBson. destruct (ubjValToBson_with ubjToBson k v ob); simpl; auto.
Qed.

Lemma ubjToBson_array vs : ubjToBson (UArray vs) = append_fields (pair ""%string <$> vs) [].
Proof.
  change (ubjToBson (UArray vs)) with
    ((fix go (l : list ubj) (ob : doc) : option doc :=
        match l with
        | [] => builder_obj ob
        | v :: l' => ob' ← ubjValToBson_with ubjToBson ""%string v ob; go l' ob'
        end) vs []).
  generalize ([] : doc). induction vs as [|v vs IH]; intros ob; simpl; [done|].
  unfold ubjValToBson. destruct (ubjValToBson_with ubjToBson _ v ob); simpl; auto.
Qed.

Lemma bsonToUbj_object d : bsonToUbj (BObject d) = UObject (bsonObjToUbj d).
Proof.
  simpl. f_equal. unfold bsonObjToUbj. generalize ([] : uobj).
  induction d as [|[k e] d IH]; intros res; simpl; auto.
Qed.

Lemma bsonToUbj_array d : bsonToUbj (BArray d) = UArray (bsonArrToUbj d).
Proof.
  simpl. f_equal. unfold bsonArrToUbj. induction d as [|[k e] d IH]; simpl; [done|]. by f_equal.
Qed.

Lemma bufferSize_array vs : ubj_bufferSize (UArray vs) = 0.
Proof. by rewrite bufferSize_buffer, buffer_array. Qed.

Lemma bufferSize_nonempty bs : bs <> [] -> ubj_bufferSize (UBuffer bs) <> 0.
Proof. rewrite bufferSize_buffer, buffer_buffer. destruct bs; simpl; [done|lia]. Qed.

(** One element is appended, under the same name, and reads back. *)
Definition stores_back (u : ubj) : Prop :=
  storable u -> forall k ob ob', ubjValToBson k u ob = Some ob' ->
  exists e, ob' = ob ++ [(k, e)] /\ bsonToUbj e ≡ u.

(** A field and the element it was stored as. *)
Definition stored_as (p : string * ubj) (q : string * bson) : Prop :=
  p.1 = q.1 /\ bsonToUbj q.2 ≡ p.2.

Lemma append_fields_stored l ob d :
  Forall (fun p => stores_back p.2) l -> Forall (fun p => storable p.2) l ->
  append_fields l ob = Some d -> exists d', d = ob ++ d' /\ Forall2 stored_as l d'.
Proof.
  revert ob d. induction l as [|[k v] l IH]; intros ob d HB HS; simpl.
  { unfold builder_obj. destruct (builder_accepts ob); intros [= <-].
    exists []. by rewrite app_nil_r. }
  apply Forall_cons in HB as [HB1 HB2], HS as [HS1 HS2].
  destruct (ubjValToBson k v ob) as [ob'|] eqn:E; simpl; [|done]. intros Hd.
  destruct (HB1 HS1 _ _ _ E) as (e & -> & He).
  destruct (IH _ _ HB2 HS2 Hd) as (d' & -> & HF).
  exists ((k, e) :: d'). split; [by rewrite <- app_assoc|]. by constructor.
Qed.

Lemma stored_as_names fs d : Forall2 stored_as fs d -> d.*1 = fs.*1.
Proof. induction 1 as [|p q l d [Hk _] _ IH]; csimpl; [done|by f_equal]. Qed.

Lemma field_reverse {V} k (l : list (string * V)) :
  NoDup l.*1 -> field k (reverse l) = field k l.
Proof.
  intros Hn. destruct (field k l) as [v|] eqn:E.
  - apply field_elem_Some.
    + by rewrite fmap_reverse, reverse_Permutation.
    + apply elem_of_reverse. by apply field_Some_elem.
  - apply field_None. apply field_None in E. by rewrite fmap_reverse, elem_of_reverse.
Qed.

Lemma field_bsonObjToUbj d k :
  NoDup d.*1 -> field k (bsonObjToUbj d) = bsonToUbj <$> field k d.
Proof.
  intros Hn. unfold bsonObjToUbj.
  assert (Hmap : foldl (fun res p => ubj_assign p.1 (bsonToUbj p.2) res) [] d =
                 UBJ_OBJ (prod_map id bsonToUbj <$> d)).
  { unfold UBJ_OBJ. generalize ([] : uobj).
    induction d as [|[k' e] d IH]; intros o; simpl; [done|]. apply IH.
    by apply NoDup_cons in Hn as []. }
  rewrite Hmap, field_UBJ_OBJ, field_reverse.
  - clear. induction d as [|[k' e] d IH]; simpl; [done|]. by case_decide.
  - by rewrite <- list_fmap_compose.
Qed.

Lemma field_bsonObjToUbj_None d k : field k d = None -> field k (bsonObjToUbj d) = None.
Proof.
  intros Hk. apply field_None in Hk. unfold bsonObjToUbj.
  assert (Ho : field k ([] : uobj) = None) by done. revert Ho. generalize ([] : uobj).
  induction d as [|[k' e] d IH]; intros o Ho; simpl; [done|].
  apply not_elem_of_cons in Hk as [Hne Hk]. apply IH; [done|].
  by rewrite field_assign_ne.
Qed.

Lemma stored_as_object fs d :
  NoDup fs.*1 -> Forall2 stored_as fs d -> uobj_equiv (bsonObjToUbj d) fs.
Proof.
  intros Hn HF. constructor. intros k. rewrite field_bsonObjToUbj.
  2: by rewrite (stored_as_names _ _ HF).
  clear Hn. induction HF as [|[k1 v] [k2 e] fs d [Hk He] HF IH]; simpl in *; [constructor|].
  subst k2. case_decide; [by constructor|done].
Qed.

Lemma stored_as_array vs d :
  Forall2 stored_as (pair ""%string <$> vs) d -> Forall2 (≡) (bsonArrToUbj d) vs.
Proof.
  revert d. induction vs as [|v vs IH]; intros d; inversion 1 as [|? ? ? ? [_ Hst]]; subst;
    constructor; auto.
Qed.

Lemma stores_back_all u : stores_back u.
Proof.
  induction u as [|b|z|z|z|s|bs|vs IH|fs IH] using ubj_deep_ind;
    intros HS k ob ob'; unfold ubjValToBson; cbn [ubjValToBson_with];
    inversion HS as [| | | |? Hne Hok|? HF|? Hn HF]; subst; rewrite ?toBool_bool, ?toInt_int32, ?toLong_int64, ?toStr_string.
  - intros [= <-]. by eexists.
  - intros [= <-]. eexists. split; [done|]. simpl. by rewrite numberInt_int, i32_id.
  - intros [= <-]. eexists. split; [done|]. simpl. by rewrite numberLong_long.
  - intros [= <-]. eexists. split; [done|]. simpl. by rewrite bson_str_string.
  - rewrite decide_True by (by apply bufferSize_nonempty). rewrite buffer_buffer.
    intros [= <-]. eexists. split; [done|]. simpl. rewrite bson_binData_bin.
    rewrite decide_True by (by destruct bs). by rewrite Hok.
  - rewrite decide_False by (rewrite bufferSize_array; lia).
    destruct (ubjToBson (UArray vs)) as [d|] eqn:E; simpl; [|done]. intros [= <-].
    eexists. split; [done|]. rewrite bsonToUbj_array. rewrite ubjToBson_array in E.
    constructor. apply append_fields_stored in E as (d' & -> & HF').
    + by apply stored_as_array.
    + by apply Forall_fmap.
    + by apply Forall_fmap.
  - destruct (ubjToBson (UObject fs)) as [d|] eqn:E; simpl; [|done]. intros [= <-].
    eexists. split; [done|]. rewrite bsonToUbj_object. rewrite ubjToBson_object in E.
    apply append_fields_stored in E as (d' & -> & HF'); [|done..].
    by apply stored_as_object.
Qed.

Lemma append_fields_total l ob :
  (forall d, builder_accepts d = true) ->
  Forall (fun p => forall k ob, is_Some (ubjValToBson k p.2 ob)) l ->
  is_Some (append_fields l ob).
Proof.
  intros Hacc. revert ob. induction l as [|[k v] l IH]; intros ob HF; simpl.
  { unfold builder_obj. by rewrite Hacc. }
  apply Forall_cons in HF as [Hv HF]. destruct (Hv k ob) as [ob' Hob']. simpl in Hob'.
  rewrite Hob'. simpl. by apply IH.
Qed.

Lemma ubjValToBson_total u :
  (forall d, builder_accepts d = true) ->
  is_Some (ubjToBson u) /\ forall k ob, is_Some (ubjValToBson k u ob).
Proof.
  intros Hacc. induction u as [|b|z|z|z|s|bs|vs IH|fs IH] using ubj_deep_ind;
    try (split; [|intros k ob]; by eexists).
  - split; [simpl; unfold builder_obj; rewrite Hacc; by eexists|].
    intros k ob. unfold ubjValToBson. simpl. unfold builder_obj. rewrite Hacc. simpl.
    case_decide; by eexists.
  - assert (Hd : is_Some (ubjToBson (UArray vs))).
    { rewrite ubjToBson_array. apply append_fields_total; [done|]. apply Forall_fmap.
      eapply Forall_impl; [exact IH|]. by intros v [_ Hv]. }
    split; [done|]. intros k ob. unfold ubjValToBson. cbn [ubjValToBson_with].
    case_decide; [by eexists|]. destruct Hd as [d ->]. by eexists.
  - assert (Hd : is_Some (ubjToBson (UObject fs))).
    { rewrite ubjToBson_object. apply append_fields_total; [done|].
      eapply Forall_impl; [exact IH|]. by intros p [_ Hv]. }
    split; [done|]. intros k ob. unfold ubjValToBson. cbn [ubjValToBson_with].
    destruct Hd as [d ->]. by eexists.
Qed.

(** The names a document gets are those of fields with a supported type. *)
Definition unsupported (v : ubj) : bool :=
  match v with UNull | UDouble _ => true | _ => false end.

Lemma ubjValToBson_names k v ob ob' :
  ubjValToBson k v ob = Some ob' ->
  ob'.*1 = ob.*1 ++ (if unsupported v then [] else [k]).
Proof.
  unfold ubjValToBson. destruct v; cbn [ubjValToBson_with unsupported];
    try case_decide; try (destruct (ubjToBson _); simpl; [|done]);
    intros [= <-]; by rewrite ?app_nil_r, ?fmap_app.
Qed.

Lemma append_fields_names l ob d k :
  append_fields l ob = Some d -> k ∈ d.*1 ->
  k ∈ ob.*1 \/ exists v, (k, v) ∈ l /\ unsupported v = false.
Proof.
  revert ob. induction l as [|[k' v] l IH]; intros ob; simpl.
  { unfold builder_obj. destruct (builder_accepts ob); [|done]. intros [= <-]. by left. }
  destruct (ubjValToBson k' v ob) as [ob'|] eqn:E; simpl; [|done]. intros Hd Hk.
  destruct (IH _ Hd Hk) as [Hob|(v' & Hin & Hu)]; [|right; exists v'; split; [by right|done]].
  rewrite (ubjValToBson_names _ _ _ _ E) in Hob. apply elem_of_app in Hob as [Hob|Hob]; [by left|].
  right. exists v. destruct (unsupported v); [by apply elem_of_nil in Hob|].
  apply list_elem_of_singleton in Hob as ->. split; [left|done].
Qed.

Lemma codec_roundtrip_spec fs :
  storable (UObject fs) ->
  (forall d, ubjToBson (UObject fs) = Some d -> uobj_equiv (bsonObjToUbj d) fs) /\
  ((forall d, builder_accepts d = true) -> is_Some (ubjToBson (UObject fs))).
Proof.
  intros HS. split; [|intros Hacc; by apply ubjValToBson_total].
  intros d Hd. inversion HS as [| | | | | |? Hn HF]; subst.
  rewrite ubjToBson_object in Hd.
  apply append_fields_stored in Hd as (d' & -> & HF'); [|by apply Forall_true; intros p; apply stores_back_all|done].
  by apply stored_as_object.
Qed.

(** C24: An object whose values [ubjValToBson] has a case for, stored by [ubjToBson]
    and read back by [bsonObjToUbj], is the same object: every field name finds an
    equal value, through nested objects and arrays. Storing fails only when the
    document builder rejects a document. *)
Theorem codec_roundtrip fs :
  storable (UObject fs) ->
  (forall d, ubjToBson (UObject fs) = Some d -> uobj_equiv (bsonObjToUbj d) fs) /\
  ((forall d, builder_accepts d = true) -> is_Some (ubjToBson (UObject fs))).
Proof. apply codec_roundtrip_spec. Qed.

(** A floating point (or null) field of an object does not survive storage:
    [ubjValToBson] has no case for it and the object read back lacks the field, although
    [bsonToUbj] reads a [NumberDouble]. *)
Lemma codec_drops_double fs k v d :
  NoDup fs.*1 -> field k fs = Some v -> unsupported v = true ->
  ubjToBson (UObject fs) = Some d ->
  hasField (bsonObjToUbj d) k = false /\
  forall bits, bsonToUbj (BDouble bits) = UDouble bits.
Proof.
  intros Hn Hf Hu Hd. split; [|done]. rewrite ubjToBson_object in Hd.
  unfold hasField. rewrite (proj2 (field_None k _)); [done|].
  assert (Hk : k ∉ d.*1).
  { intros Hk. destruct (append_fields_names _ _ _ _ Hd Hk) as [Hk'|(v' & Hin & Hu')].
    - by apply elem_of_nil in Hk'.
    - rewrite (field_elem_Some k v' fs Hn Hin) in Hf. congruence. }
  by apply field_None, field_bsonObjToUbj_None, field_None.
Qed.
End roundtrip.
