(* ===== verification/Pool.v ===== *)
(** * The database connection pool

    [DB::m_connections], [DB::acquire], [DB::getConnection] and the lifetime of
    [DB::Connection::Lock] (src/db.cpp). The worker threads run these
    concurrently, so the pool is a step relation over the shared queue and a
    program counter per thread; each step is one critical section of the code. *)

From stdpp Require Import relations.
From S2P Require Import Prelude.

(** A [Connection::Pointer], by identity. *)
Abbreviation conn := nat.

(** [DB::getConnection]: the front of the queue, or a null pointer. *)
Definition getConnection (connections : list conn) : option conn * list conn :=
  match connections with
  | c :: q => (Some c, q)
  | [] => (None, [])
  end.

(** [DB::Connection::init] over what the mongo client did: [None] is an
    exception, the answer of [auth] is not looked at. *)
Definition Connection_init (connect : option unit) (auth : option bool) (gridfs : option unit)
    : bool :=
  match connect, auth, gridfs with
  | Some _, Some _, Some _ => true
  | _, _, _ => false
  end.

(** [DB::Connection::create]: the connection, by the number it will have. *)
Definition Connection_create (i : conn) (connect : option unit) (auth : option bool)
    (gridfs : option unit) : option conn :=
  if negb (Connection_init connect auth gridfs) then None else Some i.

(** A connection whose user the database refused is handed out like any other. *)
Lemma Connection_create_auth i connect ok ok' gridfs :
  Connection_create i connect (Some ok) gridfs = Connection_create i connect (Some ok') gridfs.
Proof. done. Qed.

(** [DB::startup]: the loop creating [numConnections] connections, of which
    [created i] says whether the [i]-th [Connection::create] gives one. It
    returns false at the first that does not, and keeps those pushed before. *)
Fixpoint startup_loop (created : nat -> bool) (i n : nat) (connections : list conn)
    : bool * list conn :=
  match n with
  | O => (true, connections)
  | S n' => if created i then startup_loop created (S i) n' (connections ++ [i])
            else (false, connections)
  end.

Definition DB_startup (client_ok : bool) (created : nat -> bool) (numConnections : nat)
    : bool * list conn :=
  if client_ok then startup_loop created 0 numConnections [] else (false, []).

(** ** Threads *)

Inductive pc :=
| Outside                 (** not using the database *)
| Missed                  (** [acquire]: the first [getConnection] found none *)
| Waiting                 (** in [m_condition.wait_for] *)
| Woken                   (** the wait ended, by a notification or by the timeout *)
| Holding (c : conn)      (** owns a [Lock] on [c] *)
| Pushed                  (** [Lock::unlock]: pushed the connection, not notified yet *)
| NoLock.                 (** [acquire] returned a null [Lock] *)

Record pool := Pool { p_queue : list conn; p_threads : gmap nat pc }.

Inductive pool_step : pool -> pool -> Prop :=
| step_acquire p t c q :
    p_threads p !! t = Some Outside -> getConnection (p_queue p) = (Some c, q) ->
    pool_step p (Pool q (<[t := Holding c]> (p_threads p)))
| step_miss p t q :
    p_threads p !! t = Some Outside -> getConnection (p_queue p) = (None, q) ->
    pool_step p (Pool q (<[t := Missed]> (p_threads p)))
| step_wait p t :
    p_threads p !! t = Some Missed ->
    pool_step p (Pool (p_queue p) (<[t := Waiting]> (p_threads p)))
| step_timeout p t :
    p_threads p !! t = Some Waiting ->
    pool_step p (Pool (p_queue p) (<[t := Woken]> (p_threads p)))
| step_retry p t c q :
    p_threads p !! t = Some Woken -> getConnection (p_queue p) = (Some c, q) ->
    pool_step p (Pool q (<[t := Holding c]> (p_threads p)))
| step_fail p t q :
    p_threads p !! t = Some Woken -> getConnection (p_queue p) = (None, q) ->
    pool_step p (Pool q (<[t := NoLock]> (p_threads p)))
| step_unlock p t c :
    p_threads p !! t = Some (Holding c) ->
    pool_step p (Pool (p_queue p ++ [c]) (<[t := Pushed]> (p_threads p)))
| step_notify_none p t :
    p_threads p !! t = Some Pushed ->
    (forall t', p_threads p !! t' <> Some Waiting) ->
    pool_step p (Pool (p_queue p) (<[t := Outside]> (p_threads p)))
| step_notify_one p t t' :
    p_threads p !! t = Some Pushed -> p_threads p !! t' = Some Waiting ->
    pool_step p (Pool (p_queue p) (<[t' := Woken]> (<[t := Outside]> (p_threads p)))).

(** The pool [DB::startup] leaves and [threads] threads that have not used it. *)
Definition pool_init (connections : list conn) (threads : nat) : pool :=
  Pool connections (list_to_map ((fun t => (t, Outside)) <$> seq 0 threads)).

Definition pool_reachable (connections : list conn) (threads : nat) (p : pool) : Prop :=
  rtc pool_step (pool_init connections threads) p.

(** ** The connections threads hold *)

Definition holding (c : pc) : list conn :=
  match c with Holding c => [c] | _ => [] end.

Definition held (m : gmap nat pc) : list conn := map_to_list m ≫= fun p => holding p.2.

Lemma held_split m t c : m !! t = Some c -> held m ≡ₚ holding c ++ held (delete t m).
Proof.
  intros Ht. unfold held. rewrite <- (insert_delete_id m t c Ht) at 1.
  by rewrite map_to_list_insert by apply lookup_delete_eq.
Qed.

Lemma held_insert m t c : held (<[t := c]> m) ≡ₚ holding c ++ held (delete t m).
Proof. rewrite (held_split _ t c) by apply lookup_insert_eq. by rewrite delete_insert_eq. Qed.

Lemma held_update m t c c' :
  m !! t = Some c -> holding c = [] -> holding c' = [] -> held (<[t := c']> m) ≡ₚ held m.
Proof. intros Ht H1 H2. by rewrite held_insert, (held_split m t c Ht), H1, H2. Qed.

Lemma held_elem m t c : m !! t = Some (Holding c) -> c ∈ held m.
Proof. intros Ht. rewrite (held_split m t _ Ht). set_solver. Qed.

Lemma held_init n : held (p_threads (pool_init [] n)) = [].
Proof.
  unfold held, pool_init. simpl.
  assert (HF : Forall (fun p => p.2 = Outside)
    (map_to_list (list_to_map ((fun t => (t, Outside)) <$> seq 0 n) : gmap nat pc))).
  { apply Forall_forall. intros [t c] Hin%elem_of_map_to_list.
    apply elem_of_list_to_map_2 in Hin. apply list_elem_of_fmap in Hin as (? & [= -> ->] & _). done. }
  revert HF. generalize (map_to_list (list_to_map ((fun t => (t, Outside)) <$> seq 0 n) : gmap nat pc)).
  induction 1 as [|p l Hp _ IH]; [done|]. rewrite bind_cons, Hp. exact IH.
Qed.

(** What is in the queue and what is held are together the connections the pool
    started with, each once. *)
Definition pool_conserves (connections : list conn) (p : pool) : Prop :=
  p_queue p ++ held (p_threads p) ≡ₚ connections.

Lemma getConnection_some q c q' : getConnection q = (Some c, q') -> q = c :: q'.
Proof. destruct q; [done|]. by intros [= -> ->]. Qed.

Lemma getConnection_none q q' : getConnection q = (None, q') -> q = [] /\ q' = [].
Proof. destruct q; [|done]. by intros [= <-]. Qed.

Lemma pool_conserves_step connections p p' :
  pool_conserves connections p -> pool_step p p' -> pool_conserves connections p'.
Proof.
  unfold pool_conserves. intros Hc Hs. rewrite <- Hc.
  destruct Hs as [p t c q Ht Hq|p t q Ht Hq|p t Ht|p t Ht|p t c q Ht Hq|p t q Ht Hq|p t c Ht
    |p t Ht _|p t t' Ht Ht']; simpl;
    try (apply getConnection_some in Hq as ->); try (apply getConnection_none in Hq as [-> ->]);
    try (by rewrite held_update by done).
  - rewrite held_insert, (held_split _ t _ Ht). simpl. by rewrite Permutation_middle.
  - rewrite held_insert, (held_split _ t _ Ht). simpl. by rewrite Permutation_middle.
  - rewrite held_insert, (held_split _ t _ Ht). simpl. by rewrite <- app_assoc.
  - assert (t <> t') by congruence. rewrite (held_update _ t' Waiting);
      [by rewrite (held_update _ t Pushed)|by rewrite lookup_insert_ne|done|done].
Qed.

Lemma pool_conserves_reachable connections n p :
  pool_reachable connections n p -> pool_conserves connections p.
Proof.
  intros Hr. unfold pool_reachable in Hr.
  assert (H0 : pool_conserves connections (pool_init connections n)).
  { unfold pool_conserves. simpl. change (p_threads _) with (p_threads (pool_init [] n)).
    pose proof (held_init n) as Hh. simpl in Hh. by rewrite Hh, app_nil_r. }
  induction Hr as [|p p' p'' Hs _ IH]; [done|].
  apply IH. by eapply pool_conserves_step.
Qed.

(** ** Start-up *)

Lemma startup_loop_spec created i n q b q' :
  startup_loop created i n q = (b, q') ->
  exists k, (k <= n)%nat /\ q' = q ++ seq i k /\ (b = true <-> k = n) /\
    Forall (fun j => created j = true) (seq i k) /\
    (b = false -> created (i + k)%nat = false).
Proof.
  revert i q. induction n as [|n IH]; intros i q; simpl.
  { intros [= <- <-]. exists 0%nat. by rewrite app_nil_r. }
  destruct (created i) eqn:E.
  - intros (k & Hk & -> & Hb & HF & Hc)%IH. exists (S k). simpl.
    rewrite <- app_assoc. split_and!; try done; [lia|rewrite Hb; lia|by constructor|].
    intros Hf. rewrite Nat.add_succ_r. by apply Hc.
  - intros [= <- <-]. exists 0%nat. rewrite app_nil_r, Nat.add_0_r.
    split_and!; try done; lia.
Qed.

(** [DB::startup] succeeds exactly when the client library initialises and every
    connection can be created; it then leaves the requested number of distinct
    connections in the queue. On failure it leaves those created before the failing one. *)
Lemma startup_connections client_ok created n b q :
  DB_startup client_ok created n = (b, q) ->
  (b = true <-> client_ok = true /\ Forall (fun j => created j = true) (seq 0 n)) /\
  (b = true -> q = seq 0 n) /\ NoDup q /\ (length q <= n)%nat.
Proof.
  unfold DB_startup. destruct client_ok.
  - intros (k & Hk & -> & Hb & HF & Hc)%startup_loop_spec. simpl.
    split_and!.
    + rewrite Hb. split; [intros ->; done|]. intros [_ Hall].
      destruct (decide (k = n)) as [|Hne]; [done|].
      assert (b = false) as Hb' by (destruct b; tauto).
      specialize (Hc Hb'). rewrite Forall_forall in Hall.
      rewrite Hall in Hc; [done|]. apply elem_of_seq. lia.
    + intros ->%Hb. done.
    + apply NoDup_seq.
    + rewrite length_seq. lia.
  - intros [= <- <-]. split_and!; [naive_solver|done|constructor|simpl; lia].
Qed.

(** C32: The pool hands each connection to at most one thread at a time: in every
    interleaving of the worker threads' [acquire] and unlock steps, the queue and the held
    connections are together exactly those created at start-up, so a held connection is
    neither free nor held by another thread. *)
Theorem pool_exclusive connections threads p :
  NoDup connections -> pool_reachable connections threads p ->
  p_queue p ++ held (p_threads p) ≡ₚ connections /\
  forall t c, p_threads p !! t = Some (Holding c) ->
    c ∉ p_queue p /\ forall t', t' <> t -> p_threads p !! t' <> Some (Holding c).
Proof.
  intros Hn Hr. pose proof (pool_conserves_reachable _ _ _ Hr) as Hc.
  split; [done|]. intros t c Ht. unfold pool_conserves in Hc. rewrite <- Hc in Hn.
  rewrite (held_split _ t _ Ht) in Hn. simpl in Hn.
  rewrite <- Permutation_middle in Hn. apply NoDup_cons in Hn as [Hc' Hn].
  apply not_elem_of_app in Hc' as [Hq Hd]. split; [done|].
  intros t' Hne Ht'. apply Hd. apply (held_elem _ t' c). by rewrite lookup_delete_ne.
Qed.

Lemma length_held m : (length (held m) <= size m)%nat.
Proof.
  rewrite <- length_map_to_list. unfold held. induction (map_to_list m) as [|p l IH]; [done|].
  rewrite bind_cons, length_app. simpl. destruct p.2; simpl; lia.
Qed.

(** With a connection for every thread nobody ever misses. *)
Definition never_missed (p : pool) : Prop :=
  forall t c, p_threads p !! t = Some c -> c = Outside \/ c = Pushed \/ exists k, c = Holding k.

Lemma never_missed_insert p t c :
  never_missed p -> c = Outside \/ c = Pushed \/ (exists k, c = Holding k) ->
  forall q', never_missed (Pool q' (<[t := c]> (p_threads p))).
Proof.
  intros Hm Hc q' t' c' Ht'. simpl in Ht'. apply lookup_insert_Some in Ht' as [[_ <-]|[_ Ht']]; eauto.
Qed.

Lemma size_pool_step p p' : pool_step p p' -> size (p_threads p') = size (p_threads p).
Proof.
  destruct 1; simpl; rewrite ?map_size_insert_Some; try done; eauto.
  rewrite lookup_insert. case_decide; eauto.
Qed.

Lemma never_missed_step connections p p' :
  (size (p_threads p) <= length connections)%nat -> pool_conserves connections p ->
  never_missed p -> pool_step p p' -> never_missed p'.
Proof.
  intros Hsz Hc Hm Hs.
  destruct Hs as [p t c q Ht Hq|p t q Ht Hq|p t Ht|p t Ht|p t c q Ht Hq|p t q Ht Hq|p t c Ht
    |p t Ht _|p t t' Ht Ht']; simpl in *;
    try (by destruct (Hm _ _ Ht) as [|[|[]]]); try (by destruct (Hm _ _ Ht') as [|[|[]]]);
    try (eapply never_missed_insert; [exact Hm|by eauto]).
  exfalso. apply getConnection_none in Hq as [Hq ->]. unfold pool_conserves in Hc.
  rewrite Hq in Hc. simpl in Hc. apply Permutation_length in Hc. rewrite (held_split _ t _ Ht) in Hc. simpl in Hc.
  pose proof (length_held (delete t (p_threads p))) as Hl.
  rewrite map_size_delete_Some in Hl by eauto.
  assert (size (p_threads p) <> 0%nat).
  { apply (map_size_ne_0_lookup_2 _ t). eauto. }
  lia.
Qed.

Lemma pool_init_lookup q n t c : p_threads (pool_init q n) !! t = Some c -> c = Outside /\ (t < n)%nat.
Proof.
  simpl. intros Ht%elem_of_list_to_map_2. apply list_elem_of_fmap in Ht as (t' & [= -> ->] & Hin).
  apply elem_of_seq in Hin. split; [done|lia].
Qed.

Lemma pool_init_size q n : size (p_threads (pool_init q n)) = n.
Proof.
  simpl. rewrite map_size_list_to_map.
  - by rewrite length_fmap, length_seq.
  - rewrite <- list_fmap_compose.
    assert (E : fst ∘ (fun t => (t, Outside)) <$> seq 0 n = seq 0 n) by exact (list_fmap_id _).
    rewrite E. apply NoDup_seq.
Qed.

(** C33: With at least as many connections as threads, [DB::acquire] always finds a
    connection at its first attempt: no thread ever waits on the condition variable and
    none is ever given a null [Lock], in any interleaving. (The server starts 25
    connections; its default is 20 worker threads.) *)
Theorem pool_sufficient connections threads p t c :
  (threads <= length connections)%nat -> pool_reachable connections threads p ->
  p_threads p !! t = Some c ->
  c <> Missed /\ c <> Waiting /\ c <> Woken /\ c <> NoLock.
Proof.
  intros Hle Hr Ht.
  assert (Hinv : size (p_threads p) = threads /\ never_missed p).
  { clear Ht. unfold pool_reachable in Hr.
    apply (rtc_ind_r (fun p => pool_reachable connections threads p /\
      size (p_threads p) = threads /\ never_missed p) (pool_init connections threads)) in Hr as [_ ?];
      [done| |].
    - split_and!; [apply rtc_refl|apply pool_init_size|].
      intros t' c' Ht'. left. by eapply pool_init_lookup.
    - intros p1 p2 _ Hs (Hr1 & Hsz & Hm). split_and!.
      + by eapply rtc_r.
      + by rewrite (size_pool_step _ _ Hs).
      + eapply never_missed_step; [|by eapply pool_conserves_reachable|done|done].
        by rewrite Hsz. }
  destruct Hinv as [_ Hm]. destruct (Hm t c Ht) as [->|[->|[k ->]]]; done.
Qed.

(** With more threads than connections the condition variable does not help in
    time: the connection can be returned, and its notification sent, between a thread's
    failed [getConnection] and its wait, after which the thread sits out its ten seconds
    beside a free connection; and a wait that times out makes [acquire] return a null
    [Lock], which every caller dereferences. *)
Lemma pool_lost_wakeup :
  (exists p, pool_reachable [0%nat] 2 p /\ p_queue p = [0%nat] /\
     p_threads p !! 1%nat = Some Waiting /\ p_threads p !! 0%nat = Some Outside) /\
  (exists p t, pool_reachable [0%nat] 2 p /\ p_threads p !! t = Some NoLock).
Proof.
  assert (H1 : pool_reachable [0%nat] 2 (Pool [] {[0%nat := Holding 0; 1%nat := Missed]})).
  { eapply rtc_l; [by apply (step_acquire _ 0 0 [])|].
    eapply rtc_l; [by apply (step_miss _ 1 [])|]. simpl. apply rtc_refl. }
  split.
  - exists (Pool [0%nat] {[0%nat := Outside; 1%nat := Waiting]}). split_and!; try done.
    unfold pool_reachable; etrans; [exact H1|].
    eapply rtc_l; [by apply (step_unlock _ 0 0)|].
    eapply rtc_l; [apply (step_notify_none _ 0); [done|]|].
    { simpl. intros t' Ht'. repeat (apply lookup_insert_Some in Ht' as [[_ [=]]|[_ Ht']]).
      by apply lookup_singleton_Some in Ht' as [_ [=]]. }
    eapply rtc_l; [by apply (step_wait _ 1)|]. simpl. apply rtc_refl.
  - exists (Pool [] {[0%nat := Holding 0; 1%nat := NoLock]}), 1%nat. split; [|done].
    unfold pool_reachable; etrans; [exact H1|].
    eapply rtc_l; [by apply (step_wait _ 1)|].
    eapply rtc_l; [by apply (step_timeout _ 1)|].
    eapply rtc_l; [by apply (step_fail _ 1 [])|]. simpl. apply rtc_refl.
Qed.
