(* ===== verification/Db.v ===== *)
(** * The database operations (src/db.cpp)

    Each operation takes a connection from the pool for the length of its body
    (a [Connection::Lock] in scope) and turns an exception of the client into a
    return value. The operations run here one after the other: what the pool
    promises to concurrent threads is the subject of [Pool]. *)

From S2P Require Import Prelude Values Platform Codec Pool.

Section db.
Context `{Platform}.

(** The part of the server's state [DB] owns. *)
Record db_state := DbState { db_pool : list conn; db_mongo : mongo }.

(** [DB::acquire]: one attempt, then a wait and a second one. When no other
    thread runs nothing is returned to the pool during the wait. *)
Definition acquire : M db_state (option conn) := fun s =>
  match getConnection (db_pool s) with
  | (Some c, q) => (Ret (Some c), DbState q (db_mongo s))
  | (None, _) =>
      match getConnection (db_pool s) with
      | (Some c, q) => (Ret (Some c), DbState q (db_mongo s))
      | (None, q) => (Ret None, DbState q (db_mongo s))
      end
  end.

(** [Connection::Lock::unlock], which the destructor runs. *)
Definition unlock (c : conn) : M db_state unit :=
  modify (fun s => DbState (db_pool s ++ [c]) (db_mongo s)).

(** The scope of a [Lock]: [lock->db()] dereferences it. *)
Definition with_lock {A} (body : mongo -> A * mongo) : M db_state A :=
  let* lock := acquire in
  match lock with
  | None => fail NullDereference
  | Some c =>
      let* r := (fun s => let '(r, m) := body (db_mongo s) in (Ret r, DbState (db_pool s) m)) in
      unlock c ;;
      ret r
  end.

(** ** Accounts *)

(** [getIntField("id") + 1] is a sum of [int]s, converted to [uint32_t] when it is returned. *)
Definition newAccountId : M db_state Z :=
  let* id := with_lock (fun m =>
    match db_query "zway.accounts" [] (Some ("id"%string, -1)) 1 (Some [("id"%string, BInt 1)]) m with
    | (d :: _, _) => (int_add (getIntField (bson_get d "id")) 1, m)
    | ([], true) => (Some 1, m)
    | ([], false) => (Some 0, m)
    end) in
  match id with
  | Some id => ret (u32 id)
  | None => fail SignedOverflow
  end.

(** The output parameter [res] is the document of the result. *)
Definition getAccount (query fieldsToReturn : doc) : M db_state (option doc) :=
  with_lock (fun m => (head (db_query "zway.accounts" query None 0 (Some fieldsToReturn) m).1, m)).

(** [p1.find(p2) != npos]: [p2] occurs in [p1] at or after the start. *)
Fixpoint str_contains (p1 p2 : string) : bool :=
  String.prefix p2 p1 ||
  match p1 with
  | EmptyString => false
  | String _ p1' => str_contains p1' p2
  end.

Definition str_empty (s : string) : bool :=
  match s with EmptyString => true | _ => false end.

Definition comparePhone (p1 p2 : string) : bool :=
  if str_empty p1 || str_empty p2 then false
  else str_contains p1 p2 || str_contains p2 p1.

Definition setFcmToken (accountId : Z) (token : string) : M db_state bool :=
  with_lock (db_update "zway.accounts" [("id"%string, bson_u32 accountId)]
    [("$set"%string, BObject [("fcmToken"%string, BString token)])]).

(** [String()] throws on an account without a token, which the [catch] turns
    into the empty string. *)
Definition getFcmToken (accountId : Z) : M db_state string :=
  with_lock (fun m =>
    match head (db_query "zway.accounts" [("id"%string, bson_u32 accountId)] None 0
                  (Some [("fcmToken"%string, BInt 1)]) m).1 with
    | Some obj => (default EmptyString (bson_String (bson_get obj "fcmToken")), m)
    | None => (EmptyString, m)
    end).

Definition count_requests (accountId type : Z) : M db_state Z :=
  with_lock (fun m =>
    match db_count "zway.requests"
            [("dst"%string, bson_u32 accountId); ("type"%string, BInt type)] m with
    | Some n => (u32 n, m)
    | None => (u32 (-1), m)
    end).

Definition numContactRequests (accountId : Z) : M db_state Z := count_requests accountId 3100.

Definition numPushRequests (accountId : Z) : M db_state Z := count_requests accountId 4100.

Definition insertAccount (id : Z) (name phone : string) (findByName findByPhone : bool)
    (pass salt : list Byte.byte) : M db_state bool :=
  with_lock (db_insert "zway.accounts"
    [("id"%string, bson_u32 id);
     ("name"%string, BString name);
     ("phone"%string, BString phone);
     ("findByName"%string, BBool findByName);
     ("findByPhone"%string, BBool findByPhone);
     ("pass"%string, BBinData pass);
     ("salt"%string, BBinData salt)]).

Definition deleteAccount (info : doc) : M db_state bool := ret false.

(** ** Requests *)

(** The function returns true after the [catch] too. *)
Definition addRequest (data : doc) : M db_state bool :=
  with_lock (fun m => (true, (db_insert "zway.requests" data m).2)).

Definition deleteRequest (query : doc) : M db_state bool :=
  with_lock (db_remove "zway.requests" query true).

Definition db_requestPending (query : doc) : M db_state bool :=
  with_lock (fun m =>
    match db_count "zway.requests" query m with
    | Some n => (n =? 1, m)
    | None => (false, m)
    end).

Definition getRequest (query : doc) : M db_state (option doc) :=
  with_lock (fun m => (head (db_query "zway.requests" query None 0 None m).1, m)).

(** The documents delivered before an exception are kept. *)
Definition getRequests (query : doc) : M db_state (list doc) :=
  with_lock (fun m => ((db_query "zway.requests" query None 0 None m).1, m)).

(** The array of at most 50 accounts, as [BSONArrayBuilder] names its elements. *)
Definition getContacts (query : doc) (fieldsToReturn : option doc) : M db_state doc :=
  with_lock (fun m =>
    (imap (fun i d => (pretty i, BObject d))
       (db_query "zway.accounts" query None 50 fieldsToReturn m).1, m)).

(** One document of the loop of [getInbox]: the id is appended to its sender's
    array, which is created when the sender has none. *)
Definition inbox_step (map : gmap Z (list ubj)) (obj : doc) : gmap Z (list ubj) :=
  let src := u32 (numberInt (bson_get obj "src")) in
  let id := UInt32 (numberInt (bson_get obj "id")) in
  match map !! src with
  | None => <[src := [id]]> map
  | Some ids => <[src := ids ++ [id]]> map
  end.

Definition inbox_array (map : gmap Z (list ubj)) : list ubj :=
  (fun it => UObject (UBJ_OBJ [("contactId"%string, ubj_of_uint32 it.1);
                               ("requestIds"%string, UArray it.2)])) <$> in_key_order map.

(** [getInbox]: the array on success, [None] (a false result, the caller's
    array untouched) when the query throws. *)
Definition getInbox (accountId : Z) : M db_state (option (list ubj)) :=
  with_lock (fun m =>
    match db_query "zway.requests"
            [("dst"%string, bson_u32 accountId); ("type"%string, BInt 4100)] None 0
            (Some [("src"%string, BInt 1); ("id"%string, BInt 1)]) m with
    | (l, true) => (Some (inbox_array (foldl inbox_step ∅ l)), m)
    | (_, false) => (None, m)
    end).
End db.
Arguments db_state {_}.

(** ** Running an operation *)

Section db_run.
Context `{Platform}.

Definition db_ready (s : db_state) : Prop := db_pool s <> [].

(** An operation moves the connection it used to the back of the queue. *)
Definition rotate {A} (l : list A) : list A :=
  match l with [] => [] | x :: l' => l' ++ [x] end.

Definition used (s : db_state) (m : mongo) : db_state := DbState (rotate (db_pool s)) m.

Lemma with_lock_run {A} (body : mongo -> A * mongo) s :
  db_ready s -> with_lock body s = (Ret (body (db_mongo s)).1, used s (body (db_mongo s)).2).
Proof.
  unfold db_ready, with_lock, bindM, acquire. destruct s as [[|c q] m]; simpl; [done|].
  intros _. by destruct (body m).
Qed.

Lemma with_lock_inv {A} (body : mongo -> A * mongo) s a s' :
  with_lock body s = (Ret a, s') ->
  db_ready s /\ a = (body (db_mongo s)).1 /\ s' = used s (body (db_mongo s)).2.
Proof.
  intros Hrun. assert (Hr : db_ready s).
  { destruct s as [[|c q] m]; [done|]. by intros [=]. }
  rewrite with_lock_run in Hrun by done. injection Hrun as <- <-. done.
Qed.

Lemma with_lock_empty {A} (body : mongo -> A * mongo) m :
  with_lock body (DbState [] m) = (Fault NullDereference, DbState [] m).
Proof. done. Qed.

Lemma rotate_perm {A} (l : list A) : rotate l ≡ₚ l.
Proof. destruct l as [|x l]; [done|]. symmetry. apply Permutation_cons_append. Qed.

Lemma used_ready s m : db_ready s -> db_ready (used s m).
Proof.
  unfold db_ready. simpl. intros Hp Hr. apply Hp, Permutation_nil_r.
  by rewrite <- Hr, rotate_perm.
Qed.

(** Every operation returns the connection it took. *)
Definition pool_kept (s s' : db_state) : Prop := db_pool s' ≡ₚ db_pool s.

#[export] Instance pool_kept_preorder : PreOrder pool_kept.
Proof.
  unfold pool_kept. split; [by intros s|]. intros s1 s2 s3 H1 H2. by rewrite H2.
Qed.

Lemma with_lock_pool {A} (body : mongo -> A * mongo) : preserves pool_kept (with_lock body).
Proof.
  intros [[|c q] m]; [done|]. rewrite with_lock_run by done. apply rotate_perm.
Qed.

(** Reading operations leave the database alone. *)
Definition mongo_kept (s s' : db_state) : Prop := db_mongo s' = db_mongo s.

#[export] Instance mongo_kept_preorder : PreOrder mongo_kept.
Proof. unfold mongo_kept. split; [by intros s|]. intros s1 s2 s3. congruence. Qed.

Lemma with_lock_mongo {A} (body : mongo -> A * mongo) :
  (forall m, (body m).2 = m) -> preserves mongo_kept (with_lock body).
Proof.
  intros Hb [[|c q] m]; [done|]. rewrite with_lock_run by done. apply Hb.
Qed.

(** The writes of a collection leave the others alone. *)
Definition collection_kept (c : string) (s s' : db_state) : Prop :=
  docs c (db_mongo s') = docs c (db_mongo s).

#[export] Instance collection_kept_preorder c : PreOrder (collection_kept c).
Proof. unfold collection_kept. split; [by intros s|]. intros s1 s2 s3. congruence. Qed.
End db_run.
#[export] Hint Resolve used_ready : zway_frame.

(** ** What the operations promise *)

Section db_specs.
Context `{PlatformLaws}.

(** Accounts are stored with an integer id, as [insertAccount] writes them. *)
Definition account_ids_int (m : mongo) : Prop :=
  forall d, d ∈ docs "zway.accounts" m -> exists z, field "id" d = Some (BInt z) /\ is_i32 z.

Lemma bson_get_field d k v : field k d = Some v -> bson_get d k = v.
Proof. unfold bson_get. by intros ->. Qed.

Lemma not_op k : (match k with String a _ => bool_decide (a <> "$"%char) | _ => true end) = true ->
  not_operator k.
Proof. destruct k; [done|]. by intros ?%bool_decide_eq_true. Qed.

Definition newest_account (m : mongo) : list doc * bool :=
  db_query "zway.accounts" [] (Some ("id"%string, -1)) 1 (Some [("id"%string, BInt 1)]) m.

(** [newest_account] finds nothing when there is no account or the query throws, and else the
    account with the greatest id. *)
Lemma newest_account_cases m : account_ids_int m ->
  (exists ended, newest_account m = ([], ended) /\ (ended = true -> docs "zway.accounts" m = [])) \/
  exists d z ended, newest_account m = ([project (Some [("id"%string, BInt 1)]) d], ended) /\
    d ∈ docs "zway.accounts" m /\ field "id" d = Some (BInt z) /\ is_i32 z /\
    (forall d' z', d' ∈ docs "zway.accounts" m -> field "id" d' = Some (BInt z') -> z' <= z).
Proof.
  intros Hids. destruct (newest_account m) as [l ended] eqn:Hq.
  destruct (query_max _ _ _ _ _ _ Hq) as [[-> He]|(d & Hd & -> & Hle)].
  - left. exists ended. split; [done|]. intros E. by apply He.
  - right. destruct (Hids d Hd) as (z & Hz & Hi). exists d, z, ended. split_and!; [done..|].
    intros d' z' Hd' Hz'. by apply (Hle d' z z').
Qed.

Lemma newAccountId_eq s : db_ready s ->
  newAccountId s =
  (match newest_account (db_mongo s) with
   | (d :: _, _) => match int_add (getIntField (bson_get d "id")) 1 with
                    | Some id => Ret (u32 id) | None => Fault SignedOverflow end
   | ([], true) => Ret 1
   | ([], false) => Ret 0
   end, used s (db_mongo s)).
Proof.
  intros Hr. unfold newAccountId, bindM. rewrite with_lock_run by done.
  change (db_query _ _ _ _ _ _) with (newest_account (db_mongo s)).
  destruct (newest_account (db_mongo s)) as [[|d l] []]; cbn [fst snd]; try done.
  all: by destruct (int_add _ _).
Qed.

(** Whatever comes of it, the database is only read. *)
Lemma newAccountId_reads s : (newAccountId s).2 = (with_lock (fun m => (tt, m)) s).2.
Proof.
  destruct (decide (db_ready s)) as [Hr|Hr].
  - by rewrite newAccountId_eq, with_lock_run.
  - destruct s as [[|c q] m]; [done|]. exfalso. by apply Hr.
Qed.

Lemma newAccountId_pool : preserves pool_kept newAccountId.
Proof. intros s. rewrite newAccountId_reads. apply with_lock_pool. Qed.

(** After the account with the greatest id. *)
Lemma newAccountId_next s d z l ended : db_ready s ->
  newest_account (db_mongo s) = (project (Some [("id"%string, BInt 1)]) d :: l, ended) ->
  field "id" d = Some (BInt z) ->
  newAccountId s = (match int_add z 1 with Some id => Ret (u32 id) | None => Fault SignedOverflow end,
                    used s (db_mongo s)).
Proof.
  intros Hr Hn Hz. rewrite newAccountId_eq, Hn by done.
  rewrite (bson_get_field _ "id" (BInt z)) by (by rewrite project_field by set_solver).
  by rewrite getIntField_int.
Qed.

(** [newAccountId] gives an id that, in the signed form the database stores, is larger
    than every stored one and so not in use, as long as the largest is below the last
    signed 32-bit value; when the query throws it gives 0. The database is not changed. *)
Lemma newAccountId_fresh s :
  db_ready s -> account_ids_int (db_mongo s) ->
  (forall d, d ∈ docs "zway.accounts" (db_mongo s) -> field "id" d <> Some (BInt (2 ^ 31 - 1))) ->
  exists a, newAccountId s = (Ret a, used s (db_mongo s)) /\
    ((newest_account (db_mongo s) = ([], false) /\ a = 0) \/
     forall d z, d ∈ docs "zway.accounts" (db_mongo s) -> field "id" d = Some (BInt z) ->
       z < i32 a).
Proof.
  intros Hr Hids Hmax.
  destruct (newest_account_cases _ Hids) as [(ended & Hq & He)|(d & z & ended & Hq & Hd & Hz & Hi & Hle)].
  - rewrite newAccountId_eq, Hq by done. destruct ended; (eexists; split; [done|]); [right|by left].
    rewrite He by done. intros d z Hd. by apply elem_of_nil in Hd.
  - rewrite (newAccountId_next s d z [] ended) by done.
    assert (z <> 2 ^ 31 - 1) by (intros ->; by apply (Hmax d Hd)).
    assert (Hi' : is_i32 (z + 1)) by (unfold is_i32 in *; lia).
    rewrite int_add_some by done. eexists; split; [done|]. right.
    intros d' z' Hd' Hz'. specialize (Hle _ _ Hd' Hz'). rewrite i32_u32, i32_id by done. lia.
Qed.

(** When it overflows an account is stored whose id is the last [int]. *)
Lemma newAccountId_overflow s :
  (newAccountId s).1 = Fault SignedOverflow ->
  exists d, d ∈ docs "zway.accounts" (db_mongo s) /\ ~ is_i32 (getIntField (bson_get d "id") + 1).
Proof.
  destruct (decide (db_ready s)) as [Hr|Hr].
  2:{ destruct s as [[|c q] m]; [by intros [=]|]. exfalso. by apply Hr. }
  rewrite newAccountId_eq by done. destruct (newest_account _) as [l ended] eqn:Hq.
  destruct (query_max _ _ _ _ _ _ Hq) as [[-> _]|(d & Hd & -> & _)]; [by destruct ended|].
  cbn [fst]. destruct (int_add _ _) eqn:E; [done|]. intros _. apply int_add_inv in E.
  exists d. split; [done|]. unfold bson_get in *. by rewrite project_field in E by set_solver.
Qed.

Lemma insertAccount_true s a name phone byName byPhone pass salt s' :
  db_ready s -> insertAccount a name phone byName byPhone pass salt s = (Ret true, s') ->
  db_ready s' /\ exists d, docs "zway.accounts" (db_mongo s') ≡ₚ d :: docs "zway.accounts" (db_mongo s) /\
    field "id" d = Some (bson_u32 a) /\ field "name" d = Some (BString name).
Proof.
  intros Hr. unfold insertAccount. rewrite with_lock_run by done.
  destruct (db_insert _ _ _) as [ok m] eqn:Hi. cbn [fst snd]. intros [= -> <-].
  split; [by apply used_ready|]. apply insert_result in Hi as [(d & Hd & Hp) _].
  exists d. by rewrite !Hd.
Qed.

(** An id is not reserved by asking for it: [newAccountId] and [insertAccount] are two
    operations, and between them another thread gets the same id. Two registrations that are
    under way at the same time make two accounts with one id, when both insertions go
    through. *)
Lemma concurrent_registrations s a :
  db_ready s -> (newAccountId s).1 = Ret a ->
  let s1 := (newAccountId s).2 in
  (newAccountId s1).1 = Ret a /\
  forall name1 phone1 byName1 byPhone1 pass1 salt1 name2 phone2 byName2 byPhone2 pass2 salt2 s2 s3,
    insertAccount a name1 phone1 byName1 byPhone1 pass1 salt1 (newAccountId s1).2 = (Ret true, s2) ->
    insertAccount a name2 phone2 byName2 byPhone2 pass2 salt2 s2 = (Ret true, s3) ->
    exists d1 d2, docs "zway.accounts" (db_mongo s3) ≡ₚ d2 :: d1 :: docs "zway.accounts" (db_mongo s) /\
      field "id" d1 = Some (bson_u32 a) /\ field "id" d2 = Some (bson_u32 a) /\
      field "name" d1 = Some (BString name1) /\ field "name" d2 = Some (BString name2).
Proof.
  intros Hr Ha. cbn zeta.
  assert (E : forall s0, db_ready s0 -> db_mongo s0 = db_mongo s -> newAccountId s0 = (Ret a, used s0 (db_mongo s))).
  { intros s0 Hr0 Hm. rewrite newAccountId_eq in Ha by done.
    rewrite newAccountId_eq, Hm by done. cbn [fst] in Ha. by rewrite Ha. }
  rewrite (E s) by done. cbn [snd]. rewrite (E (used s (db_mongo s))) by (try apply used_ready; done).
  split; [done|]. intros name1 phone1 byName1 byPhone1 pass1 salt1 name2 phone2 byName2 byPhone2 pass2 salt2 s2 s3.
  intros H1 H2. apply insertAccount_true in H1 as (Hr1 & d1 & P1 & I1 & N1); [|by do 2 apply used_ready].
  apply insertAccount_true in H2 as (_ & d2 & P2 & I2 & N2); [|done].
  exists d1, d2. by rewrite P2, P1.
Qed.

(** [addRequest] always reports success. When the insert goes through the request is
    in the collection, with every field it was given; when the client throws, nothing was
    necessarily stored and the result is still true. *)
Lemma addRequest_reports_true data s :
  db_ready s ->
  let '(r, s') := addRequest data s in
  r = Ret true /\
  ((db_insert "zway.requests" data (db_mongo s)).1 = true ->
   exists d', stored_doc data d' /\
     docs "zway.requests" (db_mongo s') ≡ₚ d' :: docs "zway.requests" (db_mongo s)).
Proof.
  intros Hr. unfold addRequest. rewrite with_lock_run by done. split; [done|].
  simpl. destruct (db_insert _ _ _) as [ok m] eqn:Hi. simpl. intros ->.
  by apply insert_result in Hi as [? _].
Qed.

Lemma deleteRequest_spec query s :
  db_ready s ->
  exists ok m', db_remove "zway.requests" query true (db_mongo s) = (ok, m') /\
    deleteRequest query s = (Ret ok, used s m').
Proof.
  intros Hr. unfold deleteRequest. rewrite with_lock_run by done.
  destruct (db_remove _ _ _ _) as [ok m']. eauto.
Qed.

(** [deleteRequest] removes at most one document, one that the query matches, and
    touches no other collection. Its result says that the client did not throw, not that
    a request was there: with nothing to match it is true as well. *)
Lemma deleteRequest_one query s ok s' :
  db_ready s -> deleteRequest query s = (Ret ok, s') -> ok = true ->
  let before := docs "zway.requests" (db_mongo s) in
  let after := docs "zway.requests" (db_mongo s') in
  ((filter (fun d => matches query d = true) before = [] /\ after ≡ₚ before) \/
   exists d, matches query d = true /\ before ≡ₚ d :: after) /\
  docs "zway.accounts" (db_mongo s') = docs "zway.accounts" (db_mongo s).
Proof.
  intros Hr Hd ->. destruct (deleteRequest_spec query s Hr) as (ok' & m' & Hrm & Hrun).
  rewrite Hrun in Hd. injection Hd as -> <-. apply remove_one_result in Hrm as [? Ho].
  split; [done|]. by apply Ho.
Qed.

(** [requestPending] answers true exactly when the count succeeds and finds one
    matching request: two pending requests count as none. *)
Lemma requestPending_exactly_one query s :
  db_ready s ->
  exists b, db_requestPending query s = (Ret b, used s (db_mongo s)) /\
    (b = true <->
     db_count "zway.requests" query (db_mongo s) = Some 1) /\
    (b = true ->
     exists d, filter (fun d => matches query d = true) (docs "zway.requests" (db_mongo s)) = [d]).
Proof.
  intros Hr. unfold db_requestPending. rewrite with_lock_run by done.
  destruct (db_count _ _ _) as [n|] eqn:Hc; simpl; (eexists; split; [done|]); [|naive_solver].
  split; [rewrite Z.eqb_eq; naive_solver|]. intros ->%Z.eqb_eq.
  apply count_result in Hc. destruct (filter _ _) as [|d [|d' l]]; simpl in Hc; [lia|eauto|lia].
Qed.

(** *** The inbox *)

Definition inbox_src (d : doc) : Z := u32 (numberInt (bson_get d "src")).
Definition inbox_id (d : doc) : ubj := UInt32 (numberInt (bson_get d "id")).

Lemma inbox_fold l map k :
  foldl inbox_step map l !! k =
  match map !! k, inbox_id <$> filter (fun d => inbox_src d = k) l with
  | None, [] => None
  | None, ids => Some ids
  | Some ids0, ids => Some (ids0 ++ ids)
  end.
Proof.
  revert map. induction l as [|d l IH]; intros map; simpl.
  { destruct (map !! k) as [ids|]; [by rewrite app_nil_r|done]. }
  rewrite IH. rewrite filter_cons. unfold inbox_step at 1.
  fold (inbox_src d) (inbox_id d).
  destruct (decide (inbox_src d = k)) as [<-|Hne].
  - destruct (map !! inbox_src d) as [ids|]; rewrite lookup_insert_eq; simpl; [|done].
    by rewrite <- app_assoc.
  - destruct (map !! inbox_src d) as [ids|]; by rewrite lookup_insert_ne.
Qed.

Lemma fmap_project_get (f : doc) k (sel : list doc) :
  k ∈ f.*1 -> (fun d => bson_get d k) <$> (project (Some f) <$> sel) = (fun d => bson_get d k) <$> sel.
Proof.
  intros Hk. rewrite <- list_fmap_compose. apply list_fmap_ext. intros i d _. simpl.
  unfold bson_get. by rewrite project_field.
Qed.

Lemma inbox_project (sel : list doc) k :
  let f := [("src"%string, BInt 1); ("id"%string, BInt 1)] in
  inbox_id <$> filter (fun d => inbox_src d = k) (project (Some f) <$> sel) =
  inbox_id <$> filter (fun d => inbox_src d = k) sel.
Proof.
  intros f. induction sel as [|d sel IH]; [done|]. csimpl. rewrite !filter_cons.
  assert (Es : inbox_src (project (Some f) d) = inbox_src d).
  { unfold inbox_src, bson_get. by rewrite project_field by set_solver. }
  assert (Ei : inbox_id (project (Some f) d) = inbox_id d).
  { unfold inbox_id, bson_get. by rewrite project_field by set_solver. }
  rewrite Es. case_decide; csimpl; [by rewrite Ei, IH|done].
Qed.

Definition inbox_query (accountId : Z) : doc :=
  [("dst"%string, bson_u32 accountId); ("type"%string, BInt 4100)].

(** C31: [getInbox] groups the push requests addressed to the account by sender: one
    entry per sender with at least one, in ascending order of the sender's id, listing
    the ids of exactly that sender's requests in the order the query delivered them. *)
Theorem getInbox_groups accountId s inbox s' :
  db_ready s -> getInbox accountId s = (Ret (Some inbox), s') ->
  db_mongo s' = db_mongo s /\
  exists sel entries,
    sel ≡ₚ filter (fun d => matches (inbox_query accountId) d = true)
                  (docs "zway.requests" (db_mongo s)) /\
    inbox = (fun it => UObject (UBJ_OBJ [("contactId"%string, ubj_of_uint32 it.1);
                                         ("requestIds"%string, UArray it.2)])) <$> entries /\
    StronglySorted key_le entries /\ NoDup entries.*1 /\
    forall src ids, (src, ids) ∈ entries <->
      ids <> [] /\ ids = inbox_id <$> filter (fun d => inbox_src d = src) sel.
Proof.
  intros Hr. unfold getInbox. rewrite with_lock_run by done. fold (inbox_query accountId).
  destruct (db_query _ _ _ _ _ _) as [l ended] eqn:Hq. destruct ended; [|done].
  intros [= <- <-]. split; [done|].
  destruct (query_result _ _ 0 _ _ _ _ (Z.le_refl 0) Hq) as (sel & rest & Hp & -> & Hall & _).
  rewrite (Hall eq_refl eq_refl), app_nil_r in Hp.
  eexists sel, _. split_and!; [done|done|apply in_key_order_sorted|apply in_key_order_NoDup|].
  intros src ids. rewrite elem_of_in_key_order, inbox_fold, lookup_empty, inbox_project.
  destruct (inbox_id <$> filter _ sel) as [|i l'] eqn:E; naive_solver.
Qed.

(** *** The push token *)

Definition account_query (accountId : Z) : doc := [("id"%string, bson_u32 accountId)].

Lemma account_query_matches a d :
  (exists z, field "id" d = Some (BInt z)) ->
  matches (account_query a) d = true <-> field "id" d = Some (bson_u32 a).
Proof.
  intros [z Hz]. apply matches_eq; [by apply not_op|done|].
  rewrite Hz. by intros w [= <-].
Qed.

Lemma filter_unique {A} (P : A -> Prop) `{!forall x, Decision (P x)} (l rest : list A) x d :
  filter P l = [d] -> l ≡ₚ x :: rest -> P x -> x = d /\ filter P rest = [].
Proof.
  intros Hf Hp Hx. assert (Hf' : filter P (x :: rest) ≡ₚ [d]) by (by rewrite <- Hp, Hf).
  rewrite filter_cons_True in Hf' by done.
  apply Permutation_singleton_r in Hf'. by injection Hf' as -> ->.
Qed.

(** Setting the push token of the one account with a given id and reading it back
    gives the token, and no other account is touched. *)
Lemma fcmToken_roundtrip a token d s s1 :
  db_ready s -> account_ids_int (db_mongo s) ->
  filter (fun d => matches (account_query a) d = true) (docs "zway.accounts" (db_mongo s)) = [d] ->
  setFcmToken a token s = (Ret true, s1) ->
  (db_query "zway.accounts" (account_query a) None 0
     (Some [("fcmToken"%string, BInt 1)]) (db_mongo s1)).2 = true ->
  getFcmToken a s1 = (Ret token, used s1 (db_mongo s1)) /\
  docs "zway.requests" (db_mongo s1) = docs "zway.requests" (db_mongo s) /\
  exists d' rest, docs "zway.accounts" (db_mongo s) ≡ₚ d :: rest /\
    docs "zway.accounts" (db_mongo s1) ≡ₚ d' :: rest.
Proof.
  intros Hr Hids Hone. unfold setFcmToken, getFcmToken. rewrite with_lock_run by done.
  fold (account_query a).
  destruct (db_update _ _ _ _) as [ok m'] eqn:Hu. intros [= -> <-]. simpl. intros He.
  rewrite with_lock_run by (by apply used_ready). simpl. fold (account_query a).
  destruct (update_set_result _ _ _ _ _ _ Hu) as [Hdocs Hother].
  destruct Hdocs as [[Hnone _]|(d0 & d' & rest & Hm & Hp & Hp' & Hf)].
  { rewrite Hone in Hnone. done. }
  destruct (filter_unique _ _ _ _ _ Hone Hp Hm) as [-> Hrest].
  split_and!; [|by apply Hother|by eauto].
  destruct (db_query _ _ _ _ _ _) as [l ended] eqn:Hq. simpl in He. subst ended.
  destruct (query_result _ _ 0 _ _ _ _ (Z.le_refl 0) Hq) as (sel & rest' & Hs & -> & Hall & _).
  rewrite (Hall eq_refl eq_refl), app_nil_r, Hp' in Hs.
  assert (Hd' : matches (account_query a) d' = true).
  { destruct (Hids d) as (z & Hz & _); [rewrite Hp; left|].
    assert (Hz' : field "id" d' = field "id" d) by (by rewrite Hf).
    apply account_query_matches; [rewrite Hz'; eauto|]. rewrite Hz'.
    apply account_query_matches; eauto. }
  rewrite filter_cons_True, Hrest in Hs by done. apply Permutation_singleton_r in Hs as ->.
  csimpl. rewrite (bson_get_field _ _ (BString token)).
  - by rewrite bson_String_string.
  - rewrite project_field by set_solver. rewrite Hf. by rewrite decide_True.
Qed.
End db_specs.

(** *** Phone numbers *)

Lemma prefix_spec p2 p1 : String.prefix p2 p1 = true <-> exists b, p1 = (p2 +:+ b)%string.
Proof.
  revert p1. induction p2 as [|c p2 IH]; intros p1.
  { split; [intros _; by exists p1|by destruct p1]. }
  destruct p1 as [|c' p1]; simpl; [split; [done|by intros [b [=]]]|].
  destruct (ascii_dec c c') as [->|Hne].
  - rewrite IH. split; intros [b Hb]; exists b; [by rewrite Hb|by injection Hb].
  - split; [done|]. intros [b [= -> _]]. done.
Qed.

Lemma str_contains_spec p1 p2 :
  str_contains p1 p2 = true <-> exists a b, p1 = (a +:+ p2 +:+ b)%string.
Proof.
  induction p1 as [|c p1 IH]; cbn [str_contains]; rewrite orb_true_iff, prefix_spec.
  - split.
    + intros [[b Hb]|]; [|done]. by exists ""%string, b.
    + intros (a & b & Hab). left. destruct a; [|done]. by exists b.
  - rewrite IH. split.
    + intros [[b Hb]|(a & b & ->)]; [by exists ""%string, b|by exists (String c a), b].
    + intros ([|c' a] & b & Hab); [left; by exists b|right].
      injection Hab as -> ->. by exists a, b.
Qed.

(** [comparePhone] accepts two numbers exactly when both are non-empty and one occurs
    inside the other; it is symmetric. *)
Lemma comparePhone_spec p1 p2 :
  (comparePhone p1 p2 = true <->
   p1 <> ""%string /\ p2 <> ""%string /\
   ((exists a b, p1 = (a +:+ p2 +:+ b)%string) \/ (exists a b, p2 = (a +:+ p1 +:+ b)%string))) /\
  comparePhone p1 p2 = comparePhone p2 p1.
Proof.
  unfold comparePhone. split; [|by rewrite orb_comm, (orb_comm (str_contains p1 p2))].
  destruct p1 as [|c1 p1]; [simpl; naive_solver|]. destruct p2 as [|c2 p2]; [simpl; naive_solver|].
  cbn [str_empty orb]. rewrite orb_true_iff, !str_contains_spec. naive_solver.
Qed.
