(* ===== verification/Stdio.v ===== *)
(** * C file streams

    The part of C's stdio and of the file system src/streambuffer.cpp uses: streams
    opened "rb" and "ab+", positioned reads of one item, appending writes of one
    item. A stream has no buffer of its own here, so a write the file system cuts
    short is reported by the call that makes it. *)

From S2P Require Import Prelude.

(** Files by name, where a new one may be created, and the bytes left on the device. *)
Record filesystem := Filesystem {
  fs_files : gmap string (list Byte.byte);
  fs_creatable : string -> bool;
  fs_room : nat
}.

(** An open "ab+" stream appends whatever its position; an "rb" stream only reads. *)
Record FILE := File { f_path : string; f_append : bool; f_pos : Z; f_open : bool }.

Definition file_bytes (fs : filesystem) (path : string) : list Byte.byte :=
  default [] (fs_files fs !! path).

Definition fopen_rb (path : string) (fs : filesystem) : option FILE :=
  match fs_files fs !! path with
  | Some _ => Some (File path false 0 true)
  | None => None
  end.

Definition fopen_ab (path : string) (fs : filesystem) : option FILE * filesystem :=
  match fs_files fs !! path with
  | Some _ => (Some (File path true 0 true), fs)
  | None =>
      if fs_creatable fs path
      then (Some (File path true 0 true),
            Filesystem (<[path := []]> (fs_files fs)) (fs_creatable fs) (fs_room fs))
      else (None, fs)
  end.

(** Closing a stream twice is undefined behaviour. *)
Definition fclose (f : FILE) : outcome FILE :=
  if f_open f then Ret (File (f_path f) (f_append f) (f_pos f) false) else Fault DoubleClose.

(** [fseek(f, offset, SEEK_SET)] with a [size_t] converted to [long]; true is failure. *)
Definition fseek_set (offset : Z) (f : FILE) : bool * FILE :=
  if decide (0 <= offset < 2 ^ 63)
  then (false, File (f_path f) (f_append f) offset (f_open f))
  else (true, f).

Definition fseek_end (fs : filesystem) (f : FILE) : FILE :=
  File (f_path f) (f_append f) (Z.of_nat (length (file_bytes fs (f_path f)))) (f_open f).

Definition ftell (f : FILE) : Z := f_pos f.

(** [fread(data, size, 1, f)]: one complete item or zero. *)
Definition fread1 (size : Z) (fs : filesystem) (f : FILE) : Z * list Byte.byte * FILE :=
  let bs := take (Z.to_nat size) (drop (Z.to_nat (f_pos f)) (file_bytes fs (f_path f))) in
  let f' := File (f_path f) (f_append f) (f_pos f + Z.of_nat (length bs)) (f_open f) in
  if decide (0 < size /\ Z.of_nat (length bs) = size) then (1, bs, f') else (0, bs, f').

(** [fwrite(data, size, 1, f)]: appends what fits, and counts a complete item. *)
Definition fwrite1 (data : list Byte.byte) (fs : filesystem) (f : FILE) : Z * FILE * filesystem :=
  if f_append f then
    let n := Nat.min (length data) (fs_room fs) in
    let bs := file_bytes fs (f_path f) ++ take n data in
    (if decide (data <> [] /\ n = length data) then 1 else 0,
     File (f_path f) true (Z.of_nat (length bs)) (f_open f),
     Filesystem (<[f_path f := bs]> (fs_files fs)) (fs_creatable fs) (fs_room fs - n))
  else (0, f, fs).

Lemma file_bytes_fwrite1 data fs f r f' fs' :
  fwrite1 data fs f = (r, f', fs') -> f_append f = true ->
  file_bytes fs' (f_path f) =
    file_bytes fs (f_path f) ++ take (Nat.min (length data) (fs_room fs)) data /\
  f_path f' = f_path f /\ f_append f' = true /\ f_open f' = f_open f /\
  fs_room fs' = (fs_room fs - Nat.min (length data) (fs_room fs))%nat /\
  (forall p, p <> f_path f -> fs_files fs' !! p = fs_files fs !! p) /\
  (r = 1 <-> data <> [] /\ (length data <= fs_room fs)%nat) /\ (r = 0 \/ r = 1).
Proof.
  unfold fwrite1. intros Hw Ha. rewrite Ha in Hw. injection Hw as <- <- <-. simpl.
  split_and!; try done.
  - unfold file_bytes at 1. simpl. by rewrite lookup_insert_eq.
  - intros p Hp. by rewrite lookup_insert_ne.
  - case_decide as Hd; split; [|done|done|]; intros.
    + destruct Hd as [? Hm]. split; [done|lia].
    + destruct Hd. split; [tauto|lia].
  - case_decide; auto.
Qed.

Lemma fread1_in_bounds size fs f :
  0 < size -> 0 <= f_pos f -> f_pos f + size <= Z.of_nat (length (file_bytes fs (f_path f))) ->
  exists f', fread1 size fs f =
    (1, take (Z.to_nat size) (drop (Z.to_nat (f_pos f)) (file_bytes fs (f_path f))), f') /\
    f_path f' = f_path f /\ f_append f' = f_append f /\ f_open f' = f_open f.
Proof.
  intros Hs Hp Hl. unfold fread1. rewrite decide_True.
  - eexists. split; [done|]. done.
  - split; [done|]. rewrite length_take, length_drop. lia.
Qed.
