(* ===== verification/StreamBuffer.v ===== *)
(** * Stream buffers (src/streambuffer.cpp)

    A [StreamBuffer] is the growing store of one transferred resource: a receiver
    appends to it while senders read from it. It works over any [Zway::Buffer];
    what it needs of one is the class [BufferOps], with its laws in [BufferLaws].
    [FileBuffer] and the in-memory buffer are the two implementations. *)

From S2P Require Import Prelude Values Platform Stdio.

(** ** The buffer interface

    The virtual functions of [Zway::Buffer], over a buffer of type [B] and what it
    shares with others, [S]. [None] is a false result; a read's bytes and a write's
    count are what the output parameters get. *)
Class BufferOps (B S : Type) := {
  buf_read : Z -> Z -> M (B * S) (option (list Byte.byte));
  buf_write : list Byte.byte -> Z -> M (B * S) (option Z);
  buf_flush : M (B * S) unit;
  buf_size : B -> Z
}.

(** [holds b s bs]: the bytes [bs] have been written from offset 0 on. A read inside
    them succeeds, and a successful write at their end extends them. *)
Class BufferLaws (B S : Type) `{BufferOps B S} := {
  holds : B -> S -> list Byte.byte -> Prop;
  buf_read_holds b s bs size off :
    holds b s bs -> 0 < size -> 0 <= off -> off + size <= Z.of_nat (length bs) ->
    Z.of_nat (length bs) < 2 ^ 32 ->
    exists b' s', buf_read size off (b, s) =
        (Ret (Some (take (Z.to_nat size) (drop (Z.to_nat off) bs))), (b', s')) /\
      holds b' s' bs;
  buf_write_holds b s bs data r b' s' :
    holds b s bs -> Z.of_nat (length bs) < 2 ^ 32 ->
    buf_write data (Z.of_nat (length bs)) (b, s) = (Ret (Some r), (b', s')) ->
    r = Z.of_nat (length data) /\ holds b' s' (bs ++ data)
}.

(** ** Files as buffers *)

Record FileBuffer := FB { fb_fh : option FILE; fb_size : Z }.

Section filebuffer.
Context `{Platform}.

(** [FileBuffer::init]: refuses a file that exists, whose stream it closes but
    leaves in [m_fh]. *)
Definition FileBuffer_init (filename : string) (fs : filesystem) : bool * FileBuffer * filesystem :=
  match fopen_rb filename fs with
  | Some f =>
      let f' := match fclose f with Ret f' => f' | Fault _ => f end in
      (false, FB (Some f') Buffer_initial_size, fs)
  | None =>
      match fopen_ab filename fs with
      | (Some f, fs') => (true, FB (Some f) Buffer_initial_size, fs')
      | (None, fs') => (false, FB None Buffer_initial_size, fs')
      end
  end.

(** [FileBuffer::release], which the destructor calls. *)
Definition FileBuffer_release (b : FileBuffer) : outcome FileBuffer :=
  match fb_fh b with
  | Some f =>
      match fclose f with
      | Ret _ => Ret (FB None (fb_size b))
      | Fault e => Fault e
      end
  | None => Ret b
  end.

(** [FileBuffer::create]: a buffer whose [init] fails is destroyed. *)
Definition FileBuffer_create (filename : string) : M filesystem (option FileBuffer) := fun fs =>
  let '(ok, b, fs') := FileBuffer_init filename fs in
  if ok then (Ret (Some b), fs')
  else match FileBuffer_release b with
       | Ret _ => (Ret None, fs')
       | Fault e => (Fault e, fs')
       end.

Definition FileBuffer_load (filename : string) (fs : filesystem) : bool * FileBuffer :=
  match fopen_rb filename fs with
  | None => (false, FB None Buffer_initial_size)
  | Some f =>
      let f1 := fseek_end fs f in
      let size := ftell f1 in
      (true, FB (Some (fseek_set 0 f1).2) size)
  end.

Definition FileBuffer_open (filename : string) : M filesystem (option FileBuffer) := fun fs =>
  let '(ok, b) := FileBuffer_load filename fs in
  if ok then (Ret (Some b), fs)
  else match FileBuffer_release b with
       | Ret _ => (Ret None, fs)
       | Fault e => (Fault e, fs)
       end.
End filebuffer.

Definition FileBuffer_read (size offset : Z) : M (FileBuffer * filesystem) (option (list Byte.byte)) :=
  fun '(b, fs) =>
    match fb_fh b with
    | None => (Fault NullDereference, (b, fs))
    | Some f =>
        let '(failed, f1) := fseek_set offset f in
        if failed then (Ret None, (FB (Some f1) (fb_size b), fs))
        else
          let '(r, data, f2) := fread1 size fs f1 in
          if decide (r = 0) then (Ret None, (FB (Some f2) (fb_size b), fs))
          else (Ret (Some data), (FB (Some f2) (fb_size b), fs))
    end.

Definition FileBuffer_write (data : list Byte.byte) (offset : Z) : M (FileBuffer * filesystem) (option Z) :=
  fun '(b, fs) =>
    match fb_fh b with
    | None => (Fault NullDereference, (b, fs))
    | Some f =>
        let '(failed, f1) := fseek_set offset f in
        if failed then (Ret None, (FB (Some f1) (fb_size b), fs))
        else
          let '(r, f2, fs') := fwrite1 data fs f1 in
          if decide (r = 0) then (Ret None, (FB (Some f2) (fb_size b), fs'))
          else (Ret (Some (Z.of_nat (length data))), (FB (Some f2) (fb_size b), fs'))
    end.

#[export] Instance FileBuffer_ops : BufferOps FileBuffer filesystem := {|
  buf_read := FileBuffer_read;
  buf_write := FileBuffer_write;
  buf_flush := ret tt;
  buf_size := fb_size
|}.

(** The in-memory buffer of zway-lib. *)
#[export] Instance zbuffer_ops `{ZBufferApi} : BufferOps zbuffer filesystem := {|
  buf_read size off := fun '(b, s) => (Ret (zbuffer_read size off b), (b, s));
  buf_write data off := fun '(b, s) =>
    let '(r, b') := zbuffer_write data off b in (Ret r, (b', s));
  buf_flush := ret tt;
  buf_size := zbuffer_size
|}.

(** [Zway::BUFFER]: a pointer to either. *)
Inductive BUFFER `{ZBufferApi} :=
| FileBUFFER (b : FileBuffer)
| MemBUFFER (b : zbuffer).

Definition map_state {W V A} (f : W -> V) (x : outcome A * W) : outcome A * V := (x.1, f x.2).

#[export] Instance BUFFER_ops `{ZBufferApi} : BufferOps BUFFER filesystem := {|
  buf_read size off := fun '(b, s) =>
    match b with
    | FileBUFFER b => map_state (fun p => (FileBUFFER p.1, p.2)) (buf_read size off (b, s))
    | MemBUFFER b => map_state (fun p => (MemBUFFER p.1, p.2)) (buf_read size off (b, s))
    end;
  buf_write data off := fun '(b, s) =>
    match b with
    | FileBUFFER b => map_state (fun p => (FileBUFFER p.1, p.2)) (buf_write data off (b, s))
    | MemBUFFER b => map_state (fun p => (MemBUFFER p.1, p.2)) (buf_write data off (b, s))
    end;
  buf_flush := ret tt;
  buf_size b := match b with FileBUFFER b => buf_size b | MemBUFFER b => buf_size b end
|}.

(** ** Stream buffers *)

Record StreamBuffer (B : Type) := SB {
  sb_buffer : option B;
  sb_streamId : Z;
  sb_streamType : Z;
  sb_streamParts : Z;
  sb_bytesReadable : Z;          (** [uint64_t] *)
  sb_lastActivity : Z            (** [uint64_t], seconds *)
}.
Arguments SB {B}.
Arguments sb_buffer {B}.
Arguments sb_streamId {B}.
Arguments sb_streamType {B}.
Arguments sb_streamParts {B}.
Arguments sb_bytesReadable {B}.
Arguments sb_lastActivity {B}.

Section streambuffer.
Context {B S : Type} `{BufferOps B S}.

Definition sb_with_buffer (b : option B) (sb : StreamBuffer B) : StreamBuffer B :=
  SB b (sb_streamId sb) (sb_streamType sb) (sb_streamParts sb) (sb_bytesReadable sb)
     (sb_lastActivity sb).

Definition sb_with_counts (readable activity : Z) (sb : StreamBuffer B) : StreamBuffer B :=
  SB (sb_buffer sb) (sb_streamId sb) (sb_streamType sb) (sb_streamParts sb) readable activity.

(** [StreamBuffer::bytesReadable] narrows the 64-bit count to [uint32_t]. *)
Definition bytesReadable (sb : StreamBuffer B) : Z := u32 (sb_bytesReadable sb).

(** A call on [m_buffer]. *)
Definition on_buffer {A} (b : B) (m : M (B * S) A) : M (StreamBuffer B * S) A := fun '(sb, s) =>
  let '(r, (b', s')) := m (b, s) in (r, (sb_with_buffer (Some b') sb, s')).

Definition touch (now : Z) : M (StreamBuffer B * S) unit :=
  modify (fun '(sb, s) => (sb_with_counts (sb_bytesReadable sb) now sb, s)).

(** [StreamBuffer::read] at time [now]: at most what is readable past [offset]. *)
Definition StreamBuffer_read (now size offset : Z)
    : M (StreamBuffer B * S) (option (list Byte.byte)) := fun st =>
  match sb_buffer st.1 with
  | None => (Ret None, st)
  | Some b =>
      let br := bytesReadable st.1 in
      let bytesToRead :=
        if decide (offset < br) then (if decide (br - offset > size) then size else br - offset)
        else 0 in
      (let* r := (if decide (bytesToRead <> 0) then on_buffer b (buf_read bytesToRead offset)
                  else ret (Some [])) in
       match r with
       | None => ret None
       | Some data => touch now ;; ret (Some data)
       end) st
  end.

(** [StreamBuffer::write]: the data goes where the readable bytes end, whatever
    [offset] says. *)
Definition StreamBuffer_write (now : Z) (data : list Byte.byte) (offset : Z)
    : M (StreamBuffer B * S) (option Z) := fun st =>
  match sb_buffer st.1 with
  | None => (Ret None, st)
  | Some b =>
      let br := bytesReadable st.1 in
      (let* r := on_buffer b (buf_write data br) in
       match r with
       | None => ret None
       | Some bw =>
           modify (fun '(sb, s) =>
             (sb_with_counts (u64 (sb_bytesReadable sb + bw)) (sb_lastActivity sb) sb, s)) ;;
           touch now ;;
           ret (Some bw)
       end) st
  end.

Definition StreamBuffer_flush : M (StreamBuffer B * S) unit := fun st =>
  match sb_buffer st.1 with
  | Some b => on_buffer b buf_flush st
  | None => (Ret tt, st)
  end.

Definition StreamBuffer_size (sb : StreamBuffer B) : Z :=
  match sb_buffer sb with Some b => buf_size b | None => 0 end.
End streambuffer.

Section create_open.
Context `{Platform}.

(** The two constructors. *)
Definition StreamBuffer_new : StreamBuffer BUFFER := SB None 0 Stream_Undefined 0 0 0.

Definition StreamBuffer_new_packet (pkt : packet) : StreamBuffer BUFFER :=
  SB None (pkt_streamId pkt) (pkt_streamType pkt) (pkt_parts pkt) 0 0.

Definition StreamBuffer_init (filename : string) (sb : StreamBuffer BUFFER)
    : M filesystem (option (StreamBuffer BUFFER)) :=
  match filename with
  | EmptyString =>
      ret (match zbuffer_create (u32 (sb_streamParts sb * MAX_PACKET_BODY)) with
           | Some b => Some (sb_with_buffer (Some (MemBUFFER b)) sb)
           | None => None
           end)
  | _ =>
      let* b := FileBuffer_create filename in
      ret (match b with
           | Some b => Some (sb_with_buffer (Some (FileBUFFER b)) sb)
           | None => None
           end)
  end.

Definition StreamBuffer_create (filename : string) (pkt : packet)
    : M filesystem (option (StreamBuffer BUFFER)) :=
  StreamBuffer_init filename (StreamBuffer_new_packet pkt).

Definition StreamBuffer_load (filename : string) (sb : StreamBuffer BUFFER)
    : M filesystem (option (StreamBuffer BUFFER)) :=
  let* buf := FileBuffer_open filename in
  match buf with
  | None => ret None
  | Some buf =>
      let readable := u64 (fb_size buf) in
      let parts := u32 (readable / MAX_PACKET_BODY) in
      let parts := if decide (readable mod MAX_PACKET_BODY <> 0) then u32 (parts + 1) else parts in
      ret (Some (SB (Some (FileBUFFER buf)) (sb_streamId sb) Stream_Resource parts readable
                    (sb_lastActivity sb)))
  end.

Definition StreamBuffer_open (filename : string) (id : Z)
    : M filesystem (option (StreamBuffer BUFFER)) := fun fs =>
  match fopen_rb filename fs with
  | None => (Ret None, fs)
  | Some _ =>
      (let* sb := StreamBuffer_load filename StreamBuffer_new in
       ret (match sb with
            | Some sb => Some (SB (sb_buffer sb) id (sb_streamType sb) (sb_streamParts sb)
                                  (sb_bytesReadable sb) (sb_lastActivity sb))
            | None => None
            end)) fs
  end.
End create_open.

(** ** The implementations meet the interface *)

Lemma take_drop_bytes {A} (l : list A) size off :
  0 <= off -> 0 < size -> off + size <= Z.of_nat (length l) ->
  Z.of_nat (length (take (Z.to_nat size) (drop (Z.to_nat off) l))) = size.
Proof. intros. rewrite length_take, length_drop. lia. Qed.

(** A file buffer holds exactly what its file contains. *)
Definition file_holds (b : FileBuffer) (fs : filesystem) (bs : list Byte.byte) : Prop :=
  exists f, fb_fh b = Some f /\ file_bytes fs (f_path f) = bs.

Lemma FileBuffer_write_appends b fs bs data r b' fs' :
  file_holds b fs bs -> Z.of_nat (length bs) < 2 ^ 32 ->
  FileBuffer_write data (Z.of_nat (length bs)) (b, fs) = (Ret (Some r), (b', fs')) ->
  r = Z.of_nat (length data) /\ file_holds b' fs' (bs ++ data).
Proof.
  intros (f & Hf & Hb) Hlen. unfold FileBuffer_write. rewrite Hf. unfold fseek_set.
  rewrite decide_True by lia.
  set (f1 := File _ _ _ _). destruct (f_append f1) eqn:Ha.
  - destruct (fwrite1 data fs f1) as [[r1 f2] fs1] eqn:Hw.
    destruct (file_bytes_fwrite1 _ _ _ _ _ _ Hw Ha) as (Hc & Hp & _ & _ & _ & _ & Hr & Hr01).
    case_decide as Hd; [done|]. intros [= <- <- <-]. split; [done|].
    exists f2. split; [done|]. rewrite Hp, Hc. simpl. rewrite Hb. f_equal.
    destruct Hr as [Hr _]. destruct Hr01 as [|Hr1]; [done|]. apply Hr in Hr1 as [_ Hle].
    by rewrite Nat.min_l, firstn_all by lia.
  - unfold fwrite1. rewrite Ha. by rewrite decide_True.
Qed.

Lemma FileBuffer_read_slice b fs bs size off :
  file_holds b fs bs -> 0 < size -> 0 <= off -> off + size <= Z.of_nat (length bs) ->
  Z.of_nat (length bs) < 2 ^ 32 ->
  exists b', FileBuffer_read size off (b, fs) =
      (Ret (Some (take (Z.to_nat size) (drop (Z.to_nat off) bs))), (b', fs)) /\
    file_holds b' fs bs.
Proof.
  intros (f & Hf & Hb) Hs Ho Hl Hlen. unfold FileBuffer_read. rewrite Hf. unfold fseek_set.
  rewrite decide_True by lia. set (f1 := File _ _ _ _).
  destruct (fread1_in_bounds size fs f1) as (f2 & -> & Hp & _); [done|done|by simpl; rewrite Hb|].
  rewrite decide_False by done. eexists. split; [by simpl; rewrite Hb|].
  exists f2. split; [done|]. rewrite Hp. done.
Qed.

#[export] Instance FileBuffer_laws : BufferLaws FileBuffer filesystem.
Proof.
  refine (Build_BufferLaws _ _ _ file_holds _ _).
  - intros b s bs size off Hh Hs Ho Hl Hlen.
    destruct (FileBuffer_read_slice _ _ _ _ _ Hh Hs Ho Hl Hlen) as (b' & ? & ?). by exists b', s.
  - intros b s bs data r b' s'. apply FileBuffer_write_appends.
Defined.

(** An in-memory buffer holds the bytes its contents start with. *)
#[export] Instance zbuffer_laws `{ZBufferLaws} : BufferLaws zbuffer filesystem.
Proof.
  refine (Build_BufferLaws _ _ _ (fun b _ bs => bs `prefix_of` zbuffer_bytes b) _ _).
  - intros b s bs size off [rest Hb] Hs Ho Hl _. exists b, s. simpl.
    rewrite zbuffer_read_in_bounds by (rewrite ?Hb, ?length_app; lia).
    split; [|by exists rest]. rewrite Hb, drop_app_le, take_app_le; [done|..].
    + rewrite length_drop. lia.
    + lia.
  - intros b s bs data r b' s' [rest Hb] Hlen. simpl.
    destruct (zbuffer_write data _ b) as [r' b1] eqn:Hw. intros [= -> <- <-].
    apply zbuffer_write_ok in Hw as [-> Hw]; [|lia]. split; [done|].
    rewrite Hw, Nat2Z.id, Hb, take_app_length, app_assoc. by eexists.
Defined.

Definition BUFFER_holds `{ZBufferLaws} (b : BUFFER) (s : filesystem) (bs : list Byte.byte) : Prop :=
  match b with FileBUFFER b => holds b s bs | MemBUFFER b => holds b s bs end.

#[export] Instance BUFFER_laws `{ZBufferLaws} : BufferLaws BUFFER filesystem.
Proof.
  refine (Build_BufferLaws _ _ _ BUFFER_holds _ _).
  - intros [b|b] s bs size off Hh Hs Ho Hl Hlen; cbn [buf_read BUFFER_ops];
      destruct (buf_read_holds b s bs size off Hh Hs Ho Hl Hlen) as (b' & s' & E & Hh');
      unfold map_state; rewrite E; by eexists _, s'.
  - intros [b|b] s bs data r b' s' Hh Hlen; cbn [buf_write BUFFER_ops]; unfold map_state;
      destruct (buf_write data _ (b, s)) as [o [b1 s1]] eqn:E; simpl; intros [= -> <- <-];
      by destruct (buf_write_holds _ _ _ _ _ _ _ Hh Hlen E).
Defined.

(** ** What a stream buffer promises *)

Section streambuffer_specs.
Context {B S : Type} `{BufferLaws B S}.

(** The bytes appended so far, all of them readable. *)
Definition sb_log (st : StreamBuffer B * S) (bs : list Byte.byte) : Prop :=
  exists b, sb_buffer st.1 = Some b /\ holds b st.2 bs /\
    sb_bytesReadable st.1 = Z.of_nat (length bs) /\ Z.of_nat (length bs) < 2 ^ 32.

Lemma sb_log_bytesReadable st bs : sb_log st bs -> bytesReadable st.1 = Z.of_nat (length bs).
Proof.
  intros (b & _ & _ & Hr & Hlt). unfold bytesReadable. rewrite Hr. apply u32_id. unfold is_u32. lia.
Qed.

(** The part of [bs] a read of [size] bytes at [off] is given. *)
Definition slice (size off : Z) (bs : list Byte.byte) : list Byte.byte :=
  take (Z.to_nat size) (drop (Z.to_nat off) bs).

Lemma slice_clip (bs : list Byte.byte) size off :
  0 <= off < Z.of_nat (length bs) -> Z.of_nat (length bs) - off <= size ->
  slice (Z.of_nat (length bs) - off) off bs = slice size off bs.
Proof.
  intros Ho Hs. unfold slice. rewrite !take_ge; [done|..]; rewrite length_drop; lia.
Qed.

Lemma StreamBuffer_read_spec now size off st bs :
  sb_log st bs -> 0 <= size -> 0 <= off ->
  exists st', StreamBuffer_read now size off st = (Ret (Some (slice size off bs)), st') /\
    sb_log st' bs /\ sb_lastActivity st'.1 = now /\
    sb_streamId st'.1 = sb_streamId st.1.
Proof.
  intros Hst Hs Ho. pose proof (sb_log_bytesReadable st bs Hst) as Hbr.
  destruct Hst as (b & Hb & Hh & Hr & Hlt). destruct st as [sb s]. simpl in *.
  unfold StreamBuffer_read. cbn [fst]. rewrite Hb, Hbr.
  set (n := if decide (off < _) then _ else 0).
  assert (Hn : (n = 0 /\ slice size off bs = []) \/
               (0 < n /\ off + n <= Z.of_nat (length bs) /\ slice n off bs = slice size off bs)).
  { subst n. case_decide; [case_decide|].
    - destruct (decide (size = 0)) as [->|]; [by left|]. right. split_and!; [lia|lia|done].
    - right. split_and!; [lia|lia|]. apply slice_clip; lia.
    - left. split; [done|]. unfold slice. rewrite drop_ge by lia. apply take_nil. }
  destruct Hn as [[-> ->]|(Hpos & Hle & Hsl)].
  - rewrite decide_False by lia. eexists. split; [reflexivity|]. simpl. split; [|done].
    exists b. done.
  - rewrite decide_True by lia.
    destruct (buf_read_holds b s bs n off Hh Hpos Ho Hle Hlt) as (b' & s' & E & Hh').
    unfold bindM, on_buffer. rewrite E. fold (slice n off bs). rewrite Hsl. simpl.
    eexists. split; [done|]. simpl. split; [|done]. by exists b'. 
Qed.

(** A read of a stream buffer never fails: it returns exactly the bytes written
    from [offset] on, at most [size] of them and none past what has been written, and
    changes nothing but the time of last activity. *)
Lemma StreamBuffer_read_slice now size off st bs :
  sb_log st bs -> 0 <= size -> 0 <= off ->
  exists st', StreamBuffer_read now size off st = (Ret (Some (slice size off bs)), st') /\
    sb_log st' bs /\ sb_lastActivity st'.1 = now /\
    sb_streamId st'.1 = sb_streamId st.1.
Proof. apply StreamBuffer_read_spec. Qed.

Lemma StreamBuffer_write_spec now data off st bs r st' :
  sb_log st bs -> Z.of_nat (length (bs ++ data)) < 2 ^ 32 ->
  StreamBuffer_write now data off st = (Ret (Some r), st') ->
  r = Z.of_nat (length data) /\ sb_log st' (bs ++ data) /\ sb_lastActivity st'.1 = now /\
  sb_streamId st'.1 = sb_streamId st.1.
Proof.
  intros Hst Hlt'. pose proof (sb_log_bytesReadable st bs Hst) as Hbr.
  destruct Hst as (b & Hb & Hh & Hr & Hlt). destruct st as [sb s]. simpl in *.
  unfold StreamBuffer_write. cbn [fst]. rewrite Hb, Hbr. unfold bindM, on_buffer.
  destruct (buf_write data _ (b, s)) as [o [b' s']] eqn:E. destruct o as [[bw|]|]; try done.
  simpl. intros [= <- <-]. destruct (buf_write_holds _ _ _ _ _ _ _ Hh Hlt E) as [-> Hh'].
  split; [done|]. simpl. split; [|done]. exists b'. split_and!; try done.
  simpl. rewrite Hr, u64_id, length_app; rewrite length_app in Hlt'; lia.
Qed.

(** A write appends: its [offset] argument plays no part. When it succeeds it reports
    the whole size, the bytes follow those written before and become readable, and the
    time of last activity is updated; the count of readable bytes is exact below 4 GiB. *)
Lemma StreamBuffer_write_appends now data off st bs r st' :
  sb_log st bs -> Z.of_nat (length (bs ++ data)) < 2 ^ 32 ->
  StreamBuffer_write now data off st = (Ret (Some r), st') ->
  r = Z.of_nat (length data) /\ sb_log st' (bs ++ data) /\ sb_lastActivity st'.1 = now /\
  sb_streamId st'.1 = sb_streamId st.1.
Proof. apply StreamBuffer_write_spec. Qed.

(** ** Refinement: a stream buffer is an append-only log

    [log_run] is the log; [sb_run] performs the same operations on a stream buffer. *)

Inductive sb_op :=
| LogWrite (now : Z) (data : list Byte.byte) (off : Z)
| LogRead (now size off : Z).

Inductive sb_out :=
| OutWrite (r : option Z)
| OutRead (r : option (list Byte.byte)).

Fixpoint log_run (ops : list sb_op) (bs : list Byte.byte) : list sb_out * list Byte.byte :=
  match ops with
  | [] => ([], bs)
  | LogWrite _ data _ :: ops' =>
      let '(outs, bs') := log_run ops' (bs ++ data) in
      (OutWrite (Some (Z.of_nat (length data))) :: outs, bs')
  | LogRead _ size off :: ops' =>
      let '(outs, bs') := log_run ops' bs in (OutRead (Some (slice size off bs)) :: outs, bs')
  end.

Definition sb_step (op : sb_op) : M (StreamBuffer B * S) sb_out :=
  match op with
  | LogWrite now data off => let* r := StreamBuffer_write now data off in ret (OutWrite r)
  | LogRead now size off => let* r := StreamBuffer_read now size off in ret (OutRead r)
  end.

Fixpoint sb_run (ops : list sb_op) : M (StreamBuffer B * S) (list sb_out) :=
  match ops with
  | [] => ret []
  | op :: ops' => let* o := sb_step op in let* outs := sb_run ops' in ret (o :: outs)
  end.

Definition op_ok (op : sb_op) : Prop :=
  match op with LogWrite _ _ _ => True | LogRead _ size off => 0 <= size /\ 0 <= off end.

Definition op_size (op : sb_op) : nat :=
  match op with LogWrite _ data _ => length data | LogRead _ _ _ => 0 end.

(** C19: Refinement: as long as no write is refused, any sequence of reads and writes of
    a stream buffer returns what the append-only byte log returns, reads never failing,
    and ends with the log's contents (up to 4 GiB in all). *)
Theorem StreamBuffer_refines_log ops st bs outs st' :
  sb_log st bs -> Forall op_ok ops ->
  Z.of_nat (length bs + sum_list_with op_size ops) < 2 ^ 32 ->
  sb_run ops st = (Ret outs, st') -> OutWrite None ∉ outs ->
  outs = (log_run ops bs).1 /\ sb_log st' (log_run ops bs).2.
Proof.
  revert st bs outs. induction ops as [|op ops IH]; intros st bs outs Hst Hok Hlt.
  { simpl. by intros [= <- <-]. }
  apply Forall_cons in Hok as [Hop Hok]. simpl. unfold bindM.
  destruct op as [now data off|now size off]; simpl in *; unfold bindM.
  - destruct (StreamBuffer_write now data off st) as [[r|] st1] eqn:Hw; [simpl|done].
    destruct (sb_run ops st1) as [[outs1|] st2] eqn:Hrun; [|done].
    intros [= <- <-] [Hr Hno]%not_elem_of_cons. destruct r as [r|]; [|done].
    apply StreamBuffer_write_spec with (bs := bs) in Hw as (-> & Hst1 & _);
      [|done|rewrite length_app; lia].
    destruct (IH st1 (bs ++ data) outs1 Hst1 Hok) as [-> ?]; [rewrite length_app; lia|done|done|].
    by destruct (log_run ops (bs ++ data)).
  - destruct Hop. destruct (StreamBuffer_read_spec now size off st bs) as (st1 & -> & Hst1 & _);
      [done..|]. simpl. destruct (sb_run ops st1) as [[outs1|] st2] eqn:Hrun; [|done].
    intros [= <- <-] [_ Hno]%not_elem_of_cons.
    destruct (IH st1 bs outs1 Hst1 Hok) as [-> ?]; [lia|done|done|].
    by destruct (log_run ops bs).
Qed.
End streambuffer_specs.

(** ** Stream buffers over files *)

Section file_specs.
Context `{PlatformLaws}.

(** A stream buffer being written to the file [path], which contains [bs]. *)
Definition file_log (path : string) (st : StreamBuffer BUFFER * filesystem)
    (bs : list Byte.byte) : Prop :=
  exists f size, sb_buffer st.1 = Some (FileBUFFER (FB (Some f) size)) /\
    f_path f = path /\ f_append f = true /\ fs_files st.2 !! path = Some bs /\
    sb_bytesReadable st.1 = Z.of_nat (length bs) /\ Z.of_nat (length bs) < 2 ^ 32.

Lemma file_log_sb_log path st bs : file_log path st bs -> sb_log st bs.
Proof.
  intros (f & size & Hb & Hp & Ha & Hf & Hr & Hlt). eexists. split_and!; [exact Hb| |done|done].
  exists f. split; [done|]. unfold file_bytes. by rewrite Hp, Hf.
Qed.

Lemma file_log_write path now data off st bs :
  file_log path st bs -> data <> [] -> (length data <= fs_room st.2)%nat ->
  Z.of_nat (length (bs ++ data)) < 2 ^ 32 ->
  exists st', StreamBuffer_write now data off st =
      (Ret (Some (Z.of_nat (length data))), st') /\
    file_log path st' (bs ++ data) /\ fs_room st'.2 = (fs_room st.2 - length data)%nat.
Proof.
  intros Hlog Hd Hroom Hlt'. pose proof (sb_log_bytesReadable st bs (file_log_sb_log _ _ _ Hlog)) as Hbr.
  destruct Hlog as (f & size & Hb & Hp & Ha & Hf & Hr & Hlt). destruct st as [sb fs]. simpl in *.
  unfold StreamBuffer_write. cbn [fst]. rewrite Hb, Hbr.
  unfold bindM, on_buffer. cbn [buf_write BUFFER_ops FileBuffer_ops].
  unfold FileBuffer_write. cbn [fb_fh]. unfold fseek_set. rewrite decide_True by lia.
  set (f1 := File _ _ _ _).
  destruct (fwrite1 data fs f1) as [[r1 f2] fs1] eqn:Hw.
  destruct (file_bytes_fwrite1 _ _ _ _ _ _ Hw Ha) as (Hc & Hp2 & Ha2 & _ & Hrm & _ & Hr1 & _).
  assert (r1 = 1) as -> by (apply Hr1; split; [done|lia]). rewrite decide_False by done.
  simpl. eexists. split; [reflexivity|]. split; [|simpl; lia].
  exists f2, size. simpl. split_and!; try done.
  - by rewrite Hp2.
  - unfold fwrite1, f1 in Hw. cbn [f_append f_path] in Hw. rewrite Ha in Hw.
    injection Hw as _ _ <-. simpl.
    rewrite Hp, lookup_insert_eq. f_equal. unfold file_bytes. rewrite Hf. simpl.
    by rewrite Nat.min_l, firstn_all by lia.
  - rewrite Hr, u64_id, length_app; rewrite length_app in Hlt'; lia.
Qed.

Fixpoint write_all (now : Z) (chunks : list (list Byte.byte))
    : M (StreamBuffer BUFFER * filesystem) bool :=
  match chunks with
  | [] => ret true
  | data :: chunks' =>
      let* r := StreamBuffer_write now data 0 in
      match r with Some _ => write_all now chunks' | None => ret false end
  end.

Lemma file_log_write_all path now chunks st bs :
  file_log path st bs -> Forall (fun c => c <> []) chunks ->
  (length (mjoin chunks) <= fs_room st.2)%nat ->
  Z.of_nat (length (bs ++ mjoin chunks)) < 2 ^ 32 ->
  exists st', write_all now chunks st = (Ret true, st') /\ file_log path st' (bs ++ mjoin chunks).
Proof.
  revert st bs. induction chunks as [|c chunks IH]; intros st bs Hlog Hne Hroom Hlt.
  { exists st. by rewrite app_nil_r. }
  apply Forall_cons in Hne as [Hc Hne]. csimpl in *. rewrite !length_app in *.
  destruct (file_log_write path now c 0 st bs) as (st1 & Hw & Hlog1 & Hrm);
    [done|done|lia|rewrite length_app; lia|].
  cbn [write_all]. erewrite run_bind_Ret by exact Hw. rewrite app_assoc. apply IH; [done|done|lia|].
  rewrite !length_app. lia.
Qed.

Lemma parts_cover n :
  0 <= n < 2 ^ 32 ->
  let parts := if decide (n mod MAX_PACKET_BODY <> 0) then u32 (u32 (n / MAX_PACKET_BODY) + 1)
               else u32 (n / MAX_PACKET_BODY) in
  n <= parts * MAX_PACKET_BODY /\ (parts - 1) * MAX_PACKET_BODY < n.
Proof.
  intros Hn. pose proof MAX_PACKET_BODY_pos as HM.
  assert (HM0 : MAX_PACKET_BODY <> 0) by lia.
  pose proof (Z.div_mod n MAX_PACKET_BODY HM0) as Hdm.
  pose proof (Z.mod_pos_bound n MAX_PACKET_BODY (proj1 HM)) as Hmb.
  assert (Hq0 : 0 <= n / MAX_PACKET_BODY) by (apply Z.div_pos; lia).
  revert Hdm Hmb Hq0. generalize (n / MAX_PACKET_BODY), (n mod MAX_PACKET_BODY).
  intros q r Hdm Hmb Hq0. assert (Hq : q <= n) by nia.
  rewrite (u32_id q) by (unfold is_u32; lia). case_decide as Hr; [|nia].
  assert (q + 1 <= n) by nia. rewrite u32_id by (unfold is_u32; lia). nia.
Qed.

Lemma StreamBuffer_open_spec path id fs :
  match fs_files fs !! path with
  | None => StreamBuffer_open path id fs = (Ret None, fs)
  | Some bs =>
      Z.of_nat (length bs) < 2 ^ 32 ->
      exists sb, StreamBuffer_open path id fs = (Ret (Some sb), fs) /\
        sb_log (sb, fs) bs /\ sb_streamId sb = id /\ sb_streamType sb = Stream_Resource /\
        StreamBuffer_size sb = Z.of_nat (length bs) /\
        Z.of_nat (length bs) <= sb_streamParts sb * MAX_PACKET_BODY /\
        (sb_streamParts sb - 1) * MAX_PACKET_BODY < Z.of_nat (length bs)
  end.
Proof.
  unfold StreamBuffer_open, StreamBuffer_load, FileBuffer_open, FileBuffer_load, fopen_rb.
  destruct (fs_files fs !! path) as [bs|] eqn:Hf; [|done]. intros Hlt.
  unfold bindM. simpl. unfold file_bytes. rewrite !Hf. simpl. rewrite ?Hf. simpl.
  pose proof MAX_PACKET_BODY_pos as HM.
  rewrite !(u64_id (Z.of_nat (length bs))) by lia.
  eexists. split; [done|]. simpl. split.
  { eexists. split_and!; [done| |done|done]. simpl. eexists. split; [done|].
    unfold file_bytes. simpl. by rewrite Hf. }
  split_and!; try done; apply parts_cover; lia.
Qed.

(** Opening a stored resource of [n] bytes (below 4 GiB) makes all of it readable
    under the given id, with the number of parts the resource is cut into: enough for
    [n] bytes and no more than needed. A resource without a file is not opened. *)
Lemma StreamBuffer_open_file path id fs :
  match fs_files fs !! path with
  | None => StreamBuffer_open path id fs = (Ret None, fs)
  | Some bs =>
      Z.of_nat (length bs) < 2 ^ 32 ->
      exists sb, StreamBuffer_open path id fs = (Ret (Some sb), fs) /\
        sb_log (sb, fs) bs /\ sb_streamId sb = id /\ sb_streamType sb = Stream_Resource /\
        StreamBuffer_size sb = Z.of_nat (length bs) /\
        Z.of_nat (length bs) <= sb_streamParts sb * MAX_PACKET_BODY /\
        (sb_streamParts sb - 1) * MAX_PACKET_BODY < Z.of_nat (length bs)
  end.
Proof. apply StreamBuffer_open_spec. Qed.

Lemma StreamBuffer_create_new path pkt fs :
  path <> ""%string -> fs_files fs !! path = None -> fs_creatable fs path = true ->
  exists sb fs', StreamBuffer_create path pkt fs = (Ret (Some sb), fs') /\
    file_log path (sb, fs') [] /\ sb_streamId sb = pkt_streamId pkt /\ fs_room fs' = fs_room fs.
Proof.
  intros Hp Hf Hc. unfold StreamBuffer_create, StreamBuffer_init. destruct path as [|a path]; [done|].
  unfold bindM, FileBuffer_create, FileBuffer_init, fopen_rb, fopen_ab. rewrite Hf, Hc. simpl.
  eexists _, _. split; [done|]. split_and!; [|done|done].
  eexists _, _. simpl. split_and!; try done. by rewrite lookup_insert_eq.
Qed.

(** Creating the stream buffer of a resource whose file already exists ends the
    process: [FileBuffer::init] closes the stream it probed with but keeps it in [m_fh], and
    the destructor of the rejected buffer closes it again. Any client that sends a resource
    under the id of a stored one reaches this. *)
Lemma StreamBuffer_create_existing path pkt fs bs :
  path <> ""%string -> fs_files fs !! path = Some bs ->
  StreamBuffer_create path pkt fs = (Fault DoubleClose, fs).
Proof.
  intros Hp Hf. unfold StreamBuffer_create, StreamBuffer_init. destruct path as [|a path]; [done|].
  unfold bindM, FileBuffer_create, FileBuffer_init, fopen_rb. by rewrite Hf.
Qed.

(** Upload then download: a resource created under a fresh name and written in
    non-empty chunks that fit on the device is stored completely; opening it later makes
    exactly the concatenation of the chunks readable. *)
Lemma upload_download path pkt id now chunks fs :
  path <> ""%string -> fs_files fs !! path = None -> fs_creatable fs path = true ->
  Forall (fun c => c <> []) chunks -> (length (mjoin chunks) <= fs_room fs)%nat ->
  Z.of_nat (length (mjoin chunks)) < 2 ^ 32 ->
  exists sb fs1 sb' fs2 sb2,
    StreamBuffer_create path pkt fs = (Ret (Some sb), fs1) /\
    write_all now chunks (sb, fs1) = (Ret true, (sb', fs2)) /\
    StreamBuffer_open path id fs2 = (Ret (Some sb2), fs2) /\
    sb_log (sb', fs2) (mjoin chunks) /\ sb_log (sb2, fs2) (mjoin chunks).
Proof.
  intros Hp Hf Hc Hne Hroom Hlt.
  destruct (StreamBuffer_create_new path pkt fs Hp Hf Hc) as (sb & fs1 & Hcr & Hlog & _ & Hrm).
  destruct (file_log_write_all path now chunks (sb, fs1) [] Hlog Hne) as ([sb' fs2] & Hw & Hlog2);
    [simpl; lia|done|].
  pose proof (StreamBuffer_open_spec path id fs2) as Ho.
  destruct Hlog2 as (f & size & ? & ? & ? & Hf2 & ? & ?) eqn:E. simpl in *. rewrite Hf2 in Ho.
  destruct Ho as (sb2 & Ho & Hlog3 & _); [done|].
  exists sb, fs1, sb', fs2, sb2. split_and!; try done.
  apply (file_log_sb_log path). by exists f, size.
Qed.

(** Room is made on the device, by other files going away. *)
Definition with_room (n : nat) (fs : filesystem) : filesystem :=
  Filesystem (fs_files fs) (fs_creatable fs) n.

(** After a write the device cut short, the buffer no longer serves what is written:
    the fragment stays in the file but is not counted, so the next successful write lands
    behind it and a read of the counted bytes returns the fragment instead. *)
Lemma short_write_corrupts path pkt now a b c fs :
  path <> ""%string -> fs_files fs !! path = None -> fs_creatable fs path = true ->
  fs_room fs = 1%nat -> a <> c ->
  exists sb fs1 st2 st3 st4,
    StreamBuffer_create path pkt fs = (Ret (Some sb), fs1) /\
    StreamBuffer_write now [a; b] 0 (sb, fs1) = (Ret None, st2) /\
    StreamBuffer_write now [c] 0 (st2.1, with_room 9 st2.2) = (Ret (Some 1), st3) /\
    StreamBuffer_read now 1 0 st3 = (Ret (Some [a]), st4) /\ [a] <> [c].
Proof.
  intros Hp Hf Hc Hroom Hne.
  assert (Hinit : StreamBuffer_create path pkt =
    (let* b := FileBuffer_create path in
     ret (match b with
          | Some b => Some (sb_with_buffer (Some (FileBUFFER b)) (StreamBuffer_new_packet pkt))
          | None => None
          end))) by (by destruct path).
  rewrite Hinit. clear Hinit. unfold bindM, FileBuffer_create, FileBuffer_init,
    fopen_rb, fopen_ab. rewrite Hf, Hc. simpl.
  eexists _, _, _, _, _. split; [reflexivity|].
  unfold StreamBuffer_write, on_buffer, bindM. simpl. unfold FileBuffer_write. simpl.
  rewrite Hroom. simpl. split; [reflexivity|]. simpl. split; [reflexivity|].
  unfold StreamBuffer_read, bindM, on_buffer. simpl. unfold FileBuffer_read, fread1, file_bytes. simpl.
  rewrite !lookup_insert_eq. simpl. split; [reflexivity|]. congruence.
Qed.
End file_specs.
