(* ===== verification/Streams.v ===== *)
(** * The server's stream buffers and their senders

    [Server::addStreamBuffer], [removeStreamBuffer], [getStreamBuffer],
    [numStreamBuffers], [addStreamBufferSender] and the eviction half of
    [Server::onTimer] (src/server.cpp), and [StreamBufferSender]
    (src/streambuffersender.cpp). Buffers and senders are shared objects: they live
    in a store by identity, and the server's map and the senders hold pointers. *)

From S2P Require Import Prelude Values Platform Stdio StreamBuffer.

(** A [StreamBufferSender]: its session, and the base class members [getBuffer] sets. *)
Record sender := Sender {
  snd_id : Z;
  snd_session : nat;
  snd_buffer : option nat;
  snd_type : Z;
  snd_size : Z;
  snd_parts : Z
}.

Section streams.
Context `{Platform}.

Record streams := Streams {
  st_fs : filesystem;
  st_heap : gmap nat (StreamBuffer BUFFER);
  st_buffers : gmap Z nat;        (** [Server::m_buffers] *)
  st_sndheap : gmap nat sender;
  st_senders : list nat;          (** [Server::m_senders] *)
  st_next : nat;                  (** a pointer not in use *)
  st_time : Z                     (** [time(nullptr)] *)
}.

Definition with_fs (fs : filesystem) (st : streams) : streams :=
  Streams fs (st_heap st) (st_buffers st) (st_sndheap st) (st_senders st) (st_next st) (st_time st).
Definition with_buffers (b : gmap Z nat) (st : streams) : streams :=
  Streams (st_fs st) (st_heap st) b (st_sndheap st) (st_senders st) (st_next st) (st_time st).
Definition with_sndheap (h : gmap nat sender) (st : streams) : streams :=
  Streams (st_fs st) (st_heap st) (st_buffers st) h (st_senders st) (st_next st) (st_time st).
Definition with_senders (l : list nat) (st : streams) : streams :=
  Streams (st_fs st) (st_heap st) (st_buffers st) (st_sndheap st) l (st_next st) (st_time st).

(** [ss << "tmp/" << id] *)
Definition stream_path (id : Z) : string := ("tmp/" +:+ pretty (Z.to_N id))%string.

(** A new object gets a pointer of its own. *)
Definition alloc_buffer (sb : StreamBuffer BUFFER) : M streams nat := fun st =>
  (Ret (st_next st),
   Streams (st_fs st) (<[st_next st := sb]> (st_heap st)) (st_buffers st) (st_sndheap st)
           (st_senders st) (S (st_next st)) (st_time st)).

Definition alloc_sender (snd : sender) : M streams nat := fun st =>
  (Ret (st_next st),
   Streams (st_fs st) (st_heap st) (st_buffers st) (<[st_next st := snd]> (st_sndheap st))
           (st_senders st) (S (st_next st)) (st_time st)).

Definition deref_buffer (p : nat) : M streams (StreamBuffer BUFFER) := fun st =>
  match st_heap st !! p with
  | Some sb => (Ret sb, st)
  | None => (Fault NullDereference, st)
  end.

Definition deref_sender (p : nat) : M streams sender := fun st =>
  match st_sndheap st !! p with
  | Some snd => (Ret snd, st)
  | None => (Fault NullDereference, st)
  end.

(** ** The buffer map *)

Definition addStreamBuffer (buffer : nat) : M streams bool :=
  let* sb := deref_buffer buffer in
  let* buffers := gets st_buffers in
  match buffers !! sb_streamId sb with
  | Some _ => ret false
  | None => modify (with_buffers (<[sb_streamId sb := buffer]> buffers)) ;; ret true
  end.

Definition removeStreamBuffer (id : Z) : M streams bool :=
  let* buffers := gets st_buffers in
  match buffers !! id with
  | None => ret false
  | Some _ => modify (with_buffers (delete id buffers)) ;; ret true
  end.

(** A call on the file system. *)
Definition on_fs {A} (m : M filesystem A) : M streams A := zoom st_fs with_fs m.

Definition getStreamBuffer (id : Z) : M streams (option nat) :=
  let* buffers := gets st_buffers in
  match buffers !! id with
  | Some p => ret (Some p)
  | None =>
      let* buf := on_fs (StreamBuffer_open (stream_path id) id) in
      match buf with
      | Some sb =>
          let* p := alloc_buffer sb in
          modify (fun st => with_buffers (<[id := p]> (st_buffers st)) st) ;;
          ret (Some p)
      | None => ret None
      end
  end.

Definition numStreamBuffers : M streams nat := gets (fun st => size (st_buffers st)).

(** ** Eviction: the second block of [Server::onTimer]

    The age [t - lastActivity()] is a difference of [uint64_t]s. *)
Definition stale (st : streams) (p : nat) : bool :=
  match st_heap st !! p with
  | Some sb => bool_decide (u64 (st_time st - sb_lastActivity sb) > 60)
  | None => false
  end.

Definition evictStreamBuffers : M streams unit :=
  let* remove := gets (fun st => filter (fun p => stale st p = true)
                                   (in_key_order (st_buffers st)).*2) in
  for_each remove (fun p =>
    let* sb := deref_buffer p in
    modify (fun st => with_buffers (delete (sb_streamId sb) (st_buffers st)) st)).

(** ** Stream buffer senders *)

Definition addStreamBufferSender (snd : nat) : M streams unit :=
  modify (fun st => with_senders (st_senders st ++ [snd]) st).

(** [StreamBufferSender::getBuffer] *)
Definition getBuffer (p : nat) : M streams unit :=
  let* snd := deref_sender p in
  match snd_buffer snd with
  | Some _ => ret tt
  | None =>
      let* buffer := getStreamBuffer (snd_id snd) in
      match buffer with
      | None => ret tt
      | Some b =>
          let* sb := deref_buffer b in
          modify (fun st => with_sndheap (<[p := Sender (snd_id snd) (snd_session snd) (Some b)
            (sb_streamType sb) (StreamBuffer_size sb) (sb_streamParts sb)]> (st_sndheap st)) st)
      end
  end.

(** [StreamBufferSender::create] with [init]. *)
Definition StreamBufferSender_create (session : nat) (id : Z) : M streams (option nat) :=
  let* p := alloc_sender (Sender id session None Stream_Undefined 0 0) in
  if streamSender_init id then getBuffer p ;; ret (Some p) else ret None.

(** [StreamBufferSender::preparePacket]: [base] is [Zway::BufferSender::preparePacket] on the
    sender; without a buffer the packet pointer is reset and the result is true. *)
Definition preparePacket (base : sender -> bool * option packet) (p : nat) : M streams (bool * option packet) :=
  getBuffer p ;;
  let* snd := deref_sender p in
  ret (match snd_buffer snd with Some _ => base snd | None => (true, None) end).
End streams.

(** ** Well-formedness *)

Section streams_specs.
Context `{PlatformLaws}.

(** Every entry of the map points to the buffer of its key's stream, and pointers
    handed out are below [st_next]. *)
Record streams_wf (st : streams) : Prop := {
  wf_buffers : forall k p, st_buffers st !! k = Some p ->
    exists sb, st_heap st !! p = Some sb /\ sb_streamId sb = k;
  wf_heap : forall p sb, st_heap st !! p = Some sb -> (p < st_next st)%nat;
  wf_sndheap : forall p s, st_sndheap st !! p = Some s -> (p < st_next st)%nat
}.

(** A buffer, once allocated, stays and keeps its stream. *)
Definition heap_grows (st st' : streams) : Prop :=
  forall p sb, st_heap st !! p = Some sb ->
    exists sb', st_heap st' !! p = Some sb' /\ sb_streamId sb' = sb_streamId sb.

#[export] Instance heap_grows_preorder : PreOrder heap_grows.
Proof.
  split; [intros st p sb Hp; eauto|]. intros st1 st2 st3 H12 H23 p sb Hp.
  destruct (H12 p sb Hp) as (sb2 & Hp2 & E2). destruct (H23 p sb2 Hp2) as (sb3 & Hp3 & E3).
  exists sb3. split; [done|congruence].
Qed.

Lemma wf_alloc_buffer sb st p st' :
  streams_wf st -> alloc_buffer sb st = (Ret p, st') ->
  streams_wf st' /\ heap_grows st st' /\ st_heap st' !! p = Some sb /\
  st_buffers st' = st_buffers st /\ st_fs st' = st_fs st.
Proof.
  intros Hwf [= <- <-]. simpl. split_and!; try done.
  - split; simpl.
    + intros k p Hk. destruct (wf_buffers _ Hwf k p Hk) as (sb' & Hp & Hid).
      exists sb'. rewrite lookup_insert_ne; [done|]. apply (wf_heap _ Hwf) in Hp. lia.
    + intros p sb'. rewrite lookup_insert. case_decide; [lia|].
      intros Hp%(wf_heap _ Hwf). lia.
    + intros p s Hp%(wf_sndheap _ Hwf). lia.
  - intros p sb' Hp. exists sb'. simpl. rewrite lookup_insert_ne; [done|].
    apply (wf_heap _ Hwf) in Hp. lia.
  - by rewrite lookup_insert_eq.
Qed.

Lemma wf_with_fs fs st : streams_wf st -> streams_wf (with_fs fs st).
Proof. intros []. by split. Qed.

Lemma wf_insert_buffer k p sb st :
  streams_wf st -> st_heap st !! p = Some sb -> sb_streamId sb = k ->
  streams_wf (with_buffers (<[k := p]> (st_buffers st)) st).
Proof.
  intros Hwf Hp Hid. split; simpl; [|apply Hwf..].
  intros k' p'. rewrite lookup_insert. case_decide; [|apply Hwf].
  intros [= <-]. exists sb. split; [done|congruence].
Qed.

Lemma wf_delete_buffer k st :
  streams_wf st -> streams_wf (with_buffers (delete k (st_buffers st)) st).
Proof.
  intros Hwf. split; simpl; [|apply Hwf..].
  intros k' p' [_ Hk]%lookup_delete_Some. by apply (wf_buffers _ Hwf).
Qed.

(** Opening never changes the file system and never faults. *)
Lemma StreamBuffer_open_fs path id fs :
  exists o, StreamBuffer_open path id fs = (Ret o, fs) /\
    (o = None <-> fs_files fs !! path = None) /\
    forall sb, o = Some sb -> sb_streamId sb = id /\ sb_lastActivity sb = 0.
Proof.
  unfold StreamBuffer_open, StreamBuffer_load, FileBuffer_open, FileBuffer_load, fopen_rb.
  destruct (fs_files fs !! path) as [bs|] eqn:Hf; [|by exists None].
  unfold bindM. rewrite Hf. simpl. eexists. split_and!; [done|done|]. by intros sb [= <-].
Qed.

(** *** The map *)

Lemma addStreamBuffer_spec p sb st :
  streams_wf st -> st_heap st !! p = Some sb ->
  exists b st', addStreamBuffer p st = (Ret b, st') /\ streams_wf st' /\
    (b = true <-> st_buffers st !! sb_streamId sb = None) /\
    st_buffers st' = (if b then <[sb_streamId sb := p]> (st_buffers st) else st_buffers st).
Proof.
  intros Hwf Hp. unfold addStreamBuffer, bindM, deref_buffer. rewrite Hp. simpl.
  destruct (st_buffers st !! sb_streamId sb) eqn:E.
  - exists false, st. by split_and!.
  - eexists true, _. split_and!; [done| |done|done]. by eapply wf_insert_buffer.
Qed.

Lemma getStreamBuffer_spec id st :
  streams_wf st ->
  exists o st', getStreamBuffer id st = (Ret o, st') /\ streams_wf st' /\
    (o = None <-> st_buffers st !! id = None /\ fs_files (st_fs st) !! stream_path id = None) /\
    (forall p, o = Some p ->
      st_buffers st' !! id = Some p /\
      (exists sb, st_heap st' !! p = Some sb /\ sb_streamId sb = id) /\
      getStreamBuffer id st' = (Ret (Some p), st')) /\
    (forall k, k <> id -> st_buffers st' !! k = st_buffers st !! k).
Proof.
  intros Hwf. unfold getStreamBuffer at 1. unfold bindM at 1. simpl.
  destruct (st_buffers st !! id) as [p|] eqn:Hb.
  { exists (Some p), st. split_and!; try done; [naive_solver|].
    intros p' [= <-]. split_and!; [done|by apply Hwf|].
    unfold getStreamBuffer, bindM. simpl. by rewrite Hb. }
  unfold bindM at 1. unfold on_fs, zoom.
  destruct (StreamBuffer_open_fs (stream_path id) id (st_fs st)) as (o & -> & Hnone & Hsome).
  destruct o as [sb|]; simpl.
  2: { exists None, (with_fs (st_fs st) st).
       split_and!; [done|by apply wf_with_fs|naive_solver|done|done]. }
  destruct (Hsome sb eq_refl) as [Hid _].
  destruct (alloc_buffer sb (with_fs (st_fs st) st)) as [r st1] eqn:Ha.
  pose proof Ha as Ha'. unfold alloc_buffer in Ha'. injection Ha' as <- Est1.
  destruct (wf_alloc_buffer _ _ _ _ (wf_with_fs (st_fs st) _ Hwf) Ha) as (Hwf1 & _ & Hp & Hbs & _).
  eexists (Some _), _. unfold bindM. rewrite Ha. simpl. split_and!; [done| |naive_solver| |].
  - by eapply wf_insert_buffer.
  - intros p [= <-]. simpl. rewrite lookup_insert_eq. split_and!; [done|by exists sb|].
    unfold getStreamBuffer, bindM. simpl. by rewrite lookup_insert_eq.
  - intros k Hk. simpl. rewrite lookup_insert_ne by done. by rewrite Hbs.
Qed.

(** [getStreamBuffer] finds a stream's buffer in the map or opens its file, and
    shares it: it answers a null pointer exactly for a stream that has neither, the buffer
    it returns is the one of that stream, and asking again returns the same pointer without
    opening anything. Other streams' entries are untouched and the map stays well formed. *)
Lemma getStreamBuffer_shared id st :
  streams_wf st ->
  exists o st', getStreamBuffer id st = (Ret o, st') /\ streams_wf st' /\
    (o = None <-> st_buffers st !! id = None /\ fs_files (st_fs st) !! stream_path id = None) /\
    (forall p, o = Some p ->
      st_buffers st' !! id = Some p /\
      (exists sb, st_heap st' !! p = Some sb /\ sb_streamId sb = id) /\
      getStreamBuffer id st' = (Ret (Some p), st')) /\
    (forall k, k <> id -> st_buffers st' !! k = st_buffers st !! k).
Proof. apply getStreamBuffer_spec. Qed.

(** *** Eviction *)

Definition delete_all (m : gmap Z nat) (ks : list Z) : gmap Z nat := foldl (fun m k => delete k m) m ks.

Lemma lookup_delete_all m ks i :
  delete_all m ks !! i = if decide (i ∈ ks) then None else m !! i.
Proof.
  revert m. induction ks as [|k ks IH]; intros m; [by rewrite decide_False by set_solver|].
  change (delete_all m (k :: ks)) with (delete_all (delete k m) ks).
  rewrite IH, lookup_delete. repeat case_decide; set_solver.
Qed.

Lemma evict_loop st ps ks :
  Forall2 (fun p k => exists sb, st_heap st !! p = Some sb /\ sb_streamId sb = k) ps ks ->
  forall b, for_each ps (fun p =>
    let* sb := deref_buffer p in
    modify (fun st => with_buffers (delete (sb_streamId sb) (st_buffers st)) st))
    (with_buffers b st) = (Ret tt, with_buffers (delete_all b ks) st).
Proof.
  induction 1 as [|p k ps ks (sb & Hp & Hid) _ IH]; intros b; [done|].
  cbn [for_each]. unfold bindM at 1 2, deref_buffer. cbn [st_heap with_buffers]. rewrite Hp.
  unfold modify. cbn [st_buffers with_buffers]. rewrite Hid. apply IH.
Qed.

Lemma evictStreamBuffers_run st :
  streams_wf st ->
  evictStreamBuffers st =
    (Ret tt, with_buffers (filter (fun kp => stale st kp.2 = false) (st_buffers st)) st).
Proof.
  intros Hwf. unfold evictStreamBuffers. unfold bindM at 1. unfold gets.
  set (ps := filter _ _).
  assert (Hps : exists ks, Forall2 (fun p k => st_buffers st !! k = Some p /\ stale st p = true) ps ks /\
    forall k p, st_buffers st !! k = Some p -> stale st p = true -> k ∈ ks).
  { exists (filter (fun kp => stale st kp.2 = true) (in_key_order (st_buffers st))).*1.
    assert (Hall : Forall (fun kp => st_buffers st !! kp.1 = Some kp.2) (in_key_order (st_buffers st))).
    { apply Forall_forall. intros [k p] Hin. by apply elem_of_in_key_order in Hin. }
    split.
    - subst ps. clear Hwf. induction (in_key_order (st_buffers st)) as [|[k p] l IH]; [constructor|].
      apply Forall_cons in Hall as [Hk Hall]. csimpl. rewrite !filter_cons. simpl.
      case_decide; csimpl; [constructor|]; auto.
    - intros k p Hk Hst. apply list_elem_of_fmap. exists (k, p). split; [done|].
      apply list_elem_of_filter. split; [done|]. by apply elem_of_in_key_order. }
  destruct Hps as (ks & HF & Hks).
  assert (Hst : st = with_buffers (st_buffers st) st) by by destruct st.
  rewrite Hst at 1. rewrite (evict_loop st ps ks).
  2: { eapply Forall2_impl; [exact HF|]. intros p k [Hk _]. by apply Hwf. }
  f_equal. f_equal. apply map_eq. intros k. rewrite lookup_delete_all, map_lookup_filter.
  case_decide as Hin.
  - apply list_elem_of_lookup in Hin as [i Hi].
    destruct (Forall2_lookup_r _ _ _ _ _ HF Hi) as (p & _ & Hk & Hs). rewrite Hk. simpl.
    case_guard; [simpl in *; congruence|done].
  - destruct (st_buffers st !! k) as [p|] eqn:Hk; [|done]. simpl. case_guard as Hs; [done|].
    exfalso. apply Hin, (Hks k p Hk). simpl in Hs. by destruct (stale st p).
Qed.

(** The two-second timer evicts exactly the buffers idle for more than 60 seconds, the
    age being taken modulo 2^64; every other entry, the buffers themselves and the files
    stay. *)
Lemma evictStreamBuffers_exact st :
  streams_wf st ->
  evictStreamBuffers st =
    (Ret tt, with_buffers (filter (fun kp => stale st kp.2 = false) (st_buffers st)) st).
Proof. apply evictStreamBuffers_run. Qed.

Lemma getStreamBuffer_cold id st bs :
  streams_wf st -> st_buffers st !! id = None ->
  fs_files (st_fs st) !! stream_path id = Some bs ->
  exists sb, StreamBuffer_open (stream_path id) id (st_fs st) = (Ret (Some sb), st_fs st) /\
    getStreamBuffer id st =
      (Ret (Some (st_next st)),
       with_buffers (<[id := st_next st]> (st_buffers st))
         (alloc_buffer sb st).2) /\
    sb_lastActivity sb = 0.
Proof.
  intros Hwf Hb Hf. unfold getStreamBuffer, bindM. simpl. rewrite Hb. unfold on_fs, zoom.
  destruct (StreamBuffer_open_fs (stream_path id) id (st_fs st)) as (o & -> & Hnone & Hsome).
  destruct o as [sb|]; [|rewrite Hf in Hnone; naive_solver].
  exists sb. split_and!; [done| |by apply Hsome]. by destruct st.
Qed.

(** A buffer that has just been opened for a download is evicted by the next timer
    tick unless it is read first: its time of last activity starts at 0, so the 60 seconds
    of idleness are over from the start. The next request reopens the file as a new buffer. *)
Lemma opened_buffer_evicted id st bs p st1 st2 :
  streams_wf st -> st_buffers st !! id = None ->
  fs_files (st_fs st) !! stream_path id = Some bs ->
  60 < st_time st < 2 ^ 64 ->
  getStreamBuffer id st = (Ret (Some p), st1) ->
  evictStreamBuffers st1 = (Ret tt, st2) ->
  st_buffers st1 !! id = Some p /\ st_buffers st2 !! id = None /\
  exists p', p' <> p /\ (getStreamBuffer id st2).1 = Ret (Some p').
Proof.
  intros Hwf Hb Hf Ht Hget Hev.
  destruct (getStreamBuffer_spec id st Hwf) as (o & st1' & Hget' & Hwf1 & _ & Hsome & _).
  rewrite Hget in Hget'. injection Hget' as <- <-. destruct (Hsome p eq_refl) as (Hb1 & _ & _).
  destruct (getStreamBuffer_cold id st bs Hwf Hb Hf) as (sb & _ & Hcold & Hact).
  rewrite Hget in Hcold. injection Hcold as -> ->.
  rewrite evictStreamBuffers_run in Hev by done. injection Hev as <-.
  split; [done|].
  set (st1 := with_buffers _ _) in *.
  assert (Hstale : stale st1 (st_next st) = true).
  { unfold stale, st1. simpl. rewrite lookup_insert_eq. apply bool_decide_eq_true.
    rewrite Hact, Z.sub_0_r, u64_id; lia. }
  assert (Hgone : filter (fun kp => stale st1 kp.2 = false) (st_buffers st1) !! id = None).
  { rewrite map_lookup_filter, Hb1. simpl. case_guard as Hs; [|done]. simpl in Hs. congruence. }
  split; [done|]. exists (S (st_next st)). split; [lia|].
  assert (Hwf2 : streams_wf (with_buffers (filter (fun kp => stale st1 kp.2 = false) (st_buffers st1)) st1)).
  { split; simpl; [|apply Hwf1..]. intros k q [Hk _]%map_lookup_filter_Some. by apply (wf_buffers _ Hwf1). }
  destruct (getStreamBuffer_cold id _ bs Hwf2 Hgone Hf) as (sb2 & _ & Hc & _).
  exact (f_equal fst Hc).
Qed.

(** A sender created for a stored resource describes it: its size is the size of the
    file and its number of parts is the one the size takes, and it keeps the client's
    session and stream id. *)
Lemma sender_describes_resource session id st bs :
  streams_wf st -> st_buffers st !! id = None ->
  fs_files (st_fs st) !! stream_path id = Some bs -> Z.of_nat (length bs) < 2 ^ 32 ->
  streamSender_init id = true ->
  exists p st' snd, StreamBufferSender_create session id st = (Ret (Some p), st') /\
    st_sndheap st' !! p = Some snd /\ snd_session snd = session /\ snd_id snd = id /\
    snd_buffer snd = st_buffers st' !! id /\ snd_buffer snd <> None /\
    snd_type snd = Stream_Resource /\ snd_size snd = Z.of_nat (length bs) /\
    Z.of_nat (length bs) <= snd_parts snd * MAX_PACKET_BODY /\
    (snd_parts snd - 1) * MAX_PACKET_BODY < Z.of_nat (length bs).
Proof.
  intros Hwf Hb Hf Hlt Hi. unfold StreamBufferSender_create. unfold bindM at 1.
  set (s0 := Sender id session None Stream_Undefined 0 0).
  destruct (alloc_sender s0 st) as [r st1] eqn:Ha.
  pose proof Ha as Ha'. unfold alloc_sender in Ha'. injection Ha' as <- <-. rewrite Hi.
  set (st1 := Streams _ _ _ _ _ _ _) in *.
  assert (Hwf1 : streams_wf st1).
  { split; simpl; [apply Hwf| |].
    - intros p sb Hp%(wf_heap _ Hwf). lia.
    - intros p s. rewrite lookup_insert. case_decide; [lia|]. intros Hp%(wf_sndheap _ Hwf). lia. }
  destruct (getStreamBuffer_cold id st1 bs Hwf1 Hb Hf) as (sb & Hopen & Hget & _).
  pose proof (StreamBuffer_open_spec (stream_path id) id (st_fs st)) as Hspec. rewrite Hf in Hspec.
  destruct (Hspec Hlt) as (sb' & Hopen' & _ & _ & Hty & Hsz & Hp1 & Hp2).
  cbn [st_fs st1] in Hopen. rewrite Hopen in Hopen'. injection Hopen' as <-.
  unfold getBuffer, deref_sender, bindM. cbn [st_sndheap st1]. rewrite lookup_insert_eq.
  cbn [snd_buffer s0 snd_id]. rewrite Hget. unfold deref_buffer. simpl. rewrite lookup_insert_eq.
  eexists _, _, _. split; [reflexivity|]. simpl. rewrite lookup_insert_eq. split; [reflexivity|].
  simpl. rewrite lookup_insert_eq. by split_and!.
Qed.
End streams_specs.
