(* ===== verification/Relay.v ===== *)
(** * Resources in transit

    What [StreamBuffer] and [Streams] promise together. A resource is uploaded into a
    buffer, over a file or over memory, and fetched from it while it is in the server's map
    and again after the timer dropped it and its file is opened anew. *)

From stdpp Require Import relations.
From S2P Require Import Prelude Values Platform Stdio StreamBuffer Streams.

Local Open Scope zway_scope.
Local Open Scope Z_scope.

(** ** The two storages are the same to a client *)

Section storages.
Context `{PlatformLaws}.

(** A stream buffer in memory of [size] bytes, of which [bs] have been written. *)
Definition mem_log (size : Z) (st : StreamBuffer BUFFER * filesystem) (bs : list Byte.byte) : Prop :=
  sb_log st bs /\ exists b, sb_buffer st.1 = Some (MemBUFFER b) /\
    Z.of_nat (length (zbuffer_bytes b)) = size.

Lemma zbuffer_write_grows data off b n b' :
  0 <= off -> off + Z.of_nat (length data) <= Z.of_nat (length (zbuffer_bytes b)) ->
  zbuffer_write data off b = (Some n, b') ->
  length (zbuffer_bytes b') = length (zbuffer_bytes b).
Proof.
  intros Ho Hfit Hw. apply zbuffer_write_ok in Hw as [_ ->]; [|done].
  rewrite !length_app, length_take, length_drop. lia.
Qed.

Lemma mem_log_write size now data off st bs :
  mem_log size st bs -> Z.of_nat (length (bs ++ data)) <= size ->
  Z.of_nat (length (bs ++ data)) < 2 ^ 32 ->
  exists st', StreamBuffer_write now data off st = (Ret (Some (Z.of_nat (length data))), st') /\
    mem_log size st' (bs ++ data).
Proof.
  intros [Hlog (b & Hb & Hsz)] Hfit Hlt.
  pose proof (sb_log_bytesReadable _ _ Hlog) as Hbr. destruct st as [sb fs]. cbn [fst snd] in *.
  rewrite length_app in Hfit.
  destruct (zbuffer_write_fits data (Z.of_nat (length bs)) b) as (n & b' & Hw); [lia|lia|].
  destruct (StreamBuffer_write now data off (sb, fs)) as [r st'] eqn:Hrun.
  pose proof Hrun as Hrun'. unfold StreamBuffer_write in Hrun'. cbn [fst] in Hrun'.
  rewrite Hb, Hbr in Hrun'. unfold bindM, on_buffer, map_state in Hrun'. cbn in Hrun'.
  rewrite Hw in Hrun'. cbn in Hrun'. injection Hrun' as <- <-.
  destruct (StreamBuffer_write_spec _ _ _ _ _ _ _ Hlog Hlt Hrun) as (-> & Hlog' & _).
  eexists. split; [reflexivity|]. split; [done|]. exists b'. split; [done|].
  erewrite zbuffer_write_grows; [done| | |exact Hw]; lia.
Qed.

(** A read keeps the storage and everything written. *)
Lemma mem_log_read size now n off st bs :
  mem_log size st bs -> 0 <= n -> 0 <= off ->
  exists st', StreamBuffer_read now n off st = (Ret (Some (slice n off bs)), st') /\
    mem_log size st' bs.
Proof.
  intros [Hlog (b & Hb & Hsz)] Hn Ho.
  destruct (StreamBuffer_read_spec now n off st bs Hlog Hn Ho) as (st' & Hrun & Hlog' & _).
  exists st'. split; [done|]. split; [done|]. exists b. split; [|done].
  destruct st as [sb fs]. cbn [fst] in *. revert Hrun. unfold StreamBuffer_read. cbn [fst]. rewrite Hb.
  set (k := if decide (off < _) then _ else _). case_decide; unfold bindM, on_buffer, map_state; cbn.
  - destruct (zbuffer_read k off b); [|done]. by intros [= _ <-].
  - intros [= _ <-]. done.
Qed.

(** A read of a buffer over a file keeps the file. *)
Lemma file_log_read path now n off st bs :
  file_log path st bs -> 0 <= n -> 0 <= off ->
  exists st', StreamBuffer_read now n off st = (Ret (Some (slice n off bs)), st') /\
    file_log path st' bs /\ st'.2 = st.2.
Proof.
  intros Hfl Hn Ho. pose proof (file_log_sb_log _ _ _ Hfl) as Hlog.
  destruct (StreamBuffer_read_spec now n off st bs Hlog Hn Ho) as (st' & Hrun & _ & _).
  exists st'. split; [done|]. revert Hrun.
  destruct Hfl as (f & size & Hb & Hp & Ha & Hf & Hr & Hlt). destruct st as [sb fs]. cbn [fst snd] in *.
  unfold StreamBuffer_read. cbn [fst]. rewrite Hb.
  set (k := if decide (off < _) then _ else _).
  assert (Hk : k <> 0 -> off < 2 ^ 32).
  { pose proof (u32_range (sb_bytesReadable sb)) as Hu. unfold is_u32 in Hu.
    subst k. unfold bytesReadable. case_decide; lia. }
  case_decide; unfold bindM, on_buffer, map_state; cbn.
  - unfold FileBuffer_read, fseek_set, fread1. cbn [fb_fh]. rewrite decide_True by lia.
    set (c := decide (0 < k /\ _)). destruct c; cbn; [|done]. intros [= _ <-].
    split; [|done]. eexists _, _. by split_and!.
  - intros [= _ <-]. split; [|done]. by exists f, size.
Qed.

(** A storage on which [room] more bytes can be written serves any sequence of operations
    that writes no more, with the answers of the log. *)
Lemma sb_run_total (P : nat -> StreamBuffer BUFFER * filesystem -> list Byte.byte -> Prop) :
  (forall now data off room st bs, P room st bs -> data <> [] -> (length data <= room)%nat ->
     Z.of_nat (length (bs ++ data)) < 2 ^ 32 ->
     exists st', StreamBuffer_write now data off st = (Ret (Some (Z.of_nat (length data))), st') /\
       P (room - length data)%nat st' (bs ++ data)) ->
  (forall now n off room st bs, P room st bs -> 0 <= n -> 0 <= off ->
     exists st', StreamBuffer_read now n off st = (Ret (Some (slice n off bs)), st') /\
       P room st' bs) ->
  forall ops room st bs, P room st bs ->
  Forall (fun op => op_ok op /\ match op with LogWrite _ data _ => data <> [] | _ => True end) ops ->
  (sum_list_with op_size ops <= room)%nat ->
  Z.of_nat (length bs + sum_list_with op_size ops) < 2 ^ 32 ->
  exists st' room', sb_run ops st = (Ret (log_run ops bs).1, st') /\ P room' st' (log_run ops bs).2.
Proof.
  intros Hwr Hrd. induction ops as [|op ops IH]; intros room st bs HP Hok Hroom Hlt.
  { by exists st, room. }
  apply Forall_cons in Hok as [[Hop Hne] Hok]. destruct op as [now data off|now n off]; cbn in *.
  - destruct (Hwr now data off room st bs) as (st1 & Hw & HP1); [done|done|lia|rewrite length_app; lia|].
    destruct (IH _ st1 (bs ++ data) HP1 Hok) as (st2 & room2 & Hrun & HP2); [lia|rewrite length_app; lia|].
    exists st2, room2. unfold bindM. rewrite Hw. cbn. rewrite Hrun.
    by destruct (log_run ops (bs ++ data)).
  - destruct Hop as [Hn Ho]. destruct (Hrd now n off room st bs HP Hn Ho) as (st1 & Hr & HP1).
    destruct (IH _ st1 bs HP1 Hok) as (st2 & room2 & Hrun & HP2); [lia|lia|].
    exists st2, room2. unfold bindM. rewrite Hr. cbn. rewrite Hrun. by destruct (log_run ops bs).
Qed.

Definition client_op (op : sb_op) : Prop :=
  op_ok op /\ match op with LogWrite _ data _ => data <> [] | _ => True end.

Lemma file_run path ops room st bs :
  file_log path st bs /\ (room <= fs_room st.2)%nat -> Forall client_op ops ->
  (sum_list_with op_size ops <= room)%nat ->
  Z.of_nat (length bs + sum_list_with op_size ops) < 2 ^ 32 ->
  exists st' room', sb_run ops st = (Ret (log_run ops bs).1, st') /\
    file_log path st' (log_run ops bs).2 /\ (room' <= fs_room st'.2)%nat.
Proof.
  apply (sb_run_total (fun room st bs => file_log path st bs /\ (room <= fs_room st.2)%nat)); clear ops room st bs.
  - intros now data off room st bs [HP Hle] Hd Hl Hlt.
    destruct (file_log_write path now data off st bs HP Hd) as (st1 & Hw & HP1 & Hrm1); [lia|done|].
    exists st1. split; [done|]. split; [done|lia].
  - intros now n off room st bs [HP Hle] Hn Ho.
    destruct (file_log_read path now n off st bs HP Hn Ho) as (st1 & Hw & HP1 & E).
    exists st1. split; [done|]. by rewrite E.
Qed.

Lemma mem_run ops room st bs :
  mem_log (Z.of_nat (length bs + room)) st bs -> Forall client_op ops ->
  (sum_list_with op_size ops <= room)%nat ->
  Z.of_nat (length bs + sum_list_with op_size ops) < 2 ^ 32 ->
  exists st' room', sb_run ops st = (Ret (log_run ops bs).1, st') /\
    mem_log (Z.of_nat (length (log_run ops bs).2 + room')) st' (log_run ops bs).2.
Proof.
  apply (sb_run_total (fun room st bs => mem_log (Z.of_nat (length bs + room)) st bs)); clear ops room st bs.
  - intros now data off room st bs HP Hd Hl Hlt.
    destruct (mem_log_write _ now data off st bs HP) as (st1 & Hw & HP1); [rewrite length_app; lia|done|].
    exists st1. split; [done|]. rewrite length_app.
    by replace (length bs + length data + (room - length data))%nat with (length bs + room)%nat by lia.
  - intros now n off room st bs HP Hn Ho. by apply mem_log_read.
Qed.

Lemma StreamBuffer_create_mem pkt fs sb fs1 :
  StreamBuffer_create "" pkt fs = (Ret (Some sb), fs1) ->
  0 <= pkt_parts pkt -> mem_log (u32 (pkt_parts pkt * MAX_PACKET_BODY)) (sb, fs1) [] /\ fs1 = fs.
Proof.
  unfold StreamBuffer_create, StreamBuffer_init, ret. cbn [sb_streamParts StreamBuffer_new_packet].
  destruct (zbuffer_create _) as [b|] eqn:Hb; [|done]. intros [= <- <-] _. split; [|done].
  split.
  - exists (MemBUFFER b). split_and!; [done| |done|done]. cbn. apply prefix_nil.
  - exists b. split; [done|]. apply zbuffer_create_size in Hb; [done|]. apply u32_range.
Qed.

(** C34: Equivalence of the two storages: a stream buffer created over a file and one
    created in memory for the same packet answer any sequence of reads and writes alike, as
    long as what is written fits on the device and into the announced parts; both never
    refuse, and give what the plain log of the bytes gives. *)
Theorem storages_equivalent path pkt ops fs fs' sb fs1 :
  path <> ""%string -> fs_files fs !! path = None -> fs_creatable fs path = true ->
  StreamBuffer_create "" pkt fs' = (Ret (Some sb), fs1) -> 0 <= pkt_parts pkt ->
  Forall client_op ops -> (sum_list_with op_size ops <= fs_room fs)%nat ->
  Z.of_nat (sum_list_with op_size ops) <= u32 (pkt_parts pkt * MAX_PACKET_BODY) ->
  exists sb' fs2 st st', StreamBuffer_create path pkt fs = (Ret (Some sb'), fs2) /\
    sb_run ops (sb', fs2) = (Ret (log_run ops []).1, st) /\
    sb_run ops (sb, fs1) = (Ret (log_run ops []).1, st').
Proof.
  intros Hp Hf Hc Hmem Hparts Hok Hroom Hfit.
  destruct (StreamBuffer_create_new path pkt fs Hp Hf Hc) as (sb' & fs2 & Hcr & Hlog & _ & Hrm).
  destruct (StreamBuffer_create_mem pkt fs' sb fs1 Hmem Hparts) as [Hm _].
  pose proof (u32_range (pkt_parts pkt * MAX_PACKET_BODY)) as Hr. unfold is_u32 in Hr.
  destruct (file_run path ops (fs_room fs) (sb', fs2) []) as (st & _ & Hrun & _);
    [split; [done|simpl; lia]|done|done|simpl; lia|].
  destruct (mem_run ops (Z.to_nat (u32 (pkt_parts pkt * MAX_PACKET_BODY))) (sb, fs1) [])
    as (st' & _ & Hrun' & _); [simpl; by rewrite Z2Nat.id by lia|done|lia|simpl; lia|].
  exists sb', fs2, st, st'. by split_and!.
Qed.
End storages.

(** ** Four gigabytes *)

Section narrowing.
Context `{Platform}.

(** C37: Bounds: [bytesReadable] gives the 64-bit count as a [uint32_t], so of a stored
    resource of [n] bytes a client can read the first [n] modulo 2^32 only: any read past
    them succeeds and is empty, however much of the file is there. A resource of 4 GiB
    appears empty. *)
Theorem bytesReadable_wraps path id fs bs :
  fs_files fs !! path = Some bs -> Z.of_nat (length bs) < 2 ^ 63 ->
  exists sb, StreamBuffer_open path id fs = (Ret (Some sb), fs) /\
    sb_bytesReadable sb = Z.of_nat (length bs) /\
    bytesReadable sb = Z.of_nat (length bs) mod 2 ^ 32 /\
    forall now size off, Z.of_nat (length bs) mod 2 ^ 32 <= off ->
      (StreamBuffer_read now size off (sb, fs)).1 = Ret (Some []).
Proof.
  intros Hf Hlt. unfold StreamBuffer_open, StreamBuffer_load, FileBuffer_open, FileBuffer_load, fopen_rb.
  unfold bindM. rewrite !Hf. unfold fseek_end, file_bytes. cbn. rewrite ?Hf. cbn.
  rewrite !(u64_id (Z.of_nat (length bs))) by lia.
  eexists. split; [reflexivity|]. split; [reflexivity|]. split; [reflexivity|].
  intros now size off Hoff. unfold StreamBuffer_read, bytesReadable, u32. cbn.
  destruct (decide (off < _)) as [?|_]; [lia|]. reflexivity.
Qed.
End narrowing.

(** ** From the upload to the download *)

Section relay.
Context `{PlatformLaws}.

(** A call on a buffer through a pointer to it. *)
Definition on_heap {A} (p : nat) (m : M (StreamBuffer BUFFER * filesystem) A) : M streams A := fun st =>
  match st_heap st !! p with
  | Some sb =>
      let '(r, (sb', fs')) := m (sb, st_fs st) in
      (r, Streams fs' (<[p := sb']> (st_heap st)) (st_buffers st) (st_sndheap st)
                  (st_senders st) (st_next st) (st_time st))
  | None => (Fault NullDereference, st)
  end.

(** What [createStreamReceiver] does for a resource packet (src/session.cpp). *)
Definition open_receiver (pkt : packet) : M streams (option nat) :=
  let* buffer := on_fs (StreamBuffer_create (stream_path (pkt_streamId pkt)) pkt) in
  match buffer with
  | None => ret None
  | Some sb => let* p := alloc_buffer sb in addStreamBuffer p ;; ret (Some p)
  end.

(** The reception of a whole resource, in the chunks of its packets. *)
Definition upload (now : Z) (pkt : packet) (chunks : list (list Byte.byte)) : M streams (option nat) :=
  let* p := open_receiver pkt in
  match p with
  | None => ret None
  | Some p => let* ok := on_heap p (write_all now chunks) in ret (if ok then Some p else None)
  end.

(** What else can happen to the streams while the resource [id] is stored: time passes, the
    timer evicts, buffers are looked up, read and removed, and other resources arrive. *)
Inductive relay_step (id : Z) : streams -> streams -> Prop :=
| relay_time t st :
    relay_step id st (Streams (st_fs st) (st_heap st) (st_buffers st) (st_sndheap st)
                              (st_senders st) (st_next st) t)
| relay_evict st st' : evictStreamBuffers st = (Ret tt, st') -> relay_step id st st'
| relay_get k o st st' : is_u32 k -> getStreamBuffer k st = (Ret o, st') -> relay_step id st st'
| relay_remove k b st st' : removeStreamBuffer k st = (Ret b, st') -> relay_step id st st'
| relay_read p now size off r st st' :
    on_heap p (StreamBuffer_read now size off) st = (Ret r, st') -> relay_step id st st'
| relay_write p sb now data off r st st' :
    st_heap st !! p = Some sb -> sb_streamId sb <> id ->
    on_heap p (StreamBuffer_write now data off) st = (Ret r, st') -> relay_step id st st'
| relay_open pkt o st st' :
    is_u32 (pkt_streamId pkt) -> pkt_streamId pkt <> id ->
    open_receiver pkt st = (Ret o, st') -> relay_step id st st'.

Lemma stream_path_inj a b : is_u32 a -> is_u32 b -> stream_path a = stream_path b -> a = b.
Proof.
  unfold stream_path, is_u32. intros Ha Hb [= E]. apply (pretty_N_inj _ _) in E. apply Z2N.inj in E; lia.
Qed.

Lemma stream_path_not_empty a : stream_path a <> ""%string.
Proof. done. Qed.

(** A buffer over the file of its stream. *)
Definition over_file (sb : StreamBuffer BUFFER) : Prop :=
  is_u32 (sb_streamId sb) /\ exists f size, sb_buffer sb = Some (FileBUFFER (FB (Some f) size)) /\
    f_path f = stream_path (sb_streamId sb).

(** [sb'] is [sb] after an operation. *)
Definition same_stream (sb sb' : StreamBuffer BUFFER) : Prop :=
  over_file sb' /\ sb_streamId sb' = sb_streamId sb.

Lemma StreamBuffer_read_frame now size off sb fs r sb' fs' :
  over_file sb -> StreamBuffer_read now size off (sb, fs) = (Ret r, (sb', fs')) ->
  same_stream sb sb' /\ fs' = fs /\ sb_bytesReadable sb' = sb_bytesReadable sb.
Proof.
  intros (Hid & f & sz & Hb & Hp). unfold StreamBuffer_read. cbn [fst]. rewrite Hb.
  set (k := if decide (off < _) then _ else _). unfold same_stream, over_file.
  case_decide; unfold bindM, on_buffer, map_state; cbn.
  - unfold FileBuffer_read, fseek_set, fread1. cbn [fb_fh].
    repeat case_decide; cbn; intros [= <- <- <-]; cbn; split_and!; try done; eexists _, _; by split.
  - intros [= <- <- <-]. cbn. rewrite Hb. split_and!; try done. by exists f, sz.
Qed.

Lemma StreamBuffer_write_frame now data off sb fs r sb' fs' :
  over_file sb -> StreamBuffer_write now data off (sb, fs) = (Ret r, (sb', fs')) ->
  same_stream sb sb' /\
  forall path, path <> stream_path (sb_streamId sb) -> fs_files fs' !! path = fs_files fs !! path.
Proof.
  intros (Hid & f & sz & Hb & Hp). unfold StreamBuffer_write. cbn [fst]. rewrite Hb.
  unfold same_stream, over_file, bindM, on_buffer, map_state. cbn.
  unfold FileBuffer_write, fseek_set. cbn [fb_fh]. case_decide; cbn.
  - destruct (fwrite1 data fs _) as [[r1 f2] fs2] eqn:Hw. unfold fwrite1 in Hw. cbn in Hw.
    assert (Hf2 : f_path f2 = f_path f /\
              forall path, path <> f_path f -> fs_files fs2 !! path = fs_files fs !! path).
    { destruct (f_append f); injection Hw as _ <- <-; split; cbn; try done.
      intros path Hne. by rewrite lookup_insert_ne. }
    clear Hw. destruct Hf2 as [Hp2 Hfs]. rewrite Hp in Hp2, Hfs.
    case_decide; cbn; intros [= <- <- <-]; cbn; split_and!; try done; by eexists _, _.
  - intros [= <- <- <-]. cbn. split_and!; try done. by exists f, sz.
Qed.

Lemma write_all_frame now chunks sb fs r sb' fs' :
  over_file sb -> write_all now chunks (sb, fs) = (Ret r, (sb', fs')) -> same_stream sb sb'.
Proof.
  revert sb fs. induction chunks as [|c chunks IH]; intros sb fs Hov; cbn [write_all].
  { by intros [= _ <- <-]. }
  unfold bindM. destruct (StreamBuffer_write now c 0 (sb, fs)) as [[o|] [sb1 fs1]] eqn:Hw; [|done].
  destruct (StreamBuffer_write_frame _ _ _ _ _ _ _ _ Hov Hw) as [[Hov1 Hid1] _].
  destruct o as [n|]; [|by intros [= _ <- <-]]. intros Hrun.
  destruct (IH _ _ Hov1 Hrun) as [Hov2 Hid2]. split; [done|congruence].
Qed.

(** The resource [id] is stored, with the bytes [bs]. *)
Record kept (id : Z) (bs : list Byte.byte) (st : streams) : Prop := {
  k_id : is_u32 id;
  k_wf : streams_wf st;
  k_file : fs_files (st_fs st) !! stream_path id = Some bs;
  k_length : Z.of_nat (length bs) < 2 ^ 32;
  k_heap : forall p sb, st_heap st !! p = Some sb ->
    over_file sb /\ (sb_streamId sb = id -> sb_bytesReadable sb = Z.of_nat (length bs))
}.

(** An operation on one buffer keeps the rest. *)
Lemma wf_update_heap p sb sb' fs st :
  streams_wf st -> st_heap st !! p = Some sb -> sb_streamId sb' = sb_streamId sb ->
  streams_wf (Streams fs (<[p := sb']> (st_heap st)) (st_buffers st) (st_sndheap st)
                      (st_senders st) (st_next st) (st_time st)).
Proof.
  intros Hwf Hp Hid. split; cbn; [| |apply Hwf].
  - intros k q Hq. destruct (wf_buffers _ Hwf k q Hq) as (sb0 & Hq0 & Hk).
    rewrite lookup_insert. case_decide; [subst q|eauto]. exists sb'. split; [done|congruence].
  - intros q sb0. rewrite lookup_insert. case_decide; [|apply Hwf].
    intros _. subst q. by eapply wf_heap.
Qed.

Lemma kept_update id bs p sb sb' fs st :
  kept id bs st -> st_heap st !! p = Some sb -> same_stream sb sb' ->
  fs_files fs !! stream_path id = fs_files (st_fs st) !! stream_path id ->
  (sb_streamId sb = id -> sb_bytesReadable sb' = sb_bytesReadable sb) ->
  kept id bs (Streams fs (<[p := sb']> (st_heap st)) (st_buffers st) (st_sndheap st)
                      (st_senders st) (st_next st) (st_time st)).
Proof.
  intros [K1 K2 K3 K4 K5] Hp [Hov Hid] Hfs Hr. split; try done.
  - by eapply wf_update_heap.
  - cbn. by rewrite Hfs.
  - cbn. intros q sb0. rewrite lookup_insert. case_decide; [|apply K5]. intros [= <-]. split; [done|].
    intros Hs. rewrite Hid in Hs. rewrite Hr by done. by eapply K5.
Qed.

Lemma kept_alloc id bs sb st p st' :
  kept id bs st -> over_file sb -> (sb_streamId sb = id -> sb_bytesReadable sb = Z.of_nat (length bs)) ->
  alloc_buffer sb st = (Ret p, st') -> kept id bs st' /\ st_heap st' !! p = Some sb.
Proof.
  intros [K1 K2 K3 K4 K5] Hov Hr Ha. destruct (wf_alloc_buffer _ _ _ _ K2 Ha) as (Hwf & _ & Hp & _ & Hfs).
  split; [|done]. split; try done; [by rewrite Hfs|].
  intros q sb0. injection Ha as <- <-. cbn. rewrite lookup_insert. case_decide; [|apply K5].
  by intros [= <-].
Qed.

(** The map of the buffers plays no part in [kept] but for its well-formedness. *)
Lemma kept_with_buffers id bs b st :
  kept id bs st -> streams_wf (with_buffers b st) -> kept id bs (with_buffers b st).
Proof. by intros [K1 K2 K3 K4 K5]. Qed.

Lemma kept_with_fs id bs fs st :
  kept id bs st -> fs_files fs !! stream_path id = fs_files (st_fs st) !! stream_path id ->
  kept id bs (with_fs fs st).
Proof. intros [K1 K2 K3 K4 K5] E. split; try done; [by apply wf_with_fs|cbn; by rewrite E]. Qed.

(** What [StreamBuffer_open] makes of a stored file. *)
Lemma StreamBuffer_open_over k fs o fs' :
  is_u32 k -> StreamBuffer_open (stream_path k) k fs = (Ret o, fs') ->
  fs' = fs /\ (forall sb, o = Some sb -> over_file sb /\ sb_streamId sb = k /\
    exists bs, fs_files fs !! stream_path k = Some bs /\
      (Z.of_nat (length bs) < 2 ^ 32 -> sb_bytesReadable sb = Z.of_nat (length bs))).
Proof.
  intros Hk. unfold StreamBuffer_open, StreamBuffer_load, FileBuffer_open, FileBuffer_load, fopen_rb.
  destruct (fs_files fs !! stream_path k) as [bs|] eqn:Hf; [|by intros [= <- <-]].
  unfold bindM. rewrite !Hf. cbn. intros [= <- <-]. split; [done|]. intros sb [= <-].
  unfold over_file. cbn. split_and!; try done.
  - by eexists _, _.
  - exists bs. split; [done|]. intros Hlt. unfold file_bytes. cbn. rewrite Hf. apply u64_id. cbn. lia.
Qed.

Lemma kept_get id bs k st o st' :
  kept id bs st -> is_u32 k -> getStreamBuffer k st = (Ret o, st') -> kept id bs st'.
Proof.
  intros Hk Hu Hget. pose proof (getStreamBuffer_spec k st (k_wf _ _ _ Hk)) as (o' & st1 & E & Hwf & _).
  rewrite Hget in E. injection E as <- <-. revert Hget. unfold getStreamBuffer, bindM. cbn.
  destruct (st_buffers st !! k) as [p|]; [by intros [= _ <-]|]. unfold on_fs, zoom.
  destruct (StreamBuffer_open (stream_path k) k (st_fs st)) as [[[sb|]|] fs] eqn:Ho; try done.
  - destruct (StreamBuffer_open_over _ _ _ _ Hu Ho) as [-> Hsb].
    destruct (Hsb sb eq_refl) as (Hov & Hid & bs' & Hf & Hr). intros [= _ <-].
    assert (Hread : sb_streamId sb = id -> sb_bytesReadable sb = Z.of_nat (length bs)).
    { rewrite Hid. intros ->. rewrite (k_file _ _ _ Hk) in Hf. injection Hf as <-. apply Hr, Hk. }
    destruct (kept_alloc id bs sb (with_fs (st_fs st) st) (st_next st) _
      (kept_with_fs _ _ _ _ Hk eq_refl) Hov Hread eq_refl) as [Hk1 _].
    by apply (kept_with_buffers id bs _ _ Hk1).
  - destruct (StreamBuffer_open_over _ _ _ _ Hu Ho) as [-> _]. intros [= _ <-]. by apply kept_with_fs.
Qed.

Lemma on_heap_inv {A} p (m : M (StreamBuffer BUFFER * filesystem) A) st r st' :
  on_heap p m st = (Ret r, st') ->
  exists sb sb' fs', st_heap st !! p = Some sb /\ m (sb, st_fs st) = (Ret r, (sb', fs')) /\
    st' = Streams fs' (<[p := sb']> (st_heap st)) (st_buffers st) (st_sndheap st)
                  (st_senders st) (st_next st) (st_time st).
Proof.
  unfold on_heap. destruct (st_heap st !! p) as [sb|]; [|done].
  destruct (m (sb, st_fs st)) as [r0 [sb' fs']] eqn:E. intros [= -> <-]. by exists sb, sb', fs'.
Qed.

(** What creating the file of a stream does. *)
Lemma StreamBuffer_create_inv pkt fs o fs' :
  is_u32 (pkt_streamId pkt) ->
  StreamBuffer_create (stream_path (pkt_streamId pkt)) pkt fs = (Ret o, fs') ->
  (forall path, path <> stream_path (pkt_streamId pkt) -> fs_files fs' !! path = fs_files fs !! path) /\
  forall sb, o = Some sb -> over_file sb /\ sb_streamId sb = pkt_streamId pkt.
Proof.
  intros Hu. unfold StreamBuffer_create, StreamBuffer_init.
  destruct (stream_path (pkt_streamId pkt)) as [|c path0] eqn:Hpath; [done|]. rewrite <- Hpath in *.
  unfold bindM, FileBuffer_create, FileBuffer_init, fopen_rb, fopen_ab.
  destruct (fs_files fs !! stream_path _) eqn:Hf; [done|].
  destruct (fs_creatable fs _); cbn; intros [= <- <-]; [|done]. split.
  - intros path Hne. cbn. by rewrite lookup_insert_ne.
  - intros sb [= <-]. unfold over_file. cbn. split_and!; try done. by eexists _, _.
Qed.

Lemma kept_open id bs pkt st o st' :
  kept id bs st -> is_u32 (pkt_streamId pkt) -> pkt_streamId pkt <> id ->
  open_receiver pkt st = (Ret o, st') -> kept id bs st'.
Proof.
  intros Hk Hu Hne. unfold open_receiver, bindM, on_fs, zoom.
  destruct (StreamBuffer_create _ pkt (st_fs st)) as [[o1|] fs] eqn:Hc; [|done].
  destruct (StreamBuffer_create_inv _ _ _ _ Hu Hc) as [Hfs Hsb].
  assert (Hk1 : kept id bs (with_fs fs st)).
  { apply kept_with_fs; [done|]. apply Hfs. intros E. apply Hne. symmetry.
    apply stream_path_inj; [apply Hk|done..]. }
  destruct o1 as [sb|]; [|by intros [= _ <-]]. destruct (Hsb sb eq_refl) as [Hov Hid].
  destruct (alloc_buffer sb (with_fs fs st)) as [r st1] eqn:Ha.
  pose proof Ha as Ha'. injection Ha' as <- _.
  assert (Hk2 : kept id bs st1 /\ st_heap st1 !! (st_next st) = Some sb).
  { apply (kept_alloc id bs sb _ _ _ Hk1 Hov); [congruence|done]. }
  destruct Hk2 as [Hk2 Hp]. cbn [with_fs st_next] in *.
  destruct (addStreamBuffer_spec _ _ _ (k_wf _ _ _ Hk2) Hp) as (b & st2 & Hadd & Hwf2 & _ & _).
  rewrite Hadd. intros [= _ <-]. revert Hadd. unfold addStreamBuffer, bindM, deref_buffer. rewrite Hp. cbn.
  destruct (st_buffers st1 !! _); [by intros [= _ <-]|]. intros [= _ <-].
  by apply (kept_with_buffers id bs _ _ Hk2).
Qed.

Lemma kept_step id bs st st' : kept id bs st -> relay_step id st st' -> kept id bs st'.
Proof.
  intros Hk Hs. pose proof Hk as [K1 K2 K3 K4 K5]. destruct Hs as
    [t st|st st' Hev|k o st st' Hu Hget|k b st st' Hrm|p now size off r st st' Hrd
    |p sb now data off r st st' Hp Hne Hwr|pkt o st st' Hu Hne Ho].
  - split; try done. by destruct K2.
  - rewrite evictStreamBuffers_run in Hev by done. injection Hev as <-.
    apply kept_with_buffers; [done|]. destruct K2 as [W1 W2 W3]. split; [|done..].
    intros k p [Hkp _]%map_lookup_filter_Some. by apply W1.
  - exact (kept_get _ _ _ _ _ _ Hk Hu Hget).
  - revert Hrm. unfold removeStreamBuffer, bindM. cbn.
    destruct (st_buffers st !! k) eqn:Eb; intros [= _ <-]; [|exact Hk].
    apply kept_with_buffers; [done|]. by apply wf_delete_buffer.
  - apply on_heap_inv in Hrd as (sb & sb' & fs' & Hp & Hrd & ->).
    destruct (K5 p sb Hp) as [Hov _].
    destruct (StreamBuffer_read_frame _ _ _ _ _ _ _ _ Hov Hrd) as (Hss & -> & Hr).
    by eapply kept_update.
  - apply on_heap_inv in Hwr as (sb1 & sb' & fs' & Hp1 & Hwr & ->).
    rewrite Hp in Hp1. injection Hp1 as <-. destruct (K5 p sb Hp) as [Hov _].
    destruct (StreamBuffer_write_frame _ _ _ _ _ _ _ _ Hov Hwr) as (Hss & Hfs).
    eapply kept_update; [done..| |done]. apply Hfs. intros E. apply Hne. symmetry.
    apply stream_path_inj; [done|apply Hov|done].
  - exact (kept_open _ _ _ _ _ _ Hk Hu Hne Ho).
Qed.

Lemma kept_steps id bs st st' : kept id bs st -> rtc (relay_step id) st st' -> kept id bs st'.
Proof. induction 2; eauto using kept_step. Qed.

Lemma kept_reads id bs st p sb now size off :
  kept id bs st -> st_heap st !! p = Some sb -> sb_streamId sb = id -> 0 <= size -> 0 <= off ->
  exists st', on_heap p (StreamBuffer_read now size off) st = (Ret (Some (slice size off bs)), st').
Proof.
  intros [K1 K2 K3 K4 K5] Hp Hid Hs Ho. destruct (K5 p sb Hp) as [(Hu & f & sz & Hb & Hf) Hr].
  destruct (StreamBuffer_read_spec now size off (sb, st_fs st) bs) as ([sb' fs'] & Hrun & _); [|done..|].
  - exists (FileBUFFER (FB (Some f) sz)). split_and!; [done| |by apply Hr|done].
    exists f. split; [done|]. unfold file_bytes. cbn. by rewrite Hf, Hid, K3.
  - unfold on_heap. rewrite Hp, Hrun. by eexists.
Qed.

(** The state an upload starts from: buffers are over the files of their streams, and
    nothing is there of the stream [id]. *)
Record fresh_stream (id : Z) (st : streams) : Prop := {
  f_id : is_u32 id;
  f_wf : streams_wf st;
  f_file : fs_files (st_fs st) !! stream_path id = None;
  f_creatable : fs_creatable (st_fs st) (stream_path id) = true;
  f_buffers : st_buffers st !! id = None;
  f_heap : forall p sb, st_heap st !! p = Some sb -> over_file sb /\ sb_streamId sb <> id
}.

Lemma upload_kept now pkt chunks st :
  fresh_stream (pkt_streamId pkt) st ->
  Forall (fun c => c <> []) chunks -> (length (mjoin chunks) <= fs_room (st_fs st))%nat ->
  Z.of_nat (length (mjoin chunks)) < 2 ^ 32 ->
  exists p st', upload now pkt chunks st = (Ret (Some p), st') /\
    st_buffers st' !! pkt_streamId pkt = Some p /\
    kept (pkt_streamId pkt) (mjoin chunks) st'.
Proof.
  intros [F1 F2 F3 F4 F5 F6] Hne Hroom Hlt. set (id := pkt_streamId pkt) in *.
  destruct (StreamBuffer_create_new (stream_path id) pkt (st_fs st) (stream_path_not_empty id) F3 F4)
    as (sb & fs1 & Hcr & Hlog & Hid & Hrm).
  destruct (file_log_write_all (stream_path id) now chunks (sb, fs1) [] Hlog Hne)
    as ([sb' fs2] & Hw & Hlog2); [cbn; lia|done|].
  destruct (StreamBuffer_create_inv pkt _ _ _ F1 Hcr) as [_ Hsb].
  destruct (Hsb sb eq_refl) as [Hov _].
  exists (st_next st). unfold upload, open_receiver, bindM, on_fs, zoom. fold id. rewrite Hcr.
  unfold alloc_buffer, addStreamBuffer, bindM, deref_buffer. cbn. rewrite lookup_insert_eq. cbn.
  rewrite Hid. fold id. rewrite F5. cbn. unfold on_heap. cbn. rewrite lookup_insert_eq, Hw. cbn.
  eexists. split; [done|]. cbn. rewrite lookup_insert_eq. split; [done|].
  assert (Hss : over_file sb' /\ sb_streamId sb' = id).
  { destruct (write_all_frame _ _ _ _ _ _ _ Hov Hw) as [? ->]. done. }
  destruct Hss as [Hov' Hid']. destruct Hlog2 as (f & sz & Hb & Hp & Ha & Hf & Hr & _). cbn in Hf, Hr, Hb.
  split; cbn; try done.
  - destruct (wf_alloc_buffer sb (with_fs fs1 st) (st_next st) _ (wf_with_fs _ _ F2) eq_refl)
      as (W & _ & Hp1 & _ & _).
    apply (wf_insert_buffer id _ sb _ W Hp1) in Hid as W1.
    refine (wf_update_heap (st_next st) sb sb' fs2 _ W1 _ _); [done|by rewrite Hid', Hid].
  - intros q sb0. rewrite !lookup_insert. repeat case_decide; subst.
    + by intros [= <-].
    + intros Hq. destruct (F6 q sb0 Hq). by split.
Qed.

Lemma kept_fetch id bs st :
  kept id bs st ->
  exists q st', getStreamBuffer id st = (Ret (Some q), st') /\ kept id bs st' /\
    exists sb, st_heap st' !! q = Some sb /\ sb_streamId sb = id.
Proof.
  intros Hk. destruct (getStreamBuffer_spec id st (k_wf _ _ _ Hk)) as (o & st' & Hget & _ & Hnone & Hsome & _).
  destruct o as [q|].
  - exists q, st'. split; [done|]. split; [by eapply kept_get; [|apply Hk|]|]. by apply Hsome.
  - rewrite (k_file _ _ _ Hk) in Hnone. naive_solver.
Qed.

(** C26: A resource that has been received is delivered whole: once a client uploaded it,
    in any number of chunks, its buffer can be fetched by the id of its stream, and every read
    of it, at any offset and of any size, gives exactly the bytes uploaded there. That holds
    after any time, evictions, downloads, removals from the map, and arrivals of other
    resources in between; it is the same whether the buffer was still in the map or its file
    had to be opened again. *)
Theorem resource_relayed now pkt chunks st :
  fresh_stream (pkt_streamId pkt) st ->
  Forall (fun c => c <> []) chunks -> (length (mjoin chunks) <= fs_room (st_fs st))%nat ->
  Z.of_nat (length (mjoin chunks)) < 2 ^ 32 ->
  exists p st1, upload now pkt chunks st = (Ret (Some p), st1) /\
    st_buffers st1 !! pkt_streamId pkt = Some p /\
    forall st2, rtc (relay_step (pkt_streamId pkt)) st1 st2 ->
    exists q st3, getStreamBuffer (pkt_streamId pkt) st2 = (Ret (Some q), st3) /\
      forall now' size off, 0 <= size -> 0 <= off ->
      exists st4, on_heap q (StreamBuffer_read now' size off) st3 =
        (Ret (Some (slice size off (mjoin chunks))), st4).
Proof.
  intros Hf Hne Hroom Hlt. destruct (upload_kept now pkt chunks st Hf Hne Hroom Hlt) as (p & st1 & Hu & Hb & Hk).
  exists p, st1. split; [done|]. split; [done|]. intros st2 Hsteps.
  pose proof (kept_steps _ _ _ _ Hk Hsteps) as Hk2.
  destruct (kept_fetch _ _ _ Hk2) as (q & st3 & Hget & Hk3 & sb & Hq & Hid).
  exists q, st3. split; [done|]. intros. by eapply kept_reads.
Qed.

(** An upload that pauses for more than a minute is cut. Once the timer has evicted its
    buffer [p], a download that asks for the resource opens what the file has by then as a
    buffer [q] of its own; what the uploader still sends goes to [p], and [q] stays in the map
    with the first part as all there is to read. *)
Lemma stalled_upload_truncated id bs st p sb q st1 now chunk r st2 :
  kept id bs st -> st_buffers st !! id = None ->
  st_heap st !! p = Some sb -> getStreamBuffer id st = (Ret (Some q), st1) ->
  on_heap p (StreamBuffer_write now chunk 0) st1 = (Ret r, st2) ->
  q <> p /\ getStreamBuffer id st2 = (Ret (Some q), st2) /\
  exists sb', st_heap st2 !! q = Some sb' /\ bytesReadable sb' = Z.of_nat (length bs).
Proof.
  intros Hk Hb Hp Hget Hw.
  assert (Hk1 : kept id bs st1) by (eapply kept_get; [exact Hk|apply Hk|exact Hget]).
  destruct (getStreamBuffer_cold id st bs (k_wf _ _ _ Hk) Hb (k_file _ _ _ Hk)) as (sbq & _ & Hcold & _).
  rewrite Hget in Hcold. injection Hcold as -> ->.
  assert (Hne : st_next st <> p) by (apply (wf_heap _ (k_wf _ _ _ Hk)) in Hp; lia).
  apply on_heap_inv in Hw as (sb1 & sb2 & fs2 & _ & _ & ->). split; [done|].
  assert (Hq : (with_buffers (<[id:=st_next st]> (st_buffers st)) (alloc_buffer sbq st).2).(st_heap)
                 !! st_next st = Some sbq) by (cbn; by rewrite lookup_insert_eq).
  split.
  - unfold getStreamBuffer, bindM. cbn. by rewrite lookup_insert_eq.
  - exists sbq. split; [cbn [st_heap]; by rewrite lookup_insert_ne|].
    destruct (wf_buffers _ (k_wf _ _ _ Hk1) id (st_next st)) as (sb3 & Hq3 & Hid); [cbn; by rewrite lookup_insert_eq|].
    pose proof (eq_trans (eq_sym Hq) Hq3) as [= <-]. destruct (k_heap _ _ _ Hk1 _ _ Hq) as [_ Hr].
    unfold bytesReadable. rewrite Hr by done. apply u32_id. pose proof (k_length _ _ _ Hk). unfold is_u32. lia.
Qed.
End relay.
