(* ===== verification/World.v ===== *)
(** * The state of the server

    A [session] is a [ClientSession] object, with the calls it has made on its engine
    and the operations it has outstanding on its socket and timer. The [world] holds the
    session objects by identity, the [Server] object, the database and the stream buffers.
    The handlers of the program are computations in [M world]. *)

From S2P Require Import Prelude Values Platform Db StreamBuffer Streams.

Definition STATUS_DISCONNECTED : Z := 0.
Definition STATUS_CONNECTED : Z := 1.
Definition STATUS_LOGGEDIN : Z := 2.

(** The error codes the completion handlers tell apart; [short_read] is the SSL error
    0x140000DB. *)
Inductive error_code :=
| no_error
| connection_aborted
| connection_reset
| eof
| short_read
| operation_aborted
| other_error.

#[export] Instance error_code_eq_dec : EqDecision error_code.
Proof. solve_decision. Defined.

(** An asynchronous operation whose completion handler has not run. A read of a body
    asks for [size] bytes at [offset] of the packet's body. *)
Inductive socket_op :=
| OpHandshake
| OpReadHead
| OpReadBody (offset size : Z) (pkt : packet)
| OpWrite (pkt : packet).

(** What [close] does to the socket; the errors of these calls are only logged. *)
Inductive socket_call := SocketCancel | SocketShutdown | SocketClose.

Record session := Session {
  s_status : Z;
  s_remoteHost : string;
  s_accountId : Z;
  s_numPacketsSent : Z;
  s_numPacketsRecv : Z;
  s_sending : bool;
  s_packetQueue : list packet;
  s_contacts : gmap Z uobj;
  s_config : uobj;
  s_engine : list engine_call;
  s_ops : list socket_op;
  s_timer : bool;
  s_socket : list socket_call
}.

(** The constructor of [ClientSession]. *)
Definition new_session : session :=
  Session 0 "" 0 0 0 false [] ∅ [] [] [] false [].

Definition with_status (x : Z) (s : session) : session :=
  Session x (s_remoteHost s) (s_accountId s) (s_numPacketsSent s) (s_numPacketsRecv s)
    (s_sending s) (s_packetQueue s) (s_contacts s) (s_config s) (s_engine s) (s_ops s)
    (s_timer s) (s_socket s).
Definition with_remoteHost (x : string) (s : session) : session :=
  Session (s_status s) x (s_accountId s) (s_numPacketsSent s) (s_numPacketsRecv s)
    (s_sending s) (s_packetQueue s) (s_contacts s) (s_config s) (s_engine s) (s_ops s)
    (s_timer s) (s_socket s).
Definition with_accountId (x : Z) (s : session) : session :=
  Session (s_status s) (s_remoteHost s) x (s_numPacketsSent s) (s_numPacketsRecv s)
    (s_sending s) (s_packetQueue s) (s_contacts s) (s_config s) (s_engine s) (s_ops s)
    (s_timer s) (s_socket s).
Definition with_numPackets (sent recv : Z) (s : session) : session :=
  Session (s_status s) (s_remoteHost s) (s_accountId s) sent recv
    (s_sending s) (s_packetQueue s) (s_contacts s) (s_config s) (s_engine s) (s_ops s)
    (s_timer s) (s_socket s).
Definition with_sending (x : bool) (s : session) : session :=
  Session (s_status s) (s_remoteHost s) (s_accountId s) (s_numPacketsSent s) (s_numPacketsRecv s)
    x (s_packetQueue s) (s_contacts s) (s_config s) (s_engine s) (s_ops s) (s_timer s) (s_socket s).
Definition with_packetQueue (x : list packet) (s : session) : session :=
  Session (s_status s) (s_remoteHost s) (s_accountId s) (s_numPacketsSent s) (s_numPacketsRecv s)
    (s_sending s) x (s_contacts s) (s_config s) (s_engine s) (s_ops s) (s_timer s) (s_socket s).
Definition with_contacts (x : gmap Z uobj) (s : session) : session :=
  Session (s_status s) (s_remoteHost s) (s_accountId s) (s_numPacketsSent s) (s_numPacketsRecv s)
    (s_sending s) (s_packetQueue s) x (s_config s) (s_engine s) (s_ops s) (s_timer s) (s_socket s).
Definition with_config (x : uobj) (s : session) : session :=
  Session (s_status s) (s_remoteHost s) (s_accountId s) (s_numPacketsSent s) (s_numPacketsRecv s)
    (s_sending s) (s_packetQueue s) (s_contacts s) x (s_engine s) (s_ops s) (s_timer s) (s_socket s).
Definition with_engine (x : list engine_call) (s : session) : session :=
  Session (s_status s) (s_remoteHost s) (s_accountId s) (s_numPacketsSent s) (s_numPacketsRecv s)
    (s_sending s) (s_packetQueue s) (s_contacts s) (s_config s) x (s_ops s) (s_timer s) (s_socket s).
Definition with_ops (x : list socket_op) (s : session) : session :=
  Session (s_status s) (s_remoteHost s) (s_accountId s) (s_numPacketsSent s) (s_numPacketsRecv s)
    (s_sending s) (s_packetQueue s) (s_contacts s) (s_config s) (s_engine s) x (s_timer s) (s_socket s).
Definition with_timer (x : bool) (s : session) : session :=
  Session (s_status s) (s_remoteHost s) (s_accountId s) (s_numPacketsSent s) (s_numPacketsRecv s)
    (s_sending s) (s_packetQueue s) (s_contacts s) (s_config s) (s_engine s) (s_ops s) x (s_socket s).
Definition with_socket (x : list socket_call) (s : session) : session :=
  Session (s_status s) (s_remoteHost s) (s_accountId s) (s_numPacketsSent s) (s_numPacketsRecv s)
    (s_sending s) (s_packetQueue s) (s_contacts s) (s_config s) (s_engine s) (s_ops s) (s_timer s) x.

(** The members of [Server] that are not the session map or the stream maps. *)
Record server := Server {
  sv_paused : bool;
  sv_numSessions : Z;
  sv_listening : bool;        (** the acceptor is open *)
  sv_accepting : list nat;    (** sessions given to [async_accept] *)
  sv_timer : bool
}.

Section world.
Context `{Platform}.

Record world := World {
  w_sessions : gmap nat session;
  w_registry : gmap Z (list nat);   (** [Server::m_sessions] *)
  w_server : server;
  w_db : db_state;
  w_streams : streams;
  w_tasks : list Z;                 (** posted [Server::processUserRequests] *)
  w_fcm : list (string * Z * Z);    (** calls of [FcmSender::sendMessage] *)
  w_rng : rng
}.

Definition with_sessions x (w : world) : world :=
  World x (w_registry w) (w_server w) (w_db w) (w_streams w) (w_tasks w) (w_fcm w) (w_rng w).
Definition with_registry x (w : world) : world :=
  World (w_sessions w) x (w_server w) (w_db w) (w_streams w) (w_tasks w) (w_fcm w) (w_rng w).
Definition with_server x (w : world) : world :=
  World (w_sessions w) (w_registry w) x (w_db w) (w_streams w) (w_tasks w) (w_fcm w) (w_rng w).
Definition with_db x (w : world) : world :=
  World (w_sessions w) (w_registry w) (w_server w) x (w_streams w) (w_tasks w) (w_fcm w) (w_rng w).
Definition with_streams x (w : world) : world :=
  World (w_sessions w) (w_registry w) (w_server w) (w_db w) x (w_tasks w) (w_fcm w) (w_rng w).
Definition with_tasks x (w : world) : world :=
  World (w_sessions w) (w_registry w) (w_server w) (w_db w) (w_streams w) x (w_fcm w) (w_rng w).
Definition with_fcm x (w : world) : world :=
  World (w_sessions w) (w_registry w) (w_server w) (w_db w) (w_streams w) (w_tasks w) x (w_rng w).
Definition with_rng x (w : world) : world :=
  World (w_sessions w) (w_registry w) (w_server w) (w_db w) (w_streams w) (w_tasks w) (w_fcm w) x.

(** ** Access *)

(** The members of the object [p] points to. *)
Definition session_at (p : nat) : M world session := fun w =>
  match w_sessions w !! p with
  | Some s => (Ret s, w)
  | None => (Fault NullDereference, w)
  end.

(** A computation on the members of one session. *)
Definition on_session {A} (p : nat) (m : M session A) : M world A := fun w =>
  match w_sessions w !! p with
  | Some s => let '(r, s') := m s in (r, with_sessions (<[p := s']> (w_sessions w)) w)
  | None => (Fault NullDereference, w)
  end.

Definition update (p : nat) (f : session -> session) : M world unit :=
  on_session p (modify f).

Definition on_db {A} (m : M db_state A) : M world A := zoom w_db with_db m.
Definition on_streams {A} (m : M streams A) : M world A := zoom w_streams with_streams m.

Definition RAND (n : nat) : M world (list Byte.byte) := fun w =>
  let '(bs, r) := RAND_pseudo_bytes n (w_rng w) in (Ret bs, with_rng r w).

(** [io_service()->post(boost::bind(&Server::processUserRequests, m_server, userId))] *)
Definition post_processUserRequests (userId : Z) : M world unit :=
  modify (fun w => with_tasks (w_tasks w ++ [userId]) w).

(** [BSON(...)]: the [DBException] of a document the builder rejects is caught nowhere. *)
Definition BSON (d : doc) : M world doc :=
  if builder_accepts d then ret d else fail UncaughtException.

(** The exception of a [mongo] accessor or of [ubjToBson], outside any [try]. *)
Definition or_throw {A} (o : option A) : M world A :=
  match o with Some a => ret a | None => fail UncaughtException end.

(** ** Calls of the engine *)

Definition engine_call_ (c : engine_call) : M session unit :=
  modify (fun s => with_engine (s_engine s ++ [c]) s).

Definition postRequestSuccess (p : nat) (requestId : Z) (response : option uobj) : M world unit :=
  on_session p (engine_call_ (CallSuccess requestId response)).
Definition postRequestFailure (p : nat) (requestId code : Z) (message : string) : M world unit :=
  on_session p (engine_call_ (CallFailure requestId code message)).
Definition postRequest (p : nat) (r : out_request) : M world unit :=
  on_session p (engine_call_ (CallPostRequest r)).
Definition addUbjSender (p : nat) (requestId streamType : Z) (obj : uobj) : M world unit :=
  on_session p (engine_call_ (CallAddUbjSender requestId streamType obj)).
End world.
Arguments world {_}.

(** ** Running the primitives *)

Section world_lemmas.
Context `{Platform}.

Lemma run_session_at p s w : w_sessions w !! p = Some s -> session_at p w = (Ret s, w).
Proof. unfold session_at. by intros ->. Qed.

Lemma run_on_session {A} p s (m : M session A) w :
  w_sessions w !! p = Some s ->
  on_session p m w = ((m s).1, with_sessions (<[p := (m s).2]> (w_sessions w)) w).
Proof. unfold on_session. intros ->. by destruct (m s). Qed.

Lemma run_update p s f w :
  w_sessions w !! p = Some s ->
  update p f w = (Ret tt, with_sessions (<[p := f s]> (w_sessions w)) w).
Proof. intros Hs. unfold update. by rewrite (run_on_session p s). Qed.

Lemma run_on_db {A} (m : M db_state A) w r d :
  m (w_db w) = (r, d) -> on_db m w = (r, with_db d w).
Proof. unfold on_db, zoom. by intros ->. Qed.

Lemma on_db_inv {A} (m : M db_state A) w a w' :
  on_db m w = (Ret a, w') -> exists d, m (w_db w) = (Ret a, d) /\ w' = with_db d w.
Proof.
  unfold on_db, zoom. destruct (m (w_db w)) as [r d]. intros [= -> <-]. by exists d.
Qed.

Lemma RAND_inv n w bs w' : RAND n w = (Ret bs, w') -> exists g, w' = with_rng g w.
Proof. unfold RAND. destruct (RAND_pseudo_bytes n (w_rng w)) as [b g]. intros [= _ <-]. by exists g. Qed.

Lemma run_session_at_inv p w s w' :
  session_at p w = (Ret s, w') -> w_sessions w !! p = Some s /\ w' = w.
Proof. unfold session_at. destruct (w_sessions w !! p); [|done]. by intros [= <- <-]. Qed.

Lemma on_session_inv {A} p (m : M session A) w a w' :
  on_session p m w = (Ret a, w') ->
  exists s s', w_sessions w !! p = Some s /\ m s = (Ret a, s') /\
    w' = with_sessions (<[p := s']> (w_sessions w)) w.
Proof.
  unfold on_session. destruct (w_sessions w !! p) as [s|]; [|done].
  destruct (m s) as [r s'] eqn:E. intros [= -> <-]. exists s, s'. done.
Qed.

Lemma BSON_inv d w d' w' : BSON d w = (Ret d', w') -> d' = d /\ w' = w.
Proof. unfold BSON. destruct (builder_accepts d); [by intros [= <- <-]|done]. Qed.

Lemma or_throw_inv {A} (o : option A) w a w' : or_throw o w = (Ret a, w') -> o = Some a /\ w' = w.
Proof. destruct o; [by intros [= <- <-]|done]. Qed.
End world_lemmas.
