(* ===== verification/Registry.v ===== *)
(** * The session map (src/server.cpp)

    [Server::m_sessions] lists the sessions of each account. A session is entered under a
    random temporary id when it starts and under its account once it is authenticated. *)

From S2P Require Import Prelude Values Platform World.

Section registry.
Context `{Platform}.

Definition appendSession (session : nat) : M world unit :=
  let* s := session_at session in
  modify (fun w => with_registry
    (<[s_accountId s := default [] (w_registry w !! s_accountId s) ++ [session]]> (w_registry w)) w).

Definition removeSession (session : nat) : M world unit :=
  let* s := session_at session in
  let accountId := s_accountId s in
  let* m_sessions := gets w_registry in
  match m_sessions !! accountId with
  | Some sm =>
      let sm := filter (fun q => q <> session) sm in
      modify (with_registry (match sm with
                             | [] => delete accountId m_sessions
                             | _ => <[accountId := sm]> m_sessions
                             end))
  | None => ret tt
  end.

Definition getSessionCount : M world nat := gets (fun w => size (w_registry w)).

Definition getSessions (userId : Z) : M world (list nat) :=
  gets (fun w => default [] (w_registry w !! userId)).
End registry.

Lemma filter_ne_absent (p : nat) (l : list nat) : p ∉ l -> filter (fun q => q <> p) l = l.
Proof.
  induction l as [|q l IH]; [done|]. intros Hp. rewrite filter_cons_True by set_solver.
  f_equal. apply IH. set_solver.
Qed.

Section registry_specs.
Context `{Platform}.

(** ** The abstract map

    The map stands for the relation "session [p] is listed for account [a]"; an account
    without a session has no entry. *)
Definition listed (reg : gmap Z (list nat)) (a : Z) : list nat := default [] (reg !! a).

Record registry_wf (w : world) : Prop := {
  reg_nonempty : forall a l, w_registry w !! a = Some l -> l <> [];
  (** every session listed is an object, and listed under the id it has *)
  reg_account : forall a p, p ∈ listed (w_registry w) a ->
    exists s, w_sessions w !! p = Some s /\ s_accountId s = a;
  reg_once : forall a, NoDup (listed (w_registry w) a)
}.

Definition nonempty_entries (reg : gmap Z (list nat)) : Prop :=
  forall a l, reg !! a = Some l -> l <> [].

Lemma registry_count reg : nonempty_entries reg ->
  forall a, is_Some (reg !! a) <-> listed reg a <> [].
Proof.
  intros Hne a. unfold listed. destruct (reg !! a) as [l|] eqn:E; simpl; [|naive_solver].
  split; [intros _; by eapply Hne|eauto].
Qed.

Lemma getSessions_run a w : getSessions a w = (Ret (listed (w_registry w) a), w).
Proof. done. Qed.

Lemma appendSession_run p s w :
  w_sessions w !! p = Some s ->
  exists reg, appendSession p w = (Ret tt, with_registry reg w) /\
    (forall a, listed reg a = if decide (a = s_accountId s)
                              then listed (w_registry w) a ++ [p] else listed (w_registry w) a) /\
    (nonempty_entries (w_registry w) -> nonempty_entries reg).
Proof.
  intros Hs. eexists. split; [unfold appendSession, bindM; by rewrite (run_session_at p s)|].
  unfold listed, nonempty_entries. split.
  - intros a. case_decide as Ha; [subst; by rewrite lookup_insert_eq|].
    by rewrite lookup_insert_ne.
  - intros Hne a l. rewrite lookup_insert. case_decide; [|apply Hne].
    intros [= <-]. by destruct (default _ _).
Qed.

Lemma removeSession_run p s w :
  w_sessions w !! p = Some s ->
  exists reg, removeSession p w = (Ret tt, with_registry reg w) /\
    (forall a, listed reg a = if decide (a = s_accountId s)
                              then filter (fun q => q <> p) (listed (w_registry w) a)
                              else listed (w_registry w) a) /\
    (nonempty_entries (w_registry w) -> nonempty_entries reg).
Proof.
  intros Hs. unfold removeSession, bindM. rewrite (run_session_at p s) by done. simpl.
  destruct (w_registry w !! s_accountId s) as [sm|] eqn:Ha.
  2: { exists (w_registry w). split; [by destruct w|]. split; [|done].
       intros a. case_decide as Hd; [|done]. subst. unfold listed. by rewrite Ha. }
  eexists. split; [done|]. unfold listed, nonempty_entries. split.
  - intros a. case_decide as Hd; [subst; rewrite Ha; simpl|].
    + destruct (filter _ sm) eqn:E; [by rewrite lookup_delete_eq|by rewrite lookup_insert_eq].
    + destruct (filter _ sm); [by rewrite lookup_delete_ne|by rewrite lookup_insert_ne].
  - intros Hne a l. destruct (filter _ sm) as [|q l'] eqn:E.
    + rewrite lookup_delete_Some. intros [_ Hl]. by eapply Hne.
    + rewrite lookup_insert. case_decide; [by intros [= <-]|apply Hne].
Qed.

Lemma registry_wf_listed w reg :
  registry_wf w -> nonempty_entries reg ->
  (forall a p, p ∈ listed reg a -> p ∈ listed (w_registry w) a) ->
  (forall a, NoDup (listed reg a)) -> registry_wf (with_registry reg w).
Proof.
  intros Hwf Hne Hsub Hnd. split; [done| |done].
  intros a p Hp%Hsub. by apply (reg_account _ Hwf).
Qed.

(** C25: The session map is a faithful list of the sessions of each account: entering a
    session that is not listed adds it, last, under its own id and nowhere else; removing it
    takes every mention of it from that entry and leaves the others; an entry that becomes
    empty disappears, so that the count is the number of accounts with a session; and
    entering and removing a session restores the map. *)
Theorem registry_refines p s w :
  registry_wf w -> w_sessions w !! p = Some s -> p ∉ listed (w_registry w) (s_accountId s) ->
  exists reg, appendSession p w = (Ret tt, with_registry reg w) /\
    registry_wf (with_registry reg w) /\
    (forall a, getSessions a (with_registry reg w) =
       (Ret (if decide (a = s_accountId s) then listed (w_registry w) a ++ [p]
             else listed (w_registry w) a), with_registry reg w)) /\
    removeSession p (with_registry reg w) = (Ret tt, w).
Proof.
  intros Hwf Hs Hp. destruct (appendSession_run p s w Hs) as (reg & Ha & Hl & Hne).
  pose proof (Hne (reg_nonempty _ Hwf)) as Hne'. exists reg. split_and!; [done| | |].
  - split; [done| |]; simpl.
    + intros a q. rewrite Hl. case_decide as Hd; [|apply Hwf].
      rewrite elem_of_app, list_elem_of_singleton. intros [Hq| ->]; [by apply Hwf|].
      exists s. by subst.
    + intros a. rewrite Hl. case_decide as Hd; [|apply Hwf]. subst. apply NoDup_app.
      split_and!; [apply Hwf| |apply NoDup_singleton].
      by intros q Hq ->%list_elem_of_singleton.
  - intros a. rewrite getSessions_run. simpl. by rewrite Hl.
  - destruct (removeSession_run p s (with_registry reg w) Hs) as (reg' & Hr & Hl' & Hne'').
    rewrite Hr. specialize (Hne'' Hne'). f_equal. destruct w as [ss r0 sv d st t f g].
    unfold with_registry. simpl in *. f_equal. apply map_eq. intros a.
    assert (Ea : listed reg' a = listed r0 a).
    { rewrite Hl', Hl. case_decide as Hd; [|done]. subst. rewrite filter_app.
      rewrite filter_ne_absent by done.
      rewrite filter_cons_False by (by intros Hc). by rewrite filter_nil, app_nil_r. }
    clear -Ea Hne'' Hwf. pose proof (reg_nonempty _ Hwf) as Hr0. simpl in Hr0. unfold listed in Ea.
    destruct (reg' !! a) as [l|] eqn:E1, (r0 !! a) as [l0|] eqn:E2; simpl in Ea; subst; try done.
    + by destruct (Hne'' a [] E1).
    + by destruct (Hr0 a [] E2).
Qed.
End registry_specs.
