(* ===== verification/Transport.v ===== *)
(** * Packet transport of a session (src/session.cpp)

    Reading: [recvPacket], [recvPacketBody] and the completion handlers
    [onPacketHeadRecv], [onPacketBodyRecv], [onPacketRecv]. Writing: [postPacket],
    [addStreamSender], [sendPacket] and [onPacketSent]; [close]. An asynchronous operation is
    an entry of [s_ops] until its handler runs; the socket may complete a read with fewer
    bytes than asked. The last section cuts [sendPacket] into the steps of a thread. *)

From stdpp Require Import relations.
From S2P Require Import Prelude Values Platform World Registry.

Local Open Scope zway_scope.
Local Open Scope Z_scope.

Section transport.
Context `{Platform}.

Definition start_op (op : socket_op) : M session unit :=
  modify (fun s => with_ops (s_ops s ++ [op]) s).

Definition resetTimer : M session unit := modify (with_timer true).
Definition pauseTimer : M session unit := modify (with_timer false).

(** [onTimer]: the body of its condition is commented out. *)
Definition session_onTimer (error : error_code) : M session unit := ret tt.

(** ** Writing *)

Definition sendPacket : M session bool :=
  let* sending := gets s_sending in
  if sending then ret false
  else
    let* queue := gets s_packetQueue in
    match queue with
    | [] =>
        let* calls := gets s_engine in
        engine_call_ CallProcessStreamSenders ;;
        modify (with_packetQueue (engine_packets calls))
    | _ => ret tt
    end ;;
    let* queue := gets s_packetQueue in
    match queue with
    | [] => ret false
    | pkt :: rest =>
        modify (with_packetQueue rest) ;;
        modify (with_sending true) ;;
        start_op (OpWrite pkt) ;;
        ret true
    end.

Definition onPacketSent (error : error_code) : M session unit :=
  (if decide (error = no_error) then
     resetTimer ;;
     modify (fun s => with_numPackets (u32 (s_numPacketsSent s + 1)) (s_numPacketsRecv s) s)
   else ret tt) ;;
  modify (with_sending false) ;;
  sendPacket ;;
  ret tt.

Definition postPacket (pkt : option packet) : M session bool :=
  match pkt with
  | None => ret false
  | Some pkt =>
      modify (fun s => with_packetQueue (s_packetQueue s ++ [pkt]) s) ;;
      sendPacket ;;
      ret true
  end.

(** [ClientSession::addStreamSender], of a sender with this stream id. *)
Definition addStreamSender (streamId : Z) : M session bool :=
  let* calls := gets s_engine in
  engine_call_ (CallAddStreamSender streamId) ;;
  if engine_addStreamSender calls streamId then sendPacket ;; ret true else ret false.

(** ** Closing *)

Definition setStatus (status : Z) : M session unit := modify (with_status status).

Definition socket_do (c : socket_call) : M session unit :=
  modify (fun s => with_socket (s_socket s ++ [c]) s).

Definition close (self : nat) (shutdown remove : bool) : M world unit :=
  on_session self (
    modify (with_timer false) ;;
    socket_do SocketCancel ;;
    when shutdown (socket_do SocketShutdown) ;;
    socket_do SocketClose ;;
    setStatus STATUS_DISCONNECTED) ;;
  when remove (removeSession self).

(** ** Reading *)

Definition recvPacket : M session bool :=
  match packet_create with
  | None => ret false
  | Some _ => start_op OpReadHead ;; ret true
  end.

Definition set_body (body : list Byte.byte) (pkt : packet) : packet :=
  Packet (pkt_streamId pkt) (pkt_streamType pkt) (pkt_parts pkt) (pkt_bodySize pkt) body.

Definition recvPacketBody (pkt : packet) : M session unit :=
  match zbuffer_create (pkt_bodySize pkt) with
  | None => ret tt
  | Some body =>
      start_op (OpReadBody 0 (zbuffer_size body) (set_body (zbuffer_bytes body) pkt))
  end.

(** What the engine does with a complete packet, its calls back into the session
    included; the result is not looked at. *)
Variable processIncomingPacket : nat -> packet -> M world bool.

Definition onPacketRecv (self : nat) (pkt : packet) : M world unit :=
  update self (fun s => with_numPackets (s_numPacketsSent s) (u32 (s_numPacketsRecv s + 1)) s) ;;
  (if negb (pkt_streamId pkt =? 0) && negb (pkt_bodySize pkt =? 0) then
     processIncomingPacket self pkt ;; ret tt
   else ret tt) ;;
  on_session self recvPacket ;;
  ret tt.

(** The errors after which a handler closes the session. *)
Definition connection_lost (error : error_code) : bool :=
  match error with
  | connection_aborted | connection_reset | eof | short_read => true
  | _ => false
  end.

Definition onPacketHeadRecv (self : nat) (error : error_code) (bytes_transferred : Z)
    (pkt : packet) : M world unit :=
  if decide (error = no_error /\ bytes_transferred = sizeof_PacketHead) then
    on_session self resetTimer ;;
    if pkt_bodySize pkt >? 0 then on_session self (recvPacketBody pkt)
    else onPacketRecv self pkt
  else if decide (error = no_error /\ bytes_transferred = 0) then
    on_session self recvPacket ;; ret tt
  else if connection_lost error then close self false true
  else ret tt.

Definition onPacketBodyRecv (self : nat) (error : error_code) (bytes_transferred offset : Z)
    (pkt : packet) : M world unit :=
  if decide (error = no_error /\ offset + bytes_transferred < pkt_bodySize pkt) then
    let packetOffset := u32 (offset + bytes_transferred) in
    on_session self (start_op (OpReadBody packetOffset (pkt_bodySize pkt - packetOffset) pkt))
  else if decide (error = no_error /\ offset + bytes_transferred = pkt_bodySize pkt) then
    on_session self resetTimer ;;
    onPacketRecv self pkt
  else if connection_lost error then close self false true
  else ret tt.
End transport.

(** ** Reading a packet *)

Section reading.
Context `{PlatformLaws}.

(** A read of [data] at [offset] fills the packet's body there. *)
Definition deliver (offset : Z) (data : list Byte.byte) (pkt : packet) : packet :=
  set_body (take (Z.to_nat offset) (pkt_body pkt) ++ data ++
            drop (Z.to_nat offset + length data) (pkt_body pkt)) pkt.

Definition is_read (op : socket_op) : bool :=
  match op with OpReadHead | OpReadBody _ _ _ => true | _ => false end.

Definition reads (s : session) : list socket_op := filter (fun op => is_read op = true) (s_ops s).

Definition without_reads (s : session) : session :=
  with_ops (filter (fun op => is_read op = false) (s_ops s)) s.

(** The socket completes the read of a body that is outstanding with [data]. *)
Definition complete_body (pip : nat -> packet -> M world bool) (self : nat)
    (data : list Byte.byte) : M world unit :=
  let* s := session_at self in
  match reads s with
  | [OpReadBody offset size pkt] =>
      update self without_reads ;;
      onPacketBodyRecv pip self no_error (Z.of_nat (length data)) offset (deliver offset data pkt)
  | _ => ret tt
  end.

Definition feed pip (self : nat) (chunks : list (list Byte.byte)) : M world unit :=
  for_each chunks (complete_body pip self).

(** [got] has arrived of the body of [pkt] and the rest is asked for. *)
Definition body_at (pkt : packet) (got : list Byte.byte) (s s' : session) : Prop :=
  exists rest, Z.of_nat (length (got ++ rest)) = pkt_bodySize pkt /\
    s' = with_ops (s_ops s ++ [OpReadBody (Z.of_nat (length got))
                                 (pkt_bodySize pkt - Z.of_nat (length got))
                                 (set_body (got ++ rest) pkt)]) s.

Lemma filter_no_reads s : reads s = [] -> filter (fun op => is_read op = false) (s_ops s) = s_ops s.
Proof.
  unfold reads. induction (s_ops s) as [|op l IH]; [done|].
  rewrite !filter_cons. destruct (is_read op) eqn:E; simpl; [done|]. intros Hl. by rewrite IH.
Qed.

Lemma session_eta s : with_ops (s_ops s) s = s.
Proof. by destruct s. Qed.

Lemma body_at_reads pkt got s s' :
  reads s = [] -> body_at pkt got s s' ->
  (exists rest, reads s' = [OpReadBody (Z.of_nat (length got))
      (pkt_bodySize pkt - Z.of_nat (length got)) (set_body (got ++ rest) pkt)] /\
      Z.of_nat (length (got ++ rest)) = pkt_bodySize pkt) /\
  without_reads s' = s.
Proof.
  intros Hr (rest & Hlen & ->). unfold reads, without_reads. simpl.
  rewrite !filter_app, filter_no_reads by done. unfold reads in Hr. rewrite Hr.
  split; [by exists rest|]. simpl. rewrite app_nil_r. by destruct s.
Qed.

Lemma deliver_at pkt got data rest :
  (length data <= length rest)%nat ->
  deliver (Z.of_nat (length got)) data (set_body (got ++ rest) pkt) =
  set_body ((got ++ data) ++ drop (length data) rest) pkt.
Proof.
  intros Hl. unfold deliver, set_body. simpl. rewrite Nat2Z.id. f_equal.
  rewrite take_app_length, drop_app. rewrite drop_ge by lia.
  rewrite <- app_assoc. simpl. do 3 f_equal. lia.
Qed.

Variable pip : nat -> packet -> M world bool.

Lemma complete_body_step self pkt got data s s' w :
  reads s = [] -> body_at pkt got s s' -> w_sessions w !! self = Some s' ->
  pkt_bodySize pkt < 2 ^ 32 -> Z.of_nat (length (got ++ data)) <= pkt_bodySize pkt ->
  if decide (Z.of_nat (length (got ++ data)) < pkt_bodySize pkt) then
    exists s'', body_at pkt (got ++ data) s s'' /\
      complete_body pip self data w =
        (Ret tt, with_sessions (<[self := s'']> (w_sessions w)) w)
  else complete_body pip self data w =
         onPacketRecv pip self (set_body (got ++ data) pkt)
           (with_sessions (<[self := with_timer true s]> (w_sessions w)) w).
Proof.
  intros Hr Hat Hs Hsz Hle. destruct (body_at_reads pkt got s s' Hr Hat) as [(rest & Hrd & Hlen) Hw].
  rewrite length_app in Hle, Hlen |- *.
  assert (Hc : complete_body pip self data w =
    onPacketBodyRecv pip self no_error (Z.of_nat (length data)) (Z.of_nat (length got))
      (set_body ((got ++ data) ++ drop (length data) rest) pkt)
      (with_sessions (<[self := s]> (w_sessions w)) w)).
  { unfold complete_body, bindM. rewrite (run_session_at self s') by done. rewrite Hrd.
    rewrite (run_update self s') by done. rewrite Hw. rewrite deliver_at by lia. done. }
  rewrite Hc. clear Hc. unfold onPacketBodyRecv. cbn [pkt_bodySize set_body].
  case_decide as Hd.
  - rewrite decide_True by (split; [done|lia]).
    eexists. split.
    2: { rewrite (run_on_session self s) by apply lookup_insert_eq. simpl.
         rewrite insert_insert_eq. done. }
    exists (drop (length data) rest). rewrite !length_app, length_drop. split; [lia|].
    unfold with_ops. simpl. rewrite u32_id by (unfold is_u32; lia). by rewrite Nat2Z.inj_add.
  - rewrite decide_False by lia. rewrite decide_True by (split; [done|lia]).
    unfold bindM at 1. rewrite (run_on_session self s) by apply lookup_insert_eq. simpl.
    rewrite insert_insert_eq. rewrite drop_ge by lia. by rewrite app_nil_r.
Qed.

Lemma feed_run self pkt s chunks got s' w :
  reads s = [] -> body_at pkt got s s' -> w_sessions w !! self = Some s' ->
  pkt_bodySize pkt < 2 ^ 32 -> Forall (fun c => c <> []) chunks ->
  Z.of_nat (length (got ++ concat chunks)) <= pkt_bodySize pkt -> 
  if decide (Z.of_nat (length (got ++ concat chunks)) < pkt_bodySize pkt) then
    exists s'', body_at pkt (got ++ concat chunks) s s'' /\
      feed pip self chunks w = (Ret tt, with_sessions (<[self := s'']> (w_sessions w)) w)
  else chunks <> [] ->
    feed pip self chunks w =
    onPacketRecv pip self (set_body (got ++ concat chunks) pkt)
      (with_sessions (<[self := with_timer true s]> (w_sessions w)) w).
Proof.
  revert got s' w. induction chunks as [|c chunks IH]; intros got s' w Hr Hat Hs Hsz Hne Hle; simpl.
  { simpl in Hle. rewrite app_nil_r in *. case_decide; [|done]. exists s'. split; [done|].
    rewrite insert_id by done. by destruct w. }
  apply Forall_cons in Hne as [Hc Hne]. simpl in Hle. rewrite app_assoc in Hle |- *.
  assert (Hcl : (0 < length c)%nat) by (destruct c; [done|simpl; lia]).
  pose proof (complete_body_step self pkt got c s s' w Hr Hat Hs Hsz) as Hstep.
  rewrite length_app in Hle. specialize (Hstep ltac:(lia)).
  destruct chunks as [|c' chunks].
  { cbn [concat]. rewrite app_nil_r. simpl.
    assert (Hret : forall (m : M world unit) w, (m;; ret tt)%zway w = m w).
    { intros m w0. unfold bindM. by destruct (m w0) as [[[]|] ?]. }
    unfold feed. simpl. rewrite Hret. case_decide; [done|]. intros _. exact Hstep. }
  assert (Hcl' : (0 < length (concat (c' :: chunks)))%nat).
  { apply Forall_cons in Hne as [Hc' _]. destruct c'; [done|simpl; lia]. }
  rewrite decide_True in Hstep by lia. destruct Hstep as (s1 & Hat1 & Hrun).
  change (feed pip self (c :: c' :: chunks)) with
    (bindM (complete_body pip self c) (fun _ => feed pip self (c' :: chunks))).
  rewrite (run_bind_Ret _ _ _ _ _ Hrun).
  specialize (IH (got ++ c) s1 (with_sessions (<[self := s1]> (w_sessions w)) w) Hr Hat1
                (lookup_insert_eq _ _ _) Hsz Hne).
  rewrite length_app in IH. specialize (IH Hle). rewrite length_app. case_decide as Hd.
  - destruct IH as (s2 & Hat2 & Hf). exists s2. split; [done|]. rewrite Hf. simpl.
    by rewrite insert_insert_eq.
  - intros _. rewrite (IH ltac:(done)). simpl. by rewrite insert_insert_eq.
Qed.
End reading.

Section reading_specs.
Context `{PlatformLaws}.

(** C23: However the socket splits the body of a packet, what it delivers is put together
    in order: after the last piece the packet handed on has exactly the bytes that
    arrived as its body, the heartbeat timer is set and no read is left over. Until then
    one read is outstanding, its range ends where the buffer does, and the bytes before it
    are those that have arrived. *)
Theorem body_reassembled pip self pkt s b chunks w :
  w_sessions w !! self = Some s -> reads s = [] ->
  zbuffer_create (pkt_bodySize pkt) = Some b -> 0 < pkt_bodySize pkt < 2 ^ 32 ->
  Forall (fun c => c <> []) chunks ->
  Z.of_nat (length (concat chunks)) = pkt_bodySize pkt ->
  let receive chunks := (on_session self (recvPacketBody pkt) ;; feed pip self chunks)%zway in
  receive chunks w =
    onPacketRecv pip self (set_body (concat chunks) pkt)
      (with_sessions (<[self := with_timer true s]> (w_sessions w)) w) /\
  forall pre post, chunks = pre ++ post -> post <> [] ->
    exists s' size pkt' rest,
      receive pre w = (Ret tt, with_sessions (<[self := s']> (w_sessions w)) w) /\
      reads s' = [OpReadBody (Z.of_nat (length (concat pre))) size pkt'] /\
      Z.of_nat (length (concat pre)) + size = Z.of_nat (length (pkt_body pkt')) /\
      0 < size /\ pkt_body pkt' = concat pre ++ rest.
Proof.
  intros Hs Hr Hb Hsz Hne Hlen receive.
  pose proof (zbuffer_create_size (pkt_bodySize pkt) b ltac:(lia) Hb) as Hbl.
  set (s0 := with_ops (s_ops s ++ [OpReadBody 0 (zbuffer_size b) (set_body (zbuffer_bytes b) pkt)]) s).
  assert (Hat : body_at pkt [] s s0).
  { exists (zbuffer_bytes b). split; [done|]. unfold s0.
    rewrite zbuffer_size_bytes, Hbl. simpl. do 4 f_equal. lia. }
  assert (Hrcv : forall cs, receive cs w =
            feed pip self cs (with_sessions (<[self := s0]> (w_sessions w)) w)).
  { intros cs. unfold receive. unfold recvPacketBody. rewrite Hb. unfold bindM.
    by rewrite (run_on_session self s). }
  pose proof (fun cs => feed_run pip self pkt s cs [] s0
    (with_sessions (<[self := s0]> (w_sessions w)) w) Hr Hat (lookup_insert_eq _ _ _) ltac:(lia)) as Hf.
  split.
  - rewrite Hrcv. specialize (Hf chunks Hne). simpl in Hf. rewrite Hlen in Hf.
    specialize (Hf ltac:(lia)). rewrite decide_False in Hf by lia. rewrite Hf.
    + by rewrite insert_insert_eq.
    + intros ->. simpl in Hlen. lia.
  - intros pre post -> Hpost. rewrite Hrcv.
    apply Forall_app in Hne as [Hpre Hne]. rewrite concat_app, length_app in Hlen.
    assert (0 < length (concat post))%nat.
    { destruct post as [|c post]; [done|]. apply Forall_cons in Hne as [Hc _].
      destruct c; [done|simpl; lia]. }
    specialize (Hf pre Hpre). simpl in Hf. specialize (Hf ltac:(lia)).
    rewrite decide_True in Hf by lia. destruct Hf as (s1 & Hat1 & ->).
    destruct (body_at_reads pkt (concat pre) s s1 Hr Hat1) as [(rest & Hrd & Hl) _].
    eexists s1, _, _, rest. split_and!; [by rewrite insert_insert_eq|exact Hrd| |lia|done].
    simpl. rewrite Hl. lia.
Qed.

Lemma run_close self shutdown remove s w :
  w_sessions w !! self = Some s ->
  exists s', s_status s' = STATUS_DISCONNECTED /\ s_timer s' = false /\
    SocketClose ∈ s_socket s' /\ reads s' = reads s /\ s_accountId s' = s_accountId s /\
    close self shutdown remove w =
      when remove (removeSession self) (with_sessions (<[self := s']> (w_sessions w)) w).
Proof.
  intros Hs. unfold close, bindM at 1. rewrite (run_on_session self s) by done.
  destruct shutdown; cbn; eexists.
  all: split_and!; [| | | | |reflexivity]; try reflexivity;
    cbn; rewrite !elem_of_app; set_solver.
Qed.

(** What the completion of the read of a packet head leads to, for a session with no
    other read outstanding. A whole head asks for the body, when it announces one. A read
    of nothing is repeated. A lost connection closes the session, which leaves the session
    map. But a head of which only a part has arrived is dropped without a word: no read
    is outstanding any more, so the session stays connected and never receives again. *)
Lemma head_read_outcomes pip self error n pkt s b w :
  w_sessions w !! self = Some s -> reads s = [] -> registry_wf w ->
  zbuffer_create (pkt_bodySize pkt) = Some b -> packet_create <> None ->
  let w' := (onPacketHeadRecv pip self error n pkt w).2 in
  (error = no_error -> n = sizeof_PacketHead -> 0 < pkt_bodySize pkt ->
     exists s' size, w_sessions w' !! self = Some s' /\ size = pkt_bodySize pkt /\
       reads s' = [OpReadBody 0 size (set_body (zbuffer_bytes b) pkt)]) /\
  (error = no_error -> n = 0 ->
     exists s', w_sessions w' !! self = Some s' /\ reads s' = [OpReadHead]) /\
  (connection_lost error = true ->
     exists s', w_sessions w' !! self = Some s' /\ s_status s' = STATUS_DISCONNECTED /\
       SocketClose ∈ s_socket s' /\ forall a, self ∉ listed (w_registry w') a) /\
  (error = no_error -> 0 < n < sizeof_PacketHead -> w' = w).
Proof.
  intros Hs Hr Hreg Hb Hp. cbn zeta. pose proof sizeof_PacketHead_pos as Hhead. split_and!.
  - intros -> -> Hsz. unfold onPacketHeadRecv. rewrite decide_True by done.
    unfold bindM. rewrite (run_on_session self s) by done. cbn [fst snd modify resetTimer].
    assert (pkt_bodySize pkt >? 0 = true) as -> by lia.
    rewrite (run_on_session self (with_timer true s)) by apply lookup_insert_eq.
    unfold recvPacketBody. rewrite Hb. simpl. rewrite lookup_insert_eq. eexists _, _.
    split_and!; [done| |].
    2: { unfold reads. simpl. rewrite filter_app. unfold reads in Hr. rewrite Hr. reflexivity. }
    pose proof (zbuffer_create_size (pkt_bodySize pkt) b ltac:(lia) Hb). by rewrite zbuffer_size_bytes.
  - intros -> ->. unfold onPacketHeadRecv. rewrite decide_False by lia. rewrite decide_True by done.
    unfold bindM. rewrite (run_on_session self s) by done. unfold recvPacket.
    destruct packet_create; [|done]. simpl. rewrite lookup_insert_eq. eexists. split; [done|].
    unfold reads. simpl. rewrite filter_app. unfold reads in Hr. by rewrite Hr.
  - intros Hlost. unfold onPacketHeadRecv. rewrite !decide_False by (intros [-> _]; done).
    rewrite Hlost. destruct (run_close self false true s w Hs) as (s' & Hst & _ & Hc & _ & Ha & ->).
    simpl. destruct (removeSession_run self s' (with_sessions (<[self := s']> (w_sessions w)) w)
      (lookup_insert_eq _ _ _)) as (reg & -> & Hl & _). simpl. exists s'.
    split_and!; [apply lookup_insert_eq|done..|]. intros a. rewrite Hl. simpl.
    case_decide as Hd; [rewrite list_elem_of_filter; naive_solver|].
    intros Hin. destruct (reg_account _ Hreg a self Hin) as (s1 & Hs1 & <-). congruence.
  - intros -> Hn. unfold onPacketHeadRecv. rewrite !decide_False by lia. done.
Qed.
End reading_specs.

(** ** Writing packets

    [outgoing] is what the session still has to get out: the packet being written and the
    queue behind it. The abstract transport is that list with the calls of the engine. *)

Section writing.
Context `{Platform}.

Definition writes (s : session) : list packet :=
  omap (fun op => match op with OpWrite pkt => Some pkt | _ => None end) (s_ops s).

Definition outgoing (s : session) : list packet := writes s ++ s_packetQueue s.

(** What happens to the transport of a session: a packet is posted, a stream sender is
    added, [sendPacket] is called (the server's timer does), a write completes. *)
Inductive send_event :=
| EPost (pkt : packet)
| ESender (streamId : Z)
| EPoll
| ESent (error : error_code).

Fixpoint drop_write (ops : list socket_op) : list socket_op :=
  match ops with
  | [] => []
  | OpWrite _ :: ops' => ops'
  | op :: ops' => op :: drop_write ops'
  end.

(** A write completes only when one is outstanding. *)
Definition send_run (e : send_event) (s : session) : option session :=
  match e with
  | EPost pkt => Some (postPacket (Some pkt) s).2
  | ESender id => Some (addStreamSender id s).2
  | EPoll => Some (sendPacket s).2
  | ESent error =>
      match writes s with
      | [] => None
      | _ => Some (onPacketSent error (with_ops (drop_write (s_ops s)) s)).2
      end
  end.

Fixpoint send_runs (es : list send_event) (s : session) : option session :=
  match es with
  | [] => Some s
  | e :: es' => match send_run e s with Some s' => send_runs es' s' | None => None end
  end.

(** The abstract transport: packets leave in the order they came; the stream senders
    are asked for packets when nothing else is to be sent. *)
Definition fifo : Type := list packet * list engine_call.

Definition fifo_poll (f : fifo) : fifo :=
  match f.1 with
  | [] => (engine_packets f.2, f.2 ++ [CallProcessStreamSenders])
  | _ => f
  end.

Definition fifo_step (e : send_event) (f : fifo) : option fifo :=
  match e with
  | EPost pkt => Some (f.1 ++ [pkt], f.2)
  | ESender id =>
      let f' := (f.1, f.2 ++ [CallAddStreamSender id]) in
      Some (if engine_addStreamSender f.2 id then fifo_poll f' else f')
  | EPoll => Some (fifo_poll f)
  | ESent _ => match f.1 with [] => None | _ :: q => Some (fifo_poll (q, f.2)) end
  end.

Fixpoint fifo_steps (es : list send_event) (f : fifo) : option fifo :=
  match es with
  | [] => Some f
  | e :: es' => match fifo_step e f with Some f' => fifo_steps es' f' | None => None end
  end.

(** Idle with nothing to send, or exactly one write under way. *)
Definition send_ok (s : session) : Prop :=
  (s_sending s = false /\ writes s = [] /\ s_packetQueue s = []) \/
  (s_sending s = true /\ exists pkt, writes s = [pkt]).

Definition sends (s : session) (f : fifo) : Prop :=
  send_ok s /\ outgoing s = f.1 /\ s_engine s = f.2.

Lemma writes_start s pkt : writes (with_ops (s_ops s ++ [OpWrite pkt]) s) = writes s ++ [pkt].
Proof. unfold writes. simpl. by rewrite omap_app. Qed.

Lemma omap_drop_write ops :
  omap (fun op => match op with OpWrite pkt => Some pkt | _ => None end) (drop_write ops) =
  tail (omap (fun op => match op with OpWrite pkt => Some pkt | _ => None end) ops).
Proof.
  induction ops as [|op ops IH]; [done|]. destruct op; csimpl; try done; by rewrite IH.
Qed.

(** [sendPacket] of a session that is not sending, with no write under way. *)
Lemma sendPacket_idle s :
  s_sending s = false -> writes s = [] ->
  sends (sendPacket s).2 (fifo_poll (s_packetQueue s, s_engine s)).
Proof.
  intros Hi Hw. unfold sendPacket, bindM, gets. rewrite Hi.
  destruct (s_packetQueue s) as [|pkt q] eqn:Hq; simpl.
  - unfold fifo_poll. simpl. destruct (engine_packets (s_engine s)) as [|pkt q] eqn:He; simpl.
    + split_and!; [left; simpl; done| |done]. unfold outgoing. unfold writes in *. simpl. by rewrite Hw.
    + unfold sends, send_ok, outgoing, writes in *. simpl. rewrite omap_app, Hw. simpl.
      split_and!; [right; eauto|done|done].
  - rewrite Hq. unfold sends, send_ok, outgoing, writes, fifo_poll in *. simpl.
    rewrite omap_app, Hw. simpl. split_and!; [right; eauto|done|done].
Qed.

Lemma sendPacket_busy s : s_sending s = true -> sendPacket s = (Ret false, s).
Proof. intros Hs. unfold sendPacket, bindM, gets. by rewrite Hs. Qed.

Lemma sendPacket_poll s f : sends s f -> sends (sendPacket s).2 (fifo_poll f).
Proof.
  intros ([(Hi & Hw & Hq)|(Hb & pkt & Hw)] & Ho & He).
  - destruct f as [q h]. unfold outgoing in Ho. rewrite Hw, Hq in Ho. simpl in *. subst.
    pose proof (sendPacket_idle s Hi Hw) as Hs. by rewrite Hq in Hs.
  - rewrite sendPacket_busy by done. unfold outgoing in Ho. rewrite Hw in Ho.
    unfold fifo_poll. destruct f as [[|pkt' q] h]; simpl in *; [done|].
    split_and!; simpl; [right; eauto| |done]. unfold outgoing. by rewrite Hw.
Qed.

Lemma run_post pkt s :
  (postPacket (Some pkt) s).2 = (sendPacket (with_packetQueue (s_packetQueue s ++ [pkt]) s)).2.
Proof.
  unfold postPacket, bindM, modify. simpl. by destruct (sendPacket _) as [[|] ?].
Qed.

Lemma send_run_fifo e s f :
  sends s f ->
  match send_run e s, fifo_step e f with
  | Some s', Some f' => sends s' f'
  | None, None => True
  | _, _ => False
  end.
Proof.
  intros Hs. pose proof Hs as ([(Hi & Hw & Hq)|(Hb & p & Hw)] & Ho & He);
    destruct f as [q h]; simpl in *; destruct e as [pkt|id| |error]; cbn [send_run fifo_step fst snd].
  - rewrite run_post, Hq. simpl.
    pose proof (sendPacket_idle (with_packetQueue [pkt] s) Hi Hw) as Hs'. simpl in Hs'.
    unfold outgoing in Ho. rewrite Hw, Hq in Ho. simpl in Ho. subst q. simpl. by subst.
  - unfold addStreamSender, bindM, gets. simpl. rewrite He.
    assert (Hs' : sends (with_engine (h ++ [CallAddStreamSender id]) s) (q, h ++ [CallAddStreamSender id])).
    { split_and!; [by left|done|done]. }
    destruct (engine_addStreamSender h id); simpl; [|done].
    rewrite <- He in Hs' |- *.
    apply sendPacket_poll in Hs'. by destruct (sendPacket _) as [[|] ?].
  - by apply sendPacket_poll.
  - rewrite Hw. unfold outgoing in Ho. by rewrite Hw, Hq in Ho; simpl in Ho; subst.
  - rewrite run_post, sendPacket_busy by done. split_and!; [right; by eauto| |done].
    unfold outgoing in *. simpl. rewrite <- Ho, <- app_assoc. done.
  - unfold addStreamSender, bindM, gets. simpl. rewrite He.
    assert (Hs' : sends (with_engine (h ++ [CallAddStreamSender id]) s) (q, h ++ [CallAddStreamSender id])).
    { split_and!; [right; by eauto|done|done]. }
    destruct (engine_addStreamSender h id); simpl; [|done].
    rewrite <- He in Hs' |- *.
    apply sendPacket_poll in Hs'. by destruct (sendPacket _) as [[|] ?].
  - by apply sendPacket_poll.
  - rewrite Hw. unfold outgoing in Ho. rewrite Hw in Ho. simpl in Ho. subst q.
    set (s1 := with_ops (drop_write (s_ops s)) s).
    assert (Hs1 : exists s2, onPacketSent error s1 = (sendPacket ;; ret tt)%zway s2 /\
      s_sending s2 = false /\ writes s2 = [] /\ s_packetQueue s2 = s_packetQueue s /\ s_engine s2 = h).
    { unfold onPacketSent. unfold writes in Hw. unfold s1.
      case_decide; eexists; (split; [reflexivity|]); split_and!; try done;
        unfold writes; simpl; by rewrite omap_drop_write, Hw. }
    destruct Hs1 as (s2 & -> & Hi2 & Hw2 & Hq2 & He2).
    pose proof (sendPacket_idle s2 Hi2 Hw2) as Hs2. rewrite Hq2, He2 in Hs2.
    unfold bindM. by destruct (sendPacket s2) as [[|] ?].
Qed.

(** C20: One write at a time, in order. Run one after the other, the operations of a
    session's transport implement a queue: packets are written in the order they were
    posted, the stream senders are asked only when nothing else is waiting, a write is
    under way exactly when something is to be sent, never two, and the completion of a
    write is never without a write. *)
Theorem transport_refines_fifo es s :
  s_sending s = false -> writes s = [] -> s_packetQueue s = [] ->
  match send_runs es s, fifo_steps es ([], s_engine s) with
  | Some s', Some (q, h) =>
      outgoing s' = q /\ s_engine s' = h /\ writes s' = take 1 q /\
      s_sending s' = bool_decide (q <> [])
  | None, None => True
  | _, _ => False
  end.
Proof.
  intros Hi Hw Hq.
  assert (Hs : sends s ([], s_engine s)).
  { split_and!; [by left| |done]. unfold outgoing. by rewrite Hw, Hq. }
  clear Hi Hw Hq. revert Hs. generalize ([] : list packet, s_engine s). intros f Hs.
  revert s f Hs. induction es as [|e es IH]; intros s f Hs; simpl.
  - destruct f as [q h], Hs as ([(Hi & Hw & Hq)|(Hb & p & Hw)] & Ho & He); simpl in *;
      unfold outgoing in *; rewrite Hw in *; simpl in *; subst.
    + rewrite Hq. split_and!; done.
    + by split_and!.
  - pose proof (send_run_fifo e s f Hs) as Hstep.
    destruct (send_run e s) as [s'|], (fifo_step e f) as [f'|]; try done. by apply IH.
Qed.
End writing.

(** ** [sendPacket] on several threads

    The session's handlers run on every thread of the pool. [sendPacket] takes
    [m_sending] to test it, [m_packetQueue] to take a packet and [m_sending] again to set
    it; between these a thread can be interrupted. [send_step] makes one of the steps; [Workers]
    runs any number of threads. *)

Section send_threads.
Context `{Platform}.

Inductive send_pc :=
| SCall                     (** before the test *)
| STested                   (** [m_sending] was false *)
| STook (pkt : packet)      (** a packet left the queue *)
| SMarked (pkt : packet)    (** [m_sending] is set *)
| SReturned (r : bool).

Definition take_packet (s : session) : send_pc * session :=
  let s' := match s_packetQueue s with
            | [] => with_packetQueue (engine_packets (s_engine s))
                      (with_engine (s_engine s ++ [CallProcessStreamSenders]) s)
            | _ => s
            end in
  match s_packetQueue s' with
  | [] => (SReturned false, s')
  | pkt :: q => (STook pkt, with_packetQueue q s')
  end.

Inductive send_step : send_pc * session -> send_pc * session -> Prop :=
| Step_test s :
    send_step (SCall, s) (if s_sending s then SReturned false else STested, s)
| Step_take s : send_step (STested, s) (take_packet s)
| Step_mark pkt s : send_step (STook pkt, s) (SMarked pkt, with_sending true s)
| Step_write pkt s :
    send_step (SMarked pkt, s)
      (SReturned true, with_ops (s_ops s ++ [OpWrite pkt]) s).

(** A thread that is not interrupted computes [sendPacket]. *)
Lemma send_alone s :
  exists r, rtc send_step (SCall, s) (SReturned r, (sendPacket s).2) /\ (sendPacket s).1 = Ret r.
Proof.
  unfold sendPacket, bindM, gets. destruct (s_sending s) eqn:Hi.
  { exists false. split; [|done]. eapply rtc_l; [constructor|]. by rewrite Hi. }
  assert (Ht : rtc send_step (SCall, s) (take_packet s)).
  { eapply rtc_l; [apply Step_test|]. rewrite Hi. eapply rtc_l; [apply Step_take|done]. }
  unfold take_packet in Ht. destruct (s_packetQueue s) as [|pkt q] eqn:Hq; simpl in *.
  - destruct (engine_packets (s_engine s)) as [|pkt q] eqn:He; simpl in *; [by exists false|].
    exists true. split; [|done].
    etrans; [exact Ht|]. eapply rtc_l; [apply Step_mark|].
    eapply rtc_l; [apply Step_write|]. done.
  - rewrite Hq in *. exists true. simpl. split; [|done].
    etrans; [exact Ht|]. eapply rtc_l; [apply Step_mark|].
    eapply rtc_l; [apply Step_write|]. done.
Qed.
End send_threads.
