(* ===== verification/Session.v ===== *)
(** * The request handlers of a session (src/session.cpp)

    A handler runs on behalf of the session [self]. Its answers are calls of the engine
    ([postRequestSuccess], [postRequestFailure]); a request for a client of another account
    goes through the database and a task that looks for the account's sessions. *)

From S2P Require Import Prelude Values Platform Codec Db Stdio StreamBuffer Streams World.
From S2P Require Import Registry Transport.

Local Open Scope zway_scope.
Local Open Scope Z_scope.

Section session.
Context `{Platform}.

(** The fields of a request head the handlers read: [head["k"].toInt()] and the like. *)
Definition int_of (head : uobj) (k : string) : Z := ubj_toInt (ubj_get head k).
Definition str_of (head : uobj) (k : string) : string := ubj_toStr (ubj_get head k).
Definition bool_of (head : uobj) (k : string) : bool := ubj_toBool (ubj_get head k).
Definition array_of (head : uobj) (k : string) : list ubj := ubj_toArray (ubj_get head k).
Definition obj_of (head : uobj) (k : string) : uobj := ubj_toObject (ubj_get head k).
Definition requestId_of (head : uobj) : Z := u32 (int_of head "requestId").

Definition the_status (self : nat) : M world Z :=
  let* s := session_at self in ret (s_status s).
Definition the_accountId (self : nat) : M world Z :=
  let* s := session_at self in ret (s_accountId s).

(** ** Presence *)

Fixpoint any_notifies (sessions : list nat) : M world Z :=
  match sessions with
  | [] => ret 0
  | q :: sessions' =>
      let* s := session_at q in
      if bool_of (s_config s) "notifyStatus" then ret 1 else any_notifies sessions'
  end.

Definition getContactStatus (contactId : Z) : M world Z :=
  let* sessions := getSessions contactId in any_notifies sessions.

Definition broadcastStatus (self : nat) (status : Z) (check : bool) : M world unit :=
  let* s := session_at self in
  if check && negb (bool_of (s_config s) "notifyStatus") then ret tt
  else
    for_each (in_key_order (s_contacts s)) (fun it =>
      if bool_of it.2 "notifyStatus" then
        let* sessions := getSessions it.1 in
        match sessions with
        | [] => ret tt
        | _ =>
            let contactStatus := UArray [UObject (UBJ_OBJ
              [("contactId"%string, ubj_of_uint32 (s_accountId s));
               ("status"%string, ubj_of_uint32 status)])] in
            let obj := UBJ_OBJ [("requestType"%string, UInt32 Req_ContactStatus);
                                ("contactStatus"%string, contactStatus)] in
            let* bytes := RAND 4 in
            for_each sessions (fun q => addUbjSender q (le_combine bytes) Stream_Request obj)
        end
      else ret tt).

(** The loop over the contacts in [processLogin] and [processContactStatusRequest]. *)
Definition contact_statuses (self : nat) : M world (list ubj) :=
  let* s := session_at self in
  collect (in_key_order (s_contacts s)) (fun it =>
    let* contactStatus := getContactStatus it.1 in
    ret (UObject (UBJ_OBJ [("contactId"%string, ubj_of_uint32 it.1);
                           ("status"%string, ubj_of_uint32 contactStatus)]))).

Definition read_contacts (vs : list ubj) : gmap Z uobj :=
  foldl (fun m it => let o := ubj_toObject it in <[u32 (int_of o "contactId") := o]> m) ∅ vs.

Definition setConfig (self : nat) (config : uobj) : M world bool :=
  when (hasField config "contacts")
    (update self (with_contacts (read_contacts (array_of config "contacts")))) ;;
  let newStatus := bool_of config "notifyStatus" in
  let* s := session_at self in
  let curStatus := bool_of (s_config s) "notifyStatus" in
  (if hasField config "fcmToken"
   then on_db (setFcmToken (s_accountId s) (str_of config "fcmToken")) ;; ret tt
   else ret tt) ;;
  update self (with_config config) ;;
  when (negb (Bool.eqb newStatus curStatus))
    (broadcastStatus self (if newStatus then 1 else 0) false) ;;
  ret true.

(** ** Delivering the requests of the account *)

(** The head the constructor of a request class makes is replaced by the caller's. *)
Definition DispatchRequest_create (id : Z) (request : uobj) : out_request :=
  OutRequest DispatchRequest id request.

Definition AddContactRequest_create (id : Z) (request : uobj) : out_request :=
  OutRequest AddContactRequest id request.

Definition AcceptContactRequest_create (id : Z) (request : uobj) : out_request :=
  OutRequest AcceptContactRequest id request.

Definition RejectContactRequest_create (id : Z) (request : uobj) : out_request :=
  OutRequest RejectContactRequest id request.

Definition PushRequest_create (id : Z) (request : uobj) : out_request :=
  OutRequest PushRequest id request.

(** One iteration of the loop of [processRequests]. *)
Definition deliver_request (self : nat) (request : doc) : M world unit :=
  let id := u32 (numberInt (bson_get request "id")) in
  let type := u32 (numberInt (bson_get request "type")) in
  let number k := UInt32 (numberInt (bson_get request k)) in
  let str k := UString (bson_str (bson_get request k)) in
  let* s := session_at self in
  if requestPending (s_engine s) type id then ret tt
  else if decide (type = Req_Dispatch) then
    postRequest self (DispatchRequest_create id (UBJ_OBJ
      [("requestId"%string, ubj_of_uint32 id);
       ("requestType"%string, ubj_of_uint32 type);
       ("dispatchId"%string, ubj_of_uint32 id);
       ("dispatchType"%string, number "dispatchType"%string)]))
  else if decide (type = Req_AddContact) then
    postRequest self (AddContactRequest_create id (UBJ_OBJ
      [("requestId"%string, ubj_of_uint32 id);
       ("requestType"%string, ubj_of_uint32 type);
       ("addCode"%string, str "addCode"%string);
       ("name"%string, str "name"%string);
       ("phone"%string, str "phone"%string)]))
  else if decide (type = Req_AcceptContact) then
    let requestSrc := u32 (numberInt (bson_get request "src")) in
    let* contactStatus := getContactStatus requestSrc in
    let data := UBJ_OBJ
      [("requestId"%string, ubj_of_uint32 id);
       ("requestType"%string, ubj_of_uint32 type);
       ("contactRequestId"%string, number "contactRequestId"%string);
       ("contactId"%string, number "src"%string);
       ("contactStatus"%string, ubj_of_uint32 contactStatus);
       ("name"%string, str "name"%string);
       ("phone"%string, str "phone"%string);
       ("publicKey"%string, bsonToUbj (bson_get request "publicKey"))] in
    update self (fun s => with_contacts (<[requestSrc :=
      UBJ_OBJ [("contactId"%string, ubj_of_uint32 requestSrc);
               ("notifyStatus"%string, UInt32 1)]]> (s_contacts s)) s) ;;
    postRequest self (AcceptContactRequest_create id data)
  else if decide (type = Req_RejectContact) then
    postRequest self (RejectContactRequest_create id (UBJ_OBJ
      [("requestId"%string, ubj_of_uint32 id);
       ("requestType"%string, ubj_of_uint32 type);
       ("contactRequestId"%string, number "contactRequestId"%string)]))
  else if decide (type = Req_Push) then
    postRequest self (PushRequest_create id (ubj_toObject (bsonToUbj (bson_get request "data"))))
  else ret tt.

Definition processRequests (self : nat) : M world bool :=
  let* accountId := the_accountId self in
  let* requests := on_db (getRequests [("dst"%string, bson_u32 accountId)]) in
  for_each requests (deliver_request self) ;;
  ret true.

(** ** Accounts *)

Definition processDispatchRequest (self : nat) (head : uobj) : M world bool :=
  let requestId := requestId_of head in
  let* status := the_status self in
  if status <? STATUS_LOGGEDIN then
    postRequestFailure self requestId 0 "Operation not permitted" ;; ret false
  else if hasField head "dispatchId" then
    let* accountId := the_accountId self in
    let query :=
      [("id"%string, BInt (int_of head "dispatchId"));
       ("$or"%string, BArray [("0"%string, BObject [("src"%string, bson_u32 accountId)]);
                              ("1"%string, BObject [("dst"%string, bson_u32 accountId)])])] in
    let* deleted := on_db (deleteRequest query) in
    if negb deleted then
      postRequestFailure self requestId 0 "invalid data" ;; ret false
    else
      postRequestSuccess self requestId None ;; ret true
  else ret false.

(** An account of that name: the name is taken for a regular expression. *)
Definition name_query (name : string) : doc :=
  [("name"%string, BObject [("$regex"%string, BString name); ("$options"%string, BString "i")])].

Definition processCreateAccount (self : nat) (head : uobj) : M world bool :=
  let requestId := requestId_of head in
  let* status := the_status self in
  if status >=? STATUS_LOGGEDIN then
    postRequestFailure self requestId 0 "Operation not permitted" ;; ret false
  else if negb (hasField head "name") || str_empty (str_of head "name") then
    postRequestFailure self requestId 0 "Missing field: name" ;; ret false
  else if negb (hasField head "password") ||
          negb (ubj_bufferSize (ubj_get head "password") =? 32) then
    postRequestFailure self requestId 0 "Missing field: password" ;; ret false
  else
    let* query := BSON (name_query (str_of head "name")) in
    let* account := on_db (getAccount query [("id"%string, BInt 1)]) in
    match account with
    | Some _ => postRequestFailure self requestId 0 "Invalid account name" ;; ret false
    | None =>
        let* accountId := on_db newAccountId in
        match SHA256_Init with
        | None => ret false
        | Some ctx =>
            match ubj_buffer (ubj_get head "password") with
            | None => fail NullDereference
            | Some password =>
                match SHA256_Update ctx password with
                | None => ret false
                | Some ctx =>
                    let* salt := RAND 32 in
                    match (ctx ← SHA256_Update ctx salt; SHA256_Final ctx) with
                    | None => ret false
                    | Some pass =>
                        let* inserted := on_db (insertAccount accountId (str_of head "name")
                          (str_of head "phone") (bool_of head "findByName")
                          (bool_of head "findByPhone") pass salt) in
                        if negb inserted then
                          postRequestFailure self requestId 0 "Failed to create account" ;; ret false
                        else
                          postRequestSuccess self requestId
                            (Some (UBJ_OBJ [("accountId"%string, ubj_of_uint32 accountId)])) ;;
                          ret true
                    end
                end
            end
        end
    end.

(** The 32-byte buffers of this and the previous function are taken to be allocated.
    [memcmp] over the stored length; a stored password of more than the 32 bytes of the
    digest, which is never written, would be compared past its end. *)
Definition verifyPassword (account : doc) (password : option (list Byte.byte)) : M world bool :=
  let* saltData := or_throw (bson_binData (bson_get account "salt")) in
  let* passData := or_throw (bson_binData (bson_get account "pass")) in
  match SHA256_Init with
  | None => ret false
  | Some ctx =>
      match password with
      | None => fail NullDereference
      | Some password =>
          match (ctx ← SHA256_Update ctx password; ctx ← SHA256_Update ctx saltData;
                 SHA256_Final ctx) with
          | None => ret false
          | Some digest => ret (bool_decide (take (length passData) digest = passData))
          end
      end
  end.

Definition processLogin (self : nat) (head : uobj) : M world bool :=
  let requestId := requestId_of head in
  let* status := the_status self in
  if status >=? STATUS_LOGGEDIN then
    postRequestFailure self requestId 0 "Operation not permitted" ;; ret false
  else if negb (hasField head "account") then
    postRequestFailure self requestId 0 "account missing" ;; ret false
  else if negb (hasField head "password") then
    postRequestFailure self requestId 0 "password missing" ;; ret false
  else
    let accountId := u32 (int_of head "account") in
    let* account := on_db (getAccount [("id"%string, bson_u32 accountId)]
                             [("pass"%string, BInt 1); ("salt"%string, BInt 1)]) in
    match account with
    | None => postRequestFailure self requestId 0 "Invalid account id" ;; ret false
    | Some account =>
        let* verified := verifyPassword account (ubj_buffer (ubj_get head "password")) in
        if negb verified then
          postRequestFailure self requestId 0 "login failed" ;; ret false
        else
          on_session self (setStatus STATUS_LOGGEDIN) ;;
          removeSession self ;;
          update self (with_accountId accountId) ;;
          appendSession self ;;
          (if hasField head "config"
           then setConfig self (obj_of head "config") ;; ret tt else ret tt) ;;
          let* status := contact_statuses self in
          let* inbox := on_db (getInbox accountId) in
          postRequestSuccess self requestId
            (Some (UBJ_OBJ [("contactStatus"%string, UArray status);
                            ("inbox"%string, UArray (default [] inbox))])) ;;
          processRequests self ;;
          ret true
    end.

Definition processLogout (self : nat) (head : uobj) : M world bool :=
  let requestId := requestId_of head in
  let* status := the_status self in
  if status <? STATUS_LOGGEDIN then
    postRequestFailure self requestId 0 "Operation not permitted" ;; ret false
  else
    postRequestSuccess self requestId None ;;
    let* accountId := the_accountId self in
    on_db (setFcmToken accountId "") ;;
    on_session self (setStatus STATUS_CONNECTED) ;;
    broadcastStatus self 0 true ;;
    ret true.

Definition processConfigRequest (self : nat) (head : uobj) : M world bool :=
  let requestId := requestId_of head in
  let* status := the_status self in
  if status <? STATUS_LOGGEDIN then
    postRequestFailure self requestId 0 "Operation not permitted" ;; ret false
  else
    let* configured := (if hasField head "config" then setConfig self (obj_of head "config")
                        else ret true) in
    if negb configured then
      postRequestFailure self requestId 0 "failure" ;; ret false
    else
      postRequestSuccess self requestId None ;; ret true.

Definition processContactStatusRequest (self : nat) (head : uobj) : M world bool :=
  let requestId := requestId_of head in
  let* status := the_status self in
  if status <? STATUS_LOGGEDIN then
    postRequestFailure self requestId 0 "Operation not permitted" ;; ret false
  else
    let* status := contact_statuses self in
    postRequestSuccess self requestId
      (Some (UBJ_OBJ [("contactStatus"%string, UArray status)])) ;;
    ret true.

Definition find_query (subject : string) (accountId : Z) : doc :=
  name_query subject ++
  [("id"%string, BObject [("$ne"%string, bson_u32 accountId)]); ("findByName"%string, BBool true)].

Definition processFindContactRequest (self : nat) (head : uobj) : M world bool :=
  let requestId := requestId_of head in
  let* status := the_status self in
  if status <? STATUS_LOGGEDIN then
    postRequestFailure self requestId 0 "Operation not permitted" ;; ret false
  else if negb (hasField head "query") then
    postRequestFailure self requestId 0 "query missing" ;; ret false
  else
    let query := obj_of head "query" in
    let* contacts :=
      (if hasField query "subject" then
         let* accountId := the_accountId self in
         let* q := BSON (find_query (str_of query "subject") accountId) in
         on_db (getContacts q (Some [("name"%string, BInt 1)]))
       else ret []) in
    postRequestSuccess self requestId
      (Some (UBJ_OBJ [("result"%string, UArray (bsonArrToUbj contacts))])) ;;
    ret true.
End session.

Section session_lemmas.
Context `{Platform}.

Lemma run_the_status p s w : w_sessions w !! p = Some s -> the_status p w = (Ret (s_status s), w).
Proof. intros Hs. unfold the_status, bindM. by rewrite (run_session_at p s). Qed.

Lemma run_the_accountId p s w :
  w_sessions w !! p = Some s -> the_accountId p w = (Ret (s_accountId s), w).
Proof. intros Hs. unfold the_accountId, bindM. by rewrite (run_session_at p s). Qed.

(** A handler that answers with a failure does not return true. *)
Lemma failure_not_true p id code m (w w' : world) :
  (postRequestFailure p id code m ;; ret false)%zway w <> (Ret true, w').
Proof. intros Hr. by apply run_bind_inv in Hr as (? & ? & _ & [=]). Qed.
End session_lemmas.
