(* ===== verification/Contacts.v ===== *)
(** * Contact and push requests (src/session.cpp)

    The handlers that store a request for the client of another account and wake the server
    for it: [processAddContactRequest], [processCreateAddCode], [processAcceptContact],
    [processRejectContact] and [processPushRequest]. *)

From S2P Require Import Prelude Values Platform Codec Db World Registry Transport Session.

Local Open Scope zway_scope.
Local Open Scope Z_scope.

Section contacts.
Context `{Platform}.

(** The public key of a request head, read inside a [try]; [None] when there is none or
    its conversion throws. *)
Definition publicKey_of (head : uobj) : option doc :=
  if hasField head "publicKey" then ubjToBson (ubj_get head "publicKey") else None.

(** The fields of our own account a stored request carries. *)
Definition own_account (self : nat) : M world (option doc) :=
  let* accountId := the_accountId self in
  on_db (getAccount [("id"%string, bson_u32 accountId)]
                    [("name"%string, BInt 1); ("phone"%string, BInt 1)]).

(** The contact is entered in [m_contacts] with its notifications on. *)
Definition add_contact (self : nat) (contactId : Z) : M world unit :=
  update self (fun s => with_contacts (<[contactId :=
    UBJ_OBJ [("contactId"%string, ubj_of_uint32 contactId);
             ("notifyStatus"%string, UInt32 1)]]> (s_contacts s)) s).

Definition reply_failure (self : nat) (requestId code : Z) (message : string) : M world bool :=
  postRequestFailure self requestId code message ;; ret false.

(** The request stored for the contact who is asked. *)
Definition add_contact_doc (requestId src dst : Z) (account publicKey : doc) (addCode : string) : doc :=
  [("id"%string, bson_u32 requestId);
   ("type"%string, BInt Req_AddContact);
   ("time"%string, BInt 0);
   ("ttl"%string, BInt 0);
   ("src"%string, bson_u32 src);
   ("dst"%string, bson_u32 dst);
   ("name"%string, bson_get account "name");
   ("phone"%string, bson_get account "phone");
   ("publicKey"%string, BObject publicKey);
   ("addCode"%string, BString addCode)].

(** What [processAddContactRequest] does once the contact is known to be someone else. *)
Definition request_contact (self : nat) (head : uobj) (account contact : doc) (addCode : string)
    (contactAccountId : Z) : M world bool :=
  let requestId := requestId_of head in
  let* accountId := the_accountId self in
  let* pending := on_db (db_requestPending
    [("type"%string, BInt Req_AddContact); ("src"%string, bson_u32 accountId);
     ("dst"%string, bson_u32 contactAccountId)]) in
  if pending then reply_failure self requestId 0 "invalid data"
  else
    match publicKey_of head with
    | None => reply_failure self requestId 0 "Invalid public key"
    | Some publicKey =>
        let* request := BSON (add_contact_doc requestId accountId contactAccountId
                                account publicKey addCode) in
        let* added := on_db (addRequest request) in
        if negb added then reply_failure self requestId 0 "Internal server error"
        else
          (if str_empty addCode then ret tt
           else let* code := BSON [("addCode"%string, BString addCode)] in
                on_db (deleteRequest code) ;; ret tt) ;;
          postRequestSuccess self requestId (Some (UBJ_OBJ
            [("requestId"%string, ubj_of_uint32 requestId);
             ("status"%string, UInt32 1);
             ("addCode"%string, UString addCode);
             ("name"%string, UString (bson_str (bson_get contact "name")));
             ("phone"%string, UString (bson_str (bson_get contact "phone")))])) ;;
          post_processUserRequests contactAccountId ;;
          ret true
    end.

(** The query for the contact: by the add code's request, or by name. *)
Definition contact_query (self : nat) (head : uobj) : M world (doc + string) :=
  let addCode := str_of head "addCode" in
  if negb (str_empty addCode) then
    let* code := BSON [("type"%string, BInt Req_AddContact); ("addCode"%string, BString addCode)] in
    let* request := on_db (getRequest code) in
    match request with
    | None => ret (inr "invalid add code"%string)
    | Some request =>
        let* query := BSON [("id"%string, bson_get request "src")] in
        ret (inl query)
    end
  else
    let label := str_of head "name" in
    if str_empty label then ret (inr "no label"%string)
    else let* query := BSON [("name"%string, BString label); ("findByName"%string, BBool true)] in
         ret (inl query).

Definition processAddContactRequest (self : nat) (head : uobj) : M world bool :=
  let requestId := requestId_of head in
  let* status := the_status self in
  if status <? STATUS_LOGGEDIN then reply_failure self requestId 0 "Operation not permitted"
  else
    let* account := own_account self in
    match account with
    | None => reply_failure self requestId 0 "Internal server error"
    | Some account =>
        let* query := contact_query self head in
        match query with
        | inr message => reply_failure self requestId 0 message
        | inl query =>
            let* contact := on_db (getAccount query
              [("id"%string, BInt 1); ("name"%string, BInt 1); ("phone"%string, BInt 1)]) in
            match contact with
            | None => reply_failure self requestId 0 "invalid label 1"
            | Some contact =>
                let contactAccountId := u32 (numberInt (bson_get contact "id")) in
                let* accountId := the_accountId self in
                if contactAccountId =? accountId
                then reply_failure self requestId 0 "invalid label 2"
                else request_contact self head account contact
                       (str_of head "addCode") contactAccountId
            end
        end
    end.

Definition add_code_doc (requestId src : Z) (account publicKey : doc) (addCodeHex : string) : doc :=
  [("id"%string, bson_u32 requestId);
   ("type"%string, BInt Req_AddContact);
   ("time"%string, BInt 0);
   ("ttl"%string, BInt 0);
   ("src"%string, bson_u32 src);
   ("name"%string, bson_get account "name");
   ("phone"%string, bson_get account "phone");
   ("publicKey"%string, BObject publicKey);
   ("addCode"%string, BString addCodeHex)].

Definition processCreateAddCode (self : nat) (head : uobj) : M world bool :=
  let requestId := requestId_of head in
  let* status := the_status self in
  if status <? STATUS_LOGGEDIN then reply_failure self requestId 0 "Operation not permitted"
  else
    match publicKey_of head with
    | None => reply_failure self requestId 0 "Invalid public key"
    | Some publicKey =>
        let* account := own_account self in
        match account with
        | None => reply_failure self requestId 0 "Internal server error"
        | Some account =>
            let* addCode := RAND 4 in
            let addCodeHex := boost_hex addCode in
            let* accountId := the_accountId self in
            let* request := BSON (add_code_doc requestId accountId account publicKey addCodeHex) in
            let* added := on_db (addRequest request) in
            if negb added then reply_failure self requestId 0 "Internal server error"
            else
              postRequestSuccess self requestId (Some (UBJ_OBJ
                [("requestId"%string, ubj_of_uint32 requestId);
                 ("status"%string, UInt32 1);
                 ("addCode"%string, UString addCodeHex)])) ;;
              ret true
        end
    end.

Definition contact_request_query (contactRequestId accountId : Z) : doc :=
  [("id"%string, bson_u32 contactRequestId); ("dst"%string, bson_u32 accountId)].

Definition accept_doc (requestId contactRequestId src dst : Z) (account publicKey : doc) : doc :=
  [("id"%string, bson_u32 requestId);
   ("contactRequestId"%string, bson_u32 contactRequestId);
   ("type"%string, BInt Req_AcceptContact);
   ("src"%string, bson_u32 src);
   ("dst"%string, bson_u32 dst);
   ("name"%string, bson_get account "name");
   ("phone"%string, bson_get account "phone");
   ("publicKey"%string, BObject publicKey)].

(** [getContactStatus] is an argument of the response: it is asked before it is posted. *)
Definition processAcceptContact (self : nat) (head : uobj) : M world bool :=
  let requestId := requestId_of head in
  let* status := the_status self in
  if status <? STATUS_LOGGEDIN then reply_failure self requestId 0 "Operation not permitted"
  else
    let contactRequestId := u32 (int_of head "contactRequestId") in
    let* accountId := the_accountId self in
    let* request := on_db (getRequest (contact_request_query contactRequestId accountId)) in
    match request with
    | None => reply_failure self requestId 1 "Invalid request"
    | Some request =>
        let* account := own_account self in
        match account with
        | None => reply_failure self requestId 0 "Internal server error"
        | Some account =>
            let requestSrc := u32 (numberInt (bson_get request "src")) in
            let* contactKey := or_throw (bson_Obj (bson_get request "publicKey")) in
            let contactPublicKey := bsonObjToUbj contactKey in
            match publicKey_of head with
            | None => reply_failure self requestId 0 "Invalid public key"
            | Some publicKey =>
                let* answer := BSON (accept_doc requestId contactRequestId accountId requestSrc
                                       account publicKey) in
                let* added := on_db (addRequest answer) in
                if negb added then reply_failure self requestId 0 "Internal server error"
                else
                  let* contactStatus := getContactStatus requestSrc in
                  postRequestSuccess self requestId (Some (UBJ_OBJ
                    [("requestId"%string, ubj_of_uint32 requestId);
                     ("status"%string, UInt32 1);
                     ("contactId"%string, ubj_of_uint32 requestSrc);
                     ("contactStatus"%string, ubj_of_uint32 contactStatus);
                     ("name"%string, UString (bson_str (bson_get request "name")));
                     ("phone"%string, UString (bson_str (bson_get request "phone")));
                     ("publicKey"%string, UObject contactPublicKey)])) ;;
                  on_db (deleteRequest [("id"%string, bson_u32 contactRequestId)]) ;;
                  add_contact self requestSrc ;;
                  post_processUserRequests requestSrc ;;
                  ret true
            end
        end
    end.

Definition reject_doc (requestId contactRequestId src dst : Z) : doc :=
  [("type"%string, BInt Req_RejectContact);
   ("id"%string, bson_u32 requestId);
   ("contactRequestId"%string, bson_u32 contactRequestId);
   ("src"%string, bson_u32 src);
   ("dst"%string, bson_u32 dst)].

Definition processRejectContact (self : nat) (head : uobj) : M world bool :=
  let requestId := requestId_of head in
  let* status := the_status self in
  if status <? STATUS_LOGGEDIN then reply_failure self requestId 0 "Operation not permitted"
  else
    let contactRequestId := u32 (int_of head "contactRequestId") in
    let* accountId := the_accountId self in
    let* request := on_db (getRequest (contact_request_query contactRequestId accountId)) in
    match request with
    | None => reply_failure self requestId 1 "Invalid request"
    | Some request =>
        let requestSrc := u32 (numberInt (bson_get request "src")) in
        let* added := on_db (addRequest
          (reject_doc requestId contactRequestId accountId requestSrc)) in
        if negb added then reply_failure self requestId 0 "Internal server error"
        else
          postRequestSuccess self requestId None ;;
          on_db (deleteRequest [("id"%string, bson_u32 contactRequestId)]) ;;
          post_processUserRequests requestSrc ;;
          ret true
    end.

Definition push_doc (requestId src dst : Z) (data : doc) : doc :=
  [("id"%string, bson_u32 requestId);
   ("type"%string, BInt Req_Push);
   ("time"%string, BInt 0);
   ("ttl"%string, BInt 0);
   ("src"%string, bson_u32 src);
   ("dst"%string, bson_u32 dst);
   ("data"%string, BObject data)].

(** The loop of [processPushRequest] over the keys; [forward] is changed in place. *)
Fixpoint forward_push (self : nat) (requestId accountId : Z) (keys : list ubj) (forward : uobj)
    : M world unit :=
  match keys with
  | [] => ret tt
  | it :: keys' =>
      let dst := u32 (int_of (ubj_toObject it) "dst") in
      if dst =? accountId then forward_push self requestId accountId keys' forward
      else
        let forward := ubj_assign "key" (ubj_get (ubj_toObject it) "key") forward in
        let* data := or_throw (ubjToBson (UObject forward)) in
        let* request := BSON (push_doc requestId accountId dst data) in
        let* added := on_db (addRequest request) in
        (if negb added then postRequestFailure self requestId 0 "Internal server error"
         else post_processUserRequests dst) ;;
        forward_push self requestId accountId keys' forward
  end.

Definition push_forward (head : uobj) (accountId : Z) : uobj :=
  UBJ_OBJ [("requestId"%string, ubj_of_uint32 (requestId_of head));
           ("requestType"%string, ubj_get head "requestType");
           ("src"%string, ubj_of_uint32 accountId);
           ("resources"%string, ubj_get head "resources");
           ("salt"%string, ubj_get head "salt");
           ("meta"%string, ubj_get head "meta")].

Definition processPushRequest (self : nat) (head : uobj) : M world bool :=
  let requestId := requestId_of head in
  let* status := the_status self in
  if status <? STATUS_LOGGEDIN then reply_failure self requestId 0 "Operation not permitted"
  else
    let resourceIds := (fun it => UInt32 (int_of (ubj_toObject it) "id")) <$> array_of head "resources" in
    let response := UBJ_OBJ [("resources"%string, UArray resourceIds)] in
    let* accountId := the_accountId self in
    forward_push self requestId accountId (array_of head "keys") (push_forward head accountId) ;;
    postRequestSuccess self requestId (Some response) ;;
    ret true.
End contacts.
