(* ===== verification/Requests.v ===== *)
(** * Posted requests, incoming requests and stream receivers

    The responses of the client to the requests [processRequests] posts (src/request/ and the
    callbacks given in src/session.cpp), the dispatch of incoming requests, the reception
    of a resource, and the start of a session. *)

From S2P Require Import Prelude Values Platform Codec Db StreamBuffer Streams Relay World Registry.
From S2P Require Import Transport Session Contacts.

Local Open Scope zway_scope.
Local Open Scope Z_scope.

Section requests.
Context `{Platform}.

(** ** Responses *)

(** The callback of the dispatch, accept and reject requests. *)
Definition delete_when_done (self : nat) (id : Z) (response : uobj) : M world unit :=
  let status := u32 (int_of response "status") in
  if status =? 1 then
    let* accountId := the_accountId self in
    on_db (deleteRequest [("id"%string, bson_u32 id); ("dst"%string, bson_u32 accountId)]) ;;
    ret tt
  else ret tt.

(** One resource the recipient of a push request asks for. *)
Definition send_resource (self : nat) (it : ubj) : M world unit :=
  let id := u32 (ubj_toInt it) in
  if negb (id =? 0) then
    let* sender := on_streams (StreamBufferSender_create self id) in
    match sender with
    | Some sender =>
        let* added := on_session self (addStreamSender id) in
        if added then on_streams (addStreamBufferSender sender) else ret tt
    | None => ret tt
    end
  else ret tt.

Definition push_callback (self : nat) (id : Z) (response : uobj) : M world unit :=
  let status := u32 (int_of response "status") in
  if status =? 1 then
    let* accountId := the_accountId self in
    on_db (deleteRequest [("id"%string, bson_u32 id); ("dst"%string, bson_u32 accountId)]) ;;
    for_each (array_of response "resources") (send_resource self)
  else ret tt.

(** ** The request classes

    Each class calls its callback, [PushRequest] only for status 1. None of the five functions
    returns the [bool] it declares. *)
Definition callback : Type := uobj -> M world unit.

Definition DispatchRequest_processResponse (m_callback : option callback) (head : uobj) : M world unit :=
  match m_callback with Some f => f head | None => ret tt end.

Definition AddContactRequest_processResponse (m_callback : option callback) (head : uobj) : M world unit :=
  match m_callback with Some f => f head | None => ret tt end.

Definition AcceptContactRequest_processResponse (m_callback : option callback) (head : uobj) : M world unit :=
  match m_callback with Some f => f head | None => ret tt end.

Definition RejectContactRequest_processResponse (m_callback : option callback) (head : uobj) : M world unit :=
  match m_callback with Some f => f head | None => ret tt end.

Definition PushRequest_processResponse (m_callback : option callback) (head : uobj) : M world unit :=
  let status := u32 (int_of head "status") in
  if status =? 1 then match m_callback with Some f => f head | None => ret tt end else ret tt.

(** The callback [processRequests] gives the request, by its class. *)
Definition callback_of (self : nat) (r : out_request) : option callback :=
  Some match rq_class r with
       | AddContactRequest => fun _ => ret tt
       | DispatchRequest | AcceptContactRequest | RejectContactRequest => delete_when_done self (rq_id r)
       | PushRequest => push_callback self (rq_id r)
       end.

(** The virtual call. *)
Definition processResponse (self : nat) (r : out_request) (head : uobj) : M world unit :=
  let m_callback := callback_of self r in
  match rq_class r with
  | DispatchRequest => DispatchRequest_processResponse m_callback head
  | AddContactRequest => AddContactRequest_processResponse m_callback head
  | AcceptContactRequest => AcceptContactRequest_processResponse m_callback head
  | RejectContactRequest => RejectContactRequest_processResponse m_callback head
  | PushRequest => PushRequest_processResponse m_callback head
  end.

(** What a response makes the server do. *)
Lemma processResponse_run self r head :
  processResponse self r head =
    match rq_class r with
    | AddContactRequest => ret tt
    | PushRequest =>
        if u32 (int_of head "status") =? 1 then push_callback self (rq_id r) head else ret tt
    | _ => delete_when_done self (rq_id r) head
    end.
Proof. unfold processResponse, callback_of. by destruct (rq_class r). Qed.

(** The engine hands a response to the pending request [r]. *)
Definition receive_response (self : nat) (r : out_request) (head : uobj) : M world unit :=
  on_session self (engine_call_ (CallResponse r head)) ;;
  processResponse self r head.

(** ** Incoming requests *)

Definition processIncomingRequest (self : nat) (request : uobj) : M world bool :=
  let type := int_of request "requestType" in
  if decide (type = Req_Dispatch) then processDispatchRequest self request
  else if decide (type = Req_CreateAccount) then processCreateAccount self request
  else if decide (type = Req_Login) then processLogin self request
  else if decide (type = Req_Logout) then processLogout self request
  else if decide (type = Req_Config) then processConfigRequest self request
  else if decide (type = Req_AddContact) then processAddContactRequest self request
  else if decide (type = Req_CreateAddCode) then processCreateAddCode self request
  else if decide (type = Req_FindContact) then processFindContactRequest self request
  else if decide (type = Req_AcceptContact) then processAcceptContact self request
  else if decide (type = Req_RejectContact) then processRejectContact self request
  else if decide (type = Req_ContactStatus) then processContactStatusRequest self request
  else if decide (type = Req_Push) then processPushRequest self request
  else ret false.

(** ** Receiving a resource *)

(** The receiver that was made, by the buffer it fills; [None] in it is a receiver of the
    engine itself. *)
Definition createStreamReceiver (self : nat) (pkt : packet) : M world (option (option nat)) :=
  if decide (pkt_streamType pkt = Stream_Resource) then
    let* buffer := on_streams (on_fs (StreamBuffer_create (stream_path (pkt_streamId pkt)) pkt)) in
    match buffer with
    | None => ret None
    | Some sb =>
        let* p := on_streams (alloc_buffer sb) in
        if bufferReceiver_create pkt then
          on_streams (addStreamBuffer p) ;;
          ret (Some (Some p))
        else ret None
    end
  else
    let* s := session_at self in
    ret (if engine_createStreamReceiver (s_engine s) pkt then Some None else None).

Definition dispatch_doc (id dst : Z) : doc :=
  [("id"%string, bson_u32 id);
   ("type"%string, BInt Req_Dispatch);
   ("time"%string, BInt 0);
   ("ttl"%string, BInt 0);
   ("src"%string, BInt 0);
   ("dst"%string, bson_u32 dst);
   ("dispatchType"%string, BInt 6)].

(** The callback of the receiver with stream [id], when everything has arrived. *)
Definition stream_received (self : nat) (id : Z) (buffer : nat) : M world unit :=
  on_streams (
    let* sb := deref_buffer buffer in
    fun st => let '(r, (sb', fs')) := StreamBuffer_flush (sb, st_fs st) in
      (r, Streams fs' (<[buffer := sb']> (st_heap st)) (st_buffers st) (st_sndheap st)
                  (st_senders st) (st_next st) (st_time st))) ;;
  let* accountId := the_accountId self in
  on_db (addRequest (dispatch_doc id accountId)) ;;
  processRequests self ;;
  ret tt.

(** ** Starting *)

Definition start (self : nat) : M world unit :=
  let* bytes := RAND 4 in
  update self (with_accountId (le_combine bytes)) ;;
  appendSession self ;;
  on_session self (start_op OpHandshake).

(** [remoteHost] is the text of the endpoint the socket is connected to; [None] is the
    exception [remote_endpoint] throws when the peer is gone. *)
Definition handleHandshake (self : nat) (error : error_code) (remoteHost : option string)
    : M world unit :=
  if decide (error = no_error) then
    on_session self (
      setStatus STATUS_CONNECTED ;;
      let* host := (match remoteHost with Some h => ret h | None => fail UncaughtException end) in
      modify (with_remoteHost host) ;;
      resetTimer ;;
      recvPacket) ;;
    ret tt
  else close self false true.

(** The buffer of a resource is opened as [Relay.open_receiver] says. *)
Lemma createStreamReceiver_resource self pkt w :
  pkt_streamType pkt = Stream_Resource -> bufferReceiver_create pkt = true ->
  createStreamReceiver self pkt w =
    (let* p := on_streams (open_receiver pkt) in ret (Some <$> p)) w.
Proof.
  intros Ht Hr. unfold createStreamReceiver, open_receiver. rewrite decide_True by done.
  unfold on_streams, zoom, bindM. destruct w as [ss rg sv db st tk fc g]. cbn.
  destruct (on_fs _ st) as [[[sb|]|f] st1]; try done. cbn. rewrite Hr.
  unfold alloc_buffer. cbn. destruct (addStreamBuffer _ _) as [[b|f] st2]; done.
Qed.
End requests.
