(* ===== verification/Fcm.v ===== *)
(** * Push notifications (src/fcmsender.cpp)

    [FcmSender::sendMessage] builds a JSON text and hands it to libcurl through
    [readCallback], which libcurl calls until it answers 0. *)

From S2P Require Import Prelude.

Local Open Scope Z_scope.

Definition str_bytes (s : string) : list Byte.byte := String.list_byte_of_string s.

(** The doubled quotation mark of the text, as a character. *)
Definition quote : string := String (Ascii.ascii_of_nat 34) EmptyString.

(** The content [sendMessage] posts. *)
Definition fcm_data (token : string) (type numElements : Z) : string :=
  ("{" +:+ quote +:+ "to" +:+ quote +:+ ":" +:+ quote +:+ token +:+ quote +:+
   "," +:+ quote +:+ "priority" +:+ quote +:+ ":" +:+ quote +:+ "normal" +:+ quote +:+
   "," +:+ quote +:+ "data" +:+ quote +:+ ":{" +:+ quote +:+ "type" +:+ quote +:+ ":" +:+
   quote +:+ pretty (Z.to_N type) +:+ quote +:+ "," +:+ quote +:+ "numElements" +:+ quote +:+
   ":" +:+ quote +:+ pretty (Z.to_N numElements) +:+ quote +:+ "}}")%string.

(** [struct WriteThis]: what is left to send, and [sizeLeft]. *)
Record WriteThis := Write { readptr : list Byte.byte; sizeLeft : Z }.

(** [readCallback]: the bytes written to [ptr] (their number is the result). A read past the
    end of the text, [None], is not defined. *)
Definition readCallback (size nmemb : Z) (pooh : WriteThis) : option (list Byte.byte * WriteThis) :=
  if u64 (size * nmemb) <? 1 then Some ([], pooh)
  else if negb (sizeLeft pooh =? 0) then
    match readptr pooh with
    | b :: rest => Some ([b], Write rest (sizeLeft pooh - 1))
    | [] => None
    end
  else Some ([], pooh).

Definition writeCallback (size nmemb : Z) : Z := u64 (size * nmemb).

(** [sendMessage] prepares the state of the callback. *)
Definition fcm_upload (token : string) (type numElements : Z) : WriteThis :=
  let dataStr := str_bytes (fcm_data token type numElements) in
  Write dataStr (Z.of_nat (length dataStr)).

Definition fcmUrl : string := "https://fcm.googleapis.com/fcm/send".

(** The calls the sender makes of libcurl. *)
Inductive curl_call :=
| Global_init
| Global_cleanup
| Easy_init
| Slist_append (line : string)
| Setopt_url (url : string)
| Setopt_post (on : Z)
| Setopt_httpheader
| Setopt_readdata (data : WriteThis)
| Setopt_readfunction
| Setopt_writefunction
| Easy_perform
| Slist_free_all
| Easy_cleanup.

Definition CURLE_OK : Z := 0.

(** [startup] and [cleanup]; the former has no value, though it is declared to return a bool. *)
Definition fcm_startup : list curl_call := [Global_init].
Definition fcm_cleanup : list curl_call := [Global_cleanup].

(** The lines of the header, in the order they are appended. *)
Definition fcm_header (serverKey : string) : list string :=
  ["Transfer-Encoding: chunked"; "Content-Type: application/json";
   "Authorization: key=" +:+ serverKey]%string.

(** [sendMessage]: [init_ok] says whether [curl_easy_init] gives a handle, [code] is the result
    of [curl_easy_perform]; [serverKey] is the key of the server. *)
Definition fcm_transfer (serverKey token : string) (type numElements : Z) (init_ok : bool) (code : Z)
    : bool * list curl_call :=
  if negb init_ok then (false, [Easy_init])
  else
    let calls :=
      [Easy_init] ++ map Slist_append (fcm_header serverKey) ++
      [Setopt_url fcmUrl; Setopt_post 1; Setopt_httpheader;
       Setopt_readdata (fcm_upload token type numElements);
       Setopt_readfunction; Setopt_writefunction;
       Easy_perform; Slist_free_all; Easy_cleanup] in
    if negb (code =? CURLE_OK) then (false, calls) else (true, calls).

(** Whatever libcurl answers, a handle that was made is given back after the transfer, with the
    list of the headers; the message counts as sent exactly when the transfer went through. *)
Lemma fcm_transfer_cleans_up serverKey token type n init_ok code :
  let '(sent, calls) := fcm_transfer serverKey token type n init_ok code in
  (sent = true <-> init_ok = true /\ code = CURLE_OK) /\
  (init_ok = true <-> Easy_perform ∈ calls) /\
  (Easy_perform ∈ calls -> exists before, calls = before ++ [Easy_perform; Slist_free_all; Easy_cleanup]).
Proof.
  unfold fcm_transfer. destruct init_ok; cbn [negb].
  - destruct (Z.eqb_spec code CURLE_OK); cbn [negb].
    all: split; [naive_solver|]; split; [|by intros _; eexists [_; _; _; _; _; _; _; _; _; _]].
    all: split; [|done]; intros _; do 10 right; left.
  - split; [split; [done|by intros [? _]]|]. rewrite elem_of_cons, elem_of_nil.
    split; [split; [done|intros [?|[]]; done]|intros [?|[]]; done].
Qed.

(** libcurl calls the callback, with buffers of any size, until it answers 0. [bufs]
    gives the size of the buffer of each call; the flag says whether it was answered 0. *)
Fixpoint pull (bufs : list (Z * Z)) (pooh : WriteThis) : option (list Byte.byte * bool) :=
  match bufs with
  | [] => Some ([], false)
  | (size, nmemb) :: bufs' =>
      match readCallback size nmemb pooh with
      | None => None
      | Some ([], _) => Some ([], true)
      | Some (bs, pooh') =>
          match pull bufs' pooh' with
          | Some (bs', ended) => Some (bs ++ bs', ended)
          | None => None
          end
      end
  end.

Lemma pull_all bs bufs :
  Forall (fun b => 1 <= u64 (b.1 * b.2)) bufs -> (length bs < length bufs)%nat ->
  pull bufs (Write bs (Z.of_nat (length bs))) = Some (bs, true).
Proof.
  revert bs. induction bufs as [|[size nmemb] bufs IH]; intros bs Hb Hl; [simpl in Hl; lia|].
  apply Forall_cons in Hb as [Hs Hb]. simpl in Hs. cbn [pull]. unfold readCallback.
  assert (u64 (size * nmemb) <? 1 = false) as -> by lia. cbn [sizeLeft readptr].
  destruct bs as [|b bs]; [done|]. cbn [length negb].
  replace (Z.of_nat (S (length bs)) =? 0) with false by (symmetry; apply Z.eqb_neq; lia). cbn [negb].
  replace (Z.of_nat (S (length bs)) - 1) with (Z.of_nat (length bs)) by lia.
  rewrite IH; [done|done|]. simpl in Hl. lia.
Qed.

(** C40: The upload ends and is exact: with buffers that hold at least a byte (their size as a [size_t], which wraps around), libcurl gets
    the bytes of the message, all of them and nothing else, one per call, and then the 0 that
    ends the upload; one call more than the message has bytes is enough, and the callback
    never reads outside the message. *)
Theorem fcm_upload_exact token type numElements bufs :
  Forall (fun b => 1 <= u64 (b.1 * b.2)) bufs ->
  (length (str_bytes (fcm_data token type numElements)) < length bufs)%nat ->
  pull bufs (fcm_upload token type numElements) =
    Some (str_bytes (fcm_data token type numElements), true).
Proof. intros Hb Hl. by apply pull_all. Qed.

Lemma fcm_upload_exact_witness :
  pull (repeat (1, 1) 200) (fcm_upload "tok" 1000 2) =
    Some (str_bytes (fcm_data "tok" 1000 2), true).
Proof.
  refine (fcm_upload_exact "tok" 1000 2 _ _ _).
  - apply Forall_forall. intros b Hb%list_elem_of_In%repeat_spec. by subst.
  - vm_compute. lia.
Defined.
