(* ===== verification/Server.v ===== *)
(** * The server (src/server.cpp)

    The operations of [Server] that are not the session map ([Registry]) or the stream maps
    ([Streams]): the life of the acceptor, the sweep of a user's requests, the timer. The
    outcome of a call on the acceptor is an argument. *)

From S2P Require Import Prelude Values Platform Codec Pool Db StreamBuffer Streams World.
From S2P Require Import Registry Transport Session Contacts Requests Fcm.

Local Open Scope zway_scope.
Local Open Scope Z_scope.

Section server.
Context `{Platform}.

Definition sv_with_paused (x : bool) (sv : server) : server :=
  Server x (sv_numSessions sv) (sv_listening sv) (sv_accepting sv) (sv_timer sv).
Definition sv_with_numSessions (x : Z) (sv : server) : server :=
  Server (sv_paused sv) x (sv_listening sv) (sv_accepting sv) (sv_timer sv).
Definition sv_with_listening (x : bool) (sv : server) : server :=
  Server (sv_paused sv) (sv_numSessions sv) x (sv_accepting sv) (sv_timer sv).
Definition sv_with_accepting (x : list nat) (sv : server) : server :=
  Server (sv_paused sv) (sv_numSessions sv) (sv_listening sv) x (sv_timer sv).
Definition sv_with_timer (x : bool) (sv : server) : server :=
  Server (sv_paused sv) (sv_numSessions sv) (sv_listening sv) (sv_accepting sv) x.

Definition on_server (f : server -> server) : M world unit :=
  modify (fun w => with_server (f (w_server w)) w).

(** ** Accepting *)

(** [ClientSession::create] *)
Definition create_session : M world nat := fun w =>
  let p := fresh (dom (w_sessions w)) in
  (Ret p, with_sessions (<[p := new_session]> (w_sessions w)) w).

Definition accept : M world unit :=
  let* session := create_session in
  on_server (fun sv => sv_with_accepting (sv_accepting sv ++ [session]) sv).

Definition handleSession (error : error_code) (session : nat) : M world unit :=
  if decide (error = no_error) then
    Requests.start session ;;
    on_server (fun sv => sv_with_numSessions (u32 (sv_numSessions sv + 1)) sv) ;;
    accept
  else ret tt.

(** [m_acceptor.close()] throws when [close_ok] is false. *)
Definition pause (close_ok : bool) : M world bool :=
  let* sv := gets w_server in
  if sv_paused sv then ret false
  else if close_ok then
    on_server (sv_with_listening false) ;;
    on_server (sv_with_paused true) ;;
    ret true
  else ret false.

(** [open] throws on an acceptor that is open; [bind] and [listen] throw when their
    argument is false. *)
Definition resume (open_ok bind_ok listen_ok : bool) : M world bool :=
  let* sv := gets w_server in
  if negb (sv_paused sv) then ret false
  else if sv_listening sv || negb open_ok then ret false
  else
    on_server (sv_with_listening true) ;;
    if negb bind_ok then ret false
    else if negb listen_ok then ret false
    else
      accept ;;
      on_server (sv_with_paused false) ;;
      ret true.

(** [Server::start]: the connections of the database, the acceptor ([false] when one of the
    calls in the [try] throws), the timer, and the first [accept]. *)
Definition server_start (client_ok : bool) (created : nat -> bool) (acceptor_ok : bool) : M world bool :=
  let '(ok, connections) := DB_startup client_ok created 25 in
  on_db (modify (fun s => DbState connections (db_mongo s))) ;;
  if negb ok then ret false
  else if negb acceptor_ok then ret false
  else
    on_server (sv_with_listening true) ;;
    on_server (sv_with_timer true) ;;
    accept ;;
    ret true.

(** ** Closing *)

Definition removeSessions : M world unit :=
  let* m_sessions := gets w_registry in
  when (bool_decide (m_sessions <> ∅)) (
    for_each (in_key_order m_sessions) (fun it =>
      for_each it.2 (fun s => close s false false)) ;;
    modify (with_registry ∅)).

(** [DB::cleanup] *)
Definition DB_cleanup : M world unit :=
  on_db (modify (fun s => DbState [] (db_mongo s))).

Definition server_close : M world unit :=
  on_server (sv_with_timer false) ;;
  on_server (sv_with_listening false) ;;
  removeSessions ;;
  DB_cleanup.

(** ** Requests of a user *)

Definition sendMessage (token : string) (type numElements : Z) : M world unit :=
  modify (fun w => with_fcm (w_fcm w ++ [(token, type, numElements)]) w).

Definition processUserRequests (userId : Z) : M world unit :=
  let* sessions := getSessions userId in
  match sessions with
  | [] =>
      let* fcmToken := on_db (getFcmToken userId) in
      if str_empty fcmToken then ret tt
      else
        let* n := on_db (numContactRequests userId) in
        when (n >? 0) (sendMessage fcmToken 1000 n) ;;
        let* n := on_db (numPushRequests userId) in
        when (n >? 0) (sendMessage fcmToken 2000 n)
  | _ => for_each sessions (fun s => processRequests s ;; ret tt)
  end.

(** ** The timer *)

(** The status of a sender is the engine's; one whose transfer is over is dropped from the
    list, the others' sessions are asked to send. *)
Definition completed (p : nat) : M world bool :=
  let* snd := on_streams (deref_sender p) in
  let* s := session_at (snd_session snd) in
  ret (sender_completed (s_engine s) (snd_id snd)).

Fixpoint sweep_senders (senders : list nat) : M world (list nat) :=
  match senders with
  | [] => ret []
  | p :: senders' =>
      let* done := completed p in
      if done then
        let* remove := sweep_senders senders' in ret (p :: remove)
      else
        let* snd := on_streams (deref_sender p) in
        on_session (snd_session snd) sendPacket ;;
        sweep_senders senders'
  end.

Definition onTimer (error : error_code) : M world unit :=
  if decide (error = no_error) then
    let* st := gets w_streams in
    let* remove := sweep_senders (st_senders st) in
    for_each remove (fun p =>
      on_streams (modify (fun st => with_senders (filter (fun q => q <> p) (st_senders st)) st))) ;;
    on_streams evictStreamBuffers ;;
    on_server (sv_with_timer true)
  else ret tt.

(** ** Information *)

Definition tab : string := String (ascii_of_nat 9) EmptyString.
Definition newline : string := String (ascii_of_nat 10) EmptyString.

Definition session_line (p : nat) : M world string :=
  let* s := session_at p in
  let* account := on_db (getAccount [("id"%string, bson_u32 (s_accountId s))]
                                    [("name"%string, BInt 1)]) in
  ret (match account with
       | Some account =>
           s_remoteHost s +:+ tab +:+ bson_str (bson_get account "name") +:+ newline
       | None => s_remoteHost s +:+ tab +:+ "?" +:+ newline
       end)%string.

(** [info] logs a text with the lines of the sessions, and the sizes of the maps. *)
Definition info : M world (list string * nat * nat) :=
  let* m_sessions := gets w_registry in
  let* lines := collect (concat (in_key_order m_sessions).*2) session_line in
  let* buffers := on_streams numStreamBuffers in
  ret (lines, buffers, size m_sessions).

(** The text of an up-time of so many seconds. *)
Definition uptimeStr (upTime : Z) : string :=
  let hours := upTime / 3600 in
  let minutes := upTime / 60 mod 60 in
  let seconds := upTime mod 60 in
  let part n unit := (if n >? 0 then pretty (Z.to_N n) +:+ unit else "")%string in
  (part (hours / 24) " day(s) " +:+ part (hours mod 24) " hour(s) " +:+
   part minutes " minute(s) " +:+ part seconds " second(s) ")%string.
End server.
