(* ===== verification/Console.v ===== *)
(** * The console of the server (src/main.cpp)

    The number of worker threads, and the loop that reads commands from the terminal until
    'e'. [getchar] gives a character or, at the end of the input, EOF for ever. *)

From S2P Require Import Prelude Values Platform Db World Server.

Local Open Scope zway_scope.
Local Open Scope Z_scope.

Definition NUM_WORKERS : Z := 20.
Definition MAX_WORKERS : Z := 50.

(** [for (uint32_t i=0; i<numWorkers && i<MAX_WORKERS; i++)], with an [int32_t] bound that
    the comparison converts; [fuel] bounds the iterations. *)
Fixpoint create_workers (numWorkers : Z) (i : Z) (fuel : nat) : Z :=
  match fuel with
  | O => i
  | S fuel' =>
      if (i <? u32 numWorkers) && (i <? MAX_WORKERS)
      then create_workers numWorkers (u32 (i + 1)) fuel' else i
  end.

Section console.
Context `{Platform}.

(** The outcomes of the acceptor's calls for a command. *)
Record acceptor_calls := Calls { c_close : bool; c_open : bool; c_bind : bool; c_listen : bool }.

(** One turn of the loop; [char c = getchar()] has truncated EOF to -1. True: leave. *)
Definition command (calls : acceptor_calls) (c : Z) : M world bool :=
  if c =? 101 then ret true
  else if c =? 105 then info ;; ret false
  else if c =? 114 then removeSessions ;; ret false
  else if c =? 112 then
    let* sv := gets w_server in
    (if sv_paused sv
     then resume (c_open calls) (c_bind calls) (c_listen calls)
     else pause (c_close calls)) ;;
    ret false
  else ret false.

Definition EOF : Z := -1.

(** The loop over the input; [fuel] turns. True: the loop was left. *)
Fixpoint console (calls : nat -> acceptor_calls) (input : list Z) (fuel : nat) : M world bool :=
  match fuel with
  | O => ret false
  | S fuel' =>
      let* stop := command (calls fuel') (default EOF (head input)) in
      if stop then server_close ;; ret true
      else console calls (tail input) fuel'
  end.
End console.

Lemma create_workers_spec numWorkers fuel i :
  0 <= i <= Z.min (u32 numWorkers) MAX_WORKERS ->
  Z.min (u32 numWorkers) MAX_WORKERS - i < Z.of_nat fuel ->
  create_workers numWorkers i fuel = Z.min (u32 numWorkers) MAX_WORKERS.
Proof.
  unfold MAX_WORKERS. revert i. induction fuel as [|fuel IH]; intros i Hi Hf; [lia|].
  cbn [create_workers]. unfold MAX_WORKERS.
  destruct (i <? u32 numWorkers) eqn:E1, (i <? 50) eqn:E2; simpl; try lia.
  rewrite u32_id by (unfold is_u32; lia). apply IH; lia.
Qed.

(** The loop that creates the worker threads ends, and creates the requested number but
    at most 50. A negative number of workers is converted to a large one, so that it gives 50
    threads. *)
Lemma workers_created numWorkers fuel :
  is_i32 numWorkers -> (51 <= fuel)%nat ->
  create_workers numWorkers 0 fuel =
    (if numWorkers <? 0 then 50 else Z.min numWorkers 50).
Proof.
  intros Hn Hf. pose proof (u32_range numWorkers) as Hr. unfold is_u32, is_i32 in *.
  rewrite create_workers_spec; unfold MAX_WORKERS; [|lia|lia].
  destruct (numWorkers <? 0) eqn:E.
  - unfold u32. replace numWorkers with (numWorkers + 2 ^ 32 + (-1) * 2 ^ 32) by lia.
    rewrite Z.mod_add, Z.mod_small by lia. lia.
  - rewrite u32_id by (unfold is_u32; lia). done.
Qed.

Lemma workers_created_witness :
  create_workers (-1) 0 51 = (if -1 <? 0 then 50 else Z.min (-1) 50).
Proof. apply (workers_created (-1) 51); [unfold is_i32; lia|lia]. Defined.
