(* ===== verification/Frames.v ===== *)
(** * What the handlers leave alone

    Two frames over the [world]. [quiet]: the sessions, their account ids, the session map
    and the accepting sessions stay, and no session becomes logged in; every handler but
    [processLogin], [start], [close] and [accept] is quiet. [background]: quiet, the status
    of every session stays, and the engines are called, but not to answer a request. *)

From S2P Require Import Prelude Values Platform Codec Db StreamBuffer Streams World Registry.
From S2P Require Import Transport Session Contacts Requests Server.

Local Open Scope zway_scope.
Local Open Scope Z_scope.

Definition is_reply (c : engine_call) : bool :=
  match c with CallSuccess _ _ | CallFailure _ _ _ => true | _ => false end.

Definition replies (l : list engine_call) : list engine_call :=
  filter (fun c => is_reply c = true) l.

(** ** On one session *)

Record sess_quiet (s s' : session) : Prop := {
  q_account : s_accountId s' = s_accountId s;
  q_status : s_status s' = STATUS_LOGGEDIN -> s_status s = STATUS_LOGGEDIN
}.

Record sess_bg (s s' : session) : Prop := {
  bg_account : s_accountId s' = s_accountId s;
  bg_status : s_status s' = s_status s;
  bg_log : exists l, s_engine s' = s_engine s ++ l /\ replies l = []
}.

#[export] Instance sess_quiet_preorder : PreOrder sess_quiet.
Proof.
  split; [by split|]. intros s1 s2 s3 [A12 S12] [A23 S23]. split; [congruence|auto].
Qed.

#[export] Instance sess_bg_preorder : PreOrder sess_bg.
Proof.
  split.
  - intros s. split; [done|done|]. exists []. by rewrite app_nil_r.
  - intros s1 s2 s3 [A12 S12 (l12 & E12 & R12)] [A23 S23 (l23 & E23 & R23)].
    split; [congruence..|]. exists (l12 ++ l23). rewrite E23, E12, app_assoc. split; [done|].
    unfold replies in *. by rewrite filter_app, R12, R23.
Qed.

Lemma sess_bg_quiet s s' : sess_bg s s' -> sess_quiet s s'.
Proof. intros [A S _]. split; [done|congruence]. Qed.

(** Updates of the other members. *)
Lemma sess_bg_same s s' :
  s_accountId s' = s_accountId s -> s_status s' = s_status s -> s_engine s' = s_engine s ->
  sess_bg s s'.
Proof. intros A S E. split; [done..|]. exists []. by rewrite app_nil_r. Qed.

Lemma preserves_engine_call c : is_reply c = false -> preserves sess_bg (engine_call_ c).
Proof.
  intros Hc s. split; [done..|]. exists [c]. split; [done|]. unfold replies.
  by rewrite filter_cons_False, filter_nil by congruence.
Qed.

Lemma preserves_engine_call_quiet c : preserves sess_quiet (engine_call_ c).
Proof. intros s. by split. Qed.

Lemma frame_modify_same f :
  (forall s, s_accountId (f s) = s_accountId s /\ s_status (f s) = s_status s /\
    s_engine (f s) = s_engine s) -> preserves sess_bg (modify f).
Proof. intros Hf s. destruct (Hf s) as (? & ? & ?). by apply sess_bg_same. Qed.

(** ** On the world *)

Definition sessions_rel (R : session -> session -> Prop) (m m' : gmap nat session) : Prop :=
  forall p, option_Forall2 R (m !! p) (m' !! p).

#[export] Instance sessions_rel_preorder R : PreOrder R -> PreOrder (sessions_rel R).
Proof.
  intros HR. split.
  - intros m p. destruct (m !! p); by constructor.
  - intros m1 m2 m3 H12 H23 p. specialize (H12 p). specialize (H23 p).
    destruct H12; inversion H23; subst; constructor. by etrans.
Qed.

Lemma sessions_rel_insert (R : session -> session -> Prop) `{!PreOrder R} m p s s' :
  m !! p = Some s -> R s s' -> sessions_rel R m (<[p := s']> m).
Proof.
  intros Hp Hs q. rewrite lookup_insert. case_decide; [subst; rewrite Hp; by constructor|].
  destruct (m !! q); by constructor.
Qed.

Section frames.
Context `{Platform}.

(** The part of the world that only [processLogin], [start], [close] and [accept] change. *)
Record world_rel (R : session -> session -> Prop) (w w' : world) : Prop := {
  r_sessions : sessions_rel R (w_sessions w) (w_sessions w');
  r_registry : w_registry w' = w_registry w;
  r_accepting : sv_accepting (w_server w') = sv_accepting (w_server w);
  r_pool : db_pool (w_db w') ≡ₚ db_pool (w_db w)
}.

Abbreviation quiet := (world_rel sess_quiet).
Abbreviation background := (world_rel sess_bg).

#[export] Instance world_rel_preorder R : PreOrder R -> PreOrder (world_rel R).
Proof.
  intros HR. split; [by split|].
  intros w1 w2 w3 [A1 A2 A3 A4] [B1 B2 B3 B4]. split; [by etrans|congruence..|by etrans].
Qed.

Lemma background_quiet w w' : background w w' -> quiet w w'.
Proof.
  intros [A1 A2 A3 A4]. split; [|done..]. intros p. destruct (A1 p); constructor.
  by apply sess_bg_quiet.
Qed.

Lemma preserves_background_quiet {A} (m : M world A) : preserves background m -> preserves quiet m.
Proof. intros Hm w. apply background_quiet, Hm. Qed.

Section primitives.
Context (R : session -> session -> Prop) `{!PreOrder R}.

Lemma preserves_session_at p : preserves (world_rel R) (session_at p).
Proof. intros w. unfold session_at. by destruct (w_sessions w !! p). Qed.

Lemma preserves_on_session {A} p (m : M session A) :
  preserves R m -> preserves (world_rel R) (on_session p m).
Proof.
  intros Hm w. unfold on_session. destruct (w_sessions w !! p) as [s|] eqn:Hp; [|done].
  specialize (Hm s). destruct (m s) as [r s']. split; [|done..].
  by eapply sessions_rel_insert.
Qed.

Lemma preserves_update p f :
  (forall s, R s (f s)) -> preserves (world_rel R) (update p f).
Proof. intros Hf. by apply preserves_on_session. Qed.

Lemma preserves_on_db {A} (m : M db_state A) :
  preserves pool_kept m -> preserves (world_rel R) (on_db m).
Proof.
  intros Hm w. unfold on_db, zoom. specialize (Hm (w_db w)).
  destruct (m (w_db w)) as [r d]. by split.
Qed.

Lemma preserves_on_streams {A} (m : M streams A) : preserves (world_rel R) (on_streams m).
Proof.
  intros w. unfold on_streams, zoom. destruct (m (w_streams w)) as [r d]. by split.
Qed.

Lemma preserves_RAND n : preserves (world_rel R) (RAND n).
Proof. intros w. unfold RAND. destruct (RAND_pseudo_bytes n (w_rng w)). by split. Qed.

Lemma preserves_post u : preserves (world_rel R) (post_processUserRequests u).
Proof. intros w. by split. Qed.

Lemma preserves_sendMessage t k n : preserves (world_rel R) (sendMessage t k n).
Proof. intros w. by split. Qed.

Lemma preserves_BSON d : preserves (world_rel R) (BSON d).
Proof. unfold BSON. destruct (builder_accepts d); by intros w. Qed.

Lemma preserves_or_throw {A} (o : option A) : preserves (world_rel R) (or_throw o).
Proof. destruct o; by intros w. Qed.

Lemma preserves_getSessions a : preserves (world_rel R) (getSessions a).
Proof. by intros w. Qed.
End primitives.

(** Every database operation keeps the connections of the pool. *)
Lemma preserves_ret_pool {A} (a : A) : preserves pool_kept (ret a).
Proof. by intros s. Qed.
End frames.

#[export] Hint Resolve preserves_session_at preserves_on_session preserves_update
  preserves_on_db preserves_on_streams preserves_RAND preserves_post preserves_sendMessage
  preserves_BSON preserves_or_throw preserves_getSessions with_lock_pool
  preserves_engine_call_quiet : zway_frame.

Abbreviation quiet := (world_rel sess_quiet).
Abbreviation background := (world_rel sess_bg).

(** Walks through a handler: every way it can go is a sequence of primitives. *)
Ltac frame_step :=
  first
    [ progress intros
    | solve [eauto 4 with zway_frame typeclass_instances]
    | apply preserves_ret; apply _
    | apply preserves_fail; apply _
    | apply preserves_gets; apply _
    | apply frame_modify_same; by intros
    | apply preserves_engine_call; reflexivity
    | apply preserves_bind; [apply _| |]
    | apply preserves_for_each; [apply _|]
    | apply preserves_collect; [apply _|]
    | apply preserves_when; [apply _|]
    | apply preserves_on_session; [apply _|]
    | apply preserves_update; [apply _|]
    | match goal with
      | |- preserves _ (match ?x with _ => _ end) => destruct x
      | |- preserves _ (if ?x then _ else _) => destruct x
      | |- preserves _ (let '(_, _) := ?x in _) => destruct x
      | |- preserves _ (let _ := _ in _) => cbv zeta
      end ].
Ltac frame := repeat frame_step; try by apply sess_bg_same.

(** ** The handlers *)

Section handler_frames.
Context `{Platform}.

Ltac unfold_db :=
  unfold getAccount, setFcmToken, getFcmToken, numContactRequests,
    numPushRequests, count_requests, insertAccount, addRequest, deleteRequest,
    db_requestPending, getRequest, getRequests, getContacts, getInbox.

Section db_frames.
Context (R : session -> session -> Prop) `{!PreOrder R}.
Lemma frame_getAccount q f : preserves (world_rel R) (on_db (getAccount q f)).
Proof. unfold_db. frame. Qed.
Lemma frame_newAccountId : preserves (world_rel R) (on_db newAccountId).
Proof. apply preserves_on_db; [apply _|apply newAccountId_pool]. Qed.
Lemma frame_setFcmToken a t : preserves (world_rel R) (on_db (setFcmToken a t)).
Proof. unfold_db. frame. Qed.
Lemma frame_getFcmToken a : preserves (world_rel R) (on_db (getFcmToken a)).
Proof. unfold_db. frame. Qed.
Lemma frame_numContactRequests a : preserves (world_rel R) (on_db (numContactRequests a)).
Proof. unfold_db. frame. Qed.
Lemma frame_numPushRequests a : preserves (world_rel R) (on_db (numPushRequests a)).
Proof. unfold_db. frame. Qed.
Lemma frame_insertAccount i n p a b c d :
  preserves (world_rel R) (on_db (insertAccount i n p a b c d)).
Proof. unfold_db. frame. Qed.
Lemma frame_addRequest d : preserves (world_rel R) (on_db (addRequest d)).
Proof. unfold_db. frame. Qed.
Lemma frame_deleteRequest q : preserves (world_rel R) (on_db (deleteRequest q)).
Proof. unfold_db. frame. Qed.
Lemma frame_requestPending q : preserves (world_rel R) (on_db (db_requestPending q)).
Proof. unfold_db. frame. Qed.
Lemma frame_getRequest q : preserves (world_rel R) (on_db (getRequest q)).
Proof. unfold_db. frame. Qed.
Lemma frame_getRequests q : preserves (world_rel R) (on_db (getRequests q)).
Proof. unfold_db. frame. Qed.
Lemma frame_getContacts q f : preserves (world_rel R) (on_db (getContacts q f)).
Proof. unfold_db. frame. Qed.
Lemma frame_getInbox a : preserves (world_rel R) (on_db (getInbox a)).
Proof. unfold_db. frame. Qed.
Lemma frame_the_status p : preserves (world_rel R) (the_status p).
Proof. unfold the_status. frame. Qed.
Lemma frame_the_accountId p : preserves (world_rel R) (the_accountId p).
Proof. unfold the_accountId. frame. Qed.
Lemma frame_any_notifies l : preserves (world_rel R) (any_notifies l).
Proof. induction l; simpl; frame. Qed.
Lemma frame_getContactStatus c : preserves (world_rel R) (getContactStatus c).
Proof. unfold getContactStatus. frame. apply frame_any_notifies. Qed.
End db_frames.
Hint Resolve frame_getAccount frame_newAccountId frame_setFcmToken frame_getFcmToken
  frame_numContactRequests frame_numPushRequests frame_insertAccount frame_addRequest
  frame_deleteRequest frame_requestPending frame_getRequest frame_getRequests
  frame_getContacts frame_getInbox frame_the_status frame_the_accountId
  frame_getContactStatus : zway_frame.

(** *** Background work *)

Lemma frame_postRequest p r : preserves background (postRequest p r).
Proof. apply preserves_on_session; [apply _|]. by apply preserves_engine_call. Qed.
Lemma frame_addUbjSender p i t o : preserves background (addUbjSender p i t o).
Proof. apply preserves_on_session; [apply _|]. by apply preserves_engine_call. Qed.
Hint Resolve frame_postRequest frame_addUbjSender : zway_frame.

Lemma frame_contact_statuses p : preserves background (contact_statuses p).
Proof. unfold contact_statuses. frame. Qed.
Lemma frame_broadcastStatus p st c : preserves background (broadcastStatus p st c).
Proof. unfold broadcastStatus. frame. Qed.
Hint Resolve frame_contact_statuses frame_broadcastStatus : zway_frame.
Lemma frame_setConfig p c : preserves background (setConfig p c).
Proof. unfold setConfig. frame. Qed.
Lemma frame_deliver_request p d : preserves background (deliver_request p d).
Proof. unfold deliver_request. cbv zeta. frame. Qed.
Hint Resolve frame_setConfig frame_deliver_request : zway_frame.
Lemma frame_processRequests p : preserves background (processRequests p).
Proof. unfold processRequests. frame. Qed.
Lemma frame_own_account p : preserves background (own_account p).
Proof. unfold own_account. frame. Qed.
Lemma frame_add_contact p c : preserves background (add_contact p c).
Proof. unfold add_contact. frame. Qed.
Lemma frame_verifyPassword d b : preserves background (verifyPassword d b).
Proof. unfold verifyPassword. frame. Qed.
Lemma frame_contact_query p h : preserves background (contact_query p h).
Proof. unfold contact_query. cbv zeta. frame. Qed.

Lemma frame_sendPacket : preserves sess_bg sendPacket.
Proof.
  unfold sendPacket, start_op. frame.
Qed.
Lemma frame_addStreamSender i : preserves sess_bg (addStreamSender i).
Proof.
  unfold addStreamSender. frame.
Qed.
Hint Resolve frame_sendPacket frame_addStreamSender : zway_frame.
End handler_frames.

(** ** The database and the acceptor

    [rest_kept]: only the sessions, the session map and the streams may have changed. *)

Section rest.
Context `{Platform}.

Record rest_kept (w w' : world) : Prop := {
  k_db : w_db w' = w_db w;
  k_server : w_server w' = w_server w
}.

#[export] Instance rest_kept_preorder : PreOrder rest_kept.
Proof. split; [by split|]. intros w1 w2 w3 [A1 A2] [B1 B2]. split; congruence. Qed.

Lemma rest_kept_on_session {A} p (m : M session A) : preserves rest_kept (on_session p m).
Proof. intros w. unfold on_session. destruct (w_sessions w !! p) as [s|]; [|done]. by destruct (m s). Qed.

Lemma rest_kept_on_streams {A} (m : M streams A) : preserves rest_kept (on_streams m).
Proof. by apply preserves_zoom. Qed.

Lemma rest_kept_removeSession p : preserves rest_kept (removeSession p).
Proof.
  intros w. unfold removeSession, bindM, session_at. destruct (w_sessions w !! p) as [s|]; [|done]. cbn.
  by destruct (w_registry w !! s_accountId s).
Qed.

Lemma rest_kept_close p a b : preserves rest_kept (close p a b).
Proof.
  unfold close. apply preserves_bind; [apply _|apply rest_kept_on_session|]. intros _.
  apply preserves_when; [apply _|]. apply rest_kept_removeSession.
Qed.

Lemma rest_kept_removeSessions : preserves rest_kept removeSessions.
Proof.
  unfold removeSessions. apply preserves_bind; [apply _|by intros w|]. intros reg.
  apply preserves_when; [apply _|]. apply preserves_bind; [apply _| |by intros _ w].
  apply preserves_for_each; [apply _|]. intros it _.
  apply preserves_for_each; [apply _|]. intros p _. apply rest_kept_close.
Qed.
End rest.
#[export] Hint Resolve rest_kept_on_session rest_kept_on_streams rest_kept_removeSession
  rest_kept_close rest_kept_removeSessions : zway_frame.
