(* ===== verification/Replies.v ===== *)
(** * Answering requests

    A client waits for the answer to each request it sends. [Answers Q p id m]: the
    computation [m] answers the request [id] of session [p], once, with success exactly when
    it returns true, and answers nothing else; only when [Q] holds may it return false
    without an answer. *)

From S2P Require Import Prelude Values Platform Codec Db StreamBuffer Streams World Registry.
From S2P Require Import Transport Session Contacts Requests Server Frames.

Local Open Scope zway_scope.
Local Open Scope Z_scope.

(** ** Silence: calls of the engine that answer no request *)

Definition sess_silent (s s' : session) : Prop :=
  exists l, s_engine s' = s_engine s ++ l /\ replies l = [].

#[export] Instance sess_silent_preorder : PreOrder sess_silent.
Proof.
  split.
  - intros s. exists []. by rewrite app_nil_r.
  - intros s1 s2 s3 (l12 & E12 & R12) (l23 & E23 & R23). exists (l12 ++ l23).
    rewrite E23, E12, app_assoc. split; [done|]. unfold replies in *. by rewrite filter_app, R12, R23.
Qed.

Section replies.
Context `{Platform}.

Definition silent (w w' : world) : Prop :=
  sessions_rel sess_silent (w_sessions w) (w_sessions w').

#[export] Instance silent_preorder : PreOrder silent.
Proof.
  unfold silent. split; [intros w; reflexivity|]. intros w1 w2 w3 H12 H23. by etrans.
Qed.

Lemma background_silent w w' : background w w' -> silent w w'.
Proof.
  intros [Hs _ _ _] p. destruct (Hs p) as [? ? [_ _ Hl]|]; by constructor.
Qed.

Lemma silent_background {A} (m : M world A) : preserves background m -> preserves silent m.
Proof. intros Hm w. apply background_silent, Hm. Qed.

Lemma silent_modify f : (forall w, w_sessions (f w) = w_sessions w) -> preserves silent (modify f).
Proof. intros Hf w. unfold silent. simpl. rewrite Hf. reflexivity. Qed.

Lemma silent_update p f :
  (forall s, s_engine (f s) = s_engine s) -> preserves silent (on_session p (modify f)).
Proof.
  intros Hf w. unfold on_session. destruct (w_sessions w !! p) as [s|] eqn:Hp; [|done].
  unfold silent. simpl. apply sessions_rel_insert with (s := s); [apply _|done|].
  exists []. by rewrite Hf, app_nil_r.
Qed.

(** The kinds of answer. *)
Definition answer (id : Z) (r : bool) (l : list engine_call) : Prop :=
  if r then exists resp, replies l = [CallSuccess id resp]
  else exists code msg, replies l = [CallFailure id code msg].

(** [m] ends with the sessions of [w'], where only [p] has been answered. *)
Definition answered (p : nat) (id : Z) (r : bool) (w w' : world) : Prop :=
  forall q, if decide (q = p)
    then forall s, w_sessions w !! q = Some s ->
           exists s' l, w_sessions w' !! q = Some s' /\ s_engine s' = s_engine s ++ l /\ answer id r l
    else option_Forall2 sess_silent (w_sessions w !! q) (w_sessions w' !! q).

Definition Answers (Q : Prop) (p : nat) (id : Z) (m : M world bool) : Prop :=
  forall w r w', m w = (Ret r, w') -> is_Some (w_sessions w !! p) ->
    answered p id r w w' \/ (Q /\ r = false /\ silent w w').

Lemma silent_answered p id r w1 w2 w3 :
  silent w1 w2 -> answered p id r w2 w3 -> answered p id r w1 w3.
Proof.
  intros H12 H23 q. specialize (H12 q). specialize (H23 q). case_decide as Hd.
  - intros s Hs. rewrite Hs in H12. inversion H12 as [? s2 (l12 & E12 & R12) E1 E2|]; subst.
    destruct (H23 s2 (eq_sym E2)) as (s3 & l & Hs3 & E & Ha).
    exists s3, (l12 ++ l). rewrite E, E12, app_assoc. split_and!; [done..|].
    unfold answer, replies in *. rewrite filter_app, R12. done.
  - inversion H12 as [? ? R12 E1 E2|E1 E2]; subst; rewrite <- E2 in H23;
      inversion H23; subst; constructor. by etrans.
Qed.

Lemma answered_silent p id r w1 w2 w3 :
  answered p id r w1 w2 -> silent w2 w3 -> answered p id r w1 w3.
Proof.
  intros H12 H23 q. specialize (H12 q). specialize (H23 q). case_decide as Hd.
  - intros s Hs. destruct (H12 s Hs) as (s2 & l & Hs2 & E & Ha). rewrite Hs2 in H23.
    inversion H23 as [? s3 (l23 & E23 & R23) E1 E2|]; subst.
    exists s3, (l ++ l23). rewrite E23, E, app_assoc. split_and!; [done..|].
    unfold answer, replies in *. by rewrite filter_app, R23, app_nil_r.
  - inversion H12 as [? ? R12 E1 E2|E1 E2]; subst; rewrite <- E2 in H23;
      inversion H23; subst; constructor. by etrans.
Qed.

Lemma answered_call p id r c w w' s :
  w_sessions w !! p = Some s -> answer id r [c] ->
  on_session p (engine_call_ c) w = (Ret tt, w') -> answered p id r w w'.
Proof.
  intros Hs Ha Hrun. rewrite (run_on_session p s) in Hrun by done. injection Hrun as <-.
  intros q. case_decide as Hd; simpl.
  - subst. intros s' Hs'. rewrite lookup_insert_eq. exists (with_engine (s_engine s ++ [c]) s), [c].
    by simplify_eq.
  - rewrite lookup_insert_ne by done. reflexivity.
Qed.

(** *** How handlers are put together *)

Lemma Answers_bind {A} Q p id (m : M world A) k :
  preserves silent m -> (forall a, Answers Q p id (k a)) -> Answers Q p id (bindM m k).
Proof.
  intros Hm Hk w r w' Hrun Hp. unfold bindM in Hrun. specialize (Hm w).
  destruct (m w) as [[a|f] w1] eqn:E; [|done]. simpl in Hm.
  assert (Hp1 : is_Some (w_sessions w1 !! p)).
  { specialize (Hm p). destruct Hp as [s Hs]. rewrite Hs in Hm. by inversion Hm. }
  destruct (Hk a _ _ _ Hrun Hp1) as [Ha|(HQ & Hr & Hs)]; [left|right].
  - by apply silent_answered with w1.
  - split_and!; [done|done|]. by etrans.
Qed.

Lemma Answers_background {A} Q p id (m : M world A) k :
  preserves background m -> (forall a, Answers Q p id (k a)) -> Answers Q p id (bindM m k).
Proof. intros Hm. by apply Answers_bind, silent_background. Qed.

Lemma Answers_failure Q p id code msg :
  Answers Q p id (postRequestFailure p id code msg ;; ret false).
Proof.
  intros w r w' Hrun [s Hs]. unfold bindM in Hrun.
  destruct (postRequestFailure p id code msg w) as [[[]|f] w1] eqn:E; [|done].
  simpl in Hrun. injection Hrun as <- <-. left. eapply answered_call; [done| |exact E]. by exists code, msg.
Qed.

(** What comes after the answer: quiet work, then [true]. *)
Definition Finishes (m : M world bool) : Prop :=
  preserves silent m /\ forall w r w', m w = (Ret r, w') -> r = true.

Lemma Finishes_ret : Finishes (ret true).
Proof. split; [intros w; reflexivity|]. by intros w r w' [= <- _]. Qed.

Lemma Finishes_bind {A} (m : M world A) k :
  preserves silent m -> (forall a, Finishes (k a)) -> Finishes (bindM m k).
Proof.
  intros Hm Hk. split.
  - apply preserves_bind; [apply _|done|]. intros a. apply Hk.
  - intros w r w' Hrun. unfold bindM in Hrun. destruct (m w) as [[a|f] w1]; [|done].
    by eapply Hk.
Qed.

Lemma Answers_success Q p id resp k :
  Finishes k -> Answers Q p id (postRequestSuccess p id resp ;; k).
Proof.
  intros [Hk Ht] w r w' Hrun [s Hs]. unfold bindM in Hrun.
  destruct (postRequestSuccess p id resp w) as [[[]|f] w1] eqn:E; [|done].
  pose proof (Ht _ _ _ Hrun) as ->. left. apply answered_silent with w1.
  - eapply answered_call; [done| |exact E]. by exists resp.
  - specialize (Hk w1). by rewrite Hrun in Hk.
Qed.

Lemma Answers_fail Q p id f : Answers Q p id (fail f).
Proof. by intros w r w' Hrun. Qed.

Lemma Answers_none (Q : Prop) p id : Q -> Answers Q p id (ret false).
Proof. intros HQ w r w' [= <- <-] _. right. split_and!; done. Qed.

(** [addRequest] never reports a failure. *)
Lemma addRequest_true d w b w' : on_db (addRequest d) w = (Ret b, w') -> b = true.
Proof.
  unfold on_db, zoom, addRequest, with_lock, acquire, bindM.
  destruct (w_db w) as [[|c q] m]; simpl; [done|]. by intros [= <- _].
Qed.

Lemma addRequest_bind {A} (P : M world A -> Prop) d k :
  (forall m m', (forall w, m w = m' w) -> P m -> P m') ->
  P (bindM (on_db (addRequest d)) (fun _ => k true)) -> P (bindM (on_db (addRequest d)) k).
Proof.
  intros HP. apply HP. intros w. unfold bindM.
  destruct (on_db (addRequest d) w) as [[b|f] w'] eqn:E; [|done].
  apply addRequest_true in E as ->. done.
Qed.

Lemma silent_ext {A} (m m' : M world A) :
  (forall w, m w = m' w) -> preserves silent m -> preserves silent m'.
Proof. intros He Hm w. rewrite <- He. apply Hm. Qed.
End replies.

(** Walks through a handler up to the answer, and from there to the end. *)
Ltac answer_step :=
  first
    [ progress intros
    | progress cbv zeta
    | apply Answers_failure
    | apply Answers_fail
    | apply Finishes_ret
    | apply Answers_success
    | apply Answers_none; by eauto 10
    | apply Finishes_bind; [apply silent_background; solve [frame]|]
    | apply Answers_background; [solve [frame]|]
    | match goal with
      | |- Answers _ _ _ (match ?x with _ => _ end) => destruct x eqn:?
      | |- Answers _ _ _ (if ?x then _ else _) => destruct x eqn:?
      | |- Finishes (match ?x with _ => _ end) => destruct x
      end ].
Ltac answers := repeat answer_step.

(** ** The handlers *)

Section handlers.
Context `{Platform}.

#[local] Hint Resolve frame_getAccount frame_newAccountId frame_setFcmToken frame_getFcmToken
  frame_insertAccount frame_addRequest frame_deleteRequest frame_requestPending
  frame_getRequest frame_getRequests frame_getContacts frame_getInbox frame_the_status
  frame_the_accountId frame_getContactStatus frame_contact_statuses frame_broadcastStatus
  frame_setConfig frame_processRequests frame_own_account frame_add_contact
  frame_verifyPassword frame_contact_query : zway_frame.

Lemma dispatch_answers p head :
  Answers (hasField head "dispatchId" = false) p (requestId_of head) (processDispatchRequest p head).
Proof. unfold processDispatchRequest. answers. Qed.

Definition hash_fails : Prop :=
  SHA256_Init = None \/ exists c, SHA256_Final c = None \/ exists bs, SHA256_Update c bs = None.

Lemma createAccount_answers p head :
  Answers hash_fails p (requestId_of head) (processCreateAccount p head).
Proof.
  unfold processCreateAccount. answers; apply Answers_none; unfold hash_fails; try solve [eauto 6].
  destruct (SHA256_Update _ a3) eqn:E; simpl in *; eauto 6.
Qed.

Lemma silent_session p f :
  (forall s, s_engine (f s) = s_engine s) -> preserves silent (update p f).
Proof. apply silent_update. Qed.

Lemma removeSession_silent p : preserves silent (removeSession p).
Proof.
  unfold removeSession. apply preserves_bind; [apply _| |].
  - apply silent_background. frame.
  - intros s. apply preserves_bind; [apply _|by intros w|]. intros reg.
    destruct (reg !! _); [by apply silent_modify|by intros w].
Qed.

Lemma appendSession_silent p : preserves silent (appendSession p).
Proof.
  unfold appendSession. apply preserves_bind; [apply _| |].
  - apply silent_background. frame.
  - intros s. by apply silent_modify.
Qed.

Lemma login_answers p head : Answers False p (requestId_of head) (processLogin p head).
Proof.
  unfold processLogin. answers.
  apply Answers_bind; [by apply silent_update|]. intros _.
  apply Answers_bind; [apply removeSession_silent|]. intros _.
  apply Answers_bind; [by apply silent_session|]. intros _.
  apply Answers_bind; [apply appendSession_silent|]. answers.
Qed.

Lemma logout_answers p head : Answers False p (requestId_of head) (processLogout p head).
Proof.
  unfold processLogout. answers.
  apply Finishes_bind; [by apply silent_update|]. answers.
Qed.

Lemma config_answers p head : Answers False p (requestId_of head) (processConfigRequest p head).
Proof. unfold processConfigRequest. answers. Qed.

Lemma contactStatus_answers p head :
  Answers False p (requestId_of head) (processContactStatusRequest p head).
Proof. unfold processContactStatusRequest. answers. Qed.

Lemma findContact_answers p head :
  Answers False p (requestId_of head) (processFindContactRequest p head).
Proof. unfold processFindContactRequest. answers. Qed.

Lemma addContact_answers p head :
  Answers False p (requestId_of head) (processAddContactRequest p head).
Proof. unfold processAddContactRequest, request_contact, reply_failure. answers. Qed.

Lemma createAddCode_answers p head :
  Answers False p (requestId_of head) (processCreateAddCode p head).
Proof. unfold processCreateAddCode, reply_failure. answers. Qed.

Lemma acceptContact_answers p head :
  Answers False p (requestId_of head) (processAcceptContact p head).
Proof. unfold processAcceptContact, reply_failure. answers. Qed.

Lemma rejectContact_answers p head :
  Answers False p (requestId_of head) (processRejectContact p head).
Proof. unfold processRejectContact, reply_failure. answers. Qed.

Lemma forward_push_silent p id a keys fw : preserves silent (forward_push p id a keys fw).
Proof.
  revert fw. induction keys as [|it keys IH]; intros fw; cbn [forward_push]; [by intros w|].
  cbv zeta. destruct (_ =? _); [apply IH|].
  apply preserves_bind; [apply _|apply silent_background; frame|]. intros data.
  apply preserves_bind; [apply _|apply silent_background; frame|]. intros d.
  apply (addRequest_bind (preserves silent)); [apply silent_ext|].
  apply preserves_bind; [apply _|apply silent_background; frame|]. intros _. simpl.
  apply preserves_bind; [apply _|apply silent_background; frame|]. intros _. apply IH.
Qed.

Lemma push_answers p head : Answers False p (requestId_of head) (processPushRequest p head).
Proof.
  unfold processPushRequest, reply_failure. answers.
  apply Answers_bind; [apply forward_push_silent|]. answers.
Qed.
End handlers.

Section incoming.
Context `{Platform}.

(** The request types [processIncomingRequest] knows. *)
Definition known_type (t : Z) : Prop := t ∈ request_types.

Lemma Answers_weaken (Q Q' : Prop) p id m : (Q -> Q') -> Answers Q p id m -> Answers Q' p id m.
Proof. intros HQ Hm w r w' Hrun Hp. destruct (Hm w r w' Hrun Hp) as [?|(? & ? & ?)]; eauto. Qed.

Definition unanswered (req : uobj) : Prop :=
  let type := int_of req "requestType" in
  ~ known_type type \/ (type = Req_Dispatch /\ hasField req "dispatchId" = false) \/
  (type = Req_CreateAccount /\ hash_fails).

Lemma incoming_answers p req :
  Answers (unanswered req) p (requestId_of req) (processIncomingRequest p req).
Proof.
  unfold processIncomingRequest. cbv zeta. unfold unanswered. cbv zeta.
  set (t := int_of req "requestType").
  destruct (decide (t = Req_Dispatch)) as [E1|N1].
  { eapply Answers_weaken; [|apply dispatch_answers]. auto. }
  destruct (decide (t = Req_CreateAccount)) as [E2|N2].
  { eapply Answers_weaken; [|apply createAccount_answers]. auto. }
  repeat (case_decide; [apply (Answers_weaken False); [intros []|]; auto using login_answers,
    logout_answers, config_answers, addContact_answers, createAddCode_answers,
    findContact_answers, acceptContact_answers, rejectContact_answers,
    contactStatus_answers, push_answers|]).
  apply Answers_none. left. unfold known_type, request_types. set_solver.
Qed.

(** C7: Every request of a client is answered exactly once, to the session that sent it
    and under the request's id: with a success when the handler returns true, with a failure
    when it returns false, and no other session is answered. The only requests left without an
    answer are those of an unknown type, a dispatch without an id, and an account
    creation whose hash function fails. *)
Theorem one_answer_per_request p req w r w' :
  is_Some (w_sessions w !! p) -> processIncomingRequest p req w = (Ret r, w') ->
  answered p (requestId_of req) r w w' \/ (unanswered req /\ r = false /\ silent w w').
Proof. intros Hp Hrun. by apply incoming_answers. Qed.
End incoming.
