(* ===== verification/System.v ===== *)
(** * The running server

    The server as a transition system. An [event] is something the outside does to the
    server: an asynchronous operation completes, the engine of a session calls back, a posted
    task or the timer runs, a console command is entered. Events run one at a time; what
    other threads can do inside one is studied in [Pool] and [Workers]. An event whose handler
    faults ends the process and has no step. *)

From S2P Require Import Prelude Values Platform Codec Pool Db Stdio StreamBuffer Streams World.
From S2P Require Import Registry Transport Session Contacts Requests Fcm Server Console Frames.

Local Open Scope zway_scope.
Local Open Scope Z_scope.

Section system.
Context `{Platform}.

Inductive event :=
| EvAccept (error : error_code) (p : nat)
| EvHandshake (p : nat) (error : error_code) (remoteHost : option string)
| EvHead (p : nat) (error : error_code) (bytes : Z) (pkt : packet)
| EvBody (p : nat) (error : error_code) (offset size : Z) (pkt : packet) (data : list Byte.byte)
| EvSent (p : nat) (error : error_code)
| EvPost (p : nat) (pkt : option packet)
| EvSender (p : nat) (streamId : Z)
| EvRequest (p : nat) (request : uobj)
| EvResponse (p : nat) (r : out_request) (head : uobj)
| EvReceiver (p : nat) (pkt : packet)
| EvReceived (p : nat) (id : Z) (buffer : nat)
| EvTask
| EvTimer (error : error_code)
| EvCommand (calls : acceptor_calls) (c : Z).

(** The engine's side of a complete packet: its calls back into the session are the
    events [EvSender], [EvRequest], [EvResponse], [EvReceiver] and [EvReceived]. *)
Definition log_packet (p : nat) (pkt : packet) : M world bool :=
  on_session p (engine_call_ (CallProcessIncomingPacket pkt)) ;; ret true.

(** The completed operation leaves the list. *)
Fixpoint drop_op (sel : socket_op -> bool) (ops : list socket_op) : list socket_op :=
  match ops with
  | [] => []
  | op :: ops' => if sel op then ops' else op :: drop_op sel ops'
  end.

Definition is_handshake (op : socket_op) : bool :=
  match op with OpHandshake => true | _ => false end.
Definition is_head (op : socket_op) : bool :=
  match op with OpReadHead => true | _ => false end.
Definition is_body (op : socket_op) : bool :=
  match op with OpReadBody _ _ _ => true | _ => false end.

Definition complete (p : nat) (sel : socket_op -> bool) : M world unit :=
  update p (fun s => with_ops (drop_op sel (s_ops s)) s).

Definition outstanding (p : nat) (op : socket_op) (w : world) : Prop :=
  exists s, w_sessions w !! p = Some s /\ op ∈ s_ops s.

Definition enabled (e : event) (w : world) : Prop :=
  match e with
  | EvAccept _ p => p ∈ sv_accepting (w_server w)
  | EvHandshake p _ _ => outstanding p OpHandshake w
  | EvHead p _ _ _ => outstanding p OpReadHead w
  | EvBody p _ offset size pkt data =>
      outstanding p (OpReadBody offset size pkt) w /\ Z.of_nat (length data) <= size
  | EvSent p _ => exists pkt, outstanding p (OpWrite pkt) w
  | EvRequest p _ => p ∉ sv_accepting (w_server w)
  | EvTask => w_tasks w <> []
  | _ => True
  end.

Definition run (e : event) : M world unit :=
  match e with
  | EvAccept error p =>
      on_server (fun sv => sv_with_accepting (filter (fun q => q <> p) (sv_accepting sv)) sv) ;;
      handleSession error p
  | EvHandshake p error host => complete p is_handshake ;; handleHandshake p error host
  | EvHead p error n pkt => complete p is_head ;; onPacketHeadRecv log_packet p error n pkt
  | EvBody p error offset size pkt data =>
      complete p is_body ;;
      onPacketBodyRecv log_packet p error (Z.of_nat (length data)) offset (deliver offset data pkt)
  | EvSent p error =>
      update p (fun s => with_ops (drop_write (s_ops s)) s) ;;
      on_session p (onPacketSent error)
  | EvPost p pkt => on_session p (postPacket pkt) ;; ret tt
  | EvSender p streamId => on_session p (addStreamSender streamId) ;; ret tt
  | EvRequest p request => processIncomingRequest p request ;; ret tt
  | EvResponse p r head => receive_response p r head
  | EvReceiver p pkt => createStreamReceiver p pkt ;; ret tt
  | EvReceived p id buffer => stream_received p id buffer
  | EvTask =>
      let* tasks := gets w_tasks in
      modify (with_tasks (tail tasks)) ;;
      processUserRequests (default 0 (head tasks))
  | EvTimer error => onTimer error
  | EvCommand calls c => command calls c ;; ret tt
  end.

Definition step (w : world) (e : event) (w' : world) : Prop :=
  enabled e w /\ run e w = (Ret tt, w').

Inductive trace (w0 : world) : list event -> world -> Prop :=
| trace_nil : trace w0 [] w0
| trace_snoc es w e w' : trace w0 es w -> step w e w' -> trace w0 (es ++ [e]) w'.

Lemma trace_inv w0 es w : trace w0 es w ->
  (es = [] /\ w = w0) \/ exists es' w1 e, es = es' ++ [e] /\ trace w0 es' w1 /\ step w1 e w.
Proof. destruct 1; [by left|right; eauto 10]. Qed.

(** A server that has just been started. *)
Definition boot (m : mongo) (fs : filesystem) (time : Z) (g : rng) (created : nat -> bool) :
    outcome bool * world :=
  server_start true created true
    (World ∅ ∅ (Server false 0 false [] false) (DbState [] m)
           (Streams fs ∅ ∅ ∅ [] 0 time) [] [] g).

(** ** What holds in every reachable state *)

Definition unlisted (w : world) (p : nat) : Prop := forall a, p ∉ listed (w_registry w) a.

Definition idle_session (w : world) (p : nat) : Prop :=
  exists s, w_sessions w !! p = Some s /\ s_status s <> STATUS_LOGGEDIN.

Record inv (w : world) : Prop := {
  inv_registry : registry_wf w;
  inv_accepting : forall p, p ∈ sv_accepting (w_server w) -> idle_session w p /\ unlisted w p
}.

(** No session becomes logged in. *)
Definition no_login (w w' : world) : Prop :=
  forall p s', w_sessions w' !! p = Some s' -> s_status s' = STATUS_LOGGEDIN ->
    exists s, w_sessions w !! p = Some s /\ s_status s = STATUS_LOGGEDIN /\
              s_accountId s = s_accountId s'.

(** [calm]: sessions stay and do not log in, and can only leave the session map. *)
Record calm (w w' : world) : Prop := {
  c_sessions : sessions_rel sess_quiet (w_sessions w) (w_sessions w');
  c_listed : forall a, sublist (listed (w_registry w') a) (listed (w_registry w) a);
  c_nonempty : nonempty_entries (w_registry w) -> nonempty_entries (w_registry w');
  c_accepting : sv_accepting (w_server w') = sv_accepting (w_server w)
}.

#[export] Instance calm_preorder : PreOrder calm.
Proof.
  split; [by split|]. intros w1 w2 w3 [A1 A2 A3 A4] [B1 B2 B3 B4].
  split; [by etrans|intros a; etrans; [apply B2|apply A2]|auto|congruence].
Qed.

Lemma quiet_calm w w' : quiet w w' -> calm w w'.
Proof. intros [A1 A2 A3 A4]. split; [done|by intros; rewrite A2|by rewrite A2|done]. Qed.

Lemma preserves_quiet_calm {A} (m : M world A) : preserves quiet m -> preserves calm m.
Proof. intros Hm w. apply quiet_calm, Hm. Qed.

Lemma preserves_background_calm {A} (m : M world A) : preserves background m -> preserves calm m.
Proof. intros Hm. by apply preserves_quiet_calm, preserves_background_quiet. Qed.

Lemma calm_session w w' p s' : calm w w' -> w_sessions w' !! p = Some s' ->
  exists s, w_sessions w !! p = Some s /\ sess_quiet s s'.
Proof.
  intros [Hs _ _ _] Hp. specialize (Hs p). rewrite Hp in Hs. inversion Hs; subst. eauto.
Qed.

Lemma calm_session_fwd w w' p s : calm w w' -> w_sessions w !! p = Some s ->
  exists s', w_sessions w' !! p = Some s' /\ sess_quiet s s'.
Proof.
  intros [Hs _ _ _] Hp. specialize (Hs p). rewrite Hp in Hs. inversion Hs; subst. eauto.
Qed.

Lemma calm_unlisted w w' p : calm w w' -> unlisted w p -> unlisted w' p.
Proof. intros Hc Hp a Hin. apply (Hp a). eapply elem_of_sublist; [done|]. by apply Hc. Qed.

Lemma calm_idle w w' p : calm w w' -> idle_session w p -> idle_session w' p.
Proof.
  intros Hc (s & Hs & Hn). destruct (calm_session_fwd _ _ _ _ Hc Hs) as (s' & Hs' & Hq).
  exists s'. split; [done|]. intros Hl. by apply Hn, (q_status _ _ Hq).
Qed.

Lemma calm_inv w w' : calm w w' -> inv w -> inv w'.
Proof.
  intros Hc [[R1 R2 R3] Ha]. split; [split|].
  - by apply Hc.
  - intros a p Hin. destruct (R2 a p) as (s & Hs & <-); [by eapply elem_of_sublist; [|apply Hc]|].
    destruct (calm_session_fwd _ _ _ _ Hc Hs) as (s' & Hs' & Hq). exists s'. split; [done|apply Hq].
  - intros a. eapply sublist_NoDup; [apply R3|apply Hc].
  - intros p. rewrite (c_accepting _ _ Hc). intros Hp. destruct (Ha p Hp).
    split; [by eapply calm_idle|by eapply calm_unlisted].
Qed.

Lemma calm_no_login w w' : calm w w' -> no_login w w'.
Proof.
  intros Hc p s' Hs' Hl. destruct (calm_session _ _ _ _ Hc Hs') as (s & Hs & Hq).
  exists s. split_and!; [done|by apply Hq|symmetry; apply Hq].
Qed.
End system.
