(* ===== verification/Auth.v ===== *)
(** * Authentication

    No session is logged in without the password of its account, and the session map stays
    well formed, in every state the server can reach; what a client may do before it is
    logged in. *)

From S2P Require Import Prelude Values Platform Codec Pool Db Stdio StreamBuffer Streams World.
From S2P Require Import Registry Transport Session Contacts Requests Fcm Server Console Frames.
From S2P Require Import System.

Local Open Scope zway_scope.
Local Open Scope Z_scope.

Section calm_handlers.
Context `{Platform}.

#[local] Hint Resolve frame_getAccount frame_newAccountId frame_setFcmToken frame_getFcmToken
  frame_insertAccount frame_addRequest frame_deleteRequest frame_requestPending
  frame_getRequest frame_getRequests frame_getContacts frame_getInbox frame_the_status
  frame_the_accountId frame_getContactStatus frame_numContactRequests
  frame_numPushRequests : zway_frame.

Ltac background := apply preserves_background_quiet;
  first [apply frame_contact_statuses|apply frame_broadcastStatus|apply frame_setConfig
        |apply frame_processRequests|apply frame_own_account|apply frame_add_contact
        |apply frame_verifyPassword|apply frame_contact_query|apply frame_deliver_request].
#[local] Hint Extern 1 (preserves quiet _) => background : zway_frame.

Lemma quiet_setStatus x : x <> STATUS_LOGGEDIN -> preserves sess_quiet (setStatus x).
Proof. intros Hx s. by split. Qed.

Lemma quiet_of_bg {A} (m : M session A) : preserves sess_bg m -> preserves sess_quiet m.
Proof. intros Hm s. apply sess_bg_quiet, Hm. Qed.
#[local] Hint Extern 1 (preserves sess_quiet (setStatus _)) => by apply quiet_setStatus : zway_frame.
#[local] Hint Extern 2 (preserves sess_quiet (modify _)) =>
  by apply quiet_of_bg, frame_modify_same : zway_frame.
#[local] Hint Extern 1 (preserves sess_quiet sendPacket) =>
  by apply quiet_of_bg, frame_sendPacket : zway_frame.
#[local] Hint Extern 1 (preserves sess_quiet (addStreamSender _)) =>
  by apply quiet_of_bg, frame_addStreamSender : zway_frame.

Lemma quiet_dispatch p h : preserves quiet (processDispatchRequest p h).
Proof. unfold processDispatchRequest. frame. Qed.
Lemma quiet_createAccount p h : preserves quiet (processCreateAccount p h).
Proof. unfold processCreateAccount. frame. Qed.
Lemma quiet_logout p h : preserves quiet (processLogout p h).
Proof. unfold processLogout. frame. Qed.
Lemma quiet_config p h : preserves quiet (processConfigRequest p h).
Proof. unfold processConfigRequest. frame. Qed.
Lemma quiet_contactStatus p h : preserves quiet (processContactStatusRequest p h).
Proof. unfold processContactStatusRequest. frame. Qed.
Lemma quiet_findContact p h : preserves quiet (processFindContactRequest p h).
Proof. unfold processFindContactRequest. frame. Qed.
Lemma quiet_addContact p h : preserves quiet (processAddContactRequest p h).
Proof. unfold processAddContactRequest, request_contact, reply_failure. frame. Qed.
Lemma quiet_createAddCode p h : preserves quiet (processCreateAddCode p h).
Proof. unfold processCreateAddCode, reply_failure. frame. Qed.
Lemma quiet_acceptContact p h : preserves quiet (processAcceptContact p h).
Proof. unfold processAcceptContact, reply_failure. frame. Qed.
Lemma quiet_rejectContact p h : preserves quiet (processRejectContact p h).
Proof. unfold processRejectContact, reply_failure. frame. Qed.
Lemma quiet_forward_push p i a keys fw : preserves quiet (forward_push p i a keys fw).
Proof. revert fw. induction keys; intros fw; cbn [forward_push]; frame. Qed.
#[local] Hint Resolve quiet_forward_push : zway_frame.
Lemma quiet_push p h : preserves quiet (processPushRequest p h).
Proof. unfold processPushRequest, reply_failure. frame. Qed.

Lemma quiet_response p r h : preserves quiet (receive_response p r h).
Proof.
  unfold receive_response. rewrite processResponse_run.
  unfold delete_when_done, push_callback, send_resource. frame.
Qed.
Lemma quiet_createStreamReceiver p pkt : preserves quiet (createStreamReceiver p pkt).
Proof. unfold createStreamReceiver. frame. Qed.
Lemma quiet_stream_received p i b : preserves quiet (stream_received p i b).
Proof. unfold stream_received. frame. Qed.
Lemma quiet_processUserRequests u : preserves quiet (processUserRequests u).
Proof. unfold processUserRequests. frame. Qed.
Lemma quiet_completed p : preserves quiet (completed p).
Proof. unfold completed. frame. Qed.
#[local] Hint Resolve quiet_completed : zway_frame.
Lemma quiet_sweep l : preserves quiet (sweep_senders l).
Proof. induction l; simpl; frame. Qed.
Lemma quiet_on_server f :
  (forall sv, sv_accepting (f sv) = sv_accepting sv) -> preserves quiet (on_server f).
Proof. intros Hf w. split; [done|done|apply Hf|done]. Qed.
#[local] Hint Resolve quiet_sweep : zway_frame.
Lemma quiet_onTimer e : preserves quiet (onTimer e).
Proof. unfold onTimer. frame. by apply quiet_on_server. Qed.
Lemma quiet_info : preserves quiet info.
Proof. unfold info, session_line. frame. Qed.

Lemma quiet_complete p sel : preserves quiet (complete p sel).
Proof. unfold complete. apply preserves_update; [apply _|]. by intros s. Qed.
Lemma quiet_onPacketSent p e : preserves quiet (on_session p (onPacketSent e)).
Proof. unfold onPacketSent, resetTimer. frame. Qed.
Lemma quiet_postPacket p k : preserves quiet (on_session p (postPacket k)).
Proof. unfold postPacket. frame. Qed.
Lemma quiet_addStreamSender p i : preserves quiet (on_session p (addStreamSender i)).
Proof. apply preserves_on_session; [apply _|]. by apply quiet_of_bg, frame_addStreamSender. Qed.
Lemma quiet_recvPacket : preserves sess_quiet recvPacket.
Proof. unfold recvPacket, start_op. frame. Qed.
#[local] Hint Resolve quiet_recvPacket : zway_frame.
Lemma quiet_onPacketRecv p pkt : preserves quiet (onPacketRecv log_packet p pkt).
Proof. unfold onPacketRecv, log_packet. frame. Qed.
End calm_handlers.

Section invariant.
Context `{Platform}.

(** *** Closing *)

Lemma calm_removeSession p : preserves calm (removeSession p).
Proof.
  intros w. destruct (w_sessions w !! p) as [s|] eqn:Hs.
  2: { unfold removeSession, bindM, session_at. by rewrite Hs. }
  destruct (removeSession_run p s w Hs) as (reg & -> & Hl & Hne). split; [done| |done|done].
  intros a. simpl. rewrite Hl. case_decide; [apply sublist_filter|done].
Qed.

Lemma calm_when (b : bool) (m : M world unit) : preserves calm m -> preserves calm (when b m).
Proof. apply preserves_when, _. Qed.

Lemma calm_close p sh rm : preserves calm (close p sh rm).
Proof.
  unfold close. apply preserves_bind; [apply _| |].
  - apply preserves_quiet_calm, preserves_on_session; [apply _|].
    intros s. by destruct sh.
  - intros _. apply calm_when, calm_removeSession.
Qed.

Lemma calm_removeSessions : preserves calm removeSessions.
Proof.
  unfold removeSessions. apply preserves_bind; [apply _|by intros w|]. intros reg.
  apply calm_when, preserves_bind; [apply _| |].
  - apply preserves_for_each; [apply _|]. intros it _. apply preserves_for_each; [apply _|].
    intros s _. apply calm_close.
  - intros _ w. split; [done| |by intros _ a l|done].
    intros a. unfold listed. simpl. apply sublist_nil_l.
Qed.

(** *** The transport *)

Lemma calm_onPacketHeadRecv p e n pkt : preserves calm (onPacketHeadRecv log_packet p e n pkt).
Proof.
  unfold onPacketHeadRecv. repeat case_decide.
  - apply preserves_bind; [apply _| |].
    { apply preserves_quiet_calm, preserves_on_session; [apply _|]. by intros s. }
    intros _. destruct (_ >? _); [|apply preserves_quiet_calm, quiet_onPacketRecv].
    apply preserves_quiet_calm, preserves_on_session; [apply _|].
    unfold recvPacketBody. destruct (zbuffer_create _); by intros s.
  - apply preserves_bind; [apply _| |by intros _ w].
    apply preserves_quiet_calm, preserves_on_session; [apply _|apply quiet_recvPacket].
  - destruct (connection_lost e); [apply calm_close|by intros w].
Qed.

Lemma calm_onPacketBodyRecv p e n off pkt : preserves calm (onPacketBodyRecv log_packet p e n off pkt).
Proof.
  unfold onPacketBodyRecv. repeat case_decide.
  - apply preserves_quiet_calm, preserves_on_session; [apply _|]. by intros s.
  - apply preserves_bind; [apply _| |].
    { apply preserves_quiet_calm, preserves_on_session; [apply _|]. by intros s. }
    intros _. apply preserves_quiet_calm, quiet_onPacketRecv.
  - destruct (connection_lost e); [apply calm_close|by intros w].
Qed.

Lemma calm_handleHandshake p e h : preserves calm (handleHandshake p e h).
Proof.
  unfold handleHandshake. case_decide; [|apply calm_close].
  apply preserves_bind; [apply _| |by intros _ w].
  apply preserves_quiet_calm, preserves_on_session; [apply _|].
  intros s. unfold recvPacket. destruct h; by destruct packet_create.
Qed.

(** *** Accepting *)

Lemma run_accept w : exists p w', accept w = (Ret tt, w') /\ w_sessions w !! p = None /\
  w' = with_server (sv_with_accepting (sv_accepting (w_server w) ++ [p]) (w_server w))
         (with_sessions (<[p := new_session]> (w_sessions w)) w).
Proof.
  eexists _, _. split; [reflexivity|]. split; [|reflexivity].
  apply not_elem_of_dom, is_fresh.
Qed.

Lemma listed_exists w a p : registry_wf w -> p ∈ listed (w_registry w) a ->
  is_Some (w_sessions w !! p).
Proof. intros Hw Hp. destruct (reg_account _ Hw a p Hp) as (s & Hs & _). eauto. Qed.

Lemma accept_inv w w' : inv w -> accept w = (Ret tt, w') -> inv w' /\ no_login w w'.
Proof.
  intros [Hreg Hacc]. destruct (run_accept w) as (p & w1 & -> & Hp & ->). intros [= <-].
  assert (Hext : forall q s, w_sessions w !! q = Some s ->
            <[p := new_session]> (w_sessions w) !! q = Some s).
  { intros q s Hq. rewrite lookup_insert_ne; [done|congruence]. }
  assert (Hun : unlisted w p).
  { intros a Ha. destruct (listed_exists _ _ _ Hreg Ha). congruence. }
  split; [split; [split|]|].
  - apply Hreg.
  - intros a q Hq. destruct (reg_account _ Hreg a q Hq) as (s & Hs & Ea).
    exists s. split; [by apply Hext|done].
  - apply Hreg.
  - intros q. simpl. rewrite elem_of_app, list_elem_of_singleton. intros [Hq| ->].
    + destruct (Hacc q Hq) as [(s & Hs & Hn) ?]. split; [|done]. exists s. split; [by apply Hext|done].
    + split; [|done]. exists new_session. split; [apply lookup_insert_eq|done].
  - intros q s'. simpl. rewrite lookup_insert. case_decide; [by intros [= <-]|]. intros Hq Hl.
    exists s'. done.
Qed.

Lemma no_login_trans w1 w2 w3 : no_login w1 w2 -> no_login w2 w3 -> no_login w1 w3.
Proof.
  intros H12 H23 p s3 Hs3 Hl3. destruct (H23 p s3 Hs3 Hl3) as (s2 & Hs2 & Hl2 & E2).
  destruct (H12 p s2 Hs2 Hl2) as (s1 & Hs1 & Hl1 & E1). exists s1. split_and!; congruence.
Qed.

Definition keeps {A} (m : M world A) : Prop :=
  forall w a w', inv w -> m w = (Ret a, w') -> inv w' /\ no_login w w'.

Lemma keeps_calm {A} (m : M world A) : preserves calm m -> keeps m.
Proof.
  intros Hm w a w' Hi Hrun. specialize (Hm w). rewrite Hrun in Hm. simpl in Hm.
  split; [by eapply calm_inv|by eapply calm_no_login].
Qed.

Lemma keeps_bind {A B} (m : M world A) (k : A -> M world B) :
  keeps m -> (forall a, keeps (k a)) -> keeps (bindM m k).
Proof.
  intros Hm Hk w b w' Hi Hrun. unfold bindM in Hrun.
  destruct (m w) as [[a|f] w1] eqn:E; [|done]. destruct (Hm w a w1 Hi E) as [Hi1 Hn1].
  destruct (Hk a w1 b w' Hi1 Hrun) as [Hi2 Hn2]. split; [done|by eapply no_login_trans].
Qed.

Lemma keeps_accept : keeps accept.
Proof. intros w [] w' Hi Hrun. by apply accept_inv. Qed.

Lemma keeps_on_server f :
  (forall sv, sv_accepting (f sv) = sv_accepting sv) -> keeps (on_server f).
Proof. intros Hf. by apply keeps_calm, preserves_quiet_calm, quiet_on_server. Qed.

(** A session that is changed, and listed anew under its id. *)
Lemma inv_relisted p s reg w :
  inv w -> p ∉ sv_accepting (w_server w) -> nonempty_entries reg ->
  (forall b q, q <> p -> q ∈ listed reg b -> q ∈ listed (w_registry w) b) ->
  (forall b, p ∈ listed reg b -> b = s_accountId s) -> (forall b, NoDup (listed reg b)) ->
  inv (with_registry reg (with_sessions (<[p := s]> (w_sessions w)) w)).
Proof.
  intros [Hreg Hacc] Hna Hne Hsub Hp Hnd. split; [split; simpl; [done| |done]|].
  - intros b q Hq. destruct (decide (q = p)) as [->|Hqp].
    + exists s. rewrite lookup_insert_eq. split; [done|]. symmetry. by apply Hp.
    + rewrite lookup_insert_ne by done. by apply (reg_account _ Hreg), Hsub.
  - intros q Hq. simpl in Hq. assert (q <> p) by congruence.
    destruct (Hacc q Hq) as [(sq & Hsq & Hn) Hu]. split.
    + exists sq. simpl. by rewrite lookup_insert_ne.
    + intros b Hb. by apply (Hu b), Hsub.
Qed.

Lemma NoDup_snoc {A} (l : list A) x : NoDup l -> x ∉ l -> NoDup (l ++ [x]).
Proof.
  intros Hl Hx. apply NoDup_app. split_and!; [done| |apply NoDup_singleton].
  by intros y Hy ->%list_elem_of_singleton.
Qed.

(** [start] of a session that is not listed. *)
Lemma start_inv p w w' :
  inv w -> idle_session w p -> unlisted w p -> p ∉ sv_accepting (w_server w) ->
  Requests.start p w = (Ret tt, w') -> inv w' /\ no_login w w'.
Proof.
  intros Hi (s & Hs & Hidle) Hun Hna. pose proof (inv_registry _ Hi) as Hreg. unfold Requests.start, RAND.
  unfold bindM at 1. destruct (RAND_pseudo_bytes 4 (w_rng w)) as [bs g] eqn:Hg.
  unfold bindM at 1. rewrite (run_update p s) by done.
  set (s1 := with_accountId _ s). set (w1 := with_sessions _ _).
  assert (Hs1 : w_sessions w1 !! p = Some s1) by apply lookup_insert_eq.
  destruct (appendSession_run p s1 w1 Hs1) as (reg & Ha & Hl & Hne).
  rewrite (run_bind_Ret _ _ _ _ _ Ha). rewrite (run_on_session p s1) by done.
  intros [= <-]. simpl. rewrite insert_insert_eq. set (s2 := with_ops _ s1). split.
  - assert (Hi' : inv (with_registry reg (with_sessions (<[p := s2]> (w_sessions w)) w))).
    { apply inv_relisted; [done|done|exact (Hne (reg_nonempty _ Hreg))|..].
      - intros b q Hqp. rewrite Hl. case_decide; [|done].
        rewrite elem_of_app, list_elem_of_singleton. by intros [?|?].
      - intros b. rewrite Hl. case_decide; [done|]. intros Hb. by destruct (Hun b).
      - intros b. rewrite Hl. case_decide; [|apply (reg_once _ Hreg)].
        apply NoDup_snoc; [apply (reg_once _ Hreg)|apply Hun]. }
    destruct Hi' as [[] Hacc]. by split.
  - intros q s'. simpl. rewrite lookup_insert. case_decide; [|by eauto]. by intros [= <-] Hlog.
Qed.

(** The completion of an accept takes the session off the list and starts it. *)
Lemma keeps_EvAccept error p w w' :
  inv w -> p ∈ sv_accepting (w_server w) -> run (EvAccept error p) w = (Ret tt, w') ->
  inv w' /\ no_login w w'.
Proof.
  intros Hi Hp. destruct (inv_accepting _ Hi p Hp) as [Hidle Hun].
  cbn [run]. unfold bindM at 1. cbn [on_server modify].
  set (w1 := with_server _ w).
  assert (Hi1 : inv w1).
  { destruct Hi as [Hr Ha]. split; [by destruct Hr|]. intros q. simpl.
    rewrite list_elem_of_filter. intros [_ Hq]. by apply Ha. }
  assert (Hna : p ∉ sv_accepting (w_server w1)).
  { simpl. rewrite list_elem_of_filter. tauto. }
  unfold handleSession. case_decide; [|intros [= <-]; split; [done|by intros q s' ??; exists s']].
  intros Hrun. unfold bindM at 1 in Hrun.
  destruct (Requests.start p w1) as [[[]|f] w2] eqn:E; [|done].
  destruct (start_inv p w1 w2 Hi1 Hidle Hun Hna E) as [Hi2 Hn2].
  pose proof (keeps_bind _ _ (keeps_on_server (fun sv =>
    sv_with_numSessions (u32 (sv_numSessions sv + 1)) sv) ltac:(done)) (fun _ => keeps_accept)) as Hk.
  destruct (Hk w2 tt w' Hi2 Hrun) as [Hi3 Hn3]. split; [done|].
  eapply no_login_trans; [|done]. exact Hn2.
Qed.
End invariant.

Section login.
Context `{PlatformLaws}.

(** The digest [verifyPassword] compares. *)
Definition password_hash (password salt : list Byte.byte) : option (list Byte.byte) :=
  ctx ← SHA256_Init; ctx ← SHA256_Update ctx password; ctx ← SHA256_Update ctx salt;
  SHA256_Final ctx.

(** The stored password is that of the request. *)
Definition password_of (d : doc) (request : uobj) : Prop :=
  exists salt pass password digest,
    bson_binData (bson_get d "salt") = Some salt /\
    bson_binData (bson_get d "pass") = Some pass /\
    ubj_buffer (ubj_get request "password") = Some password /\
    password_hash password salt = Some digest /\ take (length pass) digest = pass.

(** A login request for an account that is stored, with its password. *)
Definition verified (request : uobj) (a : Z) (w : world) : Prop :=
  int_of request "requestType" = Req_Login /\ a = u32 (int_of request "account") /\
  exists d, d ∈ docs "zway.accounts" (db_mongo (w_db w)) /\
    matches [("id"%string, bson_u32 a)] d = true /\ password_of d request.

Lemma verifyPassword_inv acc pw w b w' :
  verifyPassword acc pw w = (Ret b, w') -> w' = w /\
  (b = true -> exists salt pass password digest,
    bson_binData (bson_get acc "salt") = Some salt /\
    bson_binData (bson_get acc "pass") = Some pass /\
    pw = Some password /\ password_hash password salt = Some digest /\
    take (length pass) digest = pass).
Proof.
  unfold verifyPassword, bindM, or_throw, password_hash.
  destruct (bson_binData (bson_get acc "salt")) as [salt|]; [|done]. simpl.
  destruct (bson_binData (bson_get acc "pass")) as [pass|]; [|done]. simpl.
  destruct SHA256_Init as [ctx|]; simpl; [|by intros [= <- <-]].
  destruct pw as [password|]; [|done].
  destruct (SHA256_Update ctx password) as [c1|] eqn:E1; simpl; [|by intros [= <- <-]].
  destruct (SHA256_Update c1 salt) as [c2|] eqn:E2; simpl; [|by intros [= <- <-]].
  destruct (SHA256_Final c2) as [digest|] eqn:E3; simpl; [|by intros [= <- <-]].
  intros [= <- <-]. split; [done|]. intros Hb%bool_decide_eq_true.
  exists salt, pass, password, digest. split_and!; try done. simpl. rewrite E1. simpl.
  by rewrite E2.
Qed.

Lemma getAccount_inv q f w acc w' :
  on_db (getAccount q f) w = (Ret (Some acc), w') ->
  w' = with_db (used (w_db w) (db_mongo (w_db w))) w /\
  exists d, d ∈ docs "zway.accounts" (db_mongo (w_db w)) /\ matches q d = true /\
    acc = project (Some f) d.
Proof.
  unfold on_db, zoom. destruct (getAccount q f (w_db w)) as [[o|] s'] eqn:E; [|done].
  unfold getAccount in E. apply with_lock_inv in E as (_ & -> & ->). intros [= Hh <-]. split; [done|].
  simpl in Hh. destruct (db_query _ _ _ _ _ _) as [l ended] eqn:Hq.
  destruct (query_result _ _ 0 _ _ _ _ (Z.le_refl 0) Hq) as (sel & rest & Hp & -> & _).
  destruct sel as [|d sel]; [done|]. simpl in Hh. injection Hh as <-. exists d.
  assert (Hd : d ∈ filter (fun d => matches q d = true) (docs "zway.accounts" (db_mongo (w_db w)))).
  { rewrite <- Hp. left. }
  apply list_elem_of_filter in Hd as [? ?]. done.
Qed.

(** What a login that goes through does, up to the point where it answers. *)
Definition record_login (p : nat) (accountId : Z) : M world unit :=
  on_session p (setStatus STATUS_LOGGEDIN) ;; removeSession p ;;
  update p (with_accountId accountId) ;; appendSession p.

Lemma login_tail {A} p a (k : M world A) w :
  (on_session p (setStatus STATUS_LOGGEDIN) ;; removeSession p ;; update p (with_accountId a) ;;
   appendSession p ;; k)%zway w = (record_login p a ;; k)%zway w.
Proof.
  unfold record_login, bindM. destruct (on_session _ _ w) as [[]?]; [|done].
  destruct (removeSession _ _) as [[]?]; [|done]. by destruct (update _ _ _) as [[]?].
Qed.

Lemma record_login_run p s a w :
  w_sessions w !! p = Some s ->
  exists reg, record_login p a w = (Ret tt, with_registry reg
      (with_sessions (<[p := with_accountId a (with_status STATUS_LOGGEDIN s)]> (w_sessions w)) w)) /\
    p ∈ listed reg a /\
    (forall b q, q <> p -> q ∈ listed reg b -> q ∈ listed (w_registry w) b) /\
    (registry_wf w -> nonempty_entries reg /\ (forall b, p ∈ listed reg b -> b = a) /\
       forall b, NoDup (listed reg b)).
Proof.
  intros Hs. unfold record_login. unfold bindM at 1. rewrite (run_on_session p s) by done.
  cbn [fst snd setStatus modify]. set (s1 := with_status STATUS_LOGGEDIN s). set (w1 := with_sessions _ w).
  assert (Hs1 : w_sessions w1 !! p = Some s1) by apply lookup_insert_eq.
  destruct (removeSession_run p s1 w1 Hs1) as (reg1 & Hrm & Hl1 & Hne1).
  rewrite (run_bind_Ret _ _ _ _ _ Hrm). unfold bindM at 1. rewrite (run_update p s1) by done.
  set (w2 := with_sessions _ (with_registry reg1 w1)).
  assert (Hs2 : w_sessions w2 !! p = Some (with_accountId a s1)) by apply lookup_insert_eq.
  destruct (appendSession_run p _ w2 Hs2) as (reg & -> & Hl & Hne).
  assert (Hin : forall b q, q ∈ listed reg b <-> q ∈ listed reg1 b \/ (q = p /\ b = a)).
  { intros b q. rewrite Hl. simpl. case_decide; rewrite ?elem_of_app, ?list_elem_of_singleton; naive_solver. }
  assert (Hin1 : forall b q, q ∈ listed reg1 b -> q ∈ listed (w_registry w) b /\ (b = s_accountId s -> q <> p)).
  { intros b q. rewrite Hl1. case_decide; [|done]. rewrite list_elem_of_filter. naive_solver. }
  exists reg. split_and!.
  - unfold w2, w1. simpl. by rewrite insert_insert_eq.
  - apply Hin. by right.
  - intros b q Hqp Hq. apply Hin in Hq as [Hq|[? _]]; [by apply Hin1|done].
  - intros Hreg. assert (Hnot : forall b, p ∉ listed reg1 b).
    { intros b [Hb Hn]%Hin1. destruct (reg_account _ Hreg b p Hb) as (sp & Hsp & <-).
      simplify_eq. by apply Hn. }
    split_and!; [exact (Hne (Hne1 (reg_nonempty _ Hreg)))|intros b [Hb|[_ ?]]%Hin; [by destruct (Hnot b)|done]|].
    assert (Hnd : forall b, NoDup (listed reg1 b)).
    { intros b. rewrite Hl1. case_decide; [apply NoDup_filter|]; apply (reg_once _ Hreg). }
    intros b. rewrite Hl. case_decide; [by apply NoDup_snoc|done].
Qed.

Lemma record_login_inv p s a w w' :
  inv w -> w_sessions w !! p = Some s -> p ∉ sv_accepting (w_server w) ->
  record_login p a w = (Ret tt, w') ->
  inv w' /\ w_sessions w' = <[p := with_accountId a (with_status STATUS_LOGGEDIN s)]> (w_sessions w).
Proof.
  intros Hi Hs Hna Hrun. destruct (record_login_run p s a w Hs) as (reg & E & _ & Hsub & Hwf).
  rewrite E in Hrun. injection Hrun as <-. destruct (Hwf (inv_registry _ Hi)) as (Hne & Hp & Hnd).
  split; [|done]. by apply inv_relisted.
Qed.
End login.

Section auth.
Context `{PlatformLaws}.

Definition logs_in (p : nat) (a : Z) (w w' : world) : Prop :=
  forall q s', w_sessions w' !! q = Some s' -> s_status s' = STATUS_LOGGEDIN ->
    (q = p /\ s_accountId s' = a) \/
    exists s, w_sessions w !! q = Some s /\ s_status s = STATUS_LOGGEDIN /\
              s_accountId s = s_accountId s'.

(** The work after a login has been recorded. *)
Definition after_login (p : nat) (head : uobj) (accountId : Z) : M world bool :=
  (if hasField head "config"
   then setConfig p (obj_of head "config") ;; ret tt else ret tt) ;;
  let* status := contact_statuses p in
  let* inbox := on_db (getInbox accountId) in
  postRequestSuccess p (requestId_of head)
    (Some (UBJ_OBJ [("contactStatus"%string, UArray status);
                    ("inbox"%string, UArray (default [] inbox))])) ;;
  processRequests p ;;
  ret true.

Lemma quiet_after_login p head a : preserves quiet (after_login p head a).
Proof.
  unfold after_login.
  pose proof (fun c => preserves_background_quiet _ (frame_setConfig p c)) as Hc.
  pose proof (preserves_background_quiet _ (frame_contact_statuses p)) as Hs.
  pose proof (preserves_background_quiet _ (frame_processRequests p)) as Hr.
  pose proof (frame_getInbox sess_quiet a) as Hi.
  frame; eauto.
Qed.

(** A request that is refused changes nothing but the calls of the engine. *)
Lemma refused p id code msg w r w' :
  (postRequestFailure p id code msg ;; ret false)%zway w = (Ret r, w') -> quiet w w' /\ r = false.
Proof.
  intros Hrun. assert (Hp : preserves quiet (postRequestFailure p id code msg)).
  { apply preserves_on_session; [apply _|apply preserves_engine_call_quiet]. }
  specialize (Hp w). unfold bindM in Hrun.
  destruct (postRequestFailure p id code msg w) as [[[]|] w1]; [|done]. by injection Hrun as <- <-.
Qed.

Lemma processLogin_inv p head w r w' s :
  w_sessions w !! p = Some s -> processLogin p head w = (Ret r, w') ->
  (quiet w w' /\ r = false) \/
  exists w1 w2, calm w w1 /\ w_sessions w1 = w_sessions w /\
    s_status s < STATUS_LOGGEDIN /\
    (int_of head "requestType" = Req_Login -> verified head (u32 (int_of head "account")) w) /\
    record_login p (u32 (int_of head "account")) w1 = (Ret tt, w2) /\
    after_login p head (u32 (int_of head "account")) w2 = (Ret r, w').
Proof.
  intros Hs. unfold processLogin. cbv zeta. rewrite (run_bind_Ret _ _ _ _ _ (run_the_status p s w Hs)).
  destruct (s_status s >=? STATUS_LOGGEDIN) eqn:Hst; [intros ?; left; by eapply refused|].
  destruct (negb (hasField head "account")); [intros ?; left; by eapply refused|].
  destruct (negb (hasField head "password")); [intros ?; left; by eapply refused|].
  set (a := u32 (int_of head "account")). intros Hrun.
  unfold bindM at 1 in Hrun. destruct (on_db (getAccount _ _) w) as [[acc|f] w1] eqn:Hg; [|done].
  assert (Hq1 : quiet w w1).
  { pose proof (frame_getAccount sess_quiet [("id"%string, bson_u32 a)]
      [("pass"%string, BInt 1); ("salt"%string, BInt 1)] w) as Hf. by rewrite Hg in Hf. }
  assert (Hfail : forall id m, (postRequestFailure p id 0 m;; ret false)%zway w1 = (Ret r, w') ->
            quiet w w' /\ r = false).
  { intros id m [Hq ->]%refused. split; [by etrans|done]. }
  destruct acc as [acc|]; [|left; by eapply Hfail].
  apply getAccount_inv in Hg as (Ew1 & d & Hd & Hm & ->).
  unfold bindM at 1 in Hrun. destruct (verifyPassword _ _ _) as [[b|f] w2] eqn:Hv; [|done].
  apply verifyPassword_inv in Hv as [-> Hb].
  destruct b; cbn [negb] in Hrun; [|left; by eapply Hfail]. right.
  rewrite login_tail in Hrun. unfold bindM at 1 in Hrun.
  destruct (record_login p a w1) as [[[]|f] w3] eqn:Hrec; [|done].
  exists w1, w3. split_and!; [by apply quiet_calm|by subst|unfold STATUS_LOGGEDIN in *; lia| |done|done].
  intros Ht. split_and!; [done|done|]. exists d. split_and!; [done|done|].
  destruct Hb as (salt & pass & password & digest & H1 & H2 & H3 & H4 & H5); [done|].
  exists salt, pass, password, digest. unfold bson_get in *.
  rewrite !project_field in H1, H2 by set_solver. done.
Qed.
End auth.

Section reachable.
Context `{PlatformLaws}.

(** Every request but a login is quiet. *)
Lemma quiet_incoming p req :
  int_of req "requestType" <> Req_Login -> preserves quiet (processIncomingRequest p req).
Proof.
  intros Hne. unfold processIncomingRequest. cbv zeta.
  repeat (case_decide; [first [done | apply quiet_dispatch | apply quiet_createAccount
    | apply quiet_logout | apply quiet_config | apply quiet_addContact
    | apply quiet_createAddCode | apply quiet_findContact | apply quiet_acceptContact
    | apply quiet_rejectContact | apply quiet_contactStatus | apply quiet_push ]|]).
  by intros w.
Qed.

Lemma request_types_distinct :
  Req_Login <> Req_Dispatch /\ Req_Login <> Req_CreateAccount.
Proof.
  pose proof request_types_NoDup as Hnd. unfold request_types in Hnd.
  rewrite !NoDup_cons in Hnd. destruct Hnd as (H1 & H2 & _). set_solver.
Qed.

Lemma request_types_distinct2 : Req_CreateAccount <> Req_Dispatch.
Proof.
  pose proof request_types_NoDup as Hnd. unfold request_types in Hnd.
  rewrite !NoDup_cons in Hnd. destruct Hnd as (H1 & _). set_solver.
Qed.

Lemma incoming_login p req :
  int_of req "requestType" = Req_Login -> processIncomingRequest p req = processLogin p req.
Proof.
  intros Ht. unfold processIncomingRequest. cbv zeta. rewrite Ht.
  destruct request_types_distinct. by rewrite !decide_False, decide_True by done.
Qed.

Lemma login_step p req w r w' :
  inv w -> p ∉ sv_accepting (w_server w) -> int_of req "requestType" = Req_Login ->
  processLogin p req w = (Ret r, w') ->
  inv w' /\ (no_login w w' \/
    (verified req (u32 (int_of req "account")) w /\ logs_in p (u32 (int_of req "account")) w w')).
Proof.
  intros Hi Hna Ht Hrun. destruct (w_sessions w !! p) as [s|] eqn:Hs.
  2: { unfold processLogin, the_status, bindM at 1 2, session_at in Hrun. by rewrite Hs in Hrun. }
  destruct (processLogin_inv p req w r w' s Hs Hrun) as [[Hq _]|(w1 & w2 & Hc1 & Hw1 & _ & Hv & Hrec & Haft)].
  { apply quiet_calm in Hq. split; [by eapply calm_inv|]. left. by apply calm_no_login. }
  set (a := u32 (int_of req "account")) in *.
  assert (Hi1 : inv w1) by by eapply calm_inv.
  rewrite <- Hw1 in Hs. rewrite <- (c_accepting _ _ Hc1) in Hna.
  destruct (record_login_inv p s a w1 w2 Hi1 Hs Hna Hrec) as (Hi2 & Hw2).
  pose proof (quiet_after_login p req a w2) as Hq. rewrite Haft in Hq. simpl in Hq.
  apply quiet_calm in Hq. split; [by eapply calm_inv|]. right. split; [by apply Hv|].
  intros q s' Hs' Hl. destruct (calm_no_login _ _ Hq q s' Hs' Hl) as (s2 & Hs2 & Hl2 & E2).
  rewrite Hw2, Hw1, lookup_insert in Hs2. case_decide as Hd; [left|right; eauto].
  split; [done|]. injection Hs2 as <-. by rewrite <- E2.
Qed.

Lemma calm_bind {A B} (m : M world A) (k : A -> M world B) :
  preserves calm m -> (forall a, preserves calm (k a)) -> preserves calm (bindM m k).
Proof. intros. by apply preserves_bind; [apply _| |]. Qed.

Lemma keeps_resume o b l : keeps (resume o b l).
Proof.
  unfold resume. apply keeps_bind; [by apply keeps_calm|]. intros sv'.
  destruct (negb _); [by apply keeps_calm|]. destruct (_ || _); [by apply keeps_calm|].
  apply keeps_bind; [by apply keeps_on_server|]. intros _.
  destruct (negb _); [by apply keeps_calm|]. destruct (negb _); [by apply keeps_calm|].
  apply keeps_bind; [apply keeps_accept|]. intros _.
  apply keeps_bind; [by apply keeps_on_server|]. intros _. by apply keeps_calm.
Qed.

Lemma keeps_pause c : keeps (pause c).
Proof.
  unfold pause. apply keeps_bind; [by apply keeps_calm|]. intros sv'.
  destruct (sv_paused sv'); [by apply keeps_calm|]. destruct c; [|by apply keeps_calm].
  apply keeps_bind; [by apply keeps_on_server|]. intros _.
  apply keeps_bind; [by apply keeps_on_server|]. intros _. by apply keeps_calm.
Qed.

Lemma keeps_command calls c : keeps (command calls c).
Proof.
  unfold command. destruct (c =? 101); [by apply keeps_calm|].
  destruct (c =? 105).
  { apply keeps_calm, calm_bind; [apply preserves_quiet_calm, quiet_info|by intros a w0]. }
  destruct (c =? 114).
  { apply keeps_calm, calm_bind; [apply calm_removeSessions|by intros a w0]. }
  destruct (c =? 112); [|by apply keeps_calm].
  apply keeps_bind; [by apply keeps_calm|]. intros sv.
  apply keeps_bind; [|intros b; by apply keeps_calm].
  destruct (sv_paused sv); [apply keeps_resume|apply keeps_pause].
Qed.

Lemma step_keeps w e w' :
  inv w -> step w e w' ->
  inv w' /\ forall p s', w_sessions w' !! p = Some s' -> s_status s' = STATUS_LOGGEDIN ->
    (exists s, w_sessions w !! p = Some s /\ s_status s = STATUS_LOGGEDIN /\
       s_accountId s = s_accountId s') \/
    exists req, e = EvRequest p req /\ verified req (s_accountId s') w.
Proof.
  intros Hi [Hen Hrun].
  assert (Hcalm : preserves calm (run e) -> inv w' /\ no_login w w').
  { intros Hc. exact (keeps_calm _ Hc w tt w' Hi Hrun). }
  assert (Hfin : inv w' /\ no_login w w' -> inv w' /\ forall p s', w_sessions w' !! p = Some s' -> s_status s' = STATUS_LOGGEDIN ->
    (exists s, w_sessions w !! p = Some s /\ s_status s = STATUS_LOGGEDIN /\
       s_accountId s = s_accountId s') \/
    exists req, e = EvRequest p req /\ verified req (s_accountId s') w).
  { intros [? Hn]. split; [done|]. intros p s' Hs' Hl. left. by apply Hn. }
  destruct e; cbn [run enabled] in *.
  - apply Hfin. by eapply keeps_EvAccept.
  - apply Hfin, Hcalm, calm_bind; [apply preserves_quiet_calm, quiet_complete|].
    intros _. apply calm_handleHandshake.
  - apply Hfin, Hcalm, calm_bind; [apply preserves_quiet_calm, quiet_complete|].
    intros _. apply calm_onPacketHeadRecv.
  - apply Hfin, Hcalm, calm_bind; [apply preserves_quiet_calm, quiet_complete|].
    intros _. apply calm_onPacketBodyRecv.
  - apply Hfin, Hcalm, preserves_quiet_calm, preserves_bind; [apply _| |].
    + apply preserves_update; [apply _|]. by intros s.
    + intros _. apply quiet_onPacketSent.
  - apply Hfin, Hcalm, calm_bind; [apply preserves_quiet_calm, quiet_postPacket|by intros a w0].
  - apply Hfin, Hcalm, calm_bind; [apply preserves_quiet_calm, quiet_addStreamSender|by intros a w0].
  - destruct (decide (int_of request "requestType" = Req_Login)) as [Ht|Ht].
    + rewrite (incoming_login _ _ Ht) in Hrun. apply run_bind_inv in Hrun as (r & w1 & Hrun & [= <-]).
      destruct (login_step p request w r w1 Hi Hen Ht Hrun) as [Hi' [Hn|[Hv Hl]]]; [by apply Hfin|].
      split; [done|]. intros q s' Hs' Hst. destruct (Hl q s' Hs' Hst) as [[-> Ea]|?]; [right|by left].
      exists request. rewrite Ea. done.
    + apply Hfin, Hcalm, calm_bind; [|by intros a w0].
      by apply preserves_quiet_calm, quiet_incoming.
  - apply Hfin, Hcalm, preserves_quiet_calm, quiet_response.
  - apply Hfin, Hcalm, calm_bind; [|by intros a w0].
    apply preserves_quiet_calm, quiet_createStreamReceiver.
  - apply Hfin, Hcalm, preserves_quiet_calm, quiet_stream_received.
  - apply Hfin, Hcalm, calm_bind; [by intros w0|]. intros tasks.
    apply calm_bind; [by intros w0|]. intros _. apply preserves_quiet_calm, quiet_processUserRequests.
  - apply Hfin, Hcalm, preserves_quiet_calm, quiet_onTimer.
  - apply Hfin.
    apply (keeps_bind _ _ (keeps_command calls c) (fun b => keeps_calm (ret tt) ltac:(done)) w tt w' Hi Hrun).
Qed.

Lemma boot_inv m fs time g created w0 :
  boot m fs time g created = (Ret true, w0) ->
  inv w0 /\ forall p s, w_sessions w0 !! p = Some s -> s_status s <> STATUS_LOGGEDIN.
Proof.
  unfold boot, server_start. destruct (DB_startup true created 25) as [ok q]. cbn beta iota.
  set (w := World _ _ _ _ _ _ _ _). unfold bindM at 1, on_db, zoom, modify. cbn beta iota.
  destruct (negb ok); [done|]. cbn [negb]. unfold bindM at 1, on_server, modify. cbn beta iota.
  unfold bindM at 1. cbn beta iota. intros Hrun.
  apply run_bind_inv in Hrun as ([] & w1 & Hacc & [= <-]).
  match type of Hacc with accept ?x = _ => set (wb := x) in * end.
  assert (Hb : inv wb).
  { split; [split|]; simpl; try done.
    - intros a p. unfold listed. rewrite lookup_empty. by intros ?%elem_of_nil.
    - intros a. unfold listed. rewrite lookup_empty. constructor.
    - by intros p ?%elem_of_nil. }
  destruct (accept_inv wb w1 Hb Hacc) as [Hi Hn]. split; [done|].
  intros p s Hs Hl. destruct (Hn p s Hs Hl) as (s0 & Hs0 & _).
  unfold wb in Hs0. simpl in Hs0. by rewrite lookup_empty in Hs0.
Qed.

Lemma trace_inv_kept m fs time g created w0 es w :
  boot m fs time g created = (Ret true, w0) -> trace w0 es w -> inv w.
Proof.
  intros Hb Ht. induction Ht as [|es w e w' Ht IH Hstep]; [by eapply boot_inv|].
  by eapply step_keeps.
Qed.

(** A session that is logged in got there by a login request with the password. *)
Lemma login_evidence m fs time g created w0 es w p s :
  boot m fs time g created = (Ret true, w0) -> trace w0 es w ->
  w_sessions w !! p = Some s -> s_status s = STATUS_LOGGEDIN ->
  exists es1 req es2 w1, es = es1 ++ EvRequest p req :: es2 /\ trace w0 es1 w1 /\
    verified req (s_accountId s) w1.
Proof.
  intros Hb Ht. revert p s. induction Ht as [|es w e w' Ht IH Hstep]; intros p s Hs Hl.
  { by destruct (proj2 (boot_inv _ _ _ _ _ _ Hb) p s Hs). }
  pose proof (trace_inv_kept _ _ _ _ _ _ _ _ Hb Ht) as Hi.
  destruct (proj2 (step_keeps w e w' Hi Hstep) p s Hs Hl) as [(s0 & Hs0 & Hl0 & <-)|(req & -> & Hv)].
  - destruct (IH p s0 Hs0 Hl0) as (es1 & req & es2 & w1 & -> & Ht1 & Hv).
    exists es1, req, (es2 ++ [e]), w1. split_and!; [by rewrite <- app_assoc|done|done].
  - exists es, req, [], w. split_and!; done.
Qed.

(** C1: No one gets in without the password. In every state a started server can reach by
    any sequence of events, a session that is logged in got there by a login request on
    that session, for the account it is logged in to, which at that moment was stored and
    whose stored salted hash is that of the password of the request. Nothing else, no other
    request, reply, error, timer, console command or closed connection, changes the
    account of a logged-in session. *)
Theorem loggedin_authenticated m fs time g created w0 es w p s :
  boot m fs time g created = (Ret true, w0) -> trace w0 es w ->
  w_sessions w !! p = Some s -> s_status s = STATUS_LOGGEDIN ->
  exists es1 req es2 w1, es = es1 ++ EvRequest p req :: es2 /\ trace w0 es1 w1 /\
    verified req (s_accountId s) w1.
Proof. apply login_evidence. Qed.

(** C17: In every state a started server can reach, the session map is well formed: it
    has no empty entry, every session it lists is alive and listed under the account id it
    has, and only once; and the sessions waiting to be accepted are not in it. *)
Theorem session_map_invariant m fs time g created w0 es w :
  boot m fs time g created = (Ret true, w0) -> trace w0 es w ->
  registry_wf w /\
  forall p, p ∈ sv_accepting (w_server w) -> forall a, p ∉ listed (w_registry w) a.
Proof.
  intros Hb Ht. destruct (trace_inv_kept _ _ _ _ _ _ _ _ Hb Ht) as [Hr Ha].
  split; [done|]. intros p Hp. by apply Ha.
Qed.

(** C2: What a client may do before it has logged in: of the twelve request types only the
    creation of an account and the login do anything. The other ten are refused with
    "Operation not permitted", the answer being the only effect; and a client that is logged
    in is refused a second login and the creation of an account in the same way. *)
Theorem access_control p s req w :
  w_sessions w !! p = Some s ->
  let t := int_of req "requestType" in
  t ∈ request_types ->
  (if decide (s_status s < STATUS_LOGGEDIN)
   then t <> Req_CreateAccount /\ t <> Req_Login
   else t = Req_CreateAccount \/ t = Req_Login) ->
  processIncomingRequest p req w =
    (Ret false, with_sessions (<[p := with_engine (s_engine s ++
       [CallFailure (requestId_of req) 0 "Operation not permitted"]) s]> (w_sessions w)) w).
Proof.
  intros Hs t Ht Hcase.
  assert (Hrefuse : (postRequestFailure p (requestId_of req) 0 "Operation not permitted" ;;
                     ret false)%zway w =
    (Ret false, with_sessions (<[p := with_engine (s_engine s ++
       [CallFailure (requestId_of req) 0 "Operation not permitted"]) s]> (w_sessions w)) w)).
  { unfold bindM, postRequestFailure. by rewrite (run_on_session p s). }
  assert (Hstatus : forall A (k : Z -> M world A),
            bindM (the_status p) k w = k (s_status s) w).
  { intros A k. unfold the_status, bindM. by rewrite (run_session_at p s). }
  unfold processIncomingRequest. cbv zeta. fold t.
  pose proof request_types_distinct as [Hd1 Hd2].
  case_decide as Hst.
  - destruct Hcase as [Hn1 Hn2]. rewrite <- Z.ltb_lt in Hst.
    repeat (case_decide; [try done; unfold processDispatchRequest, processLogout,
      processConfigRequest, processAddContactRequest, processCreateAddCode,
      processFindContactRequest, processAcceptContact, processRejectContact,
      processContactStatusRequest, processPushRequest, reply_failure; cbv zeta;
      rewrite Hstatus, Hst; exact Hrefuse|]).
    unfold request_types in Ht. rewrite !elem_of_cons, elem_of_nil in Ht. tauto.
  - assert (Hge : s_status s >=? STATUS_LOGGEDIN = true) by lia.
    destruct Hcase as [E|E]; rewrite E; rewrite ?(decide_False (P := Req_CreateAccount = Req_Dispatch)),
      ?(decide_False (P := Req_Login = Req_Dispatch)), ?(decide_False (P := Req_Login = Req_CreateAccount)),
      decide_True by (done || apply request_types_distinct2).
    + unfold processCreateAccount. cbv zeta. rewrite Hstatus, Hge. exact Hrefuse.
    + unfold processLogin. cbv zeta. rewrite Hstatus, Hge. exact Hrefuse.
Qed.
End reachable.
