(* ===== verification/Accounts.v ===== *)
(** * Accounts: from registration to login

    [processCreateAccount] stores a salted hash of the password under a fresh id, and
    [processLogin] finds it again. *)

From S2P Require Import Prelude Values Platform Codec Pool Db Stdio StreamBuffer Streams World.
From S2P Require Import Registry Transport Session Contacts Requests Fcm Server Console Frames.
From S2P Require Import System Auth.

Local Open Scope zway_scope.
Local Open Scope Z_scope.

Section accounts.
Context `{PlatformLaws}.

Lemma newAccountId_inv s a s' :
  newAccountId s = (Ret a, s') -> db_ready s /\ s' = used s (db_mongo s) /\ is_u32 a.
Proof.
  destruct (decide (db_ready s)) as [Hr|Hr].
  2:{ destruct s as [[|c q] m]; [by intros [=]|]. exfalso. by apply Hr. }
  rewrite newAccountId_eq by done. intros [= Ha <-]. split_and!; [done..|].
  repeat case_match; simplify_eq; first [apply u32_range|unfold is_u32; lia].
Qed.

Definition account_doc (id : Z) (head : uobj) (pass salt : list Byte.byte) : doc :=
  [("id"%string, bson_u32 id);
   ("name"%string, BString (str_of head "name"));
   ("phone"%string, BString (str_of head "phone"));
   ("findByName"%string, BBool (bool_of head "findByName"));
   ("findByPhone"%string, BBool (bool_of head "findByPhone"));
   ("pass"%string, BBinData pass);
   ("salt"%string, BBinData salt)].

(** What a successful registration has done. *)
Lemma createAccount_inv p s head w w' :
  w_sessions w !! p = Some s -> processCreateAccount p head w = (Ret true, w') ->
  exists a salt pass password m', 
    ubj_buffer (ubj_get head "password") = Some password /\
    password_hash password salt = Some pass /\
    db_ready (w_db w) /\ is_u32 a /\
    (newAccountId (used (w_db w) (db_mongo (w_db w)))).1 = Ret a /\
    db_insert "zway.accounts" (account_doc a head pass salt) (db_mongo (w_db w)) = (true, m') /\
    db_mongo (w_db w') = m' /\ db_ready (w_db w') /\
    w_sessions w' = <[p := with_engine (s_engine s ++ [CallSuccess (requestId_of head)
      (Some (UBJ_OBJ [("accountId"%string, ubj_of_uint32 a)]))]) s]> (w_sessions w).
Proof.
  intros Hs. unfold processCreateAccount. cbv zeta. intros Hrun.
  rewrite (run_bind_Ret _ _ _ _ _ (run_the_status p s w Hs)) in Hrun.
  assert (Hfail : forall id m (w1 w2 : world),
            (postRequestFailure p id 0 m;; ret false)%zway w1 <> (Ret true, w2)).
  { intros id m w1 w2 Hr. by apply run_bind_inv in Hr as (? & ? & _ & [=]). }
  destruct (s_status s >=? _); [by apply Hfail in Hrun|].
  destruct (negb _ || _); [by apply Hfail in Hrun|].
  destruct (negb _ || _); [by apply Hfail in Hrun|].
  apply run_bind_inv in Hrun as (q & w1 & Hb & Hrun). apply BSON_inv in Hb as [_ ->].
  apply run_bind_inv in Hrun as (acc & w1 & Hg & Hrun).
  destruct acc; [by apply Hfail in Hrun|].
  apply on_db_inv in Hg as (d1 & Hg & ->). unfold getAccount in Hg.
  apply with_lock_inv in Hg as (Hr & _ & ->). simpl in Hrun.
  apply run_bind_inv in Hrun as (a & w1 & Hn & Hrun).
  apply on_db_inv in Hn as (d1 & Hn & ->). simpl in Hn.
  assert (Ha : (newAccountId (used (w_db w) (db_mongo (w_db w)))).1 = Ret a) by by rewrite Hn.
  apply newAccountId_inv in Hn as (Hr1 & -> & Hau). simpl in Hrun.
  destruct SHA256_Init as [ctx|] eqn:Hi; [|done].
  destruct (ubj_buffer (ubj_get head "password")) as [password|] eqn:Hpw; [|done].
  destruct (SHA256_Update ctx password) as [c1|] eqn:Hu; [|done].
  apply run_bind_inv in Hrun as (salt & w1 & Hra & Hrun).
  apply RAND_inv in Hra as (g & ->).
  destruct (SHA256_Update c1 salt ≫= _) as [pass|] eqn:Hh; [|done].
  apply run_bind_inv in Hrun as (ins & w1 & Hins & Hrun).
  apply on_db_inv in Hins as (d1 & Hins & ->). unfold insertAccount in Hins.
  apply with_lock_inv in Hins as (Hr2 & Hok & ->). simpl in Hok.
  destruct ins; cbn [negb] in Hrun; [|by apply Hfail in Hrun].
  apply run_bind_inv in Hrun as (u & w1 & Hpost & Hrun). injection Hrun as <-.
  unfold postRequestSuccess in Hpost. rewrite (run_on_session p s) in Hpost by done.
  injection Hpost as _ <-. simpl.
  set (m2 := (db_insert _ _ (db_mongo (w_db w))).2).
  exists a, salt, pass, password, m2. split_and!; try done.
  - unfold password_hash. rewrite Hi. simpl. rewrite Hu. done.
  - unfold m2, account_doc. destruct (db_insert _ _ _) as [b m3] eqn:E. simpl in *. congruence.
  - by do 3 apply used_ready.
Qed.
End accounts.

(** ** Login *)

(** The account and status of a session stay. *)
Definition sess_same (s s' : session) : Prop :=
  s_accountId s' = s_accountId s /\ s_status s' = s_status s.

#[export] Instance sess_same_preorder : PreOrder sess_same.
Proof.
  split; [by split|]. intros s1 s2 s3 [? ?] [? ?]. split; congruence.
Qed.

Section login_runs.
Context `{PlatformLaws}.

Lemma background_same {A} (m : M world A) :
  preserves background m -> preserves (world_rel sess_same) m.
Proof.
  intros Hm w. destruct (Hm w) as [Hs ? ? ?]. split; [|done..].
  intros p. destruct (Hs p) as [? ? [? ? _]|]; by constructor.
Qed.

Lemma after_login_same p head a : preserves (world_rel sess_same) (after_login p head a).
Proof.
  unfold after_login.
  pose proof (fun c => background_same _ (frame_setConfig p c)) as Hc.
  pose proof (background_same _ (frame_contact_statuses p)) as Hs.
  pose proof (background_same _ (frame_processRequests p)) as Hr.
  pose proof (frame_getInbox sess_same a) as Hi.
  frame; eauto. by intros s.
Qed.

Lemma login_accepted p s req w acc w1 :
  w_sessions w !! p = Some s -> s_status s < STATUS_LOGGEDIN ->
  hasField req "account" = true -> hasField req "password" = true ->
  let a := u32 (int_of req "account") in
  on_db (getAccount [("id"%string, bson_u32 a)]
           [("pass"%string, BInt 1); ("salt"%string, BInt 1)]) w = (Ret (Some acc), w1) ->
  verifyPassword acc (ubj_buffer (ubj_get req "password")) w1 = (Ret true, w1) ->
  let w' := (processLogin p req w).2 in
  exists s', w_sessions w' !! p = Some s' /\ s_status s' = STATUS_LOGGEDIN /\
    s_accountId s' = a /\ p ∈ listed (w_registry w') a.
Proof.
  intros Hs Hst Ha Hp a Hg Hv. cbn zeta.
  assert (Hs1 : w_sessions w1 !! p = Some s).
  { apply getAccount_inv in Hg as (-> & _). done. }
  destruct (record_login_run p s a w1 Hs1) as (reg & Hrec & Hin & _).
  set (w2 := with_registry _ _) in Hrec.
  assert (Hrun : processLogin p req w = after_login p req a w2).
  { unfold processLogin. cbv zeta. rewrite (run_bind_Ret _ _ _ _ _ (run_the_status p s w Hs)).
    assert (s_status s >=? STATUS_LOGGEDIN = false) as -> by (unfold STATUS_LOGGEDIN in *; lia).
    rewrite Ha, Hp. cbn [negb]. fold a.
    rewrite (run_bind_Ret _ _ _ _ _ Hg). rewrite (run_bind_Ret _ _ _ _ _ Hv). cbn [negb].
    rewrite login_tail. by rewrite (run_bind_Ret _ _ _ _ _ Hrec). }
  rewrite Hrun. destruct (after_login_same p req a w2) as [Hss Hreg _ _].
  specialize (Hss p). unfold w2 in Hss. simpl in Hss. rewrite lookup_insert_eq in Hss.
  inversion Hss as [? s' [E1 E2] E3 E4|]; subst. exists s'. rewrite Hreg. split_and!; done.
Qed.

Lemma login_refused p s req w acc w1 :
  w_sessions w !! p = Some s -> s_status s < STATUS_LOGGEDIN ->
  hasField req "account" = true -> hasField req "password" = true ->
  on_db (getAccount [("id"%string, bson_u32 (u32 (int_of req "account")))]
           [("pass"%string, BInt 1); ("salt"%string, BInt 1)]) w = (Ret (Some acc), w1) ->
  verifyPassword acc (ubj_buffer (ubj_get req "password")) w1 = (Ret false, w1) ->
  processLogin p req w =
    (Ret false, with_sessions (<[p := with_engine (s_engine s ++
       [CallFailure (requestId_of req) 0 "login failed"]) s]> (w_sessions w1)) w1).
Proof.
  intros Hs Hst Ha Hp Hg Hv.
  assert (Hs1 : w_sessions w1 !! p = Some s) by (apply getAccount_inv in Hg as (-> & _); done).
  unfold processLogin. cbv zeta. rewrite (run_bind_Ret _ _ _ _ _ (run_the_status p s w Hs)).
  assert (s_status s >=? STATUS_LOGGEDIN = false) as -> by (unfold STATUS_LOGGEDIN in *; lia).
  rewrite Ha, Hp. cbn [negb]. rewrite (run_bind_Ret _ _ _ _ _ Hg).
  rewrite (run_bind_Ret _ _ _ _ _ Hv). cbn [negb]. unfold bindM, postRequestFailure.
  by rewrite (run_on_session p s).
Qed.

Lemma password_hash_length pw salt digest :
  password_hash pw salt = Some digest -> length digest = 32%nat.
Proof.
  intros Hd. unfold password_hash in Hd. destruct SHA256_Init as [c|]; [simpl in Hd|done].
  destruct (SHA256_Update c pw) as [c1|]; [simpl in Hd|done].
  destruct (SHA256_Update c1 salt) as [c2|]; [simpl in Hd|done]. by eapply SHA256_length.
Qed.

Lemma verifyPassword_run acc pw salt pass w :
  bson_binData (bson_get acc "salt") = Some salt ->
  bson_binData (bson_get acc "pass") = Some pass ->
  verifyPassword acc (Some pw) w =
    (Ret (match password_hash pw salt with
          | Some digest => bool_decide (take (length pass) digest = pass)
          | None => false
          end), w).
Proof.
  intros Hsalt Hpass. unfold verifyPassword, bindM, or_throw, password_hash.
  rewrite Hsalt, Hpass. simpl. destruct SHA256_Init as [c|]; [|done]. simpl.
  destruct (SHA256_Update c pw) as [c1|]; [|done]. simpl.
  destruct (SHA256_Update c1 salt) as [c2|]; [|done]. simpl. by destruct (SHA256_Final c2).
Qed.

(** The one account with a fresh id, as a login finds it. *)
Lemma registered_account_found m m' a req pass salt :
  db_insert "zway.accounts" (account_doc a req pass salt) m = (true, m') ->
  account_ids_int m ->
  (forall d z, d ∈ docs "zway.accounts" m -> field "id" d = Some (BInt z) -> z < i32 a) ->
  let f := [("pass"%string, BInt 1); ("salt"%string, BInt 1)] in
  (db_query "zway.accounts" [("id"%string, bson_u32 a)] None 0 (Some f) m').2 = true ->
  exists acc, head (db_query "zway.accounts" [("id"%string, bson_u32 a)] None 0 (Some f) m').1 = Some acc /\
    bson_get acc "pass" = BBinData pass /\ bson_get acc "salt" = BBinData salt.
Proof.
  intros Hins Hids Hfresh f Hended. cbn zeta.
  destruct (insert_result _ _ _ _ Hins) as [(d' & Hst & Hp) _].
  destruct (db_query _ _ _ _ _ _) as [l ended] eqn:Hq. simpl in Hended. subst ended.
  destruct (query_result _ _ 0 _ _ _ _ (Z.le_refl 0) Hq) as (sel & rest & Hs & -> & Hall & _).
  rewrite (Hall eq_refl eq_refl), app_nil_r in Hs. rewrite Hp in Hs.
  assert (Hid' : field "id" d' = Some (bson_u32 a)) by by rewrite Hst.
  rewrite filter_cons_True in Hs by (apply (account_query_matches a d'); [unfold bson_u32 in *; eauto|done]).
  assert (Hnone : filter (fun d => matches [("id"%string, bson_u32 a)] d = true)
                    (docs "zway.accounts" m) = []).
  { apply filter_none. intros d Hd Hm.
    destruct (Hids d Hd) as (z & Hz & _).
    apply (account_query_matches a d) in Hm; [|eauto]. rewrite Hz in Hm. injection Hm as ->.
    specialize (Hfresh d _ Hd Hz). lia. }
  rewrite Hnone in Hs. apply Permutation_singleton_r in Hs as ->.
  exists (project (Some f) d'). split; [done|]. unfold bson_get.
  rewrite !project_field by set_solver. by rewrite !Hst.
Qed.
End login_runs.

Section registration.
Context `{PlatformLaws}.

Definition account_fields : doc := [("pass"%string, BInt 1); ("salt"%string, BInt 1)].

(** C6: Registration and login fit together. When the creation of an account has succeeded,
    the answer carries an id that no account had, and from then on a login, by any session
    that is not logged in, to that account with the password of the registration is accepted:
    the session is logged in to the account and listed for it. With a password whose salted
    hash is another one it is refused with "login failed" and the session stays as it
    was. *)
Theorem register_then_login p s req w w1 :
  w_sessions w !! p = Some s -> account_ids_int (db_mongo (w_db w)) ->
  (forall d, d ∈ docs "zway.accounts" (db_mongo (w_db w)) -> field "id" d <> Some (BInt (2 ^ 31 - 1))) ->
  newest_account (db_mongo (w_db w)) <> ([], false) ->
  processCreateAccount p req w = (Ret true, w1) ->
  exists a salt pass,
    w_sessions w1 = <[p := with_engine (s_engine s ++ [CallSuccess (requestId_of req)
      (Some (UBJ_OBJ [("accountId"%string, ubj_of_uint32 a)]))]) s]> (w_sessions w) /\
    is_u32 a /\
    (forall d, d ∈ docs "zway.accounts" (db_mongo (w_db w)) -> field "id" d <> Some (bson_u32 a)) /\
    forall q sq login w2,
      w_db w2 = w_db w1 -> w_sessions w2 !! q = Some sq -> s_status sq < STATUS_LOGGEDIN ->
      hasField login "account" = true -> hasField login "password" = true ->
      u32 (int_of login "account") = a ->
      (db_query "zway.accounts" [("id"%string, bson_u32 a)] None 0 (Some account_fields)
         (db_mongo (w_db w2))).2 = true ->
      let w3 := (processLogin q login w2).2 in
      (ubj_buffer (ubj_get login "password") = ubj_buffer (ubj_get req "password") ->
         exists s', w_sessions w3 !! q = Some s' /\ s_status s' = STATUS_LOGGEDIN /\
           s_accountId s' = a /\ q ∈ listed (w_registry w3) a) /\
      (forall other, ubj_buffer (ubj_get login "password") = Some other ->
         (forall digest, password_hash other salt = Some digest -> digest <> pass) ->
         w_sessions w3 = <[q := with_engine (s_engine sq ++
           [CallFailure (requestId_of login) 0 "login failed"]) sq]> (w_sessions w2) /\
         w_registry w3 = w_registry w2).
Proof.
  intros Hs Hids Hmax Hok Hrun.
  destruct (createAccount_inv p s req w w1 Hs Hrun)
    as (a & salt & pass & password & m' & Hpw & Hh & Hr & Hau & Ha & Hins & Hm' & Hr1 & Hss).
  assert (Hfresh : forall d z, d ∈ docs "zway.accounts" (db_mongo (w_db w)) ->
            field "id" d = Some (BInt z) -> z < i32 a).
  { destruct (newAccountId_fresh (used (w_db w) (db_mongo (w_db w))) (used_ready _ _ Hr) Hids Hmax)
      as (a' & Hrun' & [[Hbad _]|Hf]); [done|]. rewrite Hrun' in Ha. by injection Ha as <-. }
  exists a, salt, pass. split; [done|]. split; [done|]. split.
  { intros d Hd Hf. specialize (Hfresh d _ Hd Hf). lia. }
  intros q sq login w2 Hdb Hq Hst Hfa Hfp Hla Hend. cbn zeta. rewrite Hdb, Hm' in Hend.
  destruct (registered_account_found _ _ a req pass salt Hins Hids Hfresh Hend)
    as (acc & Hhead & Hpass & Hsalt). fold account_fields in Hhead.
  set (w3 := with_db (used (w_db w2) (db_mongo (w_db w2))) w2).
  assert (Hg : on_db (getAccount [("id"%string, bson_u32 a)] account_fields) w2 = (Ret (Some acc), w3)).
  { unfold on_db, zoom, getAccount. rewrite with_lock_run by (by rewrite Hdb). simpl.
    rewrite Hdb, Hm', Hhead. unfold w3. by rewrite Hdb, Hm'. }
  pose proof (password_hash_length _ _ _ Hh) as Hlen.
  assert (Hv : forall pw, verifyPassword acc (Some pw) w3 =
    (Ret (match password_hash pw salt with Some digest => bool_decide (take (length pass) digest = pass)
          | None => false end), w3)).
  { intros pw. apply verifyPassword_run; [by rewrite Hsalt, bson_binData_bin|by rewrite Hpass, bson_binData_bin]. }
  split.
  - intros Hsame. rewrite <- Hla in Hg. subst a.
    apply (login_accepted q sq login w2 acc w3 Hq Hst Hfa Hfp Hg).
    rewrite Hsame, Hpw, Hv, Hh. rewrite bool_decide_eq_true_2; [done|].
    rewrite take_ge; [done|lia].
  - intros other Hother Hne. rewrite <- Hla in Hg. subst a.
    rewrite (login_refused q sq login w2 acc w3 Hq Hst Hfa Hfp Hg); [done|].
    rewrite Hother, Hv. destruct (password_hash other salt) as [digest|] eqn:E; [|done].
    rewrite bool_decide_eq_false_2; [done|]. intros Ht. apply (Hne digest eq_refl).
    rewrite take_ge in Ht; [done|]. rewrite (password_hash_length _ _ _ E). lia.
Qed.

End registration.
