(* ===== verification/Presence.v ===== *)
(** * Who is online, and who is told

    [getContactStatus] answers from the configuration of an account's sessions,
    [broadcastStatus] tells the sessions of the contacts, and [processLogout] is expected
    to take a client off line. *)

From S2P Require Import Prelude Values Platform Codec Pool Db Stdio StreamBuffer Streams World.
From S2P Require Import Registry Transport Session Contacts Requests Fcm Server Console Frames.

Local Open Scope zway_scope.
Local Open Scope Z_scope.

Section presence.
Context `{PlatformLaws}.

Definition notifies (w : world) (q : nat) : Prop :=
  exists s, w_sessions w !! q = Some s /\ bool_of (s_config s) "notifyStatus" = true.

Lemma any_notifies_run l w :
  (forall q, q ∈ l -> is_Some (w_sessions w !! q)) ->
  exists n, any_notifies l w = (Ret n, w) /\ (n = 0 \/ n = 1) /\
    (n = 1 <-> exists q, q ∈ l /\ notifies w q).
Proof.
  induction l as [|q l IH]; intros Hl; cbn [any_notifies].
  { exists 0. split_and!; [done|by left|]. split; [done|]. intros (q & Hq & _). set_solver. }
  destruct (Hl q) as [s Hs]; [left|].
  destruct IH as (n & Hn & H01 & Hiff); [intros q' Hq'; apply Hl; by right|].
  unfold bindM. rewrite (run_session_at q s) by done.
  destruct (bool_of (s_config s) "notifyStatus") eqn:Hb.
  - exists 1. split_and!; [done|by right|]. split; [|done]. intros _. exists q.
    split; [left|by exists s].
  - exists n. split_and!; [done|done|]. rewrite Hiff. split.
    + intros (q' & Hq' & Hno). exists q'. split; [by right|done].
    + intros (q' & [->|Hq']%elem_of_cons & Hno); [|eauto].
      destruct Hno as (s' & Hs' & Hb'). congruence.
Qed.

Lemma getContactStatus_run c w :
  registry_wf w ->
  exists n, getContactStatus c w = (Ret n, w) /\ (n = 0 \/ n = 1) /\
    (n = 1 <-> exists q, q ∈ listed (w_registry w) c /\ notifies w q).
Proof.
  intros Hwf. apply any_notifies_run. intros q Hq.
  destruct (reg_account _ Hwf c q Hq) as (s & Hs & _). eauto.
Qed.

(** *** Broadcasting *)

Lemma add_all i t o l w :
  NoDup l -> (forall q, q ∈ l -> is_Some (w_sessions w !! q)) ->
  exists m, for_each l (fun q => addUbjSender q i t o) w = (Ret tt, with_sessions m w) /\
    forall q, m !! q = (if decide (q ∈ l) then
      (fun s => with_engine (s_engine s ++ [CallAddUbjSender i t o]) s) <$> w_sessions w !! q
      else w_sessions w !! q).
Proof.
  revert w. induction l as [|p l IH]; intros w Hnd Hl.
  { exists (w_sessions w). split; [by destruct w|]. intros q. by rewrite decide_False by set_solver. }
  apply NoDup_cons in Hnd as [Hp Hnd]. destruct (Hl p) as [s Hs]; [left|].
  cbn [for_each]. unfold bindM at 1, addUbjSender at 1. rewrite (run_on_session p s) by done.
  cbn [fst snd engine_call_ modify]. set (w1 := with_sessions _ w).
  destruct (IH w1 Hnd) as (m & Hrun & Hm).
  { intros q Hq. unfold w1. simpl. rewrite lookup_insert_ne by set_solver. apply Hl. by right. }
  exists m. split; [exact Hrun|]. intros q. rewrite Hm. unfold w1. cbn [w_sessions with_sessions].
  rewrite lookup_insert. destruct (decide (p = q)) as [<-|Hne].
  - rewrite decide_False by done. rewrite decide_True by left. by rewrite Hs.
  - destruct (decide (q ∈ l)); [rewrite decide_True by by right|rewrite decide_False by set_solver]; done.
Qed.

Definition status_obj (accountId status : Z) : uobj :=
  UBJ_OBJ [("requestType"%string, UInt32 Req_ContactStatus);
           ("contactStatus"%string, UArray [UObject (UBJ_OBJ
             [("contactId"%string, ubj_of_uint32 accountId);
              ("status"%string, ubj_of_uint32 status)])])].

(** The calls of the engines that tell of a status. *)
Definition told (accountId status : Z) (l : list engine_call) : Prop :=
  exists i, l = [CallAddUbjSender i Stream_Request (status_obj accountId status)].

Definition tells (cs : list (Z * uobj)) (a : Z) : bool :=
  existsb (fun it => bool_decide (it.1 = a) && bool_of it.2 "notifyStatus") cs.

(** [w'] is [w] where the sessions listed for the contacts [cs] that want to know have
    been told. *)
Definition told_all (accountId status : Z) (cs : list (Z * uobj)) (w w' : world) : Prop :=
  w_registry w' = w_registry w /\
  forall q, match w_sessions w !! q, w_sessions w' !! q with
            | Some s, Some s' => exists l, s' = with_engine (s_engine s ++ l) s /\
                if tells cs (s_accountId s) && bool_decide (q ∈ listed (w_registry w) (s_accountId s))
                then told accountId status l else l = []
            | None, None => True
            | _, _ => False
            end.

Definition tell_contact (accountId status : Z) (it : Z * uobj) : M world unit :=
  if bool_of it.2 "notifyStatus" then
    let* sessions := getSessions it.1 in
    match sessions with
    | [] => ret tt
    | _ => let* bytes := RAND 4 in
           for_each sessions (fun q => addUbjSender q (le_combine bytes) Stream_Request
                                         (status_obj accountId status))
    end
  else ret tt.

Lemma session_engine_eta s : with_engine (s_engine s ++ []) s = s.
Proof. rewrite app_nil_r. by destruct s. Qed.

Lemma told_all_refl a st w : told_all a st [] w w.
Proof.
  split; [done|]. intros q. destruct (w_sessions w !! q) as [s|]; [|done].
  exists []. split; [by rewrite session_engine_eta|done].
Qed.

(** A session is listed for one account, so that one contact at most concerns it. *)
Lemma tell_contact_run a st it w :
  registry_wf w ->
  exists w', tell_contact a st it w = (Ret tt, w') /\ told_all a st [it] w w'.
Proof.
  intros Hwf. unfold tell_contact.
  assert (Hid : forall b : bool, (b = true -> bool_of it.2 "notifyStatus" = true -> listed (w_registry w) it.1 = []) ->
            (b = false -> bool_of it.2 "notifyStatus" = false) -> told_all a st [it] w w).
  { intros b Ht Hf. split; [done|]. intros q. destruct (w_sessions w !! q) as [s|] eqn:Hq; [|done].
    exists []. split; [by rewrite session_engine_eta|]. unfold tells. simpl.
    destruct (bool_decide (it.1 = s_accountId s)) eqn:E1; [|done].
    apply bool_decide_eq_true in E1. destruct (bool_of it.2 "notifyStatus") eqn:E2; [|done]. simpl.
    destruct b; [|specialize (Hf eq_refl); congruence]. rewrite <- E1, Ht by done.
    by rewrite bool_decide_false by set_solver. }
  destruct (bool_of it.2 "notifyStatus") eqn:Hb; [|exists w; split; [done|by apply (Hid false)]].
  unfold bindM at 1. rewrite getSessions_run.
  destruct (listed (w_registry w) it.1) as [|q0 l] eqn:Hl; [exists w; split; [done|by apply (Hid true)]|].
  rewrite <- Hl in *. clear Hid.
  assert (Hrand : exists bs g, RAND 4 w = (Ret bs, with_rng g w)).
  { unfold RAND. destruct (RAND_pseudo_bytes 4 (w_rng w)) as [bs g]. by exists bs, g. }
  destruct Hrand as (bs & g & Hr). rewrite (run_bind_Ret _ _ _ _ _ Hr).
  destruct (add_all (le_combine bs) Stream_Request (status_obj a st) (listed (w_registry w) it.1)
              (with_rng g w)) as (m & Hrun & Hm).
  { apply (reg_once _ Hwf). }
  { intros q Hq. destruct (reg_account _ Hwf _ _ Hq) as (s & Hs & _). simpl. eauto. }
  rewrite Hrun. eexists. split; [done|]. split; [done|]. intros q. simpl. rewrite Hm. simpl.
  destruct (w_sessions w !! q) as [s|] eqn:Hq; [|by case_decide].
  unfold tells. simpl. rewrite Hb. case_decide as Hin; simpl.
  - destruct (reg_account _ Hwf _ _ Hin) as (s' & Hs' & E). simplify_eq.
    eexists. split; [done|]. rewrite E, !bool_decide_eq_true_2 by done. simpl. by eexists.
  - exists []. split; [by rewrite session_engine_eta|].
    destruct (bool_decide (it.1 = s_accountId s)) eqn:E1; [|done].
    apply bool_decide_eq_true in E1. rewrite <- E1. by rewrite bool_decide_false.
Qed.

Lemma tells_cons it cs a : tells (it :: cs) a = (bool_decide (it.1 = a) && bool_of it.2 "notifyStatus") || tells cs a.
Proof. done. Qed.

Lemma tells_absent cs a : a ∉ cs.*1 -> tells cs a = false.
Proof.
  induction cs as [|it cs IH]; [done|]. intros Ha. csimpl in Ha. rewrite tells_cons, IH by set_solver.
  rewrite bool_decide_false; [done|]. set_solver.
Qed.

Lemma told_all_cons a st it cs w1 w2 w3 :
  it.1 ∉ cs.*1 -> told_all a st [it] w1 w2 -> told_all a st cs w2 w3 -> told_all a st (it :: cs) w1 w3.
Proof.
  intros Hni [R12 S12] [R23 S23]. split; [congruence|]. intros q.
  specialize (S12 q). specialize (S23 q).
  destruct (w_sessions w1 !! q) as [s1|], (w_sessions w2 !! q) as [s2|],
    (w_sessions w3 !! q) as [s3|]; try done.
  destruct S12 as (l1 & -> & H1), S23 as (l2 & -> & H2). simpl in H2.
  exists (l1 ++ l2). split; [by rewrite app_assoc|]. rewrite tells_cons. rewrite R12 in H2.
  rewrite tells_cons, orb_false_r in H1. 
  destruct (bool_decide (it.1 = s_accountId s1) && bool_of it.2 "notifyStatus") eqn:E; simpl in *.
  - apply andb_prop in E as [E%bool_decide_eq_true _].
    rewrite tells_absent in H2 by congruence. simpl in H2. subst l2. by rewrite app_nil_r.
  - subst l1. done.
Qed.

Lemma told_all_wf a st cs w w' : told_all a st cs w w' -> registry_wf w -> registry_wf w'.
Proof.
  intros [R S] [W1 W2 W3]. split; [by rewrite R| |by rewrite R].
  intros b q. rewrite R. intros Hq. destruct (W2 b q Hq) as (s & Hs & Ea).
  specialize (S q). rewrite Hs in S. destruct (w_sessions w' !! q) as [s'|]; [|done].
  destruct S as (l & -> & _). eexists. split; [done|]. done.
Qed.

Lemma tell_contacts_run a st cs w :
  registry_wf w -> NoDup cs.*1 ->
  exists w', for_each cs (tell_contact a st) w = (Ret tt, w') /\ told_all a st cs w w'.
Proof.
  revert w. induction cs as [|it cs IH]; intros w Hwf Hnd.
  { exists w. split; [done|apply told_all_refl]. }
  csimpl in Hnd. apply NoDup_cons in Hnd as [Hni Hnd].
  destruct (tell_contact_run a st it w Hwf) as (w1 & Hrun1 & Ht1).
  destruct (IH w1 (told_all_wf _ _ _ _ _ Ht1 Hwf) Hnd) as (w2 & Hrun2 & Ht2).
  exists w2. cbn [for_each]. rewrite (run_bind_Ret _ _ _ _ _ Hrun1). split; [done|].
  by eapply told_all_cons.
Qed.

Lemma tells_contacts (m : gmap Z uobj) a :
  tells (in_key_order m) a = true <->
  exists o, m !! a = Some o /\ bool_of o "notifyStatus" = true.
Proof.
  unfold tells. rewrite existsb_exists. split.
  - intros ([k o] & Hin%list_elem_of_In & [Hk%bool_decide_eq_true Hb]%andb_prop). simpl in *. subst.
    exists o. split; [by apply elem_of_in_key_order|done].
  - intros (o & Ho & Hb). exists (a, o). split.
    + by apply list_elem_of_In, elem_of_in_key_order.
    + simpl. by rewrite bool_decide_true.
Qed.

Lemma broadcast_run p s st w :
  w_sessions w !! p = Some s -> registry_wf w ->
  exists w', broadcastStatus p st false w = (Ret tt, w') /\
    told_all (s_accountId s) st (in_key_order (s_contacts s)) w w'.
Proof.
  intros Hs Hwf. unfold broadcastStatus, bindM at 1. rewrite (run_session_at p s) by done.
  cbn [andb]. apply (tell_contacts_run (s_accountId s) st); [done|apply in_key_order_NoDup].
Qed.

(** The same sessions under the same accounts. *)
Lemma registry_wf_insert p s s' w :
  registry_wf w -> w_sessions w !! p = Some s -> s_accountId s' = s_accountId s ->
  registry_wf (with_sessions (<[p := s']> (w_sessions w)) w).
Proof.
  intros [W1 W2 W3] Hs Ha. split; [done| |done]. intros a q Hq. simpl in *.
  destruct (W2 a q Hq) as (sq & Hsq & E). destruct (decide (p = q)) as [->|Hne].
  - exists s'. rewrite lookup_insert_eq. split; [done|]. congruence.
  - exists sq. by rewrite lookup_insert_ne.
Qed.

(** What each session is told, said of one session at a time. *)
Lemma told_all_spec a st m w w' q sq :
  told_all a st (in_key_order m) w w' -> w_sessions w !! q = Some sq ->
  exists l, w_sessions w' !! q = Some (with_engine (s_engine sq ++ l) sq) /\
    let concerned := (exists o, m !! s_accountId sq = Some o /\ bool_of o "notifyStatus" = true) /\
                     q ∈ listed (w_registry w) (s_accountId sq) in
    (concerned -> told a st l) /\ (~ concerned -> l = []).
Proof.
  intros [_ Hall] Hq. specialize (Hall q). rewrite Hq in Hall.
  destruct (w_sessions w' !! q) as [s'|]; [|done]. destruct Hall as (l & -> & Hl).
  exists l. split; [done|]. cbv zeta. rewrite <- tells_contacts.
  destruct (tells _ _) eqn:Et; simpl in Hl.
  - case_bool_decide as Hin; split; [done|tauto|tauto|done].
  - split; [intros [? _]; done|done].
Qed.

(** *** The configuration *)

(** The broadcast is no affair of the database. *)
Definition db_same (w w' : world) : Prop := w_db w' = w_db w.

#[export] Instance db_same_preorder : PreOrder db_same.
Proof. unfold db_same. split; [by intros w|]. intros w1 w2 w3. congruence. Qed.

Lemma db_on_session {A} p (m : M session A) : preserves db_same (on_session p m).
Proof. intros w. unfold on_session. destruct (w_sessions w !! p) as [s|]; [by destruct (m s)|done]. Qed.

Lemma broadcast_db p st chk : preserves db_same (broadcastStatus p st chk).
Proof.
  assert (Hat : forall q, preserves db_same (session_at q)).
  { intros q w. unfold session_at. by destruct (w_sessions w !! q). }
  assert (Hr : preserves db_same (RAND 4)).
  { intros w. unfold RAND. by destruct (RAND_pseudo_bytes 4 (w_rng w)). }
  assert (Hg : forall c, preserves db_same (getSessions c)) by (intros c w; by rewrite getSessions_run).
  unfold broadcastStatus, addUbjSender. apply preserves_bind; [apply _|done|]. intros s.
  case_match; [apply preserves_ret, _|]. apply preserves_for_each; [apply _|]. intros it _.
  case_match; [|apply preserves_ret, _]. apply preserves_bind; [apply _|done|]. intros l.
  case_match; [apply preserves_ret, _|]. apply preserves_bind; [apply _|done|]. intros bs.
  apply preserves_for_each; [apply _|]. intros q _. apply db_on_session.
Qed.

(** The contacts and the configuration [setConfig] leaves in the session. *)
Definition contacts_after (s : session) (config : uobj) : gmap Z uobj :=
  if hasField config "contacts" then read_contacts (array_of config "contacts") else s_contacts s.
Definition configured (s : session) (config : uobj) : session :=
  with_config config (with_contacts (contacts_after s config) s).

Lemma when_update_run b p s f w : w_sessions w !! p = Some s ->
  when b (update p f) w = (Ret tt, with_sessions (<[p := if b then f s else s]> (w_sessions w)) w).
Proof.
  intros Hs. destruct b; [by apply run_update|]. rewrite insert_id by done. by destruct w.
Qed.

Lemma setConfig_run p s config w :
  w_sessions w !! p = Some s -> registry_wf w -> db_ready (w_db w) ->
  let new := bool_of config "notifyStatus" in
  exists w1 w', setConfig p config w = (Ret true, w') /\
    w_registry w1 = w_registry w /\ w_sessions w1 = <[p := configured s config]> (w_sessions w) /\
    w_db w' = (if hasField config "fcmToken"
               then (setFcmToken (s_accountId s) (str_of config "fcmToken") (w_db w)).2 else w_db w) /\
    if Bool.eqb new (bool_of (s_config s) "notifyStatus") then w' = w1
    else told_all (s_accountId s) (if new then 1 else 0) (in_key_order (contacts_after s config)) w1 w'.
Proof.
  intros Hs Hwf Hdb new. unfold setConfig.
  rewrite (run_bind_Ret _ _ _ _ _ (when_update_run _ p s _ w Hs)). cbv zeta. fold new.
  set (s1 := if hasField config "contacts" then _ else s). set (w0 := with_sessions _ w).
  assert (Hs1 : s1 = with_contacts (contacts_after s config) s).
  { unfold s1, contacts_after. destruct (hasField config "contacts"); [done|by destruct s]. }
  assert (Hp0 : w_sessions w0 !! p = Some s1) by apply lookup_insert_eq.
  rewrite (run_bind_Ret _ _ _ _ _ (run_session_at p s1 w0 Hp0)).
  assert (Es : s_accountId s1 = s_accountId s /\ s_config s1 = s_config s) by by rewrite Hs1.
  destruct Es as [-> ->].
  match goal with |- context [bindM (if hasField config "fcmToken" then ?m else _) ?k] =>
    set (k0 := k) end.
  set (d := if hasField config "fcmToken"
            then (setFcmToken (s_accountId s) (str_of config "fcmToken") (w_db w)).2 else w_db w).
  assert (Htok : (if hasField config "fcmToken"
      then on_db (setFcmToken (s_accountId s) (str_of config "fcmToken")) ;; ret tt else ret tt)%zway w0 =
      (Ret tt, with_db d w0)).
  { unfold d. destruct (hasField config "fcmToken"); [|by destruct w].
    unfold setFcmToken, bindM, on_db, zoom. by rewrite !with_lock_run by done. }
  rewrite (run_bind_Ret _ _ _ _ _ Htok). subst k0. cbv beta.
  rewrite (run_bind_Ret _ _ _ _ _ (run_update p s1 _ (with_db d w0) Hp0)).
  set (w1 := with_sessions _ (with_db d w0)).
  assert (Ew1 : w_sessions w1 = <[p := configured s config]> (w_sessions w)).
  { unfold w1, w0. simpl. rewrite insert_insert_eq. unfold configured. by rewrite Hs1. }
  destruct (Bool.eqb new _); cbn [negb when].
  { exists w1, w1. by split_and!. }
  assert (Hp1 : w_sessions w1 !! p = Some (configured s config)) by (rewrite Ew1; apply lookup_insert_eq).
  assert (Hwf1 : registry_wf w1).
  { pose proof (registry_wf_insert p s (configured s config) w Hwf Hs eq_refl) as [W1 W2 W3].
    split; [done| |done]. intros b q Hq. rewrite Ew1. by apply W2. }
  destruct (broadcast_run p _ (if new then 1 else 0) w1 Hp1 Hwf1) as (w' & Hrun & Hall).
  exists w1, w'. unfold when. rewrite (run_bind_Ret _ _ _ _ _ Hrun). split_and!; [done..| |exact Hall].
  pose proof (broadcast_db p (if new then 1 else 0) false w1) as Hd. by rewrite Hrun in Hd.
Qed.

(** C18: Presence. The status of a contact is 1 or 0, and 1 exactly when one of the sessions
    listed for it has its notifications on. A new configuration replaces the contacts of the
    session if it names any, and the old configuration; a push token in it is stored for the
    account. When the client's own setting is another than before, exactly the sessions listed
    for those of its contacts it notifies, the new ones if they were replaced, are told, each
    once, with the client's account and its new status; when the setting is the same, nobody is
    told anything. Nothing else changes. *)
Theorem presence_broadcast p s config w :
  w_sessions w !! p = Some s -> registry_wf w -> db_ready (w_db w) ->
  (forall c, exists n, getContactStatus c w = (Ret n, w) /\ (n = 0 \/ n = 1) /\
     (n = 1 <-> exists q, q ∈ listed (w_registry w) c /\ notifies w q)) /\
  let new := bool_of config "notifyStatus" in
  let old := bool_of (s_config s) "notifyStatus" in
  exists w', setConfig p config w = (Ret true, w') /\ w_registry w' = w_registry w /\
    w_db w' = (if hasField config "fcmToken"
               then (setFcmToken (s_accountId s) (str_of config "fcmToken") (w_db w)).2 else w_db w) /\
    forall q sq, w_sessions w !! q = Some sq ->
      exists l, w_sessions w' !! q =
          Some (with_engine (s_engine sq ++ l) (if decide (q = p) then configured s config else sq)) /\
        let concerned := new <> old /\
          (exists o, contacts_after s config !! s_accountId sq = Some o /\
             bool_of o "notifyStatus" = true) /\
          q ∈ listed (w_registry w) (s_accountId sq) in
        (concerned -> told (s_accountId s) (if new then 1 else 0) l) /\ (~ concerned -> l = []).
Proof.
  intros Hs Hwf Hdb. split; [intros c; by apply getContactStatus_run|]. cbv zeta.
  destruct (setConfig_run p s config w Hs Hwf Hdb) as (w1 & w' & Hrun & Hreg & Hss & Hdb' & Htold).
  exists w'. split; [done|].
  assert (Hq1 : forall q sq, w_sessions w !! q = Some sq ->
    w_sessions w1 !! q = Some (if decide (q = p) then configured s config else sq)).
  { intros q sq Hq. rewrite Hss. case_decide as E; [subst; apply lookup_insert_eq|by rewrite lookup_insert_ne]. }
  assert (Hsame : forall q sq, w_sessions w !! q = Some sq ->
    s_accountId (if decide (q = p) then configured s config else sq) = s_accountId sq /\
    forall l, with_engine (s_engine (if decide (q = p) then configured s config else sq) ++ l)
      (if decide (q = p) then configured s config else sq) =
      with_engine (s_engine sq ++ l) (if decide (q = p) then configured s config else sq)).
  { intros q sq Hq. case_decide; [|done]. subst. rewrite Hs in Hq. by injection Hq as <-. }
  destruct (Bool.eqb _ _) eqn:E.
  - apply eqb_prop in E. subst w'. split_and!; [done|done|]. intros q sq Hq. exists [].
    rewrite (Hq1 q sq Hq). split; [|tauto]. rewrite <- (proj2 (Hsame q sq Hq)). by rewrite session_engine_eta.
  - apply eqb_false_iff in E. split_and!; [by rewrite <- Hreg; apply Htold|done|]. intros q sq Hq.
    destruct (told_all_spec _ _ _ _ _ q _ Htold (Hq1 q sq Hq)) as (l & Hl & Hc).
    destruct (Hsame q sq Hq) as [Ea Ee]. rewrite Ea, Hreg in Hc. rewrite Ee in Hl. exists l.
    split; [done|]. cbv zeta in Hc. tauto.
Qed.
End presence.

(** ** Logging out *)

Section logout.
Context `{PlatformLaws}.

Lemma broadcast_checked_run p s st chk w :
  w_sessions w !! p = Some s -> registry_wf w ->
  exists w' cs, broadcastStatus p st chk w = (Ret tt, w') /\ told_all (s_accountId s) st cs w w'.
Proof.
  intros Hs Hwf. destruct (broadcast_run p s st w Hs Hwf) as (w' & Hrun & Hall).
  destruct (chk && negb (bool_of (s_config s) "notifyStatus")) eqn:Hc.
  - exists w, []. split; [|apply told_all_refl]. unfold broadcastStatus, bindM at 1.
    rewrite (run_session_at p s) by done. by rewrite Hc.
  - exists w', (in_key_order (s_contacts s)). split; [|done]. rewrite <- Hrun.
    unfold broadcastStatus. rewrite !(run_bind_Ret _ _ _ _ _ (run_session_at p s w Hs)). by rewrite Hc.
Qed.

Lemma logout_run p s req w w' :
  registry_wf w -> w_sessions w !! p = Some s -> processLogout p req w = (Ret true, w') ->
  exists w2 s2 cs, w_registry w2 = w_registry w /\ registry_wf w2 /\
    w_sessions w2 !! p = Some s2 /\ s_status s2 = STATUS_CONNECTED /\
    s_accountId s2 = s_accountId s /\ s_config s2 = s_config s /\
    told_all (s_accountId s) 0 cs w2 w'.
Proof.
  intros Hwf Hs Hrun. unfold processLogout in Hrun. cbv zeta in Hrun.
  rewrite (run_bind_Ret _ _ _ _ _ (run_the_status p s w Hs)) in Hrun.
  destruct (s_status s <? _); [by apply failure_not_true in Hrun|].
  apply run_bind_inv in Hrun as (u & w1 & Hsucc & Hrun). unfold postRequestSuccess in Hsucc.
  rewrite (run_on_session p s) in Hsucc by done. injection Hsucc as _ <-. cbn [snd engine_call_ modify] in Hrun.
  set (s1 := with_engine _ s) in *. set (w1 := with_sessions _ w) in Hrun.
  assert (Hs1 : w_sessions w1 !! p = Some s1) by apply lookup_insert_eq.
  assert (Hwf1 : registry_wf w1) by by eapply registry_wf_insert.
  rewrite (run_bind_Ret _ _ _ _ _ (run_the_accountId p s1 w1 Hs1)) in Hrun.
  apply run_bind_inv in Hrun as (b & w2 & Hdb & Hrun). apply on_db_inv in Hdb as (d & _ & ->).
  apply run_bind_inv in Hrun as (u2 & w2 & Hst & Hrun).
  rewrite (run_on_session p s1) in Hst by done. injection Hst as _ <-.
  apply run_bind_inv in Hrun as ([] & w3 & Hbc & [= <-]).
  set (s2 := (setStatus STATUS_CONNECTED s1).2) in *. set (w2 := with_sessions _ _) in Hbc.
  assert (Hs2 : w_sessions w2 !! p = Some s2) by apply lookup_insert_eq.
  assert (Hwf2 : registry_wf w2).
  { apply (registry_wf_insert p s1 s2 (with_db d w1)); [|done..]. by destruct Hwf1. }
  destruct (broadcast_checked_run p s2 0 true w2 Hs2 Hwf2) as (w4 & cs & Hrun4 & Hall).
  rewrite Hrun4 in Hbc. injection Hbc as <-. exists w2, s2, cs. done.
Qed.

(** A client that has logged out is still on line for everyone else. Logout, when it
    succeeds, takes the session back to the connected state, but leaves it in the session
    map under its account and leaves its configuration: the status of the account that
    other clients are given is the one it had, and the requests for the account are still
    posted to the session instead of being announced by a push notification. *)
Lemma logout_stays_online p s req w w' :
  registry_wf w -> w_sessions w !! p = Some s -> p ∈ listed (w_registry w) (s_accountId s) ->
  processLogout p req w = (Ret true, w') ->
  exists s', w_sessions w' !! p = Some s' /\ s_status s' = STATUS_CONNECTED /\
    s_accountId s' = s_accountId s /\ w_registry w' = w_registry w /\
    (bool_of (s_config s) "notifyStatus" = true ->
       getContactStatus (s_accountId s) w' = (Ret 1, w')) /\
    processUserRequests (s_accountId s) w' =
      for_each (listed (w_registry w) (s_accountId s)) (fun q => processRequests q ;; ret tt)%zway w' /\
    p ∈ listed (w_registry w) (s_accountId s).
Proof.
  intros Hwf Hs Hp Hrun.
  destruct (logout_run p s req w w' Hwf Hs Hrun)
    as (w2 & s2 & cs & Hr2 & Hwf2 & Hs2 & Hst & Ha & Hc & Hall).
  pose proof (told_all_wf _ _ _ _ _ Hall Hwf2) as Hwf'. destruct Hall as [Hr' Hall].
  specialize (Hall p). rewrite Hs2 in Hall.
  destruct (w_sessions w' !! p) as [s'|] eqn:Hs'; [|done]. destruct Hall as (l & -> & _).
  rewrite Hr2 in Hr'. eexists. split_and!; try done.
  - intros Hn. destruct (getContactStatus_run (s_accountId s) w' Hwf') as (n & Hrunn & _ & Hiff).
    rewrite Hrunn. do 2 f_equal. apply Hiff. exists p. rewrite Hr'. split; [done|].
    eexists. split; [exact Hs'|]. simpl. by rewrite Hc.
  - unfold processUserRequests. unfold bindM at 1. rewrite getSessions_run, Hr'.
    destruct (listed (w_registry w) (s_accountId s)) eqn:E; [set_solver|done].
Qed.
End logout.
