(* ===== verification/Delivery.v ===== *)
(** * Delivering requests to other accounts

    What a client asks of another account is stored, and [processRequests] of a session of that
    account posts it: what is posted, and that it is posted once. *)

From S2P Require Import Prelude Values Platform Codec Pool Db Stdio StreamBuffer Streams World.
From S2P Require Import Registry Transport Session Contacts Requests Fcm Server Console Frames.
From S2P Require Import Presence.

Local Open Scope zway_scope.
Local Open Scope Z_scope.

Section delivery.
Context `{PlatformLaws}.

Definition doc_id (d : doc) : Z := u32 (numberInt (bson_get d "id")).
Definition doc_type (d : doc) : Z := u32 (numberInt (bson_get d "type")).

(** The types [processRequests] forwards to the client. *)
Definition forwarded : list Z :=
  [Req_Dispatch; Req_AddContact; Req_AcceptContact; Req_RejectContact; Req_Push].

Definition stored_for (a : Z) (m : mongo) : list doc :=
  (db_query "zway.requests" [("dst"%string, bson_u32 a)] None 0 None m).1.

Lemma Req_Push_distinct :
  Req_Push <> Req_Dispatch /\ Req_Push <> Req_AddContact /\ Req_Push <> Req_AcceptContact /\
  Req_Push <> Req_RejectContact.
Proof.
  pose proof request_types_NoDup as Hn. unfold request_types in Hn.
  rewrite !NoDup_cons in Hn. set_solver.
Qed.

(** What the client is told of a stored request besides its id and type, for each type; of the
    acceptance of a contact also the [status] of the contact. *)
Definition told_of (d : doc) (status : Z) : list (string * ubj) :=
  let number k := UInt32 (numberInt (bson_get d k)) in
  let str k := UString (bson_str (bson_get d k)) in
  if decide (doc_type d = Req_Dispatch) then
    [("dispatchId"%string, ubj_of_uint32 (doc_id d)); ("dispatchType"%string, number "dispatchType"%string)]
  else if decide (doc_type d = Req_AddContact) then
    [("addCode"%string, str "addCode"%string); ("name"%string, str "name"%string);
     ("phone"%string, str "phone"%string)]
  else if decide (doc_type d = Req_AcceptContact) then
    [("contactRequestId"%string, number "contactRequestId"%string);
     ("contactId"%string, number "src"%string); ("contactStatus"%string, ubj_of_uint32 status);
     ("name"%string, str "name"%string); ("phone"%string, str "phone"%string);
     ("publicKey"%string, bsonToUbj (bson_get d "publicKey"))]
  else [("contactRequestId"%string, number "contactRequestId"%string)].

(** The head of the request made of a stored one: of a message, the object that was stored. *)
Definition head_of (d : doc) (status : Z) : uobj :=
  if decide (doc_type d = Req_Push) then ubj_toObject (bsonToUbj (bson_get d "data"))
  else UBJ_OBJ ([("requestId"%string, ubj_of_uint32 (doc_id d));
                 ("requestType"%string, ubj_of_uint32 (doc_type d))] ++ told_of d status).

(** The request [r] that is made of a stored one: of its type, with its id and its contents. *)
Definition made_of (d : doc) (r : out_request) : Prop :=
  doc_type d = rq_type r /\ doc_id d = rq_id r /\
  exists status, (status = 0 \/ status = 1) /\ rq_head r = head_of d status.

Lemma made_of_push d r : made_of d r -> doc_type d = Req_Push ->
  rq_head r = ubj_toObject (bsonToUbj (bson_get d "data")).
Proof. intros (_ & _ & st & _ & ->) Ht. unfold head_of. by rewrite decide_True. Qed.

(** The four other types. *)
Lemma made_of_other d c i status fields :
  i = doc_id d -> doc_type d = rq_type (OutRequest c i []) -> doc_type d <> Req_Push ->
  (status = 0 \/ status = 1) -> told_of d status = fields ->
  made_of d (OutRequest c i (UBJ_OBJ ([("requestId"%string, ubj_of_uint32 (doc_id d));
    ("requestType"%string, ubj_of_uint32 (doc_type d))] ++ fields))).
Proof.
  intros -> Ht Hp Hs <-. split_and!; [done|done|]. exists status. split; [done|].
  unfold head_of. by rewrite decide_False.
Qed.

(** What one iteration posts. *)
Definition posts (d : doc) (log l : list engine_call) : Prop :=
  if requestPending log (doc_type d) (doc_id d) then l = []
  else if decide (doc_type d ∈ forwarded)
  then exists r, l = [CallPostRequest r] /\ made_of d r
  else l = [].

Lemma postRequest_inv p r w u w' s :
  w_sessions w !! p = Some s -> postRequest p r w = (Ret u, w') ->
  w_sessions w' !! p = Some (with_engine (s_engine s ++ [CallPostRequest r]) s).
Proof.
  intros Hs. unfold postRequest. rewrite (run_on_session p s) by done. intros [= _ <-].
  simpl. by rewrite lookup_insert_eq.
Qed.

Lemma any_notifies_state l w n w' : any_notifies l w = (Ret n, w') -> w' = w.
Proof.
  revert n. induction l as [|q l IH]; intros n; cbn [any_notifies]; [by intros [= _ <-]|].
  intros Hrun. apply run_bind_inv in Hrun as (s & w1 & Hs & Hrun).
  apply run_session_at_inv in Hs as [_ ->].
  destruct (bool_of _ _); [by injection Hrun as _ <-|by eapply IH].
Qed.

Lemma getContactStatus_state c w n w' : getContactStatus c w = (Ret n, w') -> w' = w.
Proof.
  unfold getContactStatus. intros Hrun. apply run_bind_inv in Hrun as (l & w1 & [= <- <-] & Hrun).
  by eapply any_notifies_state.
Qed.

Lemma getContactStatus_01 c w n w' : getContactStatus c w = (Ret n, w') -> n = 0 \/ n = 1.
Proof.
  unfold getContactStatus. intros Hrun. apply run_bind_inv in Hrun as (l & w1 & _ & Hrun).
  revert w1 Hrun. induction l as [|q l IH]; intros w1; cbn [any_notifies]; [intros [= <- _]; by left|].
  intros Hrun. apply run_bind_inv in Hrun as (s & w2 & _ & Hrun).
  destruct (bool_of _ _); [injection Hrun as <- _; by right|by eapply IH].
Qed.

(** One of the four other types, the one that is decided. *)
Ltac made st :=
  apply (made_of_other _ _ _ st); [done|done|congruence|first [done|by left]|];
  unfold told_of; cbv zeta;
  repeat first [rewrite decide_True by done | rewrite decide_False by congruence]; reflexivity.

Lemma deliver_request_run p d w s w' :
  w_sessions w !! p = Some s -> deliver_request p d w = (Ret tt, w') ->
  exists s' l, w_sessions w' !! p = Some s' /\ s_engine s' = s_engine s ++ l /\
    posts d (s_engine s) l.
Proof.
  intros Hs. unfold deliver_request. cbv zeta. fold (doc_id d) (doc_type d). intros Hrun.
  rewrite (run_bind_Ret _ _ _ _ _ (run_session_at p s w Hs)) in Hrun. unfold posts.
  destruct (requestPending (s_engine s) (doc_type d) (doc_id d)).
  { injection Hrun as <-. exists s, []. by rewrite app_nil_r. }
  assert (Hpost : forall r, made_of d r -> doc_type d ∈ forwarded -> postRequest p r w = (Ret tt, w') ->
    exists s' l, w_sessions w' !! p = Some s' /\ s_engine s' = s_engine s ++ l /\
    (if decide (doc_type d ∈ forwarded)
     then exists r, l = [CallPostRequest r] /\ made_of d r
     else l = [])).
  { intros r Hm Hf Hp. eexists _, _. split; [by eapply postRequest_inv|].
    split; [done|]. rewrite decide_True by done. by exists r. }
  unfold forwarded in *. destruct Req_Push_distinct as (N1 & N2 & N3 & N4).
  destruct (decide (doc_type d = Req_Dispatch)) as [E1|E1];
    [eapply Hpost; [| |exact Hrun]; [made (0 : Z)|set_solver]|].
  destruct (decide (doc_type d = Req_AddContact)) as [E2|E2];
    [eapply Hpost; [| |exact Hrun]; [made (0 : Z)|set_solver]|].
  destruct (decide (doc_type d = Req_AcceptContact)) as [E3|E3].
  { clear Hpost. apply run_bind_inv in Hrun as (st & w1 & Hst & Hrun).
    pose proof (getContactStatus_01 _ _ _ _ Hst) as H01. apply getContactStatus_state in Hst as ->.
    apply run_bind_inv in Hrun as (u & w1 & Hup & Hrun).
    unfold update in Hup. rewrite (run_on_session p s) in Hup by done. injection Hup as _ <-.
    eexists _, _. split; [eapply postRequest_inv; [|exact Hrun]; apply lookup_insert_eq|].
    split; [done|]. rewrite decide_True by set_solver.
    eexists. split; [done|]. made st. }
  destruct (decide (doc_type d = Req_RejectContact)) as [E4|E4];
    [eapply Hpost; [| |exact Hrun]; [made (0 : Z)|set_solver]|].
  destruct (decide (doc_type d = Req_Push)) as [E5|E5].
  { eapply Hpost; [| |exact Hrun]; [|set_solver]. split_and!; [done|done|]. exists 0.
    split; [by left|]. unfold head_of. by rewrite decide_True. }
  injection Hrun as <-. exists s, []. rewrite app_nil_r. split_and!; [done|done|].
  rewrite decide_False; [done|]. set_solver.
Qed.

Definition posted_key (r : out_request) : Z * Z := (rq_type r, rq_id r).

Lemma pending_kept_posts log rs t i :
  requestPending log t i = true -> requestPending (log ++ (CallPostRequest <$> rs)) t i = true.
Proof.
  revert log. induction rs as [|r rs IH]; intros log Hp; csimpl; [by rewrite app_nil_r|].
  rewrite cons_middle, app_assoc. apply IH. by apply requestPending_kept.
Qed.

Lemma posted_pending rs log t i :
  requestPending (log ++ (CallPostRequest <$> rs)) t i = true -> requestPending log t i = false ->
  exists r, r ∈ rs /\ rq_type r = t /\ rq_id r = i.
Proof.
  revert log. induction rs as [|r rs IH]; intros log; csimpl; [rewrite app_nil_r; congruence|].
  rewrite cons_middle, app_assoc. intros Ha Hb.
  destruct (requestPending (log ++ [CallPostRequest r]) t i) eqn:E.
  - apply requestPending_only in E as [E|E]; [congruence|]. exists r. split; [left|done].
  - destruct (IH _ Ha E) as (r' & ? & ?). exists r'. split; [by right|done].
Qed.

(** The session [s] became [s'] when the requests [ds] were forwarded to its client. *)
Definition served (ds : list doc) (s s' : session) : Prop :=
  exists rs, s_engine s' = s_engine s ++ (CallPostRequest <$> rs) /\
    (forall r, r ∈ rs -> requestPending (s_engine s) (rq_type r) (rq_id r) = false /\
       exists d, d ∈ ds /\ made_of d r) /\
    NoDup (posted_key <$> rs) /\
    (forall d, d ∈ ds -> doc_type d ∈ forwarded ->
       requestPending (s_engine s') (doc_type d) (doc_id d) = true).

Lemma deliver_loop p ds w s w' :
  w_sessions w !! p = Some s -> for_each ds (deliver_request p) w = (Ret tt, w') ->
  exists s', w_sessions w' !! p = Some s' /\ served ds s s'.
Proof.
  revert w s. induction ds as [|d ds IH]; intros w s Hs Hrun.
  { injection Hrun as <-. exists s. split; [done|]. exists []. csimpl. rewrite app_nil_r.
    split_and!; [done|set_solver|constructor|set_solver]. }
  cbn [for_each] in Hrun. apply run_bind_inv in Hrun as ([] & w1 & Hd & Hrun).
  destruct (deliver_request_run p d w s w1 Hs Hd) as (s1 & l & Hs1 & E1 & Hl).
  destruct (IH w1 s1 Hs1 Hrun) as (s' & Hs' & rs & E' & Hrs & Hnd & Hall).
  exists s'. split; [done|]. unfold posts in Hl. destruct (requestPending (s_engine s) (doc_type d) (doc_id d)) eqn:Hp.
  { subst l. rewrite app_nil_r in E1. exists rs. rewrite <- E1. split_and!; [done| |done|].
    - intros r Hr. destruct (Hrs r Hr) as [? (d' & ? & ?)]. split; [done|]. exists d'. set_solver.
    - intros d' Hd' Hf. apply elem_of_cons in Hd' as [->|Hd']; [|by apply Hall].
      rewrite E', E1. by apply pending_kept_posts. }
  case_decide as Hf.
  2: { subst l. rewrite app_nil_r in E1. exists rs. rewrite <- E1. split_and!; [done| |done|].
    - intros r Hr. destruct (Hrs r Hr) as [? (d' & ? & ?)]. split; [done|]. exists d'. set_solver.
    - intros d' Hd' Hf'. apply elem_of_cons in Hd' as [->|Hd']; [done|by apply Hall]. }
  destruct Hl as (r & -> & Hm). pose proof Hm as (Ht & Hi & _).
  assert (Hpend : requestPending (s_engine s1) (rq_type r) (rq_id r) = true).
  { rewrite E1. apply requestPending_posted. }
  assert (Hback : forall t i, requestPending (s_engine s1) t i = false ->
            requestPending (s_engine s) t i = false).
  { intros t i Hfalse. destruct (requestPending (s_engine s) t i) eqn:E; [|done].
    rewrite E1 in Hfalse. by rewrite (requestPending_kept _ (CallPostRequest r)) in Hfalse. }
  exists (r :: rs). split_and!.
  - rewrite E', E1. csimpl. by rewrite <- app_assoc.
  - intros r' [->|Hr']%elem_of_cons.
    + rewrite <- Ht, <- Hi. split; [done|]. exists d. set_solver.
    + destruct (Hrs r' Hr') as [Hn (d' & ? & ?)]. split; [by apply Hback|]. exists d'. set_solver.
  - csimpl. constructor; [|done]. intros (r' & Hk & Hr')%list_elem_of_fmap.
    destruct (Hrs r' Hr') as [Hn _]. unfold posted_key in Hk. injection Hk as Hk1 Hk2. congruence.
  - intros d' Hd' Hf'. apply elem_of_cons in Hd' as [->|Hd']; [|by apply Hall].
    rewrite E', Ht, Hi. by apply pending_kept_posts.
Qed.

Lemma processRequests_run p s w w' :
  w_sessions w !! p = Some s -> processRequests p w = (Ret true, w') ->
  exists s', w_sessions w' !! p = Some s' /\
    served (stored_for (s_accountId s) (db_mongo (w_db w))) s s'.
Proof.
  intros Hs. unfold processRequests. intros Hrun.
  rewrite (run_bind_Ret _ _ _ _ _ (run_the_accountId p s w Hs)) in Hrun.
  apply run_bind_inv in Hrun as (ds & w1 & Hg & Hrun).
  apply on_db_inv in Hg as (d & Hg & ->). unfold getRequests in Hg.
  apply with_lock_inv in Hg as (_ & -> & ->).
  apply run_bind_inv in Hrun as ([] & w1 & Hl & Hrun). injection Hrun as <-.
  by eapply (deliver_loop p _ _ s) in Hl.
Qed.

(** Nothing in the way of forwarding: the sessions that are listed exist, and there is a
    connection to the database. *)
Record serviceable (w : world) : Prop := {
  sv_registry : registry_wf w;
  sv_db : db_ready (w_db w)
}.

Lemma quiet_serviceable w w' : quiet w w' -> serviceable w -> serviceable w'.
Proof.
  intros [Hss Hreg _ Hpool] [Hwf Hdb]. split.
  - split; rewrite Hreg; try apply Hwf. intros a p Hp. destruct (reg_account _ Hwf a p Hp) as (s & Hs & Ha).
    specialize (Hss p). rewrite Hs in Hss. inversion Hss as [? s' Hbg E1 E2|]; subst.
    exists s'. split; [done|apply Hbg].
  - intros E. apply Hdb. rewrite E in Hpool. by apply Permutation_nil_r.
Qed.

Lemma background_serviceable {A} (m : M world A) w :
  preserves background m -> serviceable w -> serviceable (m w).2.
Proof. intros Hm. by apply quiet_serviceable, background_quiet. Qed.

Lemma background_session {A} (m : M world A) w p :
  preserves background m -> is_Some (w_sessions w !! p) -> is_Some (w_sessions (m w).2 !! p).
Proof.
  intros Hm [s Hs]. destruct (Hm w) as [Hss _ _ _]. specialize (Hss p). rewrite Hs in Hss.
  inversion Hss; eauto.
Qed.

Lemma deliver_request_returns p d w :
  serviceable w -> is_Some (w_sessions w !! p) -> (deliver_request p d w).1 = Ret tt.
Proof.
  intros Hsv [s Hs]. unfold deliver_request, postRequest, update. cbv zeta.
  rewrite (run_bind_Ret _ _ _ _ _ (run_session_at p s w Hs)).
  repeat case_match; try (by rewrite (run_on_session p s)); try done.
  destruct (getContactStatus_run (u32 (numberInt (bson_get d "src"))) w (sv_registry _ Hsv)) as (st & Hst & _).
  rewrite (run_bind_Ret _ _ _ _ _ Hst). unfold bindM. rewrite (run_on_session p s) by done.
  cbn. by erewrite run_on_session by apply lookup_insert_eq.
Qed.

Lemma for_each_returns {A} (xs : list A) (f : A -> M world unit) (I : world -> Prop) w :
  (forall x w, x ∈ xs -> I w -> (f x w).1 = Ret tt /\ I (f x w).2) -> I w ->
  (for_each xs f w).1 = Ret tt.
Proof.
  revert w. induction xs as [|x xs IH]; intros w Hf Hw; [done|]. cbn [for_each]. unfold bindM.
  destruct (Hf x w) as [Hr Hi]; [left|done|]. destruct (f x w) as [[[]|] w1]; cbn in Hr, Hi; [|done].
  apply IH; [|done]. intros y w2 Hy. apply Hf. by right.
Qed.

Lemma processRequests_returns p w :
  serviceable w -> is_Some (w_sessions w !! p) -> (processRequests p w).1 = Ret true.
Proof.
  intros Hsv [s Hs]. unfold processRequests.
  rewrite (run_bind_Ret _ _ _ _ _ (run_the_accountId p s w Hs)).
  assert (Hg : exists ds, on_db (getRequests [("dst"%string, bson_u32 (s_accountId s))]) w =
                 (Ret ds, (on_db (getRequests [("dst"%string, bson_u32 (s_accountId s))]) w).2)).
  { unfold getRequests, on_db, zoom. rewrite with_lock_run by apply Hsv. by eexists. }
  destruct Hg as [ds Hg]. rewrite (run_bind_Ret _ _ _ _ _ Hg).
  set (w1 := (on_db _ w).2).
  assert (Hf : preserves background (on_db (getRequests [("dst"%string, bson_u32 (s_accountId s))])))
    by (apply frame_getRequests; apply _).
  assert (Hl : (for_each ds (deliver_request p) w1).1 = Ret tt).
  { apply (for_each_returns _ _ (fun w => serviceable w /\ is_Some (w_sessions w !! p))).
    - intros d w2 _ [H1 H2]. split; [by apply deliver_request_returns|].
      split; [apply background_serviceable|apply background_session]; try done; apply frame_deliver_request.
    - split; [by apply background_serviceable|by apply background_session]. }
  unfold bindM. by destruct (for_each ds _ w1) as [[[]|] w2].
Qed.

Lemma stored_for_sound a m d :
  d ∈ stored_for a m -> d ∈ docs "zway.requests" m /\ matches [("dst"%string, bson_u32 a)] d = true.
Proof.
  unfold stored_for. destruct (db_query _ _ _ _ _ _) as [l ended] eqn:Hq. simpl.
  destruct (query_result _ _ 0 _ _ _ _ (Z.le_refl 0) Hq) as (sel & rest & Hp & -> & _).
  intros (d0 & -> & Hd)%list_elem_of_fmap. rewrite project_none.
  assert (Hin : d0 ∈ filter (fun d => matches [("dst"%string, bson_u32 a)] d = true)
                  (docs "zway.requests" m)).
  { rewrite <- Hp. apply elem_of_app. by left. }
  by apply list_elem_of_filter in Hin as [? ?].
Qed.

(** When the cursor could be read to its end, nothing that waits is missed. *)
Lemma stored_for_complete a m d :
  (db_query "zway.requests" [("dst"%string, bson_u32 a)] None 0 None m).2 = true ->
  d ∈ docs "zway.requests" m -> field "dst" d = Some (bson_u32 a) -> d ∈ stored_for a m.
Proof.
  unfold stored_for. destruct (db_query _ _ _ _ _ _) as [l ended] eqn:Hq. simpl. intros -> Hd Hf.
  destruct (query_result _ _ 0 _ _ _ _ (Z.le_refl 0) Hq) as (sel & rest & Hp & -> & Hall & _).
  rewrite (Hall eq_refl eq_refl), app_nil_r in Hp.
  apply list_elem_of_fmap. exists d. split; [by rewrite project_none|].
  rewrite Hp. apply list_elem_of_filter. split; [|done].
  apply matches_eq; [by apply not_op|done| |done]. intros v Hv. rewrite Hf in Hv. by injection Hv as <-.
Qed.

(** C13: [processRequests] forwards to the client the stored requests of its account. Every
    request it posts is made of one the database holds for the account, of a type and id the
    client had not been given yet: with its id and type and the contents the type has (of a
    message, the object that was stored). No type and id is posted twice. When it is done, every
    stored request of a type the client knows is pending with it; and one that was not
    pending, and that shares its type and id with no other stored request, has been posted
    itself. Of several with one type and id, only one is posted. It always comes to its end,
    when the sessions that are listed exist and there is a connection to the database. *)
Theorem requests_forwarded_once p s w :
  w_sessions w !! p = Some s -> serviceable w ->
  let stored := stored_for (s_accountId s) (db_mongo (w_db w)) in
  exists w', processRequests p w = (Ret true, w') /\
  (forall d, d ∈ stored -> d ∈ docs "zway.requests" (db_mongo (w_db w)) /\
     matches [("dst"%string, bson_u32 (s_accountId s))] d = true) /\
  exists s' rs, w_sessions w' !! p = Some s' /\
    s_engine s' = s_engine s ++ (CallPostRequest <$> rs) /\
    (forall r, r ∈ rs -> requestPending (s_engine s) (rq_type r) (rq_id r) = false /\
       exists d, d ∈ stored /\ made_of d r) /\
    NoDup (posted_key <$> rs) /\
    forall d, d ∈ stored -> doc_type d ∈ forwarded ->
      requestPending (s_engine s') (doc_type d) (doc_id d) = true /\
      (requestPending (s_engine s) (doc_type d) (doc_id d) = false ->
       (forall d', d' ∈ stored -> doc_type d' = doc_type d -> doc_id d' = doc_id d -> d' = d) ->
       exists r, r ∈ rs /\ made_of d r).
Proof.
  intros Hs Hsv stored. pose proof (processRequests_returns p w Hsv (ex_intro _ s Hs)) as Hret.
  destruct (processRequests p w) as [r w'] eqn:Hrun. cbn in Hret. subst r.
  exists w'. split; [done|]. split; [intros d Hd; by apply stored_for_sound|].
  destruct (processRequests_run p s w w' Hs Hrun) as (s' & Hs' & rs & E & Hrs & Hnd & Hall).
  exists s', rs. split_and!; try done. intros d Hd Hf. split; [by apply Hall|]. intros Hno Huniq.
  pose proof (Hall d Hd Hf) as Hp. rewrite E in Hp.
  destruct (posted_pending _ _ _ _ Hp Hno) as (r & Hr & Hrt & Hri).
  destruct (Hrs r Hr) as (_ & d' & Hd' & Hm). pose proof Hm as (Ht & Hi & _).
  exists r. split; [done|]. by rewrite <- (Huniq d' Hd') by congruence.
Qed.
End delivery.
