(* ===== verification/ContactFlow.v ===== *)
(** * How two accounts become contacts

    The path of a contact request: [processAddContactRequest] of one client, the acceptance of
    the other in [processAcceptContact], and what each of them learns. *)

From S2P Require Import Prelude Values Platform Codec Pool Db Stdio StreamBuffer Streams World.
From S2P Require Import Registry Transport Session Contacts Requests Fcm Server Console Frames.
From S2P Require Import System Auth Accounts Presence Delivery.

Local Open Scope zway_scope.
Local Open Scope Z_scope.

Section flow.
Context `{PlatformLaws}.

(** The database operations of a handler, run. *)
Lemma on_db_lock {A} (body : mongo -> A * mongo) w a w' :
  on_db (with_lock body) w = (Ret a, w') ->
  db_ready (w_db w) /\ a = (body (db_mongo (w_db w))).1 /\
  w' = with_db (used (w_db w) (body (db_mongo (w_db w))).2) w.
Proof.
  intros (d & Hd & ->)%on_db_inv. apply with_lock_inv in Hd as (Hr & -> & ->). done.
Qed.

Lemma addRequest_inv d w b w' :
  on_db (addRequest d) w = (Ret b, w') ->
  b = true /\ db_ready (w_db w) /\
  w' = with_db (used (w_db w) (db_insert "zway.requests" d (db_mongo (w_db w))).2) w.
Proof. intros (Hr & -> & ->)%on_db_lock. done. Qed.

Lemma deleteRequest_inv q w b w' :
  on_db (deleteRequest q) w = (Ret b, w') ->
  w' = with_db (used (w_db w) (db_remove "zway.requests" q true (db_mongo (w_db w))).2) w.
Proof. intros (Hr & _ & ->)%on_db_lock. done. Qed.

Lemma getRequest_inv q w o w' :
  on_db (getRequest q) w = (Ret o, w') ->
  w' = with_db (used (w_db w) (db_mongo (w_db w))) w /\
  o = head (db_query "zway.requests" q None 0 None (db_mongo (w_db w))).1.
Proof. intros (Hr & -> & ->)%on_db_lock. done. Qed.

(** The first document of a query is one that is stored and matches. *)
Lemma stored_head c q m r :
  head (db_query c q None 0 None m).1 = Some r -> r ∈ docs c m /\ matches q r = true.
Proof.
  destruct (db_query c q None 0 None m) as [l ended] eqn:Hq.
  destruct (query_result _ _ 0 _ _ _ _ (Z.le_refl 0) Hq) as (sel & rest & Hp & -> & _).
  destruct sel as [|d sel]; [done|]. simpl. intros [= <-]. rewrite project_none.
  assert (Hd : d ∈ filter (fun d => matches q d = true) (docs c m)) by (rewrite <- Hp; left).
  by apply list_elem_of_filter in Hd as [? ?].
Qed.

Lemma own_account_inv p s w o w' :
  w_sessions w !! p = Some s -> own_account p w = (Ret o, w') ->
  w' = with_db (used (w_db w) (db_mongo (w_db w))) w.
Proof.
  intros Hs. unfold own_account. intros Hrun.
  rewrite (run_bind_Ret _ _ _ _ _ (run_the_accountId p s w Hs)) in Hrun.
  apply on_db_lock in Hrun as (_ & _ & ->). done.
Qed.

Lemma requestPending_inv q w b w' :
  on_db (db_requestPending q) w = (Ret b, w') ->
  w' = with_db (used (w_db w) (db_mongo (w_db w))) w /\
  b = bool_decide (db_count "zway.requests" q (db_mongo (w_db w)) = Some 1).
Proof.
  intros (Hr & -> & ->)%on_db_lock. destruct (db_count _ _ _) as [n|]; simpl; [|done].
  split; [done|]. destruct (n =? 1) eqn:E; symmetry.
  - apply bool_decide_eq_true. f_equal. lia.
  - apply bool_decide_eq_false. intros [= ->]. done.
Qed.

Lemma post_task_inv u w a w' :
  post_processUserRequests u w = (Ret a, w') -> w' = with_tasks (w_tasks w ++ [u]) w.
Proof. by intros [= _ <-]. Qed.

Lemma success_inv p s id resp w u w' :
  w_sessions w !! p = Some s -> postRequestSuccess p id resp w = (Ret u, w') ->
  w' = with_sessions (<[p := with_engine (s_engine s ++ [CallSuccess id resp]) s]> (w_sessions w)) w.
Proof. intros Hs. unfold postRequestSuccess. rewrite (run_on_session p s) by done. by intros [= _ <-]. Qed.

(** ** The request *)

(** What is stored and answered once the contact is found. *)
Lemma request_contact_inv p s req account contact addCode b w w' :
  w_sessions w !! p = Some s ->
  request_contact p req account contact addCode b w = (Ret true, w') ->
  exists key,
    publicKey_of req = Some key /\
    db_count "zway.requests" [("type"%string, BInt Req_AddContact);
      ("src"%string, bson_u32 (s_accountId s)); ("dst"%string, bson_u32 b)]
      (db_mongo (w_db w)) <> Some 1 /\
    let m1 := (db_insert "zway.requests"
      (add_contact_doc (requestId_of req) (s_accountId s) b account key addCode)
      (db_mongo (w_db w))).2 in
    db_mongo (w_db w') =
      (if str_empty addCode then m1
       else (db_remove "zway.requests" [("addCode"%string, BString addCode)] true m1).2) /\
    w_tasks w' = w_tasks w ++ [b] /\
    exists resp, w_sessions w' =
      <[p := with_engine (s_engine s ++ [CallSuccess (requestId_of req) (Some resp)]) s]>
        (w_sessions w).
Proof.
  intros Hs. unfold request_contact, reply_failure. cbv zeta. intros Hrun.
  rewrite (run_bind_Ret _ _ _ _ _ (run_the_accountId p s w Hs)) in Hrun.
  apply run_bind_inv in Hrun as (pend & w1 & Hp & Hrun).
  apply requestPending_inv in Hp as [-> ->].
  case_bool_decide as Hc; [by apply failure_not_true in Hrun|].
  destruct (publicKey_of req) as [key|]; [|by apply failure_not_true in Hrun].
  apply run_bind_inv in Hrun as (d & w1 & Hb & Hrun). apply BSON_inv in Hb as [-> ->].
  apply run_bind_inv in Hrun as (added & w1 & Ha & Hrun).
  apply addRequest_inv in Ha as (-> & _ & ->). cbn [negb] in Hrun.
  apply run_bind_inv in Hrun as ([] & w1 & Hdel & Hrun).
  apply run_bind_inv in Hrun as (u & w2 & Hsucc & Hrun).
  apply run_bind_inv in Hrun as (u' & w3 & Htask & [= <-]).
  exists key. split; [done|]. split; [done|]. cbn zeta.
  apply post_task_inv in Htask as ->. destruct (str_empty addCode).
  - injection Hdel as <-. eapply success_inv in Hsucc as ->; [|done].
    split_and!; [done|done|by eexists].
  - apply run_bind_inv in Hdel as (code & w4 & Hb & Hdel). apply BSON_inv in Hb as [-> ->].
    apply run_bind_inv in Hdel as (b' & w4 & Hdel & [= <-]). apply deleteRequest_inv in Hdel as ->.
    eapply success_inv in Hsucc as ->; [|done]. split_and!; [done|done|by eexists].
Qed.

Definition label_query (label : string) : doc :=
  [("name"%string, BString label); ("findByName"%string, BBool true)].

Definition contact_fields : doc :=
  [("id"%string, BInt 1); ("name"%string, BInt 1); ("phone"%string, BInt 1)].

(** A request by name, from the start to the answer. *)
Lemma addContact_inv p s req w w' :
  w_sessions w !! p = Some s -> str_of req "addCode" = ""%string ->
  processAddContactRequest p req w = (Ret true, w') ->
  exists c account key,
    c ∈ docs "zway.accounts" (db_mongo (w_db w)) /\
    matches (label_query (str_of req "name")) c = true /\
    let b := u32 (numberInt (bson_get c "id")) in
    b <> s_accountId s /\ publicKey_of req = Some key /\
    db_mongo (w_db w') = (db_insert "zway.requests"
      (add_contact_doc (requestId_of req) (s_accountId s) b account key "")
      (db_mongo (w_db w))).2 /\
    w_tasks w' = w_tasks w ++ [b] /\
    exists resp, w_sessions w' =
      <[p := with_engine (s_engine s ++ [CallSuccess (requestId_of req) (Some resp)]) s]>
        (w_sessions w).
Proof.
  intros Hs Hcode. unfold processAddContactRequest, reply_failure. cbv zeta. intros Hrun.
  rewrite (run_bind_Ret _ _ _ _ _ (run_the_status p s w Hs)) in Hrun.
  destruct (s_status s <? _); [by apply failure_not_true in Hrun|].
  apply run_bind_inv in Hrun as (account & w1 & Ho & Hrun).
  eapply own_account_inv in Ho as ->; [|done].
  destruct account as [account|]; [|by apply failure_not_true in Hrun].
  apply run_bind_inv in Hrun as (query & w1 & Hq & Hrun).
  unfold contact_query in Hq. cbv zeta in Hq. rewrite Hcode in Hq. cbn [str_empty negb] in Hq.
  destruct (str_empty (str_of req "name")).
  { injection Hq as <- <-. by apply failure_not_true in Hrun. }
  apply run_bind_inv in Hq as (q & w2 & Hb & Hq). apply BSON_inv in Hb as [-> ->].
  injection Hq as <- <-. fold (label_query (str_of req "name")) contact_fields in Hrun.
  apply run_bind_inv in Hrun as (contact & w1 & Hg & Hrun).
  destruct contact as [contact|]; [|by apply failure_not_true in Hrun].
  apply getAccount_inv in Hg as (-> & c & Hc & Hm & ->).
  assert (Hid : bson_get (project (Some contact_fields) c) "id" = bson_get c "id").
  { unfold bson_get. by rewrite project_field by set_solver. }
  rewrite Hid in Hrun. set (b := u32 (numberInt (bson_get c "id"))) in *.
  set (wg := with_db _ _) in Hrun.
  assert (Hsg : w_sessions wg !! p = Some s) by done.
  rewrite (run_bind_Ret _ _ _ _ _ (run_the_accountId p s wg Hsg)) in Hrun.
  destruct (b =? s_accountId s) eqn:Hb; [by apply failure_not_true in Hrun|].
  rewrite Hcode in Hrun.
  destruct (request_contact_inv p s req _ _ _ b wg w' Hsg Hrun) as (key & Hk & _ & Hdb & Ht & Hss).
  exists c, account, key. cbv zeta. fold b. split_and!; try done. lia.
Qed.

(** ** The acceptance *)

Lemma acceptContact_inv q s req w w' :
  w_sessions w !! q = Some s -> processAcceptContact q req w = (Ret true, w') ->
  let crid := u32 (int_of req "contactRequestId") in
  exists r contactKey key account status,
    head (db_query "zway.requests" (contact_request_query crid (s_accountId s)) None 0 None
            (db_mongo (w_db w))).1 = Some r /\
    bson_Obj (bson_get r "publicKey") = Some contactKey /\
    publicKey_of req = Some key /\
    let src := u32 (numberInt (bson_get r "src")) in
    db_mongo (w_db w') =
      (db_remove "zway.requests" [("id"%string, bson_u32 crid)] true
        (db_insert "zway.requests"
           (accept_doc (requestId_of req) crid (s_accountId s) src account key)
           (db_mongo (w_db w))).2).2 /\
    w_tasks w' = w_tasks w ++ [src] /\
    exists s', w_sessions w' !! q = Some s' /\ is_Some (s_contacts s' !! src) /\
      s_engine s' = s_engine s ++ [CallSuccess (requestId_of req) (Some (UBJ_OBJ
        [("requestId"%string, ubj_of_uint32 (requestId_of req));
         ("status"%string, UInt32 1);
         ("contactId"%string, ubj_of_uint32 src);
         ("contactStatus"%string, ubj_of_uint32 status);
         ("name"%string, UString (bson_str (bson_get r "name")));
         ("phone"%string, UString (bson_str (bson_get r "phone")));
         ("publicKey"%string, UObject (bsonObjToUbj contactKey))]))].
Proof.
  intros Hs. unfold processAcceptContact, reply_failure. cbv zeta. intros Hrun.
  rewrite (run_bind_Ret _ _ _ _ _ (run_the_status q s w Hs)) in Hrun.
  destruct (s_status s <? _); [by apply failure_not_true in Hrun|].
  rewrite (run_bind_Ret _ _ _ _ _ (run_the_accountId q s w Hs)) in Hrun.
  apply run_bind_inv in Hrun as (o & w1 & Hg & Hrun). apply getRequest_inv in Hg as [-> Ho].
  destruct o as [r|]; [|by apply failure_not_true in Hrun].
  apply run_bind_inv in Hrun as (account & w1 & Hown & Hrun).
  eapply own_account_inv in Hown as ->; [|done].
  destruct account as [account|]; [|by apply failure_not_true in Hrun].
  apply run_bind_inv in Hrun as (ck & w1 & Hck & Hrun). apply or_throw_inv in Hck as [Hck ->].
  destruct (publicKey_of req) as [key|] eqn:Hk; [|by apply failure_not_true in Hrun].
  apply run_bind_inv in Hrun as (d & w1 & Hb & Hrun). apply BSON_inv in Hb as [-> ->].
  apply run_bind_inv in Hrun as (added & w1 & Ha & Hrun).
  apply addRequest_inv in Ha as (-> & _ & ->). cbn [negb] in Hrun.
  apply run_bind_inv in Hrun as (st & w1 & Hst & Hrun). apply getContactStatus_state in Hst as ->.
  apply run_bind_inv in Hrun as (u & w1 & Hsucc & Hrun). apply (success_inv q s) in Hsucc as ->; [|done].
  apply run_bind_inv in Hrun as (del & w1 & Hdel & Hrun). apply deleteRequest_inv in Hdel as ->.
  apply run_bind_inv in Hrun as (u1 & w1 & Hadd & Hrun).
  unfold add_contact, update in Hadd. apply on_session_inv in Hadd as (s1 & s2 & Hs1 & [= _ <-] & ->).
  simpl in Hs1. rewrite lookup_insert_eq in Hs1. injection Hs1 as <-.
  apply run_bind_inv in Hrun as (u2 & w1 & Htask & [= <-]). apply post_task_inv in Htask as ->.
  exists r, ck, key, account, st. cbv zeta. split_and!; try done.
  eexists. simpl. rewrite lookup_insert_eq. split; [done|].
  simpl. rewrite lookup_insert_eq. split; [by eexists|done].
Qed.

(** ** The acceptance gets back *)

Lemma stored_get d0 d k v :
  stored_doc d0 d -> k <> "_id"%string -> field k d0 = Some v -> bson_get d k = v.
Proof. intros Hd Hk Hf. apply bson_get_field. by rewrite Hd. Qed.

Lemma Req_AcceptContact_distinct :
  Req_AcceptContact <> Req_Dispatch /\ Req_AcceptContact <> Req_AddContact /\
  u32 Req_AcceptContact = Req_AcceptContact.
Proof.
  pose proof request_types_NoDup as Hn. pose proof request_types_range as HF. unfold request_types in *.
  rewrite !NoDup_cons in Hn. split_and!; [set_solver..|]. rewrite Forall_forall in HF.
  assert (Hin : 0 <= Req_AcceptContact < 2 ^ 31) by (apply HF; set_solver).
  apply u32_id. unfold is_u32. lia.
Qed.

(** The message tells of the acceptance of the request [crid] by the account [src], whose key is
    [key], and whether it is on line. *)
Record tells_acceptance (w : world) (requestId crid src : Z) (key msg : uobj) : Prop := {
  ta_id : u32 (int_of msg "requestId") = requestId;
  ta_contactRequestId : u32 (int_of msg "contactRequestId") = crid;
  ta_contactId : u32 (int_of msg "contactId") = src;
  ta_contactStatus : u32 (int_of msg "contactStatus") = 1 <->
    exists q, q ∈ listed (w_registry w) src /\ notifies w q;
  ta_publicKey : ubj_get msg "publicKey" = UObject key
}.

(** What a session of the requester makes of the stored acceptance. *)
Lemma deliver_accept q s d requestId crid src dst account key w :
  w_sessions w !! q = Some s -> registry_wf w -> is_u32 requestId -> is_u32 crid -> is_u32 src ->
  stored_doc (accept_doc requestId crid src dst account key) d ->
  requestPending (s_engine s) Req_AcceptContact requestId = false ->
  exists msg s', tells_acceptance w requestId crid src (bsonObjToUbj key) msg /\
    s_engine s' = s_engine s ++ [CallPostRequest (OutRequest AcceptContactRequest requestId msg)] /\
    is_Some (s_contacts s' !! src) /\
    deliver_request q d w = (Ret tt, with_sessions (<[q := s']> (w_sessions w)) w).
Proof.
  intros Hs Hwf Hu Hc Hsrc Hd Hp. destruct Req_AcceptContact_distinct as (N1 & N2 & Ht).
  destruct (getContactStatus_run src w Hwf) as (n & Hn & H01 & Hiff).
  unfold deliver_request. cbv zeta.
  rewrite (stored_get _ d "id" (bson_u32 requestId) Hd), (stored_get _ d "type" (BInt Req_AcceptContact) Hd),
    (stored_get _ d "src" (bson_u32 src) Hd), (stored_get _ d "contactRequestId" (bson_u32 crid) Hd),
    (stored_get _ d "publicKey" (BObject key) Hd) by done.
  rewrite !numberInt_u32, numberInt_int, Ht, !u32_id by done.
  rewrite (run_bind_Ret _ _ _ _ _ (run_session_at q s w Hs)), Hp.
  rewrite !decide_False, decide_True by done. rewrite (run_bind_Ret _ _ _ _ _ Hn).
  rewrite (run_bind_Ret _ _ _ _ _ (run_update q s _ w Hs)). unfold postRequest.
  erewrite run_on_session by apply lookup_insert_eq. cbn [fst snd engine_call_ modify w_sessions with_sessions].
  eexists _, _. split_and!.
  4: { unfold with_sessions. simpl. by rewrite insert_insert_eq. }
  2: reflexivity.
  2: { simpl. rewrite lookup_insert_eq. by eexists. }
  split; unfold int_of, ubj_get; rewrite field_UBJ_OBJ.
  - by apply (toInt_of_uint32 requestId).
  - change (u32 (ubj_toInt (UInt32 (numberInt (bson_u32 crid)))) = crid).
    by rewrite toInt_int32, numberInt_u32, u32_id.
  - change (u32 (ubj_toInt (UInt32 (numberInt (bson_u32 src)))) = src).
    by rewrite toInt_int32, numberInt_u32, u32_id.
  - change (u32 (ubj_toInt (ubj_of_uint32 n)) = 1 <-> exists q, q ∈ listed (w_registry w) src /\ notifies w q).
    by rewrite toInt_of_uint32 by (unfold is_u32; lia).
  - change (bsonToUbj (BObject key) = UObject (bsonObjToUbj key)). apply bsonToUbj_object.
Qed.

(** The acceptance stays when the request it answers is deleted, if the two have different ids. *)
Lemma accept_stored m rid crid src dst account key m' :
  is_u32 rid -> is_u32 crid -> rid <> crid ->
  db_insert "zway.requests" (accept_doc rid crid src dst account key) m = (true, m') ->
  exists d, stored_doc (accept_doc rid crid src dst account key) d /\
    d ∈ docs "zway.requests" (db_remove "zway.requests" [("id"%string, bson_u32 crid)] true m').2.
Proof.
  intros Hu Hc Hne Hi. destruct (insert_result _ _ _ _ Hi) as [(d & Hd & Hp) _].
  exists d. split; [done|]. destruct (db_remove _ _ _ m') as [ok m''] eqn:Hr.
  assert (Hin : d ∈ docs "zway.requests" m') by (rewrite Hp; left). cbn [snd].
  apply remove_one_any in Hr as [[E|(d' & Hm & E)] _]; [by rewrite E|].
  rewrite E in Hin. apply elem_of_cons in Hin as [->|Hin]; [|done]. exfalso.
  assert (Hf : field "id" d' = Some (bson_u32 rid)) by by rewrite Hd.
  apply matches_eq in Hm; [|by apply not_op|done|by rewrite Hf; intros ? [= <-]].
  rewrite Hf in Hm. injection Hm as Hi32. apply Hne. by apply i32_inj.
Qed.

(** C8: Two accounts become contacts and get each other's keys right. When a client's request
    for a contact by name has succeeded and its insertion went through, the request is
    stored for the account of that name, which is another one, and that account's requests are to be
    processed. When that account, for which it is the one stored request of this id, then
    accepts it with success, it gets as the answer the public key of the first client,
    field by field what was sent, has that account among its contacts from then on, and the
    requests of the first account are to be processed. When the acceptance was inserted and the
    two clients chose different ids, it is stored for the first account; and every session of
    that account it is not pending with then posts it to its client: it names the account that
    accepted, tells whether that is on line, and has the public key that account sent, field by
    field; and the session has that account among its contacts from then on. *)
Theorem contact_key_exchange p s req fs w w1 :
  w_sessions w !! p = Some s -> str_of req "addCode" = ""%string ->
  ubj_get req "publicKey" = UObject fs -> storable (UObject fs) ->
  is_u32 (s_accountId s) ->
  processAddContactRequest p req w = (Ret true, w1) ->
  (forall d, (db_insert "zway.requests" d (db_mongo (w_db w))).1 = true) ->
  exists b d, is_u32 b /\ b <> s_accountId s /\ d ∈ docs "zway.requests" (db_mongo (w_db w1)) /\
    bson_get d "dst" = bson_u32 b /\ bson_get d "src" = bson_u32 (s_accountId s) /\
    w_tasks w1 = w_tasks w ++ [b] /\
    forall q sq req' w2 w3,
      w_db w2 = w_db w1 -> w_sessions w2 !! q = Some sq -> s_accountId sq = b ->
      u32 (int_of req' "contactRequestId") = requestId_of req ->
      (forall d', d' ∈ docs "zway.requests" (db_mongo (w_db w2)) ->
         matches (contact_request_query (requestId_of req) b) d' = true -> d' = d) ->
      processAcceptContact q req' w2 = (Ret true, w3) ->
      (exists s' resp key, w_sessions w3 !! q = Some s' /\
        s_engine s' = s_engine sq ++ [CallSuccess (requestId_of req') (Some resp)] /\
        ubj_get resp "publicKey" = UObject key /\ uobj_equiv key fs /\
        is_Some (s_contacts s' !! s_accountId s) /\
        w_tasks w3 = w_tasks w2 ++ [s_accountId s]) /\
      forall fs', ubj_get req' "publicKey" = UObject fs' -> storable (UObject fs') ->
        requestId_of req' <> requestId_of req ->
        (forall d, (db_insert "zway.requests" d (db_mongo (w_db w2))).1 = true) ->
        exists d2, d2 ∈ docs "zway.requests" (db_mongo (w_db w3)) /\
          bson_get d2 "dst" = bson_u32 (s_accountId s) /\ bson_get d2 "src" = bson_u32 b /\
          forall p2 s2 w4, w_sessions w4 !! p2 = Some s2 -> registry_wf w4 ->
            requestPending (s_engine s2) Req_AcceptContact (requestId_of req') = false ->
            exists msg s2' key, uobj_equiv key fs' /\
              tells_acceptance w4 (requestId_of req') (requestId_of req) b key msg /\
              deliver_request p2 d2 w4 = (Ret tt, with_sessions (<[p2 := s2']> (w_sessions w4)) w4) /\
              s_engine s2' = s_engine s2 ++
                [CallPostRequest (OutRequest AcceptContactRequest (requestId_of req') msg)] /\
              is_Some (s_contacts s2' !! b).
Proof.
  intros Hs Hcode Hkey Hst Hu Hrun Hins.
  destruct (addContact_inv p s req w w1 Hs Hcode Hrun)
    as (c & account & key & _ & _ & Hne & Hk & Hdb & Htask & _).
  set (b := u32 (numberInt (bson_get c "id"))) in *.
  set (dd := add_contact_doc _ _ _ _ _ _) in Hdb.
  destruct (db_insert "zway.requests" dd (db_mongo (w_db w))) as [ok m1] eqn:Hi.
  pose proof (Hins dd) as Hok. rewrite Hi in Hok. simpl in Hok, Hdb. subst ok.
  destruct (insert_result _ _ _ _ Hi) as [(d & Hd & Hp) _].
  exists b, d. split_and!; [apply u32_range|done|rewrite Hdb, Hp; left
    |by apply (stored_get _ _ _ _ Hd)|by apply (stored_get _ _ _ _ Hd)|done|].
  intros q sq req' w2 w3 Hdb2 Hq Hacc Hid Huniq Hrun2.
  destruct (acceptContact_inv q sq req' w2 w3 Hq Hrun2)
    as (r & ck & key2 & acc2 & st2 & Hhead & Hck & Hk2 & Hdb3 & Htask2 & s' & Hs' & Hcon & Heng).
  rewrite Hid, Hacc in Hhead, Hdb3. apply stored_head in Hhead as [Hr Hm].
  pose proof (Huniq r Hr Hm) as ->.
  rewrite (stored_get _ _ "src" (bson_u32 (s_accountId s)) Hd) in Htask2, Hcon, Hdb3 by done.
  rewrite numberInt_u32, u32_id in Htask2, Hcon, Hdb3 by done.
  rewrite (stored_get _ _ "publicKey" (BObject key) Hd) in Hck by done.
  rewrite bson_Obj_object in Hck. injection Hck as <-. unfold publicKey_of in Hk, Hk2. split.
  - exists s'. eexists _, _. split; [done|]. split; [exact Heng|]. split.
    { unfold ubj_get. rewrite field_UBJ_OBJ. reflexivity. }
    split_and!; [|done|done]. destruct (hasField req "publicKey"); [|done]. rewrite Hkey in Hk.
    by apply codec_roundtrip_spec.
  - intros fs' Hkey2 Hst2 Hdiff Hins2. destruct (hasField req' "publicKey"); [|done]. rewrite Hkey2 in Hk2.
    set (da := accept_doc _ _ _ _ _ _) in Hdb3.
    destruct (db_insert "zway.requests" da (db_mongo (w_db w2))) as [ok m2] eqn:Hi2.
    pose proof (Hins2 da) as Hok. rewrite Hi2 in Hok. simpl in Hok. subst ok.
    destruct (accept_stored _ _ _ _ _ _ _ _ (u32_range _) (u32_range _) Hdiff Hi2) as (d2 & Hd2 & Hin2).
    exists d2. rewrite Hdb3. split_and!; [done|by apply (stored_get _ _ _ _ Hd2)..|].
    intros p2 s2 w4 Hs2 Hwf Hpend.
    destruct (deliver_accept p2 s2 d2 _ _ b _ _ _ w4 Hs2 Hwf (u32_range _) (u32_range _) (u32_range _) Hd2 Hpend)
      as (msg & s2' & Hmsg & He & Hc2 & Hrun4).
    exists msg, s2', (bsonObjToUbj key2). split_and!; [by apply codec_roundtrip_spec|done..].
Qed.
End flow.
