(* ===== verification/Pushes.v ===== *)
(** * Messages from client to clients

    A push request is the message of the messenger. [processPushRequest] of the sender's
    session stores a copy for each recipient, [processRequests] of a recipient's session
    posts it, and the recipient's answer takes it out of the database. *)

From S2P Require Import Prelude Values Platform Codec Pool Db Stdio StreamBuffer Streams World.
From S2P Require Import Registry Transport Session Contacts Requests Fcm Server Console Frames.
From S2P Require Import System Auth Accounts Delivery ContactFlow.

Local Open Scope zway_scope.
Local Open Scope Z_scope.

Section pushes.
Context `{PlatformLaws}.

(** ** Objects that can be stored *)

Lemma storable_assign k v o :
  storable (UObject o) -> storable v -> storable (UObject (ubj_assign k v o)).
Proof.
  intros Ho Hv. inversion Ho as [| | | | | |? Hn HF]; subst. constructor; [by apply assign_names|].
  pose proof (assign_names k v o Hn) as Hn'. apply Forall_forall. intros [k' v'] Hin. cbn.
  apply field_elem_Some in Hin; [|done]. rewrite field_assign in Hin.
  case_decide; [by injection Hin as <-|].
  by apply (field_Forall (P := storable) o k').
Qed.

Lemma storable_UBJ_OBJ l : Forall (fun p => storable p.2) l -> storable (UObject (UBJ_OBJ l)).
Proof.
  intros HF. unfold UBJ_OBJ. assert (H0' : storable (UObject [])) by (by repeat constructor).
  revert H0'. generalize (@nil (string * ubj)). induction HF as [|[k v] l Hv _ IH]; [done|].
  intros o Ho. cbn. apply IH. by apply storable_assign.
Qed.

Lemma uobj_equiv_fields o1 o2 : (forall k, field k o1 = field k o2) -> uobj_equiv o1 o2.
Proof. intros Hf. constructor. intros k. rewrite Hf. by destruct (field k o2); constructor. Qed.

(** ** What a push request stores *)

Definition dst_of (it : ubj) : Z := u32 (int_of (ubj_toObject it) "dst").

(** The keys of a push request that are for other accounts than the sender's. *)
Definition recipients (a : Z) (keys : list ubj) : list ubj := filter (fun it => dst_of it <> a) keys.

(** The copy of a message for the recipient of a key. *)
Definition copy_for (base : uobj) (it : ubj) : uobj :=
  ubj_assign "key" (ubj_get (ubj_toObject it) "key") base.

(** [d] is the copy stored for the recipient of the key [it]. *)
Definition stored_push (requestId src : Z) (base : uobj) (it : ubj) (d : doc) : Prop :=
  exists data, d = push_doc requestId src (dst_of it) data /\
    uobj_equiv (bsonObjToUbj data) (copy_for base it).

(** The database after a number of insertions, and whether all of them went through. *)
Fixpoint insert_all (ds : list doc) (m : mongo) : bool * mongo :=
  match ds with
  | [] => (true, m)
  | d :: ds' =>
      let '(ok, m') := db_insert "zway.requests" d m in
      let '(ok', m'') := insert_all ds' m' in (ok && ok', m'')
  end.

Lemma insert_all_docs ds m m' :
  insert_all ds m = (true, m') ->
  exists ds', Forall2 stored_doc ds ds' /\
    docs "zway.requests" m' ≡ₚ ds' ++ docs "zway.requests" m.
Proof.
  revert m. induction ds as [|d ds IH]; intros m; cbn; [intros [= <-]; by exists []|].
  destruct (db_insert _ d m) as [ok m1] eqn:Hi. destruct (insert_all ds m1) as [ok' m2] eqn:Hall.
  intros [= [-> ->]%andb_true_iff ->]. destruct (IH m1 Hall) as (ds' & HF & Hp).
  apply insert_result in Hi as [(d' & Hd & Hp1) _]. exists (d' :: ds'). split; [by constructor|].
  rewrite Hp, Hp1. cbn. by rewrite Permutation_middle.
Qed.

Lemma forward_push_run p requestId a base keys fwd w w' :
  storable (UObject fwd) -> (forall k, k <> "key"%string -> field k fwd = field k base) ->
  Forall (fun it => storable (ubj_get (ubj_toObject it) "key")) keys ->
  forward_push p requestId a keys fwd w = (Ret tt, w') ->
  exists ds, Forall2 (stored_push requestId a base) (recipients a keys) ds /\
    db_mongo (w_db w') = (insert_all ds (db_mongo (w_db w))).2 /\
    w_tasks w' = w_tasks w ++ (dst_of <$> recipients a keys) /\
    w_sessions w' = w_sessions w.
Proof.
  revert fwd w. induction keys as [|it keys IH]; intros fwd w Hfwd Hbase Hkeys Hrun.
  { injection Hrun as <-. exists []. cbn. by rewrite app_nil_r. }
  apply Forall_cons in Hkeys as [Hk Hkeys]. cbn [forward_push] in Hrun.
  fold (dst_of it) in Hrun. unfold recipients. destruct (dst_of it =? a) eqn:E.
  { rewrite filter_cons_False by lia. by eapply IH. }
  rewrite filter_cons_True by lia. cbv zeta in Hrun.
  set (fwd1 := ubj_assign "key" _ fwd) in Hrun.
  assert (Hfwd1 : storable (UObject fwd1)) by (by apply storable_assign).
  apply run_bind_inv in Hrun as (data & w1 & Hdata & Hrun). apply or_throw_inv in Hdata as [Hdata ->].
  apply run_bind_inv in Hrun as (rq & w1 & Hb & Hrun). apply BSON_inv in Hb as [-> ->].
  apply run_bind_inv in Hrun as (added & w1 & Ha & Hrun). apply addRequest_inv in Ha as (-> & _ & ->).
  cbn [negb] in Hrun. apply run_bind_inv in Hrun as (u & w1 & Ht & Hrun). apply post_task_inv in Ht as ->.
  assert (Hbase1 : forall k, k <> "key"%string -> field k fwd1 = field k base).
  { intros k Hne. unfold fwd1. rewrite field_assign_ne by done. by apply Hbase. }
  destruct (IH fwd1 _ Hfwd1 Hbase1 Hkeys Hrun) as (ds & HF & Hm & Htk & Hss).
  exists (push_doc requestId a (dst_of it) data :: ds). split_and!.
  - constructor; [|done]. exists data. split; [done|].
    etrans; [by apply (codec_roundtrip_spec fwd1)|]. apply uobj_equiv_fields. intros k.
    unfold fwd1, copy_for. rewrite !field_assign. case_decide; [done|]. by apply Hbase.
  - rewrite Hm. cbn. destruct (db_insert _ _ _) as [ok m1]. cbn.
    by destruct (insert_all ds m1).
  - rewrite Htk. cbn. by rewrite <- app_assoc.
  - by rewrite Hss.
Qed.

(** The fields of a copy: the key of its recipient, and the rest of the message. *)
Lemma copy_for_key base it : field "key" (copy_for base it) = Some (ubj_get (ubj_toObject it) "key").
Proof. unfold copy_for. by rewrite field_assign_eq. Qed.

Lemma storable_push_forward head a :
  storable (ubj_of_uint32 (requestId_of head)) -> storable (ubj_of_uint32 a) ->
  Forall (fun k => storable (ubj_get head k)) ["requestType"; "resources"; "salt"; "meta"]%string ->
  storable (UObject (push_forward head a)).
Proof.
  intros Hi Ha HF. apply storable_UBJ_OBJ.
  apply Forall_cons in HF as [H1 HF]. apply Forall_cons in HF as [H2 HF].
  apply Forall_cons in HF as [H3 HF]. apply Forall_cons in HF as [H4 _].
  by repeat constructor.
Qed.

(** ** Posting a stored message *)

Lemma Req_Push_u32 : u32 Req_Push = Req_Push.
Proof.
  pose proof request_types_range as HF. rewrite Forall_forall in HF.
  assert (Hin : Req_Push ∈ request_types) by (unfold request_types; set_solver).
  specialize (HF _ Hin). apply u32_id. unfold is_u32. lia.
Qed.

Lemma deliver_push (q : nat) (s : session) (d : doc) requestId src base it d0 (w : world) :
  w_sessions w !! q = Some s -> is_u32 requestId ->
  stored_push requestId src base it d0 -> stored_doc d0 d ->
  requestPending (s_engine s) Req_Push requestId = false ->
  exists head, uobj_equiv head (copy_for base it) /\
    deliver_request q d w =
      (Ret tt, with_sessions (<[q := with_engine (s_engine s ++
         [CallPostRequest (OutRequest PushRequest requestId head)]) s]> (w_sessions w)) w).
Proof.
  intros Hs Hu (data & -> & Heq) Hd Hp. exists (bsonObjToUbj data). split; [done|].
  unfold deliver_request. cbv zeta.
  rewrite (stored_get _ d "id" (bson_u32 requestId) Hd), (stored_get _ d "type" (BInt Req_Push) Hd),
    (stored_get _ d "data" (BObject data) Hd) by done.
  rewrite numberInt_u32, numberInt_int, Req_Push_u32, (u32_id requestId) by done.
  rewrite (run_bind_Ret _ _ _ _ _ (run_session_at q s w Hs)), Hp.
  destruct Req_Push_distinct as (? & ? & ? & ?).
  rewrite !decide_False, decide_True by done.
  rewrite bsonToUbj_object, toObject_object. unfold postRequest.
  by rewrite (run_on_session q s).
Qed.

(** The request [msg] is the message [head] with the key of the recipient of [it]. *)
Definition message_for (head : uobj) (it : ubj) (msg : uobj) : Prop :=
  ubj_get msg "key" ≡ ubj_get (ubj_toObject it) "key" /\
  forall k, k ∈ ["requestType"; "resources"; "salt"; "meta"]%string ->
    ubj_get msg k ≡ ubj_get head k.

Lemma copy_is_message head a it msg :
  uobj_equiv msg (copy_for (push_forward head a) it) -> message_for head it msg.
Proof.
  intros Hmsg. split; [rewrite Hmsg; unfold ubj_get at 1; by rewrite copy_for_key|].
  intros k Hk. rewrite Hmsg. unfold ubj_get, copy_for.
  assert (E2 : field k (push_forward head a) = Some (ubj_get head k)).
  { unfold push_forward. rewrite field_UBJ_OBJ. by repeat (apply elem_of_cons in Hk as [->|Hk]; [done|]);
      apply elem_of_nil in Hk. }
  rewrite field_assign_ne, E2; [done|]. intros <-.
  by repeat (apply elem_of_cons in Hk as [Hk|Hk]; [done|]); apply elem_of_nil in Hk.
Qed.

(** What the database has of a copy, and what the recipient's session makes of it. *)
Lemma stored_push_fields head a it d0 d :
  stored_push (requestId_of head) a (push_forward head a) it d0 -> stored_doc d0 d ->
  field "dst" d = Some (bson_u32 (dst_of it)) /\ bson_get d "src" = bson_u32 a /\
  doc_type d = Req_Push /\ doc_id d = requestId_of head /\
  message_for head it (ubj_toObject (bsonToUbj (bson_get d "data"))).
Proof.
  intros (data & -> & Heq) Hd. unfold doc_type, doc_id.
  rewrite (stored_get _ d "id" (bson_u32 (requestId_of head)) Hd),
    (stored_get _ d "type" (BInt Req_Push) Hd), (stored_get _ d "data" (BObject data) Hd),
    (stored_get _ d "src" (bson_u32 a) Hd), numberInt_int, numberInt_u32, Req_Push_u32 by done.
  split_and!; [by rewrite Hd|done|done|apply u32_id, u32_range|].
  rewrite bsonToUbj_object, toObject_object. by eapply copy_is_message.
Qed.

Lemma stored_push_delivered head a it d0 d :
  stored_push (requestId_of head) a (push_forward head a) it d0 -> stored_doc d0 d ->
  bson_get d "dst" = bson_u32 (dst_of it) /\ bson_get d "src" = bson_u32 a /\
  forall q sq w1, w_sessions w1 !! q = Some sq ->
    requestPending (s_engine sq) Req_Push (requestId_of head) = false ->
    exists msg, message_for head it msg /\ deliver_request q d w1 =
        (Ret tt, with_sessions (<[q := with_engine (s_engine sq ++
           [CallPostRequest (OutRequest PushRequest (requestId_of head) msg)]) sq]>
           (w_sessions w1)) w1).
Proof.
  intros Hst Hd. destruct (stored_push_fields _ _ _ _ _ Hst Hd) as (Hdst & Hsrc & _).
  split; [by apply bson_get_field|]. split; [done|]. intros q sq w1 Hq Hp.
  destruct (deliver_push q sq d _ a _ it d0 w1 Hq (u32_range _) Hst Hd Hp) as (msg & Hmsg & Hrun).
  exists msg. split; [by eapply copy_is_message|done].
Qed.

(** What a message must be made of to be stored. *)
Record storable_message (a : Z) (head : uobj) : Prop := {
  sm_id : storable (ubj_of_uint32 (requestId_of head));
  sm_src : storable (ubj_of_uint32 a);
  sm_fields : Forall (fun k => storable (ubj_get head k)) ["requestType"; "resources"; "salt"; "meta"]%string;
  sm_keys : Forall (fun it => storable (ubj_get (ubj_toObject it) "key")) (array_of head "keys")
}.

Lemma push_run p s head w w' :
  w_sessions w !! p = Some s -> processPushRequest p head w = (Ret true, w') ->
  storable_message (s_accountId s) head ->
  let its := recipients (s_accountId s) (array_of head "keys") in
  w_tasks w' = w_tasks w ++ (dst_of <$> its) /\
  exists ds, Forall2 (stored_push (requestId_of head) (s_accountId s) (push_forward head (s_accountId s))) its ds /\
    db_mongo (w_db w') = (insert_all ds (db_mongo (w_db w))).2.
Proof.
  intros Hs Hrun [Hid Ha HF Hkeys] its.
  set (base := push_forward head (s_accountId s)).
  assert (Hst : storable (UObject base)) by (by apply storable_push_forward).
  unfold processPushRequest in Hrun. cbv zeta in Hrun.
  rewrite (run_bind_Ret _ _ _ _ _ (run_the_status p s w Hs)) in Hrun.
  destruct (s_status s <? _); [by apply failure_not_true in Hrun|].
  rewrite (run_bind_Ret _ _ _ _ _ (run_the_accountId p s w Hs)) in Hrun.
  apply run_bind_inv in Hrun as ([] & w1 & Hf & Hrun).
  destruct (forward_push_run p (requestId_of head) (s_accountId s) base _ _ w w1 Hst (fun _ _ => eq_refl) Hkeys Hf)
    as (ds & HF2 & Hm & Htk & Hss).
  apply run_bind_inv in Hrun as (u & w2 & Hsucc & [= <-]).
  apply (success_inv p s) in Hsucc as ->; [|by rewrite Hss].
  split; [done|]. by exists ds.
Qed.

(** C9: A message reaches each of its recipients, with the key that is meant for it. When a
    client's push request has succeeded, for each key of another account one copy of the
    message is inserted, with that account as its addressee, and its waiting requests are to be
    processed, in the order of the keys. When the insertions went through, each copy is in the
    database and no other request was touched; a session of the recipient the copy is not
    pending with then posts to its client a push request with the id the sender chose, whose
    fields are those of the message, with the key of this recipient and of no other. *)
Theorem push_reaches_recipients p s head w w' :
  w_sessions w !! p = Some s -> processPushRequest p head w = (Ret true, w') ->
  storable_message (s_accountId s) head ->
  let its := recipients (s_accountId s) (array_of head "keys") in
  w_tasks w' = w_tasks w ++ (dst_of <$> its) /\
  exists ds, length ds = length its /\
    db_mongo (w_db w') = (insert_all ds (db_mongo (w_db w))).2 /\
    ((insert_all ds (db_mongo (w_db w))).1 = true ->
     exists ds', docs "zway.requests" (db_mongo (w_db w')) ≡ₚ
                   ds' ++ docs "zway.requests" (db_mongo (w_db w)) /\
       Forall2 (fun it d =>
         bson_get d "dst" = bson_u32 (dst_of it) /\ bson_get d "src" = bson_u32 (s_accountId s) /\
         forall q sq w1, w_sessions w1 !! q = Some sq ->
           requestPending (s_engine sq) Req_Push (requestId_of head) = false ->
           exists msg, message_for head it msg /\ deliver_request q d w1 =
               (Ret tt, with_sessions (<[q := with_engine (s_engine sq ++
                  [CallPostRequest (OutRequest PushRequest (requestId_of head) msg)]) sq]>
                  (w_sessions w1)) w1)) its ds').
Proof.
  intros Hs Hrun Hsm its. destruct (push_run p s head w w' Hs Hrun Hsm) as (Htk & ds & HF2 & Hm).
  split; [done|]. exists ds. split; [by apply Forall2_length in HF2|]. split; [done|].
  intros Hok. destruct (insert_all ds _) as [ok m'] eqn:Hall. cbn in Hok, Hm. subst ok.
  destruct (insert_all_docs _ _ _ Hall) as (ds' & HFd & Hp). exists ds'. rewrite Hm. split; [done|].
  fold its in HF2. clear Hm Hall Hp Htk. clearbody its. revert ds' HFd.
  induction HF2 as [|it d0 its ds Hd0 _ IH]; intros ds' HFd; inversion HFd as [|? d ? ds1 Hd HFd1]; subst;
    constructor; [|by apply IH]. by eapply stored_push_delivered.
Qed.

(** ** The answer of the recipient *)

Lemma rest_kept_send_resource p it : preserves rest_kept (send_resource p it).
Proof.
  unfold send_resource. cbv zeta. case_match; [|apply preserves_ret; apply _].
  apply preserves_bind; [apply _|apply rest_kept_on_streams|]. intros [snd|]; [|apply preserves_ret; apply _].
  apply preserves_bind; [apply _|apply rest_kept_on_session|]. intros [|]; [|apply preserves_ret; apply _].
  apply rest_kept_on_streams.
Qed.

(** The answer of the client to a request that was posted to it. *)
Definition acknowledges (r : out_request) (head : uobj) : Prop :=
  rq_class r <> AddContactRequest /\ u32 (int_of head "status") = 1.

Lemma delete_when_done_run p s id head w w' :
  w_sessions w !! p = Some s -> delete_when_done p id head w = (Ret tt, w') ->
  db_mongo (w_db w') =
    if decide (u32 (int_of head "status") = 1)
    then (db_remove "zway.requests" (contact_request_query id (s_accountId s)) true
            (db_mongo (w_db w))).2
    else db_mongo (w_db w).
Proof.
  intros Hs. unfold delete_when_done. cbv zeta. case_decide as E.
  - rewrite (proj2 (Z.eqb_eq _ _) E). intros Hrun.
    rewrite (run_bind_Ret _ _ _ _ _ (run_the_accountId p s w Hs)) in Hrun.
    apply run_bind_inv in Hrun as (b & w1 & Hd & [= <-]). apply deleteRequest_inv in Hd as ->. done.
  - rewrite (proj2 (Z.eqb_neq _ _) E). by intros [= <-].
Qed.

Lemma push_callback_run p s id head w w' :
  w_sessions w !! p = Some s -> u32 (int_of head "status") = 1 ->
  push_callback p id head w = (Ret tt, w') ->
  db_mongo (w_db w') =
    (db_remove "zway.requests" (contact_request_query id (s_accountId s)) true (db_mongo (w_db w))).2.
Proof.
  intros Hs E. unfold push_callback. cbv zeta. rewrite (proj2 (Z.eqb_eq _ _) E). intros Hrun.
  rewrite (run_bind_Ret _ _ _ _ _ (run_the_accountId p s w Hs)) in Hrun.
  apply run_bind_inv in Hrun as (b & w1 & Hd & Hrun). apply deleteRequest_inv in Hd as ->.
  assert (Hk : preserves rest_kept (for_each (array_of head "resources") (send_resource p))).
  { apply preserves_for_each; [apply _|]. intros x _. apply rest_kept_send_resource. }
  specialize (Hk (with_db (used (w_db w) (db_remove "zway.requests"
    (contact_request_query id (s_accountId s)) true (db_mongo (w_db w))).2) w)).
  unfold contact_request_query in *. rewrite Hrun in Hk.
  destruct Hk as [Hk _]. cbn in Hk. by rewrite Hk.
Qed.

(** C30: What one answer of a client does to the stored requests. Any answer but status 1, and
    any answer to a contact request, leaves the database as it is. An answer with status 1
    removes at most one request, one with the id of the request that was answered and addressed
    to the account of the session; when there was only one such, it is gone, no other is, and
    none is left. (Requests are also deleted by the requests of clients: a dispatch, the
    answer to a contact request, the use of an add code. [Mailbox.takes] lists them all.) *)
Theorem acknowledged_request_deleted p s r head w w' :
  w_sessions w !! p = Some s -> receive_response p r head w = (Ret tt, w') ->
  let q := contact_request_query (rq_id r) (s_accountId s) in
  (~ acknowledges r head -> db_mongo (w_db w') = db_mongo (w_db w)) /\
  (acknowledges r head -> forall m', db_remove "zway.requests" q true (db_mongo (w_db w)) = (true, m') ->
     db_mongo (w_db w') = m' /\
     forall d, filter (fun d => matches q d = true) (docs "zway.requests" (db_mongo (w_db w))) = [d] ->
       docs "zway.requests" (db_mongo (w_db w)) ≡ₚ d :: docs "zway.requests" m' /\
       filter (fun d => matches q d = true) (docs "zway.requests" m') = []).
Proof.
  intros Hs Hrun q. unfold receive_response in Hrun.
  rewrite (run_bind_Ret _ _ _ tt (with_sessions (<[p := with_engine (s_engine s ++ [CallResponse r head]) s]>
    (w_sessions w)) w)) in Hrun by (by rewrite (run_on_session p s)).
  set (w1 := with_sessions _ w) in Hrun.
  assert (Hs1 : w_sessions w1 !! p = Some (with_engine (s_engine s ++ [CallResponse r head]) s))
    by (by apply lookup_insert_eq).
  assert (Hdb : (acknowledges r head ->
      db_mongo (w_db w') = (db_remove "zway.requests" q true (db_mongo (w_db w))).2) /\
    (~ acknowledges r head -> db_mongo (w_db w') = db_mongo (w_db w))).
  { rewrite processResponse_run in Hrun. unfold acknowledges. destruct (rq_class r) eqn:Ec.
    2: { injection Hrun as <-. naive_solver. }
    4: { cbv zeta in Hrun. destruct (u32 (int_of head "status") =? 1) eqn:E.
         - apply (push_callback_run _ _ _ _ _ _ Hs1 (proj1 (Z.eqb_eq _ _) E)) in Hrun.
           split; [done|]. intros Hn. exfalso. apply Hn. split; [done|lia].
         - injection Hrun as <-. split; [intros [_ ?]; lia|done]. }
    all: apply (delete_when_done_run _ _ _ _ _ _ Hs1) in Hrun as ->;
      case_decide as E; (split; [intros [_ ?]|intros Hn]); try done; exfalso; by apply Hn. }
  destruct Hdb as [Hyes Hno]. split; [exact Hno|].
  intros Hack m' Hrm. rewrite Hyes, Hrm by done. split; [done|]. intros d Hf.
  destruct (remove_one_result _ _ _ _ Hrm) as [[[Hnone _]|(d' & Hm & Hp)] _].
  - by rewrite Hf in Hnone.
  - by destruct (filter_unique _ _ _ _ _ Hf Hp Hm) as [-> ?].
Qed.

(** ** A recipient who is on line *)

(** Nothing but the session [p] and the pool of connections has changed. *)
Record only (p : nat) (w w' : world) : Prop := {
  o_sessions : forall q, q <> p -> w_sessions w' !! q = w_sessions w !! q;
  o_mongo : db_mongo (w_db w') = db_mongo (w_db w);
  o_registry : w_registry w' = w_registry w;
  o_tasks : w_tasks w' = w_tasks w;
  o_fcm : w_fcm w' = w_fcm w
}.

#[export] Instance only_preorder p : PreOrder (only p).
Proof.
  split; [by split|]. intros w1 w2 w3 [A1 A2 A3 A4 A5] [B1 B2 B3 B4 B5]. split; [|congruence..].
  intros q Hq. by rewrite B1, A1.
Qed.

Lemma only_on_session {A} p (m : M session A) : preserves (only p) (on_session p m).
Proof.
  intros w. unfold on_session. destruct (w_sessions w !! p) as [s|]; [|done].
  destruct (m s) as [r s']. split; [|done..]. intros q Hq. cbn. by rewrite lookup_insert_ne.
Qed.

Lemma only_session_at p q : preserves (only p) (session_at q).
Proof. intros w. unfold session_at. by destruct (w_sessions w !! q). Qed.

Lemma only_getContactStatus p c : preserves (only p) (getContactStatus c).
Proof.
  unfold getContactStatus. apply preserves_bind; [apply _|by intros w|]. intros l.
  induction l as [|q l IH]; cbn [any_notifies]; [apply preserves_ret; apply _|].
  apply preserves_bind; [apply _|apply only_session_at|]. intros s.
  destruct (bool_of _ _); [apply preserves_ret; apply _|exact IH].
Qed.

Lemma only_deliver_request p d : preserves (only p) (deliver_request p d).
Proof.
  unfold deliver_request, postRequest, update. cbv zeta.
  apply preserves_bind; [apply _|apply only_session_at|]. intros s.
  repeat case_match; try (apply only_on_session); try (apply preserves_ret; apply _).
  apply preserves_bind; [apply _|apply only_getContactStatus|]. intros st.
  apply preserves_bind; [apply _|apply only_on_session|]. intros _. apply only_on_session.
Qed.

Lemma only_processRequests p : preserves (only p) (processRequests p).
Proof.
  unfold processRequests, the_accountId.
  apply preserves_bind; [apply _| |].
  { apply preserves_bind; [apply _|apply only_session_at|]. intros s. apply preserves_ret; apply _. }
  intros a. apply preserves_bind; [apply _| |].
  - intros w. unfold on_db, zoom.
    pose proof (with_lock_mongo (fun m => ((db_query "zway.requests" [("dst"%string, bson_u32 a)] None 0 None m).1, m))
      (fun _ => eq_refl) (w_db w)) as Hm.
    unfold getRequests. destruct (with_lock _ _) as [r d]. by split.
  - intros ds. apply preserves_bind; [apply _| |intros _; apply preserves_ret; apply _].
    apply preserves_for_each; [apply _|]. intros d _. apply only_deliver_request.
Qed.

(** Nothing but the sessions and the pool of connections has changed. *)
Definition unchanged (w w' : world) : Prop :=
  db_mongo (w_db w') = db_mongo (w_db w) /\ w_registry w' = w_registry w /\
  w_tasks w' = w_tasks w /\ w_fcm w' = w_fcm w.

(** The sessions of an account are given its stored requests one after the other. *)
Lemma sessions_served a l w w' :
  NoDup l -> (forall q, q ∈ l -> exists s, w_sessions w !! q = Some s /\ s_accountId s = a) ->
  for_each l (fun s => processRequests s ;; ret tt)%zway w = (Ret tt, w') ->
  unchanged w w' /\
  (forall q, q ∉ l -> w_sessions w' !! q = w_sessions w !! q) /\
  forall q, q ∈ l -> exists s s', w_sessions w !! q = Some s /\ w_sessions w' !! q = Some s' /\
    served (stored_for a (db_mongo (w_db w))) s s'.
Proof.
  revert w. induction l as [|p l IH]; intros w Hn Hl Hrun.
  { injection Hrun as <-. split_and!; [done|done|]. intros q Hq. by apply elem_of_nil in Hq. }
  apply NoDup_cons in Hn as [Hp Hn]. cbn [for_each] in Hrun.
  apply run_bind_inv in Hrun as ([] & w1 & Hrun1 & Hrun).
  apply run_bind_inv in Hrun1 as (b & w1' & Hreq & [= <-]).
  assert (b = true) as ->.
  { unfold processRequests in Hreq. by repeat apply run_bind_inv in Hreq as (? & ? & _ & Hreq); injection Hreq. }
  pose proof (only_processRequests p w) as Honly. rewrite Hreq in Honly. cbn in Honly.
  destruct Honly as [Ho Hm Hr Hts Hfc]. destruct (Hl p) as (s & Hs & <-); [left|].
  destruct (processRequests_run p s w w1' Hs Hreq) as (s1 & Hs1 & Hserved).
  destruct (IH w1' Hn) as (Hm' & Hout & Hin); [|done|].
  { intros q Hq. rewrite Ho by (by intros ->). apply Hl. by right. }
  destruct Hm' as (M1 & M2 & M3 & M4). split_and!; [split_and!; congruence| |].
  - intros q [Hq1 Hq2]%not_elem_of_cons. by rewrite Hout, Ho.
  - intros q [->|Hq]%elem_of_cons; [exists s, s1; by rewrite Hout|].
    destruct (Hin q Hq) as (t & t' & Ht & ? & Hst). exists t, t'. rewrite Hm in Hst.
    by rewrite <- (Ho q) by (by intros ->).
Qed.

Lemma sessions_return l w :
  serviceable w -> (forall q, q ∈ l -> is_Some (w_sessions w !! q)) ->
  (for_each l (fun s => processRequests s ;; ret tt)%zway w).1 = Ret tt.
Proof.
  intros Hsv Hl.
  apply (for_each_returns _ _ (fun w => serviceable w /\ forall q, q ∈ l -> is_Some (w_sessions w !! q))); [|done].
  intros p w1 Hp [Hsv1 Hl1].
  assert (Hf : preserves background (processRequests p ;; ret tt)%zway).
  { apply preserves_bind; [apply _|apply frame_processRequests|]. intros _. apply preserves_ret; apply _. }
  split; [|split; [by apply background_serviceable|intros q Hq; apply background_session; auto]].
  pose proof (processRequests_returns p w1 Hsv1 (Hl1 p Hp)) as Hr. unfold bindM.
  by destruct (processRequests p w1) as [[b|f] w2].
Qed.

(** The requests of an account with sessions are forwarded on each of them. *)
Lemma processUserRequests_serves u w :
  serviceable w -> listed (w_registry w) u <> [] ->
  exists w', processUserRequests u w = (Ret tt, w') /\ unchanged w w' /\
    (forall q, q ∉ listed (w_registry w) u -> w_sessions w' !! q = w_sessions w !! q) /\
    forall q, q ∈ listed (w_registry w) u -> exists s s',
      w_sessions w !! q = Some s /\ w_sessions w' !! q = Some s' /\
      served (stored_for u (db_mongo (w_db w))) s s'.
Proof.
  intros Hsv Hne. pose proof (sv_registry _ Hsv) as Hwf.
  assert (Hloop : processUserRequests u w =
    for_each (listed (w_registry w) u) (fun s => processRequests s ;; ret tt)%zway w).
  { unfold processUserRequests. unfold bindM at 1. rewrite getSessions_run.
    by destruct (listed (w_registry w) u). }
  rewrite Hloop. assert (Hr := sessions_return (listed (w_registry w) u) w Hsv).
  destruct (for_each _ _ w) as [r w'] eqn:Hrun. cbn in Hr. rewrite Hr in Hrun |- *.
  - exists w'. split; [done|]. by apply (sessions_served u _ _ _ (reg_once _ Hwf u) (reg_account _ Hwf u)).
  - intros q Hq. destruct (reg_account _ Hwf u q Hq) as (s & Hs & _). eauto.
  - intros q Hq. destruct (reg_account _ Hwf u q Hq) as (s & Hs & _). eauto.
Qed.

(** A request with this type and id that is stored for the account. *)
Definition waits (a type id : Z) (d : doc) (m : mongo) : Prop :=
  d ∈ docs "zway.requests" m /\ matches [("dst"%string, bson_u32 a)] d = true /\
  doc_type d = type /\ doc_id d = id.

Lemma served_message a m d s s' head it :
  served (stored_for a m) s s' -> d ∈ stored_for a m ->
  doc_type d = Req_Push -> doc_id d = requestId_of head ->
  message_for head it (ubj_toObject (bsonToUbj (bson_get d "data"))) ->
  requestPending (s_engine s') Req_Push (requestId_of head) = true /\
  (requestPending (s_engine s) Req_Push (requestId_of head) = false ->
   (forall d', waits a Req_Push (requestId_of head) d' m -> d' = d) ->
   exists msg, message_for head it msg /\
     CallPostRequest (OutRequest PushRequest (requestId_of head) msg) ∈ s_engine s').
Proof.
  intros (rs & E & Hrs & _ & Hall) Hd Ht Hi Hmsg.
  assert (Hp : requestPending (s_engine s') Req_Push (requestId_of head) = true).
  { rewrite <- Ht, <- Hi. apply Hall; [done|]. rewrite Ht. unfold forwarded. set_solver. }
  split; [done|]. intros Hno Huniq. rewrite E in Hp.
  destruct (posted_pending _ _ _ _ Hp Hno) as (r & Hr & Hrt & Hri).
  destruct (Hrs r Hr) as (_ & d' & Hd' & Hm'). pose proof Hm' as (Ht' & Hi' & _).
  rewrite Hrt in Ht'. rewrite Hri in Hi'.
  destruct (stored_for_sound _ _ _ Hd') as [Hin Hmt]. assert (d' = d) as -> by (by apply Huniq).
  pose proof (made_of_push _ _ Hm' Ht) as Hc.
  exists (rq_head r). rewrite Hc. split; [done|]. rewrite E. apply elem_of_app. right.
  apply list_elem_of_fmap. exists r. split; [|done]. rewrite <- Hc, <- Hri.
  destruct Req_Push_distinct as (? & ? & ? & ?). destruct r as [[] i h]; cbn in Hrt; done.
Qed.

(** C10: A message is delivered to a recipient who is on line. Let a push request have succeeded
    with all its insertions, and let the server come to process the requests of one of its
    recipients while copies are still stored, the recipient has sessions and the query can be
    read to its end. Then it comes to an end, and afterwards, on every session of the recipient, a push request with
    the sender's id is pending with the client. On a session that had none pending before, and
    when no other message with the same id waits for the recipient, what was posted is the
    message, with the recipient's key. *)
Theorem message_delivered p s head w w1 :
  w_sessions w !! p = Some s -> processPushRequest p head w = (Ret true, w1) ->
  storable_message (s_accountId s) head ->
  exists ds, db_mongo (w_db w1) = (insert_all ds (db_mongo (w_db w))).2 /\
    ((insert_all ds (db_mongo (w_db w))).1 = true -> forall it w2,
     it ∈ recipients (s_accountId s) (array_of head "keys") ->
     serviceable w2 -> listed (w_registry w2) (dst_of it) <> [] ->
     (forall d, d ∈ docs "zway.requests" (db_mongo (w_db w1)) -> d ∈ docs "zway.requests" (db_mongo (w_db w2))) ->
     (db_query "zway.requests" [("dst"%string, bson_u32 (dst_of it))] None 0 None (db_mongo (w_db w2))).2 = true ->
     exists w3, processUserRequests (dst_of it) w2 = (Ret tt, w3) /\
     forall q, q ∈ listed (w_registry w2) (dst_of it) -> exists sq sq',
       w_sessions w2 !! q = Some sq /\ w_sessions w3 !! q = Some sq' /\
       requestPending (s_engine sq') Req_Push (requestId_of head) = true /\
       (requestPending (s_engine sq) Req_Push (requestId_of head) = false ->
        (forall d1 d2, waits (dst_of it) Req_Push (requestId_of head) d1 (db_mongo (w_db w2)) ->
           waits (dst_of it) Req_Push (requestId_of head) d2 (db_mongo (w_db w2)) -> d1 = d2) ->
        exists msg, message_for head it msg /\
          CallPostRequest (OutRequest PushRequest (requestId_of head) msg) ∈ s_engine sq')).
Proof.
  intros Hs Hrun Hsm. destruct (push_run p s head w w1 Hs Hrun Hsm) as (_ & ds & HF2 & Hm).
  exists ds. split; [done|]. intros Hok it w2 Hit Hsv Hne Hkept Hended.
  destruct (insert_all ds _) as [ok m'] eqn:Hall. cbn in Hok, Hm. subst ok.
  destruct (insert_all_docs _ _ _ Hall) as (ds' & HFd & Hp). rewrite Hm in Hkept.
  destruct (Forall2_elem _ _ _ it HF2 Hit) as (d0 & Hd0 & Hst).
  destruct (Forall2_elem _ _ _ d0 HFd Hd0) as (d & Hd & Hsd).
  destruct (stored_push_fields _ _ _ _ _ Hst Hsd) as (Hdst & _ & Ht & Hi & Hmsg).
  assert (Hin : d ∈ stored_for (dst_of it) (db_mongo (w_db w2))).
  { apply stored_for_complete; [done| |done]. apply Hkept. rewrite Hp. apply elem_of_app. by left. }
  destruct (processUserRequests_serves _ w2 Hsv Hne) as (w3 & Hproc & _ & _ & Hserved).
  exists w3. split; [done|]. intros q Hq.
  destruct (Hserved q Hq) as (sq & sq' & Hsq & Hsq' & Hsvd).
  destruct (served_message _ _ d sq sq' head it Hsvd Hin Ht Hi Hmsg) as [Hpend Hnew].
  exists sq, sq'. split_and!; try done. intros Hno Huniq. apply Hnew; [done|].
  intros d' Hw. apply Huniq; [done|]. destruct (stored_for_sound _ _ _ Hin). by split.
Qed.
End pushes.
