(* ===== verification/Operation.v ===== *)
(** * Running the server

    Notifications of users who are off line, accepting, pausing and resuming, removing the
    sessions, the end of the console, sessions that have not been authenticated yet, and a
    request that brings the server down. *)

From S2P Require Import Prelude Values Platform Codec Pool Db Stdio StreamBuffer Streams World.
From S2P Require Import Registry Transport Session Contacts Requests Fcm Server Console Frames.
From S2P Require Import System Auth Accounts Delivery ContactFlow Pushes.

Local Open Scope zway_scope.
Local Open Scope Z_scope.

Section notifications.
Context `{PlatformLaws}.

(** The count a notification carries. *)
Definition waiting (u type : Z) (m : mongo) : Z :=
  match db_count "zway.requests" [("dst"%string, bson_u32 u); ("type"%string, BInt type)] m with
  | Some n => u32 n
  | None => 2 ^ 32 - 1
  end.

Lemma run_lock {A} (body : mongo -> A * mongo) w :
  db_ready (w_db w) ->
  on_db (with_lock body) w =
    (Ret (body (db_mongo (w_db w))).1, with_db (used (w_db w) (body (db_mongo (w_db w))).2) w).
Proof. intros Hr. unfold on_db, zoom. by rewrite with_lock_run. Qed.

Lemma count_run u type w :
  db_ready (w_db w) ->
  on_db (count_requests u type) w =
    (Ret (waiting u type (db_mongo (w_db w))), with_db (used (w_db w) (db_mongo (w_db w))) w).
Proof.
  intros Hr. unfold count_requests. rewrite run_lock by done. unfold waiting.
  by destruct (db_count _ _ _).
Qed.

Definition notice (token : string) (kind n : Z) : list (string * Z * Z) :=
  if n >? 0 then [(token, kind, n)] else [].

Lemma notice_run token kind n w :
  when (n >? 0) (sendMessage token kind n) w = (Ret tt, with_fcm (w_fcm w ++ notice token kind n) w).
Proof.
  unfold notice. destruct (n >? 0); [done|]. simpl. rewrite app_nil_r. by destruct w.
Qed.

Lemma offline_run u w token :
  db_ready (w_db w) -> listed (w_registry w) u = [] ->
  (getFcmToken u (w_db w)).1 = Ret token ->
  exists w', processUserRequests u w = (Ret tt, w') /\
    w_sessions w' = w_sessions w /\ w_registry w' = w_registry w /\ w_tasks w' = w_tasks w /\
    db_mongo (w_db w') = db_mongo (w_db w) /\
    w_fcm w' = w_fcm w ++
      (if decide (token = ""%string) then []
       else notice token 1000 (waiting u 3100 (db_mongo (w_db w))) ++
            notice token 2000 (waiting u 4100 (db_mongo (w_db w)))).
Proof.
  intros Hr Hl Ht. unfold processUserRequests. unfold bindM at 1. rewrite getSessions_run, Hl.
  assert (Hg : on_db (getFcmToken u) w = (Ret token, with_db (used (w_db w) (db_mongo (w_db w))) w)).
  { unfold getFcmToken in *. rewrite run_lock by done. rewrite with_lock_run in Ht by done.
    simpl in Ht. injection Ht as <-. by destruct (head _). }
  rewrite (run_bind_Ret _ _ _ _ _ Hg). clear Hg Ht. set (w1 := with_db _ w).
  assert (Hr1 : db_ready (w_db w1)) by by apply used_ready.
  destruct token as [|c token]; cbn [str_empty].
  { rewrite decide_True by done. exists w1. split_and!; try done. by rewrite app_nil_r. }
  rewrite decide_False by done. set (t := String c token).
  unfold numContactRequests, numPushRequests.
  rewrite (run_bind_Ret _ _ _ _ _ (count_run u 3100 w1 Hr1)).
  rewrite (run_bind_Ret _ _ _ _ _ (notice_run t 1000 _ _)).
  match goal with |- context [bindM (on_db _) _ ?x = _] => set (w2 := x) end.
  assert (Hr2 : db_ready (w_db w2)) by by apply used_ready.
  rewrite (run_bind_Ret _ _ _ _ _ (count_run u 4100 w2 Hr2)). rewrite notice_run.
  eexists. split; [done|]. split_and!; try done. simpl. by rewrite app_assoc.
Qed.

(** C39: What is done for a user whose requests are to be processed. A user with sessions gets
    the requests stored for the account on each of them, and no notification is sent: on every
    listed session the client is posted the stored requests it had not been given, and
    afterwards all of the types it knows are pending with it; the other sessions are not
    touched. A user with no session is notified through the push service: with a token, one
    message when contact requests wait for the account and one when push requests do, each
    with the number that the database counts; without a token, nothing; and no session is
    touched. When counting fails, the error value -1 of the count is taken for a number:
    the user is told of 4294967295 requests. *)
Theorem offline_notification u w token :
  serviceable w -> (getFcmToken u (w_db w)).1 = Ret token ->
  exists w', processUserRequests u w = (Ret tt, w') /\
    w_registry w' = w_registry w /\ w_tasks w' = w_tasks w /\
    db_mongo (w_db w') = db_mongo (w_db w) /\
    (forall q, q ∉ listed (w_registry w) u -> w_sessions w' !! q = w_sessions w !! q) /\
    (forall q, q ∈ listed (w_registry w) u -> exists s s',
       w_sessions w !! q = Some s /\ w_sessions w' !! q = Some s' /\
       served (stored_for u (db_mongo (w_db w))) s s') /\
    w_fcm w' = w_fcm w ++
      (if decide (listed (w_registry w) u <> [] \/ token = ""%string) then []
       else notice token 1000 (waiting u 3100 (db_mongo (w_db w))) ++
            notice token 2000 (waiting u 4100 (db_mongo (w_db w)))).
Proof.
  intros Hsv Htok. destruct (decide (listed (w_registry w) u = [])) as [Hl|Hl].
  - destruct (offline_run u w token (sv_db _ Hsv) Hl Htok) as (w' & Hrun & Hs & Hr & Ht & Hm & Hf).
    exists w'. split_and!; try done; [by intros q _; rewrite Hs|by rewrite Hl; intros q ?%elem_of_nil|].
    rewrite Hf. f_equal. by repeat case_decide; naive_solver.
  - destruct (processUserRequests_serves u w Hsv Hl) as (w' & Hrun & (Hm & Hr & Ht & Hf) & Hout & Hin).
    exists w'. split_and!; try done. rewrite decide_True by (by left). by rewrite app_nil_r.
Qed.
End notifications.

Section acceptor.
Context `{Platform}.

Definition accepting (w : world) : list nat := sv_accepting (w_server w).

(** Pausing and resuming. A running server that is paused no longer listens, and a
    resumption whose calls succeed makes it listen again, with an accept under way for a new
    session. But when only binding (or listening) fails, the server is stuck: it stays
    paused, the acceptor is left open, and because opening it again fails, no later
    resumption, whatever its calls would do, and no pause does anything any more. *)
Lemma pause_resume w :
  sv_paused (w_server w) = false -> sv_listening (w_server w) = true ->
  exists w1, pause true w = (Ret true, w1) /\
    sv_paused (w_server w1) = true /\ sv_listening (w_server w1) = false /\
    (exists w2 p, resume true true true w1 = (Ret true, w2) /\
       sv_paused (w_server w2) = false /\ sv_listening (w_server w2) = true /\
       accepting w2 = accepting w ++ [p] /\ w_sessions w !! p = None /\
       w_sessions w2 = <[p := new_session]> (w_sessions w)) /\
    (forall b l, b && l = false ->
       exists w2, resume true b l w1 = (Ret false, w2) /\ accepting w2 = accepting w /\
         sv_paused (w_server w2) = true /\ sv_listening (w_server w2) = true /\
         forall o' b' l' c, resume o' b' l' w2 = (Ret false, w2) /\ pause c w2 = (Ret false, w2)).
Proof.
  intros Hp Hl. unfold pause. unfold bindM at 1, gets at 1. rewrite Hp.
  eexists. split; [reflexivity|]. split_and!; [done|done| |].
  - set (w1 := with_server _ _). unfold resume. unfold bindM at 1, gets at 1. simpl.
    eexists _, _. split; [reflexivity|]. split_and!; try done. simpl. apply not_elem_of_dom, is_fresh.
  - intros b l Hbl. unfold resume at 1. unfold bindM at 1, gets at 1. simpl.
    assert (Hfail : (negb b = true) \/ (negb b = false /\ negb l = true)).
    { destruct b, l; auto. }
    assert (Hstuck : forall w2, sv_paused (w_server w2) = true -> sv_listening (w_server w2) = true ->
      forall o' b' l' c, resume o' b' l' w2 = (Ret false, w2) /\ pause c w2 = (Ret false, w2)).
    { intros w2 H1 H2 o' b' l' c. unfold resume, pause, bindM, gets. by rewrite H1, H2. }
    destruct Hfail as [Hb|[Hb Hl']]; unfold bindM; rewrite Hb, ?Hl';
      (eexists; split; [reflexivity|]; split_and!; [done|done|done|by apply Hstuck]).
Qed.

(** The chain of accepts. The completion of the one accept under way without an error
    starts its session, counts it and begins the next accept, for a new session. With any
    other error none is begun: unless the server is paused and resumed, it never accepts a
    client again, although it still listens. *)
Lemma accept_chain error p w w' :
  accepting w = [p] -> run (EvAccept error p) w = (Ret tt, w') ->
  (error = no_error ->
     exists p', accepting w' = [p'] /\ w_sessions w !! p' = None /\
       w_sessions w' !! p' = Some new_session /\
       sv_numSessions (w_server w') = u32 (sv_numSessions (w_server w) + 1)) /\
  (error <> no_error ->
     accepting w' = [] /\ w_sessions w' = w_sessions w /\
     sv_listening (w_server w') = sv_listening (w_server w) /\
     sv_paused (w_server w') = sv_paused (w_server w)).
Proof.
  unfold accepting. intros Hacc. cbn [run]. unfold bindM at 1, on_server at 1, modify at 1.
  rewrite Hacc. rewrite filter_cons_False by (intros Hne; by apply Hne). rewrite filter_nil.
  set (w1 := with_server _ w). unfold handleSession. case_decide as He; intros Hrun.
  2: { injection Hrun as <-. by split. }
  split; [intros _|done].
  apply run_bind_inv in Hrun as ([] & w2 & Hst & Hrun).
  apply run_bind_inv in Hrun as (u & w3 & Hn & Hrun). injection Hn as <- <-.
  destruct (run_accept (with_server (sv_with_numSessions (u32 (sv_numSessions (w_server w2) + 1))
    (w_server w2)) w2)) as (p' & w4 & Ha & Hp' & ->). rewrite Ha in Hrun. injection Hrun as <-.
  assert (Hstart : w_server w2 = w_server w1 /\ forall q, w_sessions w1 !! q = None <-> w_sessions w2 !! q = None).
  { unfold Requests.start, RAND in Hst. unfold bindM at 1 in Hst.
    destruct (RAND_pseudo_bytes 4 (w_rng w1)) as [bs g].
    apply run_bind_inv in Hst as (u1 & w5 & H1 & Hst). apply on_session_inv in H1 as (s & s' & Hs & _ & ->).
    apply run_bind_inv in Hst as (u2 & w6 & H2 & Hst).
    apply run_bind_inv in H2 as (s2 & w7 & H3 & H2). apply run_session_at_inv in H3 as [_ ->].
    injection H2 as _ <-. apply on_session_inv in Hst as (s3 & s4 & Hs3 & _ & ->). split; [done|].
    simpl in *. intros q. rewrite insert_insert_eq, lookup_insert_None.
    split; [|tauto]. intros Hq. split; [done|]. intros ->. congruence. }
  destruct Hstart as [E1 E2]. exists p'. simpl. rewrite E1. split_and!; [done| | |done].
  - by apply E2.
  - apply lookup_insert_eq.
Qed.
End acceptor.

Section removal.
Context `{PlatformLaws}.

(** What [close] does to the members of a session. *)
Definition closed_from (s s' : session) : Prop :=
  s_status s' = STATUS_DISCONNECTED /\ s_timer s' = false /\ SocketClose ∈ s_socket s' /\
  s_accountId s' = s_accountId s.

Lemma close_all l w :
  (forall q, q ∈ l -> is_Some (w_sessions w !! q)) ->
  exists m, for_each l (fun q => close q false false) w = (Ret tt, with_sessions m w) /\
    forall q, if decide (q ∈ l)
              then exists s s', w_sessions w !! q = Some s /\ m !! q = Some s' /\ closed_from s s'
              else m !! q = w_sessions w !! q.
Proof.
  revert w. induction l as [|p l IH]; intros w Hl.
  { exists (w_sessions w). split; [by destruct w|]. intros q. by rewrite decide_False by set_solver. }
  destruct (Hl p) as [s Hs]; [left|].
  destruct (run_close p false false s w Hs) as (s1 & Hst & Ht & Hc & _ & Ha & Hrun).
  cbn [when] in Hrun. set (w1 := with_sessions _ w) in Hrun. cbn [for_each].
  rewrite (run_bind_Ret _ _ _ _ _ Hrun).
  destruct (IH w1) as (m & Hrunm & Hm).
  { intros q Hq. unfold w1. simpl. rewrite lookup_insert. case_decide; [done|]. apply Hl. by right. }
  exists m. split; [exact Hrunm|]. intros q. specialize (Hm q).
  unfold w1 in Hm. cbn [w_sessions with_sessions] in Hm. rewrite lookup_insert in Hm.
  destruct (decide (p = q)) as [<-|Hne].
  - rewrite decide_True by left. case_decide as Hin.
    + destruct Hm as (s2 & s3 & [= <-] & Hs3 & C1 & C2 & C3 & C4). exists s, s3.
      split_and!; [done|done|]. repeat split; try done. congruence.
    + exists s, s1. rewrite Hm. done.
  - destruct (decide (q ∈ l)); [rewrite decide_True by by right|rewrite decide_False by set_solver]; done.
Qed.

Lemma for_each_concat {A} (l : list (Z * list A)) (f : A -> M world unit) w :
  for_each l (fun it => for_each it.2 f) w = for_each (concat l.*2) f w.
Proof.
  revert w. induction l as [|[k xs] l IH]; intros w; [done|]. csimpl.
  unfold bindM. revert w. induction xs as [|x xs IHx]; intros w; simpl; [apply IH|].
  unfold bindM. destruct (f x w) as [[[]|] w1]; [apply IHx|done].
Qed.

(** Removing the sessions, at the console or when the server closes, ends every session
    of the map: each is disconnected, its timer cancelled and its socket closed; the map is
    empty afterwards, and the sessions that are not in it are untouched. *)
Lemma removeSessions_closes_all w :
  registry_wf w ->
  exists w', removeSessions w = (Ret tt, w') /\ w_registry w' = ∅ /\
    (forall a q, q ∈ listed (w_registry w) a ->
       exists s s', w_sessions w !! q = Some s /\ w_sessions w' !! q = Some s' /\ closed_from s s') /\
    (forall q, (forall a, q ∉ listed (w_registry w) a) -> w_sessions w' !! q = w_sessions w !! q).
Proof.
  intros Hwf. unfold removeSessions. unfold bindM at 1, gets.
  destruct (decide (w_registry w = ∅)) as [He|He].
  { rewrite bool_decide_false by tauto. exists w. split_and!; [done|done| |done].
    intros a q. rewrite He. unfold listed. rewrite lookup_empty. by intros ?%elem_of_nil. }
  rewrite bool_decide_true by done. cbn [when].
  assert (Hin : forall q, q ∈ concat (in_key_order (w_registry w)).*2 <->
            exists a, q ∈ listed (w_registry w) a).
  { intros q. rewrite list_elem_of_In, in_concat. split.
    - intros (l & Hl%list_elem_of_In & Hq%list_elem_of_In).
      apply list_elem_of_fmap in Hl as ([a l'] & -> & Hl). apply elem_of_in_key_order in Hl.
      exists a. unfold listed. by rewrite Hl.
    - intros (a & Ha). unfold listed in Ha. destruct (w_registry w !! a) as [l|] eqn:El.
      + exists l. rewrite <- !list_elem_of_In. split; [|done].
        apply list_elem_of_fmap. exists (a, l). split; [done|]. by apply elem_of_in_key_order.
      + by apply elem_of_nil in Ha. }
  destruct (close_all (concat (in_key_order (w_registry w)).*2) w) as (m & Hrun & Hm).
  { intros q (a & Hq)%Hin. destruct (reg_account _ Hwf a q Hq) as (s & Hs & _). eauto. }
  unfold bindM. rewrite for_each_concat, Hrun. eexists. split; [done|]. split_and!; [done| |].
  - intros a q Hq. specialize (Hm q). rewrite decide_True in Hm by (apply Hin; eauto). done.
  - intros q Hq. specialize (Hm q). rewrite decide_False in Hm; [done|]. intros (a & Ha)%Hin.
    by apply (Hq a).
Qed.
End removal.

Section console_end.
Context `{Platform}.

Lemma head_tail_take (input : list Z) fuel :
  (default EOF (head input) = 101 \/ 101 ∈ take fuel (tail input)) -> 101 ∈ take (S fuel) input.
Proof.
  destruct input as [|c input]; simpl.
  - intros [?|?]; [done|]. rewrite take_nil in *. set_solver.
  - intros [->|?]; [left|by right].
Qed.

(** The console loop ends only at an 'e'. If the input has none, the loop never leaves,
    however long it runs: at the end of the input [getchar] gives EOF at once, every time,
    and the loop takes it for a character without a command. *)
Lemma console_ends_at_e calls input fuel w w' :
  console calls input fuel w = (Ret true, w') -> 101 ∈ take fuel input.
Proof.
  revert input w. induction fuel as [|fuel IH]; intros input w; cbn [console]; [done|].
  intros Hrun. apply run_bind_inv in Hrun as (stop & w1 & Hc & Hrun).
  apply head_tail_take. unfold command in Hc.
  destruct (default EOF (head input) =? 101) eqn:E; [left; lia|right].
  assert (stop = false) as ->.
  { clear -Hc. destruct (_ =? 105); [by apply run_bind_inv in Hc as (? & ? & _ & [= <- _])|].
    destruct (_ =? 114); [by apply run_bind_inv in Hc as (? & ? & _ & [= <- _])|].
    destruct (_ =? 112); [|by injection Hc as <- _].
    apply run_bind_inv in Hc as (? & ? & _ & Hc).
    by apply run_bind_inv in Hc as (? & ? & _ & [= <- _]). }
  by eapply IH.
Qed.
End console_end.

Section strangers.
Context `{PlatformLaws}.

(** The temporary id of a session is an account id like any other. If the four random
    bytes a new session starts with are the id of an account that is off line, the
    session, although no one has logged in on it, is listed for that account and is given
    all the stored requests of the account when they are processed. *)
Lemma temporary_id_collision p s w w1 w2 :
  w_sessions w !! p = Some s -> s_status s <> STATUS_LOGGEDIN ->
  let a := le_combine (RAND_pseudo_bytes 4 (w_rng w)).1 in
  listed (w_registry w) a = [] ->
  Requests.start p w = (Ret tt, w1) -> processUserRequests a w1 = (Ret tt, w2) ->
  listed (w_registry w1) a = [p] /\
  exists s2, w_sessions w2 !! p = Some s2 /\ s_status s2 = s_status s /\
    forall d, d ∈ stored_for a (db_mongo (w_db w)) -> doc_type d ∈ forwarded ->
      requestPending (s_engine s2) (doc_type d) (doc_id d) = true.
Proof.
  intros Hs Hst a Hl Hstart Hproc.
  assert (H1 : exists s1, w_sessions w1 !! p = Some s1 /\ s_accountId s1 = a /\
            s_status s1 = s_status s /\ w_db w1 = w_db w /\ listed (w_registry w1) a = [p]).
  { unfold Requests.start, RAND in Hstart. unfold bindM at 1 in Hstart. subst a.
    destruct (RAND_pseudo_bytes 4 (w_rng w)) as [bs g]. cbn [fst] in *.
    unfold bindM at 1 in Hstart. rewrite (run_update p s) in Hstart by done.
    set (w0 := with_sessions _ _) in Hstart.
    assert (Hs0 : w_sessions w0 !! p = Some (with_accountId (le_combine bs) s)) by apply lookup_insert_eq.
    destruct (appendSession_run p _ w0 Hs0) as (reg & Happ & Hreg & _).
    rewrite (run_bind_Ret _ _ _ _ _ Happ) in Hstart. rewrite (run_on_session p _ _ (with_registry reg w0) Hs0) in Hstart.
    injection Hstart as <-. eexists. simpl. rewrite lookup_insert_eq. split; [done|].
    split_and!; [done|done|done|]. rewrite Hreg, decide_True by done. simpl. by rewrite Hl. }
  destruct H1 as (s1 & Hs1 & Ha & Hst1 & Hdb & Hl1). split; [done|].
  unfold processUserRequests in Hproc. unfold bindM at 1 in Hproc.
  rewrite getSessions_run, Hl1 in Hproc. cbn [for_each] in Hproc.
  apply run_bind_inv in Hproc as (u & w3 & Hproc & [= <-]).
  apply run_bind_inv in Hproc as (b & w4 & Hproc & [= _ <-]).
  assert (b = true) as ->.
  { clear -Hproc. unfold processRequests in Hproc. apply run_bind_inv in Hproc as (? & ? & _ & Hproc).
    apply run_bind_inv in Hproc as (? & ? & _ & Hproc).
    by apply run_bind_inv in Hproc as (? & ? & _ & [= <- _]). }
  destruct (frame_processRequests p w1) as [Hss _ _ _]. rewrite Hproc in Hss. simpl in Hss.
  destruct (processRequests_run p s1 w1 w4 Hs1 Hproc) as (s2 & Hs2 & rs & _ & _ & _ & Hall).
  exists s2. specialize (Hss p). rewrite Hs1, Hs2 in Hss. inversion Hss as [? ? [_ Hbg _]|]; subst.
  split_and!; [done|congruence|]. by rewrite Ha, Hdb in Hall.
Qed.

(** Accepting anything but a contact request takes the server down. When a client that is
    logged in accepts a stored request of its account that carries no public key, such as a
    push request or a rejection, the exception that reading the key throws is caught
    nowhere: the thread, and with it the process, ends. *)
Lemma accept_without_key_crashes p s req r acc w :
  w_sessions w !! p = Some s -> STATUS_LOGGEDIN <= s_status s -> db_ready (w_db w) ->
  let crid := u32 (int_of req "contactRequestId") in
  head (db_query "zway.requests" (contact_request_query crid (s_accountId s)) None 0 None
          (db_mongo (w_db w))).1 = Some r ->
  field "publicKey" r = None ->
  head (db_query "zway.accounts" [("id"%string, bson_u32 (s_accountId s))] None 0
          (Some [("name"%string, BInt 1); ("phone"%string, BInt 1)]) (db_mongo (w_db w))).1 = Some acc ->
  (processAcceptContact p req w).1 = Fault UncaughtException.
Proof.
  intros Hs Hst Hr crid Hhead Hkey Hacc. unfold processAcceptContact. cbv zeta.
  rewrite (run_bind_Ret _ _ _ _ _ (run_the_status p s w Hs)).
  assert (s_status s <? STATUS_LOGGEDIN = false) as -> by lia.
  rewrite (run_bind_Ret _ _ _ _ _ (run_the_accountId p s w Hs)).
  unfold getRequest. rewrite (run_bind_Ret _ _ _ _ _ (run_lock _ w Hr)). cbn [fst snd].
  fold crid. rewrite Hhead. set (w1 := with_db _ w).
  assert (Hr1 : db_ready (w_db w1)) by by apply used_ready.
  assert (Hs1 : w_sessions w1 !! p = Some s) by done.
  unfold own_account. unfold bindM at 1.
  rewrite (run_bind_Ret _ _ _ _ _ (run_the_accountId p s w1 Hs1)).
  unfold getAccount. rewrite (run_lock _ w1 Hr1). cbn [fst snd w_db with_db w1 db_mongo used].
  rewrite Hacc. assert (bson_get r "publicKey" = BEOO) as -> by (unfold bson_get; by rewrite Hkey).
  by rewrite bson_Obj_eoo.
Qed.
End strangers.
