(* ===== verification/Main.v ===== *)
(** * The process (src/main.cpp)

    [main] from the parsed command line to the exit status: becoming a daemon, the worker
    threads, starting the server, the console or the wait for the signal, and the shutdown.
    What the operating system and the option parser answer are arguments. *)

From S2P Require Import Prelude Values Platform Codec Pool Db Stdio StreamBuffer Streams World.
From S2P Require Import Registry Transport Session Contacts Requests Fcm Server Console Frames.
From S2P Require Import System Auth Operation.

Local Open Scope zway_scope.
Local Open Scope Z_scope.

(** ** The console, in full *)

Section console_total.
Context `{PlatformLaws}.

(** A server that runs: its invariant holds, and it has connections to the database. *)
Definition running_server (w : world) : Prop := inv w /\ db_ready (w_db w).

Lemma session_line_total p w :
  is_Some (w_sessions w !! p) -> db_ready (w_db w) ->
  exists line, session_line p w = (Ret line, with_db (used (w_db w) (db_mongo (w_db w))) w).
Proof.
  intros [s Hs] Hr. unfold session_line, getAccount.
  rewrite (run_bind_Ret _ _ _ _ _ (run_session_at p s w Hs)).
  rewrite (run_bind_Ret _ _ _ _ _ (run_on_db _ _ _ _ (with_lock_run _ _ Hr))).
  by eexists.
Qed.

Lemma lines_total l w :
  Forall (fun p => is_Some (w_sessions w !! p)) l -> db_ready (w_db w) ->
  exists lines d, collect l session_line w = (Ret lines, with_db d w) /\ db_ready d.
Proof.
  revert w. induction l as [|p l IH]; intros w HF Hr.
  { exists [], (w_db w). split; [by destruct w|done]. }
  apply Forall_cons in HF as [Hp HF]. destruct (session_line_total p w Hp Hr) as (line & Hl).
  cbn [collect]. rewrite (run_bind_Ret _ _ _ _ _ Hl).
  destruct (IH (with_db (used (w_db w) (db_mongo (w_db w))) w) HF (used_ready _ _ Hr)) as (lines & d & Hc & Hd).
  rewrite (run_bind_Ret _ _ _ _ _ Hc). by eexists _, d.
Qed.

Lemma listed_concat w q :
  q ∈ concat (in_key_order (w_registry w)).*2 -> exists a, q ∈ listed (w_registry w) a.
Proof.
  rewrite list_elem_of_In, in_concat. intros (l & Hl%list_elem_of_In & Hq%list_elem_of_In).
  apply list_elem_of_fmap in Hl as ([a l'] & -> & Hl). apply elem_of_in_key_order in Hl.
  exists a. unfold listed. by rewrite Hl.
Qed.

Lemma info_total w :
  registry_wf w -> db_ready (w_db w) ->
  exists r d, info w = (Ret r, with_db d w) /\ db_ready d.
Proof.
  intros Hwf Hr. unfold info. unfold bindM at 1, gets.
  destruct (lines_total (concat (in_key_order (w_registry w)).*2) w) as (lines & d & Hc & Hd); [|done|].
  { apply Forall_forall. intros q (a & Ha)%listed_concat. by eapply listed_exists. }
  rewrite (run_bind_Ret _ _ _ _ _ Hc). eexists _, d. split; [|done]. unfold bindM, on_streams, zoom. cbn.
  by destruct w as [ss r sv db st tk f g].
Qed.

Lemma resume_total o b l w : exists r w', resume o b l w = (Ret r, w') /\ w_db w' = w_db w.
Proof.
  unfold resume. rewrite (run_bind_Ret _ _ _ _ _ (eq_refl : gets w_server w = (Ret (w_server w), w))).
  destruct (negb _); [by eexists _, _|]. destruct (_ || _); [by eexists _, _|].
  destruct b; [|by eexists _, _]. destruct l; by eexists _, _.
Qed.

Lemma pause_total c w : exists r w', pause c w = (Ret r, w') /\ w_db w' = w_db w.
Proof.
  unfold pause. rewrite (run_bind_Ret _ _ _ _ _ (eq_refl : gets w_server w = (Ret (w_server w), w))).
  destruct (sv_paused _); [by eexists _, _|]. destruct c; by eexists _, _.
Qed.

(** A command never ends the process, and leaves a running server running; it is the last one
    exactly when it is an 'e'. *)
Lemma command_total calls c w :
  running_server w -> exists w', command calls c w = (Ret (c =? 101), w') /\ running_server w'.
Proof.
  intros [Hi Hr].
  assert (Htot : exists w', command calls c w = (Ret (c =? 101), w') /\ db_ready (w_db w')).
  { unfold command. destruct (c =? 101); [by exists w|]. destruct (c =? 105).
    { destruct (info_total w (inv_registry _ Hi) Hr) as (r & d & Hrun & Hd).
      rewrite (run_bind_Ret _ _ _ _ _ Hrun). by eexists. }
    destruct (c =? 114).
    { destruct (removeSessions_closes_all w (inv_registry _ Hi)) as (w' & Hrun & _).
      rewrite (run_bind_Ret _ _ _ _ _ Hrun). eexists. split; [done|].
      pose proof (rest_kept_removeSessions w) as [Hk _]. rewrite Hrun in Hk. cbn in Hk. by rewrite Hk. }
    destruct (c =? 112); [|by exists w].
    rewrite (run_bind_Ret _ _ _ _ _ (eq_refl : gets w_server w = (Ret (w_server w), w))).
    destruct (sv_paused (w_server w)).
    - destruct (resume_total (c_open calls) (c_bind calls) (c_listen calls) w) as (b & w' & Hrun & E).
      rewrite (run_bind_Ret _ _ _ _ _ Hrun). eexists. split; [done|]. by rewrite E.
    - destruct (pause_total (c_close calls) w) as (b & w' & Hrun & E).
      rewrite (run_bind_Ret _ _ _ _ _ Hrun). eexists. split; [done|]. by rewrite E. }
  destruct Htot as (w' & Hrun & Hr'). exists w'. split; [done|]. split; [|done].
  by apply (keeps_command calls c w (c =? 101) w' Hi).
Qed.

Lemma server_close_total w :
  registry_wf w ->
  exists w', server_close w = (Ret tt, w') /\ w_registry w' = ∅ /\
    sv_listening (w_server w') = false /\ sv_timer (w_server w') = false /\ db_pool (w_db w') = [].
Proof.
  intros Hwf. unfold server_close. set (w1 := with_server (sv_with_listening false (sv_with_timer false (w_server w))) w).
  rewrite (run_bind_Ret _ _ w tt (with_server (sv_with_timer false (w_server w)) w)) by done.
  rewrite (run_bind_Ret _ _ _ tt w1) by done.
  destruct (removeSessions_closes_all w1) as (w2 & Hrun & Hreg & _); [by destruct Hwf|].
  rewrite (run_bind_Ret _ _ _ _ _ Hrun). pose proof (rest_kept_removeSessions w1) as [_ Hsv].
  rewrite Hrun in Hsv. cbn in Hsv. eexists. split; [reflexivity|]. cbn. by rewrite Hsv.
Qed.

(** C36: The console ends exactly at the first 'e' of its input. On a running server no command
    ends the process by an exception or a null pointer: after [fuel] turns the loop has been
    left if and only if one of the first [fuel] characters is an 'e', with the server closed
    and no session left in its map. If the input has none the loop never leaves: at the end of
    the input [getchar] gives EOF at once, every time, which the loop takes for a character
    without a command. *)
Theorem console_exact calls fuel input w :
  running_server w ->
  exists w', console calls input fuel w = (Ret (bool_decide (101 ∈ take fuel input)), w') /\
    if decide (101 ∈ take fuel input)
    then w_registry w' = ∅ /\ sv_listening (w_server w') = false /\ db_pool (w_db w') = []
    else running_server w'.
Proof.
  revert input w. induction fuel as [|fuel IH]; intros input w Hw; cbn [console].
  { exists w. split; [done|]. by rewrite decide_False by set_solver. }
  destruct (command_total (calls fuel) (default EOF (head input)) w Hw) as (w1 & Hrun & Hw1).
  rewrite (run_bind_Ret _ _ _ _ _ Hrun).
  assert (Htake : 101 ∈ take (S fuel) input <->
            default EOF (head input) = 101 \/ 101 ∈ take fuel (tail input)).
  { destruct input as [|c input]; cbn.
    - rewrite take_nil. split; [by intros ?%elem_of_nil|intros [?|?%elem_of_nil]; done].
    - rewrite elem_of_cons. naive_solver. }
  destruct (default EOF (head input) =? 101) eqn:E.
  - destruct (server_close_total w1 (inv_registry _ (proj1 Hw1))) as (w2 & Hc & H1 & H2 & _ & H3).
    rewrite (run_bind_Ret _ _ _ _ _ Hc). exists w2.
    rewrite bool_decide_true, decide_True by (apply Htake; left; lia). done.
  - destruct (IH (tail input) w1 Hw1) as (w2 & Hc & Hres). exists w2. rewrite Hc.
    assert (Hiff : 101 ∈ take (S fuel) input <-> 101 ∈ take fuel (tail input)) by (rewrite Htake; split; [intros [?|?]; [lia|done]|by right]).
    split; [by rewrite (bool_decide_ext _ _ Hiff)|].
    destruct (decide (101 ∈ take fuel (tail input))) as [Hd|Hd].
    + rewrite decide_True by (by apply Hiff). done.
    + rewrite decide_False by (by rewrite Hiff). done.
Qed.
End console_total.

(** ** The process *)

(** The command line, parsed; defaults are filled in by the parser. *)
Record options := Options {
  o_help : bool;
  o_address : option string;
  o_port : Z;
  o_numWorkers : Z;
  o_daemon : bool
}.

(** What the operating system answers. *)
Record answers := Answers {
  y_cwd : option string;      (** [get_current_dir_name], a null pointer on failure *)
  y_fork : Z;
  y_setsid : Z;
  y_chdir : Z
}.

(** What [main] does to the rest of the system. *)
Inductive act :=
| Print_error
| Print_options
| Fork
| Umask (mask : Z)
| Setsid
| Write_file (name : string) (number : Z)
| Chdir (path : string)
| Close_fd (fd : Z)
| Signal_handler
| Add_file_log (name : string)
| Add_console_log
| Add_common_attributes
| Create_thread
| Fcm_startup
| Run_io_service
| Stop_io_service
| Reset_work
| Join_all
| Fcm_cleanup
| Log_bye.

Definition LOG_FILENAME : string := "/var/log/zway".
Definition EXIT_SUCCESS : Z := 0.
Definition EXIT_FAILURE : Z := 1.

Section main.
Context `{Platform}.

Record process := Process { pr_acts : list act; pr_cwd : string; pr_world : world }.

Definition do_ (a : act) : M process unit :=
  modify (fun pr => Process (pr_acts pr ++ [a]) (pr_cwd pr) (pr_world pr)).

Definition on_world {A} (m : M world A) : M process A :=
  zoom pr_world (fun w pr => Process (pr_acts pr) (pr_cwd pr) w) m.

(** A worker thread, and the handler of SIGUSR1. *)
Definition worker : M process unit := do_ Run_io_service.
Definition signal_handler : M process unit := do_ Stop_io_service.

(** The constructor of [Server]. *)
Definition new_server : server := Server false 0 false [] false.

(** The part of [main] for the daemon; a result is the status of an [exit]. *)
Definition daemonize (y : answers) : M process (option Z) :=
  do_ Fork ;;
  if y_fork y <? 0 then ret (Some EXIT_FAILURE)
  else if y_fork y >? 0 then ret (Some EXIT_SUCCESS)
  else
    do_ (Umask 0) ;;
    do_ Setsid ;;
    if y_setsid y <? 0 then ret (Some EXIT_FAILURE)
    else
      do_ (Write_file "/var/run/zway.pid" (y_setsid y)) ;;
      do_ (Chdir "/") ;;
      if y_chdir y <? 0 then ret (Some EXIT_FAILURE)
      else
        modify (fun pr => Process (pr_acts pr) "/" (pr_world pr)) ;;
        do_ (Close_fd 0) ;; do_ (Close_fd 1) ;; do_ (Close_fd 2) ;;
        do_ Signal_handler ;;
        do_ (Add_file_log LOG_FILENAME) ;;
        ret None.

(** From the worker threads on. [served] is what the workers do until the daemon's
    [io_service->run()] returns, or before the commands are entered; no result means that the
    console is still being read after [fuel] characters. *)
Definition run_server (o : options) (workingDir address : string) (client_ok : bool)
    (created : nat -> bool) (acceptor_ok : string -> string -> Z -> bool) (served : M world unit)
    (calls : nat -> acceptor_calls) (input : list Z) (fuel : nat) : M process (option Z) :=
  for_each (seq 0 (Z.to_nat (create_workers (o_numWorkers o) 0 51))) (fun _ => do_ Create_thread) ;;
  do_ Fcm_startup ;;
  on_world (modify (with_server new_server)) ;;
  let* started := on_world (server_start client_ok created
                              (acceptor_ok workingDir address (u32 (o_port o)))) in
  if negb started then ret (Some (-1))
  else
    on_world served ;;
    let* left := (if o_daemon o then do_ Run_io_service ;; on_world server_close ;; ret true
                  else on_world (console calls input fuel)) in
    if negb left then ret None
    else
      do_ Reset_work ;;
      do_ Join_all ;;
      do_ Fcm_cleanup ;;
      do_ Log_bye ;;
      ret (Some 0).

(** [main]; [cmdline] is [None] when the parser throws. *)
Definition main (y : answers) (cmdline : option options) (client_ok : bool) (created : nat -> bool)
    (acceptor_ok : string -> string -> Z -> bool) (served : M world unit)
    (calls : nat -> acceptor_calls) (input : list Z) (fuel : nat) : M process (option Z) :=
  match y_cwd y with
  | None => fail NullDereference
  | Some workingDir =>
      match cmdline with
      | None => do_ Print_error ;; do_ Print_options ;; ret (Some (-1))
      | Some o =>
          match o_help o, o_address o with
          | false, Some address =>
              let* exited := (if o_daemon o then daemonize y
                              else do_ Add_console_log ;; ret None) in
              match exited with
              | Some status => ret (Some status)
              | None =>
                  do_ Add_common_attributes ;;
                  run_server o workingDir address client_ok created acceptor_ok served calls
                    input fuel
              end
          | _, _ => do_ Print_options ;; ret (Some (-1))
          end
      end
  end.

(** The process as it starts, over a database, a file system, a time and a random generator. *)
Definition initial_world (m : mongo) (fs : filesystem) (time : Z) (g : rng) : world :=
  World ∅ ∅ new_server (DbState [] m) (Streams fs ∅ ∅ ∅ [] 0 time) [] [] g.
End main.
Arguments process {_}.

Section main_specs.
Context `{PlatformLaws}.

Lemma do_all {A} (l : list A) a (pr : process) :
  for_each l (fun _ => do_ a) pr =
    (Ret tt, Process (pr_acts pr ++ replicate (length l) a) (pr_cwd pr) (pr_world pr)).
Proof.
  revert pr. induction l as [|x l IH]; intros pr; cbn [for_each].
  - cbn. rewrite app_nil_r. by destruct pr.
  - unfold bindM, do_ at 1, modify. rewrite IH. cbn. by rewrite <- app_assoc.
Qed.

(** The connections to the database can be made and the acceptor can be opened. *)
Definition startable (client_ok : bool) (created : nat -> bool) (acceptor_ok : bool) : Prop :=
  client_ok = true /\ Forall (fun j => created j = true) (seq 0 25) /\ acceptor_ok = true.

#[export] Instance startable_dec c f a : Decision (startable c f a).
Proof. unfold startable. apply _. Defined.

Lemma server_start_outcome m fs time g client_ok created acceptor_ok :
  exists w, server_start client_ok created acceptor_ok (initial_world m fs time g) =
      (Ret (bool_decide (startable client_ok created acceptor_ok)), w) /\
    (startable client_ok created acceptor_ok -> running_server w).
Proof.
  destruct (server_start client_ok created acceptor_ok (initial_world m fs time g)) as [r w] eqn:Hrun.
  destruct (DB_startup client_ok created 25) as [ok q] eqn:Hdb.
  destruct (startup_connections _ _ _ _ _ Hdb) as (Hok & Hq & _).
  pose proof Hrun as Hrun'. unfold server_start in Hrun'. rewrite Hdb in Hrun'.
  unfold bindM at 1, on_db, zoom, modify in Hrun'. cbn beta iota in Hrun'.
  destruct ok; cbn [negb] in Hrun'.
  2: { injection Hrun' as <- <-. eexists. rewrite bool_decide_false; [split; [done|]|].
       - intros (? & ? & _). exfalso. assert (false = true) by (by apply Hok). done.
       - intros (? & ? & _). assert (false = true) by (by apply Hok). done. }
  destruct (proj1 Hok eq_refl) as [-> HF]. destruct acceptor_ok; cbn [negb] in Hrun'.
  2: { injection Hrun' as <- <-. eexists. rewrite bool_decide_false; [split; [done|]|];
       by intros (_ & _ & ?). }
  unfold bindM, on_server, modify, accept, create_session in Hrun'. cbn in Hrun'.
  injection Hrun' as <- <-. eexists. rewrite bool_decide_true by done. split; [done|]. intros _.
  split; [by apply (boot_inv m fs time g created)|]. unfold db_ready. cbn. by rewrite (Hq eq_refl).
Qed.

#[local] Opaque server_close console.

(** What becomes of a server that is started from [run_server]. *)
Definition server_result (o : options) (dir address : string) (client_ok : bool)
    (created : nat -> bool) (acceptor_ok : string -> string -> Z -> bool) (input : list Z)
    (fuel : nat) (r : option Z) (pr' : process) (rest : list act) : Prop :=
  if decide (startable client_ok created (acceptor_ok dir address (u32 (o_port o))))
  then
    if o_daemon o || bool_decide (101 ∈ take fuel input)
    then r = Some 0 /\ w_registry (pr_world pr') = ∅ /\
         sv_listening (w_server (pr_world pr')) = false /\
         rest = (if o_daemon o then [Run_io_service] else []) ++
                [Reset_work; Join_all; Fcm_cleanup; Log_bye]
    else r = None /\ rest = []
  else r = Some (-1) /\ rest = [].

Lemma run_server_outcome o dir address client_ok created acceptor_ok served calls input fuel m fs time g pr :
  pr_world pr = initial_world m fs time g ->
  (forall w, running_server w -> exists w', served w = (Ret tt, w') /\ running_server w') ->
  let n := Z.to_nat (create_workers (o_numWorkers o) 0 51) in
  exists r pr' rest,
    run_server o dir address client_ok created acceptor_ok served calls input fuel pr = (Ret r, pr') /\
    pr_cwd pr' = pr_cwd pr /\
    pr_acts pr' = pr_acts pr ++ replicate n Create_thread ++ Fcm_startup :: rest /\
    server_result o dir address client_ok created acceptor_ok input fuel r pr' rest.
Proof.
  intros Hw Hserved n. unfold run_server, server_result.
  rewrite (run_bind_Ret _ _ _ _ _ (do_all _ _ pr)), length_seq. fold n.
  unfold bindM at 1, do_ at 1, modify. cbn beta iota. cbn [pr_acts pr_cwd pr_world].
  unfold bindM at 1, on_world at 1, zoom, modify. cbn beta iota. cbn [pr_acts pr_cwd pr_world].
  rewrite Hw. change (with_server new_server (initial_world m fs time g)) with (initial_world m fs time g).
  unfold bindM at 1, on_world at 1, zoom. cbn beta iota. cbn [pr_acts pr_cwd pr_world].
  destruct (server_start_outcome m fs time g client_ok created (acceptor_ok dir address (u32 (o_port o))))
    as (w1 & -> & Hrunning).
  destruct (decide (startable _ _ _)) as [Hst|Hst].
  2: { rewrite bool_decide_false by done. eexists _, _, _. split; [reflexivity|]. cbn.
       split; [done|]. split; [by rewrite <- app_assoc|done]. }
  rewrite bool_decide_true by done. cbn [negb].
  destruct (Hserved w1 (Hrunning Hst)) as (w2 & Hs & Hr2).
  unfold bindM at 1, on_world at 1, zoom. cbn beta iota. cbn [pr_acts pr_cwd pr_world]. rewrite Hs.
  cbn beta iota. destruct (o_daemon o); cbn [orb].
  - destruct (server_close_total w2 (inv_registry _ (proj1 Hr2))) as (w3 & Hc & H1 & H2 & _).
    unfold bindM, do_, on_world, zoom, modify, ret. cbn. rewrite Hc. cbn.
    eexists _, _, _. split; [reflexivity|]. cbn. split; [done|].
    split; [by rewrite <- !app_assoc|done].
  - destruct (console_exact calls fuel input w2 Hr2) as (w3 & Hc & Hres).
    unfold bindM, do_, on_world, zoom, modify, ret. cbn. rewrite Hc. cbn.
    case_bool_decide as Hin; cbn.
    + rewrite decide_True in Hres by done. destruct Hres as (H1 & H2 & _).
      eexists _, _, _. split; [reflexivity|]. cbn. split; [done|].
      split; [by rewrite <- !app_assoc|done].
    + eexists _, _, _. split; [reflexivity|]. cbn. split; [done|]. split; [by rewrite <- app_assoc|done].
Qed.

(** A value is not in an explicit list of others. *)
Ltac not_in :=
  let Hin := fresh in intros Hin;
  repeat (apply elem_of_cons in Hin as [Hin|Hin]; [discriminate Hin|]); by apply elem_of_nil in Hin.

(** A command line the process goes on with. *)
Definition usable (cmdline : option options) (o : options) (address : string) : Prop :=
  cmdline = Some o /\ o_help o = false /\ o_address o = Some address.

Definition becomes_daemon (y : answers) : Prop := y_fork y = 0 /\ 0 <= y_setsid y /\ 0 <= y_chdir y.

(** What [daemonize] does on each branch. *)
Lemma daemonize_outcome y pr :
  exists r pr', daemonize y pr = (Ret r, pr') /\ pr_world pr' = pr_world pr /\
    (r = None <-> becomes_daemon y) /\
    (becomes_daemon y -> pr_cwd pr' = "/"%string) /\
    (y_fork y <> 0 -> r = Some (if y_fork y <? 0 then EXIT_FAILURE else EXIT_SUCCESS)) /\
    (y_fork y = 0 -> r = None \/ r = Some EXIT_FAILURE) /\
    exists l, pr_acts pr' = pr_acts pr ++ l /\ Create_thread ∉ l.
Proof.
  unfold daemonize, becomes_daemon, bindM, do_, modify, ret. cbn.
  destruct (y_fork y <? 0) eqn:E1; [|destruct (y_fork y >? 0) eqn:E2; [|destruct (y_setsid y <? 0) eqn:E3;
    [|destruct (y_chdir y <? 0) eqn:E4]]]; cbn.
  all: eexists _, _; split; [reflexivity|]; cbn; split; [done|].
  all: split; [split; [first [done|intros _; lia]|first [done|lia|intros (? & ? & ?); lia]]|].
  all: split; [first [done|intros (? & ? & ?); lia]|].
  all: split; [first [by intros|intros; lia]|].
  all: split; [first [by intros _; left|by intros _; right|intros; lia]|].
  all: eexists; split; [rewrite <- ?app_assoc; reflexivity|]; cbn.
  all: not_in.
Qed.

(** What follows the choice between the daemon and the console, when no thread was made before. *)
Lemma served_to_the_end o dir address client_ok created acceptor_ok served calls input fuel m fs time g before cwd :
  (forall w, running_server w -> exists w', served w = (Ret tt, w') /\ running_server w') ->
  Create_thread ∉ before ->
  exists r pr',
    (do_ Add_common_attributes ;;
     run_server o dir address client_ok created acceptor_ok served calls input fuel)%zway
      (Process before cwd (initial_world m fs time g)) = (Ret r, pr') /\
    pr_cwd pr' = cwd /\
    exists before' rest, Create_thread ∉ before' /\
      pr_acts pr' = before' ++ replicate (Z.to_nat (create_workers (o_numWorkers o) 0 51)) Create_thread
                            ++ Fcm_startup :: rest /\
      server_result o dir address client_ok created acceptor_ok input fuel r pr' rest.
Proof.
  intros Hserved Hb. unfold bindM at 1, do_, modify. cbn beta iota. cbn [pr_acts pr_cwd pr_world].
  destruct (run_server_outcome o dir address client_ok created acceptor_ok served calls input fuel
    m fs time g (Process (before ++ [Add_common_attributes]) cwd (initial_world m fs time g)) eq_refl Hserved)
    as (r & pr' & rest & Hrun & Hc & Hacts & Hres).
  exists r, pr'. split; [exact Hrun|]. split; [done|].
  exists (before ++ [Add_common_attributes]), rest. split; [|done].
  rewrite elem_of_app. intros [?|Hin]; [done|]. revert Hin. not_in.
Qed.

(** C35: The status with which the process ends, on every branch of [main], and what it has done
    by then. A command line that does not parse, asks for help or has no address gives -1; the
    parent of a daemon reports success as soon as it has forked, whatever becomes of the child;
    a daemon that cannot get a session or its working directory fails. Before any of these no
    thread was made. Otherwise the requested number of threads is created; when the server does
    not start, the status is -1 and the threads are never joined. When it starts, the daemon
    ends with 0 after the signal, and otherwise the process ends with 0 if there is an 'e' in
    the input, with the sessions closed and the threads joined, and does not end if there is
    none. *)
Theorem main_outcome y dir cmdline client_ok created acceptor_ok served calls input fuel m fs time g :
  y_cwd y = Some dir ->
  (forall w, running_server w -> exists w', served w = (Ret tt, w') /\ running_server w') ->
  exists r pr', main y cmdline client_ok created acceptor_ok served calls input fuel
                  (Process [] dir (initial_world m fs time g)) = (Ret r, pr') /\
    ((forall o a, ~ usable cmdline o a) -> r = Some (-1) /\ Create_thread ∉ pr_acts pr') /\
    (forall o a, usable cmdline o a ->
      (o_daemon o = true -> y_fork y <> 0 ->
         r = Some (if y_fork y <? 0 then EXIT_FAILURE else EXIT_SUCCESS) /\
         Create_thread ∉ pr_acts pr' /\ pr_world pr' = initial_world m fs time g) /\
      (o_daemon o = true -> y_fork y = 0 -> ~ becomes_daemon y ->
         r = Some EXIT_FAILURE /\ Create_thread ∉ pr_acts pr') /\
      ((o_daemon o = true -> becomes_daemon y) ->
         pr_cwd pr' = (if o_daemon o then "/"%string else dir) /\
         exists before rest, Create_thread ∉ before /\
         pr_acts pr' = before ++ replicate (Z.to_nat (create_workers (o_numWorkers o) 0 51)) Create_thread
                              ++ Fcm_startup :: rest /\
         server_result o dir a client_ok created acceptor_ok input fuel r pr' rest)).
Proof.
  intros Hcwd Hserved. unfold main. rewrite Hcwd.
  destruct cmdline as [o|].
  2: { eexists _, _. split; [reflexivity|]. split; [|by intros o a (? & _)].
       intros _. split; [done|]. cbn. not_in. }
  destruct (o_help o) eqn:Hh; [|destruct (o_address o) as [address|] eqn:Ha].
  1,3: eexists _, _; (split; [reflexivity|]); (split; [|intros o' a ([= <-] & ? & ?); congruence]);
       intros _; (split; [done|]); cbn; not_in.
  set (pr0 := Process _ _ _).
  assert (Huse : usable (Some o) o address) by done.
  pose proof (fun before cwd => served_to_the_end o dir address client_ok created acceptor_ok served calls
    input fuel m fs time g before cwd Hserved) as Hrest.
  set (finish := fun pr => run_server o dir address client_ok created acceptor_ok served calls input fuel pr) in *.
  clearbody finish. destruct (o_daemon o) eqn:Hd.
  - destruct (daemonize_outcome y pr0) as (exited & pr1 & Hdm & Hw1 & Hnone & Hcwd1 & Hfork & Hchild & l & Hl & Hthr).
    unfold bindM at 1. rewrite Hdm. destruct exited as [status|].
    + eexists _, _. split; [reflexivity|]. split; [intros Hno; by destruct (Hno o address)|].
      intros o' a ([= <-] & _ & _). cbn in Hl. rewrite Hl. split_and!.
      * intros _ Hf. by rewrite (Hfork Hf).
      * intros _ Hf _. by destruct (Hchild Hf) as [?|[= ->]].
      * intros Hbec. exfalso. by apply Hnone in Hbec.
    + assert (Hbec : becomes_daemon y) by by apply Hnone.
      assert (Epr : pr1 = Process l "/" (pr_world pr0)).
      { destruct pr1 as [acts cwd w]. cbn in *. subst. f_equal. by apply Hcwd1. }
      destruct (Hrest l "/"%string Hthr) as (r & pr' & Hrun & Hc & Hbefore). rewrite Epr.
      exists r, pr'. split; [exact Hrun|]. split; [intros Hno; by destruct (Hno o address)|].
      intros o' a ([= <-] & _ & [= <-]%(eq_trans (eq_sym Ha))). rewrite Hd. split_and!.
      * intros _ Hf. by destruct Hbec.
      * intros _ _ Hn. by destruct Hn.
      * done.
  - destruct (Hrest [Add_console_log] dir) as (r & pr' & Hrun & Hc & Hbefore); [not_in|].
    exists r, pr'. split; [exact Hrun|]. split; [intros Hno; by destruct (Hno o address)|].
    intros o' a ([= <-] & _ & [= <-]%(eq_trans (eq_sym Ha))). rewrite Hd. split_and!; [done|done|done].
Qed.
End main_specs.
