(* ===== verification/Scenarios.v ===== *)
(** * Concrete runs

    Small worlds over the reference platform, and runs in which a request reaches the wrong
    account. The worlds are also what the general theorems are applied to in [Witnesses]. *)

From S2P Require Import Prelude Values Platform Reference Codec Pool Db Stdio StreamBuffer.
From S2P Require Import Streams World Registry Transport Session Contacts Requests Fcm Server.
From S2P Require Import Console Frames System.

Local Open Scope zway_scope.
Local Open Scope Z_scope.

(** A session logged in to an account. *)
Definition client (a : Z) : session := with_accountId a (with_status STATUS_LOGGEDIN new_session).

Definition stored_account (id : Z) (name : string) : doc :=
  [("id"%string, BInt id); ("name"%string, BString name); ("phone"%string, BString "");
   ("findByName"%string, BBool true); ("findByPhone"%string, BBool false);
   ("pass"%string, BBinData (take 32 (bytes_of "pw" ++ bytes_of "s" ++ replicate 32 Byte.x00)));
   ("salt"%string, BBinData (bytes_of "s"))].

Definition accounts : list doc :=
  [stored_account 1 "alice"; stored_account 2 "bob"; stored_account 3 "carol"].

Definition empty_fs : filesystem := Filesystem ∅ (fun _ => true) 1000.

(** Alice, Bob and Carol are logged in on the sessions 1, 2 and 3. *)
Definition the_world (requests : list doc) (random : string) : world :=
  World {[ 1%nat := client 1; 2%nat := client 2; 3%nat := client 3 ]}
        {[ 1 := [1%nat]; 2 := [2%nat]; 3 := [3%nat] ]}
        (Server false 3 true [] true)
        (DbState [0%nat; 1%nat] (RefStore true (<["zway.requests"%string := requests]>
           {[ "zway.accounts"%string := accounts ]})))
        (Streams empty_fs ∅ ∅ ∅ [] 0 100) [] [] (bytes_of random).

Definition requests_of (w : world) : list doc := docs "zway.requests" (db_mongo (w_db w)).

(** The key of a client. *)
Definition key (k : string) : ubj := UObject [("key"%string, UString k)].

(** ** A used add code *)

Definition create_code : uobj := [("requestId"%string, UInt32 10); ("publicKey"%string, key "a")].
Definition use_code (id : Z) (k : string) : uobj :=
  [("requestId"%string, UInt32 id); ("addCode"%string, UString "code"); ("publicKey"%string, key k)].

(** Alice makes an add code, Bob uses it, and Carol uses it again. *)
Definition code_run : M world bool :=
  processCreateAddCode 1 create_code ;;
  processAddContactRequest 2 (use_code 20 "b") ;;
  processAddContactRequest 3 (use_code 30 "c").

(** An add code that has been used is not spent. Using it deletes one request that carries
    it, but the contact request stored for its owner carries it too: the next client that uses
    the same code is not refused, and its contact request goes to the client that used the
    code before, who never gave it to anyone. *)
Lemma used_add_code_misdirects :
  let '(r, w) := code_run (the_world [] "code") in
  r = Ret true /\ w_tasks w = [1; 2] /\
  exists d, requests_of w = [d] /\ bson_get d "src" = bson_u32 3 /\ bson_get d "dst" = bson_u32 2 /\
    bson_get d "type" = BInt Req_AddContact.
Proof.
  destruct (code_run (the_world [] "code")) as [r w] eqn:E.
  assert (Hr : (code_run (the_world [] "code")).1 = Ret true) by (vm_compute; reflexivity).
  assert (Ht : w_tasks (code_run (the_world [] "code")).2 = [1; 2]) by (vm_compute; reflexivity).
  assert (Hd : requests_of (code_run (the_world [] "code")).2 =
            [add_contact_doc 30 3 2 (stored_account 3 "carol") [("key"%string, BString "c")] "code"])
    by (vm_compute; reflexivity).
  rewrite E in Hr, Ht, Hd. split; [exact Hr|]. split; [exact Ht|].
  eexists. split; [exact Hd|]. split_and!; vm_compute; reflexivity.
Qed.

(** ** Two requests with one id *)

Definition contact_request (id src dst : Z) : doc :=
  add_contact_doc id src dst (stored_account src "name") [("key"%string, BString "k")] "".

Definition accept_request : uobj :=
  [("requestId"%string, UInt32 50); ("contactRequestId"%string, UInt32 7);
   ("publicKey"%string, key "b")].

Definition two_requests : list doc := [contact_request 7 3 1; contact_request 7 1 2].

(** Accepting a request can delete someone else's. The ids of requests are chosen by the
    clients, and [processAcceptContact] finds the request by its id and its addressee but
    deletes by the id alone: when Bob accepts Alice's request 7, it is Carol's request 7 to Alice
    that is deleted, and the one Bob has accepted stays. *)
Lemma accept_deletes_foreign_request :
  let '(r, w) := processAcceptContact 2 accept_request (the_world two_requests "") in
  r = Ret true /\
  contact_request 7 3 1 ∉ requests_of w /\ contact_request 7 1 2 ∈ requests_of w.
Proof.
  destruct (processAcceptContact 2 accept_request (the_world two_requests "")) as [r w] eqn:E.
  assert (Hr : (processAcceptContact 2 accept_request (the_world two_requests "")).1 = Ret true)
    by (vm_compute; reflexivity).
  assert (Hd : requests_of (processAcceptContact 2 accept_request (the_world two_requests "")).2 =
    [contact_request 7 1 2;
     accept_doc 50 7 2 1 (stored_account 2 "bob") [("key"%string, BString "b")]])
    by (vm_compute; reflexivity).
  rewrite E in Hr, Hd. cbn [fst snd] in Hr, Hd. split; [exact Hr|]. rewrite Hd.
  split; [|left]. rewrite !elem_of_cons, elem_of_nil. intros [Hc|[Hc|[]]]; discriminate.
Qed.

(** ** An acknowledgement *)

Definition push_message (id src dst : Z) : doc :=
  push_doc id src dst [("meta"%string, BString "hello")].

Definition waiting : list doc := [contact_request 7 1 2; push_message 7 3 2].

Definition ok_response : uobj := [("status"%string, UInt32 1)].

(** Bob's client is given what waits for Bob, and acknowledges the message. *)
Definition acknowledge_run : M world unit :=
  processRequests 2 ;;
  receive_response 2 (OutRequest PushRequest 7 [("meta"%string, UString "hello")]) ok_response.

(** Acknowledging a message can delete another request. A stored request that was delivered is
    deleted by its id and its addressee, without its type or its sender, which the ids of
    two clients do not keep apart: when Bob's client has acknowledged Carol's message 7, it is
    Alice's contact request 7 that is gone, and the message is still stored. *)
Lemma acknowledgement_deletes_other :
  let '(r, w) := acknowledge_run (the_world waiting "") in
  r = Ret tt /\ contact_request 7 1 2 ∉ requests_of w /\ requests_of w = [push_message 7 3 2].
Proof.
  destruct (acknowledge_run (the_world waiting "")) as [r w] eqn:E.
  assert (Hr : (acknowledge_run (the_world waiting "")).1 = Ret tt) by (vm_compute; reflexivity).
  assert (Hd : requests_of (acknowledge_run (the_world waiting "")).2 = [push_message 7 3 2])
    by (vm_compute; reflexivity).
  rewrite E in Hr, Hd. cbn [fst snd] in Hr, Hd. split; [exact Hr|]. rewrite Hd.
  split; [|done]. rewrite elem_of_cons, elem_of_nil. intros [Hc|[]]; discriminate.
Qed.
