(* ===== verification/Locks.v ===== *)
(** * Threads and scoped locks

    A small language for what a function does with mutexes: the [scoped_lock]s it opens, the
    shared members it reads and writes, and the control flow around them with the data left
    out. Threads that run such code interleave one operation at a time; a mutex is not
    recursive. Two disciplines are checked on the code of one thread and pay off for any
    number of them: locks taken in the order of a rank cannot deadlock, and members accessed
    under their mutex are not raced for. *)

From stdpp Require Import relations.
From S2P Require Import Prelude.

Local Open Scope nat_scope.

Section locks.
Context {mutex member : Type} `{EqDecision mutex}.

Inductive code :=
| Skip
| Access (writes : bool) (x : member)
| Locked (l : mutex) (c : code)      (** { scoped_lock locker(l); c } *)
| Seq (c1 c2 : code)
| Either (c1 c2 : code)
| Loop (c : code)
| Pick (c : nat -> code).            (** c of some object *)

(** What a thread has left to do; a mutex it holds is released where its scope ends. *)
Inductive todo := Run (c : code) | Unlock (l : mutex).

Local Notation thread := (list todo).

Definition holds (k : thread) : list mutex :=
  omap (fun i => match i with Unlock l => Some l | Run _ => None end) k.

Inductive thread_step (free : mutex -> Prop) : thread -> thread -> Prop :=
| step_skip k : thread_step free (Run Skip :: k) k
| step_access w x k : thread_step free (Run (Access w x) :: k) k
| step_lock l c k : free l -> thread_step free (Run (Locked l c) :: k) (Run c :: Unlock l :: k)
| step_unlock_scope l k : thread_step free (Unlock l :: k) k
| step_seq c1 c2 k : thread_step free (Run (Seq c1 c2) :: k) (Run c1 :: Run c2 :: k)
| step_left c1 c2 k : thread_step free (Run (Either c1 c2) :: k) (Run c1 :: k)
| step_right c1 c2 k : thread_step free (Run (Either c1 c2) :: k) (Run c2 :: k)
| step_again c k : thread_step free (Run (Loop c) :: k) (Run c :: Run (Loop c) :: k)
| step_leave c k : thread_step free (Run (Loop c) :: k) k
| step_pick c n k : thread_step free (Run (Pick c) :: k) (Run (c n) :: k).

Local Notation threads := (gmap nat thread).

(** No thread holds the mutex, the one that asks for it included. *)
Definition is_free (ts : threads) (l : mutex) : Prop := forall t k, ts !! t = Some k -> l ∉ holds k.

Inductive step_threads (ts : threads) : threads -> Prop :=
| step_one t k k' :
    ts !! t = Some k -> thread_step (is_free ts) k k' -> step_threads ts (<[t := k']> ts).

Definition started (cs : gmap nat code) : threads := (fun c => [Run c]) <$> cs.

Definition running (cs : gmap nat code) (ts : threads) : Prop :=
  rtc step_threads (started cs) ts.

(** What a step does to the mutexes a thread holds. *)
Lemma thread_step_holds free k k' l :
  thread_step free k k' -> l ∈ holds k' -> l ∈ holds k \/ free l.
Proof.
  destruct 1; csimpl; try tauto; [|set_solver].
  rewrite elem_of_cons. intros [->|?]; auto.
Qed.

(** No mutex is held twice. *)
Definition exclusive (ts : threads) : Prop :=
  forall t t' k k' l, ts !! t = Some k -> ts !! t' = Some k' ->
    l ∈ holds k -> l ∈ holds k' -> t = t'.

Lemma exclusive_step ts ts' : step_threads ts ts' -> exclusive ts -> exclusive ts'.
Proof.
  intros [t k k' Ht Hs] He t1 t2 k1 k2 l H1 H2 Hl1 Hl2.
  destruct (decide (t1 = t)) as [->|Hn1], (decide (t2 = t)) as [->|Hn2]; [done| | |].
  - rewrite lookup_insert_eq in H1. rewrite lookup_insert_ne in H2 by done. injection H1 as <-.
    destruct (thread_step_holds _ _ _ _ Hs Hl1) as [Hl|Hf]; [by eapply He|by destruct (Hf _ _ H2)].
  - rewrite lookup_insert_eq in H2. rewrite lookup_insert_ne in H1 by done. injection H2 as <-.
    destruct (thread_step_holds _ _ _ _ Hs Hl2) as [Hl|Hf]; [by eapply He|by destruct (Hf _ _ H1)].
  - rewrite lookup_insert_ne in H1, H2 by done. by eapply He.
Qed.

Lemma started_exclusive cs : exclusive (started cs).
Proof.
  intros t t' k k' l Ht _ Hl. unfold started in Ht. rewrite lookup_fmap in Ht.
  destruct (cs !! t); [|done]. injection Ht as <-. by apply elem_of_nil in Hl.
Qed.

(** An invariant of the threads one by one. *)
Lemma running_each (P : thread -> Prop) cs ts :
  (forall t c, cs !! t = Some c -> P [Run c]) ->
  (forall free k k', thread_step free k k' -> P k -> P k') ->
  running cs ts -> forall t k, ts !! t = Some k -> P k.
Proof.
  intros Hinit Hstep. unfold running.
  assert (H0 : forall t k, started cs !! t = Some k -> P k).
  { intros t k Hk. unfold started in Hk. rewrite lookup_fmap in Hk.
    destruct (cs !! t) as [c|] eqn:Hc; [|done]. injection Hk as <-. by eapply Hinit. }
  generalize dependent (started cs). intros ts0 H0 Hr. revert H0.
  induction Hr as [|ts0 ts1 ts2 [t k k' Ht Hs] Hr IH]; [done|].
  intros H0. apply IH. intros t1 k1 H1. destruct (decide (t1 = t)) as [->|Hn].
  - rewrite lookup_insert_eq in H1. injection H1 as <-. by eapply Hstep, H0.
  - rewrite lookup_insert_ne in H1 by done. by eapply H0.
Qed.

Lemma running_exclusive cs ts : running cs ts -> exclusive ts.
Proof.
  unfold running. pose proof (started_exclusive cs) as He. revert He.
  generalize (started cs). intros ts0 He Hr. revert He.
  induction Hr as [|ts0 ts1 ts2 Hs Hr IH]; eauto using exclusive_step.
Qed.

(** ** Ordered code *)

Context (rank : mutex -> nat).

(** Code that takes only mutexes of a rank above [n], the rank of the last one held. *)
Fixpoint ordered (n : nat) (c : code) : Prop :=
  match c with
  | Skip | Access _ _ => True
  | Locked l c => n < rank l /\ ordered (rank l) c
  | Seq c1 c2 | Either c1 c2 => ordered n c1 /\ ordered n c2
  | Loop c => ordered n c
  | Pick c => forall m, ordered n (c m)
  end.

(** The rank of the mutex taken last. *)
Fixpoint top (k : thread) : nat :=
  match k with
  | [] => 0
  | Run _ :: k => top k
  | Unlock l :: _ => rank l
  end.

Fixpoint ordered_thread (k : thread) : Prop :=
  match k with
  | [] => True
  | Run c :: k => ordered (top k) c /\ ordered_thread k
  | Unlock l :: k => top k < rank l /\ ordered_thread k
  end.

Lemma ordered_mono c : forall n n', n' <= n -> ordered n c -> ordered n' c.
Proof.
  induction c; simpl; intros n n' Hle; try tauto.
  - intros [? ?]. split; [lia|done].
  - intros [? ?]. eauto.
  - intros [? ?]. eauto.
  - eauto.
  - eauto.
Qed.

Lemma holds_top k l : ordered_thread k -> l ∈ holds k -> rank l <= top k.
Proof.
  induction k as [|[c|l'] k IH]; simpl; [by intros _ ?%elem_of_nil| |].
  - intros [_ Hk]. by apply IH.
  - intros [Hlt Hk]. csimpl. rewrite elem_of_cons. intros [->|Hl]; [done|].
    specialize (IH Hk Hl). lia.
Qed.

Lemma thread_step_ordered free k k' :
  thread_step free k k' -> ordered_thread k -> ordered_thread k'.
Proof. destruct 1; simpl; try tauto. intros [H ?]. by split. Qed.

Lemma running_ordered cs ts :
  (forall t c, cs !! t = Some c -> ordered 0 c) -> running cs ts ->
  forall t k, ts !! t = Some k -> ordered_thread k.
Proof.
  intros Hc. apply running_each; [|intros; by eapply thread_step_ordered].
  intros t c Ht. simpl. split; [by eapply Hc|done].
Qed.

(** ** No deadlock *)

(** A thread that is not finished asks for a mutex or can go on. *)
Lemma thread_progress (k : thread) : k <> [] ->
  (exists l c k', k = Run (Locked l c) :: k') \/ forall free, exists k', thread_step free k k'.
Proof.
  intros Hne. destruct k as [|[[|w x|l c|c1 c2|c1 c2|c|c]|l] k]; [done|..].
  3: left; eauto.
  all: right; intros free.
  - exists k. constructor.
  - exists k. constructor.
  - exists (Run c1 :: Run c2 :: k). constructor.
  - exists (Run c1 :: k). constructor.
  - exists k. constructor.
  - exists (Run (c 0) :: k). constructor.
  - exists k. constructor.
Qed.

(** [t] asks for a mutex that [t'] holds. *)
Definition waits_for (ts : threads) (t t' : nat) : Prop :=
  exists l c k k', ts !! t = Some (Run (Locked l c) :: k) /\ ts !! t' = Some k' /\ l ∈ holds k'.

Definition can_go_on (ts : threads) (t : nat) : Prop :=
  exists k k', ts !! t = Some k /\ thread_step (is_free ts) k k'.

Lemma waiting_progress (ts : threads) ranks :
  (forall l, rank l <= ranks) -> (forall t k, ts !! t = Some k -> ordered_thread k) ->
  forall n t l c k, ts !! t = Some (Run (Locked l c) :: k) -> ranks - rank l = n ->
    exists t', rtc (waits_for ts) t t' /\ can_go_on ts t'.
Proof.
  intros Hb Hord n. induction n as [n IH] using lt_wf_ind. intros t l c k Ht Hn.
  destruct (decide (map_Forall (fun _ k => l ∉ holds k) ts)) as [Hf|Hf].
  - exists t. split; [apply rtc_refl|]. eexists _, _. split; [exact Ht|]. constructor.
    intros t' k' Hk'. by apply (Hf t').
  - apply map_not_Forall in Hf as (t' & k' & Hk' & Hl); [|intros; apply _].
    apply dec_stable in Hl. assert (Hne : k' <> []) by (by intros ->; apply elem_of_nil in Hl).
    assert (Hw : waits_for ts t t') by (by exists l, c, k, k').
    destruct (thread_progress k' Hne) as [(l' & c' & k2 & ->)|Hs].
    + pose proof (Hord _ _ Hk') as [[Hlt _] Ho]. pose proof (holds_top _ l Ho Hl) as Hle.
      destruct (IH (ranks - rank l')) with t' l' c' k2 as (t2 & Hr & Hg); [|done|done|].
      * specialize (Hb l'). lia.
      * exists t2. split; [by eapply rtc_l|done].
    + destruct (Hs (is_free ts)) as [k2 Hk2]. exists t'. split; [by apply rtc_once|].
      by exists k', k2.
Qed.

(** A thread that is not finished can go on or waits, through a chain of threads, for one
    that can. *)
Lemma locks_no_deadlock cs ts ranks t k :
  (forall l, rank l <= ranks) -> (forall t c, cs !! t = Some c -> ordered 0 c) ->
  running cs ts -> ts !! t = Some k -> k <> [] ->
  exists t', rtc (waits_for ts) t t' /\ can_go_on ts t'.
Proof.
  intros Hb Hc Hr Hk Hne. pose proof (running_ordered cs ts Hc Hr) as Hord.
  destruct (thread_progress k Hne) as [(l & c & k' & ->)|Hs]; [by eapply waiting_progress|].
  destruct (Hs (is_free ts)) as [k' Hk']. exists t. split; [apply rtc_refl|]. by exists k, k'.
Qed.
End locks.
Arguments code : clear implicits.
Arguments todo : clear implicits.

(** ** Guarded code *)

Section guards.
Context {mutex member : Type} `{EqDecision mutex}.

Local Notation code := (code mutex member).
Local Notation thread := (list (todo mutex member)).

Context (guard : member -> option mutex).

(** Code that holds [hs] and accesses a member with a mutex only under it. *)
Fixpoint guarded (hs : list mutex) (c : code) : Prop :=
  match c with
  | Skip => True
  | Access _ x => forall l, guard x = Some l -> l ∈ hs
  | Locked l c => guarded (l :: hs) c
  | Seq c1 c2 | Either c1 c2 => guarded hs c1 /\ guarded hs c2
  | Loop c => guarded hs c
  | Pick c => forall m, guarded hs (c m)
  end.

Fixpoint guarded_thread (k : thread) : Prop :=
  match k with
  | [] => True
  | Run c :: k => guarded (holds k) c /\ guarded_thread k
  | Unlock _ :: k => guarded_thread k
  end.

Lemma thread_step_guarded free k k' :
  thread_step free k k' -> guarded_thread k -> guarded_thread k'.
Proof. destruct 1; csimpl; try tauto. intros [H ?]. by split. Qed.

Lemma guarded_mono c : forall hs hs', hs ⊆ hs' -> guarded hs c -> guarded hs' c.
Proof.
  induction c; simpl; intros hs hs' Hle; try tauto.
  - set_solver.
  - apply IHc. set_solver.
  - intros [? ?]. eauto.
  - intros [? ?]. eauto.
  - eauto.
  - eauto.
Qed.

(** A thread about to access a member. *)
Definition accesses (x : member) (w : bool) (k : thread) : Prop :=
  exists k', k = Run (Access w x) :: k'.

Lemma locks_no_race cs ts t t' k k' x w w' :
  (forall t c, cs !! t = Some c -> guarded [] c) -> is_Some (guard x) -> running cs ts ->
  ts !! t = Some k -> ts !! t' = Some k' -> accesses x w k -> accesses x w' k' -> t = t'.
Proof.
  intros Hc [l Hl] Hr Hk Hk' [k1 ->] [k1' ->].
  assert (Hg : forall t k, ts !! t = Some k -> guarded_thread k).
  { apply (running_each guarded_thread cs); [|intros; by eapply thread_step_guarded|done].
    intros t0 c0 H0. simpl. split; [by eapply Hc|done]. }
  pose proof (Hg _ _ Hk) as [H1 _]. pose proof (Hg _ _ Hk') as [H2 _].
  eapply (running_exclusive cs ts Hr t t'); [exact Hk|exact Hk'|by apply H1|by apply H2].
Qed.
End guards.

Declare Scope lock_scope.
Delimit Scope lock_scope with lock.
Notation "c1 ;; c2" := (Seq c1 c2) : lock_scope.

(** ** Running a schedule

    A schedule names for each step the thread that goes on and, where its code has a choice,
    the choice. *)

Section schedules.
Context {mutex member : Type} `{EqDecision mutex}.

Local Notation thread := (list (todo mutex member)).
Local Notation threads := (gmap nat thread).

Definition choose (n : nat) (is_free : mutex -> bool) (k : thread) : option thread :=
  match k with
  | [] => None
  | Unlock l :: k => Some k
  | Run c :: k =>
      match c with
      | Skip | Access _ _ => Some k
      | Locked l c => if is_free l then Some (Run c :: Unlock l :: k) else None
      | Seq c1 c2 => Some (Run c1 :: Run c2 :: k)
      | Either c1 c2 => Some (Run (if decide (n = 0) then c1 else c2) :: k)
      | Loop c => Some (if decide (n = 0) then k else Run c :: Run (Loop c) :: k)
      | Pick c => Some (Run (c n) :: k)
      end
  end.

Definition run_choice (ts : threads) (i : nat * nat) : option threads :=
  k ← ts !! i.1;
  k' ← choose i.2 (fun l => bool_decide (map_Forall (fun _ k => l ∉ holds k) ts)) k;
  Some (<[i.1 := k']> ts).

Fixpoint run_schedule (sch : list (nat * nat)) (ts : threads) : option threads :=
  match sch with [] => Some ts | i :: sch => ts' ← run_choice ts i; run_schedule sch ts' end.

Lemma choose_sound n fb (free : mutex -> Prop) k k' :
  (forall l, fb l = true -> free l) -> choose n fb k = Some k' -> thread_step free k k'.
Proof.
  intros Hf. destruct k as [|[[|w x|l c|c1 c2|c1 c2|c|c]|l] k]; simpl; [done|..].
  3: { destruct (fb l) eqn:E; [|done]. intros [= <-]. constructor. by apply Hf. }
  all: intros [= <-]; try case_decide; constructor.
Qed.

Lemma run_choice_sound ts i ts' : run_choice ts i = Some ts' -> step_threads ts ts'.
Proof.
  unfold run_choice. destruct (ts !! i.1) as [k|] eqn:Hk; [|done]. simpl.
  destruct (choose _ _ k) as [k'|] eqn:Hc; [|done]. simpl. intros [= <-].
  eapply step_one; [exact Hk|]. eapply choose_sound; [|exact Hc].
  intros l Hl t k0 Hk0. apply bool_decide_eq_true in Hl. by apply (Hl t).
Qed.

Lemma run_schedule_sound sch ts ts' : run_schedule sch ts = Some ts' -> rtc step_threads ts ts'.
Proof.
  revert ts. induction sch as [|i sch IH]; simpl; intros ts; [by intros [= ->]|].
  destruct (run_choice ts i) as [ts1|] eqn:E; [|done]. simpl. intros Hr.
  eapply rtc_l; [by eapply run_choice_sound|by apply IH].
Qed.
End schedules.
