(* ===== verification/Locking.v ===== *)
(** * The mutexes of the server (src/include/thread.h and their uses)

    Every value the threads share in a [ThreadSafe] has a mutex of its own, and the pool has
    two. Each [f_locks] below is the function [f] as code of [Locks]: the scopes of its
    [scoped_lock]s, the calls it makes and the shared members it accesses, in order, with
    conditions as [Either] and iterations as [Loop]. A return in the middle of a function is
    an [Either] around what would follow. Constructors, [init] and [load] run on an object
    no other thread has yet and are left out. The mutexes of the engine are not the server's:
    a call that makes the engine send ([engine_send]) may come back to [postPacket] or
    [sendPacket] of the session, any number of times. *)

From stdpp Require Import relations.
From S2P Require Import Prelude Locks.

Local Open Scope nat_scope.
Local Open Scope lock_scope.

(** [m_status s] to [m_sending s] belong to the session [s], [m_fh b] to [m_lastActivity b] to
    the stream buffer [b]. *)
Inductive mutex :=
| m_status (s : nat) | m_contacts (s : nat) | m_packetQueue (s : nat) | m_sending (s : nat)
| m_sessions | m_buffers | m_senders
| m_fh (b : nat) | m_bytesReadable (b : nat) | m_lastActivity (b : nat)
| DB_m_mutex | DB_m_connectionsMutex.

#[export] Instance mutex_eq_dec : EqDecision mutex.
Proof. solve_decision. Defined.

(** [Value l] is what the mutex [l] is there for: the value of its [ThreadSafe], or the queue
    of connections. The others have no mutex. *)
Inductive member :=
| Value (l : mutex)
| m_accountId (s : nat) | m_config (s : nat) | m_remoteHost (s : nat)
| m_numPacketsSent (s : nat) | m_numPacketsRecv (s : nat)
| m_paused | m_numSessions.

Local Notation lcode := (code mutex member).

Definition rd (x : member) : lcode := Access false x.
Definition wr (x : member) : lcode := Access true x.
Definition optional (c : lcode) : lcode := Either Skip c.
Definition rdv (l : mutex) : lcode := rd (Value l).
Definition wrv (l : mutex) : lcode := wr (Value l).

(** ** The database (src/db.cpp) *)

Definition getConnection_locks : lcode :=
  Locked DB_m_connectionsMutex (rdv DB_m_connectionsMutex ;; optional (wrv DB_m_connectionsMutex)).

(** [wait_for] gives the mutex back until it is notified or ten seconds are over. *)
Definition acquire_locks : lcode :=
  getConnection_locks ;;
  optional (Locked DB_m_mutex Skip ;; Locked DB_m_mutex getConnection_locks).

Definition unlock_locks : lcode :=
  Locked DB_m_connectionsMutex (wrv DB_m_connectionsMutex) ;; Locked DB_m_mutex Skip.

(** Any operation of [DB]: the connection goes back in every case. *)
Definition db_locks : lcode := acquire_locks ;; unlock_locks.

(** ** Stream buffers (src/streambuffer.cpp) *)

Definition FileBuffer_release_locks (b : nat) : lcode :=
  Locked (m_fh b) (rdv (m_fh b) ;; optional (wrv (m_fh b))).
Definition FileBuffer_read_locks (b : nat) : lcode := Locked (m_fh b) (wrv (m_fh b)).
Definition FileBuffer_write_locks (b : nat) : lcode := Locked (m_fh b) (wrv (m_fh b)).
Definition FileBuffer_flush_locks (b : nat) : lcode :=
  Locked (m_fh b) (rdv (m_fh b) ;; optional (wrv (m_fh b))).

Definition bytesReadable_locks (b : nat) : lcode :=
  Locked (m_bytesReadable b) (rdv (m_bytesReadable b)).
Definition lastActivity_locks (b : nat) : lcode :=
  Locked (m_lastActivity b) (rdv (m_lastActivity b)).

Definition StreamBuffer_read_locks (b : nat) : lcode :=
  optional (bytesReadable_locks b ;; optional (FileBuffer_read_locks b) ;;
            optional (Locked (m_lastActivity b) (wrv (m_lastActivity b)))).

Definition StreamBuffer_write_locks (b : nat) : lcode :=
  optional (bytesReadable_locks b ;; FileBuffer_write_locks b ;;
            optional (Locked (m_bytesReadable b) (wrv (m_bytesReadable b)) ;;
                      Locked (m_lastActivity b) (wrv (m_lastActivity b)))).

(** An object whose [load] or [init] failed is destroyed. *)
Definition StreamBuffer_open_locks : lcode := Pick (fun b => optional (FileBuffer_release_locks b)).

(** ** Stream maps (src/server.cpp, src/streambuffersender.cpp) *)

Definition addStreamBuffer_locks : lcode :=
  Locked m_buffers (rdv m_buffers ;; optional (wrv m_buffers)).
Definition getStreamBuffer_locks : lcode :=
  Locked m_buffers (rdv m_buffers ;;
    Either (rdv m_buffers) (StreamBuffer_open_locks ;; optional (wrv m_buffers))).
Definition addStreamBufferSender_locks : lcode := Locked m_senders (wrv m_senders).
Definition numStreamBuffers_locks : lcode := Locked m_buffers (rdv m_buffers).

Definition getBuffer_locks : lcode := optional getStreamBuffer_locks.

(** The base class reads the part of the resource that goes into the packet. *)
Definition preparePacket_locks : lcode :=
  getBuffer_locks ;; optional (Pick StreamBuffer_read_locks).

(** ** Sending (src/session.cpp) *)

(** [Engine::processStreamSenders] with the callback of [sendPacket]. *)
Definition processStreamSenders_locks (s : nat) : lcode :=
  Loop (preparePacket_locks ;; optional (wrv (m_packetQueue s))).

Definition sendPacket_locks (s : nat) : lcode :=
  Locked (m_sending s) (rdv (m_sending s)) ;;
  optional (
    Locked (m_packetQueue s) (
      rdv (m_packetQueue s) ;; optional (processStreamSenders_locks s) ;;
      rdv (m_packetQueue s) ;; optional (wrv (m_packetQueue s))) ;;
    optional (Locked (m_sending s) (wrv (m_sending s)))).

Definition postPacket_locks (s : nat) : lcode :=
  optional (Locked (m_packetQueue s) (wrv (m_packetQueue s)) ;; sendPacket_locks s).

Definition addStreamSender_locks (s : nat) : lcode := optional (sendPacket_locks s).

Definition engine_send (s : nat) : lcode :=
  Loop (Either (postPacket_locks s) (addStreamSender_locks s)).

Definition onPacketSent_locks (s : nat) : lcode :=
  Either (wr (m_numPacketsSent s)) (rd (m_remoteHost s)) ;;
  Locked (m_sending s) (wrv (m_sending s)) ;;
  sendPacket_locks s.

(** ** Sessions (src/session.cpp, src/server.cpp) *)

Definition status_locks (s : nat) : lcode := Locked (m_status s) (rdv (m_status s)).
Definition setStatus_locks (s : nat) : lcode := Locked (m_status s) (wrv (m_status s)).
Definition accountId_locks (s : nat) : lcode := rd (m_accountId s).

Definition appendSession_locks (s : nat) : lcode :=
  Locked m_sessions (accountId_locks s ;; wrv m_sessions).
Definition removeSession_locks (s : nat) : lcode :=
  Locked m_sessions (accountId_locks s ;; rdv m_sessions ;; optional (wrv m_sessions)).
Definition getSessions_locks : lcode := Locked m_sessions (rdv m_sessions).

Definition close_locks (s : nat) (remove : bool) : lcode :=
  setStatus_locks s ;;
  (if remove then removeSession_locks s else Skip) ;;
  rd (m_remoteHost s).

Definition removeSessions_locks : lcode :=
  Locked m_sessions (rdv m_sessions ;;
    optional (rdv m_sessions ;; Loop (Pick (fun s => close_locks s false)) ;; wrv m_sessions)).

Definition start_locks (s : nat) : lcode := wr (m_accountId s) ;; appendSession_locks s.

Definition handleHandshake_locks (s : nat) : lcode :=
  Either (setStatus_locks s ;; wr (m_remoteHost s) ;; rd (m_remoteHost s)) (close_locks s true).

Definition handleSession_locks : lcode :=
  optional (Pick (fun s => start_locks s) ;; wr m_numSessions).

(** ** Presence and stored requests (src/session.cpp) *)

Definition getContactStatus_locks : lcode :=
  getSessions_locks ;; Loop (Pick (fun q => rd (m_config q))).

Definition contact_statuses_locks (s : nat) : lcode :=
  Locked (m_contacts s) (rdv (m_contacts s) ;; Loop getContactStatus_locks).

Definition broadcastStatus_locks (s : nat) : lcode :=
  optional (rd (m_config s)) ;;
  optional (Locked (m_contacts s) (rdv (m_contacts s) ;;
    Loop (optional (getSessions_locks ;;
      optional (accountId_locks s ;; Loop (Pick engine_send)))))).

Definition setConfig_locks (s : nat) : lcode :=
  optional (Locked (m_contacts s) (wrv (m_contacts s))) ;;
  rd (m_config s) ;;
  optional (accountId_locks s ;; db_locks) ;;
  wr (m_config s) ;;
  optional (broadcastStatus_locks s).

Definition add_contact_locks (s : nat) : lcode :=
  Locked (m_contacts s) (wrv (m_contacts s)).

Definition deliver_request_locks (s : nat) : lcode :=
  optional (optional (getContactStatus_locks ;; add_contact_locks s) ;; engine_send s).

Definition processRequests_locks (s : nat) : lcode :=
  accountId_locks s ;; db_locks ;; Loop (deliver_request_locks s).

Definition processUserRequests_locks : lcode :=
  getSessions_locks ;;
  Either (Loop (Pick processRequests_locks)) (db_locks ;; optional (db_locks ;; db_locks)).

(** ** The request handlers (src/session.cpp) *)

(** [handler s c]: the test of the status, a refusal, or the rest. A refusal further on is an
    early answer: [engine_send] without what follows. *)
Definition handler (s : nat) (c : lcode) : lcode :=
  status_locks s ;; Either (engine_send s) c.

Definition processDispatchRequest_locks (s : nat) : lcode :=
  handler s (optional (accountId_locks s ;; accountId_locks s ;; db_locks ;; engine_send s)).

Definition processCreateAccount_locks (s : nat) : lcode :=
  handler s (Either (engine_send s) (db_locks ;;
    Either (engine_send s) (db_locks ;; optional (db_locks ;; engine_send s)))).

Definition processLogin_locks (s : nat) : lcode :=
  handler s (Either (engine_send s) (db_locks ;;
    Either (engine_send s) (
      setStatus_locks s ;; removeSession_locks s ;; wr (m_accountId s) ;;
      appendSession_locks s ;; optional (setConfig_locks s) ;; contact_statuses_locks s ;;
      db_locks ;; engine_send s ;; processRequests_locks s ;; rd (m_remoteHost s)))).

Definition processLogout_locks (s : nat) : lcode :=
  handler s (engine_send s ;; accountId_locks s ;; db_locks ;; setStatus_locks s ;;
    broadcastStatus_locks s).

Definition processConfigRequest_locks (s : nat) : lcode :=
  handler s (optional (setConfig_locks s) ;; engine_send s).

Definition processContactStatusRequest_locks (s : nat) : lcode :=
  handler s (contact_statuses_locks s ;; engine_send s).

Definition processFindContactRequest_locks (s : nat) : lcode :=
  handler s (Either (engine_send s) (optional (accountId_locks s ;; db_locks) ;; engine_send s)).

(** The two queries of the accounts, with the query of the add code in between. *)
Definition processAddContactRequest_locks (s : nat) : lcode :=
  handler s (accountId_locks s ;; db_locks ;;
    Either (engine_send s) (optional db_locks ;;
      Either (engine_send s) (db_locks ;;
        Either (engine_send s) (accountId_locks s ;;
          Either (engine_send s) (accountId_locks s ;; db_locks ;;
            Either (engine_send s) (accountId_locks s ;; db_locks ;;
              Either (engine_send s) (optional db_locks ;; engine_send s))))))).

Definition processCreateAddCode_locks (s : nat) : lcode :=
  handler s (Either (engine_send s) (accountId_locks s ;; db_locks ;;
    Either (engine_send s) (accountId_locks s ;; db_locks ;; engine_send s))).

Definition processAcceptContact_locks (s : nat) : lcode :=
  handler s (accountId_locks s ;; db_locks ;;
    Either (engine_send s) (accountId_locks s ;; db_locks ;;
      Either (engine_send s) (accountId_locks s ;; db_locks ;;
        Either (engine_send s) (getContactStatus_locks ;; engine_send s ;; db_locks ;;
          add_contact_locks s)))).

Definition processRejectContact_locks (s : nat) : lcode :=
  handler s (accountId_locks s ;; db_locks ;;
    Either (engine_send s) (accountId_locks s ;; db_locks ;;
      Either (engine_send s) (engine_send s ;; db_locks))).

Definition processPushRequest_locks (s : nat) : lcode :=
  handler s (accountId_locks s ;;
    Loop (accountId_locks s ;;
          optional (accountId_locks s ;; db_locks ;; optional (engine_send s))) ;;
    engine_send s).

Fixpoint one_of (cs : list lcode) : lcode :=
  match cs with [] => Skip | c :: cs => Either c (one_of cs) end.

Definition processIncomingRequest_locks (s : nat) : lcode :=
  one_of [processDispatchRequest_locks s; processCreateAccount_locks s; processLogin_locks s;
    processLogout_locks s; processConfigRequest_locks s; processAddContactRequest_locks s;
    processCreateAddCode_locks s; processFindContactRequest_locks s;
    processAcceptContact_locks s; processRejectContact_locks s;
    processContactStatusRequest_locks s; processPushRequest_locks s].

(** The callbacks of the requests the server posts. *)
Definition delete_when_done_locks (s : nat) : lcode := optional (accountId_locks s ;; db_locks).

Definition send_resource_locks (s : nat) : lcode :=
  optional (getBuffer_locks ;; addStreamSender_locks s ;; optional addStreamBufferSender_locks).

Definition push_callback_locks (s : nat) : lcode :=
  optional (accountId_locks s ;; db_locks ;; Loop (send_resource_locks s)).

Definition createStreamReceiver_locks : lcode :=
  Pick (fun b => Either (optional (FileBuffer_release_locks b)) (optional addStreamBuffer_locks)).

Definition stream_received_locks (s b : nat) : lcode :=
  FileBuffer_flush_locks b ;; accountId_locks s ;; db_locks ;; processRequests_locks s.

(** What the engine may call back when a packet has arrived. *)
Definition processIncomingPacket_locks (s : nat) : lcode :=
  Loop (one_of [processIncomingRequest_locks s; delete_when_done_locks s; push_callback_locks s;
    createStreamReceiver_locks; Pick StreamBuffer_write_locks; Pick (stream_received_locks s);
    engine_send s]).

Definition onPacketRecv_locks (s : nat) : lcode :=
  wr (m_numPacketsRecv s) ;; Either (processIncomingPacket_locks s) (rd (m_remoteHost s)).

(** [onPacketHeadRecv] and [onPacketBodyRecv] *)
Definition packet_read_locks (s : nat) : lcode :=
  one_of [onPacketRecv_locks s; close_locks s true].

(** ** The threads *)

Definition onTimer_locks : lcode :=
  optional (
    Locked m_senders (rdv m_senders ;; Loop (Pick (fun s => optional (sendPacket_locks s))) ;;
      Loop (wrv m_senders)) ;;
    Locked m_buffers (rdv m_buffers ;; Loop (Pick lastActivity_locks) ;;
      Loop (wrv m_buffers ;; optional (Pick FileBuffer_release_locks)))).

Definition info_locks : lcode :=
  Locked m_sessions (rdv m_sessions ;;
    Loop (Pick (fun s => accountId_locks s ;; db_locks ;; rd (m_remoteHost s))) ;;
    numStreamBuffers_locks ;; rdv m_sessions).

Definition pause_locks : lcode := rd m_paused ;; optional (wr m_paused).
Definition resume_locks : lcode := rd m_paused ;; optional (wr m_paused).

(** A worker runs the completion handlers as they come. *)
Definition worker_locks : lcode :=
  Loop (one_of [handleSession_locks; Pick handleHandshake_locks; Pick packet_read_locks;
    Pick onPacketSent_locks; processUserRequests_locks; onTimer_locks]).

(** The commands of the main thread. *)
Definition commands_locks : lcode :=
  Loop (one_of [info_locks; removeSessions_locks; rd m_paused ;; Either resume_locks pause_locks]).

(** [DB::cleanup] assigns the queue without its mutex. *)
Definition DB_cleanup_locks : lcode := wrv DB_m_connectionsMutex.

Definition server_close_locks : lcode := removeSessions_locks ;; DB_cleanup_locks.

(** The main thread closes the server while the workers go on. *)
Definition console_locks : lcode := commands_locks ;; server_close_locks.

(** ** The order of the mutexes *)

Definition rank (l : mutex) : nat :=
  match l with
  | m_contacts _ | m_senders => 1
  | m_sessions => 2
  | m_packetQueue _ => 3
  | m_buffers => 4
  | m_status _ | m_sending _ | DB_m_mutex => 5
  | m_fh _ | m_bytesReadable _ | m_lastActivity _ | DB_m_connectionsMutex => 6
  end.

Definition guard (x : member) : option mutex :=
  match x with Value l => Some l | _ => None end.

(** ** The disciplines hold *)

(** Both are structural; what is left are comparisons of ranks and memberships. *)
Ltac discipline :=
  repeat match goal with
  | |- _ /\ _ => split
  | |- forall _, _ => intro
  | |- True => exact I
  | H : Some _ = Some _ |- _ => injection H as <-
  | H : None = Some _ |- _ => discriminate H
  | |- _ ∈ _ => repeat constructor
  | |- _ < _ => cbn; lia
  end.

Lemma worker_ordered : ordered rank 0 worker_locks.
Proof. cbn. discipline. Qed.

Lemma console_ordered : ordered rank 0 console_locks.
Proof. cbn. discipline. Qed.

Lemma worker_guarded : guarded guard [] worker_locks.
Proof. cbn. discipline. Qed.

Lemma commands_guarded : guarded guard [] commands_locks.
Proof. cbn. discipline. Qed.

Lemma rank_bound l : rank l <= 6.
Proof. destruct l; cbn; lia. Qed.

(** C28: The server cannot deadlock on its mutexes. With any number of worker threads that run
    the completion handlers, and main threads that run console commands and close the
    server, in every state they reach a thread that is not finished can go on or waits,
    through a chain of threads that hold what the one before asks for, for a thread that
    can: every function takes its mutexes in the order of their ranks. *)
Theorem server_no_deadlock (cs : gmap nat lcode) ts t k :
  (forall t c, cs !! t = Some c -> c = worker_locks \/ c = console_locks) ->
  running cs ts -> ts !! t = Some k -> k <> [] ->
  exists t', rtc (waits_for ts) t t' /\ can_go_on ts t'.
Proof.
  intros Hc. apply (locks_no_deadlock rank cs ts 6 t k rank_bound).
  intros t0 c Ht. destruct (Hc t0 c Ht) as [->| ->]; [apply worker_ordered|apply console_ordered].
Qed.

(** C29: As long as the server is not closed, no two threads are ever at an access of the
    same [ThreadSafe] value, or of the queue of connections, at the same time, whatever they
    run: all accesses are made under the mutex of the value. *)
Theorem guarded_members_no_race (cs : gmap nat lcode) ts t t' k k' l w w' :
  (forall t c, cs !! t = Some c -> c = worker_locks \/ c = commands_locks) ->
  running cs ts -> t <> t' -> ts !! t = Some k -> ts !! t' = Some k' ->
  accesses (Value l) w k -> ~ accesses (Value l) w' k'.
Proof.
  intros Hc Hr Hne Hk Hk' Ha Ha'. apply Hne.
  eapply (locks_no_race guard cs ts t t' k k' (Value l) w w'); [|by eexists|done..].
  intros t0 c Ht. destruct (Hc t0 c Ht) as [->| ->]; [apply worker_guarded|apply commands_guarded].
Qed.

(** ** Members without a mutex *)

Definition server_threads : gmap nat lcode :=
  {[0 := console_locks; 1 := worker_locks; 2 := worker_locks]}.

Definition races (x : member) (ts : gmap nat (list (todo mutex member))) : Prop :=
  exists t t' k k' w, t <> t' /\ ts !! t = Some k /\ ts !! t' = Some k' /\
    accesses x true k /\ accesses x w k'.

(** A configuration request of session 1, up to the assignment of [m_config]. *)
Definition up_to_setConfig : list nat :=
  [1; 1; 1; 0; 1; 0; 0; 0; 0; 1; 0; 1; 1; 1; 1; 0; 0; 0; 0; 0; 1; 0; 1; 0; 0; 0; 0; 0; 0; 0; 0; 0].

(** A contact status request of session 2 that comes to session 1 in [getContactStatus]. *)
Definition up_to_getContactStatus : list nat :=
  [1; 1; 1; 0; 2; 0; 0; 0; 0; 1; 0; 1; 1; 1; 1; 1; 1; 1; 1; 1; 1; 0; 0; 0; 0; 0; 1; 0; 0; 0; 0; 1;
   0; 0; 0; 0; 1; 1].

(** A login of session 1, up to the assignment of [m_accountId]. *)
Definition up_to_login : list nat :=
  [1; 1; 1; 0; 1; 0; 0; 0; 0; 1; 0; 1; 1; 0; 0; 0; 0; 0; 1; 1; 0; 0; 0; 0; 0; 0; 0; 0; 0; 0; 0; 0; 0;
   0; 0; 0; 0; 0; 1; 0; 0; 0; 0; 0; 0; 0; 0; 0; 0; 0; 0; 0; 0].

(** The command [info], up to the account id of session 1. *)
Definition up_to_info : list nat := [0; 1; 0; 0; 0; 0; 0; 1; 1; 0].

(** The end of the console, up to [DB::cleanup]. *)
Definition up_to_cleanup : list nat := [0; 0; 0; 0; 0; 0; 0; 0; 0].

(** [processUserRequests] of a user without sessions, up to the end of its first query. *)
Definition up_to_unlock : list nat :=
  [1; 1; 1; 1; 1; 0; 0; 0; 0; 0; 1; 0; 0; 0; 0; 0; 0; 0; 0; 0; 1; 0; 0; 0; 0; 0; 0; 0; 0; 1].

Definition by_thread (t : nat) : list nat -> list (nat * nat) := map (pair t).

Lemma run_races x sch t t' w :
  (exists ts, run_schedule sch (started server_threads) = Some ts /\ t <> t' /\
    (i ← ts !! t; head i) = Some (Run (Access true x)) /\
    (i ← ts !! t'; head i) = Some (Run (Access w x))) ->
  exists ts, running server_threads ts /\ races x ts.
Proof.
  intros (ts & Hr & Hne & Hk & Hk'). exists ts. split; [by eapply run_schedule_sound|].
  destruct (ts !! t) as [[|i k]|] eqn:E; [done| |done].
  destruct (ts !! t') as [[|i' k']|] eqn:E'; [done| |done]. simpl in Hk, Hk'.
  injection Hk as ->. injection Hk' as ->.
  exists t, t', (Run (Access true x) :: k), (Run (Access w x) :: k'), w.
  split_and!; [done|done|done|by exists k|by exists k'].
Qed.

(** Three members are raced for. [getContactStatus] reads the configuration of other
    sessions while their own worker assigns it; [info] reads the account id of a session
    while a login assigns it; and [DB::cleanup] empties the queue of connections while a
    worker, which [main] joins only later, puts one back. *)
Lemma unguarded_members_race :
  (exists ts, running server_threads ts /\ races (m_config 1) ts) /\
  (exists ts, running server_threads ts /\ races (m_accountId 1) ts) /\
  (exists ts, running server_threads ts /\ races (Value DB_m_connectionsMutex) ts).
Proof.
  split_and!.
  - apply (run_races _ (by_thread 1 up_to_setConfig ++ by_thread 2 up_to_getContactStatus) 1 2 false).
    eexists. split; [vm_compute; reflexivity|]. split_and!; [done|vm_compute; reflexivity..].
  - apply (run_races _ (by_thread 1 up_to_login ++ by_thread 0 up_to_info) 1 0 false).
    eexists. split; [vm_compute; reflexivity|]. split_and!; [done|vm_compute; reflexivity..].
  - apply (run_races _ (by_thread 1 up_to_unlock ++ by_thread 0 up_to_cleanup) 1 0 true).
    eexists. split; [vm_compute; reflexivity|]. split_and!; [done|vm_compute; reflexivity..].
Qed.
