(* ===== verification/Typed.v ===== *)
(** * Types of the state

    The values the program keeps in machine integers are in their range in every state the
    server can reach, and every outstanding read of a packet body stays inside the buffer the
    body is read to, however the peer cuts the packet into pieces. *)

From S2P Require Import Prelude Values Platform Codec Pool Db Stdio StreamBuffer Streams World.
From S2P Require Import Registry Transport Session Contacts Requests Fcm Server Console System.

Local Open Scope zway_scope.
Local Open Scope Z_scope.

Create HintDb zway_typed discriminated.

Section typed.
Context `{PlatformLaws}.

(** ** What is typed *)

(** A packet as the socket layer hands it over. *)
Definition typed_packet (pkt : packet) : Prop :=
  is_u32 (pkt_streamId pkt) /\ is_u32 (pkt_bodySize pkt).

(** The body is a buffer of the size the head announces, and the read goes to its end. *)
Definition typed_op (op : socket_op) : Prop :=
  match op with
  | OpReadBody offset size pkt =>
      typed_packet pkt /\ Z.of_nat (length (pkt_body pkt)) = pkt_bodySize pkt /\
      0 <= offset < pkt_bodySize pkt /\ offset + size = pkt_bodySize pkt
  | _ => True
  end.

(** Ids are [uint32_t]. What the client sent comes through [CallResponse] and
    [CallProcessIncomingPacket]. *)
Definition typed_call (c : engine_call) : Prop :=
  match c with
  | CallSuccess id _ | CallFailure id _ _ | CallAddUbjSender id _ _ | CallAddStreamSender id =>
      is_u32 id
  | CallPostRequest r => is_u32 (rq_id r)
  | _ => True
  end.

Record typed_session (s : session) : Prop := {
  ty_status : s_status s ∈ [STATUS_DISCONNECTED; STATUS_CONNECTED; STATUS_LOGGEDIN];
  ty_account : is_u32 (s_accountId s);
  ty_sent : is_u32 (s_numPacketsSent s);
  ty_recv : is_u32 (s_numPacketsRecv s);
  ty_contacts : forall c, is_Some (s_contacts s !! c) -> is_u32 c;
  ty_engine : Forall typed_call (s_engine s);
  ty_ops : Forall typed_op (s_ops s)
}.

(** A notification announces a positive number of elements. *)
Definition typed_notice (n : string * Z * Z) : Prop :=
  (n.1.2 = 1000 \/ n.1.2 = 2000) /\ 0 < n.2 < 2 ^ 32.

Record typed_world (w : world) : Prop := {
  ty_sessions : map_Forall (fun _ => typed_session) (w_sessions w);
  ty_registry : forall a, is_Some (w_registry w !! a) -> is_u32 a;
  ty_numSessions : is_u32 (sv_numSessions (w_server w));
  ty_tasks : Forall is_u32 (w_tasks w);
  ty_fcm : Forall typed_notice (w_fcm w)
}.

Definition typed_event (e : event) : Prop :=
  match e with
  | EvHead _ _ _ pkt => typed_packet pkt
  | EvSender _ streamId => is_u32 streamId
  | _ => True
  end.

(** ** One session *)

Local Notation any := (fun _ => True).
Local Notation in_session := (maintains typed_session).
Local Notation in_world := (maintains typed_world).

Lemma typed_new_session : typed_session new_session.
Proof.
  split; simpl; try (unfold is_u32; lia); [set_solver| |done..].
  intros c. rewrite lookup_empty. by intros [? ?].
Qed.

Lemma typed_modify f : (forall s, typed_session s -> typed_session (f s)) -> in_session any (modify f).
Proof. intros Hf. by apply maintains_modify. Qed.

Lemma typed_gets {A} (f : session -> A) : in_session any (gets f).
Proof. by apply maintains_gets. Qed.

Lemma typed_engine_call c : typed_call c -> in_session any (engine_call_ c).
Proof.
  intros Hc. apply typed_modify. intros s []. split; simpl; try done. apply Forall_app; auto.
Qed.

Lemma typed_start_op op : typed_op op -> in_session any (start_op op).
Proof.
  intros Hop. apply typed_modify. intros s []. split; simpl; try done. apply Forall_app; auto.
Qed.

(** An update of members whose type is not restricted. *)
Lemma typed_same f :
  (forall s, s_status (f s) = s_status s /\ s_accountId (f s) = s_accountId s /\
    s_numPacketsSent (f s) = s_numPacketsSent s /\ s_numPacketsRecv (f s) = s_numPacketsRecv s /\
    s_contacts (f s) = s_contacts s /\ s_engine (f s) = s_engine s /\ s_ops (f s) = s_ops s) ->
  forall s, typed_session s -> typed_session (f s).
Proof.
  intros Hf s []. destruct (Hf s) as (E1 & E2 & E3 & E4 & E5 & E6 & E7).
  split; rewrite ?E1, ?E2, ?E3, ?E4, ?E5, ?E6, ?E7; done.
Qed.

Lemma typed_setStatus x :
  x ∈ [STATUS_DISCONNECTED; STATUS_CONNECTED; STATUS_LOGGEDIN] -> in_session any (setStatus x).
Proof. intros Hx. apply typed_modify. intros s []. by split. Qed.

Lemma typed_with_account a s : is_u32 a -> typed_session s -> typed_session (with_accountId a s).
Proof. intros Ha []. by split. Qed.

Lemma typed_with_counts n m s :
  is_u32 n -> is_u32 m -> typed_session s -> typed_session (with_numPackets n m s).
Proof. intros Hn Hm []. by split. Qed.

Lemma typed_with_ops l s : Forall typed_op l -> typed_session s -> typed_session (with_ops l s).
Proof. intros Hl []. by split. Qed.

Lemma typed_with_contacts m s :
  (forall c, is_Some (m !! c) -> is_u32 c) -> typed_session s -> typed_session (with_contacts m s).
Proof. intros Hm []. by split. Qed.

Lemma typed_with_contact c o s :
  is_u32 c -> typed_session s -> typed_session (with_contacts (<[c := o]> (s_contacts s)) s).
Proof.
  intros Hc Hs. apply typed_with_contacts; [|done]. intros c'. rewrite lookup_insert_is_Some.
  intros [<-|[_ Hc']]; [done|by apply Hs].
Qed.

Lemma typed_read_contacts vs c : is_Some (read_contacts vs !! c) -> is_u32 c.
Proof.
  unfold read_contacts. assert (Hgen : forall m : gmap Z uobj, (forall c, is_Some (m !! c) -> is_u32 c) ->
    forall c, is_Some (foldl (fun m it => let o := ubj_toObject it in
      <[u32 (int_of o "contactId") := o]> m) m vs !! c) -> is_u32 c); [|apply Hgen].
  - induction vs as [|v vs IH]; intros m Hm; [done|]. apply IH. intros c'.
    cbv zeta. rewrite lookup_insert_is_Some. intros [<-|[_ Hc]]; [apply u32_range|by apply Hm].
  - intros c'. rewrite lookup_empty. by intros [? ?].
Qed.

(** ** The world *)

Lemma typed_session_at p : in_world typed_session (session_at p).
Proof.
  intros w Hw. unfold session_at. destruct (w_sessions w !! p) as [s|] eqn:Hs; [|done].
  split; [done|]. intros ? [= <-]. by apply (ty_sessions _ Hw p).
Qed.

Lemma typed_on_session {A} p (Q : A -> Prop) (m : M session A) :
  in_session Q m -> in_world Q (on_session p m).
Proof.
  intros Hm w Hw. unfold on_session. destruct (w_sessions w !! p) as [s|] eqn:Hs; [|done].
  destruct (Hm s) as [Hs' HQ]; [by apply (ty_sessions _ Hw p)|].
  destruct (m s) as [r s']. simpl in *. split; [|done]. destruct Hw. split; simpl; try done.
  by apply map_Forall_insert_2.
Qed.

Lemma typed_update p f :
  (forall s, typed_session s -> typed_session (f s)) -> in_world any (update p f).
Proof. intros Hf. by apply typed_on_session, typed_modify. Qed.

Lemma typed_on_db {A} (m : M db_state A) : in_world any (on_db m).
Proof. apply maintains_zoom_any. by intros v w []. Qed.

Lemma typed_on_streams {A} (m : M streams A) : in_world any (on_streams m).
Proof. apply maintains_zoom_any. by intros v w []. Qed.

Lemma le_combine_range bs : 0 <= le_combine bs < 256 ^ Z.of_nat (length bs).
Proof.
  induction bs as [|b bs IH]; simpl; [lia|]. rewrite Nat2Z.inj_succ, Z.pow_succ_r by lia.
  pose proof (Byte.to_N_bounded b). lia.
Qed.

Lemma typed_RAND : in_world (fun bs => is_u32 (le_combine bs)) (RAND 4).
Proof.
  intros w Hw. unfold RAND. pose proof (RAND_length 4 (w_rng w)) as Hl.
  destruct (RAND_pseudo_bytes 4 (w_rng w)) as [bs g]. split; [by destruct Hw|].
  intros ? [= <-]. simpl in Hl. pose proof (le_combine_range bs) as Hr. rewrite Hl in Hr. exact Hr.
Qed.

Lemma typed_RAND_any n : in_world any (RAND n).
Proof.
  intros w Hw. unfold RAND. destruct (RAND_pseudo_bytes n (w_rng w)) as [bs g].
  split; [by destruct Hw|done].
Qed.

Lemma typed_post u : is_u32 u -> in_world any (post_processUserRequests u).
Proof.
  intros Hu. apply maintains_modify; [done|]. intros w []. split; simpl; try done.
  apply Forall_app; auto.
Qed.

Lemma typed_BSON d : in_world any (BSON d).
Proof. unfold BSON. destruct (builder_accepts d); [by apply maintains_ret|apply maintains_fail]. Qed.

Lemma typed_or_throw {A} (o : option A) : in_world any (or_throw o).
Proof. destruct o; [by apply maintains_ret|apply maintains_fail]. Qed.

Lemma typed_world_gets {A} (f : world -> A) : in_world any (gets f).
Proof. by apply maintains_gets. Qed.

Lemma typed_getSessions a : in_world any (getSessions a).
Proof. apply typed_world_gets. Qed.
End typed.

#[export] Hint Resolve typed_session_at typed_on_db typed_on_streams
  typed_post typed_BSON typed_or_throw typed_getSessions typed_world_gets typed_engine_call
  typed_start_op typed_gets u32_range : zway_typed.
#[export] Hint Resolve typed_RAND_any : zway_typed.

(** Walks through a handler; what a primitive gives is kept for what follows. *)
Ltac typed_step :=
  first
    [ solve [eauto 3 with zway_typed]
    | progress cbv zeta
    | apply maintains_ret; exact I
    | apply maintains_fail
    | eapply maintains_bind; [first [apply typed_RAND|solve [eauto 3 with zway_typed]]|intros ? ?]
    | apply (maintains_bind _ (fun _ => True)); [|intros ? _]
    | apply maintains_for_each; intros ? _
    | apply maintains_collect; intros ? _
    | apply maintains_when
    | match goal with
      | |- maintains _ _ (update _ _) => apply typed_update; intros
      | |- maintains _ _ (on_session _ _) => apply typed_on_session
      | |- maintains _ _ (match ?x with _ => _ end) => destruct x
      | |- maintains _ _ (if ?x then _ else _) => destruct x
      end ].
Ltac typed := repeat typed_step.

Section typed_handlers.
Context `{PlatformLaws}.

Local Notation any := (fun _ => True).
Local Notation in_session := (maintains typed_session).
Local Notation in_world := (maintains typed_world).

#[local] Hint Extern 1 (typed_call _) => first [exact I|apply u32_range|assumption] : zway_typed.
#[local] Hint Extern 1 (_ ∈ [STATUS_DISCONNECTED; _; _]) => set_solver : zway_typed.
Lemma typed_on_setStatus p x :
  x ∈ [STATUS_DISCONNECTED; STATUS_CONNECTED; STATUS_LOGGEDIN] ->
  in_world any (on_session p (setStatus x)).
Proof. intros Hx. by apply typed_on_session, typed_setStatus. Qed.
#[local] Hint Resolve typed_setStatus typed_on_setStatus : zway_typed.

Lemma typed_success p i r : is_u32 i -> in_world any (postRequestSuccess p i r).
Proof. intros Hi. by apply typed_on_session, typed_engine_call. Qed.
Lemma typed_failure p i c m : is_u32 i -> in_world any (postRequestFailure p i c m).
Proof. intros Hi. by apply typed_on_session, typed_engine_call. Qed.
Lemma typed_postRequest p r : is_u32 (rq_id r) -> in_world any (postRequest p r).
Proof. intros Hi. by apply typed_on_session, typed_engine_call. Qed.
Lemma typed_addUbjSender p i t o : is_u32 i -> in_world any (addUbjSender p i t o).
Proof. intros Hi. by apply typed_on_session, typed_engine_call. Qed.
Lemma typed_requestId h : is_u32 (requestId_of h).
Proof. apply u32_range. Qed.
#[local] Hint Resolve typed_success typed_failure typed_postRequest typed_addUbjSender
  typed_requestId : zway_typed.

Lemma typed_the_status p : in_world any (the_status p).
Proof. unfold the_status. typed. Qed.
Lemma typed_the_accountId p : in_world is_u32 (the_accountId p).
Proof.
  unfold the_accountId. eapply maintains_bind; [apply typed_session_at|].
  intros s Hs. by apply maintains_ret, Hs.
Qed.
#[local] Hint Resolve typed_the_status typed_the_accountId : zway_typed.
#[local] Hint Extern 3 (in_world any _) => eapply maintains_true, typed_the_accountId : zway_typed.

Lemma typed_any_notifies l : in_world any (any_notifies l).
Proof. induction l; simpl; typed. Qed.
#[local] Hint Resolve typed_any_notifies : zway_typed.
Lemma typed_getContactStatus c : in_world any (getContactStatus c).
Proof. unfold getContactStatus. typed. Qed.
#[local] Hint Resolve typed_getContactStatus : zway_typed.
Lemma typed_contact_statuses p : in_world any (contact_statuses p).
Proof. unfold contact_statuses. typed. Qed.
Lemma typed_broadcastStatus p st c : in_world any (broadcastStatus p st c).
Proof. unfold broadcastStatus. typed. Qed.
#[local] Hint Resolve typed_contact_statuses typed_broadcastStatus : zway_typed.
Lemma typed_setConfig p c : in_world any (setConfig p c).
Proof.
  unfold setConfig. typed.
  - apply typed_with_contacts; [apply typed_read_contacts|done].
  - by apply typed_same.
Qed.
Lemma typed_deliver_request p d : in_world any (deliver_request p d).
Proof.
  unfold deliver_request, DispatchRequest_create, AddContactRequest_create, AcceptContactRequest_create,
    RejectContactRequest_create, PushRequest_create.
  typed. apply typed_with_contact; [apply u32_range|done].
Qed.
#[local] Hint Resolve typed_setConfig typed_deliver_request : zway_typed.
Lemma typed_processRequests p : in_world any (processRequests p).
Proof. unfold processRequests. typed. Qed.
#[local] Hint Resolve typed_processRequests : zway_typed.

Lemma typed_appendSession p : in_world any (appendSession p).
Proof.
  unfold appendSession. eapply maintains_bind; [apply typed_session_at|]. intros s Hs.
  apply maintains_modify; [done|]. intros w []. split; simpl; try done.
  intros a. rewrite lookup_insert_is_Some. intros [<-|[_ Ha]]; [apply Hs|auto].
Qed.
Lemma typed_removeSession p : in_world any (removeSession p).
Proof.
  unfold removeSession. eapply maintains_bind; [apply typed_session_at|]. intros s Hs. cbv zeta.
  apply (maintains_bind _ (fun m => forall a, is_Some (m !! a) -> is_u32 a)).
  { apply maintains_gets. by intros w []. }
  intros m Hm. destruct (m !! s_accountId s); [|by apply maintains_ret].
  apply maintains_modify; [done|]. intros w []. split; simpl; try done. intros a.
  destruct (filter _ _).
  - rewrite lookup_delete_is_Some. intros [_ ?]. auto.
  - rewrite lookup_insert_is_Some. intros [<-|[_ ?]]; [apply Hs|auto].
Qed.
#[local] Hint Resolve typed_appendSession typed_removeSession : zway_typed.

Lemma typed_verifyPassword d b : in_world any (verifyPassword d b).
Proof. unfold verifyPassword. typed. Qed.
#[local] Hint Resolve typed_verifyPassword : zway_typed.

Lemma typed_own_account p : in_world any (own_account p).
Proof. unfold own_account. typed. Qed.
Lemma typed_add_contact p c : is_u32 c -> in_world any (add_contact p c).
Proof. intros Hc. unfold add_contact. typed. by apply typed_with_contact. Qed.
Lemma typed_contact_query p h : in_world any (contact_query p h).
Proof. unfold contact_query. typed. Qed.
#[local] Hint Resolve typed_own_account typed_add_contact typed_contact_query : zway_typed.

Lemma typed_forward_push p i a keys f : is_u32 i -> in_world any (forward_push p i a keys f).
Proof. intros Hi. revert f. induction keys; intros f; cbn [forward_push]; typed. Qed.
#[local] Hint Resolve typed_forward_push : zway_typed.

Lemma typed_incoming p h : in_world any (processIncomingRequest p h).
Proof.
  unfold processIncomingRequest, processDispatchRequest, processCreateAccount, processLogin,
    processLogout, processConfigRequest, processAddContactRequest, request_contact,
    processCreateAddCode, processFindContactRequest, processAcceptContact, processRejectContact,
    processContactStatusRequest, processPushRequest, reply_failure.
  typed. by apply typed_with_account; [apply u32_range|].
Qed.
#[local] Hint Resolve typed_incoming : zway_typed.

(** ** Responses, streams, the transport *)

Lemma typed_sendPacket : in_session any sendPacket.
Proof.
  unfold sendPacket. typed; apply typed_modify; by apply typed_same.
Qed.
#[local] Hint Resolve typed_sendPacket : zway_typed.

Lemma typed_addStreamSender i : is_u32 i -> in_session any (addStreamSender i).
Proof. intros Hi. unfold addStreamSender. typed. Qed.

Lemma typed_response p r h : in_world any (receive_response p r h).
Proof.
  unfold receive_response. rewrite processResponse_run.
  unfold delete_when_done, push_callback, send_resource.
  typed; apply typed_addStreamSender, u32_range.
Qed.
Lemma typed_createStreamReceiver p pkt : in_world any (createStreamReceiver p pkt).
Proof. unfold createStreamReceiver. typed. Qed.
Lemma typed_stream_received p i b : in_world any (stream_received p i b).
Proof. unfold stream_received. typed. Qed.

Lemma typed_close p sh rm : in_world any (close p sh rm).
Proof.
  unfold close, socket_do. typed; apply typed_modify; by apply typed_same.
Qed.
#[local] Hint Resolve typed_close : zway_typed.

Lemma typed_resetTimer : in_session any resetTimer.
Proof. apply typed_modify. by apply typed_same. Qed.
#[local] Hint Resolve typed_resetTimer : zway_typed.

Lemma typed_onPacketSent e : in_session any (onPacketSent e).
Proof.
  unfold onPacketSent. typed; apply typed_modify; try by apply typed_same.
  intros s Hs. apply typed_with_counts; [apply u32_range|apply Hs|done].
Qed.
Lemma typed_postPacket pkt : in_session any (postPacket pkt).
Proof. unfold postPacket. typed; apply typed_modify; by apply typed_same. Qed.
Lemma typed_recvPacket : in_session any recvPacket.
Proof. unfold recvPacket. typed. by apply typed_start_op. Qed.
#[local] Hint Resolve typed_recvPacket : zway_typed.

Lemma typed_recvPacketBody pkt :
  typed_packet pkt -> 0 < pkt_bodySize pkt -> in_session any (recvPacketBody pkt).
Proof.
  intros Hp Hpos. unfold recvPacketBody. destruct (zbuffer_create _) as [b|] eqn:Hb; [|typed].
  apply typed_start_op. pose proof (zbuffer_create_size _ _ (Z.lt_le_incl _ _ Hpos) Hb) as Hl.
  simpl. rewrite zbuffer_size_bytes, Hl. split_and!; [done|done|lia|lia|lia].
Qed.

Lemma typed_onPacketRecv p pkt : in_world any (onPacketRecv log_packet p pkt).
Proof.
  unfold onPacketRecv, log_packet. typed.
  apply typed_with_counts; [apply H1|apply u32_range|done].
Qed.
#[local] Hint Resolve typed_onPacketRecv : zway_typed.

Lemma typed_onPacketHeadRecv p e n pkt :
  typed_packet pkt -> in_world any (onPacketHeadRecv log_packet p e n pkt).
Proof.
  intros Hp. unfold onPacketHeadRecv. destruct (Z.gtb_spec (pkt_bodySize pkt) 0); typed.
  by apply typed_recvPacketBody.
Qed.

(** The next read starts where this one stopped. *)
Lemma typed_onPacketBodyRecv p e off size pkt (data : list Byte.byte) :
  typed_op (OpReadBody off size pkt) -> Z.of_nat (length data) <= size ->
  in_world any (onPacketBodyRecv log_packet p e (Z.of_nat (length data)) off (deliver off data pkt)).
Proof.
  intros (Hp & Hl & Ho & Hs) Hd. unfold onPacketBodyRecv. typed.
  apply typed_start_op. simpl in *. destruct Hp as [Hi [Hb1 Hb2]]. destruct a as [_ Hlt].
  rewrite u32_id by (unfold is_u32; lia).
  split_and!; [split; [done|split; done]| |lia|lia|lia].
  rewrite !length_app, length_take, length_drop. lia.
Qed.

(** ** The server *)

Lemma typed_on_server f :
  (forall sv, is_u32 (sv_numSessions sv) -> is_u32 (sv_numSessions (f sv))) ->
  in_world any (on_server f).
Proof. intros Hf. apply maintains_modify; [done|]. intros w []. split; simpl; auto. Qed.

Lemma typed_sendMessage t k n :
  k = 1000 \/ k = 2000 -> is_u32 n -> 0 < n -> in_world any (sendMessage t k n).
Proof.
  intros Hk [_ Hn] Hpos. apply maintains_modify; [done|]. intros w []. split; simpl; try done.
  apply Forall_app. split; [done|]. by apply Forall_singleton.
Qed.

Lemma typed_count u k : in_world is_u32 (on_db (count_requests u k)).
Proof.
  intros w Hw. unfold on_db, zoom. destruct (count_requests u k (w_db w)) as [r d] eqn:E.
  split; [by destruct Hw|]. simpl. intros n ->. apply with_lock_inv in E as (_ & Hn & _).
  destruct (db_count _ _ _); simpl in Hn; subst; apply u32_range.
Qed.

Lemma typed_processUserRequests u : in_world any (processUserRequests u).
Proof.
  unfold processUserRequests, numContactRequests, numPushRequests.
  eapply maintains_bind; [apply typed_getSessions|intros l _]. destruct l; [|typed].
  eapply maintains_bind; [apply typed_on_db|intros tok _]. destruct (str_empty tok); [typed|].
  eapply maintains_bind; [apply typed_count|intros n Hn].
  eapply maintains_bind; [|intros _ _].
  { unfold when. destruct (Z.gtb_spec n 0); [apply typed_sendMessage; auto|typed]. }
  eapply maintains_bind; [apply typed_count|intros m Hm].
  unfold when. destruct (Z.gtb_spec m 0); [apply typed_sendMessage; auto|typed].
Qed.

Lemma typed_sweep l : in_world any (sweep_senders l).
Proof. induction l; simpl; unfold completed; typed. Qed.
#[local] Hint Resolve typed_sweep : zway_typed.
Lemma typed_onTimer e : in_world any (onTimer e).
Proof. unfold onTimer. typed. by apply typed_on_server. Qed.

Lemma typed_accept : in_world any accept.
Proof.
  unfold accept. apply (maintains_bind _ any); [|intros p _; by apply typed_on_server].
  intros w Hw. split; [|done]. destruct Hw. split; simpl; try done.
  apply map_Forall_insert_2; [apply typed_new_session|done].
Qed.
#[local] Hint Resolve typed_accept : zway_typed.

Lemma typed_start p : in_world any (Requests.start p).
Proof. unfold Requests.start. typed. by apply typed_with_account. Qed.
#[local] Hint Resolve typed_start : zway_typed.

Lemma typed_handleSession e p : in_world any (handleSession e p).
Proof.
  unfold handleSession. typed. apply typed_on_server. intros. apply u32_range.
Qed.

Lemma typed_handleHandshake p e h : in_world any (handleHandshake p e h).
Proof.
  unfold handleHandshake. typed. apply typed_modify. by apply typed_same.
Qed.

Lemma typed_removeSessions : in_world any removeSessions.
Proof.
  unfold removeSessions. typed. apply maintains_modify; [done|]. intros w []. split; simpl; try done.
  intros k. rewrite lookup_empty. by intros [? ?].
Qed.

Lemma typed_command calls c : in_world any (command calls c).
Proof.
  unfold command, pause, resume, info, session_line.
  pose proof typed_removeSessions. typed; by apply typed_on_server.
Qed.

Lemma typed_drop_op sel l : Forall typed_op l -> Forall typed_op (drop_op sel l).
Proof. induction 1; simpl; [done|]. destruct (sel _); [done|by constructor]. Qed.

Lemma typed_drop_write l : Forall typed_op l -> Forall typed_op (drop_write l).
Proof. induction 1 as [|[] l]; simpl; try done; by constructor. Qed.

Lemma typed_complete p sel : in_world any (complete p sel).
Proof.
  apply typed_update. intros s Hs. apply typed_with_ops; [by apply typed_drop_op, Hs|done].
Qed.
#[local] Hint Resolve typed_complete typed_handleSession typed_handleHandshake
  typed_processUserRequests typed_onTimer typed_command typed_response typed_createStreamReceiver
  typed_stream_received typed_onPacketSent typed_postPacket typed_onPacketHeadRecv
  typed_incoming : zway_typed.

(** The operation an event completes. *)
Lemma typed_outstanding p op w : typed_world w -> outstanding p op w -> typed_op op.
Proof.
  intros Hw (s & Hs & Hop). pose proof (ty_sessions _ Hw p s Hs) as Hts.
  by apply (proj1 (Forall_forall _ _) (ty_ops _ Hts)).
Qed.

Lemma typed_run e w : typed_world w -> typed_event e -> enabled e w -> typed_world (run e w).2.
Proof.
  intros Hw He Hen. assert (Hrun : in_world any (run e)); [|by apply Hrun].
  destruct e; cbn [run enabled typed_event] in *; try (typed; fail).
  - typed. by apply typed_on_server.
  - destruct Hen as [Ho Hd]. pose proof (typed_outstanding _ _ _ Hw Ho).
    typed. by eapply typed_onPacketBodyRecv.
  - typed. apply typed_with_ops; [|done]. by apply typed_drop_write, H1.
  - apply (maintains_bind _ (Forall is_u32)); [by apply maintains_gets; intros v []|]. intros l Hl.
    typed. apply maintains_modify; [done|]. intros v []. split; simpl; try done.
    by destruct Hl.
Qed.

Lemma typed_boot m fs time g created w0 :
  boot m fs time g created = (Ret true, w0) -> typed_world w0.
Proof.
  unfold boot. intros Hb. assert (Hs : in_world any (server_start true created true)).
  { unfold server_start. destruct (DB_startup _ _ _) as [ok l]. typed; by apply typed_on_server. }
  match type of Hb with server_start _ _ _ ?v = _ => destruct (Hs v) as [Hw _]; [|by rewrite Hb in Hw] end.
  split; simpl; [done| |unfold is_u32; lia|done|done].
  intros a. rewrite lookup_empty. by intros [? ?].
Qed.

Lemma typed_trace m fs time g created w0 es w :
  boot m fs time g created = (Ret true, w0) -> trace w0 es w -> Forall typed_event es ->
  typed_world w.
Proof.
  intros Hb. induction 1 as [|es w e w' Ht IH [Hen Hrun]]; intros Hes; [by eapply typed_boot|].
  apply Forall_app in Hes as [Hes He]. apply Forall_cons in He as [He _].
  pose proof (typed_run e w (IH Hes) He Hen) as Hw. by rewrite Hrun in Hw.
Qed.
(** C27: Every state a started server can reach is well typed, whatever the clients send. The
    status of a session is one of the three; account ids, packet counts, request ids and
    the keys of the contact and session maps are in the range of [uint32_t]; and every
    outstanding read of a packet body asks for exactly the rest of the body, inside the
    buffer that was made for it, however the peer splits the packet. *)
Theorem reachable_typed m fs time g created w0 es w :
  boot m fs time g created = (Ret true, w0) -> trace w0 es w -> Forall typed_event es ->
  typed_world w.
Proof. apply typed_trace. Qed.
End typed_handlers.
