(* ===== verification/Mailbox.v ===== *)
(** * The stored requests as mailboxes

    What clients ask of one another waits in the collection of requests until it is taken. The
    abstract specification is a bag of documents into which one is put or from which one is
    taken; every event of the server is a sequence of such steps, and [puts] and [takes] say
    which documents an event may put and take. Clients put under the account they are logged in
    to; the arrival of a resource puts a dispatch notice, also on a session that is not logged
    in. *)

From S2P Require Import Prelude Values Platform Codec Pool Db Stdio StreamBuffer Streams Relay World.
From S2P Require Import Registry Transport Session Contacts Requests Fcm Server Console Frames.
From S2P Require Import System Auth Delivery Pushes Typed.

Local Open Scope zway_scope.
Local Open Scope Z_scope.

(** ** The abstract mailbox *)

Section mailbox.
Context `{Platform}.
Context (Take Put : doc -> Prop).

(** One step of the bag; documents in another order are the same bag. *)
Inductive mail_step (l l' : list doc) : Prop :=
| mail_same : l ≡ₚ l' -> mail_step l l'
| mail_put d : Put d -> l' ≡ₚ d :: l -> mail_step l l'
| mail_take d : Take d -> l ≡ₚ d :: l' -> mail_step l l'.

Definition mail : relation (list doc) := rtc mail_step.

Lemma mail_perm l l' : l ≡ₚ l' -> mail l l'.
Proof. intros Hp. by apply rtc_once, mail_same. Qed.

Lemma mail_kept l l' d : mail l l' -> d ∈ l -> d ∈ l' \/ Take d.
Proof.
  induction 1 as [l|l l1 l' Hs _ IH]; [by left|]. intros Hd.
  destruct Hs as [Hp|d' _ Hp|d' Ht Hp].
  - apply IH. by rewrite <- Hp.
  - apply IH. rewrite Hp. by right.
  - rewrite Hp in Hd. apply elem_of_cons in Hd as [->|Hd]; [by right|by apply IH].
Qed.

Lemma mail_new l l' d : mail l l' -> d ∈ l' -> d ∈ l \/ Put d.
Proof.
  induction 1 as [l|l l1 l' Hs _ IH]; [by left|]. intros Hd.
  destruct (IH Hd) as [Hd1|]; [|by right]. destruct Hs as [Hp|d' Ht Hp|d' _ Hp].
  - left. by rewrite Hp.
  - rewrite Hp in Hd1. apply elem_of_cons in Hd1 as [->|?]; [by right|by left].
  - left. rewrite Hp. by right.
Qed.
End mailbox.

Lemma mail_mono `{Platform} (T P T' P' : doc -> Prop) l l' :
  (forall d, T d -> T' d) -> (forall d, P d -> P' d) -> mail T P l l' -> mail T' P' l l'.
Proof.
  intros HT HP. induction 1 as [|l l1 l' Hs _ IH]; [done|]. eapply rtc_l; [|exact IH].
  destruct Hs; [by apply mail_same|eapply mail_put; eauto|eapply mail_take; eauto].
Qed.

(** ** What the server may put and take *)

Section events.
Context `{Platform}.

Definition stored_requests (w : world) : list doc := docs "zway.requests" (db_mongo (w_db w)).

(** The documents [processDispatchRequest] deletes for account [a]. *)
Definition dispatch_query (head : uobj) (a : Z) : doc :=
  [("id"%string, BInt (int_of head "dispatchId"));
   ("$or"%string, BArray [("0"%string, BObject [("src"%string, bson_u32 a)]);
                          ("1"%string, BObject [("dst"%string, bson_u32 a)])])].

Definition add_code_query (head : uobj) : doc := [("addCode"%string, BString (str_of head "addCode"))].

Definition answered_query (head : uobj) : doc :=
  [("id"%string, bson_u32 (u32 (int_of head "contactRequestId")))].

(** What an incoming request of account [a] may take out of the mailboxes. *)
Definition request_takes (head : uobj) (a : Z) (d : doc) : Prop :=
  let type := int_of head "requestType" in
  (type = Req_Dispatch /\ matches (dispatch_query head a) d = true) \/
  (type = Req_AddContact /\ str_of head "addCode" <> ""%string /\ matches (add_code_query head) d = true) \/
  (type ∈ [Req_AcceptContact; Req_RejectContact] /\ matches (answered_query head) d = true).

(** The type of the document an incoming request of some type stores. *)
Inductive stores : Z -> Z -> Prop :=
| stores_contact : stores Req_AddContact Req_AddContact
| stores_code : stores Req_CreateAddCode Req_AddContact
| stores_accept : stores Req_AcceptContact Req_AcceptContact
| stores_reject : stores Req_RejectContact Req_RejectContact
| stores_push : stores Req_Push Req_Push.

Definition from_with (a id t : Z) (d : doc) : Prop :=
  field "src" d = Some (bson_u32 a) /\ field "id" d = Some (bson_u32 id) /\
  field "type" d = Some (BInt t).

Definition request_puts (head : uobj) (a : Z) (d : doc) : Prop :=
  exists t, stores (int_of head "requestType") t /\ from_with a (requestId_of head) t d.

(** A session that is logged in, with its account. *)
Definition logged_in_as (w : world) (p : nat) (a : Z) : Prop :=
  exists s, w_sessions w !! p = Some s /\ STATUS_LOGGEDIN <= s_status s /\ s_accountId s = a.

Definition takes (e : event) (w : world) (d : doc) : Prop :=
  match e with
  | EvRequest p head => exists a, logged_in_as w p a /\ request_takes head a d
  | EvResponse p r head =>
      exists s, w_sessions w !! p = Some s /\ acknowledges r head /\
        matches (contact_request_query (rq_id r) (s_accountId s)) d = true
  | _ => False
  end.

Definition puts (e : event) (w : world) (d : doc) : Prop :=
  match e with
  | EvRequest p head => exists a, logged_in_as w p a /\ request_puts head a d
  | EvReceived p id _ =>
      exists s d0, w_sessions w !! p = Some s /\ d0 = dispatch_doc id (s_accountId s) /\ stored_doc d0 d
  | _ => False
  end.
End events.

(** ** Computations that only put and take so much *)

Section deals.
Context `{PlatformLaws}.
(** The session whose handler runs, with its account and status, as long as they do not
    change; what may be taken and put; and the database at the beginning: the connections of
    the pool, which every operation gives back, and the stored requests. *)
Context (who : option (nat * Z * Z)) (Take Put : doc -> Prop) (db0 : db_state).

Definition is_who (w : world) : Prop :=
  match who with
  | Some (p, a, st) => exists s, w_sessions w !! p = Some s /\ s_accountId s = a /\ s_status s = st
  | None => True
  end.

Record dealt (w : world) : Prop := {
  dealt_who : is_who w;
  dealt_pool : pool_kept db0 (w_db w);
  dealt_mail : mail Take Put (docs "zway.requests" (db_mongo db0)) (stored_requests w)
}.

Local Notation any := (fun _ => True).
Local Notation deals := (maintains dealt).

Definition sess_same (s s' : session) : Prop :=
  s_accountId s' = s_accountId s /\ s_status s' = s_status s.

Lemma deals_on_session {A} p (m : M session A) :
  who = None \/ (forall s, sess_same s (m s).2) -> deals any (on_session p m).
Proof.
  intros Hm w [Hw Hpool Hmail]. unfold on_session. destruct (w_sessions w !! p) as [s|] eqn:Hs; [|done].
  assert (Hs' : who = None \/ sess_same s (m s).2) by (destruct Hm; [by left|right; auto]).
  destruct (m s) as [r s']. split; [|done]. split; [|done|done]. cbn in Hs'.
  unfold is_who in *. destruct who as [[[q a] st]|]; [|done]. destruct Hs' as [|[Ha Hst]]; [done|].
  destruct Hw as (s0 & Hq & <- & <-). cbn. destruct (decide (p = q)) as [->|Hne].
  - exists s'. rewrite lookup_insert_eq. split; [done|]. rewrite Hs in Hq. by injection Hq as <-.
  - exists s0. by rewrite lookup_insert_ne.
Qed.

Lemma deals_session_at p : deals any (session_at p).
Proof. intros w Hw. unfold session_at. by destruct (w_sessions w !! p). Qed.

(** The database under a connection: what the body does to the requests. *)
Lemma deals_with_lock {A} (body : mongo -> A * mongo) :
  (forall m, mail Take Put (docs "zway.requests" m) (docs "zway.requests" (body m).2)) ->
  deals any (on_db (with_lock body)).
Proof.
  intros Hb w [Hw Hpool Hmail]. pose proof (with_lock_pool body (w_db w)) as Hkept.
  assert (Hdocs : mail Take Put (stored_requests w) (docs "zway.requests" (db_mongo (with_lock body (w_db w)).2))).
  { unfold stored_requests. destruct (w_db w) as [[|c q] m]; [by rewrite with_lock_empty|].
    rewrite with_lock_run by done. apply Hb. }
  unfold on_db, zoom. destruct (with_lock body (w_db w)) as [r s]. split; [|done].
  split; [done| |]; [by etrans|]. by etrans.
Qed.

Lemma deals_reads {A} (body : mongo -> A * mongo) :
  (forall m, (body m).2 = m) -> deals any (on_db (with_lock body)).
Proof. intros Hb. apply deals_with_lock. intros m. rewrite Hb. reflexivity. Qed.

Lemma deals_addRequest d :
  (forall d', stored_doc d d' -> Put d') -> deals any (on_db (addRequest d)).
Proof.
  intros Hd. apply deals_with_lock. intros m. cbn.
  destruct (db_insert _ _ _) as [ok m'] eqn:Hi. apply insert_any in Hi as [[Hp|(d' & Hd' & Hp)] _].
  - apply mail_perm. by rewrite Hp.
  - eapply rtc_once, mail_put; eauto.
Qed.

Lemma deals_deleteRequest q :
  (forall d, matches q d = true -> Take d) -> deals any (on_db (deleteRequest q)).
Proof.
  intros Hq. apply deals_with_lock. intros m.
  destruct (db_remove _ _ _ _) as [ok m'] eqn:Hr. apply remove_one_any in Hr as [[Hp|(d & Hd & Hp)] _].
  - apply mail_perm. by rewrite Hp.
  - eapply rtc_once, mail_take; eauto.
Qed.

Lemma requests_not_accounts : "zway.requests"%string <> "zway.accounts"%string.
Proof. done. Qed.

Lemma deals_setFcmToken a t : deals any (on_db (setFcmToken a t)).
Proof.
  apply deals_with_lock. intros m. destruct (db_update _ _ _ _) as [ok m'] eqn:Hu.
  cbn. by rewrite (update_any _ _ _ _ _ _ Hu _ requests_not_accounts).
Qed.

Lemma deals_insertAccount i n ph a b pw sa : deals any (on_db (insertAccount i n ph a b pw sa)).
Proof.
  apply deals_with_lock. intros m. destruct (db_insert _ _ _) as [ok m'] eqn:Hu.
  cbn. apply insert_any in Hu as [_ Hu]. by rewrite (Hu _ requests_not_accounts).
Qed.

Lemma deals_newAccountId : deals any (on_db newAccountId).
Proof.
  intros w Hw. unfold on_db, zoom. pose proof (newAccountId_reads (w_db w)) as E.
  destruct (deals_reads (fun m => (tt, m)) ltac:(done) w Hw) as [Hd _].
  unfold on_db, zoom in Hd.
  destruct (newAccountId (w_db w)), (with_lock _ (w_db w)). simpl in *. by subst.
Qed.
Lemma deals_getAccount q f : deals any (on_db (getAccount q f)).
Proof. by apply deals_reads. Qed.
Lemma deals_getRequest q : deals any (on_db (getRequest q)).
Proof. by apply deals_reads. Qed.
Lemma deals_getRequests q : deals any (on_db (getRequests q)).
Proof. by apply deals_reads. Qed.
Lemma deals_getContacts q f : deals any (on_db (getContacts q f)).
Proof. by apply deals_reads. Qed.
Lemma deals_getFcmToken a : deals any (on_db (getFcmToken a)).
Proof. apply deals_reads. intros m. by destruct (head _). Qed.
Lemma deals_count a t : deals any (on_db (count_requests a t)).
Proof. apply deals_reads. intros m. by destruct (db_count _ _ _). Qed.
Lemma deals_requestPending q : deals any (on_db (db_requestPending q)).
Proof. apply deals_reads. intros m. by destruct (db_count _ _ _). Qed.
Lemma deals_getInbox a : deals any (on_db (getInbox a)).
Proof. apply deals_reads. intros m. by destruct (db_query _ _ _ _ _ _) as [l []]. Qed.

(** Changes of other parts of the world. *)
Lemma deals_modify f :
  (forall w, w_sessions (f w) = w_sessions w /\ w_db (f w) = w_db w) ->
  deals any (modify f).
Proof.
  intros Hf. apply maintains_modify; [done|]. intros w [Hw Hp Hm]. destruct (Hf w) as [E1 E2].
  split; unfold is_who, stored_requests in *; by rewrite ?E1, ?E2.
Qed.

Lemma deals_on_streams {A} (m : M streams A) : deals any (on_streams m).
Proof. apply maintains_zoom_any. by intros v w []. Qed.
Lemma deals_on_server f : deals any (on_server f).
Proof. by apply deals_modify. Qed.
Lemma deals_RAND n : deals any (RAND n).
Proof.
  intros w []. unfold RAND. by destruct (RAND_pseudo_bytes n (w_rng w)).
Qed.
Lemma deals_post u : deals any (post_processUserRequests u).
Proof. by apply deals_modify. Qed.
Lemma deals_sendMessage t k n : deals any (sendMessage t k n).
Proof. by apply deals_modify. Qed.
Lemma deals_BSON d : deals (fun d' => d' = d) (BSON d).
Proof. unfold BSON. destruct (builder_accepts d); [by apply maintains_ret|apply maintains_fail]. Qed.
Lemma deals_or_throw {A} (o : option A) : deals any (or_throw o).
Proof. destruct o; [by apply maintains_ret|apply maintains_fail]. Qed.
Lemma deals_gets {A} (f : world -> A) : deals any (gets f).
Proof. by apply maintains_gets. Qed.

Lemma deals_engine_call p c : deals any (on_session p (engine_call_ c)).
Proof. apply deals_on_session. by right. Qed.
Lemma deals_update p f :
  who = None \/ (forall s, sess_same s (f s)) -> deals any (update p f).
Proof. intros Hf. apply deals_on_session. destruct Hf; [by left|by right]. Qed.
(** The transport changes neither account nor status. *)
Lemma deals_background {A} p (m : M session A) : preserves sess_bg m -> deals any (on_session p m).
Proof. intros Hm. apply deals_on_session. right. intros s. destruct (Hm s). by split. Qed.

Lemma deals_the_accountId p a st : who = Some (p, a, st) -> deals (fun x => x = a) (the_accountId p).
Proof.
  intros E w Hd. pose proof (dealt_who _ Hd) as Hw. unfold the_accountId, bindM, session_at.
  destruct (w_sessions w !! p) as [s|] eqn:Hs; [|done]. split; [done|]. cbn. intros x [= <-].
  unfold is_who in Hw. rewrite E in Hw. destruct Hw as (s' & Hs' & <- & _). congruence.
Qed.

Lemma deals_the_status p a st : who = Some (p, a, st) -> deals (fun x => x = st) (the_status p).
Proof.
  intros E w Hd. pose proof (dealt_who _ Hd) as Hw. unfold the_status, bindM, session_at.
  destruct (w_sessions w !! p) as [s|] eqn:Hs; [|done]. split; [done|]. cbn. intros x [= <-].
  unfold is_who in Hw. rewrite E in Hw. destruct Hw as (s' & Hs' & _ & <-). congruence.
Qed.
Lemma deals_some_accountId p : deals any (the_accountId p).
Proof. intros w Hw. unfold the_accountId, bindM, session_at. by destruct (w_sessions w !! p). Qed.
Lemma deals_some_status p : deals any (the_status p).
Proof. intros w Hw. unfold the_status, bindM, session_at. by destruct (w_sessions w !! p). Qed.
End deals.

Create HintDb zway_deals discriminated.
#[export] Hint Resolve deals_session_at deals_setFcmToken deals_insertAccount deals_newAccountId
  deals_getAccount deals_getRequest deals_getRequests deals_getContacts deals_getFcmToken deals_count
  deals_requestPending deals_getInbox deals_on_streams deals_on_server deals_RAND
  deals_post deals_sendMessage deals_or_throw deals_gets deals_engine_call deals_some_accountId
  deals_some_status : zway_deals.

(** Walks through a handler; what is read of the session is kept for what follows. *)
Ltac deal_step :=
  first
    [ solve [eauto 3 with zway_deals]
    | progress cbv zeta
    | apply maintains_ret; exact I
    | apply maintains_fail
    | eapply maintains_bind; [first [eapply deals_the_accountId; reflexivity
                                    |eapply deals_the_status; reflexivity|apply deals_BSON]|intros ? ->]
    | apply (maintains_bind _ (fun _ => True)); [|intros ? _]
    | apply maintains_for_each; intros ? _
    | apply maintains_collect; intros ? _
    | match goal with
      | |- maintains _ _ (when _ _) => apply maintains_when
      | |- maintains _ _ (update _ _) => apply deals_update; first [by left|by right]
      | |- maintains _ _ (on_session _ _) =>
          first [apply deals_on_session; first [by left|by right]
                |apply deals_background; solve [eauto 3 with zway_frame]]
      | |- maintains _ _ (on_db (addRequest _)) => apply deals_addRequest; intros ? ?
      | |- maintains _ _ (on_db (deleteRequest _)) => apply deals_deleteRequest; intros ? ?
      | |- maintains _ _ (match ?x with _ => _ end) => destruct x eqn:?
      | |- maintains _ _ (if ?x then _ else _) => destruct x eqn:?
      end ].
Ltac deal := repeat deal_step.

(** ** The handlers *)

Section deal_handlers.
Context `{PlatformLaws}.

Local Notation any := (fun _ => True).

Section generic.
Context (who : option (nat * Z * Z)) (Take Put : doc -> Prop) (db0 : db_state).
Local Notation deals := (maintains (dealt who Take Put db0)).

Lemma deals_success p i r : deals any (postRequestSuccess p i r).
Proof. apply deals_engine_call. Qed.
Lemma deals_failure p i c m : deals any (postRequestFailure p i c m).
Proof. apply deals_engine_call. Qed.
Lemma deals_postRequest p r : deals any (postRequest p r).
Proof. apply deals_engine_call. Qed.
Lemma deals_addUbjSender p i t o : deals any (addUbjSender p i t o).
Proof. apply deals_engine_call. Qed.
#[local] Hint Resolve deals_success deals_failure deals_postRequest deals_addUbjSender : zway_deals.

Lemma deals_addStreamSender p i : deals any (on_session p (addStreamSender i)).
Proof. apply deals_background, frame_addStreamSender. Qed.
Lemma deals_sendPacket p : deals any (on_session p sendPacket).
Proof. apply deals_background, frame_sendPacket. Qed.
#[local] Hint Resolve deals_addStreamSender deals_sendPacket : zway_deals.

Lemma deals_getContactStatus c : deals any (getContactStatus c).
Proof.
  unfold getContactStatus. deal. rename a into l. induction l; cbn [any_notifies]; deal.
Qed.
#[local] Hint Resolve deals_getContactStatus : zway_deals.
Lemma deals_contact_statuses p : deals any (contact_statuses p).
Proof. unfold contact_statuses. deal. Qed.
Lemma deals_broadcastStatus p st c : deals any (broadcastStatus p st c).
Proof. unfold broadcastStatus. deal. Qed.
#[local] Hint Resolve deals_contact_statuses deals_broadcastStatus : zway_deals.
Lemma deals_setConfig p c : deals any (setConfig p c).
Proof. unfold setConfig. deal. Qed.
Lemma deals_deliver_request p d : deals any (deliver_request p d).
Proof. unfold deliver_request. deal. Qed.
#[local] Hint Resolve deals_setConfig deals_deliver_request : zway_deals.
Lemma deals_processRequests p : deals any (processRequests p).
Proof. unfold processRequests. deal. Qed.
Lemma deals_own_account p : deals any (own_account p).
Proof. unfold own_account. deal. Qed.
Lemma deals_add_contact p c : deals any (add_contact p c).
Proof. unfold add_contact. deal. Qed.
Lemma deals_contact_query p h : deals any (contact_query p h).
Proof. unfold contact_query. deal. Qed.
Lemma deals_verifyPassword d b : deals any (verifyPassword d b).
Proof. unfold verifyPassword. deal. Qed.
Lemma deals_appendSession p : deals any (appendSession p).
Proof. unfold appendSession. deal. by apply deals_modify. Qed.
Lemma deals_removeSession p : deals any (removeSession p).
Proof. unfold removeSession. deal; by apply deals_modify. Qed.
End generic.
#[local] Hint Resolve deals_success deals_failure deals_postRequest deals_addUbjSender
  deals_getContactStatus deals_contact_statuses deals_broadcastStatus deals_setConfig
  deals_deliver_request deals_processRequests deals_own_account deals_add_contact
  deals_contact_query deals_verifyPassword deals_appendSession deals_removeSession : zway_deals.

Section incoming.
Context (p : nat) (a st : Z) (head : uobj) (db0 : db_state).

Definition may_take (d : doc) : Prop := STATUS_LOGGEDIN <= st /\ request_takes head a d.
Definition may_put (d : doc) : Prop := STATUS_LOGGEDIN <= st /\ request_puts head a d.
Local Notation deals := (maintains (dealt (Some (p, a, st)) may_take may_put db0)).

Lemma put_stored t d0 d :
  (st <? STATUS_LOGGEDIN) = false -> stores (int_of head "requestType") t ->
  from_with a (requestId_of head) t d0 -> stored_doc d0 d -> may_put d.
Proof.
  intros Hst Ht (E1 & E2 & E3) Hd. split; [lia|]. exists t. split; [done|].
  unfold from_with. by rewrite !Hd.
Qed.

Lemma deals_dispatch : int_of head "requestType" = Req_Dispatch -> deals any (processDispatchRequest p head).
Proof. intros Ht. unfold processDispatchRequest. deal. split; [lia|]. left. by split. Qed.

Ltac put := eapply put_stored; [eassumption| | |eassumption]; [|by split_and!].

Lemma deals_addContact :
  int_of head "requestType" = Req_AddContact -> deals any (processAddContactRequest p head).
Proof.
  intros Ht. unfold processAddContactRequest, request_contact, reply_failure. deal.
  - put. rewrite Ht. constructor.
  - split; [lia|]. right. left. split_and!; [done| |done]. intros E. by rewrite E in *.
Qed.

Lemma deals_createAddCode :
  int_of head "requestType" = Req_CreateAddCode -> deals any (processCreateAddCode p head).
Proof.
  intros Ht. unfold processCreateAddCode, reply_failure. deal. put. rewrite Ht. constructor.
Qed.

Lemma deals_acceptContact :
  int_of head "requestType" = Req_AcceptContact -> deals any (processAcceptContact p head).
Proof.
  intros Ht. unfold processAcceptContact, reply_failure. deal; [put; rewrite Ht; constructor|].
  split; [lia|]. do 2 right. split; [rewrite Ht; left|done].
Qed.

Lemma deals_rejectContact :
  int_of head "requestType" = Req_RejectContact -> deals any (processRejectContact p head).
Proof.
  intros Ht. unfold processRejectContact, reply_failure. deal; [put; rewrite Ht; constructor|].
  split; [lia|]. do 2 right. split; [rewrite Ht; by right; left|done].
Qed.

Lemma deals_forward_push keys fwd :
  int_of head "requestType" = Req_Push -> (st <? STATUS_LOGGEDIN) = false ->
  deals any (forward_push p (requestId_of head) a keys fwd).
Proof.
  intros Ht Hst. revert fwd. induction keys as [|it keys IH]; intros fwd; cbn [forward_push]; deal.
  put. rewrite Ht. constructor.
Qed.

Lemma deals_push : int_of head "requestType" = Req_Push -> deals any (processPushRequest p head).
Proof.
  intros Ht. unfold processPushRequest, reply_failure. deal. by apply deals_forward_push.
Qed.

(** The requests that store and take nothing. *)
Lemma deals_others :
  deals any (processCreateAccount p head) /\ deals any (processConfigRequest p head) /\
  deals any (processFindContactRequest p head) /\ deals any (processContactStatusRequest p head).
Proof.
  unfold processCreateAccount, processConfigRequest, processFindContactRequest, processContactStatusRequest.
  split_and!; deal.
Qed.
End incoming.

(** The login and the logout change who the session is, and store and take nothing. *)
Section session_changes.
Context (db0 : db_state).
Local Notation idle := (maintains (dealt None (fun _ => False) (fun _ => False) db0)).

Lemma deals_login p head : idle any (processLogin p head).
Proof. unfold processLogin. deal. Qed.
Lemma deals_logout p head : idle any (processLogout p head).
Proof. unfold processLogout. deal. Qed.

Lemma deals_close p sh rm : idle any (close p sh rm).
Proof. unfold close, socket_do. deal. Qed.
#[local] Hint Resolve deals_close : zway_deals.
Lemma deals_start p : idle any (Requests.start p).
Proof. unfold Requests.start. deal. Qed.
Lemma deals_accept : idle any accept.
Proof.
  unfold accept. apply (maintains_bind _ any); [|intros p _; deal]. by intros w [].
Qed.
#[local] Hint Resolve deals_start deals_accept : zway_deals.
Lemma deals_handleSession e p : idle any (handleSession e p).
Proof. unfold handleSession. deal. Qed.
Lemma deals_handleHandshake p e h : idle any (handleHandshake p e h).
Proof. unfold handleHandshake. deal. Qed.
Lemma deals_onPacketRecv p pkt : idle any (onPacketRecv log_packet p pkt).
Proof. unfold onPacketRecv, log_packet. deal. Qed.
#[local] Hint Resolve deals_onPacketRecv : zway_deals.
Lemma deals_head p e n pkt : idle any (onPacketHeadRecv log_packet p e n pkt).
Proof. unfold onPacketHeadRecv, connection_lost. deal. Qed.
Lemma deals_body p e n off pkt : idle any (onPacketBodyRecv log_packet p e n off pkt).
Proof. unfold onPacketBodyRecv, connection_lost. deal. Qed.
Lemma deals_createStreamReceiver p pkt : idle any (createStreamReceiver p pkt).
Proof. unfold createStreamReceiver. deal. Qed.
Lemma deals_processUserRequests u : idle any (processUserRequests u).
Proof. unfold processUserRequests, numContactRequests, numPushRequests. deal. Qed.
Lemma deals_onTimer e : idle any (onTimer e).
Proof.
  unfold onTimer. deal. rename a into st. induction (st_senders st); cbn [sweep_senders]; unfold completed; deal.
Qed.
Lemma deals_command c k : idle any (command c k).
Proof.
  unfold command, info, session_line, pause, resume, removeSessions. deal; by apply deals_modify.
Qed.
End session_changes.
End deal_handlers.

#[export] Hint Resolve deals_success deals_failure deals_postRequest deals_addUbjSender
  deals_addStreamSender deals_sendPacket deals_processRequests deals_handleSession
  deals_handleHandshake deals_head deals_body deals_createStreamReceiver
  deals_processUserRequests deals_onTimer deals_command : zway_deals.

(** ** Every event refines the mailbox *)

Section refinement.
Context `{PlatformLaws}.

(** What a computation may put and take, from its beginning to its end; it gives back the
    connections it uses. *)
Definition deals_between (Take Put : doc -> Prop) (w w' : world) : Prop :=
  mail Take Put (stored_requests w) (stored_requests w') /\ pool_kept (w_db w) (w_db w').

Lemma deals_between_mono (T P T' P' : doc -> Prop) w w' :
  (forall d, T d -> T' d) -> (forall d, P d -> P' d) -> deals_between T P w w' -> deals_between T' P' w w'.
Proof. intros HT HP [Hm Hp]. split; [by eapply mail_mono|done]. Qed.

Lemma deals_between_refl T P w : deals_between T P w w.
Proof. by split. Qed.

Lemma dealt_result {A} who Take Put (m : M world A) w :
  (forall db0, maintains (dealt who Take Put db0) (fun _ => True) m) -> is_who who w ->
  deals_between Take Put w (m w).2.
Proof.
  intros Hm Hw. destruct (Hm (w_db w) w) as [[_ Hp Hmail] _]; [by split|]. done.
Qed.

Lemma idle_mail {A} (m : M world A) w Take Put :
  (forall db0, maintains (dealt None (fun _ => False) (fun _ => False) db0) (fun _ => True) m) ->
  deals_between Take Put w (m w).2.
Proof.
  intros Hm. eapply (deals_between_mono (fun _ => False) (fun _ => False)); [done|done|]. by eapply dealt_result.
Qed.

Lemma no_session_incoming p head w :
  w_sessions w !! p = None -> (processIncomingRequest p head w).2 = w.
Proof.
  intros Hp. assert (Hst : forall A (k : Z -> M world A), (bindM (the_status p) k w).2 = w).
  { intros A k. unfold bindM, the_status, bindM, session_at. by rewrite Hp. }
  unfold processIncomingRequest. cbv zeta. repeat (case_decide; [apply Hst|]). done.
Qed.

Lemma incoming_mail p head w :
  deals_between (takes (EvRequest p head) w) (puts (EvRequest p head) w) w (processIncomingRequest p head w).2.
Proof.
  destruct (w_sessions w !! p) as [s|] eqn:Hs; [|rewrite no_session_incoming by done; apply deals_between_refl].
  set (a := s_accountId s). set (st := s_status s).
  assert (Hwho : is_who (Some (p, a, st)) w) by (exists s; done).
  assert (Hmono : forall {A} (m : M world A),
    (forall db0, maintains (dealt (Some (p, a, st)) (may_take a st head) (may_put a st head) db0) (fun _ => True) m) ->
    deals_between (takes (EvRequest p head) w) (puts (EvRequest p head) w) w (m w).2).
  { intros A m Hm. eapply deals_between_mono; [| |by eapply dealt_result].
    - intros d [Hl Ht]. exists a. split; [by exists s|done].
    - intros d [Hl Ht]. exists a. split; [by exists s|done]. }
  unfold processIncomingRequest. cbv zeta.
  destruct (decide (_ = Req_Dispatch)); [by apply Hmono; intros; apply deals_dispatch|].
  destruct (decide (_ = Req_CreateAccount)); [by apply Hmono; intros; apply deals_others|].
  destruct (decide (_ = Req_Login)); [apply idle_mail; intros; apply deals_login|].
  destruct (decide (_ = Req_Logout)); [apply idle_mail; intros; apply deals_logout|].
  destruct (decide (_ = Req_Config)); [by apply Hmono; intros; apply deals_others|].
  destruct (decide (_ = Req_AddContact)); [by apply Hmono; intros; apply deals_addContact|].
  destruct (decide (_ = Req_CreateAddCode)); [by apply Hmono; intros; apply deals_createAddCode|].
  destruct (decide (_ = Req_FindContact)); [by apply Hmono; intros; apply deals_others|].
  destruct (decide (_ = Req_AcceptContact)); [by apply Hmono; intros; apply deals_acceptContact|].
  destruct (decide (_ = Req_RejectContact)); [by apply Hmono; intros; apply deals_rejectContact|].
  destruct (decide (_ = Req_ContactStatus)); [by apply Hmono; intros; apply deals_others|].
  destruct (decide (_ = Req_Push)); [by apply Hmono; intros; apply deals_push|].
  done.
Qed.

Lemma response_mail p r head w :
  deals_between (takes (EvResponse p r head) w) (puts (EvResponse p r head) w) w (receive_response p r head w).2.
Proof.
  destruct (w_sessions w !! p) as [s|] eqn:Hs.
  2: { unfold receive_response, bindM, on_session. rewrite Hs. apply deals_between_refl. }
  apply (dealt_result (Some (p, s_accountId s, s_status s))); [|by exists s]. intros db0.
  unfold receive_response. deal. rewrite processResponse_run.
  unfold delete_when_done, push_callback, send_resource.
  assert (Htake : forall d, rq_class r <> AddContactRequest -> (u32 (int_of head "status") =? 1) = true ->
    matches (contact_request_query (rq_id r) (s_accountId s)) d = true -> takes (EvResponse p r head) w d).
  { intros d Hc Hst Hm. exists s. split; [done|]. split; [|done]. split; [done|lia]. }
  deal; apply Htake; try done; congruence.
Qed.

Lemma received_mail p id b w :
  deals_between (takes (EvReceived p id b) w) (puts (EvReceived p id b) w) w (stream_received p id b w).2.
Proof.
  destruct (w_sessions w !! p) as [s|] eqn:Hs.
  - apply (dealt_result (Some (p, s_accountId s, s_status s))); [|by exists s]. intros db0.
    unfold stream_received. deal. by exists s, (dispatch_doc id (s_accountId s)).
  - unfold stream_received. unfold bindM at 1. destruct (on_streams _ w) as [r w1] eqn:E.
    assert (E1 : w_sessions w1 = w_sessions w /\ w_db w1 = w_db w).
    { revert E. unfold on_streams, zoom. match goal with |- context [let '(_, _) := ?m in _] => destruct m end.
      by intros [= _ <-]. }
    destruct E1 as [E1 E2]. unfold deals_between, stored_requests. rewrite <- E2.
    destruct r as [[]|f]; [|done]. unfold the_accountId, bindM, session_at. cbn. by rewrite E1, Hs.
Qed.

Lemma run_deals e w : deals_between (takes e w) (puts e w) w (run e w).2.
Proof.
  destruct e; cbn [run].
  - apply idle_mail. intros db0. deal.
  - apply idle_mail. intros db0. unfold complete. deal.
  - apply idle_mail. intros db0. unfold complete. deal.
  - apply idle_mail. intros db0. unfold complete. deal.
  - apply idle_mail. intros db0. deal.
  - apply idle_mail. intros db0. deal.
  - apply idle_mail. intros db0. deal.
  - pose proof (incoming_mail p request w) as Hm. unfold bindM.
    by destruct (processIncomingRequest p request w) as [[b|f] w'].
  - apply response_mail.
  - apply idle_mail. intros db0. deal.
  - apply received_mail.
  - apply idle_mail. intros db0. deal.
    by apply deals_modify.
  - apply idle_mail. intros db0. apply deals_onTimer.
  - apply idle_mail. intros db0. deal.
Qed.

(** C3: The server refines the mailbox. Whatever happens (a request of a client, the answer of a
    client, a resource that has arrived, a broken connection, a timer, a command, an exception
    in the middle of any of them), the stored requests change by puts and takes only, of
    documents the event may put and take. There are two kinds of puts: the request of a client
    that is logged in puts requests under its own account and the id it chose, of the type its
    request stores; and a resource that has arrived puts a dispatch notice with the id of its
    stream, addressed to the account id of its session, whether or not the session is logged
    in (nothing tests for it). There are two kinds of takes: an acknowledgement takes
    requests with the id that was acknowledged, addressed to the account of the session; and
    the answer to a contact request, the use of an add code and a dispatch request, of a
    client that is logged in, take those their deletion names. Every event that is none of these
    leaves the stored requests as they are. *)
Theorem server_refines_mailbox e w :
  mail (takes e w) (puts e w) (stored_requests w) (stored_requests (run e w).2).
Proof. apply run_deals. Qed.

(** ** What happens to a stored request *)

Lemma trace_kept w0 es w d :
  trace w0 es w -> d ∈ stored_requests w0 -> d ∈ stored_requests w \/
  exists es1 e es2 w1, es = es1 ++ e :: es2 /\ trace w0 es1 w1 /\ d ∈ stored_requests w1 /\ takes e w1 d.
Proof.
  intros Ht Hd. induction Ht as [|es w e w' Ht IH [_ Hrun]]; [by left|].
  destruct IH as [Hw|(es1 & e1 & es2 & w1 & -> & ?)].
  - destruct (run_deals e w) as [Hm _]. rewrite Hrun in Hm.
    destruct (mail_kept _ _ _ _ _ Hm Hw) as [|Htake]; [by left|]. right. by exists es, e, [], w.
  - right. exists es1, e1, (es2 ++ [e]), w1. by rewrite <- app_assoc.
Qed.

Lemma trace_new w0 es w d :
  trace w0 es w -> d ∈ stored_requests w -> d ∈ stored_requests w0 \/
  exists es1 e es2 w1, es = es1 ++ e :: es2 /\ trace w0 es1 w1 /\ puts e w1 d.
Proof.
  intros Ht Hd. induction Ht as [|es w e w' Ht IH [_ Hrun]]; [by left|].
  destruct (run_deals e w) as [Hm _]. rewrite Hrun in Hm.
  destruct (mail_new _ _ _ _ _ Hm Hd) as [Hw|Hput].
  - destruct (IH Hw) as [|(es1 & e1 & es2 & w1 & -> & ?)]; [by left|].
    right. exists es1, e1, (es2 ++ [e]), w1. by rewrite <- app_assoc.
  - right. by exists es, e, [], w.
Qed.


Lemma logged_in_status w p a : typed_world w -> logged_in_as w p a ->
  exists s, w_sessions w !! p = Some s /\ s_status s = STATUS_LOGGEDIN /\ s_accountId s = a.
Proof.
  intros Hty (s & Hs & Hl & Ha). exists s. split_and!; try done.
  pose proof (ty_status _ (ty_sessions _ Hty p s Hs)) as Hst. unfold STATUS_DISCONNECTED, STATUS_CONNECTED, STATUS_LOGGEDIN in *.
  rewrite !elem_of_cons, elem_of_nil in Hst. lia.
Qed.

Lemma boot_db m fs time g created w0 :
  boot m fs time g created = (Ret true, w0) -> db_mongo (w_db w0) = m /\ db_ready (w_db w0).
Proof.
  unfold boot, server_start. destruct (DB_startup true created 25) as [ok q] eqn:Hq.
  apply startup_connections in Hq as (_ & Hq & _). unfold bindM at 1, on_db, zoom, modify. cbn beta iota.
  destruct ok; [|done]. specialize (Hq eq_refl). subst q. intros Hb. cbn [negb] in Hb.
  unfold bindM, on_server, modify, accept, create_session in Hb. cbn in Hb. injection Hb as <-. by split.
Qed.

(** C5: Nobody can send in another's name. Every request that is stored in a reachable state,
    and was not in the database when the server was started, was stored by a request of a
    client, or is the notice that a resource has arrived, for the account of the session that
    uploaded it. In the first case the client was logged in; the stored sender is the account
    it was logged in to, which it had proved with the password of that account earlier on the
    same session; and the id is the one it chose. *)
Theorem stored_request_origin m fs time g created w0 es w d :
  boot m fs time g created = (Ret true, w0) -> trace w0 es w -> Forall typed_event es ->
  d ∈ stored_requests w ->
  d ∈ docs "zway.requests" m \/
  (exists es1 p head es2 w1 a, es = es1 ++ EvRequest p head :: es2 /\ trace w0 es1 w1 /\
     request_puts head a d /\
     exists es3 login es4 w3, es1 = es3 ++ EvRequest p login :: es4 /\ trace w0 es3 w3 /\ verified login a w3) \/
  (exists es1 p id b es2 w1 s, es = es1 ++ EvReceived p id b :: es2 /\ trace w0 es1 w1 /\
     w_sessions w1 !! p = Some s /\ stored_doc (dispatch_doc id (s_accountId s)) d).
Proof.
  intros Hb Ht Hty Hd. destruct (trace_new _ _ _ _ Ht Hd) as [H0'|(es1 & e & es2 & w1 & -> & Ht1 & Hput)].
  { left. unfold stored_requests in H0'. by rewrite (proj1 (boot_db _ _ _ _ _ _ Hb)) in H0'. }
  right. destruct e; cbn in Hput; try done.
  - left. destruct Hput as (a & Hl & Hput). apply Forall_app in Hty as [Hty1 _].
    destruct (logged_in_status w1 p a (typed_trace _ _ _ _ _ _ _ _ Hb Ht1 Hty1) Hl) as (s & Hs & Hst & <-).
    exists es1, p, request, es2, w1, (s_accountId s). split_and!; try done. by eapply login_evidence.
  - right. destruct Hput as (s & d0 & Hs & -> & Hd'). by exists es1, p, id, buffer, es2, w1, s.
Qed.

(** Whatever happens, the listed sessions exist and there are connections to the database. *)
Lemma reachable_serviceable m fs time g created w0 es w :
  boot m fs time g created = (Ret true, w0) -> trace w0 es w -> serviceable w.
Proof.
  intros Hb Ht. split; [by eapply inv_registry, trace_inv_kept|].
  induction Ht as [|es w e w' Ht IH [_ Hrun]]; [by eapply boot_db|].
  destruct (run_deals e w) as [_ Hp]. rewrite Hrun in Hp. intros E. apply IH, Permutation_nil_r.
  unfold pool_kept in Hp. cbn in Hp. by rewrite <- Hp, E.
Qed.
End refinement.
