(* ===== verification/Tasks.v ===== *)
(** * The posted tasks

    A handler that stores a request for an account posts [Server::processUserRequests] for it.
    What the tasks that wait in a reachable state come to when the workers have run them. *)

From S2P Require Import Prelude Values Platform Codec Pool Db Stdio StreamBuffer Streams World.
From S2P Require Import Registry Transport Session Contacts Requests Fcm Server Console Frames.
From S2P Require Import System Auth Delivery Pushes Operation Mailbox.

Local Open Scope zway_scope.
Local Open Scope Z_scope.

Section tasks.
Context `{PlatformLaws}.

Lemma trace_app w0 es1 w1 es2 w2 : trace w0 es1 w1 -> trace w1 es2 w2 -> trace w0 (es1 ++ es2) w2.
Proof.
  intros H1. induction 1 as [|es w e w' _ IH Hs]; [by rewrite app_nil_r|].
  rewrite app_assoc. by eapply trace_snoc.
Qed.

Lemma trace_cons w0 e w1 es w2 : step w0 e w1 -> trace w1 es w2 -> trace w0 (e :: es) w2.
Proof. intros Hs Ht. eapply (trace_app _ [e]); [|exact Ht]. eapply (trace_snoc _ []); [constructor|done]. Qed.

(** A session later on: it is there, and what was pending with its client still is. *)
Definition later (w w' : world) : Prop :=
  forall q s, w_sessions w !! q = Some s -> exists s', w_sessions w' !! q = Some s' /\
    forall t i, requestPending (s_engine s) t i = true -> requestPending (s_engine s') t i = true.

#[export] Instance later_preorder : PreOrder later.
Proof.
  split; [intros w q s Hs; eauto|]. intros w1 w2 w3 H12 H23 q s Hs.
  destruct (H12 q s Hs) as (s2 & Hs2 & Hp2). destruct (H23 q s2 Hs2) as (s3 & Hs3 & Hp3). eauto.
Qed.

(** Nobody who is on line with account [u] misses a stored request. *)
Definition up_to_date (m : mongo) (u : Z) (w : world) : Prop :=
  forall q, q ∈ listed (w_registry w) u -> exists s, w_sessions w !! q = Some s /\
    forall d, d ∈ stored_for u m -> doc_type d ∈ forwarded ->
      requestPending (s_engine s) (doc_type d) (doc_id d) = true.

Lemma up_to_date_later m u w w' :
  w_registry w' = w_registry w -> later w w' -> up_to_date m u w -> up_to_date m u w'.
Proof.
  intros Hr Hl Hu q. rewrite Hr. intros Hq. destruct (Hu q Hq) as (s & Hs & Hall).
  destruct (Hl q s Hs) as (s' & Hs' & Hp). exists s'. eauto.
Qed.

(** The notifications a user who is off line is due. *)
Definition notices_due (u : Z) (m : mongo) (token : string) : list (string * Z * Z) :=
  if decide (token = ""%string) then []
  else notice token 1000 (waiting u 3100 m) ++ notice token 2000 (waiting u 4100 m).

Definition token_of (u : Z) (m : mongo) (token : string) : Prop :=
  (getFcmToken u (DbState [0%nat] m)).1 = Ret token.

Lemma getFcmToken_returns u s :
  db_ready s -> exists token, (getFcmToken u s).1 = Ret token /\ token_of u (db_mongo s) token.
Proof.
  intros Hr. unfold token_of, getFcmToken. rewrite !with_lock_run by done. eexists. by split.
Qed.

Definition announced (m : mongo) (u : Z) (w : world) : Prop :=
  exists token l1 l2, token_of u m token /\ w_fcm w = l1 ++ notices_due u m token ++ l2.

Lemma frame_processUserRequests u : preserves background (processUserRequests u).
Proof.
  pose proof (frame_processRequests (H := _)). unfold processUserRequests, numContactRequests, numPushRequests.
  frame; try (apply preserves_on_db; apply with_lock_pool).
Qed.

Lemma served_later ds s s' t i :
  served ds s s' -> requestPending (s_engine s) t i = true -> requestPending (s_engine s') t i = true.
Proof. intros (rs & -> & _) Hp. by apply pending_kept_posts. Qed.

(** [processUserRequests], whether the user is on line or not. *)
Lemma processUserRequests_run u w :
  serviceable w -> exists w', processUserRequests u w = (Ret tt, w') /\
    w_registry w' = w_registry w /\ w_tasks w' = w_tasks w /\ db_mongo (w_db w') = db_mongo (w_db w) /\
    (exists l, w_fcm w' = w_fcm w ++ l) /\ later w w' /\ up_to_date (db_mongo (w_db w)) u w' /\
    (listed (w_registry w) u = [] -> announced (db_mongo (w_db w)) u w').
Proof.
  intros Hsv. destruct (decide (listed (w_registry w) u = [])) as [E|Hne].
  - destruct (getFcmToken_returns u (w_db w) (sv_db _ Hsv)) as (token & Htok & Hof).
    destruct (offline_run u w token (sv_db _ Hsv) E Htok) as (w' & Hrun & Hss & Hr & Ht & Hm & Hf).
    exists w'. split_and!; try done; [by eexists|intros q s; rewrite Hss; eauto|..].
    + intros q. rewrite Hr, E. by intros ?%elem_of_nil.
    + intros _. exists token, (w_fcm w), []. rewrite app_nil_r. by split.
  - destruct (processUserRequests_serves u w Hsv Hne) as (w' & Hrun & (Hm & Hr & Ht & Hf) & Hout & Hin).
    exists w'. split_and!; try done; [exists []; by rewrite app_nil_r| |].
    + intros q s Hs. destruct (decide (q ∈ listed (w_registry w) u)) as [Hq|Hq].
      * destruct (Hin q Hq) as (s0 & s' & Hs0 & Hs' & Hsvd). rewrite Hs in Hs0. injection Hs0 as <-.
        exists s'. split; [done|]. intros t i. by apply (served_later _ _ _ _ _ Hsvd).
      * exists s. by rewrite Hout.
    + intros q. rewrite Hr. intros Hq. destruct (Hin q Hq) as (s0 & s' & _ & Hs' & rs & _ & _ & _ & Hall).
      exists s'. by split.
Qed.

Lemma task_step u ts w :
  serviceable w -> w_tasks w = u :: ts ->
  exists w', step w EvTask w' /\ serviceable w' /\ w_tasks w' = ts /\ w_registry w' = w_registry w /\
    db_mongo (w_db w') = db_mongo (w_db w) /\ (exists l, w_fcm w' = w_fcm w ++ l) /\ later w w' /\
    up_to_date (db_mongo (w_db w)) u w' /\
    (listed (w_registry w) u = [] -> announced (db_mongo (w_db w)) u w').
Proof.
  intros Hsv Hts. assert (Hsv1 : serviceable (with_tasks ts w)) by (split; [split; apply Hsv|apply Hsv]).
  destruct (processUserRequests_run u _ Hsv1) as (w' & Hrun & Hr & Ht & Hrest).
  exists w'. split_and!; try (apply Hrest); try done.
  - split; [cbn; by rewrite Hts|]. cbn [run]. unfold bindM, gets, modify. by rewrite Hts.
  - pose proof (background_serviceable _ _ (frame_processUserRequests u) Hsv1) as Hsv'. by rewrite Hrun in Hsv'.
Qed.

Lemma announced_app m u w w' l : w_fcm w' = w_fcm w ++ l -> announced m u w -> announced m u w'.
Proof.
  intros E (token & l1 & l2 & Ht & Hl). exists token, l1, (l2 ++ l). split; [done|].
  by rewrite E, Hl, <- !app_assoc.
Qed.

Lemma tasks_run ts w :
  serviceable w -> w_tasks w = ts ->
  exists w', trace w (replicate (length ts) EvTask) w' /\ w_tasks w' = [] /\ w_registry w' = w_registry w /\
    db_mongo (w_db w') = db_mongo (w_db w) /\ (exists l, w_fcm w' = w_fcm w ++ l) /\ later w w' /\
    forall u, u ∈ ts -> up_to_date (db_mongo (w_db w)) u w' /\
      (listed (w_registry w) u = [] -> announced (db_mongo (w_db w)) u w').
Proof.
  revert w. induction ts as [|u ts IH]; intros w Hsv Hts.
  { exists w. split_and!; try done; [constructor|exists []; by rewrite app_nil_r|].
    by intros u ?%elem_of_nil. }
  destruct (task_step u ts w Hsv Hts) as (w1 & Hstep & Hsv1 & Ht1 & Hr1 & Hm1 & (l1 & Hf1) & Hl1 & Hu & Ha).
  destruct (IH w1 Hsv1 Ht1) as (w' & Htr & Ht & Hr & Hm & (l & Hf) & Hl & Hall).
  exists w'. split_and!; [by eapply trace_cons|done|congruence|congruence| |by etrans|].
  - exists (l1 ++ l). by rewrite Hf, Hf1, app_assoc.
  - rewrite Hr1, Hm1 in Hall. intros v [->|Hv]%elem_of_cons; [|by apply Hall].
    split; [by apply (up_to_date_later _ _ w1)|]. intros E. by eapply announced_app, Ha.
Qed.

(** C14: The posted tasks get done. In every state a started server can reach, when the workers
    run the tasks that are posted, each one comes to its end, none is left and the database is
    as it was; and then for each user they were posted for: every stored request of a type the
    client knows is pending with the client of every session of the user, or, when the user
    has no session and a token, the user has been notified of the number of contact requests
    and of messages that wait. *)
Theorem posted_tasks_served m fs time g created w0 es w :
  boot m fs time g created = (Ret true, w0) -> trace w0 es w ->
  exists w', trace w0 (es ++ replicate (length (w_tasks w)) EvTask) w' /\ w_tasks w' = [] /\
    w_registry w' = w_registry w /\ db_mongo (w_db w') = db_mongo (w_db w) /\
    forall u, u ∈ w_tasks w ->
      (forall q, q ∈ listed (w_registry w) u -> exists s, w_sessions w' !! q = Some s /\
         forall d, d ∈ stored_for u (db_mongo (w_db w)) -> doc_type d ∈ forwarded ->
           requestPending (s_engine s) (doc_type d) (doc_id d) = true) /\
      (listed (w_registry w) u = [] -> announced (db_mongo (w_db w)) u w').
Proof.
  intros Hb Ht. pose proof (reachable_serviceable _ _ _ _ _ _ _ _ Hb Ht) as Hsv.
  destruct (tasks_run _ w Hsv eq_refl) as (w' & Htr & Hts & Hr & Hm & _ & _ & Hall).
  exists w'. split_and!; try done; [by eapply trace_app|]. intros u Hu. destruct (Hall u Hu) as [Hup Ha].
  split; [|done]. intros q Hq. apply Hup. by rewrite Hr.
Qed.
End tasks.
