(* ===== verification/Faults.v ===== *)
(** * The faults of the handlers

    A fault of a handler ends the process. For each handler the faults it may raise, from the
    states in which a reachable server runs it: seven of the twelve requests raise none, nor do
    the completions of the transport and the commands of the console. *)

From S2P Require Import Prelude Values Platform Codec Pool Db Stdio StreamBuffer Streams World.
From S2P Require Import Registry Transport Session Contacts Requests Fcm Server Console Frames.
From S2P Require Import System Auth Presence Delivery Pushes Operation Mailbox Tasks.

Local Open Scope zway_scope.
Local Open Scope Z_scope.

Section faults.
Context `{PlatformLaws}.
Context (p : nat).

(** The state a request of session [p] finds. *)
Record ready (w : world) : Prop := {
  rd_inv : inv w;
  rd_db : db_ready (w_db w);
  rd_session : is_Some (w_sessions w !! p);
  rd_accepted : p ∉ sv_accepting (w_server w)
}.

Lemma quiet_ready w w' : quiet w w' -> ready w -> ready w'.
Proof.
  intros Hq [Hi Hdb [s Hs] Ha]. split.
  - eapply calm_inv; [by apply quiet_calm|done].
  - intros E. apply Hdb. destruct Hq as [_ _ _ Hp]. rewrite E in Hp. by apply Permutation_nil_r.
  - destruct (calm_session_fwd _ _ _ _ (quiet_calm _ _ Hq) Hs) as (s' & Hs' & _). eauto.
  - by rewrite (r_accepting _ _ _ Hq).
Qed.

Local Notation any := (fun _ => True).
Local Notation ends := (Prelude.ends ready).

(** A computation that leaves the registry alone and returns, returns in a ready state. *)
Lemma ends_quiet {A} F (V : A -> Prop) (m : M world A) :
  preserves quiet m -> (forall w, ready w -> exists a, (m w).1 = Ret a /\ V a) -> ends F V m.
Proof.
  intros Hq Hr w Hw. destruct (Hr w Hw) as (a & -> & Ha). split; [done|].
  eapply quiet_ready; [apply Hq|done].
Qed.

Lemma ends_session_at F : ends F any (session_at p).
Proof.
  apply ends_quiet; [apply preserves_session_at; apply _|]. intros w Hw. destruct (rd_session _ Hw) as [s Hs].
  exists s. by rewrite (run_session_at p s).
Qed.

Lemma ends_on_session {A} F (m : M session A) :
  preserves sess_quiet m -> (forall s, exists a, (m s).1 = Ret a) -> ends F any (on_session p m).
Proof.
  intros Hq Hm. apply ends_quiet; [apply preserves_on_session; [apply _|done]|]. intros w Hw.
  destruct (rd_session _ Hw) as [s Hs]. rewrite (run_on_session p s) by done.
  destruct (Hm s) as [a Ha]. by exists a.
Qed.

Lemma ends_update F f : (forall s, sess_quiet s (f s)) -> ends F any (update p f).
Proof. intros Hf. apply ends_on_session; [done|]. intros s. by eexists. Qed.

Lemma ends_engine_call F c : ends F any (on_session p (engine_call_ c)).
Proof. apply ends_on_session; [apply preserves_engine_call_quiet|]. intros s. by eexists. Qed.

Lemma ends_with_lock {A} F (body : mongo -> A * mongo) : ends F any (on_db (with_lock body)).
Proof.
  apply ends_quiet; [apply preserves_on_db; [apply _|apply with_lock_pool]|]. intros w Hw.
  rewrite run_lock by apply Hw. by eexists.
Qed.

Lemma ends_RAND F n : ends F any (RAND n).
Proof.
  apply ends_quiet; [apply preserves_RAND; apply _|]. intros w _. unfold RAND.
  destruct (RAND_pseudo_bytes n (w_rng w)). by eexists.
Qed.

Lemma ends_post F u : ends F any (post_processUserRequests u).
Proof. apply ends_quiet; [apply preserves_post; apply _|]. intros w _. by eexists. Qed.

Lemma ends_BSON (F : fault -> Prop) d : F UncaughtException -> ends F any (BSON d).
Proof. intros HF. unfold BSON. destruct (builder_accepts d); [by apply ends_ret|by apply ends_fail]. Qed.

Lemma ends_or_throw {A} (F : fault -> Prop) (o : option A) : F UncaughtException -> ends F any (or_throw o).
Proof. intros HF. destruct o; [by apply ends_ret|by apply ends_fail]. Qed.

Lemma ready_serviceable w : ready w -> serviceable w.
Proof. intros Hw. split; apply Hw. Qed.

(** The parts of the handlers that go through the sessions of others. *)
Lemma ends_getContactStatus F c : ends F any (getContactStatus c).
Proof.
  apply ends_quiet; [apply preserves_background_quiet, frame_getContactStatus; apply _|].
  intros w Hw. destruct (getContactStatus_run c w (inv_registry _ (rd_inv _ Hw))) as (n & Hn & _).
  exists n. by rewrite Hn.
Qed.

Lemma ends_broadcastStatus F st check : ends F any (broadcastStatus p st check).
Proof.
  apply ends_quiet; [apply preserves_background_quiet, frame_broadcastStatus|]. intros w Hw.
  destruct (rd_session _ Hw) as [s Hs]. exists tt. split; [|done].
  destruct (broadcast_run p s st w Hs (inv_registry _ (rd_inv _ Hw))) as (w' & Hrun & _).
  unfold broadcastStatus in Hrun |- *.
  rewrite (run_bind_Ret _ _ _ _ _ (run_session_at p s w Hs)) in Hrun.
  rewrite (run_bind_Ret _ _ _ _ _ (run_session_at p s w Hs)).
  destruct (check && _); [done|]. cbn [andb] in Hrun. by rewrite Hrun.
Qed.

Lemma ends_processRequests F : ends F any (processRequests p).
Proof.
  apply ends_quiet; [apply preserves_background_quiet, frame_processRequests|]. intros w Hw.
  exists true. split; [|done]. apply processRequests_returns; [by apply ready_serviceable|apply Hw].
Qed.

Lemma ends_the_status F : ends F any (the_status p).
Proof. unfold the_status. eapply ends_bind; [apply ends_session_at|]. intros s _. by apply ends_ret. Qed.
Lemma ends_the_accountId F : ends F any (the_accountId p).
Proof. unfold the_accountId. eapply ends_bind; [apply ends_session_at|]. intros s _. by apply ends_ret. Qed.
End faults.

Create HintDb zway_ends discriminated.
#[export] Hint Resolve ends_session_at ends_engine_call ends_RAND ends_post ends_getContactStatus
  ends_broadcastStatus ends_processRequests ends_the_status ends_the_accountId : zway_ends.
#[export] Hint Extern 1 (ends (ready _) _ _ (on_db _)) => apply ends_with_lock : zway_ends.

(** Walks through a handler up to the faults it may raise. *)
Ltac ending_step :=
  first
    [ solve [eauto 3 with zway_ends]
    | progress cbv zeta
    | apply ends_ret; exact I
    | apply (ends_bind _ _ (fun _ => True)); [|intros ? _]
    | apply ends_for_each; intros ? ?
    | apply ends_collect; intros ? ?
    | match goal with
      | |- ends _ _ _ (update _ _) => apply ends_update; intros ?; by split
      | |- ends _ _ _ (BSON _) => apply ends_BSON
      | |- ends _ _ _ (or_throw _) => apply ends_or_throw
      | |- ends _ _ _ (fail _) => apply ends_fail
      | |- ends _ _ _ (when _ _) => unfold when
      | |- ends _ _ _ (match ?x with _ => _ end) => destruct x eqn:?
      | |- ends _ _ _ (if ?x then _ else _) => destruct x eqn:?
      end ].
Ltac ending := repeat ending_step.

Section handlers.
Context `{PlatformLaws}.
Context (p : nat) (head : uobj).

Local Notation any := (fun _ => True).
Local Notation never := (fun _ : fault => False).
Local Notation uncaught := (fun f : fault => f = UncaughtException).

Lemma ends_success F i r : ends (ready p) F any (postRequestSuccess p i r).
Proof. apply ends_engine_call. Qed.
Lemma ends_failure F i c m : ends (ready p) F any (postRequestFailure p i c m).
Proof. apply ends_engine_call. Qed.
#[local] Hint Resolve ends_success ends_failure : zway_ends.

Lemma ends_contact_statuses F : ends (ready p) F any (contact_statuses p).
Proof. unfold contact_statuses. ending. Qed.
Lemma ends_setConfig F c : ends (ready p) F any (setConfig p c).
Proof. unfold setConfig, setFcmToken. ending. Qed.
Lemma ends_own_account F : ends (ready p) F any (own_account p).
Proof. unfold own_account, getAccount. ending. Qed.
Lemma ends_add_contact F c : ends (ready p) F any (add_contact p c).
Proof. unfold add_contact. ending. Qed.
#[local] Hint Resolve ends_contact_statuses ends_setConfig ends_own_account ends_add_contact : zway_ends.

(** Five of the twelve requests are always handled to the end. *)
Lemma ends_dispatch : ends (ready p) never any (processDispatchRequest p head).
Proof. unfold processDispatchRequest, deleteRequest. ending. Qed.
Lemma ends_logout : ends (ready p) never any (processLogout p head).
Proof.
  unfold processLogout, setFcmToken. ending. apply ends_on_session; [|intros s; by eexists].
  by apply quiet_setStatus.
Qed.
Lemma ends_config : ends (ready p) never any (processConfigRequest p head).
Proof. unfold processConfigRequest. ending. Qed.
Lemma ends_contactStatus : ends (ready p) never any (processContactStatusRequest p head).
Proof. unfold processContactStatusRequest. ending. Qed.
Lemma ends_rejectContact : ends (ready p) never any (processRejectContact p head).
Proof. unfold processRejectContact, reply_failure, getRequest, addRequest, deleteRequest. ending. Qed.

(** The others may meet a document that cannot be built or a stored one that cannot be read. *)
Lemma ends_findContact : ends (ready p) uncaught any (processFindContactRequest p head).
Proof. unfold processFindContactRequest, getContacts. ending; done. Qed.
Lemma ends_newAccountId (F : fault -> Prop) :
  F SignedOverflow -> ends (ready p) F any (on_db newAccountId).
Proof.
  intros HF w Hw. unfold on_db, zoom. rewrite newAccountId_eq by apply Hw.
  assert (Hw' : ready p (with_db (used (w_db w) (db_mongo (w_db w))) w)).
  { apply (quiet_ready p w); [|done]. pose proof (frame_newAccountId sess_quiet w) as Hq.
    unfold on_db, zoom in Hq. by rewrite newAccountId_eq in Hq by apply Hw. }
  destruct (newest_account _) as [[|d l] []]; try done. all: by destruct (int_add _ _).
Qed.
#[local] Hint Resolve ends_newAccountId : zway_ends.
Lemma ends_createAccount :
  ends (ready p) (fun f => f = UncaughtException \/ f = SignedOverflow) any (processCreateAccount p head).
Proof.
  unfold processCreateAccount, getAccount, insertAccount. ending; try (by left).
  exfalso. apply orb_false_iff in Heqb1 as [_ Hsize]. rewrite bufferSize_buffer, Heqo1 in Hsize. done.
Qed.

(** The sum overflows only when an account has the last id. *)
Definition last_id_taken (w : world) : Prop :=
  exists d, d ∈ docs "zway.accounts" (db_mongo (w_db w)) /\ ~ is_i32 (getIntField (bson_get d "id") + 1).

Lemma no_overflow {A} (m : M world A) w : ready p w -> ends (ready p) uncaught any m ->
  (m w).1 <> Fault SignedOverflow.
Proof. intros Hw Hm. specialize (Hm w Hw). destruct (m w) as [[a|f] w1]; cbn in *; congruence. Qed.

Lemma createAccount_overflow w : ready p w ->
  (processCreateAccount p head w).1 = Fault SignedOverflow -> last_id_taken w.
Proof.
  intros Hw. pose proof Hw as [_ Hdb [s Hs] _]. unfold processCreateAccount. cbv zeta.
  rewrite (run_bind_Ret _ _ _ _ _ (run_the_status p s w Hs)).
  repeat (case_match; [by intros E%no_overflow; [|done|ending]|]).
  unfold BSON. destruct (builder_accepts _); [|done]. unfold bindM at 1, ret at 1. unfold getAccount.
  rewrite (run_bind_Ret _ _ _ _ _ (run_lock _ w Hdb)). cbn [fst snd].
  assert (Hw1 : forall w, ready p w -> ready p (with_db (used (w_db w) (db_mongo (w_db w))) w)).
  { intros w0 Hw0. apply (quiet_ready p w0); [|done]. pose proof (frame_newAccountId sess_quiet w0) as Hq.
    unfold on_db, zoom in Hq. by rewrite newAccountId_eq in Hq by apply Hw0. }
  case_match; [by intros E%no_overflow; [|by apply Hw1|ending]|].
  set (w1 := with_db _ w). intros E. unfold bindM at 1 in E. unfold on_db at 1, zoom in E.
  pose proof (newAccountId_overflow (w_db w1)) as Hov.
  destruct (newAccountId (w_db w1)) as [[a|f] d1] eqn:En.
  2:{ cbn in E. injection E as ->. by apply Hov. }
  rewrite newAccountId_eq in En by (by apply used_ready). injection En as _ <-.
  exfalso. revert E. apply no_overflow; [apply (Hw1 w1), (Hw1 w), Hw|]. unfold insertAccount. ending; try done.
  match goal with Hn : _ || negb (_ =? 32) = false |- _ => apply orb_false_iff in Hn as [_ Hsize] end.
  rewrite bufferSize_buffer in Hsize. by case_match.
Qed.

Lemma ends_contact_query : ends (ready p) uncaught any (contact_query p head).
Proof. unfold contact_query, getRequest. ending; done. Qed.
#[local] Hint Resolve ends_contact_query : zway_ends.
Lemma ends_addContact : ends (ready p) uncaught any (processAddContactRequest p head).
Proof.
  unfold processAddContactRequest, request_contact, reply_failure, getAccount, db_requestPending,
    addRequest, deleteRequest. ending; done.
Qed.
Lemma ends_createAddCode : ends (ready p) uncaught any (processCreateAddCode p head).
Proof. unfold processCreateAddCode, reply_failure, addRequest. ending; done. Qed.
Lemma ends_acceptContact : ends (ready p) uncaught any (processAcceptContact p head).
Proof.
  unfold processAcceptContact, reply_failure, getRequest, addRequest, deleteRequest. ending; done.
Qed.
Lemma ends_forward_push i a keys fwd : ends (ready p) uncaught any (forward_push p i a keys fwd).
Proof.
  revert fwd. induction keys as [|it keys IH]; intros fwd; cbn [forward_push]; unfold addRequest; ending; done.
Qed.
#[local] Hint Resolve ends_forward_push : zway_ends.
Lemma ends_push : ends (ready p) uncaught any (processPushRequest p head).
Proof. unfold processPushRequest, reply_failure. ending. Qed.

(** *** The login *)

Lemma ends_record_login F a : ends (ready p) F any (record_login p a).
Proof.
  intros w [Hi Hdb [s Hs] Ha]. destruct (record_login_run p s a w Hs) as (reg & Hrun & _).
  rewrite Hrun. split; [done|]. destruct (record_login_inv p s a w _ Hi Hs Ha Hrun) as [Hi' _].
  split; [done|done| |done]. simpl. rewrite lookup_insert_eq. by eexists.
Qed.

Lemma ends_after_login F a : ends (ready p) F any (after_login p head a).
Proof. unfold after_login, getInbox. ending. Qed.

Definition login_fault (f : fault) : Prop :=
  f = UncaughtException \/ (f = NullDereference /\ ubj_buffer (ubj_get head "password") = None).

Lemma ends_verifyPassword acc : ends (ready p) login_fault any (verifyPassword acc (ubj_buffer (ubj_get head "password"))).
Proof. unfold verifyPassword. ending; [by left..|right; split; [done|congruence]]. Qed.
#[local] Hint Resolve ends_verifyPassword : zway_ends.

Lemma ends_login : ends (ready p) login_fault any (processLogin p head).
Proof.
  assert (Htail : forall a, ends (ready p) login_fault any
    (on_session p (setStatus STATUS_LOGGEDIN) ;; removeSession p ;; update p (with_accountId a) ;;
     appendSession p ;; after_login p head a)%zway).
  { intros a w Hw. rewrite login_tail. revert w Hw.
    eapply ends_bind; [apply ends_record_login|]. intros _ _. apply ends_after_login. }
  unfold processLogin, getAccount.
  repeat first [match goal with |- ends _ _ _ (bindM (on_session p (setStatus _)) _) => apply Htail end|ending_step].
Qed.

(** ** The faults of an incoming request *)

(** The types of the requests that build a document of the client's data, or read a stored one,
    outside any [try]. *)
Definition throwing_types : list Z :=
  [Req_CreateAccount; Req_Login; Req_AddContact; Req_CreateAddCode; Req_FindContact;
   Req_AcceptContact; Req_Push].

Definition request_fault (f : fault) : Prop :=
  let type := int_of head "requestType" in
  match f with
  | NullDereference => type = Req_Login /\ ubj_buffer (ubj_get head "password") = None
  | UncaughtException => type ∈ throwing_types
  | DoubleClose => False
  | SignedOverflow => type = Req_CreateAccount
  end.

Lemma ends_incoming : ends (ready p) request_fault any (processIncomingRequest p head).
Proof.
  assert (Hnever : forall A (m : M world A), ends (ready p) never any m -> ends (ready p) request_fault any m).
  { intros A m. by apply ends_weaken. }
  assert (Huncaught : forall A (m : M world A),
    int_of head "requestType" ∈ throwing_types -> ends (ready p) uncaught any m -> ends (ready p) request_fault any m).
  { intros A m Ht. apply ends_weaken; [|done]. by intros f ->. }
  unfold throwing_types in Huncaught.
  unfold processIncomingRequest. cbv zeta.
  destruct (decide (_ = Req_Dispatch)); [apply Hnever, ends_dispatch|].
  destruct (decide (_ = Req_CreateAccount)); [|].
  { eapply ends_weaken; [| |apply ends_createAccount]; [|done].
    intros f [->| ->]; cbn; [unfold throwing_types; set_solver|done]. }
  destruct (decide (_ = Req_Login)) as [E|].
  { eapply ends_weaken; [| |apply ends_login]; [|done]. intros f [->|[-> Hb]]; cbn; rewrite E; unfold throwing_types; [set_solver|done]. }
  destruct (decide (_ = Req_Logout)); [apply Hnever, ends_logout|].
  destruct (decide (_ = Req_Config)); [apply Hnever, ends_config|].
  destruct (decide (_ = Req_AddContact)); [apply Huncaught; [set_solver|apply ends_addContact]|].
  destruct (decide (_ = Req_CreateAddCode)); [apply Huncaught; [set_solver|apply ends_createAddCode]|].
  destruct (decide (_ = Req_FindContact)); [apply Huncaught; [set_solver|apply ends_findContact]|].
  destruct (decide (_ = Req_AcceptContact)); [apply Huncaught; [set_solver|apply ends_acceptContact]|].
  destruct (decide (_ = Req_RejectContact)); [apply Hnever, ends_rejectContact|].
  destruct (decide (_ = Req_ContactStatus)); [apply Hnever, ends_contactStatus|].
  destruct (decide (_ = Req_Push)); [apply Huncaught; [set_solver|apply ends_push]|].
  by apply ends_ret.
Qed.

Lemma incoming_overflow w : ready p w ->
  (processIncomingRequest p head w).1 = Fault SignedOverflow -> last_id_taken w.
Proof.
  intros Hw E. pose proof (ends_incoming w Hw) as Hf. rewrite E in Hf. cbn in Hf.
  apply (createAccount_overflow w Hw). revert E. unfold processIncomingRequest. cbv zeta.
  rewrite decide_False by (rewrite Hf; apply request_types_distinct2). by rewrite decide_True by done.
Qed.
End handlers.

(** ** The other events *)

Section alive.
Context `{PlatformLaws}.

Local Notation any := (fun _ => True).

(** On one session nothing can go wrong. *)
Local Notation in_session m := (forall F, ends (fun _ : session => True) F any m).

Definition alive (p : nat) (w : world) : Prop := is_Some (w_sessions w !! p).

Lemma alive_on_session {A} p F (m : M session A) :
  in_session m -> ends (alive p) F any (on_session p m).
Proof.
  intros Hm w [s Hs]. rewrite (run_on_session p s) by done. specialize (Hm F s I).
  destruct (m s) as [[a|f] s']; cbn in *; [|done]. split; [done|].
  unfold alive. cbn. rewrite lookup_insert_eq. by eexists.
Qed.

Lemma alive_update p F f : ends (alive p) F any (update p f).
Proof. apply alive_on_session. intros G. by apply ends_modify. Qed.

Lemma alive_session_at p F : ends (alive p) F any (session_at p).
Proof. intros w [s Hs]. rewrite (run_session_at p s) by done. split; [done|by eexists]. Qed.

Lemma alive_modify p F f : (forall w, w_sessions (f w) = w_sessions w) -> ends (alive p) F any (modify f).
Proof. intros Hf. apply ends_modify. intros w. unfold alive. by rewrite Hf. Qed.

Lemma alive_on_server p F f : ends (alive p) F any (on_server f).
Proof. by apply alive_modify. Qed.

Lemma alive_RAND p F n : ends (alive p) F any (RAND n).
Proof. intros w Hw. unfold RAND. by destruct (RAND_pseudo_bytes n (w_rng w)). Qed.

Lemma alive_accept p F : ends (alive p) F any accept.
Proof.
  unfold accept. apply (ends_bind _ _ any); [|intros q _; apply alive_on_server].
  intros w [s Hs]. split; [done|]. unfold alive. cbn. apply lookup_insert_is_Some'. right. by eexists.
Qed.

Lemma session_engine_call c : in_session (engine_call_ c).
Proof. intros F. by apply ends_modify. Qed.
Lemma session_sendPacket : in_session sendPacket.
Proof.
  intros F. unfold sendPacket, start_op, engine_call_.
  repeat first [by apply ends_modify|by apply ends_gets|by apply ends_ret
    |apply (ends_bind _ _ any); [|intros ? _]
    |match goal with |- Prelude.ends _ _ _ (match ?x with _ => _ end) => destruct x end].
Qed.
End alive.

#[export] Hint Resolve alive_update alive_session_at alive_on_server alive_RAND alive_accept
  session_engine_call session_sendPacket : zway_ends.
#[export] Hint Extern 1 (ends (fun _ => True) _ _ (modify _)) => by apply ends_modify : zway_ends.
#[export] Hint Extern 1 (ends _ _ _ (gets _)) => by apply ends_gets : zway_ends.

Ltac surviving :=
  repeat first
    [ ending_step
    | match goal with
      | |- ends (alive _) _ _ (on_session _ _) => apply alive_on_session; intros ?
      | |- ends (alive _) _ _ (modify _) => by apply alive_modify
      end ].

Section transport_ends.
Context `{PlatformLaws}.
Context (p : nat) (F : fault -> Prop).

Local Notation any := (fun _ => True).

Lemma alive_removeSession : ends (alive p) F any (removeSession p).
Proof. unfold removeSession. surviving. Qed.
Lemma alive_appendSession : ends (alive p) F any (appendSession p).
Proof. unfold appendSession. surviving. Qed.
#[local] Hint Resolve alive_removeSession alive_appendSession : zway_ends.
Lemma alive_close sh rm : ends (alive p) F any (close p sh rm).
Proof. unfold close, socket_do, setStatus. surviving. Qed.
#[local] Hint Resolve alive_close : zway_ends.
Lemma alive_start : ends (alive p) F any (Requests.start p).
Proof. unfold Requests.start, start_op. surviving. Qed.
#[local] Hint Resolve alive_start : zway_ends.
Lemma alive_handleSession e : ends (alive p) F any (handleSession e p).
Proof. unfold handleSession. surviving. Qed.
Lemma alive_handleHandshake e h :
  (e = no_error -> is_Some h) -> ends (alive p) F any (handleHandshake p e h).
Proof.
  intros Hh. unfold handleHandshake. case_decide as E; [|surviving]. destruct (Hh E) as [host ->].
  unfold setStatus, resetTimer, recvPacket, start_op. surviving.
Qed.

(** Whose peer is gone has no address to read. *)
Lemma handshake_throws s w : w_sessions w !! p = Some s ->
  (handleHandshake p no_error None w).1 = Fault UncaughtException.
Proof.
  intros Hs. unfold handleHandshake. rewrite decide_True by done. unfold bindM at 1.
  by rewrite (run_on_session p s).
Qed.
Lemma alive_onPacketRecv pkt : ends (alive p) F any (onPacketRecv log_packet p pkt).
Proof. unfold onPacketRecv, log_packet, recvPacket, start_op. surviving. Qed.
#[local] Hint Resolve alive_onPacketRecv : zway_ends.
Lemma alive_head e n pkt : ends (alive p) F any (onPacketHeadRecv log_packet p e n pkt).
Proof. unfold onPacketHeadRecv, resetTimer, recvPacketBody, recvPacket, start_op. surviving. Qed.
Lemma alive_body e n off pkt : ends (alive p) F any (onPacketBodyRecv log_packet p e n off pkt).
Proof. unfold onPacketBodyRecv, resetTimer, start_op. surviving. Qed.
Lemma alive_sent e : ends (alive p) F any (on_session p (onPacketSent e)).
Proof. unfold onPacketSent, resetTimer. surviving. Qed.
Lemma alive_post pkt : ends (alive p) F any (on_session p (postPacket pkt)).
Proof. unfold postPacket. surviving. Qed.
Lemma alive_sender id : ends (alive p) F any (on_session p (addStreamSender id)).
Proof. unfold addStreamSender. surviving. Qed.
End transport_ends.

#[export] Hint Resolve alive_handleSession alive_head alive_body alive_sent
  alive_post alive_sender : zway_ends.

(** *** The console *)

Section commands.
Context `{PlatformLaws}.
Context (R : gmap Z (list nat)).

Local Notation any := (fun _ => True).

(** The session map is [R], what it lists exists, and there is a connection. *)
Record mapped (w : world) : Prop := {
  mp_registry : w_registry w = R;
  mp_listed : forall a q, q ∈ listed R a -> is_Some (w_sessions w !! q);
  mp_db : db_ready (w_db w)
}.

Lemma mapped_on_server F f : ends mapped F any (on_server f).
Proof. apply ends_modify. by intros w []. Qed.

Lemma mapped_accept F : ends mapped F any accept.
Proof.
  unfold accept. apply (ends_bind _ _ any); [|intros q _; apply mapped_on_server].
  intros w [E Hl Hdb]. split; [done|]. split; [done| |done]. intros a q Hq. cbn.
  apply lookup_insert_is_Some'. right. by eapply Hl.
Qed.

Lemma mapped_pair a l : (a, l) ∈ in_key_order R -> listed R a = l.
Proof.
  rewrite elem_of_in_key_order. unfold listed. by intros ->.
Qed.

Lemma mapped_session_line F a q : q ∈ listed R a -> ends mapped F any (session_line q).
Proof.
  intros Hq. unfold session_line. apply (ends_bind _ _ any).
  { intros w Hw. destruct (mp_listed _ Hw a q Hq) as [s Hs]. by rewrite (run_session_at q s). }
  intros s _. apply (ends_bind _ _ any); [|intros ac _; by apply ends_ret].
  intros w [E Hl Hdb]. unfold getAccount. rewrite run_lock by done. split; [done|].
  split; [done|done|]. by apply used_ready.
Qed.

Lemma mapped_info F : ends mapped F any info.
Proof.
  unfold info. apply (ends_bind _ _ (fun m => m = R)); [by intros w []|]. intros m ->.
  apply (ends_bind _ _ any); [|intros lines _].
  - apply ends_collect. intros q Hq. apply list_elem_of_In, in_concat in Hq as (l & Hl & Hq).
    apply list_elem_of_In, list_elem_of_fmap in Hl as ([a l'] & -> & Hl). apply mapped_pair in Hl.
    apply list_elem_of_In in Hq. apply (mapped_session_line F a). by rewrite Hl.
  - apply (ends_bind _ _ any); [|intros n _; by apply ends_ret]. intros w []. by split.
Qed.

Lemma mapped_close F a q : q ∈ listed R a -> ends mapped F any (close q false false).
Proof.
  intros Hq w Hw. destruct (mp_listed _ Hw a q Hq) as [s Hs].
  assert (Hrun : exists s', close q false false w = (Ret tt, with_sessions (<[q := s']> (w_sessions w)) w)).
  { eexists. unfold close. unfold bindM at 1. rewrite (run_on_session q s) by done. done. }
  destruct Hrun as [s' Hrun]. rewrite Hrun. destruct Hw as [E Hl Hdb]. split; [done|]. split; [done| |done].
  intros b q' Hq'. cbn. apply lookup_insert_is_Some'. right. by eapply Hl.
Qed.

Lemma mapped_removeSessions w : mapped w -> (removeSessions w).1 = Ret tt.
Proof.
  intros Hw. unfold removeSessions, bindM at 1, gets. rewrite (mp_registry _ Hw). unfold when. case_bool_decide; [|done].
  assert (Hloop : forall F, ends mapped F any (for_each (in_key_order R) (fun it =>
    for_each it.2 (fun s => close s false false)))).
  { intros F. apply ends_for_each. intros [a l] Hl%mapped_pair. apply ends_for_each. intros q Hq.
    apply (mapped_close F a). by rewrite Hl. }
  specialize (Hloop (fun _ => False) w Hw). unfold bindM. by destruct (for_each _ _ w) as [[[]|] w1].
Qed.
End commands.

Lemma command_returns `{PlatformLaws} calls c w :
  registry_wf w -> db_ready (w_db w) -> exists b, (command calls c w).1 = Ret b.
Proof.
  intros Hwf Hdb. assert (Hw : mapped (w_registry w) w).
  { split; [done| |done]. intros a q Hq. destruct (reg_account _ Hwf a q Hq) as (s & Hs & _). eauto. }
  assert (Hends : forall A (m : M world A), ends (mapped (w_registry w)) (fun _ => False) (fun _ => True) m ->
    exists a, (m w).1 = Ret a).
  { intros A m Hm. specialize (Hm w Hw). destruct (m w) as [[a|f] w1]; [by exists a|done]. }
  unfold command. destruct (c =? 101); [by eexists|].
  destruct (c =? 105); [|destruct (c =? 114); [|destruct (c =? 112); [|by eexists]]].
  - apply Hends. apply (ends_bind _ _ (fun _ => True)); [apply mapped_info|]. intros i _. by apply ends_ret.
  - unfold bindM. pose proof (mapped_removeSessions _ w Hw) as Hr.
    destruct (removeSessions w) as [[u|f] w1]; cbn in Hr; [by eexists|done].
  - apply Hends. unfold pause, resume. pose proof mapped_on_server. pose proof mapped_accept.
    repeat first [by apply ends_ret|by apply ends_gets|apply mapped_on_server|apply mapped_accept
      |apply (ends_bind _ _ (fun _ => True)); [|intros ? _]
      |match goal with |- Prelude.ends _ _ _ (if ?x then _ else _) => destruct x end].
Qed.
