(* ===== verification/Objects.v ===== *)
(** * The objects of the streams

    Buffers and senders are shared objects, found through the maps of the server and through
    each other. In every reachable state ([linked]) the map leads to buffers of the right stream,
    the list of senders to senders, and every sender to a session, so that no handler follows a
    pointer to an object that was never made. Objects are not freed in the model: this says
    nothing of their lifetimes. *)

From S2P Require Import Prelude Values Platform Codec Pool Db Stdio StreamBuffer Streams World.
From S2P Require Import Registry Transport Session Contacts Requests Fcm Server Console Frames.
From S2P Require Import System Auth Presence Delivery Pushes Operation Mailbox Tasks Faults.

Local Open Scope zway_scope.
Local Open Scope Z_scope.

(** ** The streams *)

Section linked.
Context `{PlatformLaws}.
Context (D : nat -> Prop).   (** the sessions there are *)

Record linked_streams (st : streams) : Prop := {
  ls_wf : streams_wf st;
  ls_senders : forall p, p ∈ st_senders st -> is_Some (st_sndheap st !! p);
  ls_session : forall p snd, st_sndheap st !! p = Some snd -> D (snd_session snd);
  ls_buffer : forall p snd b, st_sndheap st !! p = Some snd -> snd_buffer snd = Some b ->
    is_Some (st_heap st !! b)
}.

(** What a call that has to do with buffers only does. *)
Record buffers_only (st st' : streams) : Prop := {
  bo_heap : forall p, is_Some (st_heap st !! p) -> is_Some (st_heap st' !! p);
  bo_sndheap : st_sndheap st' = st_sndheap st;
  bo_senders : st_senders st' = st_senders st
}.

Lemma linked_buffers_only st st' :
  linked_streams st -> streams_wf st' -> buffers_only st st' -> linked_streams st'.
Proof.
  intros [_ Hs Hd Hb] Hwf [Hh Es El]. split; [done|..]; rewrite Es, ?El; [done|done|].
  intros p snd b Hp Hbuf. eapply Hh, Hb; done.
Qed.

Lemma getStreamBuffer_only id st o st' : getStreamBuffer id st = (Ret o, st') -> buffers_only st st'.
Proof.
  unfold getStreamBuffer, bindM at 1, gets. destruct (st_buffers st !! id); [by intros [= <- <-]|].
  unfold bindM at 1, on_fs, zoom.
  destruct (StreamBuffer_open_fs (stream_path id) id (st_fs st)) as (sb & -> & _).
  destruct sb as [sb|]; intros [= <- <-]; [|by split]. split; [|done|done].
  intros p Hp. cbn. apply lookup_insert_is_Some'. by right.
Qed.

Lemma linked_alloc_buffer sb st : linked_streams st -> linked_streams (alloc_buffer sb st).2.
Proof.
  intros Hst. destruct (wf_alloc_buffer sb st _ _ (ls_wf _ Hst) eq_refl) as (Hwf & _).
  eapply linked_buffers_only; [done|done|]. split; [|done|done].
  intros p Hp. cbn. apply lookup_insert_is_Some'. by right.
Qed.

Lemma linked_buffers b st :
  linked_streams st -> streams_wf (with_buffers b st) -> linked_streams (with_buffers b st).
Proof. intros Hst Hwf. by eapply linked_buffers_only. Qed.

Lemma linked_fs fs st : linked_streams st -> linked_streams (with_fs fs st).
Proof. intros Hst. eapply linked_buffers_only; [done|apply wf_with_fs, Hst|by split]. Qed.

(** ** Senders *)

Lemma linked_new_sender snd st :
  linked_streams st -> D (snd_session snd) -> snd_buffer snd = None ->
  linked_streams (alloc_sender snd st).2.
Proof.
  intros [[W1 W2 W3] Hs Hd Hb] Hsnd Hnone. split; [split|..]; cbn.
  - done.
  - intros p sb Hp%W2. lia.
  - intros p s. rewrite lookup_insert. case_decide; [lia|]. intros Hp%W3. lia.
  - intros p Hp. apply lookup_insert_is_Some'. right. by apply Hs.
  - intros p s. rewrite lookup_insert. case_decide; [by intros [= <-]|]. by apply Hd.
  - intros p s b. rewrite lookup_insert. case_decide; [intros [= <-]; congruence|]. by apply Hb.
Qed.

(** A sender that has found its buffer. *)
Lemma linked_found p snd st b t n k :
  linked_streams st -> st_sndheap st !! p = Some snd -> is_Some (st_heap st !! b) ->
  linked_streams (with_sndheap (<[p := Sender (snd_id snd) (snd_session snd) (Some b) t n k]> (st_sndheap st)) st).
Proof.
  intros [[W1 W2 W3] Hs Hd Hb] Hp Hbuf. split; [split|..]; cbn; [done|done|..].
  - intros q s. rewrite lookup_insert. case_decide; [subst; intros _; exact (W3 _ _ Hp)|apply W3].
  - intros q Hq. apply lookup_insert_is_Some'. right. by apply Hs.
  - intros q s. rewrite lookup_insert. case_decide; [intros [= <-]; exact (Hd _ _ Hp)|apply Hd].
  - intros q s b'. rewrite lookup_insert. case_decide; [by intros [= <-] [= <-]|apply Hb].
Qed.

Lemma getBuffer_run p st :
  linked_streams st -> is_Some (st_sndheap st !! p) ->
  exists st', getBuffer p st = (Ret tt, st') /\ linked_streams st' /\ st_senders st' = st_senders st /\
    forall q, is_Some (st_sndheap st !! q) -> is_Some (st_sndheap st' !! q).
Proof.
  intros Hst [snd Hp]. unfold getBuffer, bindM at 1, deref_sender. rewrite Hp.
  destruct (snd_buffer snd); [by exists st|].
  destruct (getStreamBuffer_spec (snd_id snd) st (ls_wf _ Hst)) as (o & st1 & Hrun & Hwf1 & _ & Hsome & _).
  rewrite (run_bind_Ret _ _ _ _ _ Hrun). pose proof (getStreamBuffer_only _ _ _ _ Hrun) as Hbo.
  pose proof (linked_buffers_only _ _ Hst Hwf1 Hbo) as Hst1. destruct Hbo as [_ Esnd Esl].
  destruct o as [b|]; [|exists st1; by rewrite Esnd].
  destruct (Hsome b eq_refl) as (_ & (sb & Hb & _) & _).
  unfold bindM, deref_buffer. rewrite Hb. eexists. split; [done|]. split; [|split; [done|]].
  - apply linked_found; [done|by rewrite Esnd|by eexists].
  - intros q Hq. cbn. apply lookup_insert_is_Some'. right. by rewrite Esnd.
Qed.

Lemma StreamBufferSender_create_run self id st :
  linked_streams st -> D self ->
  exists o st', StreamBufferSender_create self id st = (Ret o, st') /\ linked_streams st' /\
    forall p, o = Some p -> is_Some (st_sndheap st' !! p).
Proof.
  intros Hst Hself. unfold StreamBufferSender_create, bindM at 1.
  set (snd := Sender id self None Stream_Undefined 0 0).
  pose proof (linked_new_sender snd st Hst Hself eq_refl) as Hst1. cbn in Hst1 |- *.
  set (st1 := Streams _ _ _ _ _ _ _) in *.
  destruct (streamSender_init id); [|by exists None, st1].
  assert (Hnew : is_Some (st_sndheap st1 !! st_next st)) by (cbn; rewrite lookup_insert_eq; by eexists).
  destruct (getBuffer_run _ st1 Hst1 Hnew) as (st2 & Hrun & Hst2 & _ & Hkept).
  rewrite (run_bind_Ret _ _ _ _ _ Hrun). exists (Some (st_next st)), st2. split_and!; [done|done|].
  intros p [= <-]. by apply Hkept.
Qed.

Lemma linked_senders f st :
  linked_streams st -> (forall p, p ∈ f (st_senders st) -> is_Some (st_sndheap st !! p)) ->
  linked_streams (with_senders (f (st_senders st)) st).
Proof. intros [[] Hs Hd Hb] Hf. by split. Qed.

Lemma linked_evict st :
  linked_streams st -> exists st', evictStreamBuffers st = (Ret tt, st') /\ linked_streams st'.
Proof.
  intros Hst. rewrite (evictStreamBuffers_run _ (ls_wf _ Hst)). eexists. split; [done|].
  apply linked_buffers; [done|]. destruct (ls_wf _ Hst) as [W1 W2 W3]. split; cbn; [|done|done].
  intros k p [Hk _]%map_lookup_filter_Some. by apply W1.
Qed.

(** ** Receivers *)

(** The buffer of a resource is made unless its file is there: then the file is closed
    twice. *)
Lemma StreamBuffer_create_faults path pkt fs :
  match StreamBuffer_create path pkt fs with
  | (Ret _, _) => True
  | (Fault f, _) => f = DoubleClose /\ is_Some (fs_files fs !! path)
  end.
Proof.
  unfold StreamBuffer_create, StreamBuffer_init. destruct path as [|a path]; [done|].
  unfold bindM, FileBuffer_create, FileBuffer_init, fopen_rb, fopen_ab.
  destruct (fs_files fs !! String a path) eqn:E; [by cbn|]. by destruct (fs_creatable fs (String a path)).
Qed.

Lemma linked_addStreamBuffer p sb st :
  linked_streams st -> st_heap st !! p = Some sb ->
  exists b st', addStreamBuffer p st = (Ret b, st') /\ linked_streams st'.
Proof.
  intros Hst Hp. unfold addStreamBuffer, bindM, deref_buffer. rewrite Hp. cbn.
  destruct (st_buffers st !! sb_streamId sb); [by exists false, st|]. exists true.
  eexists. split; [done|]. apply linked_buffers; [done|]. by eapply wf_insert_buffer; [apply Hst| |].
Qed.

(** The end of an upload. *)
Lemma linked_flush b sb st :
  linked_streams st -> st_heap st !! b = Some sb ->
  exists sb' fs', StreamBuffer_flush (sb, st_fs st) = (Ret tt, (sb', fs')) /\
    linked_streams (Streams fs' (<[b := sb']> (st_heap st)) (st_buffers st) (st_sndheap st)
      (st_senders st) (st_next st) (st_time st)).
Proof.
  intros Hst Hb. assert (Hflush : exists sb', StreamBuffer_flush (sb, st_fs st) = (Ret tt, (sb', st_fs st)) /\
    sb_streamId sb' = sb_streamId sb).
  { unfold StreamBuffer_flush. cbn. destruct (sb_buffer sb); by eexists. }
  destruct Hflush as (sb' & Hrun & Hid). exists sb', (st_fs st). split; [done|].
  destruct (ls_wf _ Hst) as [W1 W2 W3]. eapply linked_buffers_only; [exact Hst| |]; split; cbn; [| |done| |done..].
  - intros k p Hk. destruct (W1 k p Hk) as (sb1 & Hp & E). rewrite lookup_insert. case_decide; [|eauto].
    subst. exists sb'. simplify_eq. split; [done|]. congruence.
  - intros p s. rewrite lookup_insert. case_decide; [subst; intros _; exact (W2 _ _ Hb)|apply W2].
  - intros p Hp. apply lookup_insert_is_Some'. by right.
Qed.
End linked.

(** ** The world *)

Section objects.
Context `{PlatformLaws}.

Definition there (w : world) (p : nat) : Prop := alive p w.

Definition linked (w : world) : Prop := linked_streams (there w) (w_streams w).

(** The streams are as they were and no session is gone. *)
Record streams_same (w w' : world) : Prop := {
  ss_streams : w_streams w' = w_streams w;
  ss_sessions : forall p, there w p -> there w' p
}.

#[export] Instance streams_same_preorder : PreOrder streams_same.
Proof.
  split; [by split|]. intros w1 w2 w3 [A1 A2] [B1 B2]. split; [congruence|auto].
Qed.

Lemma linked_mono D D' st : (forall p, D p -> D' p) -> linked_streams D st -> linked_streams D' st.
Proof. intros HD []. split; auto. intros p snd Hp. eauto. Qed.

Lemma linked_same w w' : streams_same w w' -> linked w -> linked w'.
Proof. intros [E Hs] Hw. unfold linked. rewrite E. by eapply linked_mono. Qed.

Lemma there_insert p s w q : there w q -> is_Some (<[p := s]> (w_sessions w) !! q).
Proof. intros Hq. apply lookup_insert_is_Some'. by right. Qed.

Lemma same_session_at p : preserves streams_same (session_at p).
Proof. intros w. unfold session_at. by destruct (w_sessions w !! p). Qed.

Lemma same_on_session {A} p (m : M session A) : preserves streams_same (on_session p m).
Proof.
  intros w. unfold on_session. destruct (w_sessions w !! p) as [s|]; [|done].
  destruct (m s). split; [done|]. apply there_insert.
Qed.

Lemma same_update p f : preserves streams_same (update p f).
Proof. apply same_on_session. Qed.

Lemma same_on_db {A} (m : M db_state A) : preserves streams_same (on_db m).
Proof. intros w. unfold on_db, zoom. destruct (m (w_db w)). by split. Qed.

Lemma same_modify (f : world -> world) :
  (forall w, w_streams (f w) = w_streams w) -> (forall w, w_sessions (f w) = w_sessions w) ->
  preserves streams_same (modify f).
Proof. intros H1 H2 w. split; [apply H1|]. unfold there, alive. intros p. cbn. by rewrite H2. Qed.

Lemma same_on_server f : preserves streams_same (on_server f).
Proof. by apply same_modify. Qed.

Lemma same_RAND n : preserves streams_same (RAND n).
Proof. intros w. unfold RAND. by destruct (RAND_pseudo_bytes n (w_rng w)). Qed.

Lemma same_post u : preserves streams_same (post_processUserRequests u).
Proof. by apply same_modify. Qed.

Lemma same_sendMessage t k n : preserves streams_same (sendMessage t k n).
Proof. by apply same_modify. Qed.

Lemma same_BSON d : preserves streams_same (BSON d).
Proof. unfold BSON. by destruct (builder_accepts d). Qed.

Lemma same_or_throw {A} (o : option A) : preserves streams_same (or_throw o).
Proof. by destruct o. Qed.

Lemma same_create_session : preserves streams_same create_session.
Proof. intros w. split; [done|]. intros p. apply there_insert. Qed.
End objects.

#[export] Hint Resolve same_session_at same_on_session same_update same_on_db same_on_server
  same_RAND same_post same_sendMessage same_BSON same_or_throw same_create_session : zway_frame.
#[export] Hint Extern 1 (preserves streams_same (modify _)) => by apply same_modify : zway_frame.

Section same_handlers.
Context `{PlatformLaws}.

Lemma same_any_notifies l : preserves streams_same (any_notifies l).
Proof. induction l; simpl; frame. Qed.
#[local] Hint Resolve same_any_notifies : zway_frame.
Lemma same_getContactStatus c : preserves streams_same (getContactStatus c).
Proof. unfold getContactStatus, getSessions. frame. Qed.
#[local] Hint Resolve same_getContactStatus : zway_frame.
Lemma same_setConfig p c : preserves streams_same (setConfig p c).
Proof. unfold setConfig, broadcastStatus. frame. Qed.
Lemma same_processRequests p : preserves streams_same (processRequests p).
Proof. unfold processRequests, deliver_request, the_accountId. frame. Qed.
Lemma same_removeSession p : preserves streams_same (removeSession p).
Proof. unfold removeSession. frame. Qed.
Lemma same_appendSession p : preserves streams_same (appendSession p).
Proof. unfold appendSession. frame. Qed.
Lemma same_forward_push p i a keys f : preserves streams_same (forward_push p i a keys f).
Proof. revert f. induction keys; intros f; cbn [forward_push]; frame. Qed.
#[local] Hint Resolve same_setConfig same_processRequests same_removeSession same_appendSession
  same_forward_push : zway_frame.
Lemma same_close p sh rm : preserves streams_same (close p sh rm).
Proof. unfold close. frame. Qed.
#[local] Hint Resolve same_close : zway_frame.
Lemma same_removeSessions : preserves streams_same removeSessions.
Proof. unfold removeSessions. frame. Qed.
Lemma same_accept : preserves streams_same accept.
Proof. unfold accept. frame. Qed.
#[local] Hint Resolve same_removeSessions same_accept : zway_frame.

Lemma same_incoming p h : preserves streams_same (processIncomingRequest p h).
Proof.
  unfold processIncomingRequest, processDispatchRequest, processCreateAccount, processLogin,
    processLogout, processConfigRequest, processAddContactRequest, request_contact, own_account,
    contact_query, add_contact, contact_statuses, verifyPassword,
    processCreateAddCode, processFindContactRequest, processAcceptContact, processRejectContact,
    processContactStatusRequest, processPushRequest, reply_failure, the_status, the_accountId,
    broadcastStatus, postRequestSuccess, postRequestFailure. frame.
Qed.
End same_handlers.

(** ** The events that change the streams *)

Section stream_events.
Context `{PlatformLaws}.

Local Notation any := (fun _ => True).

(** What a handler of session [p] that has to do with streams finds. *)
Record sound (p : nat) (w : world) : Prop := {
  so_serviceable : serviceable w;
  so_there : there w p;
  so_linked : linked w
}.

Lemma sound_kept {A} p F (V : A -> Prop) (m : M world A) :
  preserves quiet m -> preserves streams_same m ->
  (forall w, sound p w -> exists a, (m w).1 = Ret a /\ V a) -> ends (sound p) F V m.
Proof.
  intros Hq Hs Hr w Hw. destruct (Hr w Hw) as (a & -> & Ha). split; [done|]. split.
  - eapply quiet_serviceable; [apply Hq|apply Hw].
  - apply Hs, Hw.
  - eapply linked_same; [apply Hs|apply Hw].
Qed.

Lemma sound_on_streams {A} p F (V : A -> Prop) (m : M streams A) :
  (forall D st, linked_streams D st -> exists a st', m st = (Ret a, st') /\ linked_streams D st' /\ V a) ->
  ends (sound p) F V (on_streams m).
Proof.
  intros Hm w [Hsv Hp Hl]. unfold on_streams, zoom. destruct (Hm _ _ Hl) as (a & st' & -> & Hl' & Ha).
  split; [done|]. split; [|done|done]. destruct Hsv as [[] ?]. by split.
Qed.

Lemma sound_on_session {A} p F (m : M session A) :
  preserves sess_quiet m -> ends (fun _ => True) (fun _ => False) any m -> ends (sound p) F any (on_session p m).
Proof.
  intros Hq Hm. apply sound_kept; [apply preserves_on_session; [apply _|done]|apply same_on_session|].
  intros w [_ [s Hs] _]. rewrite (run_on_session p s) by done. specialize (Hm s I).
  destruct (m s) as [[a|f] s']; [by exists a|done].
Qed.

Lemma sound_with_lock {A} p F (body : mongo -> A * mongo) : ends (sound p) F any (on_db (with_lock body)).
Proof.
  apply sound_kept; [apply preserves_on_db; [apply _|apply with_lock_pool]|apply same_on_db|].
  intros w Hw. rewrite run_lock by apply Hw. by eexists.
Qed.

Lemma sound_the_accountId p F : ends (sound p) F any (the_accountId p).
Proof.
  apply sound_kept; [apply frame_the_accountId; apply _|unfold the_accountId; frame|].
  intros w Hw. destruct (so_there _ _ Hw) as [s Hs]. rewrite (run_the_accountId p s) by done. by eexists.
Qed.

Lemma sound_processRequests p F : ends (sound p) F any (processRequests p).
Proof.
  apply sound_kept; [apply preserves_background_quiet, frame_processRequests|apply same_processRequests|].
  intros w Hw. exists true. split; [|done]. by apply processRequests_returns; apply Hw.
Qed.

Lemma sound_addStreamSender p F id : ends (sound p) F any (on_session p (addStreamSender id)).
Proof.
  apply sound_on_session; [|unfold addStreamSender; ending].
  intros s. apply sess_bg_quiet, frame_addStreamSender.
Qed.

(** Between the making of a sender and its registration the session is asked. *)
Lemma sound_send_resource p F it : ends (sound p) F any (send_resource p it).
Proof.
  unfold send_resource. cbv zeta. destruct (negb _); [|by apply ends_ret].
  intros w Hw. set (id := u32 _).
  destruct (StreamBufferSender_create_run _ p id _ (so_linked _ _ Hw) (so_there _ _ Hw)) as (o & st' & Hrun & Hl & Hnew).
  rewrite (run_bind_Ret _ _ _ o (with_streams st' w)) by (unfold on_streams, zoom; by rewrite Hrun).
  assert (Hw1 : sound p (with_streams st' w)).
  { destruct Hw as [[[] ?] ? _]. split; [by split|done|done]. }
  destruct o as [q|]; [|done]. specialize (Hnew q eq_refl).
  pose proof (sound_addStreamSender p F id _ Hw1) as Hadd. unfold bindM.
  pose proof (same_on_session p (addStreamSender id) (with_streams st' w)) as [Est _].
  destruct (on_session p (addStreamSender id) _) as [[added|f] w2]; [|done]. destruct Hadd as [_ Hw2].
  destruct added; [|done]. split; [done|]. cbn in Est. rewrite <- Est in Hnew.
  destruct Hw2 as [[[] ?] ? Hl2]. split; [by split|done|].
  refine (linked_senders _ (fun l => l ++ [q]) _ Hl2 _). intros x.
  rewrite elem_of_app, list_elem_of_singleton. intros [Hx| ->]; [by apply (ls_senders _ _ Hl2)|done].
Qed.
#[local] Hint Resolve sound_the_accountId sound_processRequests sound_send_resource : zway_ends.
#[local] Hint Extern 1 (ends (sound _) _ _ (on_db _)) => apply sound_with_lock : zway_ends.

(** The answer of a client is always handled to the end. *)
Lemma sound_response p F r head : ends (sound p) F any (receive_response p r head).
Proof.
  unfold receive_response. apply (ends_bind _ _ any).
  { apply sound_on_session; [apply preserves_engine_call_quiet|ending]. }
  intros _ _. rewrite processResponse_run. unfold delete_when_done, push_callback, deleteRequest. ending.
Qed.

(** The notice that a resource has arrived, with the buffer of its receiver. *)
Definition has_buffer (b : nat) (w : world) : Prop := is_Some (st_heap (w_streams w) !! b).

Lemma received_run p id b w :
  sound p w -> has_buffer b w -> exists w', stream_received p id b w = (Ret tt, w') /\ sound p w'.
Proof.
  intros Hw [sb Hb]. unfold stream_received.
  destruct (linked_flush _ b sb _ (so_linked _ _ Hw) Hb) as (sb' & fs' & Hflush & Hl).
  set (st' := Streams _ _ _ _ _ _ _) in Hl.
  assert (Hw1 : sound p (with_streams st' w)).
  { destruct Hw as [[[] ?] ? _]. split; [by split|done|done]. }
  erewrite run_bind_Ret.
  2: { unfold on_streams, zoom, bindM, deref_buffer. rewrite Hb, Hflush. done. }
  assert (Hrest : ends (sound p) (fun _ => False) any
    (let* accountId := the_accountId p in on_db (addRequest (dispatch_doc id accountId)) ;;
     processRequests p ;; ret tt)%zway) by (unfold addRequest; ending).
  specialize (Hrest _ Hw1). fold st'. cbn beta. destruct (bindM _ _ (with_streams st' w)) as [[[]|] w2]; [|done].
  exists w2. split; [done|apply Hrest].
Qed.

(** A packet that starts a stream: only a resource whose file is there ends the process. *)
Definition receiver_fault (p : nat) (pkt : packet) (w : world) (f : fault) : Prop :=
  (f = DoubleClose /\ pkt_streamType pkt = Stream_Resource /\
     is_Some (fs_files (st_fs (w_streams w)) !! stream_path (pkt_streamId pkt))) \/
  (f = NullDereference /\ ~ there w p).

Lemma receiver_ends p pkt w : linked w ->
  match createStreamReceiver p pkt w with
  | (Ret _, w') => linked w'
  | (Fault f, _) => receiver_fault p pkt w f
  end.
Proof.
  intros Hl. unfold createStreamReceiver. case_decide as Ht.
  2: { unfold bindM, session_at. destruct (w_sessions w !! p) as [s|] eqn:Hs.
       - by destruct (engine_createStreamReceiver _ _).
       - right. split; [done|]. unfold there, alive. rewrite Hs. by intros [? ?]. }
  unfold bindM at 1. unfold on_streams at 1, on_fs, zoom.
  pose proof (StreamBuffer_create_faults (stream_path (pkt_streamId pkt)) pkt (st_fs (w_streams w))) as Hf.
  destruct (StreamBuffer_create _ _ _) as [[o|f] fs']; cbn; [|by destruct Hf; left].
  assert (Hl1 : linked (with_streams (with_fs fs' (w_streams w)) w)) by by apply linked_fs.
  destruct o as [sb|]; [|done]. set (w1 := with_streams _ w) in *.
  pose proof (linked_alloc_buffer _ sb _ Hl1) as Hl2.
  set (w2 := with_streams (alloc_buffer sb (w_streams w1)).2 w1).
  change (linked w2) in Hl2.
  unfold bindM at 1. cbn [on_streams zoom alloc_buffer fst snd].
  change (with_streams _ w1) with w2. destruct (bufferReceiver_create pkt); [|done].
  destruct (linked_addStreamBuffer _ (st_next (w_streams w1)) sb _ Hl2) as (b & st' & Hadd & Hl3).
  { cbn. by rewrite lookup_insert_eq. }
  unfold bindM, on_streams, zoom. rewrite Hadd. done.
Qed.

(** *** The timer *)

Definition listed_senders (l : list nat) (w : world) : Prop :=
  forall p, p ∈ l -> is_Some (st_sndheap (w_streams w) !! p).

(** All senders of [l] are there. *)
Definition sweeping (l : list nat) (w : world) : Prop := linked w /\ listed_senders l w.

Lemma sweeping_sender l p w : sweeping l w -> p ∈ l ->
  exists snd, on_streams (deref_sender p) w = (Ret snd, w) /\ there w (snd_session snd).
Proof.
  intros [Hl Hin] Hp. destruct (Hin p Hp) as [snd Hsnd]. exists snd.
  split; [unfold on_streams, zoom, deref_sender; rewrite Hsnd; by destruct w|]. by eapply ls_session.
Qed.

Lemma sweeping_same l w w' : streams_same w w' -> sweeping l w -> sweeping l w'.
Proof. intros Hs [Hl Hin]. split; [by eapply linked_same|]. intros p. rewrite (ss_streams _ _ Hs). apply Hin. Qed.

Lemma sweep_run l l' w : sweeping l w -> (forall p, p ∈ l' -> p ∈ l) ->
  exists remove w', sweep_senders l' w = (Ret remove, w') /\ sweeping l w'.
Proof.
  revert w. induction l' as [|p l' IH]; intros w Hw Hsub; [by exists [], w|]. cbn [sweep_senders].
  assert (Hrest : forall q, q ∈ l' -> q ∈ l) by (intros q Hq; apply Hsub; by right).
  destruct (sweeping_sender l p w Hw) as (snd & Hsnd & [s Hs]); [apply Hsub; left|].
  assert (Hb : exists b, completed p w = (Ret b, w)).
  { unfold completed. rewrite (run_bind_Ret _ _ _ _ _ Hsnd).
    rewrite (run_bind_Ret _ _ _ _ _ (run_session_at _ s w Hs)). by eexists. }
  destruct Hb as [b Hb]. rewrite (run_bind_Ret _ _ _ _ _ Hb). destruct b.
  - destruct (IH w Hw Hrest) as (rm & w' & Hrun & Hw'). exists (p :: rm), w'.
    by rewrite (run_bind_Ret _ _ _ _ _ Hrun).
  - rewrite (run_bind_Ret _ _ _ _ _ Hsnd).
    pose proof (alive_on_session (snd_session snd) (fun _ => False) sendPacket session_sendPacket w (ex_intro _ s Hs)) as Hsend.
    pose proof (same_on_session (snd_session snd) sendPacket w) as Hsame. unfold bindM.
    destruct (on_session _ _ w) as [[u|f] w1]; [|done]. apply IH; [|done]. by eapply sweeping_same.
Qed.

Lemma timer_run e w : linked w -> exists w', onTimer e w = (Ret tt, w') /\ linked w'.
Proof.
  intros Hl. unfold onTimer. case_decide; [|by exists w]. unfold bindM at 1, gets.
  destruct (sweep_run (st_senders (w_streams w)) (st_senders (w_streams w)) w) as (rm & w1 & Hrun & Hl1 & _).
  { split; [done|exact (ls_senders _ _ Hl)]. }
  { done. }
  rewrite (run_bind_Ret _ _ _ _ _ Hrun).
  assert (Hrm : ends linked (fun _ => False) any (for_each rm (fun p =>
    on_streams (modify (fun st => with_senders (filter (fun q => q <> p) (st_senders st)) st))))).
  { apply ends_for_each. intros p _ v Hv. split; [done|]. cbn.
    refine (linked_senders _ (filter (fun q => q <> p)) _ Hv _).
    intros q [_ Hq]%list_elem_of_filter. by apply (ls_senders _ _ Hv). }
  specialize (Hrm w1 Hl1). unfold bindM at 1. destruct (for_each _ _ w1) as [[[]|] w2]; [|done].
  destruct Hrm as [_ Hl2]. destruct (linked_evict _ _ Hl2) as (st3 & Hev & Hl3).
  unfold bindM, on_streams, zoom. cbn in Hev |- *. rewrite Hev. by eexists.
Qed.

(** ** Every reachable state *)

Lemma same_numStreamBuffers : preserves streams_same (on_streams numStreamBuffers).
Proof. intros w. by destruct w. Qed.
#[local] Hint Resolve same_numStreamBuffers same_removeSessions same_accept same_incoming same_close
  same_appendSession same_getContactStatus same_processRequests : zway_frame.

Lemma same_run e :
  match e with
  | EvResponse _ _ _ | EvReceiver _ _ | EvReceived _ _ _ | EvTimer _ => True
  | _ => preserves streams_same (run e)
  end.
Proof.
  destruct e; cbn [run]; try exact I; unfold complete.
  all: unfold handleSession, Requests.start, handleHandshake, onPacketHeadRecv, onPacketBodyRecv,
    onPacketRecv, log_packet, processUserRequests, command, pause, resume, info, session_line.
  all: frame.
Qed.

Lemma received_inv p id b w w' :
  stream_received p id b w = (Ret tt, w') -> has_buffer b w /\ there w p.
Proof.
  unfold stream_received, has_buffer. intros Hrun. unfold bindM at 1, on_streams, zoom in Hrun.
  unfold bindM at 1, deref_buffer in Hrun. destruct (st_heap (w_streams w) !! b) as [sb|]; [|done].
  split; [by eexists|]. cbn beta in Hrun.
  destruct (StreamBuffer_flush _) as [[[]|f] [sb' fs']]; [|done]. unfold the_accountId in Hrun.
  unfold bindM at 1 2, session_at in Hrun. cbn in Hrun. unfold there, alive.
  destruct (w_sessions w !! p); [by eexists|done].
Qed.

Lemma linked_run e w w' : serviceable w -> linked w -> run e w = (Ret tt, w') -> linked w'.
Proof.
  intros Hsv Hl Hrun. pose proof (same_run e) as Hsame.
  destruct e; try (specialize (Hsame w); rewrite Hrun in Hsame; by eapply linked_same).
  - clear Hsame. cbn [run] in Hrun. destruct (w_sessions w !! p) as [s|] eqn:Hs.
    + pose proof (sound_response p (fun _ => False) r head w) as He. rewrite Hrun in He. apply He.
      split; [done|by eexists|done].
    + unfold receive_response, bindM, on_session in Hrun. by rewrite Hs in Hrun.
  - cbn [run] in Hrun. pose proof (receiver_ends p pkt w Hl) as Hr. unfold bindM in Hrun.
    destruct (createStreamReceiver p pkt w) as [[a|f] w1]; [|done]. by injection Hrun as <-.
  - cbn [run] in Hrun. destruct (received_inv _ _ _ _ _ Hrun) as [Hb Hp].
    destruct (received_run p id buffer w) as (w1 & Hr & Hw1); [by split|done|].
    rewrite Hr in Hrun. injection Hrun as <-. apply Hw1.
  - cbn [run] in Hrun. destruct (timer_run error w Hl) as (w1 & Hr & Hl1). rewrite Hr in Hrun. by injection Hrun as <-.
Qed.

Lemma linked_boot m fs time g created w0 : boot m fs time g created = (Ret true, w0) -> linked w0.
Proof.
  intros Hb. assert (Hsame : preserves streams_same (server_start true created true)).
  { unfold server_start. frame. }
  unfold boot in Hb. match type of Hb with server_start _ _ _ ?v = _ => specialize (Hsame v) end.
  rewrite Hb in Hsame. eapply linked_same; [exact Hsame|]. split; [split|..]; cbn.
  - intros k p. by rewrite lookup_empty.
  - intros p sb. by rewrite lookup_empty.
  - intros p snd. by rewrite lookup_empty.
  - intros p []%elem_of_nil.
  - intros p snd. by rewrite lookup_empty.
  - intros p snd b. by rewrite lookup_empty.
Qed.

Lemma linked_trace m fs time g created w0 es w :
  boot m fs time g created = (Ret true, w0) -> trace w0 es w -> linked w.
Proof.
  intros Hb. induction 1 as [|es w e w' Ht IH [_ Hrun]]; [by eapply linked_boot|].
  eapply linked_run; [by eapply reachable_serviceable|exact IH|exact Hrun].
Qed.
End stream_events.
