(* ===== verification/Survival.v ===== *)
(** * What can take the server down

    A fault of a handler ends the process. In every state the server can reach, every event is
    handled to the end, but for the faults [fault_of] tells; two of them, which anybody who can
    connect can bring about, are shown to happen. *)

From S2P Require Import Prelude Values Platform Codec Pool Db Stdio StreamBuffer Streams World.
From S2P Require Import Registry Transport Session Contacts Requests Fcm Server Console Frames.
From S2P Require Import System Auth Presence Delivery Pushes Operation Mailbox Tasks Faults Objects.

Local Open Scope zway_scope.
Local Open Scope Z_scope.

Section reachable.
Context `{PlatformLaws}.

(** The objects an event names are there. *)
Definition present (e : event) (w : world) : Prop :=
  match e with
  | EvPost p _ | EvSender p _ | EvRequest p _ | EvResponse p _ _ | EvReceiver p _ => alive p w
  | EvReceived p _ buffer => alive p w /\ has_buffer buffer w
  | _ => True
  end.

(** What can go wrong, and when. *)
Definition fault_of (e : event) (w : world) (f : fault) : Prop :=
  match e, f with
  | EvRequest p head, NullDereference =>
      int_of head "requestType" = Req_Login /\ ubj_buffer (ubj_get head "password") = None
  | EvRequest p head, SignedOverflow =>
      int_of head "requestType" = Req_CreateAccount /\ last_id_taken w
  | EvRequest p head, UncaughtException => int_of head "requestType" ∈ throwing_types
  | EvHandshake p error host, UncaughtException => error = no_error /\ host = None
  | EvReceiver p pkt, DoubleClose =>
      pkt_streamType pkt = Stream_Resource /\
      is_Some (fs_files (st_fs (w_streams w)) !! stream_path (pkt_streamId pkt))
  | _, _ => False
  end.

Lemma outstanding_alive p op w : outstanding p op w -> alive p w.
Proof. intros (s & Hs & _). by eexists. Qed.

Lemma handshake_gone p w : alive p w ->
  ((complete p is_handshake ;; handleHandshake p no_error None)%zway w).1 = Fault UncaughtException.
Proof.
  intros [s Hs]. unfold complete. rewrite (run_bind_Ret _ _ _ _ _ (run_update p s _ w Hs)).
  eapply handshake_throws. cbn. by rewrite lookup_insert_eq.
Qed.

Lemma survives {A} p (m : M world A) w :
  ends (alive p) (fun _ => False) (fun _ => True) m -> alive p w -> exists a w', m w = (Ret a, w').
Proof. intros Hm Hw. specialize (Hm w Hw). destruct (m w) as [[a|f] w']; [by eexists _, _|done]. Qed.

(** C15: What can end the process. In every state a started server can reach, whatever happens
    next (a connection, a handshake, a packet in any pieces, a broken connection, a request or
    an answer of a client, a stream that starts or has arrived, a posted task, the timer, a
    command of the console) is handled to the end: no null pointer is followed, no file is
    closed twice, no exception is left uncaught, no sum of two [int]s overflows. There are only
    these exceptions: a login whose password is not a buffer follows a null pointer; a request of
    one of the seven [throwing_types] may end in an exception that nobody catches; so does a
    handshake whose peer is gone before its address is read; a resource whose file is there
    closes it twice; and the creation of an account may overflow once an account has the last
    id. *)
Theorem process_faults m fs time g created w0 es w e :
  boot m fs time g created = (Ret true, w0) -> trace w0 es w -> enabled e w -> present e w ->
  (exists w', step w e w') \/ exists f, (run e w).1 = Fault f /\ fault_of e w f.
Proof.
  intros Hb Ht Hen Hpl. pose proof (reachable_serviceable _ _ _ _ _ _ _ _ Hb Ht) as Hsv.
  pose proof (linked_trace _ _ _ _ _ _ _ _ Hb Ht) as Hlk. destruct Hsv as [Hreg Hdb] eqn:E. clear E.
  pose proof (trace_inv_kept _ _ _ _ _ _ _ _ Hb Ht) as Hinv.
  assert (Hstep : forall w', run e w = (Ret tt, w') -> exists w', step w e w') by (intros w' ?; by exists w').
  assert (Hsurv : forall p, alive p w -> ends (alive p) (fun _ => False) (fun _ => True) (run e) ->
    exists w', step w e w').
  { intros p Hp Hm. destruct (survives p _ w Hm Hp) as ([] & w' & Hrun). by apply (Hstep w'). }
  destruct e; cbn [present enabled] in Hpl, Hen.
  - left. apply (Hsurv p); [by destruct (inv_accepting _ Hinv p Hen) as [(s & Hs & _) _]; eexists|].
    cbn [run]. surviving.
  - apply outstanding_alive in Hen. destruct (decide (error = no_error /\ remoteHost = None)) as [[-> ->]|Hn].
    { right. exists UncaughtException. split; [|done]. cbn [run]. by apply handshake_gone. }
    left. apply (Hsurv p); [done|]. cbn [run]. unfold complete. apply (ends_bind _ _ (fun _ => True)); [surviving|].
    intros _ _. apply alive_handleHandshake. intros ->. destruct remoteHost; [by eexists|by destruct Hn].
  - left. apply (Hsurv p); [by eapply outstanding_alive|]. cbn [run]. unfold complete. surviving.
  - left. destruct Hen as [Ho _]. apply (Hsurv p); [by eapply outstanding_alive|].
    cbn [run]. unfold complete. surviving.
  - left. destruct Hen as [pkt Ho]. apply (Hsurv p); [by eapply outstanding_alive|]. cbn [run]. surviving.
  - left. apply (Hsurv p); [done|]. cbn [run]. surviving.
  - left. apply (Hsurv p); [done|]. cbn [run]. surviving.
  - assert (Hw : ready p w) by done || (split; done).
    pose proof (ends_incoming p request w Hw) as Hends.
    destruct (processIncomingRequest p request w) as [[b|f] w'] eqn:Hrun.
    2:{ right. exists f. cbn [run]. unfold bindM. rewrite Hrun. split; [done|]. destruct f; try done.
        split; [done|]. apply (incoming_overflow p request w Hw). by rewrite Hrun. }
    left. apply (Hstep w'). cbn [run]. unfold bindM. by rewrite Hrun.
  - left. pose proof (sound_response p (fun _ => False) r head w) as Hs. specialize (Hs (Build_sound _ _ Hsv Hpl Hlk)).
    cbn [run] in Hstep. destruct (receive_response p r head w) as [[[]|f] w']; [by apply (Hstep w')|done].
  - pose proof (receiver_ends p pkt w Hlk) as Hr. cbn [run] in *. unfold bindM in *.
    destruct (createStreamReceiver p pkt w) as [[a|f] w']; [left; by apply (Hstep w')|right].
    exists f. split; [done|]. destruct Hr as [(-> & ? & ?)|[_ Hdead]]; [done|by destruct Hdead].
  - left. destruct Hpl as [Hp Hbuf]. destruct (received_run p id buffer w) as (w' & Hr & _); [by split|done|].
    by apply (Hstep w').
  - left. destruct (w_tasks w) as [|u ts] eqn:Hts; [done|].
    destruct (task_step u ts w) as (w' & Hs & _); [by split|done|by exists w'].
  - left. destruct (timer_run error w Hlk) as (w' & Hr & _). by apply (Hstep w').
  - left. destruct (command_returns calls c w Hreg Hdb) as [b Hc]. cbn [run] in Hstep. unfold bindM in Hstep.
    destruct (command calls c w) as [r w'] eqn:Hrun. cbn in Hc. subst r. by apply (Hstep w').
Qed.

(** Anybody can take the server down. A client need not be logged in to send a login for an
    account that is stored, with a password that is not a buffer: [verifyPassword] follows
    the null pointer. *)
Lemma login_without_buffer_crashes p s head acc w salt pass :
  w_sessions w !! p = Some s -> s_status s < STATUS_LOGGEDIN -> db_ready (w_db w) ->
  hasField head "account" = true -> hasField head "password" = true ->
  ubj_buffer (ubj_get head "password") = None -> is_Some SHA256_Init ->
  hd_error (db_query "zway.accounts" [("id"%string, bson_u32 (u32 (int_of head "account")))] None 0
    (Some [("pass"%string, BInt 1); ("salt"%string, BInt 1)]) (db_mongo (w_db w))).1 = Some acc ->
  bson_binData (bson_get acc "salt") = Some salt -> bson_binData (bson_get acc "pass") = Some pass ->
  (processLogin p head w).1 = Fault NullDereference.
Proof.
  intros Hs Hst Hr Ha Hp Hb [ctx Hc] Hacc Hsalt Hpass. unfold processLogin. cbv zeta.
  rewrite (run_bind_Ret _ _ _ _ _ (run_the_status p s w Hs)).
  assert (s_status s >=? STATUS_LOGGEDIN = false) as -> by lia. rewrite Ha, Hp. cbn [negb].
  unfold getAccount. rewrite (run_bind_Ret _ _ _ _ _ (run_lock _ w Hr)). cbn [fst snd]. rewrite Hacc.
  unfold verifyPassword. rewrite Hsalt, Hpass, Hc, Hb. done.
Qed.

(** A resource under the id of one whose file is there: the stream of the file is closed twice.
    The client need not be logged in. *)
Lemma existing_upload_crashes p pkt w :
  pkt_streamType pkt = Stream_Resource ->
  is_Some (fs_files (st_fs (w_streams w)) !! stream_path (pkt_streamId pkt)) ->
  (createStreamReceiver p pkt w).1 = Fault DoubleClose.
Proof.
  intros Ht [bs Hf]. unfold createStreamReceiver. rewrite decide_True by done.
  unfold bindM, on_streams, on_fs, zoom. by rewrite (StreamBuffer_create_existing _ _ _ bs).
Qed.
End reachable.
