(* ===== verification/Sockets.v ===== *)
(** * One operation at a time on a socket

    Boost.Asio forbids two reads, or two writes, to be outstanding on one stream at the same
    time. Nothing in src/session.cpp tests for it but [m_sending]: that the reads follow one
    another is a matter of which handler starts which. This file shows it for the runs of
    [System], in which handlers run one after the other, together with what the flag is for:
    no packet waits while nothing is written. [Workers] has what is left of it when the handlers
    of one session are interleaved. *)

From S2P Require Import Prelude Values Platform Codec Pool Db Stdio StreamBuffer Streams World.
From S2P Require Import Registry Transport Session Contacts Requests Fcm Server Console Frames.
From S2P Require Import System Auth.

Local Open Scope zway_scope.
Local Open Scope Z_scope.

Section sockets.
Context `{Platform}.

(** ** One session *)

(** The outstanding operations that read from the socket; the handshake reads, too. *)
Definition is_receive (op : socket_op) : bool :=
  match op with OpWrite _ => false | _ => true end.
Definition pending (s : session) : list socket_op := filter (fun op => is_receive op = true) (s_ops s).

(** At most one read, and [send_ok]: the session is idle with nothing to send, or it is
    sending, with exactly one write outstanding. *)
Record exclusive (s : session) : Prop := {
  ex_reads : (length (pending s) <= 1)%nat;
  ex_writes : send_ok s
}.

(** At most [n] reads more, and none less. *)
Record sess_grow (n : nat) (s s' : session) : Prop := {
  sg_reads : (length (pending s) <= length (pending s') <= length (pending s) + n)%nat;
  sg_writes : send_ok s -> send_ok s'
}.

#[export] Instance sess_grow_preorder : PreOrder (sess_grow 0).
Proof. split; [split; [lia|done]|]. intros s1 s2 s3 [? ?] [? ?]. split; [lia|auto]. Qed.

Lemma sess_grow_trans n m s1 s2 s3 :
  sess_grow n s1 s2 -> sess_grow m s2 s3 -> sess_grow (n + m) s1 s3.
Proof. intros [? ?] [? ?]. split; [lia|auto]. Qed.

Lemma sess_grow_same n s s' :
  s_ops s' = s_ops s -> s_sending s' = s_sending s -> s_packetQueue s' = s_packetQueue s ->
  sess_grow n s s'.
Proof.
  intros E1 E2 E3. split; unfold send_ok, pending, writes; rewrite ?E1, ?E2, ?E3; [lia|done].
Qed.

Lemma pending_app s ops :
  pending (with_ops (s_ops s ++ ops) s) = pending s ++ filter (fun op => is_receive op = true) ops.
Proof. unfold pending. simpl. by rewrite filter_app. Qed.

Lemma start_read_grow op : is_receive op = true -> preserves (sess_grow 1) (start_op op).
Proof.
  intros Hr s. unfold start_op, modify. cbn [snd]. split; [rewrite pending_app, filter_cons_True by done; rewrite length_app; simpl; lia|].
  unfold send_ok, writes. simpl. rewrite omap_app. destruct op; simpl; rewrite ?app_nil_r; done.
Qed.

(** *** Sending leaves the reads alone. *)

Definition same_reads (s s' : session) : Prop := pending s' = pending s.

#[export] Instance same_reads_preorder : PreOrder same_reads.
Proof. unfold same_reads. split; [by intros s|]. intros s1 s2 s3 ? ?. congruence. Qed.

Lemma reads_modify f : (forall s, s_ops (f s) = s_ops s) -> preserves same_reads (modify f).
Proof. intros Hf s. unfold same_reads, pending. cbn. by rewrite Hf. Qed.

Lemma reads_write pkt : preserves same_reads (start_op (OpWrite pkt)).
Proof. intros s. unfold same_reads, start_op, modify. cbn [snd]. by rewrite pending_app, app_nil_r. Qed.
#[local] Hint Resolve reads_write : zway_frame.
#[local] Hint Extern 1 (preserves same_reads (modify _)) => by apply reads_modify : zway_frame.
#[local] Hint Extern 1 (preserves same_reads (engine_call_ _)) => by apply reads_modify : zway_frame.

Lemma reads_sendPacket : preserves same_reads sendPacket.
Proof. unfold sendPacket. frame. Qed.
#[local] Hint Resolve reads_sendPacket : zway_frame.
Lemma reads_postPacket pkt : preserves same_reads (postPacket pkt).
Proof. unfold postPacket. frame. Qed.
Lemma reads_addStreamSender i : preserves same_reads (addStreamSender i).
Proof. unfold addStreamSender. frame. Qed.
Lemma reads_onPacketSent e : preserves same_reads (onPacketSent e).
Proof. unfold onPacketSent, resetTimer. frame. Qed.

Lemma pending_drop_write s : pending (with_ops (drop_write (s_ops s)) s) = pending s.
Proof.
  unfold pending. simpl. induction (s_ops s) as [|[] l IH]; csimpl; [done| | |..];
    rewrite ?filter_cons; simpl; rewrite ?IH; done.
Qed.

(** What the transport's refinement of a queue says of the flag. *)
Lemma send_run_ok e s s' : send_ok s -> send_run e s = Some s' -> send_ok s'.
Proof.
  intros Hs Hrun. pose proof (send_run_fifo e s (outgoing s, s_engine s)) as Hf.
  rewrite Hrun in Hf. destruct (fifo_step e _); [|by destruct Hf].
  by apply Hf.
Qed.

Lemma grow_send e s s' :
  send_run e s = Some s' -> pending s' = pending s -> sess_grow 0 s s'.
Proof. intros Hrun Hp. split; [rewrite Hp; lia|]. intros Hs. by eapply send_run_ok. Qed.

Lemma grow_sendPacket : preserves (sess_grow 0) sendPacket.
Proof. intros s. eapply (grow_send EPoll); [done|apply reads_sendPacket]. Qed.
Lemma grow_postPacket pkt : preserves (sess_grow 0) (postPacket pkt).
Proof.
  destruct pkt as [pkt|]; [|by intros s]. intros s.
  eapply (grow_send (EPost pkt)); [done|apply reads_postPacket].
Qed.
Lemma grow_addStreamSender i : preserves (sess_grow 0) (addStreamSender i).
Proof. intros s. eapply (grow_send (ESender i)); [done|apply reads_addStreamSender]. Qed.

(** The completion of a write. *)
Lemma grow_sent e s pkt :
  OpWrite pkt ∈ s_ops s ->
  sess_grow 0 s (onPacketSent e (with_ops (drop_write (s_ops s)) s)).2.
Proof.
  intros Hop. apply (grow_send (ESent e)).
  - cbn [send_run]. destruct (writes s) as [|k l] eqn:Hw; [|done]. exfalso.
    assert (Hin : pkt ∈ writes s) by (apply list_elem_of_omap; by exists (OpWrite pkt)).
    rewrite Hw in Hin. by apply not_elem_of_nil in Hin.
  - etrans; [apply reads_onPacketSent|apply pending_drop_write].
Qed.

(** *** The completion of a read *)

Lemma drop_receive sel op l :
  (forall o, sel o = true -> is_receive o = true) -> sel op = true -> op ∈ l ->
  S (length (filter (fun o => is_receive o = true) (drop_op sel l))) =
    length (filter (fun o => is_receive o = true) l) /\
  omap (fun op => match op with OpWrite pkt => Some pkt | _ => None end) (drop_op sel l) =
    omap (fun op => match op with OpWrite pkt => Some pkt | _ => None end) l.
Proof.
  intros Hsel Hop. induction l as [|o l IH]; intros Hin; [by apply not_elem_of_nil in Hin|].
  simpl. destruct (sel o) eqn:Ho.
  - rewrite filter_cons_True by auto. split; [done|]. specialize (Hsel o Ho). by destruct o.
  - apply elem_of_cons in Hin as [->|Hin]; [congruence|]. destruct (IH Hin) as [IH1 IH2].
    rewrite !filter_cons. split; [case_decide; simpl; by rewrite IH1|].
    destruct o; csimpl; by rewrite IH2.
Qed.

Lemma completed_read sel op s :
  (forall o, sel o = true -> is_receive o = true) -> sel op = true -> op ∈ s_ops s ->
  exclusive s ->
  let s' := with_ops (drop_op sel (s_ops s)) s in pending s' = [] /\ send_ok s'.
Proof.
  intros Hsel Hop Hin [Hr Hw]. destruct (drop_receive sel op _ Hsel Hop Hin) as [E1 E2].
  split.
  - apply length_zero_iff_nil. unfold pending in Hr |- *. simpl. lia.
  - unfold send_ok, writes in Hw |- *. simpl. by rewrite E2.
Qed.

(** ** All sessions

    [grow p n]: at most [n] reads more on the socket of [p], none on the others; the sessions
    that were not there start with none. *)

Definition allowance (p n q : nat) : nat := if decide (q = p) then n else 0%nat.

(** The sessions that are waited for are the same, and the new ones. *)
Definition new_accepting (w w' : world) : Prop := forall q,
  q ∈ sv_accepting (w_server w') <->
  q ∈ sv_accepting (w_server w) \/ (w_sessions w !! q = None /\ is_Some (w_sessions w' !! q)).

Record grow (p n : nat) (w w' : world) : Prop := {
  g_old : forall q s, w_sessions w !! q = Some s ->
    exists s', w_sessions w' !! q = Some s' /\ sess_grow (allowance p n q) s s';
  g_new : forall q s, w_sessions w !! q = None -> w_sessions w' !! q = Some s ->
    sess_grow (allowance p n q) new_session s;
  g_accepting : new_accepting w w'
}.

(** No session was made. *)
Lemma accepting_kept w w' :
  sv_accepting (w_server w') = sv_accepting (w_server w) ->
  (forall q, is_Some (w_sessions w' !! q) -> is_Some (w_sessions w !! q)) ->
  new_accepting w w'.
Proof.
  intros E Hs q. rewrite E. split; [by left|]. intros [?|[Hn Hq%Hs]]; [done|]. rewrite Hn in Hq. by destruct Hq.
Qed.

Lemma allowance_0 p q : allowance p 0 q = 0%nat.
Proof. unfold allowance. by case_decide. Qed.

Lemma allowance_add p n m q : allowance p (n + m) q = (allowance p n q + allowance p m q)%nat.
Proof. unfold allowance. by case_decide. Qed.

Lemma grow_trans p n m w1 w2 w3 : grow p n w1 w2 -> grow p m w2 w3 -> grow p (n + m) w1 w3.
Proof.
  intros [O1 N1 A1] [O2 N2 A2]. split.
  - intros q s Hs. destruct (O1 q s Hs) as (s2 & Hs2 & G1). destruct (O2 q s2 Hs2) as (s3 & Hs3 & G2).
    exists s3. split; [done|]. rewrite allowance_add. by eapply sess_grow_trans.
  - intros q s H1 H3. destruct (w_sessions w2 !! q) as [s2|] eqn:H2.
    + destruct (O2 q s2 H2) as (s3 & Hs3 & G2). simplify_eq. rewrite allowance_add.
      eapply sess_grow_trans; eauto.
    + specialize (N2 q s H2 H3). rewrite allowance_add. destruct N2 as [R W]. split; [lia|done].
  - intros q. unfold new_accepting in A1, A2. rewrite A2, A1.
    assert (Hs : is_Some (w_sessions w1 !! q) -> is_Some (w_sessions w2 !! q)).
    { intros [s H1]. destruct (O1 q s H1) as (? & ? & _). by eexists. }
    assert (Hs' : is_Some (w_sessions w2 !! q) -> is_Some (w_sessions w3 !! q)).
    { intros [s H2]. destruct (O2 q s H2) as (? & ? & _). by eexists. }
    destruct (w_sessions w1 !! q), (w_sessions w2 !! q); naive_solver.
Qed.

#[export] Instance grow_preorder p : PreOrder (grow p 0).
Proof.
  split; [|intros w1 w2 w3; apply (grow_trans p 0 0)].
  intros w. split; [|congruence|].
  - intros q s Hs. exists s. split; [done|]. by rewrite allowance_0.
  - by apply accepting_kept.
Qed.

Lemma grow_bind {A B} p n m (c : M world A) (k : A -> M world B) :
  preserves (grow p n) c -> (forall a, preserves (grow p m) (k a)) -> 
  preserves (grow p (n + m)) (bindM c k).
Proof.
  intros Hc Hk w. unfold bindM. specialize (Hc w). destruct (c w) as [[a|f] w1]; cbn in *.
  - by eapply grow_trans, Hk.
  - destruct Hc as [O N A']. split; [| |done].
    + intros q s Hs. destruct (O q s Hs) as (s' & ? & [R W]). exists s'. split; [done|].
      rewrite allowance_add. split; [lia|done].
    + intros q s H1 H2. destruct (N q s H1 H2) as [R W]. rewrite allowance_add. split; [lia|done].
Qed.

(** *** The primitives *)

Lemma grow_weaken p n {A} (m : M world A) : preserves (grow p 0) m -> preserves (grow p n) m.
Proof.
  intros Hm w. destruct (Hm w) as [O N A']. split; [| |done].
  - intros q s Hs. destruct (O q s Hs) as (s' & ? & [R W]). exists s'. split; [done|].
    rewrite allowance_0 in R. split; [lia|done].
  - intros q s H1 H2. destruct (N q s H1 H2) as [R W]. rewrite allowance_0 in R. split; [lia|done].
Qed.

Lemma grow_at p n w s' s : w_sessions w !! p = Some s -> sess_grow n s s' ->
  grow p n w (with_sessions (<[p := s']> (w_sessions w)) w).
Proof.
  intros Hs Hg. split; cbn.
  - intros q t Ht. rewrite lookup_insert. unfold allowance. repeat case_decide; simplify_eq.
    + by exists s'.
    + by exists t.
  - intros q t Hn. rewrite lookup_insert. case_decide; congruence.
  - apply accepting_kept; [done|]. intros q. simpl. rewrite lookup_insert_is_Some'. by intros [<-|?]; [eexists|].
Qed.

Lemma grow_on_session {A} p n (m : M session A) :
  preserves (sess_grow n) m -> preserves (grow p n) (on_session p m).
Proof.
  intros Hm w. unfold on_session. destruct (w_sessions w !! p) as [s|] eqn:Hs.
  - specialize (Hm s). destruct (m s) as [r s']. by apply (grow_at p n w s' s).
  - by apply (grow_weaken p n (fail NullDereference) (preserves_fail _ _)).
Qed.

Lemma grow_anyone p q w w' : grow q 0 w w' -> grow p 0 w w'.
Proof.
  intros [O N A]. split; [| |done]; intros r s; rewrite allowance_0.
  - intros Hs. destruct (O r s Hs) as (s' & ? & G). rewrite allowance_0 in G. by exists s'.
  - intros H1 H2. specialize (N r s H1 H2). by rewrite allowance_0 in N.
Qed.

Lemma grow_on_session_0 {A} p q (m : M session A) :
  preserves (sess_grow 0) m -> preserves (grow p 0) (on_session q m).
Proof. intros Hm w. eapply grow_anyone, grow_on_session, Hm. Qed.

Lemma grow_update p q f :
  (forall s, s_ops (f s) = s_ops s /\ s_sending (f s) = s_sending s /\
     s_packetQueue (f s) = s_packetQueue s) -> preserves (grow p 0) (update q f).
Proof.
  intros Hf. apply grow_on_session_0. intros s. destruct (Hf s) as (? & ? & ?). by apply sess_grow_same.
Qed.

Lemma grow_rest p w w' :
  w_sessions w' = w_sessions w -> sv_accepting (w_server w') = sv_accepting (w_server w) ->
  grow p 0 w w'.
Proof.
  intros E1 E2. split; [| |apply accepting_kept; [done|by rewrite E1]]; rewrite ?E1; [|congruence].
  intros q s Hs. exists s. split; [done|]. by rewrite allowance_0.
Qed.

Lemma grow_modify p (f : world -> world) :
  (forall w, w_sessions (f w) = w_sessions w) ->
  (forall w, sv_accepting (w_server (f w)) = sv_accepting (w_server w)) ->
  preserves (grow p 0) (modify f).
Proof. intros H1 H2 w. apply grow_rest; [apply H1|apply H2]. Qed.
Lemma grow_session_at p q : preserves (grow p 0) (session_at q).
Proof. intros w. unfold session_at. by destruct (w_sessions w !! q). Qed.
Lemma grow_on_db {A} p (m : M db_state A) : preserves (grow p 0) (on_db m).
Proof. intros w. unfold on_db, zoom. destruct (m (w_db w)). by apply grow_rest. Qed.
Lemma grow_on_streams {A} p (m : M streams A) : preserves (grow p 0) (on_streams m).
Proof. intros w. unfold on_streams, zoom. destruct (m (w_streams w)). by apply grow_rest. Qed.
Lemma grow_RAND p n : preserves (grow p 0) (RAND n).
Proof. intros w. unfold RAND. destruct (RAND_pseudo_bytes n (w_rng w)). by apply grow_rest. Qed.
Lemma grow_BSON p d : preserves (grow p 0) (BSON d).
Proof. unfold BSON. destruct (builder_accepts d); by intros w. Qed.
Lemma grow_or_throw {A} p (o : option A) : preserves (grow p 0) (or_throw o).
Proof. destruct o; by intros w. Qed.
End sockets.

#[export] Hint Resolve grow_session_at grow_on_db grow_on_streams grow_RAND grow_BSON grow_or_throw
  grow_sendPacket grow_postPacket grow_addStreamSender : zway_frame.
#[export] Hint Extern 1 (preserves (grow _ 0) (modify _)) => by apply grow_modify : zway_frame.
#[export] Hint Extern 1 (preserves (grow _ 0) (post_processUserRequests _)) => by apply grow_modify : zway_frame.
#[export] Hint Extern 1 (preserves (grow _ 0) (sendMessage _ _ _)) => by apply grow_modify : zway_frame.
#[export] Hint Extern 1 (preserves (grow _ 0) (on_server _)) => by apply grow_modify : zway_frame.
#[export] Hint Extern 1 (preserves (grow _ 0) (update _ _)) => by apply grow_update : zway_frame.
#[export] Hint Extern 1 (preserves (grow _ 0) (on_session _ _)) => apply grow_on_session_0 : zway_frame.
#[export] Hint Extern 1 (preserves (sess_grow 0) (modify _)) => intros ?; by apply sess_grow_same : zway_frame.
#[export] Hint Extern 1 (preserves (sess_grow 0) (engine_call_ _)) => intros ?; by apply sess_grow_same : zway_frame.

Ltac grows := repeat first [frame_step|apply grow_on_session_0].

Section grow_handlers.
Context `{PlatformLaws}.
Context (o : nat).

Lemma grow_any_notifies l : preserves (grow o 0) (any_notifies l).
Proof. induction l; simpl; grows. Qed.
#[local] Hint Resolve grow_any_notifies : zway_frame.
Lemma grow_getContactStatus c : preserves (grow o 0) (getContactStatus c).
Proof. unfold getContactStatus, getSessions. grows. Qed.
#[local] Hint Resolve grow_getContactStatus : zway_frame.
Lemma grow_broadcastStatus p st c : preserves (grow o 0) (broadcastStatus p st c).
Proof. unfold broadcastStatus, getSessions, addUbjSender. grows. Qed.
#[local] Hint Resolve grow_broadcastStatus : zway_frame.
Lemma grow_setConfig p c : preserves (grow o 0) (setConfig p c).
Proof. unfold setConfig. grows. Qed.
Lemma grow_processRequests p : preserves (grow o 0) (processRequests p).
Proof. unfold processRequests, deliver_request, the_accountId, postRequest. grows. Qed.
Lemma grow_removeSession p : preserves (grow o 0) (removeSession p).
Proof. unfold removeSession. grows. Qed.
Lemma grow_appendSession p : preserves (grow o 0) (appendSession p).
Proof. unfold appendSession. grows. Qed.
Lemma grow_forward_push p i a keys f : preserves (grow o 0) (forward_push p i a keys f).
Proof. revert f. induction keys; intros f; cbn [forward_push]; unfold postRequestFailure; grows. Qed.
#[local] Hint Resolve grow_setConfig grow_processRequests grow_removeSession grow_appendSession
  grow_forward_push : zway_frame.
Lemma grow_close p sh rm : preserves (grow o 0) (close p sh rm).
Proof. unfold close, socket_do, setStatus. grows. Qed.
#[local] Hint Resolve grow_close : zway_frame.
Lemma grow_removeSessions : preserves (grow o 0) removeSessions.
Proof. unfold removeSessions. grows. Qed.

Lemma grow_accept : preserves (grow o 0) accept.
Proof.
  intros w. destruct (run_accept w) as (p & w' & -> & Hp & ->). split; cbn.
  - intros q s Hs. exists s. rewrite lookup_insert_ne by congruence. split; [done|by rewrite allowance_0].
  - intros q s Hn. rewrite lookup_insert, allowance_0. case_decide; [by intros [= <-]|congruence].
  - intros q. simpl. rewrite elem_of_app, list_elem_of_singleton, lookup_insert_is_Some'.
    split; [intros [?| ->]; [by left|right; by split; [|left]]|].
    intros [?|[Hn [->|[? ?]]]]; [by left|by right|congruence].
Qed.
#[local] Hint Resolve grow_removeSessions grow_accept : zway_frame.

Lemma grow_incoming p h : preserves (grow o 0) (processIncomingRequest p h).
Proof.
  unfold processIncomingRequest, processDispatchRequest, processCreateAccount, processLogin,
    processLogout, processConfigRequest, processAddContactRequest, request_contact, own_account,
    contact_query, add_contact, contact_statuses, verifyPassword, setStatus,
    processCreateAddCode, processFindContactRequest, processAcceptContact, processRejectContact,
    processContactStatusRequest, processPushRequest, reply_failure, the_status, the_accountId,
    postRequestSuccess, postRequestFailure. grows.
Qed.

Lemma grow_response p r h : preserves (grow o 0) (receive_response p r h).
Proof.
  unfold receive_response. rewrite processResponse_run.
  unfold delete_when_done, push_callback, send_resource, the_accountId, postRequest. grows.
Qed.

Lemma grow_stream_received p i b : preserves (grow o 0) (stream_received p i b).
Proof. unfold stream_received, the_accountId. grows. Qed.
Lemma grow_processUserRequests u : preserves (grow o 0) (processUserRequests u).
Proof. unfold processUserRequests, getSessions. grows. Qed.
Lemma grow_sweep l : preserves (grow o 0) (sweep_senders l).
Proof. induction l; simpl; unfold completed; grows. Qed.
#[local] Hint Resolve grow_sweep : zway_frame.
Lemma grow_onTimer e : preserves (grow o 0) (onTimer e).
Proof. unfold onTimer. grows. Qed.
Lemma grow_command calls c : preserves (grow o 0) (command calls c).
Proof. unfold command, pause, resume, info, session_line. grows. Qed.
End grow_handlers.

(** ** The handlers that read on *)

Section reading_on.
Context `{PlatformLaws}.
Context (p : nat).

#[local] Hint Resolve grow_close grow_accept grow_appendSession : zway_frame.

Lemma grow_recvPacket : preserves (sess_grow 1) recvPacket.
Proof.
  unfold recvPacket. intros s. destruct packet_create; [|by apply sess_grow_same].
  by apply (start_read_grow OpReadHead eq_refl s).
Qed.

Lemma grow_onPacketRecv pkt : preserves (grow p 1) (onPacketRecv log_packet p pkt).
Proof.
  unfold onPacketRecv, log_packet. apply (grow_bind p 0 1); [grows|intros _].
  apply (grow_bind p 0 1); [grows|intros _]. apply (grow_bind p 1 0); [|intros b; grows].
  apply grow_on_session, grow_recvPacket.
Qed.

Lemma grow_resetTimer : preserves (grow p 0) (on_session p resetTimer).
Proof. unfold resetTimer. grows. Qed.

Lemma grow_head e n pkt : preserves (grow p 1) (onPacketHeadRecv log_packet p e n pkt).
Proof.
  unfold onPacketHeadRecv. repeat case_decide.
  - apply (grow_bind p 0 1); [apply grow_resetTimer|intros _].
    destruct (_ >? _); [|apply grow_onPacketRecv]. apply grow_on_session. intros s.
    unfold recvPacketBody. destruct (zbuffer_create _); [|by apply sess_grow_same].
    by apply (start_read_grow (OpReadBody _ _ _) eq_refl s).
  - apply (grow_bind p 1 0); [apply grow_on_session, grow_recvPacket|intros b; grows].
  - destruct (connection_lost e); [apply grow_weaken, grow_close|]. apply (grow_weaken p). by intros w.
Qed.

Lemma grow_body e n off pkt : preserves (grow p 1) (onPacketBodyRecv log_packet p e n off pkt).
Proof.
  unfold onPacketBodyRecv. repeat case_decide.
  - by apply grow_on_session, (start_read_grow (OpReadBody _ _ _)).
  - apply (grow_bind p 0 1); [apply grow_resetTimer|intros _; apply grow_onPacketRecv].
  - destruct (connection_lost e); [apply grow_weaken, grow_close|]. apply (grow_weaken p). by intros w.
Qed.

Lemma grow_handleHandshake e h : preserves (grow p 1) (handleHandshake p e h).
Proof.
  unfold handleHandshake. case_decide; [|apply grow_weaken, grow_close].
  apply (grow_bind p 1 0); [|intros _; by intros w]. apply grow_on_session. intros s.
  unfold recvPacket. destruct h as [host|]; [|by apply sess_grow_same].
  destruct packet_create; [|by apply sess_grow_same].
  pose proof (start_read_grow OpReadHead eq_refl
    (with_timer true (with_remoteHost host (with_status STATUS_CONNECTED s)))) as [R W].
  split; [exact R|exact W].
Qed.

Lemma grow_handleSession e : preserves (grow p 1) (handleSession e p).
Proof.
  unfold handleSession, Requests.start. case_decide; [|apply grow_weaken; by intros w].
  apply (grow_bind p 1 0); [|intros _; grows]. apply (grow_bind p 0 1); [grows|intros bs].
  apply (grow_bind p 0 1); [grows|intros _]. apply (grow_bind p 0 1); [grows|intros _].
  by apply grow_on_session, start_read_grow.
Qed.

(** ** Every reachable state *)

Record orderly (w : world) : Prop := {
  od_sessions : forall q s, w_sessions w !! q = Some s -> exclusive s;
  od_accepting : forall q s, q ∈ sv_accepting (w_server w) -> w_sessions w !! q = Some s ->
    pending s = []
}.

Lemma exclusive_new : exclusive new_session.
Proof. split; [simpl; lia|by left]. Qed.

(** [n] reads may be started where there is room for them. *)
Lemma orderly_grow n w w' :
  orderly w -> grow p n w w' ->
  (n = 0%nat \/ (n = 1%nat /\ p ∉ sv_accepting (w_server w) /\
                 exists s, w_sessions w !! p = Some s /\ pending s = [])) ->
  orderly w'.
Proof.
  intros [Hx Ha] [O N A] Hn.
  assert (Hroom : forall q s, w_sessions w !! q = Some s -> (length (pending s) + allowance p n q <= 1)%nat).
  { intros q s Hs. unfold allowance. destruct (Hx q s Hs) as [R _].
    destruct Hn as [->|(-> & _ & s0 & Hs0 & E)]; case_decide; simplify_eq; [lia..| |lia].
    rewrite E. simpl. lia. }
  assert (Hnew : forall q, w_sessions w !! q = None -> allowance p n q = 0%nat).
  { intros q Hq. unfold allowance. case_decide; [subst|done].
    destruct Hn as [->|(_ & _ & s0 & Hs0 & _)]; [done|congruence]. }
  split.
  - intros q s' Hs'. destruct (w_sessions w !! q) as [s|] eqn:Hs.
    + destruct (O q s Hs) as (s1 & Hs1 & [R W]). simplify_eq. specialize (Hroom q s Hs).
      split; [lia|]. by apply W, (Hx q s Hs).
    + destruct (N q s' Hs Hs') as [R W]. rewrite (Hnew q Hs) in R. simpl in R.
      split; [lia|]. by apply W, exclusive_new.
  - intros q s' Hq Hs'. apply length_zero_iff_nil. destruct (proj1 (A q) Hq) as [Hqa|[Hs _]].
    + destruct (w_sessions w !! q) as [s|] eqn:Hs.
      * destruct (O q s Hs) as (s1 & Hs1 & [R _]). simplify_eq. rewrite (Ha q s Hqa Hs) in R. simpl in R.
        unfold allowance in R. destruct Hn as [->|(-> & Hp & _)]; [case_decide; simpl in R; lia|].
        rewrite decide_False in R by congruence. simpl in R. lia.
      * destruct (N q s' Hs Hs') as [R _]. rewrite (Hnew q Hs) in R. simpl in R. lia.
    + destruct (N q s' Hs Hs') as [R _]. rewrite (Hnew q Hs) in R. simpl in R. lia.
Qed.

(** A read completes and its handler reads on. *)
Lemma orderly_read {A} sel op (m : M world A) w :
  (forall o, sel o = true -> is_receive o = true) -> sel op = true ->
  orderly w -> outstanding p op w -> preserves (grow p 1) m ->
  orderly ((complete p sel ;; m)%zway w).2.
Proof.
  intros Hsel Hop Hw (s & Hs & Hin) Hm. pose proof (od_sessions _ Hw p s Hs) as Hx.
  destruct (completed_read sel op s Hsel Hop Hin Hx) as [Hp0 Hok].
  set (s1 := with_ops (drop_op sel (s_ops s)) s) in *.
  unfold complete. rewrite (run_bind_Ret _ _ _ _ _ (run_update p s _ w Hs)). fold s1.
  set (w1 := with_sessions _ w). assert (Hs1 : w_sessions w1 !! p = Some s1) by apply lookup_insert_eq.
  assert (Hna : p ∉ sv_accepting (w_server w1)).
  { intros Hp. pose proof (od_accepting _ Hw p s Hp Hs) as Hnil.
    assert (Hr : op ∈ pending s) by (apply list_elem_of_filter; split; [by apply Hsel|done]).
    rewrite Hnil in Hr. by apply not_elem_of_nil in Hr. }
  apply (orderly_grow 1 w1); [|apply Hm|right; split_and!; [done|done|by exists s1]].
  split.
  - intros q t. simpl. rewrite lookup_insert. case_decide; [|by apply Hw].
    intros [= <-]. split; [by rewrite Hp0; simpl; lia|done].
  - intros q t Hq. simpl. rewrite lookup_insert. case_decide; [by intros [= <-]|by apply Hw].
Qed.

Lemma orderly_steady {A} (m : M world A) w : orderly w -> preserves (grow p 0) m -> orderly (m w).2.
Proof. intros Hw Hm. apply (orderly_grow 0 w); [done|apply Hm|by left]. Qed.
End reading_on.

Section reachable.
Context `{PlatformLaws}.

(** The events that have nothing to do with the operations of a socket, *)
Lemma steady_run o e :
  match e with
  | EvAccept _ _ | EvHandshake _ _ _ | EvHead _ _ _ _ | EvBody _ _ _ _ _ _ | EvSent _ _ => True
  | _ => preserves (grow o 0) (run e)
  end.
Proof.
  destruct e; cbn [run]; try exact I.
  - grows.
  - grows.
  - pose proof (grow_incoming o p request). grows.
  - apply grow_response.
  - unfold createStreamReceiver. grows.
  - apply grow_stream_received.
  - pose proof (grow_processUserRequests o). grows.
  - apply grow_onTimer.
  - pose proof (grow_command o calls c). grows.
Qed.

(** the completion of a write, *)
Lemma sent_grow p e w :
  (exists pkt, outstanding p (OpWrite pkt) w) -> grow p 0 w (run (EvSent p e) w).2.
Proof.
  intros [pkt (s & Hs & Hop)]. cbn [run]. rewrite (run_bind_Ret _ _ _ _ _ (run_update p s _ w Hs)).
  rewrite (run_on_session p (with_ops (drop_write (s_ops s)) s)) by apply lookup_insert_eq.
  cbn [snd]. pose proof (grow_sent e s pkt Hop) as Hg. unfold with_sessions. simpl. rewrite insert_insert_eq.
  by apply (grow_at p 0 w _ s).
Qed.

(** and all of them. *)
Lemma orderly_run e w : inv w -> orderly w -> enabled e w -> orderly (run e w).2.
Proof.
  intros Hi Hw Hen. destruct e; cbn [run enabled] in *.
  - destruct (inv_accepting _ Hi p Hen) as [(s & Hs & _) _].
    set (f := fun sv => sv_with_accepting _ sv). set (w1 := (on_server f w).2).
    change (orderly (handleSession error p w1).2).
    apply (orderly_grow p 1 w1); [|apply grow_handleSession|right; split_and!; [done| |]].
    + split; [apply Hw|]. intros q t. simpl. rewrite list_elem_of_filter. intros [_ Hq]. by apply Hw.
    + simpl. rewrite list_elem_of_filter. tauto.
    + exists s. split; [done|by apply (od_accepting _ Hw p)].
  - by apply (orderly_read p is_handshake OpHandshake); [by intros []| | | |apply grow_handleHandshake].
  - by apply (orderly_read p is_head OpReadHead); [by intros []| | | |apply grow_head].
  - destruct Hen as [Ho _].
    by apply (orderly_read p is_body (OpReadBody offset size pkt)); [by intros []| | | |apply grow_body].
  - apply (orderly_grow p 0 w); [done|by apply sent_grow|by left].
  - by apply (orderly_steady p), (steady_run p (EvPost p pkt)).
  - by apply (orderly_steady p), (steady_run p (EvSender p streamId)).
  - by apply (orderly_steady p), (steady_run p (EvRequest p request)).
  - by apply (orderly_steady p), (steady_run p (EvResponse p r head)).
  - by apply (orderly_steady p), (steady_run p (EvReceiver p pkt)).
  - by apply (orderly_steady p), (steady_run p (EvReceived p id buffer)).
  - by apply (orderly_steady 0%nat), (steady_run 0%nat EvTask).
  - by apply (orderly_steady 0%nat), (steady_run 0%nat (EvTimer error)).
  - by apply (orderly_steady 0%nat), (steady_run 0%nat (EvCommand calls c)).
Qed.

Lemma orderly_boot m fs time g created w0 :
  boot m fs time g created = (Ret true, w0) -> orderly w0.
Proof.
  unfold boot. intros Hb. assert (Hs : preserves (grow 0%nat 0) (server_start true created true)).
  { unfold server_start. destruct (DB_startup _ _ _) as [ok l]. pose proof (grow_accept 0%nat). grows. }
  match type of Hb with server_start _ _ _ ?v = _ =>
    assert (Hv : orderly v); [|pose proof (orderly_steady 0%nat _ v Hv Hs) as Ho; by rewrite Hb in Ho]
  end.
  split; simpl; [intros q s; by rewrite lookup_empty|]. intros q s Hq. by apply not_elem_of_nil in Hq.
Qed.

Lemma orderly_trace m fs time g created w0 es w :
  boot m fs time g created = (Ret true, w0) -> trace w0 es w -> orderly w.
Proof.
  intros Hb Ht. induction Ht as [|es w e w' Ht IH [Hen Hrun]]; [by eapply orderly_boot|].
  pose proof (orderly_run e w (trace_inv_kept _ _ _ _ _ _ _ _ Hb Ht) IH Hen) as Hw.
  by rewrite Hrun in Hw.
Qed.
End reachable.
