(* ===== verification/Workers.v ===== *)
(** * The workers of one session

    Every completed operation of a session's socket is handled by any of the threads of the pool,
    and packets are posted to it by the handlers of other sessions, the tasks and the timer. The
    threads are not ordered by a strand. Here the transport of src/session.cpp is cut at the
    places where another thread can come in between: a [place] is where a thread is in a
    handler, [work] goes on to its next stop, and [workers_step] lets any thread move, any
    outstanding operation complete and any call arrive, in any order. A thread that nobody
    disturbs computes the handler of [Transport] and [Requests] ([handshake_works],
    [head_works], [body_works], [sent_works], [post_works], [add_works], [close_works]). *)

From S2P Require Import Prelude Values Platform Codec Pool Db Stdio StreamBuffer Streams World.
From S2P Require Import Registry Transport Session Contacts Requests Fcm Server Console Frames.
From S2P Require Import System Auth Sockets.

Local Open Scope zway_scope.
Local Open Scope Z_scope.

Section workers.
Context `{Platform}.

Inductive place :=
| Started (error : error_code) (remoteHost : option string)   (** [handleHandshake] *)
| GotHead (error : error_code) (n : Z) (pkt : packet)         (** [onPacketHeadRecv] *)
| GotBody (error : error_code) (n offset : Z) (pkt : packet)  (** [onPacketBodyRecv] *)
| AskingBody (pkt : packet)                                   (** [recvPacketBody] *)
| Received (pkt : packet)                                     (** [onPacketRecv] *)
| Asking                                                      (** [recvPacket] *)
| Posting (pkt : packet)                                      (** [postPacket] *)
| Adding (streamId : Z)                                       (** [addStreamSender] *)
| Sending (c : send_pc)                                       (** [sendPacket] *)
| Sent (error : error_code)                                   (** [onPacketSent] *)
| Freeing                                                     (** before it resets [m_sending] *)
| Closing (shutdown : bool)                                   (** [close] *)
| Done.

(** What [close] does to the session. *)
Definition hang_up (shutdown : bool) : M session unit :=
  modify (with_timer false) ;;
  socket_do SocketCancel ;;
  when shutdown (socket_do SocketShutdown) ;;
  socket_do SocketClose ;;
  setStatus STATUS_DISCONNECTED.

Definition lost (error : error_code) : place :=
  if connection_lost error then Closing false else Done.

(** [onPacketRecv] up to [recvPacket]; the calls the engine makes back are workers of their
    own. *)
Definition count_packet (pkt : packet) : M session unit :=
  modify (fun s => with_numPackets (s_numPacketsSent s) (u32 (s_numPacketsRecv s + 1)) s) ;;
  if negb (pkt_streamId pkt =? 0) && negb (pkt_bodySize pkt =? 0)
  then engine_call_ (CallProcessIncomingPacket pkt) else ret tt.

(** [onPacketSent] up to its lock. *)
Definition count_sent (error : error_code) : M session unit :=
  if decide (error = no_error) then
    resetTimer ;;
    modify (fun s => with_numPackets (u32 (s_numPacketsSent s + 1)) (s_numPacketsRecv s) s)
  else ret tt.

(** To the next place where another thread can come in. There is none when the thread is done,
    or when an exception ends the process. *)
Definition work (c : place) (s : session) : option (place * session) :=
  match c with
  | Started error remoteHost =>
      if decide (error = no_error) then
        match remoteHost with
        | Some host =>
            Some (Asking, ((setStatus STATUS_CONNECTED ;; modify (with_remoteHost host) ;; resetTimer) s).2)
        | None => None
        end
      else Some (Closing false, s)
  | GotHead error n pkt =>
      if decide (error = no_error /\ n = sizeof_PacketHead) then
        Some (if pkt_bodySize pkt >? 0 then AskingBody pkt else Received pkt, (resetTimer s).2)
      else if decide (error = no_error /\ n = 0) then Some (Asking, s)
      else Some (lost error, s)
  | GotBody error n offset pkt =>
      if decide (error = no_error /\ offset + n < pkt_bodySize pkt) then
        let packetOffset := u32 (offset + n) in
        Some (Done, (start_op (OpReadBody packetOffset (pkt_bodySize pkt - packetOffset) pkt) s).2)
      else if decide (error = no_error /\ offset + n = pkt_bodySize pkt) then
        Some (Received pkt, (resetTimer s).2)
      else Some (lost error, s)
  | AskingBody pkt => Some (Done, (recvPacketBody pkt s).2)
  | Received pkt => Some (Asking, (count_packet pkt s).2)
  | Asking => Some (Done, (recvPacket s).2)
  | Posting pkt => Some (Sending SCall, with_packetQueue (s_packetQueue s ++ [pkt]) s)
  | Adding streamId =>
      Some (if engine_addStreamSender (s_engine s) streamId then Sending SCall else Done,
            (engine_call_ (CallAddStreamSender streamId) s).2)
  | Sending SCall => Some (Sending (if s_sending s then SReturned false else STested), s)
  | Sending STested => let '(c', s') := take_packet s in Some (Sending c', s')
  | Sending (STook pkt) => Some (Sending (SMarked pkt), with_sending true s)
  | Sending (SMarked pkt) => Some (Sending (SReturned true), (start_op (OpWrite pkt) s).2)
  | Sending (SReturned _) => Some (Done, s)
  | Sent error => Some (Freeing, (count_sent error s).2)
  | Freeing => Some (Sending SCall, with_sending false s)
  | Closing shutdown => Some (Done, (hang_up shutdown s).2)
  | Done => None
  end.

(** The handler an operation of the socket ends in. *)
Inductive completes : socket_op -> place -> Prop :=
| C_handshake error remoteHost : completes OpHandshake (Started error remoteHost)
| C_head error n pkt : completes OpReadHead (GotHead error n pkt)
| C_body error offset size pkt data :
    Z.of_nat (length data) <= size ->
    completes (OpReadBody offset size pkt)
      (GotBody error (Z.of_nat (length data)) offset (deliver offset data pkt))
| C_write error pkt : completes (OpWrite pkt) (Sent error).

(** What is called from elsewhere: a packet is posted, a stream sender added, the timer asks
    to send, the session is closed. *)
Definition called (c : place) : bool :=
  match c with Posting _ | Adding _ | Sending SCall | Closing _ => true | _ => false end.

(** The packets that come into the queue, and the one that is given to the socket. *)
Definition entered (c : place) (s : session) : list packet :=
  match c with
  | Posting pkt => [pkt]
  | Sending STested => if s_packetQueue s is [] then engine_packets (s_engine s) else []
  | _ => []
  end.
Definition given (c : place) : list packet :=
  match c with Sending (SMarked pkt) => [pkt] | _ => [] end.

Definition state : Type := list place * session.

(** One thread moves, a call arrives on some thread, or an operation of the socket completes.
    The labels are the packets that enter and those that are written. *)
Inductive workers_step : state -> list packet -> list packet -> state -> Prop :=
| W_work l1 c l2 s c' s' :
    work c s = Some (c', s') ->
    workers_step (l1 ++ c :: l2, s) (entered c s) (given c) (l1 ++ c' :: l2, s')
| W_call ts c s :
    called c = true -> workers_step (ts, s) [] [] (c :: ts, s)
| W_complete ts ops1 op ops2 c s :
    s_ops s = ops1 ++ op :: ops2 -> completes op c ->
    workers_step (ts, s) [] [] (c :: ts, with_ops (ops1 ++ ops2) s).

(** The states a session [s0] gets to, through states of [P] only, with all the packets that
    have entered and that have been written. *)
Inductive workers_run (P : state -> Prop) (s0 : session) : list packet -> list packet -> state -> Prop :=
| run_start : workers_run P s0 [] [] ([], s0)
| run_step ins outs st i o st' :
    workers_run P s0 ins outs st -> workers_step st i o st' -> P st' ->
    workers_run P s0 (ins ++ i) (outs ++ o) st'.

(** As [Requests.start] leaves a session. *)
Definition fresh (s : session) : Prop :=
  s_ops s = [OpHandshake] /\ s_sending s = false /\ s_packetQueue s = [].
End workers.

(** ** Counting *)

Section counting.
Context {A : Type}.

Definition count (f : A -> bool) (l : list A) : nat := length (filter (fun c => f c = true) l).

Lemma count_cons f c l : count f (c :: l) = (Nat.b2n (f c) + count f l)%nat.
Proof. unfold count. rewrite filter_cons. case_decide as E; [by rewrite E|]. by destruct (f c). Qed.

Lemma count_mid f l1 c l2 : count f (l1 ++ c :: l2) = (Nat.b2n (f c) + count f (l1 ++ l2))%nat.
Proof.
  unfold count. rewrite !filter_app, !length_app. fold (count f (c :: l2)). rewrite count_cons.
  unfold count. lia.
Qed.

Lemma count_none f l : Forall (fun c => f c = false) l -> count f l = 0%nat.
Proof. induction 1 as [|c l Hc _ IH]; [done|]. by rewrite count_cons, Hc, IH. Qed.

Lemma count_le f g l : (forall c, f c = true -> g c = true) -> (count f l <= count g l)%nat.
Proof.
  intros Hfg. induction l as [|c l IH]; [done|]. rewrite !count_cons. specialize (Hfg c).
  destruct (f c); [rewrite Hfg by done; simpl; lia|]. destruct (g c); simpl; lia.
Qed.
End counting.

(** ** The invariants *)

Section invariants.
Context `{Platform}.

(** At a place from which the next read is going to be started. *)
Definition reading (c : place) : bool :=
  match c with
  | Started _ _ | GotHead _ _ _ | GotBody _ _ _ _ | AskingBody _ | Received _ | Asking => true
  | _ => false
  end.

(** Between the test of [m_sending] and its assignment. *)
Definition deciding (c : place) : bool :=
  match c with Sending (STested | STook _) => true | _ => false end.

(** Before the write of a packet for which [m_sending] is set, or after it and before
    [m_sending] is reset. *)
Definition marked (c : place) : bool :=
  match c with Sending (SMarked _) | Sent _ | Freeing => true | _ => false end.

(** At a place from which the queue is going to be looked at. *)
Definition will_send (c : place) : bool :=
  match c with Sending (SReturned _) => false | Sending _ | Sent _ | Freeing => true | _ => false end.

Definition in_hand (c : place) : list packet :=
  match c with Sending (STook pkt | SMarked pkt) => [pkt] | _ => [] end.
Definition hands (ts : list place) : list packet := ts ≫= in_hand.

Lemma hands_mid l1 c l2 : hands (l1 ++ c :: l2) ≡ₚ in_hand c ++ hands (l1 ++ l2).
Proof. unfold hands. rewrite !bind_app. csimpl. rewrite Permutation_app_swap_app. done. Qed.

(** *** One step of work *)

Lemma ops_take s : s_ops (take_packet s).2 = s_ops s /\ s_sending (take_packet s).2 = s_sending s.
Proof. unfold take_packet. by repeat case_match. Qed.

Lemma ops_hang_up shutdown s : s_ops (hang_up shutdown s).2 = s_ops s /\
  s_sending (hang_up shutdown s).2 = s_sending s /\ s_packetQueue (hang_up shutdown s).2 = s_packetQueue s.
Proof. by destruct shutdown. Qed.

Lemma ops_count_packet pkt s : s_ops (count_packet pkt s).2 = s_ops s /\
  s_sending (count_packet pkt s).2 = s_sending s /\
  s_packetQueue (count_packet pkt s).2 = s_packetQueue s.
Proof. unfold count_packet, bindM, modify. by destruct (_ && _). Qed.

Lemma ops_count_sent error s : s_ops (count_sent error s).2 = s_ops s /\
  s_sending (count_sent error s).2 = s_sending s /\ s_packetQueue (count_sent error s).2 = s_packetQueue s.
Proof. unfold count_sent. by case_decide. Qed.

(** What a step of work does to the operations, to [m_sending] and to the queue. *)
Inductive work_effect (s s' : session) : place -> place -> Prop :=
| E_quiet c c' : s_ops s' = s_ops s -> s_sending s' = s_sending s -> s_packetQueue s' = s_packetQueue s ->
    (reading c' = true -> reading c = true) -> deciding c = false -> deciding c' = false ->
    marked c = marked c' -> in_hand c = [] -> in_hand c' = [] -> entered c s = [] -> given c = [] ->
    (will_send c' = false -> will_send c = true -> s_sending s = true) ->
    work_effect s s' c c'
| E_read op c : is_receive op = true -> reading c = true -> s_ops s' = s_ops s ++ [op] ->
    s_sending s' = s_sending s -> s_packetQueue s' = s_packetQueue s ->
    deciding c = false -> marked c = false -> in_hand c = [] -> entered c s = [] -> given c = [] ->
    will_send c = false -> work_effect s s' c Done
| E_post pkt : s_ops s' = s_ops s -> s_sending s' = s_sending s ->
    s_packetQueue s' = s_packetQueue s ++ [pkt] ->
    work_effect s s' (Posting pkt) (Sending SCall)
| E_test : s' = s -> s_sending s = false -> work_effect s s' (Sending SCall) (Sending STested)
| E_nothing : s_ops s' = s_ops s -> s_sending s' = s_sending s -> s_packetQueue s' = [] ->
    s_packetQueue s = [] -> entered (Sending STested) s = [] ->
    work_effect s s' (Sending STested) (Sending (SReturned false))
| E_take pkt : s_ops s' = s_ops s -> s_sending s' = s_sending s ->
    entered (Sending STested) s ++ s_packetQueue s ≡ₚ pkt :: s_packetQueue s' ->
    work_effect s s' (Sending STested) (Sending (STook pkt))
| E_mark pkt : s_ops s' = s_ops s -> s_sending s' = true -> s_packetQueue s' = s_packetQueue s ->
    work_effect s s' (Sending (STook pkt)) (Sending (SMarked pkt))
| E_write pkt : s_ops s' = s_ops s ++ [OpWrite pkt] -> s_sending s' = s_sending s ->
    s_packetQueue s' = s_packetQueue s ->
    work_effect s s' (Sending (SMarked pkt)) (Sending (SReturned true))
| E_free : s_ops s' = s_ops s -> s_sending s' = false -> s_packetQueue s' = s_packetQueue s ->
    work_effect s s' Freeing (Sending SCall).

Lemma work_effects c s c' s' : work c s = Some (c', s') -> work_effect s s' c c'.
Proof.
  destruct c; cbn [work].
  - case_decide; [case_match; [|done]|]; intros [= <- <-]; by apply E_quiet.
  - unfold lost. repeat case_decide; intros [= <- <-]; apply E_quiet; try done; by repeat case_match.
  - unfold lost. repeat case_decide; intros [= <- <-].
    + eapply E_read; [|done..]. done.
    + by apply E_quiet.
    + apply E_quiet; try done; by repeat case_match.
  - intros [= <- <-]. unfold recvPacketBody. case_match; [|by apply E_quiet]. eapply E_read; [|done..]. done.
  - intros [= <- <-]. destruct (ops_count_packet pkt s) as (? & ? & ?). by apply E_quiet.
  - intros [= <- <-]. unfold recvPacket. case_match; [|by apply E_quiet]. eapply E_read; [|done..]. done.
  - intros [= <- <-]. by apply E_post.
  - intros [= <- <-]. apply E_quiet; try done; by case_match.
  - destruct c as [| |pkt|pkt|r].
    + intros [= <- <-]. destruct (s_sending s) eqn:E; [by apply E_quiet|by apply E_test].
    + unfold take_packet. destruct (s_packetQueue s) as [|pkt q] eqn:Hq; cbn.
      * destruct (engine_packets (s_engine s)) as [|pkt q] eqn:He; intros [= <- <-].
        -- apply E_nothing; try done. cbn. by rewrite Hq.
        -- apply E_take; try done. cbn. by rewrite Hq, He, app_nil_r.
      * rewrite Hq. intros [= <- <-]. apply E_take; try done. cbn. by rewrite Hq.
    + intros [= <- <-]. by apply E_mark.
    + intros [= <- <-]. by apply E_write.
    + intros [= <- <-]. by apply E_quiet.
  - intros [= <- <-]. destruct (ops_count_sent error s) as (? & ? & ?). by apply E_quiet.
  - intros [= <- <-]. by apply E_free.
  - intros [= <- <-]. destruct (ops_hang_up shutdown s) as (? & ? & ?). by apply E_quiet.
  - done.
Qed.
End invariants.

(** ** Every interleaving *)

Section interleavings.
Context `{Platform}.

Lemma run_weaken (P Q : state -> Prop) s0 ins outs st :
  (forall st, P st -> Q st) -> workers_run P s0 ins outs st -> workers_run Q s0 ins outs st.
Proof. intros HPQ. induction 1; [constructor|econstructor; eauto]. Qed.

Lemma run_inv (P I : state -> Prop) s0 :
  I ([], s0) -> (forall st i o st', P st -> I st -> workers_step st i o st' -> P st' -> I st') ->
  P ([], s0) -> forall ins outs st, workers_run P s0 ins outs st -> I st.
Proof.
  intros H0 Hstep HP0 ins outs st Hrun. assert (Hboth : P st /\ I st); [|by apply Hboth].
  induction Hrun as [|ins outs st i o st' _ [HP HI] Hs HP']; [done|]. split; [done|exact (Hstep _ _ _ _ HP HI Hs HP')].
Qed.

(** *** Reads *)

Lemma pending_ops s s' : s_ops s' = s_ops s -> pending s' = pending s.
Proof. unfold pending. by intros ->. Qed.
Lemma writes_ops s s' : s_ops s' = s_ops s -> writes s' = writes s.
Proof. unfold writes. by intros ->. Qed.

Lemma pending_snoc s s' op : s_ops s' = s_ops s ++ [op] ->
  length (pending s') = (length (pending s) + Nat.b2n (is_receive op))%nat.
Proof.
  unfold pending. intros ->. rewrite filter_app, length_app. f_equal.
  rewrite filter_cons, filter_nil. by destruct (is_receive op).
Qed.

Lemma writes_snoc s s' op : s_ops s' = s_ops s ++ [op] ->
  length (writes s') = (length (writes s) + Nat.b2n (negb (is_receive op)))%nat.
Proof. unfold writes. intros ->. rewrite omap_app, length_app. f_equal. by destruct op. Qed.

Lemma split_counts s ops1 op ops2 : s_ops s = ops1 ++ op :: ops2 ->
  let s' := with_ops (ops1 ++ ops2) s in
  length (pending s) = (length (pending s') + Nat.b2n (is_receive op))%nat /\
  length (writes s) = (length (writes s') + Nat.b2n (negb (is_receive op)))%nat.
Proof.
  intros E. unfold pending, writes. cbn [s_ops with_ops]. rewrite E.
  rewrite !filter_app, !omap_app, !length_app, filter_cons. csimpl.
  split; [|destruct op; simpl; lia]. destruct (is_receive op); case_decide; simpl; try done; lia.
Qed.

Definition reads_inv (st : state) : Prop :=
  (length (pending st.2) + count reading st.1 <= 1)%nat.

Lemma reads_step st i o st' : reads_inv st -> workers_step st i o st' -> reads_inv st'.
Proof.
  unfold reads_inv. intros Hi Hs. destruct Hs as [l1 c l2 s c' s' Hw|ts c s Hc|ts ops1 op ops2 c s E Hc];
    cbn [fst snd] in *.
  - rewrite count_mid in Hi |- *. apply work_effects in Hw.
    destruct Hw as [c c' E _ _ Hr _ _ _ _ _ _ _ _|op c Hop Hr E _ _ _ _ _ _ _ _| | | | | | |];
      try (rewrite (pending_ops s s') by done; exact Hi).
    + rewrite (pending_ops _ _ E). destruct (reading c'); [rewrite Hr in Hi by done|]; simpl in *; lia.
    + rewrite (pending_snoc _ _ _ E), Hop. rewrite Hr in Hi. simpl in *. lia.
    + subst s'. exact Hi.
    + match goal with E : s_ops s' = s_ops s ++ _ |- _ => rewrite (pending_snoc _ _ _ E) end.
      simpl in *. lia.
  - rewrite count_cons. by destruct c as [| | | | | | | |[]| | | |].
  - rewrite count_cons. destruct (split_counts s ops1 op ops2 E) as [Ep _].
    destruct Hc; cbn [reading is_receive] in *; simpl in *; lia.
Qed.

(** *** Writes *)

(** At most one thread is between the test and the assignment of the flag. *)
Definition one_decides (st : state) : Prop := (count deciding st.1 <= 1)%nat.

Definition writes_inv (st : state) : Prop :=
  Nat.b2n (s_sending st.2) = (count marked st.1 + length (writes st.2))%nat /\
  ((0 < count deciding st.1)%nat -> s_sending st.2 = false).

Lemma writes_step st i o st' :
  one_decides st -> writes_inv st -> workers_step st i o st' -> one_decides st' -> writes_inv st'.
Proof.
  unfold writes_inv, one_decides. intros H1 [Hi Hd] Hs H1'.
  destruct Hs as [l1 c l2 s c' s' Hw|ts c s Hc|ts ops1 op ops2 c s E Hc]; cbn [fst snd] in *.
  - rewrite !count_mid in *. apply work_effects in Hw.
    destruct Hw as [c c' E Es _ _ D D' Hh _ _ _ _ _|op c Hop _ E Es _ D Hh _ _ _ _
      |pkt E Es _|E Es|E Es _ _ _|pkt E Es _|pkt E Es _|pkt E Es _|E Es _].
    + rewrite (writes_ops _ _ E), Es, <- Hh. rewrite D in Hd. by rewrite D'.
    + rewrite (writes_snoc _ _ _ E), Es, Hop. rewrite D, Hh in *. simpl in *. split; [lia|exact Hd].
    + rewrite (writes_ops _ _ E), Es. split; [exact Hi|exact Hd].
    + subst s'. split; [exact Hi|done].
    + rewrite (writes_ops _ _ E), Es. simpl in *. split; [exact Hi|]. intros ?. apply Hd. lia.
    + rewrite (writes_ops _ _ E), Es. split; [exact Hi|exact Hd].
    + rewrite (writes_ops _ _ E), Es. simpl in *. rewrite Hd in Hi by lia. simpl in *.
      split; [lia|]. intros ?. lia.
    + rewrite (writes_snoc _ _ _ E), Es. simpl in *. split; [lia|exact Hd].
    + rewrite (writes_ops _ _ E), Es. simpl in *. destruct (s_sending s); simpl in *; [|lia].
      split; [lia|done].
  - rewrite !count_cons. destruct c as [| | | | | | | |[]| | | |]; try done; exact (conj Hi Hd).
  - rewrite !count_cons in *. destruct (split_counts s ops1 op ops2 E) as [_ Ew]. cbn [s_sending with_ops].
    destruct Hc; cbn [marked deciding is_receive] in *; simpl in *; (split; [lia|exact Hd]).
Qed.

(** *** Packets *)

(** As long as the flag is set, someone is going to reset it; as long as packets wait, someone is
    going to look. *)
Definition alive_inv (st : state) : Prop :=
  (s_sending st.2 = true -> (0 < count marked st.1 + length (writes st.2))%nat) /\
  (s_packetQueue st.2 <> [] -> (0 < count will_send st.1 + length (writes st.2))%nat).

Lemma marked_will_send c : marked c = true -> will_send c = true.
Proof. by destruct c as [| | | | | | | |[]| | | |]. Qed.

Lemma alive_step st i o st' : alive_inv st -> workers_step st i o st' -> alive_inv st'.
Proof.
  unfold alive_inv. intros [Hb Hq] Hs.
  destruct Hs as [l1 c l2 s c' s' Hw|ts c s Hc|ts ops1 op ops2 c s E Hc]; cbn [fst snd] in *.
  - pose proof (count_le marked will_send (l1 ++ l2) marked_will_send) as Hle.
    rewrite !count_mid in *. apply work_effects in Hw.
    destruct Hw as [c c' E Es Eq _ _ _ Hh _ _ _ _ Hsd|op c Hop _ E Es Eq _ Hh _ _ _ Hsd
      |pkt E Es _|E Es|E Es Eq _ _|pkt E Es _|pkt E Es Eq|pkt E Es Eq|E Es Eq];
      rewrite ?(writes_ops _ _ E), ?(writes_snoc _ _ _ E), ?Es, ?Eq.
    + rewrite <- Hh. split; [exact Hb|]. intros Hne. specialize (Hq Hne).
      destruct (will_send c') eqn:Hs'; [simpl; lia|]. destruct (will_send c) eqn:Hsc; [|exact Hq].
      specialize (Hb (Hsd eq_refl eq_refl)).
      destruct (marked c') eqn:Hh'; [rewrite (marked_will_send c' Hh') in Hs'; done|].
      rewrite Hh in Hb. simpl in *. lia.
    + rewrite Hh, Hsd in *. simpl in *. split; [intros Hx; specialize (Hb Hx)|intros Hx; specialize (Hq Hx)]; lia.
    + simpl. split; [exact Hb|]. intros _. lia.
    + subst s'. simpl in *. split; [exact Hb|]. intros _. lia.
    + split; [exact Hb|done].
    + simpl in *. split; [exact Hb|]. intros _. lia.
    + simpl in *. split; intros _; lia.
    + simpl in *. split; intros _; lia.
    + simpl in *. split; [done|]. intros _. lia.
  - rewrite !count_cons. split; intros Hx; [specialize (Hb Hx)|specialize (Hq Hx)];
      destruct c as [| | | | | | | |[]| | | |]; simpl in *; try done; lia.
  - rewrite !count_cons. destruct (split_counts s ops1 op ops2 E) as [_ Ew].
    cbn [s_sending s_packetQueue with_ops].
    split; intros Hx; [specialize (Hb Hx)|specialize (Hq Hx)]; destruct Hc; simpl in *; lia.
Qed.

Lemma work_packets c s c' s' : work c s = Some (c', s') ->
  entered c s ++ in_hand c ++ s_packetQueue s ≡ₚ given c ++ in_hand c' ++ s_packetQueue s'.
Proof.
  intros Hw%work_effects.
  destruct Hw as [c c' _ _ Eq _ _ _ _ Hi Hi' He Hwr _|op c _ _ _ _ Eq _ _ Hi He Hwr _
      |pkt _ _ Eq|E _|_ _ Eq Eq' He|pkt _ _ Ep|pkt _ _ Eq|pkt _ _ Eq|_ _ Eq].
  - by rewrite Hi, Hi', He, Hwr, Eq.
  - by rewrite Hi, He, Hwr, Eq.
  - cbn. rewrite Eq. by rewrite Permutation_app_comm.
  - by subst s'.
  - rewrite He, Eq, Eq'. done.
  - exact Ep.
  - cbn. by rewrite Eq.
  - cbn. by rewrite Eq.
  - cbn. by rewrite Eq.
Qed.

Lemma packets_step st i o st' : workers_step st i o st' ->
  i ++ hands st.1 ++ s_packetQueue st.2 ≡ₚ o ++ hands st'.1 ++ s_packetQueue st'.2.
Proof.
  intros [l1 c l2 s c' s' Hw|ts c s Hc|ts ops1 op ops2 c s E Hc]; cbn [fst snd].
  - rewrite !hands_mid.
    assert (Hmid : forall a b q : list packet,
      a ++ (b ++ hands (l1 ++ l2)) ++ q ≡ₚ hands (l1 ++ l2) ++ (a ++ b ++ q)).
    { intros a b q. rewrite <- (assoc_L (++)), (Permutation_app_swap_app b). apply Permutation_app_swap_app. }
    rewrite !Hmid. f_equiv. by apply work_packets.
  - unfold hands. csimpl. by destruct c as [| | | | | | | |[]| | | |].
  - unfold hands. csimpl. by destruct Hc.
Qed.

Lemma packets_run P s0 ins outs st : s_packetQueue s0 = [] -> workers_run P s0 ins outs st ->
  ins ≡ₚ outs ++ hands st.1 ++ s_packetQueue st.2.
Proof.
  intros H0. induction 1 as [|ins outs st i o st' _ IH Hs _]; [by cbn; rewrite H0|].
  apply packets_step in Hs. rewrite IH. rewrite <- !(assoc_L (++)). f_equiv.
  rewrite <- Hs. rewrite (assoc_L (++)). rewrite Permutation_app_comm. done.
Qed.
End interleavings.

(** ** A worker that nobody disturbs *)

Section alone.
Context `{Platform}.

(** A number of stops of one worker. *)
Definition works : relation (place * session) := rtc (fun x y => work x.1 x.2 = Some y).

Lemma works_step c s c1 s1 x : work c s = Some (c1, s1) -> works (c1, s1) x -> works (c, s) x.
Proof. intros Hw. by apply rtc_l. Qed.

(** The session [p] of the world a handler leaves. *)
Definition leaves {A} (p : nat) (m : M world A) (w : world) (s' : session) : Prop :=
  w_sessions (m w).2 !! p = Some s'.

Lemma send_works s : works (Sending SCall, s) (Done, (sendPacket s).2).
Proof.
  destruct (send_alone s) as (r & Hr & _).
  assert (Hgen : forall x y, rtc send_step x y -> works (Sending x.1, x.2) (Sending y.1, y.2)).
  { intros x y. induction 1 as [x|x y z Hs _ IH]; [apply rtc_refl|].
    eapply rtc_l; [|exact IH]. destruct Hs; cbn; try done. by destruct (take_packet s0). }
  etrans; [apply (Hgen _ _ Hr)|]. eapply works_step; [reflexivity|apply rtc_refl].
Qed.

Lemma sendPacket_then {A} (a : A) s : ((sendPacket ;; ret a)%zway s).2 = (sendPacket s).2.
Proof. unfold bindM. by destruct (sendPacket s) as [[b|f] s1]. Qed.

Lemma post_works pkt s : works (Posting pkt, s) (Done, (postPacket (Some pkt) s).2).
Proof. eapply works_step; [reflexivity|]. rewrite run_post. apply send_works. Qed.

Lemma add_works i s : works (Adding i, s) (Done, (addStreamSender i s).2).
Proof.
  eapply works_step; [reflexivity|]. set (s1 := (engine_call_ (CallAddStreamSender i) s).2).
  assert (E : (addStreamSender i s).2 =
    if engine_addStreamSender (s_engine s) i then ((sendPacket ;; ret true)%zway s1).2 else s1).
  { unfold addStreamSender, bindM at 1 2, gets. by destruct (engine_addStreamSender _ i). }
  rewrite E. destruct (engine_addStreamSender _ i); [|apply rtc_refl].
  rewrite sendPacket_then. apply send_works.
Qed.

Lemma sent_works error s : works (Sent error, s) (Done, (onPacketSent error s).2).
Proof.
  eapply works_step; [reflexivity|]. eapply works_step; [reflexivity|].
  assert (E : onPacketSent error s = (sendPacket ;; ret tt)%zway (with_sending false (count_sent error s).2)).
  { unfold onPacketSent, count_sent. by case_decide. }
  rewrite E, sendPacket_then. apply send_works.
Qed.
End alone.

Section alone_reading.
Context `{PlatformLaws}.
Context (p : nat) (s : session) (w : world) (Hs : w_sessions w !! p = Some s).

Lemma close_works shutdown remove :
  works (Closing shutdown, s) (Done, (hang_up shutdown s).2) /\
  leaves p (close p shutdown remove) w (hang_up shutdown s).2.
Proof.
  split; [eapply works_step; [reflexivity|apply rtc_refl]|]. unfold leaves, close. fold (hang_up shutdown).
  unfold bindM. rewrite (run_on_session p s) by done.
  assert (Hr : (hang_up shutdown s).1 = Ret tt) by (by destruct shutdown).
  set (w1 := with_sessions _ w). assert (Hs1 : w_sessions w1 !! p = Some (hang_up shutdown s).2) by apply lookup_insert_eq.
  destruct (hang_up shutdown s) as [r s1]. cbn in Hr. subst r. cbn [fst snd] in *.
  unfold when. destruct remove; [|done]. by destruct (removeSession_run p s1 w1 Hs1) as (reg & -> & _).
Qed.

Lemma asking_works : works (Asking, s) (Done, (recvPacket s).2).
Proof. eapply works_step; [reflexivity|apply rtc_refl]. Qed.
End alone_reading.

Section alone_handlers.
Context `{PlatformLaws}.
Context (p : nat).

Lemma on_session_leaves {A B} s (m : M session A) (k : M world B) w s1 a w1 s' :
  w_sessions w !! p = Some s -> m s = (Ret a, s1) ->
  w1 = with_sessions (<[p := s1]> (w_sessions w)) w -> leaves p k w1 s' ->
  leaves p (on_session p m ;; k)%zway w s'.
Proof.
  intros Hs Hm -> Hk. unfold leaves, bindM in *. rewrite (run_on_session p s), Hm by done. exact Hk.
Qed.

Lemma received_works pkt s w : w_sessions w !! p = Some s ->
  exists s', works (Received pkt, s) (Done, s') /\ leaves p (onPacketRecv log_packet p pkt) w s'.
Proof.
  intros Hs. exists (recvPacket (count_packet pkt s).2).2. split.
  { eapply works_step; [reflexivity|]. apply asking_works. }
  unfold onPacketRecv, update. eapply on_session_leaves; [done|reflexivity|reflexivity|].
  unfold leaves, count_packet, log_packet, bindM. cbn [fst snd modify].
  destruct (_ && _).
  - erewrite run_on_session by apply lookup_insert_eq. cbn.
    erewrite run_on_session by apply lookup_insert_eq.
    unfold recvPacket. destruct packet_create; cbn; by rewrite lookup_insert_eq.
  - cbn. erewrite run_on_session by apply lookup_insert_eq.
    unfold recvPacket. destruct packet_create; cbn; by rewrite lookup_insert_eq.
Qed.

Lemma lost_works error s w : w_sessions w !! p = Some s ->
  exists s', works (lost error, s) (Done, s') /\
    leaves p (if connection_lost error then close p false true else ret tt) w s'.
Proof.
  intros Hs. unfold lost. destruct (connection_lost error); [|by exists s; split; [apply rtc_refl|]].
  eexists. by apply close_works.
Qed.

(** Each handler of the socket is its worker, run to the end. *)
Lemma handshake_works error host s w : w_sessions w !! p = Some s ->
  exists s', works (Started error (Some host), s) (Done, s') /\
    leaves p (handleHandshake p error (Some host)) w s'.
Proof.
  intros Hs. unfold handleHandshake. destruct (decide (error = no_error)) as [E|E].
  - eexists. split.
    { eapply works_step; [cbn [work]; rewrite decide_True by done; reflexivity|]. apply asking_works. }
    unfold leaves, bindM. rewrite (run_on_session p s) by done.
    unfold recvPacket. cbn. destruct packet_create; cbn; by rewrite lookup_insert_eq.
  - destruct (close_works p s w Hs false true) as [H1 H2]. eexists. split; [|exact H2].
    eapply works_step; [cbn [work]; rewrite decide_False by done; reflexivity|]. exact H1.
Qed.

Lemma head_works error n pkt s w : w_sessions w !! p = Some s ->
  exists s', works (GotHead error n pkt, s) (Done, s') /\
    leaves p (onPacketHeadRecv log_packet p error n pkt) w s'.
Proof.
  intros Hs. unfold onPacketHeadRecv.
  destruct (decide (error = no_error /\ n = sizeof_PacketHead)) as [E1|E1].
  - set (w1 := with_sessions (<[p := with_timer true s]> (w_sessions w)) w).
    assert (Hs1 : w_sessions w1 !! p = Some (with_timer true s)) by apply lookup_insert_eq.
    destruct (pkt_bodySize pkt >? 0) eqn:Hb.
    + eexists. split.
      { eapply works_step; [cbn [work]; rewrite decide_True, Hb by done; reflexivity|].
        eapply works_step; [reflexivity|apply rtc_refl]. }
      eapply on_session_leaves; [done|reflexivity|reflexivity|]. unfold leaves.
      fold w1. rewrite (run_on_session p (with_timer true s)) by done. cbn. by rewrite lookup_insert_eq.
    + destruct (received_works pkt _ w1 Hs1) as (s' & Hw & Hl). exists s'. split.
      { eapply works_step; [cbn [work]; rewrite decide_True, Hb by done; reflexivity|]. exact Hw. }
      eapply on_session_leaves; [done|reflexivity|reflexivity|exact Hl].
  - destruct (decide (error = no_error /\ n = 0)) as [E2|E2].
    + eexists. split.
      { eapply works_step; [cbn [work]; rewrite decide_False, decide_True by done; reflexivity|].
        apply asking_works. }
      unfold leaves, bindM. rewrite (run_on_session p s) by done.
      unfold recvPacket. destruct packet_create; cbn; by rewrite lookup_insert_eq.
    + destruct (lost_works error s w Hs) as (s' & Hw & Hl). exists s'. split; [|exact Hl].
      eapply works_step; [cbn [work]; rewrite !decide_False by done; reflexivity|exact Hw].
Qed.

Lemma body_works error n offset pkt s w : w_sessions w !! p = Some s ->
  exists s', works (GotBody error n offset pkt, s) (Done, s') /\
    leaves p (onPacketBodyRecv log_packet p error n offset pkt) w s'.
Proof.
  intros Hs. unfold onPacketBodyRecv.
  destruct (decide (error = no_error /\ offset + n < pkt_bodySize pkt)) as [E1|E1].
  - eexists. split.
    { eapply works_step; [cbn [work]; rewrite decide_True by done; reflexivity|apply rtc_refl]. }
    unfold leaves. rewrite (run_on_session p s) by done. cbn. by rewrite lookup_insert_eq.
  - destruct (decide (error = no_error /\ offset + n = pkt_bodySize pkt)) as [E2|E2].
    + set (w1 := with_sessions (<[p := with_timer true s]> (w_sessions w)) w).
      assert (Hs1 : w_sessions w1 !! p = Some (with_timer true s)) by apply lookup_insert_eq.
      destruct (received_works pkt _ w1 Hs1) as (s' & Hw & Hl). exists s'. split.
      { eapply works_step; [cbn [work]; rewrite decide_False, decide_True by done; reflexivity|]. exact Hw. }
      eapply on_session_leaves; [done|reflexivity|reflexivity|exact Hl].
    + destruct (lost_works error s w Hs) as (s' & Hw & Hl). exists s'. split; [|exact Hl].
      eapply works_step; [cbn [work]; rewrite !decide_False by done; reflexivity|exact Hw].
Qed.
End alone_handlers.

(** ** What holds in every interleaving *)

Section workers_specs.
Context `{Platform}.

Section race.
Context (s0 : session).

Definition reached (st : state) : Prop := exists ins outs, workers_run (fun _ => True) s0 ins outs st.

Lemma reached_call c ts s : called c = true -> reached (ts, s) -> reached (c :: ts, s).
Proof. intros Hc (ins & outs & Hr). eexists _, _. eapply run_step; [exact Hr|by apply W_call|done]. Qed.

Lemma reached_work l1 c l2 s c' s' : work c s = Some (c', s') ->
  reached (l1 ++ c :: l2, s) -> reached (l1 ++ c' :: l2, s').
Proof. intros Hw (ins & outs & Hr). eexists _, _. eapply run_step; [exact Hr|by apply W_work|done]. Qed.

(** Two threads that post at the same time. *)
Lemma race pkt1 pkt2 : fresh s0 -> exists ts s, reached (ts, s) /\ writes s = [pkt1; pkt2].
Proof.
  intros (Hops & Hi & Hq).
  set (s1 := with_packetQueue [pkt1] s0). set (s2 := with_packetQueue [pkt1; pkt2] s0).
  assert (H0 : reached ([], s0)) by (eexists _, _; apply run_start).
  apply (reached_call (Posting pkt2)), (reached_call (Posting pkt1)) in H0; [|done..].
  apply (reached_work [] _ [Posting pkt2] s0 (Sending SCall) s1) in H0; [|cbn; by rewrite Hq].
  apply (reached_work [Sending SCall] _ [] s1 (Sending SCall) s2) in H0; [|done].
  apply (reached_work [] _ [Sending SCall] s2 (Sending STested) s2) in H0; [|cbn; by rewrite Hi].
  apply (reached_work [Sending STested] _ [] s2 (Sending STested) s2) in H0; [|cbn; by rewrite Hi].
  apply (reached_work [] _ [Sending STested] s2 (Sending (STook pkt1)) (with_packetQueue [pkt2] s2)) in H0; [|done].
  apply (reached_work [Sending (STook pkt1)] _ [] _ (Sending (STook pkt2)) (with_packetQueue [] s2)) in H0; [|done].
  set (s3 := with_packetQueue [] s2) in H0. set (s4 := with_sending true s3).
  apply (reached_work [] _ [Sending (STook pkt2)] s3 (Sending (SMarked pkt1)) s4) in H0; [|done].
  apply (reached_work [Sending (SMarked pkt1)] _ [] s4 (Sending (SMarked pkt2)) s4) in H0; [|done].
  set (s5 := (start_op (OpWrite pkt1) s4).2). set (s6 := (start_op (OpWrite pkt2) s5).2).
  apply (reached_work [] _ [Sending (SMarked pkt2)] s4 (Sending (SReturned true)) s5) in H0; [|done].
  apply (reached_work [Sending (SReturned true)] _ [] s5 (Sending (SReturned true)) s6) in H0; [|done].
  eexists _, s6. split; [exact H0|]. unfold writes. cbn. by rewrite Hops.
Qed.
End race.

(** C21: One operation at a time on a socket, with any number of workers. However the threads of
    the pool are interleaved, at most one operation that reads from the socket of a session is
    outstanding, and none while a worker is still going to start one: the next read is
    started by the handler of the last. For the writes there is only [m_sending], whose test and
    assignment are apart: there is at most one write as long as no two workers are between the
    two at the same time, the flag is set as long as there is one, and when two posts do come
    together there, two writes are started on the one socket. *)
Theorem operations_exclusive s0 :
  fresh s0 ->
  (forall ins outs ts s, workers_run (fun _ => True) s0 ins outs (ts, s) ->
     (length (pending s) + count reading ts <= 1)%nat) /\
  (forall ins outs ts s, workers_run one_decides s0 ins outs (ts, s) ->
     (length (writes s) <= 1)%nat /\ (writes s <> [] -> s_sending s = true)) /\
  (forall pkt1 pkt2, exists ins outs ts s, workers_run (fun _ => True) s0 ins outs (ts, s) /\
     writes s = [pkt1; pkt2]).
Proof.
  intros Hf. pose proof Hf as (Hops & Hi & Hq). split_and!.
  - intros ins outs ts s Hr. refine (run_inv _ reads_inv s0 _ _ I ins outs (ts, s) Hr).
    + unfold reads_inv, pending. cbn. by rewrite Hops.
    + intros st i o st' _ HI Hs _. by eapply reads_step.
  - intros ins outs ts s Hr. assert (Hw : writes_inv (ts, s)).
    { refine (run_inv one_decides writes_inv s0 _ writes_step _ ins outs (ts, s) Hr).
      - unfold writes_inv, writes. cbn. by rewrite Hops, Hi.
      - unfold one_decides. cbn. lia. }
    destruct Hw as [Hw _]. cbn [fst snd] in Hw.
    destruct (s_sending s); simpl in Hw; (split; [lia|]); [done|].
    intros Hne. destruct (writes s); [done|]. simpl in Hw. lia.
  - intros pkt1 pkt2. destruct (race s0 pkt1 pkt2 Hf) as (ts & s & (ins & outs & Hr) & Hw).
    by exists ins, outs, ts, s.
Qed.

(** C16: No packet is lost, doubled or left behind, with any number of workers. However the threads
    of the pool are interleaved, also when writes fail and when two workers send at the same time,
    the packets that were posted or made by the stream senders are those that were given to the
    socket, those in the hands of a worker and those in the queue. As long as packets wait, a
    write is outstanding or a worker is going to look at the queue; so when there is neither,
    everything has been given to the socket, once, and the session is not marked as
    sending. *)
Theorem packets_conserved s0 ins outs ts s :
  fresh s0 -> workers_run (fun _ => True) s0 ins outs (ts, s) ->
  ins ≡ₚ outs ++ hands ts ++ s_packetQueue s /\
  (s_packetQueue s <> [] -> writes s <> [] \/ exists c, c ∈ ts /\ will_send c = true) /\
  (writes s = [] -> Forall (fun c => will_send c = false) ts -> ins ≡ₚ outs /\ s_sending s = false).
Proof.
  intros (Hops & Hi & Hq) Hr. pose proof (packets_run _ _ _ _ _ Hq Hr) as Hp. cbn [fst snd] in Hp.
  assert (Ha : alive_inv (ts, s)).
  { refine (run_inv _ alive_inv s0 _ _ I ins outs (ts, s) Hr).
    - unfold alive_inv. cbn. by rewrite Hi, Hq.
    - intros st i o st' _ HI Hs _. by eapply alive_step. }
  destruct Ha as [Hb Hw]. cbn [fst snd] in Hb, Hw. split_and!; [done| |].
  - intros Hne. specialize (Hw Hne). destruct (writes s) as [|pkt l]; [right|by left].
    unfold count in Hw. destruct (filter _ ts) as [|c l] eqn:E; [simpl in Hw; lia|].
    exists c. assert (Hc : c ∈ filter (fun c => will_send c = true) ts) by (rewrite E; left).
    apply list_elem_of_filter in Hc. tauto.
  - intros Hnw Hn. pose proof (count_none will_send ts Hn) as Hz. rewrite Hnw, Hz in *. simpl in Hw, Hb.
    pose proof (count_le marked will_send ts marked_will_send) as Hle.
    assert (Hh : hands ts = []).
    { clear -Hn. induction Hn as [|c ts Hc _ IH]; [done|]. unfold hands. csimpl.
      fold (hands ts). rewrite IH, app_nil_r. by destruct c as [| | | | | | | |[]| | | |]. }
    split.
    + rewrite Hp, Hh. destruct (s_packetQueue s); [by rewrite app_nil_r|]. specialize (Hw ltac:(done)). lia.
    + destruct (s_sending s); [|done]. specialize (Hb eq_refl). lia.
Qed.
End workers_specs.
