(* ===== verification/Heard.v ===== *)
(** * A client that is connected is listened to

    The other half of [Sockets]: a read is not only never outstanding twice on a socket, there
    always is one, as long as the peer sends whole heads and nothing fails on its connection.
    [Transport.head_read_outcomes] tells what happens otherwise. *)

From S2P Require Import Prelude Values Platform Codec Pool Db Stdio StreamBuffer Streams World.
From S2P Require Import Registry Transport Session Contacts Requests Fcm Server Console Frames.
From S2P Require Import System Auth Typed Sockets.

Local Open Scope zway_scope.
Local Open Scope Z_scope.

Section heard.
Context `{PlatformLaws}.
Context (p : nat).

(** What happens on the socket of [p] goes well: no errors, and heads in one piece. *)
Definition goes_well (e : event) : Prop :=
  match e with
  | EvAccept error q => q = p -> error = no_error
  | EvHandshake q error host => q = p -> error = no_error /\ is_Some host
  | EvHead q error n _ => q = p -> error = no_error /\ (n = sizeof_PacketHead \/ n = 0)
  | EvBody q error _ _ _ _ => q = p -> error = no_error
  | _ => True
  end.

(** The library makes packets and their bodies. *)
Definition packets_made : Prop :=
  is_Some packet_create /\ forall n, 0 < n < 2 ^ 32 -> is_Some (zbuffer_create n).

Definition heard (w : world) : Prop :=
  forall s, w_sessions w !! p = Some s -> p ∉ sv_accepting (w_server w) -> pending s <> [].

Lemma pending_length s : pending s <> [] <-> (1 <= length (pending s))%nat.
Proof. destruct (pending s); simpl; split; try done; lia. Qed.

Lemma heard_grow q n w w' : grow q n w w' -> heard w -> heard w'.
Proof.
  intros [O N A] Hw s' Hs' Hp. assert (Hacc := A p). destruct (w_sessions w !! p) as [s|] eqn:Hs.
  - destruct (O p s Hs) as (s1 & Hs1 & [R _]). simplify_eq. specialize (Hw s Hs).
    rewrite !pending_length in *. enough (1 <= length (pending s))%nat by lia. apply Hw.
    intros Hin. apply Hp, Hacc. by left.
  - exfalso. apply Hp, Hacc. right. split; [done|by eexists].
Qed.

(** *** Computations after which a read is outstanding *)

Definition listens {A} (m : M world A) : Prop := forall w a w',
  m w = (Ret a, w') -> exists s, w_sessions w' !! p = Some s /\ pending s <> [].

Lemma listens_bind {A B} (m : M world A) (k : A -> M world B) :
  (forall a, listens (k a)) -> listens (bindM m k).
Proof. intros Hk w b w' Hrun. apply run_bind_inv in Hrun as (a & w1 & _ & Hrun). by eapply Hk. Qed.

Lemma listens_then {A B} (m : M world A) (k : A -> M world B) :
  listens m -> (forall a, preserves (grow p 0) (k a)) -> listens (bindM m k).
Proof.
  intros Hm Hk w b w' Hrun. apply run_bind_inv in Hrun as (a & w1 & Hrun1 & Hrun).
  destruct (Hm w a w1 Hrun1) as (s & Hs & Hp). pose proof (Hk a w1) as [O _ _]. rewrite Hrun in O.
  destruct (O p s Hs) as (s' & Hs' & [R _]). exists s'. split; [done|].
  rewrite pending_length in *. lia.
Qed.

Lemma listens_on_session {A} (m : M session A) :
  (forall s, pending (m s).2 <> []) -> listens (on_session p m).
Proof.
  intros Hm w a w' Hrun. unfold on_session in Hrun. destruct (w_sessions w !! p) as [s|] eqn:Hs; [|done].
  specialize (Hm s). destruct (m s) as [r s']. injection Hrun as _ <-. exists s'.
  split; [apply lookup_insert_eq|done].
Qed.

Lemma start_read_pending op s : is_receive op = true -> pending (start_op op s).2 <> [].
Proof.
  intros Hop. unfold start_op, modify. cbn [snd]. rewrite pending_app, filter_cons_True by done.
  by destruct (pending s).
Qed.

Lemma listens_recvPacket : packets_made -> listens (on_session p recvPacket).
Proof.
  intros [[k Hk] _]. apply listens_on_session. intros s. unfold recvPacket. rewrite Hk.
  by apply (start_read_pending OpReadHead).
Qed.
#[local] Hint Resolve listens_recvPacket : core.

Lemma listens_onPacketRecv pkt : packets_made -> listens (onPacketRecv log_packet p pkt).
Proof.
  intros Hk. unfold onPacketRecv. apply listens_bind. intros _. apply listens_bind. intros _.
  apply listens_then; [auto|]. intros b w. reflexivity.
Qed.
#[local] Hint Resolve listens_onPacketRecv : core.

Lemma listens_head n pkt :
  packets_made -> typed_packet pkt -> n = sizeof_PacketHead \/ n = 0 -> listens (onPacketHeadRecv log_packet p no_error n pkt).
Proof.
  intros Hk (_ & _ & Hsz) Hn. unfold onPacketHeadRecv. case_decide as E1.
  - apply listens_bind. intros _. destruct (Z.gtb_spec (pkt_bodySize pkt) 0) as [Hs|]; [|auto].
    apply listens_on_session. intros s. unfold recvPacketBody.
    destruct (proj2 Hk _ (conj Hs Hsz)) as [b ->]. by apply (start_read_pending (OpReadBody _ _ _)).
  - rewrite decide_True by naive_solver. apply listens_then; [auto|]. intros b w. reflexivity.
Qed.

Lemma listens_body n off pkt :
  packets_made -> off + n <= pkt_bodySize pkt -> listens (onPacketBodyRecv log_packet p no_error n off pkt).
Proof.
  intros Hk Hn. unfold onPacketBodyRecv. case_decide as E1.
  - apply listens_on_session. intros s. by apply (start_read_pending (OpReadBody _ _ _)).
  - rewrite decide_True; [|split; [done|]; destruct (Z.eq_dec (off + n) (pkt_bodySize pkt)); [done|exfalso; apply E1; split; [done|lia]]].
    apply listens_bind. auto.
Qed.

Lemma listens_handshake host : packets_made -> listens (handleHandshake p no_error (Some host)).
Proof.
  intros [[k Hk] _]. unfold handleHandshake. rewrite decide_True by done.
  apply listens_then; [|intros b w; reflexivity]. apply listens_on_session. intros s.
  unfold recvPacket. rewrite Hk.
  apply (start_read_pending OpReadHead (with_timer true (with_remoteHost host (with_status STATUS_CONNECTED s)))).
  done.
Qed.

Lemma listens_accepted : listens (handleSession no_error p).
Proof.
  unfold handleSession, Requests.start. rewrite decide_True by done.
  apply listens_then; [|intros _; pose proof (grow_accept p); grows].
  apply listens_bind. intros bs. apply listens_bind. intros _. apply listens_bind. intros _.
  apply listens_on_session. intros s. by apply start_read_pending.
Qed.
End heard.

(** ** Every step *)

Section heard_steps.
Context `{PlatformLaws}.

Lemma heard_complete p q sel w w1 :
  p <> q -> complete q sel w = (Ret tt, w1) -> heard p w -> heard p w1.
Proof.
  intros Hne Hrun Hw s. unfold complete, update in Hrun.
  apply on_session_inv in Hrun as (s1 & s2 & Hs1 & _ & ->). simpl.
  rewrite lookup_insert_ne by done. apply Hw.
Qed.

(** The handler of a read on another socket. *)
Lemma heard_elsewhere {A} p q sel (m : M world A) w a w' :
  p <> q -> preserves (grow q 1) m -> (complete q sel ;; m)%zway w = (Ret a, w') -> heard p w -> heard p w'.
Proof.
  intros Hne Hm Hrun Hw. apply run_bind_inv in Hrun as ([] & w1 & Hc & Hrun).
  pose proof (Hm w1) as Hg. rewrite Hrun in Hg. eapply heard_grow; [exact Hg|].
  by eapply heard_complete.
Qed.

Lemma heard_listens {A} p (m : M world A) w a w' : listens p m -> m w = (Ret a, w') -> heard p w'.
Proof. intros Hm Hrun s Hs _. destruct (Hm w a w' Hrun) as (s' & Hs' & Hp). by simplify_eq. Qed.

Lemma heard_step p w e w' :
  typed_world w -> typed_event e -> packets_made -> goes_well p e -> heard p w -> step w e w' -> heard p w'.
Proof.
  intros Hty Hte Hk Hgood Hw [Hen Hrun].
  assert (Hsteady : preserves (grow p 0) (run e) -> heard p w').
  { intros Hm. specialize (Hm w). rewrite Hrun in Hm. by eapply heard_grow. }
  pose proof (steady_run p e) as Hst.
  destruct e as [error q|q error host|q error n pkt|q error off size pkt data|q error| | | | | | | | |];
    try (by apply Hsteady, Hst); cbn [run enabled goes_well typed_event] in *.
  - set (f := fun sv => sv_with_accepting _ sv) in Hrun. set (w1 := (on_server f w).2) in *.
    assert (Hh : handleSession error q w1 = (Ret tt, w')) by exact Hrun.
    destruct (decide (p = q)) as [<-|Hne].
    + rewrite (Hgood eq_refl) in Hh. by eapply heard_listens, Hh; apply listens_accepted.
    + pose proof (grow_handleSession q error w1) as Hg. rewrite Hh in Hg. eapply heard_grow; [exact Hg|].
      intros s Hs Hp. apply (Hw s Hs). intros Hin. apply Hp. simpl. by apply list_elem_of_filter.
  - destruct (decide (p = q)) as [<-|Hne]; [|by eapply heard_elsewhere; [| |exact Hrun|]; [|apply grow_handleHandshake|]].
    destruct (Hgood eq_refl) as [-> [h ->]].
    eapply heard_listens, Hrun. apply listens_bind. intros _. by apply listens_handshake.
  - destruct (decide (p = q)) as [<-|Hne]; [|by eapply heard_elsewhere; [| |exact Hrun|]; [|apply grow_head|]].
    destruct (Hgood eq_refl) as [-> Hn].
    eapply heard_listens, Hrun. apply listens_bind. intros _. by apply listens_head.
  - destruct (decide (p = q)) as [<-|Hne]; [|by eapply heard_elsewhere; [| |exact Hrun|]; [|apply grow_body|]].
    destruct Hen as [Ho Hd]. pose proof (typed_outstanding _ _ _ Hty Ho) as (_ & _ & ? & ?).
    rewrite (Hgood eq_refl) in Hrun.
    eapply heard_listens, Hrun. apply listens_bind. intros _. apply listens_body; [done|].
    unfold deliver, set_body. simpl. lia.
  - pose proof (sent_grow q error w Hen) as Hg. cbn [run] in Hg. rewrite Hrun in Hg. by eapply heard_grow.
Qed.

Lemma heard_boot p m fs time g created w0 : boot m fs time g created = (Ret true, w0) -> heard p w0.
Proof.
  unfold boot. intros Hb. assert (Hs : preserves (grow p 0) (server_start true created true)).
  { unfold server_start. destruct (DB_startup _ _ _) as [ok l]. pose proof (grow_accept p). grows. }
  match type of Hb with server_start _ _ _ ?v = _ => specialize (Hs v); rewrite Hb in Hs end.
  eapply heard_grow; [exact Hs|]. intros s. cbn. by rewrite lookup_empty.
Qed.

(** C22: A client that is connected is listened to. Let everything on the socket of a session go
    well (no errors; the heads of its packets arrive in one piece, the bodies in any pieces) and
    let the library make the packets that are asked of it. Then in every state a started server
    can reach, whatever all the other clients, the timers and the console do, there is exactly
    one operation outstanding that reads from the socket of the session, once it has been
    accepted. *)
Theorem client_heard m fs time g created w0 es w p s :
  boot m fs time g created = (Ret true, w0) -> trace w0 es w -> Forall typed_event es ->
  packets_made -> Forall (goes_well p) es ->
  w_sessions w !! p = Some s -> p ∉ sv_accepting (w_server w) ->
  exists op, pending s = [op].
Proof.
  intros Hb Ht Hty Hk Hgood Hs Hp.
  assert (Hw : heard p w).
  { clear Hs Hp. induction Ht as [|es w e w' Ht IH Hstep]; [by eapply heard_boot|].
    apply Forall_app in Hty as [Hty [Hte _]%Forall_cons]. apply Forall_app in Hgood as [Hgood [He _]%Forall_cons].
    eapply heard_step; [by eapply typed_trace|done|done|exact He|by apply IH|exact Hstep]. }
  specialize (Hw s Hs Hp). pose proof (ex_reads _ (od_sessions _ (orderly_trace _ _ _ _ _ _ _ _ Hb Ht) p s Hs)) as Hl.
  destruct (pending s) as [|op [|op' l]]; [done|by exists op|simpl in Hl; lia].
Qed.
End heard_steps.
