(* ===== verification/Journey.v ===== *)
(** * From one client to another

    The way of a message through the whole server: the sender's push request stores it, it stays
    stored whatever happens, and the login of a recipient, however much later, hands it over.
    Here the components meet: the login of [Session], the stored requests of [Mailbox], the
    forwarding of [Delivery] and the messages of [Pushes]. *)

From S2P Require Import Prelude Values Platform Codec Pool Db Stdio StreamBuffer Streams World.
From S2P Require Import Registry Transport Session Contacts Requests Fcm Server Console Frames.
From S2P Require Import System Auth Accounts Delivery ContactFlow Pushes Mailbox Tasks.

Local Open Scope zway_scope.
Local Open Scope Z_scope.

(** ** Work that posts no request *)

Definition is_post (c : engine_call) : bool :=
  match c with CallPostRequest _ => true | _ => false end.

(** The calls made since have no request among them. *)
Record sess_unposted (s s' : session) : Prop := {
  un_account : s_accountId s' = s_accountId s;
  un_log : exists l, s_engine s' = s_engine s ++ l /\ Forall (fun c => is_post c = false) l
}.

#[export] Instance sess_unposted_preorder : PreOrder sess_unposted.
Proof.
  split.
  - intros s. split; [done|]. exists []. by rewrite app_nil_r.
  - intros s1 s2 s3 [A1 (l1 & E1 & F1)] [A2 (l2 & E2 & F2)]. split; [congruence|].
    exists (l1 ++ l2). rewrite E2, E1, app_assoc. split; [done|]. by apply Forall_app.
Qed.

Lemma sess_unposted_same s s' :
  s_accountId s' = s_accountId s -> s_engine s' = s_engine s -> sess_unposted s s'.
Proof. intros A E. split; [done|]. exists []. by rewrite app_nil_r. Qed.

Lemma unposted_engine_call c : is_post c = false -> preserves sess_unposted (engine_call_ c).
Proof. intros Hc s. split; [done|]. exists [c]. by repeat constructor. Qed.
#[local] Hint Extern 1 (preserves sess_unposted (engine_call_ _)) => by apply unposted_engine_call : zway_frame.
#[local] Hint Extern 1 (sess_unposted _ _) => by apply sess_unposted_same : zway_frame.

Section unposted.
Context `{PlatformLaws}.

Local Notation unposted := (world_rel sess_unposted).

#[local] Hint Resolve frame_getAccount frame_setFcmToken frame_getInbox frame_the_status
  frame_the_accountId frame_getContactStatus : zway_frame.

Lemma unposted_broadcast p st c : preserves unposted (broadcastStatus p st c).
Proof. unfold broadcastStatus, addUbjSender. frame. Qed.
#[local] Hint Resolve unposted_broadcast : zway_frame.
Lemma unposted_setConfig p c : preserves unposted (setConfig p c).
Proof. unfold setConfig. frame. Qed.
Lemma unposted_contact_statuses p : preserves unposted (contact_statuses p).
Proof. unfold contact_statuses. frame. Qed.
Lemma unposted_success p i r : preserves unposted (postRequestSuccess p i r).
Proof. unfold postRequestSuccess. frame. Qed.
End unposted.

(** ** The login hands over what waits *)

Section login.
Context `{PlatformLaws}.

Lemma world_rel_session (R : session -> session -> Prop) w w' p s :
  world_rel R w w' -> w_sessions w !! p = Some s ->
  exists s', w_sessions w' !! p = Some s' /\ R s s'.
Proof. intros [Hs _ _ _] Hp. specialize (Hs p). rewrite Hp in Hs. inversion Hs; subst; eauto. Qed.

(** What [processLogin] does after it has recorded the login: it forwards what is stored. *)
Lemma after_login_serves p head a w r w' s :
  w_sessions w !! p = Some s -> s_accountId s = a -> after_login p head a w = (Ret r, w') ->
  exists sx s', sess_unposted s sx /\ w_sessions w' !! p = Some s' /\
    served (stored_for a (db_mongo (w_db w'))) sx s' /\ w_registry w' = w_registry w.
Proof.
  intros Hs Ha Hrun. unfold after_login in Hrun.
  apply run_bind_inv in Hrun as ([] & w1 & H1 & Hrun).
  assert (R1 : world_rel sess_unposted w w1).
  { destruct (hasField head "config"); [|by injection H1 as <-].
    apply run_bind_inv in H1 as (b & w2 & Hc & [= <-]).
    pose proof (unposted_setConfig p (obj_of head "config") w) as R. by rewrite Hc in R. }
  apply run_bind_inv in Hrun as (st & w2 & H2 & Hrun).
  pose proof (unposted_contact_statuses p w1) as R2. rewrite H2 in R2.
  apply run_bind_inv in Hrun as (inbox & w3 & H3 & Hrun).
  pose proof (frame_getInbox sess_unposted a w2) as R3. rewrite H3 in R3.
  apply run_bind_inv in Hrun as (u & w4 & H4 & Hrun).
  match type of H4 with postRequestSuccess _ ?i ?resp _ = _ => pose proof (unposted_success p i resp w3) as R4 end.
  rewrite H4 in R4.
  assert (R : world_rel sess_unposted w w4) by (etrans; [exact R1|etrans; [exact R2|etrans; [exact R3|exact R4]]]).
  apply run_bind_inv in Hrun as (b & w5 & H5 & [= _ <-]).
  assert (b = true) as ->.
  { unfold processRequests in H5. by repeat apply run_bind_inv in H5 as (? & ? & _ & H5); injection H5. }
  destruct (world_rel_session _ _ _ _ _ R Hs) as (sx & Hsx & Hun).
  destruct (processRequests_run p sx w4 w5 Hsx H5) as (s' & Hs' & Hserved).
  pose proof (only_processRequests p w4) as Ho. rewrite H5 in Ho. cbn in Ho.
  exists sx, s'. split_and!; try done.
  - rewrite (o_mongo _ _ _ Ho). by rewrite (un_account _ _ Hun), Ha in Hserved.
  - rewrite (o_registry _ _ _ Ho). apply R.
Qed.

Lemma incoming_push p head w r :
  int_of head "requestType" = Req_Push -> processIncomingRequest p head w = r -> processPushRequest p head w = r.
Proof.
  intros Ht. unfold processIncomingRequest. cbv zeta. rewrite Ht.
  pose proof request_types_NoDup as Hn. unfold request_types in Hn.
  rewrite !NoDup_cons, !not_elem_of_cons in Hn.
  rewrite !decide_False by (destruct_and!; congruence). by rewrite decide_True.
Qed.

(** No put and no take. *)
Lemma mail_idle (T P : doc -> Prop) l l' :
  (forall d, ~ T d) -> (forall d, ~ P d) -> mail T P l l' -> l ≡ₚ l'.
Proof.
  intros HT HP. induction 1 as [|l l1 l' Hs _ IH]; [done|]. rewrite <- IH.
  destruct Hs as [?|d ? _|d ? _]; [done|by destruct (HP d)|by destruct (HT d)].
Qed.

Lemma Req_Login_alone :
  Req_Login ∉ [Req_Dispatch; Req_CreateAccount; Req_AddContact; Req_CreateAddCode; Req_AcceptContact;
               Req_RejectContact; Req_Push].
Proof.
  pose proof request_types_NoDup as Hn. unfold request_types in Hn. rewrite !NoDup_cons in Hn. set_solver.
Qed.

(** A login neither takes nor puts. *)
Lemma login_stores_nothing p head w w' :
  int_of head "requestType" = Req_Login -> run (EvRequest p head) w = (Ret tt, w') ->
  stored_requests w' ≡ₚ stored_requests w.
Proof.
  intros Ht Hrun. pose proof Req_Login_alone as Hal.
  destruct (run_deals (EvRequest p head) w) as [Hm _]. rewrite Hrun in Hm. symmetry.
  eapply mail_idle; [| |exact Hm]; intros d; cbn; intros (a & _ & Hd).
  - unfold request_takes in Hd. rewrite Ht in Hd. set_solver.
  - destruct Hd as (t & Hst & _). rewrite Ht in Hst. inversion Hst; set_solver.
Qed.

(** A step in which a session becomes logged in is the login of its account. *)
Lemma new_login_step w e w' p s' :
  inv w -> step w e w' -> w_sessions w' !! p = Some s' -> s_status s' = STATUS_LOGGEDIN ->
  (forall s, w_sessions w !! p = Some s -> s_status s <> STATUS_LOGGEDIN) ->
  exists head s sx, e = EvRequest p head /\ int_of head "requestType" = Req_Login /\
    w_sessions w !! p = Some s /\ s_engine sx = s_engine s /\ s_accountId s' = u32 (int_of head "account") /\
    p ∈ listed (w_registry w') (s_accountId s') /\
    exists sy, sess_unposted sx sy /\ served (stored_for (s_accountId s') (db_mongo (w_db w'))) sy s'.
Proof.
  intros Hi Hstep Hs' Hl Hnew.
  destruct (proj2 (step_keeps w e w' Hi Hstep) p s' Hs' Hl) as [(s & Hs & Hls & _)|(head & -> & Hv)].
  { by destruct (Hnew s Hs). }
  destruct Hv as (Ht & Ha & _). destruct Hstep as [_ Hrun]. cbn [run] in Hrun.
  apply run_bind_inv in Hrun as (b & w1 & Hin & [= <-]).
  assert (Hlog : processLogin p head w = (Ret b, w1)).
  { revert Hin. unfold processIncomingRequest. cbv zeta. rewrite Ht. pose proof Req_Login_alone as Hal.
    rewrite decide_False by set_solver. rewrite decide_False by set_solver. by rewrite decide_True. }
  destruct (w_sessions w !! p) as [s|] eqn:Hs.
  2:{ exfalso. unfold processLogin, the_status, bindM, session_at in Hlog. by rewrite Hs in Hlog. }
  destruct (processLogin_inv p head w b w1 s Hs Hlog) as [[Hq _]|(v1 & v2 & _ & Hv1 & _ & _ & Hrec & Hafter)].
  { exfalso. destruct (world_rel_session _ _ _ _ _ Hq Hs) as (s1 & Hs1 & Hqs).
    rewrite Hs' in Hs1. injection Hs1 as <-. by apply (Hnew s eq_refl), (q_status _ _ Hqs). }
  assert (Hs1 : w_sessions v1 !! p = Some s) by by rewrite Hv1.
  set (a := u32 (int_of head "account")) in *.
  destruct (record_login_run p s a v1 Hs1) as (reg & Hrec' & Hlist & _).
  rewrite Hrec' in Hrec. injection Hrec as <-.
  set (sx := with_accountId a (with_status STATUS_LOGGEDIN s)) in *.
  destruct (after_login_serves p head a _ _ _ sx (lookup_insert_eq _ _ _) eq_refl Hafter)
    as (sy & s2 & Hun & Hs2 & Hserved & Hreg).
  rewrite Hs' in Hs2. injection Hs2 as <-.
  exists head, s, sx. rewrite Ha. split_and!; try done; [|by exists sy].
  by rewrite Hreg.
Qed.

Lemma login_hands_over w e w' p s' :
  inv w -> step w e w' -> w_sessions w' !! p = Some s' -> s_status s' = STATUS_LOGGEDIN ->
  (forall s, w_sessions w !! p = Some s -> s_status s <> STATUS_LOGGEDIN) ->
  let a := s_accountId s' in
  p ∈ listed (w_registry w') a /\ stored_requests w' ≡ₚ stored_requests w /\
  ((db_query "zway.requests" [("dst"%string, bson_u32 a)] None 0 None (db_mongo (w_db w'))).2 = true ->
   forall d, d ∈ stored_requests w -> field "dst" d = Some (bson_u32 a) -> doc_type d ∈ forwarded ->
     requestPending (s_engine s') (doc_type d) (doc_id d) = true) /\
  exists s l, w_sessions w !! p = Some s /\ s_engine s' = s_engine s ++ l /\
    forall r, CallPostRequest r ∈ l -> exists d, d ∈ stored_requests w /\
      matches [("dst"%string, bson_u32 a)] d = true /\ made_of d r.
Proof.
  intros Hi Hstep Hs' Hl Hnew a.
  destruct (new_login_step w e w' p s' Hi Hstep Hs' Hl Hnew)
    as (head & s & sx & -> & Hty & Hs & Hsx & Ha & Hin & sy & [_ (l & El & Fl)] & (rs & Ers & Hrs & _ & Hall)).
  pose proof (login_stores_nothing p head w w' Hty (proj2 Hstep)) as Hp. fold a in Hin, Hrs, Hall.
  split_and!; [done|done| |].
  - intros Hended d Hd Hf. apply Hall. apply stored_for_complete; [done| |done].
    change (d ∈ stored_requests w'). by rewrite Hp.
  - exists s, (l ++ (CallPostRequest <$> rs)). split; [done|]. rewrite Ers, El, Hsx, <- app_assoc. split; [done|].
    intros r [Hr|Hr]%elem_of_app; [by pose proof (proj1 (Forall_forall _ _) Fl _ Hr)|].
    apply list_elem_of_fmap in Hr as (r' & [= <-] & Hr). destruct (Hrs r Hr) as (_ & d & Hd & Hm).
    destruct (stored_for_sound _ _ _ Hd) as [Hd' ?]. exists d. rewrite <- Hp. by split_and!.
Qed.

(** C12: A login catches up. When in a reachable state a session becomes logged in, it is listed
    under its account, the stored requests stay as they are, and every stored request of a
    type the client knows that is addressed to the account is pending with the client, as long
    as the database could be read to the end. Whatever was posted on the way was made of a
    request that is stored for the account, and of none that is not. *)
Theorem login_catches_up m fs time g created w0 es w e w' p s' :
  boot m fs time g created = (Ret true, w0) -> trace w0 es w -> step w e w' ->
  w_sessions w' !! p = Some s' -> s_status s' = STATUS_LOGGEDIN ->
  (forall s, w_sessions w !! p = Some s -> s_status s <> STATUS_LOGGEDIN) ->
  let a := s_accountId s' in
  p ∈ listed (w_registry w') a /\ stored_requests w' ≡ₚ stored_requests w /\
  ((db_query "zway.requests" [("dst"%string, bson_u32 a)] None 0 None (db_mongo (w_db w'))).2 = true ->
   forall d, d ∈ stored_requests w -> field "dst" d = Some (bson_u32 a) -> doc_type d ∈ forwarded ->
     requestPending (s_engine s') (doc_type d) (doc_id d) = true) /\
  exists s l, w_sessions w !! p = Some s /\ s_engine s' = s_engine s ++ l /\
    forall r, CallPostRequest r ∈ l -> exists d, d ∈ stored_requests w /\
      matches [("dst"%string, bson_u32 a)] d = true /\ made_of d r.
Proof. intros Hb Ht. by eapply login_hands_over, trace_inv_kept. Qed.
End login.

(** ** The whole way *)

Section message.
Context `{PlatformLaws}.

(** The stored copy [d] of the message [head] for the recipient of the key [it]. *)
Definition copy_in (head : uobj) (it : ubj) (d : doc) (w : world) : Prop :=
  d ∈ stored_requests w /\ field "dst" d = Some (bson_u32 (dst_of it)) /\
  doc_type d = Req_Push /\ doc_id d = requestId_of head /\
  message_for head it (ubj_toObject (bsonToUbj (bson_get d "data"))).

Lemma push_stores p s head w w1 ds it :
  w_sessions w !! p = Some s ->
  Forall2 (stored_push (requestId_of head) (s_accountId s) (push_forward head (s_accountId s)))
    (recipients (s_accountId s) (array_of head "keys")) ds ->
  insert_all ds (db_mongo (w_db w)) = (true, db_mongo (w_db w1)) ->
  it ∈ recipients (s_accountId s) (array_of head "keys") -> exists d, copy_in head it d w1.
Proof.
  intros Hs HF Hall Hit. destruct (insert_all_docs _ _ _ Hall) as (ds' & HFd & Hp).
  destruct (Forall2_elem _ _ _ it HF Hit) as (d0 & Hd0 & Hst).
  destruct (Forall2_elem _ _ _ d0 HFd Hd0) as (d & Hd & Hsd).
  destruct (stored_push_fields _ _ _ _ _ Hst Hsd) as (Hdst & _ & Ht & Hi & Hmsg).
  exists d. split_and!; try done. unfold stored_requests. rewrite Hp. apply elem_of_app. by left.
Qed.

(** The recipient of a copy that is stored becomes logged in. *)
Lemma copy_handed_over head it d w e w' q s' :
  inv w -> copy_in head it d w -> step w e w' ->
  w_sessions w' !! q = Some s' -> s_status s' = STATUS_LOGGEDIN -> s_accountId s' = dst_of it ->
  (forall s, w_sessions w !! q = Some s -> s_status s <> STATUS_LOGGEDIN) ->
  (db_query "zway.requests" [("dst"%string, bson_u32 (dst_of it))] None 0 None (db_mongo (w_db w'))).2 = true ->
  requestPending (s_engine s') Req_Push (requestId_of head) = true /\
  exists s l, w_sessions w !! q = Some s /\ s_engine s' = s_engine s ++ l /\
    ((forall d', waits (dst_of it) Req_Push (requestId_of head) d' (db_mongo (w_db w)) -> d' = d) ->
     forall r, CallPostRequest r ∈ l -> posted_key r = (Req_Push, requestId_of head) ->
       message_for head it (rq_head r)).
Proof.
  intros Hi (Hd & Hf & Ht & Hid & Hmsg) Hstep Hs' Hl Ha Hnew Hended.
  destruct (login_hands_over w e w' q s' Hi Hstep Hs' Hl Hnew) as (_ & _ & Hall & s & l & Hs & El & Hr).
  rewrite Ha in Hall, Hr. split.
  - rewrite <- Ht, <- Hid. apply Hall; try done. rewrite Ht. unfold forwarded. set_solver.
  - exists s, l. split_and!; try done. intros Huniq r Hin [= Hrt Hri].
    destruct (Hr r Hin) as (d' & Hd' & Hm & Hmade). pose proof Hmade as (Ht' & Hi' & _).
    rewrite Hrt in Ht'. rewrite Hri in Hi'.
    assert (d' = d) as -> by (by apply Huniq). by rewrite (made_of_push _ _ Hmade).
Qed.

(** C11: A message gets from client to client. Let a push request succeed in a reachable state,
    with all its insertions. For each recipient there is then a copy with the recipient's key.
    However the server runs on from there, either an event took the copy that was entitled to
    (the recipient's acknowledgement, most of all), or the copy is still stored; and then, as
    soon as any session becomes logged in to the recipient's account (and the database can be
    read to the end), a push request with the sender's id is pending with its client; and if
    no other message of that id waits for the recipient, every push request of that id the
    login posts is this message, with this recipient's key. *)
Theorem message_journey m fs time g created w0 es w p s head w1 :
  boot m fs time g created = (Ret true, w0) -> trace w0 es w ->
  enabled (EvRequest p head) w -> w_sessions w !! p = Some s ->
  int_of head "requestType" = Req_Push -> processIncomingRequest p head w = (Ret true, w1) ->
  storable_message (s_accountId s) head ->
  exists ds, db_mongo (w_db w1) = (insert_all ds (db_mongo (w_db w))).2 /\
   ((insert_all ds (db_mongo (w_db w))).1 = true ->
    forall it, it ∈ recipients (s_accountId s) (array_of head "keys") -> exists d, copy_in head it d w1 /\
    forall es2 w2, trace w1 es2 w2 ->
      (exists es3 e es4 w3, es2 = es3 ++ e :: es4 /\ trace w1 es3 w3 /\ takes e w3 d) \/
      (copy_in head it d w2 /\
       forall e w3 q sq, step w2 e w3 -> w_sessions w3 !! q = Some sq ->
         s_status sq = STATUS_LOGGEDIN -> s_accountId sq = dst_of it ->
         (forall sq2, w_sessions w2 !! q = Some sq2 -> s_status sq2 <> STATUS_LOGGEDIN) ->
         (db_query "zway.requests" [("dst"%string, bson_u32 (dst_of it))] None 0 None (db_mongo (w_db w3))).2 = true ->
         requestPending (s_engine sq) Req_Push (requestId_of head) = true /\
         exists sq2 l, w_sessions w2 !! q = Some sq2 /\ s_engine sq = s_engine sq2 ++ l /\
           ((forall d', waits (dst_of it) Req_Push (requestId_of head) d' (db_mongo (w_db w2)) -> d' = d) ->
            forall r, CallPostRequest r ∈ l -> posted_key r = (Req_Push, requestId_of head) ->
              message_for head it (rq_head r)))).
Proof.
  intros Hb Ht Hen Hs Hty Hrun Hsm.
  assert (Hstep : step w (EvRequest p head) w1).
  { split; [done|]. cbn [run]. by rewrite (run_bind_Ret _ _ _ _ _ Hrun). }
  assert (Hpush : processPushRequest p head w = (Ret true, w1)) by by apply incoming_push.
  destruct (push_run p s head w w1 Hs Hpush Hsm) as (_ & ds & HF & Hm).
  exists ds. split; [done|]. intros Hok it Hit. destruct (insert_all ds _) as [ok m'] eqn:Hall.
  cbn in Hok, Hm. subst ok m'.
  destruct (push_stores p s head w w1 ds it Hs HF Hall Hit) as (d & Hd). exists d. split; [done|].
  intros es2 w2 Ht2. destruct (trace_kept w1 es2 w2 d Ht2 (proj1 Hd)) as [Hd2|(es3 & e & es4 & w3 & -> & Ht3 & _ & Htk)].
  - right. assert (Hc : copy_in head it d w2) by (split; [done|apply Hd]). split; [done|].
    intros e w3 q sq Hst. apply (copy_handed_over head it d w2 e w3 q sq); [|done|done].
    eapply trace_inv_kept; [done|]. eapply trace_app; [eapply trace_snoc; [exact Ht|exact Hstep]|exact Ht2].
  - left. by exists es3, e, es4, w3.
Qed.
End message.
