(* ===== verification/Witnesses.v ===== *)
(** * The theorems at work

    Each theorem with hypotheses, applied to concrete data over the reference platform. *)

From stdpp Require Import relations.
From S2P Require Import Prelude Values Platform Reference Codec Pool Db Stdio StreamBuffer.
From S2P Require Import Streams World Registry Transport Session Contacts Requests Fcm Server.
From S2P Require Import Console Frames Replies System Auth Accounts Delivery ContactFlow.
From S2P Require Import Presence Operation Scenarios Relay Pushes Main Locks Locking Typed.
From S2P Require Import Mailbox Tasks Faults Objects Survival Sockets Workers Heard Journey.

Local Open Scope zway_scope.
Local Open Scope Z_scope.

(** ** A server that boots, accepts a client and lets it log in *)

Definition the_store : ref_store := RefStore true {[ "zway.accounts"%string := accounts ]}.

Definition booted : outcome bool * world := boot the_store empty_fs 100 (bytes_of "wxyz") (fun _ => true).

Definition login_request : uobj :=
  [("requestType"%string, UInt32 Req_Login); ("requestId"%string, UInt32 1);
   ("account"%string, UInt32 2); ("password"%string, UBuffer (bytes_of "pw"))].

Definition login_events : list event :=
  [EvAccept no_error 0; EvHandshake 0 no_error (Some "host"%string); EvRequest 0 login_request].

Fixpoint run_events (es : list event) (w : world) : world :=
  match es with [] => w | e :: es' => run_events es' (run e w).2 end.

Definition logged_in : world := run_events login_events booted.2.

Definition session_of (w : world) (p : nat) : session := default new_session (w_sessions w !! p).

Lemma step_run e w : enabled e w -> (run e w).1 = Ret tt -> step w e (run e w).2.
Proof. intros He Hr. split; [done|]. destruct (run e w) as [r w']. simpl in *. by subst. Qed.

Lemma booted_ok : boot the_store empty_fs 100 (bytes_of "wxyz") (fun _ => true) = (Ret true, booted.2).
Proof.
  assert (H : booted.1 = Ret true) by (vm_compute; reflexivity).
  unfold booted in *. destruct (boot _ _ _ _ _) as [r w]. simpl in *. by subst.
Qed.

Lemma login_trace : trace booted.2 login_events logged_in.
Proof.
  change login_events with ((([] ++ [EvAccept no_error 0]) ++ [EvHandshake 0 no_error (Some "host"%string)]) ++ [EvRequest 0 login_request]).
  eapply trace_snoc; [eapply trace_snoc; [eapply trace_snoc; [apply trace_nil|]|]|]; apply step_run.
  - cbn [enabled]. apply (bool_decide_unpack _). vm_compute. exact I.
  - vm_compute. reflexivity.
  - exists (session_of (run (EvAccept no_error 0) booted.2).2 0). split; [vm_compute; reflexivity|].
    vm_compute. left.
  - vm_compute. reflexivity.
  - cbn [enabled]. apply (bool_decide_unpack _). vm_compute. exact I.
  - vm_compute. reflexivity.
Qed.

Lemma loggedin_authenticated_witness :
  exists es1 req es2 w1, login_events = es1 ++ EvRequest 0 req :: es2 /\ trace booted.2 es1 w1 /\
    verified req (s_accountId (session_of logged_in 0)) w1.
Proof.
  apply (loggedin_authenticated _ _ _ _ _ _ _ logged_in 0 (session_of logged_in 0) booted_ok login_trace).
  - vm_compute. reflexivity.
  - vm_compute. reflexivity.
Defined.

Lemma session_map_invariant_witness :
  registry_wf logged_in /\
  forall p, p ∈ sv_accepting (w_server logged_in) -> forall a, p ∉ listed (w_registry logged_in) a.
Proof. apply (session_map_invariant _ _ _ _ _ _ _ _ booted_ok login_trace). Defined.

(** ** The world of Alice, Bob and Carol *)

Lemma the_world_wf requests random : registry_wf (the_world requests random).
Proof.
  assert (Hl : forall a, listed (w_registry (the_world requests random)) a =
            if decide (a = 1) then [1%nat] else if decide (a = 2) then [2%nat]
            else if decide (a = 3) then [3%nat] else []).
  { intros a. unfold listed. simpl. rewrite !lookup_insert, lookup_singleton.
    repeat case_decide; subst; done. }
  split.
  - intros a l. simpl. rewrite !lookup_insert_Some, lookup_singleton_Some.
    intros [[_ <-]|[_ [[_ <-]|[_ [_ <-]]]]]; done.
  - intros a p. rewrite Hl. repeat case_decide; subst; rewrite ?list_elem_of_singleton, ?elem_of_nil;
      try done; intros ->; eexists; (split; [reflexivity|reflexivity]).
  - intros a. rewrite Hl. repeat case_decide; apply (bool_decide_unpack _); vm_compute; exact I.
Qed.

Definition stranger : session := with_status STATUS_CONNECTED new_session.

(** The world with a session more, that no one has logged in on. *)
Definition with_stranger (w : world) : world :=
  with_sessions (<[4%nat := stranger]> (w_sessions w)) w.

Definition logout_request : uobj :=
  [("requestType"%string, UInt32 Req_Logout); ("requestId"%string, UInt32 5)].

Lemma access_control_witness :
  (processIncomingRequest 4 logout_request (with_stranger (the_world [] ""))).1 = Ret false.
Proof.
  rewrite (access_control 4 stranger logout_request).
  - reflexivity.
  - reflexivity.
  - apply (bool_decide_unpack _). vm_compute. exact I.
  - rewrite decide_True by (vm_compute; reflexivity). split; discriminate.
Defined.

(** A computation that returns. *)
Lemma returns {W A} (m : M W A) w (a : A) :
  (m w).1 = Ret a -> m w = (Ret a, (m w).2).
Proof. destruct (m w) as [r w']. simpl. by intros ->. Qed.

Lemma one_answer_per_request_witness :
  let w := with_stranger (the_world [] "") in
  answered 4 (requestId_of logout_request) false w (processIncomingRequest 4 logout_request w).2 \/
  (unanswered logout_request /\ false = false /\
   silent w (processIncomingRequest 4 logout_request w).2).
Proof.
  apply (one_answer_per_request 4 logout_request).
  - exists stranger. reflexivity.
  - apply returns. vm_compute. reflexivity.
Defined.

(** ** Registration *)

Definition dave_request : uobj :=
  [("requestType"%string, UInt32 Req_CreateAccount); ("requestId"%string, UInt32 6);
   ("name"%string, UString "dave");
   ("password"%string, UBuffer (replicate 32 Byte.x61))].

Definition dave_world : world := with_stranger (the_world [] "some salt").

Lemma the_accounts_int requests random : account_ids_int (db_mongo (w_db (the_world requests random))).
Proof.
  intros d Hd. change (d ∈ accounts) in Hd.
  apply elem_of_cons in Hd as [->|[->|[->|[]%elem_of_nil]%elem_of_cons]%elem_of_cons];
    (eexists; split; [reflexivity|unfold is_i32; lia]).
Qed.

Lemma the_accounts_max requests random d :
  d ∈ docs "zway.accounts" (db_mongo (w_db (the_world requests random))) ->
  field "id" d <> Some (BInt (2 ^ 31 - 1)).
Proof.
  intros Hd. change (d ∈ accounts) in Hd.
  apply elem_of_cons in Hd as [->|[->|[->|[]%elem_of_nil]%elem_of_cons]%elem_of_cons];
    vm_compute; discriminate.
Qed.

Definition dave_created : world := (processCreateAccount 4 dave_request dave_world).2.

Definition dave_login : uobj :=
  [("requestId"%string, UInt32 7); ("account"%string, UInt32 4);
   ("password"%string, UBuffer (replicate 32 Byte.x61))].

Lemma dave_answered :
  exists s, w_sessions dave_created !! 4%nat = Some s /\ s_status s = STATUS_CONNECTED /\
    s_engine s = [CallSuccess 6 (Some (UBJ_OBJ [("accountId"%string, ubj_of_uint32 4)]))].
Proof.
  exists (session_of dave_created 4). split; [|split]; vm_compute; reflexivity.
Qed.

Lemma register_then_login_witness :
  exists s', w_sessions (processLogin 4 dave_login dave_created).2 !! 4%nat = Some s' /\
    s_status s' = STATUS_LOGGEDIN /\ s_accountId s' = 4.
Proof.
  destruct (register_then_login 4 stranger dave_request dave_world dave_created)
    as (a & salt & pass & Hss & Hau & _ & Hlogin).
  - reflexivity.
  - apply the_accounts_int.
  - apply the_accounts_max.
  - vm_compute. discriminate.
  - apply returns. vm_compute. reflexivity.
  - destruct dave_answered as (s & Hs & Hst & He).
    assert (a = 4) as ->.
    { rewrite Hss, lookup_insert_eq in Hs. injection Hs as <-. cbn in He. injection He as Hi.
      apply i32_inj; [exact Hau|unfold is_u32; lia|exact Hi]. }
    destruct (Hlogin 4%nat s dave_login dave_created) as [Hok _].
    + reflexivity.
    + exact Hs.
    + rewrite Hst. vm_compute. reflexivity.
    + reflexivity.
    + reflexivity.
    + reflexivity.
    + vm_compute. reflexivity.
    + destruct Hok as (s' & Hs' & Hl & Ha & _); [reflexivity|].
      exists s'. split; [exact Hs'|]. split; [exact Hl|exact Ha].
Defined.

(** ** Contacts *)

Definition add_bob : uobj :=
  [("requestId"%string, UInt32 20); ("name"%string, UString "bob"); ("publicKey"%string, key "a")].

Definition asked : world := (processAddContactRequest 1 add_bob (the_world [] "")).2.

Definition accept_alice : uobj :=
  [("requestId"%string, UInt32 21); ("contactRequestId"%string, UInt32 20); ("publicKey"%string, key "b")].

Definition accepted : world := (processAcceptContact 2 accept_alice asked).2.

Lemma accepted_run : processAcceptContact 2 accept_alice asked = (Ret true, accepted).
Proof. unfold accepted. apply returns. vm_compute. reflexivity. Qed.

Lemma accepted_wf : registry_wf accepted.
Proof.
  assert (Hr : w_registry accepted = w_registry (the_world [] "")) by (vm_compute; reflexivity).
  destruct (the_world_wf [] "") as [W1 W2 W3]. split; rewrite Hr; [exact W1| |exact W3].
  intros a p Hp. destruct (W2 a p Hp) as (s & Hs & <-).
  change (w_sessions (the_world [] "")) with
    ({[ 1%nat := client 1; 2%nat := client 2; 3%nat := client 3 ]} : gmap nat session) in Hs.
  rewrite !lookup_insert_Some, lookup_singleton_Some in Hs.
  destruct Hs as [[<- <-]|[_ [[<- <-]|[_ [<- <-]]]]]; eexists; (split; [vm_compute; reflexivity|reflexivity]).
Qed.

(** Bob gets the key of Alice as his answer, and she his with the stored acceptance. *)
Lemma contact_key_exchange_witness :
  (exists s' resp k, w_sessions accepted !! 2%nat = Some s' /\
    s_engine s' = [] ++ [CallSuccess 21 (Some resp)] /\ ubj_get resp "publicKey" = UObject k /\
    uobj_equiv k [("key"%string, UString "a")]) /\
  exists d2 msg k, d2 ∈ docs "zway.requests" (db_mongo (w_db accepted)) /\
    (deliver_request 1 d2 accepted).1 = Ret tt /\
    tells_acceptance accepted 21 20 2 k msg /\ uobj_equiv k [("key"%string, UString "b")].
Proof.
  destruct (contact_key_exchange 1 (client 1) add_bob [("key"%string, UString "a")] (the_world [] "")
              asked) as (b & d & Hb & Hne & Hd & Hdst & _ & _ & Hacc).
  - reflexivity.
  - reflexivity.
  - reflexivity.
  - repeat constructor; set_solver.
  - unfold is_u32. simpl. lia.
  - unfold asked. apply returns. vm_compute. reflexivity.
  - intros d. vm_compute. reflexivity.
  - assert (Ed : d = add_contact_doc 20 1 2 (stored_account 1 "alice") [("key"%string, BString "a")] "").
    { apply list_elem_of_singleton.
      change (docs "zway.requests" (db_mongo (w_db asked))) with (requests_of asked) in Hd.
      assert (E : requests_of asked =
        [add_contact_doc 20 1 2 (stored_account 1 "alice") [("key"%string, BString "a")] ""])
        by (vm_compute; reflexivity). rewrite <- E. exact Hd. }
    assert (Hs : w_sessions asked !! 2%nat = Some (client 2)) by (vm_compute; reflexivity).
    assert (Eb : bson_u32 b = bson_u32 2) by (rewrite <- Hdst, Ed; reflexivity).
    assert (b = 2) as -> by (apply i32_inj; [done|unfold is_u32; lia|by injection Eb]).
    destruct (Hacc 2%nat (client 2) accept_alice asked accepted)
      as [(s' & resp & k & Hs' & He & Hk & Heq & _) Hback].
    + reflexivity.
    + exact Hs.
    + reflexivity.
    + reflexivity.
    + intros d' Hd' _. rewrite Ed. apply list_elem_of_singleton.
      change (docs "zway.requests" (db_mongo (w_db asked))) with (requests_of asked) in Hd'.
      assert (E : requests_of asked =
        [add_contact_doc 20 1 2 (stored_account 1 "alice") [("key"%string, BString "a")] ""])
        by (vm_compute; reflexivity). rewrite <- E. exact Hd'.
    + exact accepted_run.
    + split; [exists s', resp, k; split; [exact Hs'|]; split; [exact He|]; split; [exact Hk|exact Heq]|].
      destruct (Hback [("key"%string, UString "b")]) as (d2 & Hd2 & _ & _ & Hdel).
      * reflexivity.
      * repeat constructor; set_solver.
      * vm_compute. discriminate.
      * intros d0. vm_compute. reflexivity.
      * destruct (Hdel 1%nat (session_of accepted 1) accepted) as (msg & s2 & k2 & Hk2 & Hmsg & Hrun & _).
        -- vm_compute. reflexivity.
        -- exact accepted_wf.
        -- vm_compute. reflexivity.
        -- exists d2, msg, k2. split; [exact Hd2|]. split; [by rewrite Hrun|]. split; [exact Hmsg|exact Hk2].
Defined.

(** ** Delivery *)

Lemma requests_forwarded_once_witness :
  exists s', w_sessions (processRequests 2 (the_world two_requests "")).2 !! 2%nat = Some s' /\
    requestPending (s_engine s') Req_AddContact 7 = true.
Proof.
  destruct (requests_forwarded_once 2 (client 2) (the_world two_requests ""))
    as (w' & Hrun & _ & s' & rs & Hs' & _ & _ & _ & Hall).
  - reflexivity.
  - split; [apply the_world_wf|vm_compute; discriminate].
  - exists s'. rewrite Hrun. split; [exact Hs'|]. apply (Hall (contact_request 7 1 2)).
    + assert (E : stored_for 2 (db_mongo (w_db (the_world two_requests ""))) = [contact_request 7 1 2])
        by (vm_compute; reflexivity).
      cbn zeta. change (s_accountId (client 2)) with 2. rewrite E. by apply list_elem_of_singleton.
    + apply list_elem_of_In. vm_compute. auto.
Defined.

(** ** Presence *)

(** Alice has Bob for a contact and turns her notifications on. *)
Definition alice_config : uobj :=
  [("contacts"%string, UArray [UObject [("contactId"%string, UInt32 2); ("notifyStatus"%string, UBool true)]]);
   ("notifyStatus"%string, UBool true)].

Lemma presence_broadcast_witness :
  exists w' l, setConfig 1 alice_config (the_world [] "") = (Ret true, w') /\
    w_sessions w' !! 2%nat = Some (with_engine l (client 2)) /\ told 1 1 l /\
    w_sessions w' !! 3%nat = Some (with_engine [] (client 3)).
Proof.
  destruct (presence_broadcast 1 (client 1) alice_config (the_world [] "")) as [_ (w' & Hrun & _ & _ & Hall)].
  - reflexivity.
  - apply the_world_wf.
  - discriminate.
  - destruct (Hall 2%nat (client 2) eq_refl) as (l & Hl & Htold & _).
    destruct (Hall 3%nat (client 3) eq_refl) as (l3 & Hl3 & _ & Hnone).
    exists w', l. split; [exact Hrun|]. split; [exact Hl|]. split.
    + apply Htold. split; [discriminate|]. split.
      * exists [("contactId"%string, UInt32 2); ("notifyStatus"%string, UBool true)]. split; reflexivity.
      * apply (bool_decide_unpack _). vm_compute. exact I.
    + rewrite Hnone in Hl3; [exact Hl3|]. intros (_ & (o & Ho & _) & _). vm_compute in Ho. discriminate.
Defined.

Lemma logout_stays_online_witness :
  exists s', w_sessions (processLogout 2 logout_request (the_world [] "")).2 !! 2%nat = Some s' /\
    s_status s' = STATUS_CONNECTED.
Proof.
  destruct (logout_stays_online 2 (client 2) logout_request (the_world [] "")
    (processLogout 2 logout_request (the_world [] "")).2) as (s' & Hs' & Hst & _).
  - apply the_world_wf.
  - reflexivity.
  - apply (bool_decide_unpack _). vm_compute. exact I.
  - apply returns. vm_compute. reflexivity.
  - exists s'. split; [exact Hs'|exact Hst].
Defined.

(** ** The map, the transport *)

Lemma registry_refines_witness :
  exists reg, appendSession 4 (with_stranger (the_world [] "")) =
    (Ret tt, with_registry reg (with_stranger (the_world [] ""))).
Proof.
  destruct (registry_refines 4 stranger (with_stranger (the_world [] ""))) as (reg & Hrun & _).
  - destruct (the_world_wf [] "") as [W1 W2 W3]. split; [exact W1| |exact W3].
    intros a p Hp. destruct (W2 a p Hp) as (s & Hs & E). exists s. split; [|exact E].
    cbn [with_stranger w_sessions with_sessions]. rewrite lookup_insert_ne; [exact Hs|].
    intros <-. discriminate Hs.
  - reflexivity.
  - apply (bool_decide_unpack _). vm_compute. exact I.
  - exists reg. exact Hrun.
Defined.

Definition five_bytes : packet := Packet 7 Stream_Request 1 5 [].

Definition log_only : nat -> packet -> M (world (H := ref_platform)) bool := log_packet.

Lemma body_reassembled_witness :
  let chunks := [[Byte.x01; Byte.x02]; [Byte.x03]; [Byte.x04; Byte.x05]] in
  let w := the_world [] "" in
  (on_session 1 (recvPacketBody five_bytes) ;; feed log_only 1 chunks)%zway w =
    onPacketRecv log_only 1 (set_body (concat chunks) five_bytes)
      (with_sessions (<[1%nat := with_timer true (client 1)]> (w_sessions w)) w).
Proof.
  refine (proj1 (body_reassembled log_only 1 five_bytes (client 1) (replicate 5 Byte.x00)
    [[Byte.x01; Byte.x02]; [Byte.x03]; [Byte.x04; Byte.x05]] (the_world [] "") _ _ _ _ _ _)).
  - reflexivity.
  - reflexivity.
  - reflexivity.
  - simpl. lia.
  - repeat constructor; discriminate.
  - reflexivity.
Defined.

Lemma head_read_outcomes_witness :
  (onPacketHeadRecv log_only 1 no_error 3 five_bytes (the_world [] "")).2 = the_world [] "".
Proof.
  refine (proj2 (proj2 (proj2 (head_read_outcomes log_only 1 no_error 3 five_bytes (client 1)
    (replicate 5 Byte.x00) (the_world [] "") _ _ _ _ _))) _ _).
  - reflexivity.
  - reflexivity.
  - apply the_world_wf.
  - reflexivity.
  - discriminate.
  - reflexivity.
  - vm_compute. split; reflexivity.
Defined.

Lemma transport_refines_fifo_witness :
  match send_runs [EPost five_bytes; EPost five_bytes; ESent no_error] new_session,
        fifo_steps [EPost five_bytes; EPost five_bytes; ESent no_error] ([], []) with
  | Some s', Some (q, h) =>
      outgoing s' = q /\ s_engine s' = h /\ writes s' = take 1 q /\
      s_sending s' = bool_decide (q <> [])
  | None, None => True
  | _, _ => False
  end.
Proof.
  apply (transport_refines_fifo [EPost five_bytes; EPost five_bytes; ESent no_error] new_session);
    reflexivity.
Defined.

(** ** The codec, the database *)

Definition nested : uobj :=
  [("name"%string, UString "k"); ("parts"%string, UArray [UInt32 3; UObject [("x"%string, UBool true)]])].

Lemma codec_roundtrip_witness :
  exists d, ubjToBson (UObject nested) = Some d /\ uobj_equiv (bsonObjToUbj d) nested.
Proof.
  destruct (codec_roundtrip nested) as [Hback Htotal].
  - repeat first [apply storable_object | apply Forall_cons_2 | apply Forall_nil_2 | constructor |
      apply (bool_decide_unpack _); vm_compute; exact I | unfold is_i32; simpl; lia].
  - destruct Htotal as [d Hd]; [reflexivity|]. exists d. split; [exact Hd|]. apply Hback. exact Hd.
Defined.

Definition the_db (requests : list doc) : db_state := w_db (the_world requests "").

Lemma the_db_ready requests : db_ready (the_db requests).
Proof. discriminate. Qed.

Lemma newAccountId_fresh_witness :
  exists a, newAccountId (the_db []) = (Ret a, used (the_db []) (db_mongo (the_db []))).
Proof.
  destruct (newAccountId_fresh (the_db [])) as (a & Hrun & _).
  - apply the_db_ready.
  - apply the_accounts_int.
  - apply the_accounts_max.
  - exists a. exact Hrun.
Defined.

Lemma fcmToken_roundtrip_witness :
  (getFcmToken 2 (setFcmToken 2 "tok" (the_db [])).2).1 = Ret "tok"%string.
Proof.
  refine (f_equal fst (proj1 (fcmToken_roundtrip 2 "tok" (stored_account 2 "bob") (the_db [])
    (setFcmToken 2 "tok" (the_db [])).2 _ _ _ _ _))).
  - apply the_db_ready.
  - apply the_accounts_int.
  - vm_compute. reflexivity.
  - apply returns. vm_compute. reflexivity.
  - vm_compute. reflexivity.
Defined.

Lemma requestPending_exactly_one_witness :
  exists b, db_requestPending (contact_request_query 7 2) (the_db two_requests) =
    (Ret b, used (the_db two_requests) (db_mongo (the_db two_requests))).
Proof.
  destruct (requestPending_exactly_one (contact_request_query 7 2) (the_db two_requests)
              (the_db_ready two_requests)) as (b & Hrun & _).
  exists b. exact Hrun.
Defined.

Definition a_push (id src dst : Z) : doc := push_doc id src dst [].

Definition an_inbox : db_state := the_db [a_push 5 3 2; a_push 6 1 2; a_push 8 3 2].

Lemma getInbox_groups_witness :
  exists inbox, (getInbox 2 an_inbox).1 = Ret (Some inbox) /\
    db_mongo (getInbox 2 an_inbox).2 = db_mongo an_inbox.
Proof.
  eexists. split; [vm_compute; reflexivity|].
  refine (proj1 (getInbox_groups 2 an_inbox _ (getInbox 2 an_inbox).2 (the_db_ready _) _)).
  apply returns. vm_compute. reflexivity.
Defined.

(** ** The pool *)

(** One of two threads has taken a connection. *)
Definition one_holding : pool :=
  Pool [1%nat] (<[0%nat := Holding 0]> (p_threads (pool_init [0%nat; 1%nat] 2))).

Lemma one_holding_reachable : pool_reachable [0%nat; 1%nat] 2 one_holding.
Proof. apply rtc_once. apply step_acquire; reflexivity. Qed.

Lemma pool_exclusive_witness :
  p_queue one_holding ++ held (p_threads one_holding) ≡ₚ [0%nat; 1%nat].
Proof.
  refine (proj1 (pool_exclusive [0%nat; 1%nat] 2 one_holding _ one_holding_reachable)).
  apply (bool_decide_unpack _). vm_compute. exact I.
Defined.

Lemma pool_sufficient_witness :
  Holding 0 <> Missed /\ Holding 0 <> Waiting /\ Holding 0 <> Woken /\ Holding 0 <> NoLock.
Proof.
  apply (pool_sufficient [0%nat; 1%nat] 2 one_holding 0 (Holding 0)).
  - simpl. lia.
  - apply one_holding_reachable.
  - reflexivity.
Defined.

(** ** Stream buffers *)

Definition upload_packet : packet := Packet 7 Stream_Resource 2 5 [].

Lemma upload_download_witness :
  exists sb fs1, StreamBuffer_create "tmp/7" upload_packet empty_fs = (Ret (Some sb), fs1).
Proof.
  destruct (upload_download "tmp/7" upload_packet 7 100 [[Byte.x01; Byte.x02]; [Byte.x03]] empty_fs)
    as (sb & fs1 & _ & _ & _ & Hrun & _).
  - discriminate.
  - reflexivity.
  - reflexivity.
  - repeat constructor; discriminate.
  - simpl. lia.
  - simpl. lia.
  - exists sb, fs1. exact Hrun.
Defined.

(** A file of two bytes. *)
Definition stored_fs : filesystem :=
  Filesystem {[ "tmp/7"%string := [Byte.x01; Byte.x02] ]} (fun _ => true) 1000.

Lemma StreamBuffer_open_file_witness :
  exists sb, StreamBuffer_open "tmp/7" 7 stored_fs = (Ret (Some sb), stored_fs) /\
    StreamBuffer_size sb = 2.
Proof.
  pose proof (StreamBuffer_open_file "tmp/7" 7 stored_fs) as Hs.
  destruct Hs as (sb & Hrun & _ & _ & _ & Hsz & _); [vm_compute; reflexivity|].
  exists sb. split; [exact Hrun|exact Hsz].
Defined.

Lemma StreamBuffer_create_existing_witness :
  StreamBuffer_create "tmp/7" upload_packet stored_fs = (Fault DoubleClose, stored_fs).
Proof.
  apply (StreamBuffer_create_existing "tmp/7" upload_packet stored_fs [Byte.x01; Byte.x02]).
  - discriminate.
  - reflexivity.
Defined.

(** A buffer in memory, to which two bytes are written and from which they are read. *)
Definition mem_buffer : StreamBuffer zbuffer * filesystem :=
  (SB (Some (replicate 4 Byte.x00 : zbuffer)) 7 Stream_Resource 2 0 0, empty_fs).

Definition mem_ops : list sb_op := [LogWrite 100 [Byte.x01; Byte.x02] 0; LogRead 100 2 0].

Lemma StreamBuffer_refines_log_witness :
  exists outs, (sb_run mem_ops mem_buffer).1 = Ret outs /\ outs = (log_run mem_ops []).1.
Proof.
  eexists. split; [vm_compute; reflexivity|].
  refine (proj1 (StreamBuffer_refines_log mem_ops mem_buffer [] _ (sb_run mem_ops mem_buffer).2 _ _ _ _ _)).
  - exists (replicate 4 Byte.x00). split; [reflexivity|]. split; [by exists (replicate 4 Byte.x00)|].
    split; [reflexivity|vm_compute; reflexivity].
  - repeat constructor; simpl; lia.
  - vm_compute. reflexivity.
  - apply returns. vm_compute. reflexivity.
  - rewrite !elem_of_cons, elem_of_nil. intros [Hc|[Hc|[]]]; discriminate.
Defined.

(** ** Streams *)

Definition the_streams : streams := Streams stored_fs ∅ ∅ ∅ [] 0 100.

Lemma the_streams_wf : streams_wf the_streams.
Proof.
  split; simpl; intros *; rewrite lookup_empty; discriminate.
Qed.

Definition opened : streams := (getStreamBuffer 7 the_streams).2.

Lemma getStreamBuffer_shared_witness :
  exists o st', getStreamBuffer 7 the_streams = (Ret o, st') /\ streams_wf st'.
Proof.
  destruct (getStreamBuffer_shared 7 the_streams the_streams_wf) as (o & st' & Hrun & Hwf & _).
  exists o, st'. split; [exact Hrun|exact Hwf].
Defined.

Lemma evictStreamBuffers_exact_witness :
  evictStreamBuffers the_streams =
    (Ret tt, with_buffers (filter (fun kp => stale the_streams kp.2 = false) (st_buffers the_streams)) the_streams).
Proof. apply (evictStreamBuffers_exact the_streams the_streams_wf). Defined.

Lemma opened_buffer_evicted_witness :
  st_buffers opened !! 7 = Some 0%nat /\ st_buffers (evictStreamBuffers opened).2 !! 7 = None.
Proof.
  destruct (opened_buffer_evicted 7 the_streams [Byte.x01; Byte.x02] 0 opened (evictStreamBuffers opened).2)
    as (H1 & H2 & _).
  - apply the_streams_wf.
  - reflexivity.
  - reflexivity.
  - simpl. lia.
  - unfold opened. apply returns. vm_compute. reflexivity.
  - apply returns. vm_compute. reflexivity.
  - split; [exact H1|exact H2].
Defined.

Lemma sender_describes_resource_witness :
  exists p st', StreamBufferSender_create 1 7 the_streams = (Ret (Some p), st').
Proof.
  destruct (sender_describes_resource 1 7 the_streams [Byte.x01; Byte.x02]) as (p & st' & snd & Hrun & _).
  - apply the_streams_wf.
  - reflexivity.
  - reflexivity.
  - simpl. lia.
  - reflexivity.
  - exists p, st'. exact Hrun.
Defined.

(** ** The server *)

Definition nobody_on_line : world :=
  with_registry ∅ (the_world [contact_request 7 1 2] "").

Lemma offline_notification_witness :
  (exists w', processUserRequests 2 nobody_on_line = (Ret tt, w') /\ w_fcm w' = []) /\
  exists w' s', processUserRequests 2 (the_world two_requests "") = (Ret tt, w') /\
    w_sessions w' !! 2%nat = Some s' /\ served [contact_request 7 1 2] (client 2) s'.
Proof.
  split.
  - destruct (offline_notification 2 nobody_on_line "") as (w' & Hrun & _ & _ & _ & _ & _ & Hfcm).
    + split; [|discriminate]. assert (Hl : forall a, listed (w_registry nobody_on_line) a = []).
      { intros a. unfold listed. cbn [w_registry nobody_on_line with_registry]. by rewrite lookup_empty. }
      split; intros *; [cbn [w_registry nobody_on_line with_registry]; by rewrite lookup_empty
        |rewrite Hl; by intros []%elem_of_nil|rewrite Hl; constructor].
    + vm_compute. reflexivity.
    + exists w'. split; [exact Hrun|]. rewrite Hfcm. reflexivity.
  - destruct (offline_notification 2 (the_world two_requests "") "") as (w' & Hrun & _ & _ & _ & _ & Hin & _).
    + split; [apply the_world_wf|discriminate].
    + vm_compute. reflexivity.
    + destruct (Hin 2%nat) as (s & s' & Hs & Hs' & Hsv).
      * apply (bool_decide_unpack _). vm_compute. exact I.
      * exists w', s'. split; [exact Hrun|]. split; [exact Hs'|].
        assert (E : stored_for 2 (db_mongo (w_db (the_world two_requests ""))) = [contact_request 7 1 2])
          by (vm_compute; reflexivity). rewrite E in Hsv.
        assert (Es : s = client 2) by (apply (inj Some); rewrite <- Hs; vm_compute; reflexivity).
        rewrite <- Es. exact Hsv.
Defined.

Lemma removeSessions_closes_all_witness :
  exists w', removeSessions (the_world [] "") = (Ret tt, w') /\ w_registry w' = ∅.
Proof.
  destruct (removeSessions_closes_all (the_world [] "") (the_world_wf [] "")) as (w' & Hrun & Hr & _).
  exists w'. split; [exact Hrun|exact Hr].
Defined.

Lemma pause_resume_witness :
  exists w1, pause true (the_world [] "") = (Ret true, w1) /\ sv_listening (w_server w1) = false.
Proof.
  destruct (pause_resume (the_world [] "")) as (w1 & Hrun & _ & Hl & _).
  - reflexivity.
  - reflexivity.
  - exists w1. split; [exact Hrun|exact Hl].
Defined.

Lemma accept_chain_witness :
  accepting (run (EvAccept other_error 0) booted.2).2 = [].
Proof.
  refine (proj1 (proj2 (accept_chain other_error 0 booted.2 (run (EvAccept other_error 0) booted.2).2 _ _) _)).
  - vm_compute. reflexivity.
  - apply returns. vm_compute. reflexivity.
  - discriminate.
Defined.

(** The random bytes spell the id of Bob's account, who is not on line. *)
Definition unlucky : world :=
  with_rng [Byte.x02; Byte.x00; Byte.x00; Byte.x00] (with_stranger nobody_on_line).

Lemma temporary_id_collision_witness :
  listed (w_registry (Requests.start 4 unlucky).2) 2 = [4%nat].
Proof.
  refine (proj1 (temporary_id_collision 4 stranger unlucky (Requests.start 4 unlucky).2
    (processUserRequests 2 (Requests.start 4 unlucky).2).2 _ _ _ _ _)).
  - reflexivity.
  - discriminate.
  - reflexivity.
  - apply returns. vm_compute. reflexivity.
  - apply (returns (processUserRequests 2)). vm_compute. reflexivity.
Defined.

Lemma accept_without_key_crashes_witness :
  (processAcceptContact 2 accept_request (the_world [a_push 7 1 2] "")).1 = Fault UncaughtException.
Proof.
  apply (accept_without_key_crashes 2 (client 2) accept_request (a_push 7 1 2)
    [("name"%string, BString "bob"); ("phone"%string, BString "")]).
  - reflexivity.
  - simpl. unfold STATUS_LOGGEDIN. lia.
  - discriminate.
  - vm_compute. reflexivity.
  - reflexivity.
  - vm_compute. reflexivity.
Defined.

Lemma console_ends_at_e_witness : 101 ∈ take 2 [105; 101].
Proof.
  refine (console_ends_at_e (fun _ => Calls true true true true) [105; 101] 2 (the_world [] "")
    (console (fun _ => Calls true true true true) [105; 101] 2 (the_world [] "")).2 _).
  apply returns. vm_compute. reflexivity.
Defined.

(** ** Account ids *)

Definition last_account : doc := stored_account (2 ^ 31 - 1) "zoe".

Definition full_db : db_state :=
  DbState [0%nat] (RefStore true {[ "zway.accounts"%string := [last_account] ]}).

Definition full_world : world := with_db full_db dave_world.


(** ** Resources *)

Definition nothing_stored : streams := Streams empty_fs ∅ ∅ ∅ [] 0 100.

Lemma nothing_fresh : fresh_stream 7 nothing_stored.
Proof.
  split.
  - unfold is_u32. lia.
  - split; simpl; intros *; rewrite lookup_empty; discriminate.
  - reflexivity.
  - reflexivity.
  - reflexivity.
  - simpl. intros p sb. rewrite lookup_empty. discriminate.
Qed.

Definition chunks : list (list Byte.byte) := [[Byte.x01; Byte.x02]; [Byte.x03]].

(** The resource is uploaded, evicted a minute later, and read from the offset 1. *)
Lemma resource_relayed_witness :
  exists p st1 st2 q st3 st4, upload 100 upload_packet chunks nothing_stored = (Ret (Some p), st1) /\
    evictStreamBuffers (Streams (st_fs st1) (st_heap st1) (st_buffers st1) (st_sndheap st1)
      (st_senders st1) (st_next st1) 200) = (Ret tt, st2) /\ st_buffers st2 = ∅ /\
    getStreamBuffer 7 st2 = (Ret (Some q), st3) /\
    on_heap q (StreamBuffer_read 201 9 1) st3 = (Ret (Some [Byte.x02; Byte.x03]), st4).
Proof.
  destruct (resource_relayed 100 upload_packet chunks nothing_stored nothing_fresh) as (p & st1 & Hu & _ & Hall).
  - repeat constructor; discriminate.
  - simpl. lia.
  - simpl. lia.
  - set (st1' := Streams (st_fs st1) (st_heap st1) (st_buffers st1) (st_sndheap st1)
      (st_senders st1) (st_next st1) 200).
    assert (E1 : st1 = (upload 100 upload_packet chunks nothing_stored).2) by (by rewrite Hu).
    assert (Hev : evictStreamBuffers st1' = (Ret tt, (evictStreamBuffers st1').2)).
    { apply returns. unfold st1'. rewrite E1. vm_compute. reflexivity. }
    destruct (Hall (evictStreamBuffers st1').2) as (q & st3 & Hget & Hread).
    + eapply rtc_l; [apply (relay_time 7 200)|]. apply rtc_once. apply relay_evict. exact Hev.
    + destruct (Hread 201 9 1) as (st4 & Hr); [lia|lia|].
      exists p, st1, (evictStreamBuffers st1').2, q, st3, st4. split; [exact Hu|]. split; [exact Hev|].
      split; [unfold st1'; rewrite E1; vm_compute; reflexivity|]. split; [exact Hget|exact Hr].
Defined.

Definition client_ops : list sb_op :=
  [LogWrite 100 [Byte.x01; Byte.x02] 0; LogRead 101 1 1; LogWrite 102 [Byte.x03] 0; LogRead 103 9 0].

Definition created_mem : StreamBuffer (@BUFFER (@platform_zbuffer ref_platform)) :=
  SB (Some (MemBUFFER (replicate (Z.to_nat (2 * MAX_PACKET_BODY)) Byte.x00 : zbuffer))) 7 Stream_Resource 2 0 0.

Lemma storages_equivalent_witness :
  exists st, sb_run client_ops (created_mem, empty_fs) =
    (Ret [OutWrite (Some 2); OutRead (Some [Byte.x02]); OutWrite (Some 1);
          OutRead (Some [Byte.x01; Byte.x02; Byte.x03])], st).
Proof.
  destruct (storages_equivalent "tmp/7" upload_packet client_ops empty_fs empty_fs created_mem empty_fs)
    as (sb' & fs2 & st & st' & _ & _ & Hrun).
  - discriminate.
  - reflexivity.
  - reflexivity.
  - reflexivity.
  - simpl. lia.
  - repeat constructor; simpl; try lia; discriminate.
  - simpl. lia.
  - vm_compute. discriminate.
  - exists st'. exact Hrun.
Defined.

(** A file of 4 GiB and 5 bytes. *)
Definition big_file : list Byte.byte := replicate (Z.to_nat (2 ^ 32 + 5)) Byte.x00.

Lemma big_file_length : Z.of_nat (length big_file) = 2 ^ 32 + 5.
Proof. unfold big_file. rewrite length_replicate. apply Z2Nat.id. lia. Qed.

#[local] Opaque big_file.

Definition big_fs : filesystem := Filesystem {[ "tmp/9"%string := big_file ]} (fun _ => true) 0.

Lemma bytesReadable_wraps_witness :
  exists sb, StreamBuffer_open "tmp/9" 9 big_fs = (Ret (Some sb), big_fs) /\ bytesReadable sb = 5 /\
    (StreamBuffer_read 100 1 5 (sb, big_fs)).1 = Ret (Some []).
Proof.
  destruct (bytesReadable_wraps "tmp/9" 9 big_fs big_file) as (sb & Hrun & _ & Hr & Hread).
  - unfold big_fs. simpl. apply lookup_singleton_eq.
  - rewrite big_file_length. lia.
  - exists sb. rewrite big_file_length in Hr, Hread. split; [exact Hrun|]. split; [exact Hr|].
    apply Hread. apply Z.leb_le. vm_compute. reflexivity.
Defined.

(** ** Messages *)

(** Alice writes to Bob and Carol, and to herself. *)
Definition key_for (a : Z) (k : string) : ubj :=
  UObject [("dst"%string, UInt32 a); ("key"%string, UString k)].

Definition push_request : uobj :=
  [("requestType"%string, UInt32 Req_Push); ("requestId"%string, UInt32 9);
   ("resources"%string, UArray []); ("salt"%string, UString "salt"); ("meta"%string, UString "hello");
   ("keys"%string, UArray [key_for 2 "kb"; key_for 1 "ka"; key_for 3 "kc"])].

Lemma push_request_storable : storable_message 1 push_request.
Proof.
  split.
  - constructor. unfold is_i32. vm_compute. split; [discriminate|reflexivity].
  - constructor. unfold is_i32. vm_compute. split; [discriminate|reflexivity].
  - repeat constructor; vm_compute; try discriminate; reflexivity.
  - repeat constructor.
Qed.

Definition pushed : world := (processPushRequest 1 push_request (the_world [] "")).2.

Lemma push_reaches_recipients_witness : w_tasks pushed = [2; 3].
Proof.
  refine (proj1 (push_reaches_recipients 1 (client 1) push_request (the_world [] "") pushed _ _ push_request_storable)).
  - reflexivity.
  - apply returns. vm_compute. reflexivity.
Defined.

Lemma insert_all_up ds m : rs_up m = true -> (insert_all ds m).1 = true.
Proof.
  revert m. induction ds as [|d ds IH]; intros m Hm; [done|]. cbn. rewrite Hm.
  match goal with |- context [insert_all ds ?m1] => specialize (IH m1 Hm) end.
  by destruct (insert_all ds _) as [[] ?].
Qed.

Lemma pushed_wf : registry_wf pushed.
Proof.
  destruct (the_world_wf [] "") as [H1 H2 H3].
  assert (Er : w_registry pushed = w_registry (the_world [] "")) by (vm_compute; reflexivity).
  split; rewrite Er; [done| |done]. intros a p Hp.
  assert (Es : w_sessions pushed = <[1%nat := session_of pushed 1]> (w_sessions (the_world [] "")))
    by (vm_compute; reflexivity).
  rewrite Es. destruct (H2 a p Hp) as (s & Hs & Ha). destruct (decide (p = 1%nat)) as [->|].
  - exists (session_of pushed 1). rewrite lookup_insert_eq. split; [done|].
    transitivity (s_accountId s); [|exact Ha]. injection Hs as <-. vm_compute. reflexivity.
  - exists s. by rewrite lookup_insert_ne.
Qed.

Definition waiting_for_bob : doc := default [] (head (stored_for 2 (db_mongo (w_db pushed)))).

Lemma only_one_waits type id d : waits 2 type id d (db_mongo (w_db pushed)) -> d = waiting_for_bob.
Proof.
  intros (Hd & Hm & _).
  assert (E : filter (fun d => matches [("dst"%string, bson_u32 2)] d = true)
                (docs "zway.requests" (db_mongo (w_db pushed))) = [waiting_for_bob]) by (vm_compute; reflexivity).
  apply list_elem_of_singleton. rewrite <- E. by apply list_elem_of_filter.
Qed.

(** The server processes Bob's requests. *)
Definition bob_served : world := (processUserRequests 2 pushed).2.

Lemma message_delivered_witness :
  exists sq, w_sessions bob_served !! 2%nat = Some sq /\ requestPending (s_engine sq) Req_Push 9 = true /\
    exists msg, ubj_get msg "key" ≡ UString "kb" /\
      CallPostRequest (OutRequest PushRequest 9 msg) ∈ s_engine sq.
Proof.
  destruct (message_delivered 1 (client 1) push_request (the_world [] "") pushed) as (ds & _ & Hall).
  - reflexivity.
  - apply returns. vm_compute. reflexivity.
  - exact push_request_storable.
  - destruct (Hall (insert_all_up ds (db_mongo (w_db (the_world [] ""))) eq_refl) (key_for 2 "kb") pushed) as (w3 & Hrun & Hserved).
    + vm_compute. left.
    + split; [exact pushed_wf|vm_compute; discriminate].
    + vm_compute. discriminate.
    + auto.
    + vm_compute. reflexivity.
    + destruct (Hserved 2%nat) as (sq & sq' & Hsq & Hsq' & Hp & Hnew); [vm_compute; left|].
      unfold bob_served. change 2 with (dst_of (key_for 2 "kb")). rewrite Hrun. exists sq'. split; [exact Hsq'|]. split; [exact Hp|].
      destruct Hnew as (msg & Hm & Hin).
      * injection Hsq as <-. vm_compute. reflexivity.
      * intros d1 d2 H1 H2. transitivity waiting_for_bob; [|symmetry]; by eapply only_one_waits.
      * exists msg. split; [apply Hm|exact Hin].
Defined.

Definition posted_message : out_request := OutRequest PushRequest 7 [].

Definition acknowledged : world :=
  (receive_response 2 posted_message ok_response (the_world [push_message 7 3 2] "")).2.

Lemma acknowledged_request_deleted_witness : requests_of acknowledged = [].
Proof.
  destruct (acknowledged_request_deleted 2 (client 2) posted_message ok_response
    (the_world [push_message 7 3 2] "") acknowledged) as [_ Hyes].
  - reflexivity.
  - apply returns. vm_compute. reflexivity.
  - destruct (Hyes ltac:(split; [discriminate|reflexivity])
      (db_mongo (w_db acknowledged))) as [_ Hone].
    + vm_compute. reflexivity.
    + destruct (Hone (push_message 7 3 2)) as [Hp _]; [vm_compute; reflexivity|].
      symmetry in Hp. change [push_message 7 3 2] with (push_message 7 3 2 :: []) in Hp.
      apply Permutation_cons_inv in Hp. apply Permutation_nil_r in Hp. exact Hp.
Defined.

(** ** Types *)

Lemma reachable_typed_witness : typed_world logged_in.
Proof.
  apply (reachable_typed (H:=ref_platform) (the_store : @mongo (@platform_mongo ref_platform)) empty_fs 100 (bytes_of "wxyz") (fun _ => true) booted.2 login_events logged_in).
  - exact booted_ok.
  - exact login_trace.
  - repeat constructor.
Defined.

(** ** Mailboxes *)

Definition one_letter : world := the_world [push_message 7 3 2] "".

Definition acknowledgement : event := EvResponse 2 posted_message ok_response.

(** The acknowledgement takes one document, and puts none. *)
Lemma server_refines_mailbox_witness :
  mail (takes acknowledgement one_letter) (puts acknowledgement one_letter) [push_message 7 3 2] [].
Proof.
  assert (E1 : stored_requests one_letter = [push_message 7 3 2]) by (vm_compute; reflexivity).
  assert (E2 : stored_requests (run acknowledgement one_letter).2 = []) by (vm_compute; reflexivity).
  rewrite <- E1, <- E2. apply (server_refines_mailbox acknowledgement one_letter).
Defined.


(** Bob has logged in and writes to Alice and Carol, who are off line. *)
Definition bob_writes : uobj :=
  [("requestType"%string, UInt32 Req_Push); ("requestId"%string, UInt32 9);
   ("resources"%string, UArray []); ("salt"%string, UString "salt"); ("meta"%string, UString "hello");
   ("keys"%string, UArray [key_for 1 "ka"; key_for 3 "kc"])].

Definition written : world := (run (EvRequest 0 bob_writes) logged_in).2.

Lemma written_trace : trace booted.2 (login_events ++ [EvRequest 0 bob_writes]) written.
Proof.
  eapply trace_snoc; [exact login_trace|]. apply step_run.
  - cbn [enabled]. apply (bool_decide_unpack _). vm_compute. exact I.
  - vm_compute. reflexivity.
Qed.

Definition first_letter : doc := default [] (head (stored_requests written)).

Lemma stored_request_origin_witness :
  field "src" first_letter = Some (BInt 2) /\
  (first_letter ∈ docs "zway.requests" (the_store : @mongo (@platform_mongo ref_platform)) \/
   (exists es1 p head es2 w1 a, login_events ++ [EvRequest 0 bob_writes] = es1 ++ EvRequest p head :: es2 /\
      trace booted.2 es1 w1 /\ request_puts head a first_letter /\
      exists es3 login es4 w3, es1 = es3 ++ EvRequest p login :: es4 /\ trace booted.2 es3 w3 /\
        verified login a w3) \/
   (exists es1 p id b es2 w1 s, login_events ++ [EvRequest 0 bob_writes] = es1 ++ EvReceived p id b :: es2 /\
      trace booted.2 es1 w1 /\ w_sessions w1 !! p = Some s /\
      stored_doc (dispatch_doc id (s_accountId s)) first_letter)).
Proof.
  split; [vm_compute; reflexivity|].
  apply (stored_request_origin (H:=ref_platform) (the_store : @mongo (@platform_mongo ref_platform))
    empty_fs 100 (bytes_of "wxyz") (fun _ => true) booted.2 (login_events ++ [EvRequest 0 bob_writes]) written).
  - exact booted_ok.
  - exact written_trace.
  - repeat constructor.
  - assert (E : head (stored_requests written) = Some first_letter) by (vm_compute; reflexivity).
    apply head_Some_elem_of. exact E.
Defined.

(** ** The posted tasks, and the faults *)

Lemma posted_tasks_served_witness :
  w_tasks written = [1; 3] /\
  exists w', trace booted.2 ((login_events ++ [EvRequest 0 bob_writes]) ++ [EvTask; EvTask]) w' /\ w_tasks w' = [].
Proof.
  assert (E : w_tasks written = [1; 3]) by (vm_compute; reflexivity). split; [exact E|].
  destruct (posted_tasks_served (H:=ref_platform) (the_store : @mongo (@platform_mongo ref_platform))
    empty_fs 100 (bytes_of "wxyz") (fun _ => true) booted.2 (login_events ++ [EvRequest 0 bob_writes]) written)
    as (w' & Ht & Hts & _).
  - exact booted_ok.
  - exact written_trace.
  - exists w'. rewrite E in Ht. split; [exact Ht|exact Hts].
Defined.

(** A logout cannot end the process. *)
Lemma process_faults_witness : exists w', step logged_in (EvRequest 0 logout_request) w'.
Proof.
  destruct (process_faults (H:=ref_platform) (the_store : @mongo (@platform_mongo ref_platform))
    empty_fs 100 (bytes_of "wxyz") (fun _ => true) booted.2 login_events logged_in (EvRequest 0 logout_request))
    as [Hstep|(f & _ & Hf)].
  - exact booted_ok.
  - exact login_trace.
  - cbn [enabled]. apply (bool_decide_unpack _). vm_compute. exact I.
  - cbn [present]. apply (bool_decide_unpack _). vm_compute. exact I.
  - exact Hstep.
  - exfalso. destruct f; cbn [fault_of] in Hf.
    + destruct Hf as [Hf _]. vm_compute in Hf. discriminate.
    + exact Hf.
    + apply (bool_decide_pack _) in Hf. vm_compute in Hf. exact Hf.
    + destruct Hf as [Hf _]. vm_compute in Hf. discriminate.
Defined.

(** ** The sockets, and the way of a message *)

(** A session that waits for its handshake. *)
Definition connecting : session := (start_op OpHandshake new_session).2.

Lemma connecting_fresh : fresh connecting.
Proof. split; [reflexivity|]. split; reflexivity. Qed.

Lemma operations_exclusive_witness :
  exists ins outs ts s, workers_run (fun _ => True) connecting ins outs (ts, s) /\
    writes s = [upload_packet; upload_packet] /\ (length (pending s) + count reading ts <= 1)%nat.
Proof.
  destruct (operations_exclusive connecting connecting_fresh) as (Hreads & _ & Hrace).
  destruct (Hrace upload_packet upload_packet) as (ins & outs & ts & s & Hrun & Hw).
  exists ins, outs, ts, s. split; [exact Hrun|]. split; [exact Hw|]. exact (Hreads ins outs ts s Hrun).
Defined.

(** A packet is posted, written, and the write completes. *)
Lemma a_run : exists s, workers_run (fun _ => True) connecting [upload_packet] [upload_packet] ([Done; Done], s) /\
  writes s = [].
Proof.
  assert (Hcall : forall ins outs c ts s, called c = true ->
    workers_run (fun _ => True) connecting ins outs (ts, s) ->
    workers_run (fun _ => True) connecting (ins ++ []) (outs ++ []) (c :: ts, s)).
  { intros * Hc Hr. eapply run_step; [exact Hr|by apply W_call|exact I]. }
  assert (Hwork : forall ins outs c c' l2 s s', work c s = Some (c', s') ->
    workers_run (fun _ => True) connecting ins outs (c :: l2, s) ->
    workers_run (fun _ => True) connecting (ins ++ entered c s) (outs ++ given c) (c' :: l2, s')).
  { intros * Hw Hr. eapply run_step; [exact Hr|exact (W_work [] c l2 s c' s' Hw)|exact I]. }
  pose proof (run_start (fun _ => True) connecting) as Hr.
  apply (Hcall _ _ (Posting upload_packet)) in Hr; [|reflexivity].
  do 6 (eapply Hwork in Hr; [|vm_compute; reflexivity]).
  match type of Hr with workers_run _ _ _ _ (_, ?s) =>
    pose proof (W_complete [Done] [OpHandshake] (OpWrite upload_packet) [] (Sent no_error) s eq_refl
      (C_write no_error upload_packet)) as Hstep end.
  pose proof (run_step _ _ _ _ _ _ _ _ Hr Hstep I) as Hr'.
  do 5 (eapply Hwork in Hr'; [|vm_compute; reflexivity]).
  eexists. split; [exact Hr'|]. vm_compute. reflexivity.
Qed.

Lemma packets_conserved_witness :
  exists s, workers_run (fun _ => True) connecting [upload_packet] [upload_packet] ([Done; Done], s) /\
    s_sending s = false.
Proof.
  destruct a_run as (s & Hrun & Hw). exists s. split; [exact Hrun|].
  destruct (packets_conserved connecting _ _ _ s connecting_fresh Hrun) as (_ & _ & Hrest).
  destruct Hrest as [_ Hs]; [exact Hw|repeat constructor|]. exact Hs.
Defined.

Lemma client_heard_witness : exists op, pending (session_of logged_in 0) = [op].
Proof.
  apply (client_heard (H:=ref_platform) (the_store : @mongo (@platform_mongo ref_platform))
    empty_fs 100 (bytes_of "wxyz") (fun _ => true) booted.2 login_events logged_in 0 (session_of logged_in 0)).
  - exact booted_ok.
  - exact login_trace.
  - repeat constructor.
  - split; [by eexists|]. intros n Hn. cbn. by eexists.
  - repeat constructor; try reflexivity. by eexists.
  - vm_compute. reflexivity.
  - apply (bool_decide_unpack _). vm_compute. exact I.
Defined.

(** Later on Carol connects and logs in. *)
Definition carol_connects : list event :=
  [EvAccept no_error 1; EvHandshake 1 no_error (Some "elsewhere"%string)].

Definition carol_login : uobj :=
  [("requestType"%string, UInt32 Req_Login); ("requestId"%string, UInt32 1);
   ("account"%string, UInt32 3); ("password"%string, UBuffer (bytes_of "pw"))].

Definition carol_connected : world := run_events carol_connects written.
Definition carol_arrived : world := (run (EvRequest 1 carol_login) carol_connected).2.

Lemma carol_trace : trace written carol_connects carol_connected.
Proof.
  change carol_connects with (([] ++ [EvAccept no_error 1]) ++ [EvHandshake 1 no_error (Some "elsewhere"%string)]).
  eapply trace_snoc; [eapply trace_snoc; [apply trace_nil|]|]; apply step_run.
  - cbn [enabled]. apply (bool_decide_unpack _). vm_compute. exact I.
  - vm_compute. reflexivity.
  - exists (session_of (run (EvAccept no_error 1) written).2 1). split; [vm_compute; reflexivity|].
    vm_compute. left.
  - vm_compute. reflexivity.
Qed.

Lemma carol_step : step carol_connected (EvRequest 1 carol_login) carol_arrived.
Proof.
  apply step_run; [|vm_compute; reflexivity]. cbn [enabled]. apply (bool_decide_unpack _). vm_compute. exact I.
Qed.

Lemma carol_was_out s : w_sessions carol_connected !! 1%nat = Some s -> s_status s <> STATUS_LOGGEDIN.
Proof.
  intros Hs. assert (E : w_sessions carol_connected !! 1%nat = Some (session_of carol_connected 1))
    by (vm_compute; reflexivity).
  rewrite E in Hs. apply (inj Some) in Hs. rewrite <- Hs. vm_compute. discriminate.
Qed.

Lemma carol_takes_nothing : Forall (fun e => forall w d, ~ takes e w d) carol_connects.
Proof. by repeat constructor; intros ? ? ?. Qed.

Definition carols_letter : doc := default [] (head (stored_for 3 (db_mongo (w_db carol_connected)))).

Lemma login_catches_up_witness :
  requestPending (s_engine (session_of carol_arrived 1)) (doc_type carols_letter) (doc_id carols_letter) = true.
Proof.
  destruct (login_catches_up (H:=ref_platform) (the_store : @mongo (@platform_mongo ref_platform))
    empty_fs 100 (bytes_of "wxyz") (fun _ => true) booted.2
    ((login_events ++ [EvRequest 0 bob_writes]) ++ carol_connects) carol_connected
    (EvRequest 1 carol_login) carol_arrived 1 (session_of carol_arrived 1)) as (_ & _ & Hall & _).
  - exact booted_ok.
  - eapply trace_app; [exact written_trace|exact carol_trace].
  - exact carol_step.
  - vm_compute. reflexivity.
  - vm_compute. reflexivity.
  - exact carol_was_out.
  - apply Hall.
    + vm_compute. reflexivity.
    + assert (E : carols_letter ∈ stored_for 3 (db_mongo (w_db carol_connected))).
      { apply head_Some_elem_of. vm_compute. reflexivity. }
      exact (proj1 (stored_for_sound _ _ _ E)).
    + vm_compute. reflexivity.
    + apply list_elem_of_In. vm_compute. tauto.
Defined.

Lemma bob_writes_storable : storable_message (s_accountId (session_of logged_in 0)) bob_writes.
Proof.
  assert (E : s_accountId (session_of logged_in 0) = 2) by (vm_compute; reflexivity). rewrite E. split.
  - constructor. unfold is_i32. vm_compute. split; [discriminate|reflexivity].
  - constructor. unfold is_i32. vm_compute. split; [discriminate|reflexivity].
  - repeat constructor; vm_compute; try discriminate; reflexivity.
  - repeat constructor.
Qed.

Lemma bob_wrote : processIncomingRequest 0 bob_writes logged_in = (Ret true, written).
Proof.
  assert (E : (processIncomingRequest 0 bob_writes logged_in).1 = Ret true) by (vm_compute; reflexivity).
  unfold written. cbn [run]. unfold bindM.
  destruct (processIncomingRequest 0 bob_writes logged_in) as [[b|f] w]; [|discriminate E].
  cbn [fst] in E. by injection E as ->.
Qed.

Lemma message_journey_witness :
  exists l, s_engine (session_of carol_arrived 1) = s_engine (session_of carol_connected 1) ++ l /\
    requestPending (s_engine (session_of carol_arrived 1)) Req_Push 9 = true.
Proof.
  destruct (message_journey (H:=ref_platform) (the_store : @mongo (@platform_mongo ref_platform))
    empty_fs 100 (bytes_of "wxyz") (fun _ => true) booted.2 login_events logged_in 0 (session_of logged_in 0)
    bob_writes written) as (ds & _ & Hds).
  - exact booted_ok.
  - exact login_trace.
  - cbn [enabled]. apply (bool_decide_unpack _). vm_compute. exact I.
  - vm_compute. reflexivity.
  - vm_compute. reflexivity.
  - exact bob_wrote.
  - exact bob_writes_storable.
  - assert (Hup : rs_up (db_mongo (w_db logged_in)) = true) by (vm_compute; reflexivity).
    destruct (Hds (insert_all_up ds _ Hup) (key_for 3 "kc")) as (d & _ & Hd).
    + apply list_elem_of_In. vm_compute. auto.
    + destruct (Hd carol_connects carol_connected carol_trace) as [(es3 & e & es4 & w3 & E & _ & Htk)|[_ Hlogin]].
      * exfalso. pose proof carol_takes_nothing as HF. rewrite E in HF.
        apply Forall_app in HF as [_ HF]. apply Forall_cons in HF as [HF _]. exact (HF w3 d Htk).
      * destruct (Hlogin (EvRequest 1 carol_login) carol_arrived 1%nat (session_of carol_arrived 1))
          as (Hp & s2 & l & Hs2 & El & _).
        -- exact carol_step.
        -- vm_compute. reflexivity.
        -- vm_compute. reflexivity.
        -- vm_compute. reflexivity.
        -- exact carol_was_out.
        -- vm_compute. reflexivity.
        -- exists l. split; [|exact Hp].
           assert (E : w_sessions carol_connected !! 1%nat = Some (session_of carol_connected 1))
             by (vm_compute; reflexivity).
           rewrite E in Hs2. apply (inj Some) in Hs2. rewrite Hs2. exact El.
Defined.

(** Bob uploads a resource. *)
Definition uploading : world := (run (EvReceiver 0 upload_packet) logged_in).2.

Lemma upload_trace : trace booted.2 (login_events ++ [EvReceiver 0 upload_packet]) uploading.
Proof.
  eapply trace_snoc; [exact login_trace|]. apply step_run; [exact I|]. vm_compute. reflexivity.
Qed.

(** A client that has not logged in sends the resource twice: the server goes down. *)
Example upload_twice_crashes :
  (run (EvReceiver 0 upload_packet)
     (run_events (take 2 login_events ++ [EvReceiver 0 upload_packet]) booted.2)).1 = Fault DoubleClose.
Proof. vm_compute. reflexivity. Qed.

(** A login whose password is a string: the server goes down. *)
Definition careless_login : uobj :=
  [("requestType"%string, UInt32 Req_Login); ("requestId"%string, UInt32 1);
   ("account"%string, UInt32 2); ("password"%string, UString "pw")].

Example careless_login_crashes :
  (run (EvRequest 0 careless_login) (run_events (take 2 login_events) booted.2)).1 = Fault NullDereference.
Proof. vm_compute. reflexivity. Qed.

(** ** The process *)

Lemma booted_running : running_server booted.2.
Proof.
  split; [exact (proj1 (boot_inv _ _ _ _ _ _ booted_ok))|]. vm_compute. discriminate.
Qed.

Definition all_ok : nat -> acceptor_calls := fun _ => Calls true true true true.

Lemma console_exact_witness :
  exists w', console all_ok [105; 112; 101; 105] 4 booted.2 = (Ret true, w') /\ w_registry w' = ∅.
Proof.
  destruct (console_exact all_ok 4 [105; 112; 101; 105] booted.2 booted_running) as (w' & Hrun & Hres).
  exists w'. split; [exact Hrun|].
  destruct (decide (101 ∈ take 4 [105; 112; 101; 105])) as [_|Hn].
  - exact (proj1 Hres).
  - exfalso. apply Hn. apply (bool_decide_unpack _). vm_compute. exact I.
Defined.

Definition some_options : options := Options false (Some "host"%string) 5556 (-1) false.

Lemma main_outcome_witness :
  exists pr', main (Answers (Some "/srv"%string) 0 0 0) (Some some_options) true (fun _ => true)
      (fun _ _ _ => true) (ret tt) all_ok [105; 101] 2
      (Process [] "/srv" (@initial_world ref_platform the_store empty_fs 100 (bytes_of "wxyz"))) = (Ret (Some 0), pr').
Proof.
  destruct (main_outcome (H:=ref_platform) (Answers (Some "/srv"%string) 0 0 0) "/srv" (Some some_options) true
    (fun _ => true) (fun _ _ _ => true) (ret tt) all_ok [105; 101] 2 the_store empty_fs 100 (bytes_of "wxyz"))
    as (r & pr' & Hrun & _ & Hall).
  - reflexivity.
  - intros w Hw. exists w. split; [reflexivity|exact Hw].
  - destruct (Hall some_options "host"%string) as (_ & _ & Hres); [repeat split|].
    destruct Hres as (_ & before & rest & _ & _ & Hr); [discriminate|].
    unfold server_result in Hr. rewrite decide_True in Hr.
    + rewrite bool_decide_true in Hr.
      * destruct Hr as [-> _]. exists pr'. exact Hrun.
      * apply (bool_decide_unpack _). vm_compute. exact I.
    + split; [reflexivity|]. split; [|reflexivity]. repeat constructor.
Defined.

(** ** Threads *)

Open Scope nat_scope.

(** The threads when session 1 is about to take on a configuration. *)
Definition some_threads : gmap nat (list (todo mutex member)) :=
  default ∅ (run_schedule (by_thread 1 up_to_setConfig) (started server_threads)).

Lemma some_threads_running : running server_threads some_threads.
Proof. apply (run_schedule_sound (by_thread 1 up_to_setConfig)). vm_compute. reflexivity. Qed.

Lemma server_threads_codes t c :
  server_threads !! t = Some c -> c = worker_locks \/ c = console_locks.
Proof.
  unfold server_threads. rewrite !lookup_insert_Some, lookup_singleton_Some.
  intros [[_ <-]|[_ [[_ <-]|[_ [_ <-]]]]]; auto.
Qed.

Lemma server_no_deadlock_witness :
  exists t', rtc (waits_for some_threads) 1 t' /\ can_go_on some_threads t'.
Proof.
  apply (server_no_deadlock server_threads some_threads 1 (default [] (some_threads !! 1))).
  - exact server_threads_codes.
  - exact some_threads_running.
  - vm_compute. reflexivity.
  - vm_compute. discriminate.
Defined.

Definition open_threads : gmap nat (code mutex member) := {[0 := commands_locks; 1 := worker_locks]}.

(** A worker is at the status of session 1, the main thread in [info]. *)
Definition busy_schedule : list (nat * nat) :=
  by_thread 1 [1; 1; 1; 0; 1; 0; 0; 0; 0; 1; 0; 1; 1; 1; 1; 0; 0; 0] ++ by_thread 0 [1; 0; 0; 0].

Definition busy_threads : gmap nat (list (todo mutex member)) :=
  default ∅ (run_schedule busy_schedule (started open_threads)).

Lemma busy_threads_running : running open_threads busy_threads.
Proof. apply (run_schedule_sound busy_schedule). vm_compute. reflexivity. Qed.

Lemma open_threads_codes t c :
  open_threads !! t = Some c -> c = worker_locks \/ c = commands_locks.
Proof.
  unfold open_threads. rewrite !lookup_insert_Some, lookup_singleton_Some.
  intros [[_ <-]|[_ [_ <-]]]; auto.
Qed.

Definition thread_at (t : nat) : list (todo mutex member) := default [] (busy_threads !! t).

Lemma guarded_members_no_race_witness :
  accesses (Value (m_status 1)) false (thread_at 1) /\ ~ accesses (Value (m_status 1)) true (thread_at 0).
Proof.
  assert (Ha : accesses (Value (m_status 1)) false (thread_at 1)).
  { exists (tail (thread_at 1)). vm_compute. reflexivity. }
  split; [exact Ha|].
  apply (guarded_members_no_race open_threads busy_threads 1 0 (thread_at 1) (thread_at 0) (m_status 1) false true).
  - exact open_threads_codes.
  - exact busy_threads_running.
  - discriminate.
  - vm_compute. reflexivity.
  - vm_compute. reflexivity.
  - exact Ha.
Defined.
